(* ===== verification/_CoqProject ===== *)
-Q . S2P
Prelude.v
Errors.v
Values.v
Hashing.v
Store.v
Context.v
LaunchControl.v
Inventory.v
Providers.v
Orders.v
Payments.v
Base32.v
Tickets.v
Capacity.v
PaymentIntents.v
Webhooks.v
Issuance.v
Admissions.v
AdmissionCycles.v
Repositories.v
Outbox.v
Sessions.v
Auth.v
Organizers.v
Events.v
TableHolds.v
Tables.v
Redaction.v
AdminSupport.v
Config.v
System.v
Provenance.v
Sweeping.v
Controllers.v
Scripts.v
Rehearsal.v
RehearsalSafety.v
Smoke.v
Qr.v
Redis.v
Observability.v
RequestContext.v
SharedAuth.v
Startup.v
Dto.v
Wiring.v
