(* ===== verification/Prelude.v ===== *)
(** * GoVibe ticketing back end: a verification library

    The program (src/src) is the NestJS back end of a ticketing service: events
    with a stock of tickets and with tables, checkout and payments through
    Paystack and MTN MoMo, tickets with a gate scan, accounts and sessions, and an
    outbox.  Its state is one PostgreSQL database; every request runs a service
    method that reads and writes it, mostly in transactions.  The library
    translates those methods into programs over a store, and proves what they
    keep and what they return.

    ** How the code is read

    A method is a [prog]: state passing with exceptions ([bind], [throw],
    [catch], [transaction]), over the state [world], the whole database (Store.v:
    one record per component, one finite map per table, the unique indexes as the
    clash test of [create]).  A program is a function, so it can be run: every
    component has an example module whose runs are evaluated.  [wp m Q X w] says
    how [m] ends from [w]; each operation has one such lemma, from which the
    theorems of its file follow.  Everything from outside is an argument: the
    clocks ([clock], or one instant per method), the draws of randomUUID and
    randomBytes, the request context, the configuration, the answers of [fetch],
    the dispatcher of the outbox, what other requests do to the database while a
    provider is awaited ([meanwhile]), and the rows other workers have locked.
    node:crypto is the class [Crypto] (Hashing.v), bcrypt and JWT the class
    [AuthLibraries] (Auth.v); theorems that need it assume that the hash does not
    collide ([CollisionFree]) or that a password compares with its own hash
    ([BcryptSound]), and their witnesses use instances that satisfy it.

    ** The files, their code and what they show

    - Prelude: programs and their preconditions, tables, JavaScript numbers and
      JSON.  Errors (shared/errors): the exceptions and their HTTP status.  Values
      (property access, String, Number and BigInt on parsed JSON), Hashing (the
      request fingerprints, injective), Store (prisma/schema.prisma), Context
      (shared/context, the audit log and outbox writers).
    - LaunchControl (shared/launch-control): the pilot gates open exactly on the
      configured events, organizers, providers and currencies.
    - Inventory (modules/inventory): reserve, release, sweep and reconcile, each
      with its exact outcome.  Capacity puts the calls that reach the stock
      together as a state machine: the capacity is never oversold, provided only
      unexpired reservations are consumed; the proviso is needed.
    - Orders (modules/orders, modules/idempotency): checkout and its idempotency
      key: at most one checkout of a key goes through, and a repeated one is refused by
      the database.  Payments (modules/payments/application/use-cases): verification of an
      order's payment; a payment is credited in the ledger exactly once.
    - Providers (modules/payments/infrastructure/providers, verification,
      webhooks, shared/config): both adapters; a verification is genuine.
      PaymentIntents (payments.service.ts): initiation settles the intent and
      replays safely.  Webhooks (payment-verification.service.ts): a webhook only
      settles what the provider confirms; two races are exhibited.
    - Base32 (shared/tickets): the encoder on overflowing 32-bit integers is RFC
      4648 and injective.  Tickets (issue-tickets.use-case.ts) and Issuance
      (ticket-issuance.service.ts): the two ways tickets are issued, each once.
      Admissions (admissions.service.ts): the exact outcome of a scan, and that a
      ticket is admitted at most once however scans and issuance interleave.
      AdmissionCycles (the versioned state of entries and exits): no lost update.
    - Repositories (the domain/repositories interfaces): six of the interfaces the use
      cases are written against, as classes with laws that the Prisma implementations
      satisfy; of all who try a guarded write, the first wins, and a delivery is recorded
      once.
    - Outbox (shared/outbox): a batch attempts each claimed event once, in order;
      retries and delays are bounded; a bounded number of rounds drains the table
      whatever the dispatcher does.
    - Sessions (auth/session.service.ts): no refresh token is redeemed twice under
      any interleaving of the read and the guarded write of rotations; a reused
      token revokes its session.  Auth (auth, users): sign-up and login, the outcome of
      a refresh, logout, the guards and the permission table; from the call that revokes
      a session on, none of its tokens opens anything.
    - Organizers, Events (modules/organizers, modules/events): the lifecycle of
      both as step relations; only owners move them, approval is never given by
      these services, a cancelled event never changes.
    - TableHolds, Tables (modules/tables): holds on tables, their replay and
      expiry, the owner's calls and the public availability.  The seating refines
      an abstract machine of leases: a table goes to one holder for one to thirty
      minutes and is exclusive until then; a repeated request never books twice;
      the availability is true at the instant it is asked.
    - Redaction, AdminSupport (modules/admin-support): what support staff may see
      and ask.  The redaction is exact on every JSON value; each read needs its
      permission, is audited once with its subject, changes nothing else, and
      shows the secrets of no row.
    - Config (shared/config): the environment schema and AppConfigService.  An
      accepted environment has every required setting in its range, and the
      getters of the service never throw on it.
    - System: the program whole.  A request is a call of any method the
      controllers, schedulers and webhooks reach; each writes only the parts of
      the database in its [footprint].  [system_step] runs requests, the two
      halves of scans, and the calls of the session store in any order while
      time passes; the machines of Capacity, Admissions, Tables and Sessions are
      its projections, so their guarantees hold together.  A request of the
      authentication is a sequence of such steps ([auth_requests_run]), and so is
      a scan nobody interrupts ([draws_scan]).  Awaiting a provider is one step
      there (the machines of Capacity and Webhooks let others in), and the
      database has one clock.
    - Provenance: every ticket is paid for.  Along any run of the system whose requests are
      admissible and whose providers' answers on the network tell the truth ([truthful]), each ticket goes back to a charge a provider made, of its buyer and
      its event and at its amount, and no intent has two tickets.
    - Sweeping: no reservation is held for ever.  Along any infinite execution of the
      system in which the sweeper keeps being run and finds a row unlocked again and
      again, the row ends once it is overdue: the sweeps succeed, and the number of
      held rows due no later only falls.
    - Controllers (the controllers, app.module.ts, auth/guards): every route with
      its guards, permissions and handler, and a request from middleware to
      handler ([http]).  Any run of requests is a run of the system; each is turned
      away or served as the user of its token; no role writes more than its parts,
      and no route reserves stock or creates a ticket; the token of a login opens
      what its role may open while it and its session live, and nothing after ([JwtLaws]).
    - Qr (shared/security): the verifier of signed tokens accepts exactly the genuine
      ones, and what is issued verifies; base64url is written out.  Redis
      (shared/redis): a nonce is consumed once until it expires, whatever calls come
      between and whichever answers are lost; the server is the class [Redis] with its
      documented laws.
    - Observability (shared/telemetry, logging, interceptors, modules/health): what a
      request leaves in the log, the headers and the metrics, with no identifier in a
      route label.  RequestContext (shared/context as AsyncLocalStorage shares it, the
      logger): requests that interleave never see each other's context, so that the other
      files may pass it as a value.  SharedAuth (shared/auth): the guards no route uses
      would refuse every token of the program.  Dto (the request bodies): what the
      validation pipe accepts has the declared types, but for coordinates given as texts
      and nulls in optional fields; who signs up with a password the pipe of the login takes can log in.
      class-validator is the class [Validator].
    - Scripts, Rehearsal, RehearsalSafety, Smoke (src/scripts): the schema rehearsal
      runs its steps in order and records each, and, unless a maintenance database is
      configured, never destroys the database it rehearses; the smoke test, as shipped,
      fails before it sends anything.
    - Wiring (the *.module.ts files): the framework can build the application, nothing
      missing and nothing circular.  Startup (main.ts, the hooks, shared/prisma): nothing is
      asked of the outside before the environment is accepted, and the port is opened last.

    ** Bounds and fuel

    Loops are structural, except the base 32 drain, whose fuel 2 suffices because
    at most twelve bits are pending ([Base32.drain_encodes]), and the allocator's
    five attempts, which are the code's own.  A batch of the outbox is 100 rows, a
    lease 30 seconds, a delivery ten attempts; draining is shown for tables of at
    most a batch in ten rounds.  Numbers of the program are [Z]; where the code
    overflows (Base32) or rounds (Values.nearest_double) the machine arithmetic is
    written out.  Strings are byte strings (Latin 1).

    ** What is left out, and why

    - Isolation levels, lock waits and timeouts: a transaction is atomic, and
      interleaving happens between transactions, or inside a method where it
      awaits outside one and the file says so (scans, sessions, webhooks, contexts).
      The other requests of [System.exec] run whole, in particular the updates of events
      and organizers, which check and then write without a transaction; Events has the two
      halves apart and what goes wrong between them ([Events.cancelled_event_revived]).  Transactions that would conflict in PostgreSQL run here one
      after the other.  A statement that fails inside a transaction does abort it
      (error 25P02): where the code catches a unique violation inside a transaction and
      goes on, its next statement is [Store.statement_refused] (Orders, Issuance and
      TableHolds).
    - Foreign keys: they can only make a statement fail.  A row that lacks a
      required relation is taken as absent.
    - createdAt and updatedAt, and the orders and tie-breaks that use them; the log
      lines and metrics inside the services (Observability has those of a request).
      Dates of requests are the instants new Date gives.
    - Path matching.  The validation of request bodies is modelled on its own (Dto):
      requests carry the verdict of their pipes.
    - modules/realtime, notifications, fraud, offline-sync, identity and the
      empty use cases: stubs in the source.  src/src/tables, events and organizers
      re-export the modules of the same name.
    - run-bootstrap-smoke.js, seeds and the SQL sketch; the rendering of metrics. *)

From Stdlib Require Export ZArith Lia Ascii String.
From stdpp Require Export base gmap strings list fin_maps pretty sorting.

(** The files use Stdlib's [length] on lists and stdpp's notations. *)
Create HintDb store.

Declare Scope prog_scope.
Delimit Scope prog_scope with prog.

(* ------------------------------------------------------------------ *)
(** ** Programs: state passing with exceptions                          *)

(** The result of an awaited call: it resolves or it throws. *)
Inductive outcome (E A : Type) : Type :=
| Ok (a : A)
| Err (e : E).
Arguments Ok {E A} a.
Arguments Err {E A} e.

(** An [async] method over a store [S]: what it resolves to, and the store it
    leaves.  A throw keeps the writes made before it; only [transaction] undoes
    them. *)
Definition prog (S E A : Type) : Type := S -> outcome E A * S.

Section Programs.
Context {S E : Type}.

Definition ret {A} (a : A) : prog S E A := fun s => (Ok a, s).

Definition throw {A} (e : E) : prog S E A := fun s => (Err e, s).

Definition bind {A B} (m : prog S E A) (k : A -> prog S E B) : prog S E B :=
  fun s =>
    match m s with
    | (Ok a, s') => k a s'
    | (Err e, s') => (Err e, s')
    end.

(** A query: it returns a value computed from the store. *)
Definition reads {A} (f : S -> A) : prog S E A := fun s => (Ok (f s), s).

(** A statement that cannot fail. *)
Definition modify (f : S -> S) : prog S E unit := fun s => (Ok tt, f s).

(** [try { m } catch (e) { h(e) }] *)
Definition catch {A} (m : prog S E A) (h : E -> prog S E A) : prog S E A :=
  fun s =>
    match m s with
    | (Err e, s') => h e s'
    | (Ok a, s') => (Ok a, s')
    end.

(** An interactive transaction: a throw rolls back to the store it started in. *)
Definition transaction {A} (m : prog S E A) : prog S E A :=
  fun s =>
    match m s with
    | (Ok a, s') => (Ok a, s')
    | (Err e, _) => (Err e, s)
    end.

(** [if (b) throw e;] *)
Definition throw_if (b : bool) (e : E) : prog S E unit :=
  if b then throw e else ret tt.

(** [if (!o) throw e;] on a nullable value. *)
Definition or_throw {A} (o : option A) (e : E) : prog S E A :=
  match o with Some a => ret a | None => throw e end.

(** [if (b) { await m; }] *)
Definition when (b : bool) (m : prog S E unit) : prog S E unit :=
  if b then m else ret tt.

(** [for (const x of l) await f(x);] *)
Fixpoint for_each {A} (l : list A) (f : A -> prog S E unit) : prog S E unit :=
  match l with
  | [] => ret tt
  | x :: l' => bind (f x) (fun _ => for_each l' f)
  end.

End Programs.

Notation "'let*' x ':=' m 'in' k" := (bind m (fun x => k))
  (at level 10, x pattern, m at level 100, k at level 200) : prog_scope.
Notation "'do*' m 'in' k" := (bind m (fun _ => k))
  (at level 10, m at level 100, k at level 200) : prog_scope.
Open Scope prog_scope.

(* ------------------------------------------------------------------ *)
(** ** Weakest preconditions                                            *)

(** [wp m Q X s]: run from [s], [m] either resolves with a value and store in
    [Q] or throws with an error and store in [X].  Programs are total and
    deterministic, so this is exact. *)
Definition wp {S E A} (m : prog S E A) (Q : A -> S -> Prop) (X : E -> S -> Prop) (s : S) : Prop :=
  match m s with
  | (Ok a, s') => Q a s'
  | (Err e, s') => X e s'
  end.

(** No claim about the throwing runs. *)
Definition any {E S : Type} : E -> S -> Prop := fun _ _ => True.

Section Wp.
Context {S E : Type}.
Implicit Types (s : S).

Lemma wp_bind {A B} (m : prog S E A) (k : A -> prog S E B) Q X s :
  wp m (fun a s' => wp (k a) Q X s') X s -> wp (bind m k) Q X s.
Proof. unfold wp, bind. by destruct (m s) as [[a | e] s']. Qed.

Lemma wp_ret {A} (a : A) Q X s : Q a s -> wp (S:=S) (E:=E) (ret a) Q X s.
Proof. done. Qed.

Lemma wp_throw {A} e (Q : A -> S -> Prop) X s : X e s -> wp (S:=S) (E:=E) (throw e) Q X s.
Proof. done. Qed.

Lemma wp_reads {A} (f : S -> A) Q X s : Q (f s) s -> wp (S:=S) (E:=E) (reads f) Q X s.
Proof. done. Qed.

Lemma wp_modify f (Q : unit -> S -> Prop) X s : Q tt (f s) -> wp (S:=S) (E:=E) (modify f) Q X s.
Proof. done. Qed.

Lemma wp_catch {A} (m : prog S E A) h Q X s :
  wp m Q (fun e s' => wp (h e) Q X s') s -> wp (catch m h) Q X s.
Proof. unfold wp, catch. by destruct (m s) as [[a | e] s']. Qed.

Lemma wp_transaction {A} (m : prog S E A) Q X s :
  wp m Q (fun e _ => X e s) s -> wp (transaction m) Q X s.
Proof. unfold wp, transaction. by destruct (m s) as [[a | e] s']. Qed.

Lemma wp_throw_if b e (Q : unit -> S -> Prop) X s :
  (b = true -> X e s) -> (b = false -> Q tt s) -> wp (S:=S) (E:=E) (throw_if b e) Q X s.
Proof. destruct b; cbn; auto. Qed.

Lemma wp_or_throw {A} (o : option A) e Q X s :
  (o = None -> X e s) -> (forall a, o = Some a -> Q a s) -> wp (S:=S) (E:=E) (or_throw o e) Q X s.
Proof. destruct o; cbn; auto. Qed.

Lemma wp_when b (m : prog S E unit) Q X s :
  (b = true -> wp m Q X s) -> (b = false -> Q tt s) -> wp (when b m) Q X s.
Proof. destruct b; cbn; auto. Qed.

Lemma wp_mono {A} (m : prog S E A) (Q Q' : A -> S -> Prop) (X X' : E -> S -> Prop) s :
  wp m Q X s -> (forall a s', Q a s' -> Q' a s') -> (forall e s', X e s' -> X' e s') ->
  wp m Q' X' s.
Proof. unfold wp. destruct (m s) as [[a | e] s']; auto. Qed.

(** A loop keeps what each of its iterations keeps. *)
Lemma wp_for_each {A} (l : list A) (f : A -> prog S E unit) (I : S -> Prop) X s :
  (forall x s', x ∈ l -> I s' -> wp (f x) (fun _ s'' => I s'') X s') ->
  I s -> wp (for_each l f) (fun _ s' => I s') X s.
Proof.
  revert s. induction l as [| x l IH]; intros s Hf Hs; cbn; [exact Hs |].
  apply wp_bind. eapply wp_mono; [apply Hf; [left | exact Hs] | |]; cbn; [| auto].
  intros _ s' Hs'. apply IH; [| exact Hs'].
  intros y s'' Hy. apply Hf. by right.
Qed.

(** From a run to the postcondition, and back. *)
Lemma wp_ok {A} (m : prog S E A) Q X s a s' :
  wp m Q X s -> m s = (Ok a, s') -> Q a s'.
Proof. intros H Hm. unfold wp in H. by rewrite Hm in H. Qed.

Lemma wp_err {A} (m : prog S E A) Q X s e s' :
  wp m Q X s -> m s = (Err e, s') -> X e s'.
Proof. intros H Hm. unfold wp in H. by rewrite Hm in H. Qed.

(** [m] keeps [I] however it ends. *)
Definition keeps {A} (I : S -> Prop) (m : prog S E A) : Prop :=
  forall s, I s -> wp m (fun _ s' => I s') (fun _ s' => I s') s.

Lemma keeps_final {A} I (m : prog S E A) s : keeps I m -> I s -> I (m s).2.
Proof. intros H Hs. specialize (H s Hs). unfold wp in H. by destruct (m s) as [[a | e] s']. Qed.

Lemma keeps_transaction {A} I (m : prog S E A) :
  (forall s, I s -> wp m (fun _ s' => I s') any s) -> keeps I (transaction m).
Proof.
  intros H s Hs. apply wp_transaction. eapply wp_mono; [by apply H | |]; auto.
Qed.

(** A transaction that throws has written nothing. *)
Lemma transaction_err_inv {A} (m : prog S E A) s e s' :
  transaction m s = (Err e, s') -> s' = s.
Proof. unfold transaction. destruct (m s) as [[a | e'] s'']; congruence. Qed.

End Wp.

(** One step of symbolic execution of the program in the goal. *)
Ltac wp_step :=
  lazymatch goal with
  | |- wp (bind _ _) _ _ _ => apply wp_bind
  | |- wp (ret _) _ _ _ => apply wp_ret
  | |- wp (throw _) _ _ _ => apply wp_throw
  | |- wp (reads _) _ _ _ => apply wp_reads
  | |- wp (modify _) _ _ _ => apply wp_modify
  | |- wp (catch _ _) _ _ _ => apply wp_catch
  | |- wp (transaction _) _ _ _ => apply wp_transaction
  | |- wp (throw_if _ _) _ _ _ => apply wp_throw_if; [intros ? | intros ?]
  | |- wp (or_throw _ _) _ _ _ => apply wp_or_throw; [intros ? | intros ? ?]
  | |- wp (when _ _) _ _ _ => apply wp_when; [intros ? | intros ?]
  | |- wp (match ?x with _ => _ end) _ _ _ => destruct x eqn:?
  | |- any _ _ => exact Logic.I
  end; cbv beta.

(** Evaluate a closed run: both sides are reduced by the kernel's machine. *)
Ltac vm_run := lazymatch goal with |- _ = ?b => vm_cast_no_check (eq_refl b) end.

(** The outcome of a closed run; its store is the one the run leaves. *)
Lemma run_result {S E A} (m : prog S E A) (s : S) (o : outcome E A) :
  (m s).1 = o -> m s = (o, (m s).2).
Proof. intros <-. apply surjective_pairing. Qed.

(** A run that throws, of a program that undoes its writes when it does. *)
Lemma run_fails {S E A} (m : prog S E A) (s : S) (e : E) (Q : A -> S -> Prop) :
  wp m Q (fun _ s' => s' = s) s -> (m s).1 = Err e -> m s = (Err e, s).
Proof. unfold wp. destruct (m s) as [[a | e'] s']; cbn; congruence. Qed.

Ltac run_ends := refine (run_result _ _ _ _); vm_run.

(** Run until nothing is left to step. *)
Ltac wp_run := repeat wp_step.

(* ------------------------------------------------------------------ *)
(** ** Tables: rows keyed by their primary key                          *)

(** [findFirst]/[findUnique] on a column that is not the key. *)
Definition find_row {R} (P : R -> bool) (t : gmap string R) : option R :=
  head (filter P (snd <$> map_to_list t)).

(** [findMany]: the rows that match, in the table's order. *)
Definition find_rows {R} (P : R -> bool) (t : gmap string R) : list R :=
  filter P (snd <$> map_to_list t).

(** [SELECT ... ORDER BY ... FOR UPDATE SKIP LOCKED LIMIT]: the first rows in the
    order that match and that no other transaction has locked. *)
Definition lock_rows {R} (le : R -> R -> Prop) `{!RelDecision le} (key : R -> string)
    (limit : nat) (skipped : string -> bool) (P : R -> bool) (t : gmap string R) : list R :=
  take limit (filter (fun r => skipped (key r) = false) (merge_sort le (find_rows P t))).

(** [updateMany({ where: { id: { in: ids } } })] *)
Definition update_ids {R} (ids : list string) (f : R -> R) (t : gmap string R) : gmap string R :=
  foldr (alter f) t ids.

(** [SUM(f)] over the rows of a table. *)
Definition map_sum {R} (f : R -> Z) (t : gmap string R) : Z :=
  map_fold (fun _ r acc => f r + acc)%Z 0%Z t.

(** Every row is stored under the key it carries. *)
Definition keyed {R} (key : R -> string) (t : gmap string R) : Prop :=
  forall k r, t !! k = Some r -> key r = k.

Section Tables.
Context {R : Type}.
Implicit Types (t : gmap string R) (r : R).

Lemma find_rows_spec (P : R -> bool) t r :
  r ∈ find_rows P t <-> exists k, t !! k = Some r /\ P r = true.
Proof.
  unfold find_rows. rewrite list_elem_of_filter, list_elem_of_fmap. split.
  - intros [HP ([k r'] & -> & H)]. exists k.
    apply elem_of_map_to_list in H. split; [exact H | by apply Is_true_true].
  - intros (k & Hk & HP). split; [by apply Is_true_true |].
    exists (k, r). split; [done |]. by apply elem_of_map_to_list.
Qed.

Lemma find_row_Some (P : R -> bool) t r :
  find_row P t = Some r -> exists k, t !! k = Some r /\ P r = true.
Proof.
  intros H. apply find_rows_spec. unfold find_rows, find_row in *.
  destruct (filter _ _) as [| x l]; cbn in H; [done |]. simplify_eq. left.
Qed.

Lemma find_row_None (P : R -> bool) t :
  find_row P t = None <-> forall k r, t !! k = Some r -> P r = false.
Proof.
  split.
  - intros H k r Hk. destruct (P r) eqn:HP; [| done].
    assert (Hr : r ∈ find_rows P t) by (apply find_rows_spec; eauto).
    unfold find_rows, find_row in *. destruct (filter _ _); [| done].
    by apply elem_of_nil in Hr.
  - intros H. destruct (find_row P t) as [r |] eqn:E; [| done].
    apply find_row_Some in E as (k & Hk & HP). rewrite (H _ _ Hk) in HP. done.
Qed.

(** The rows of a keyed table have distinct keys. *)
Lemma find_rows_NoDup (key : R -> string) (P : R -> bool) t :
  keyed key t -> NoDup (key <$> find_rows P t).
Proof.
  intros Hk. unfold find_rows.
  eapply sublist_NoDup; [| apply fmap_sublist, sublist_filter].
  rewrite <- list_fmap_compose.
  rewrite (list_fmap_ext (key ∘ snd) fst (map_to_list t)); [apply NoDup_fst_map_to_list |].
  intros j [k r] Hj. cbn. apply Hk. apply elem_of_map_to_list.
  by eapply list_elem_of_lookup_2.
Qed.

Section LockRows.
Context (le : R -> R -> Prop) `{!RelDecision le} (key : R -> string).

Lemma StronglySorted_sub (l1 l2 : list R) :
  l1 `sublist_of` l2 -> StronglySorted le l2 -> StronglySorted le l1.
Proof.
  induction 1 as [| x l1 l2 Hs IH | x l1 l2 Hs IH]; intros Hl; [constructor | |];
    apply StronglySorted_inv in Hl as [Hl Hx]; [| auto].
  constructor; [auto |]. rewrite Forall_forall in *. intros y Hy. apply Hx.
  by eapply sublist_subseteq.
Qed.

Lemma lock_rows_spec limit skipped P t r :
  r ∈ lock_rows le key limit skipped P t ->
  skipped (key r) = false /\ exists k, t !! k = Some r /\ P r = true.
Proof.
  intros H. eapply (sublist_subseteq _ _ (sublist_take _ _)) in H.
  apply list_elem_of_filter in H as [Hs Hin]. rewrite merge_sort_Permutation in Hin.
  apply find_rows_spec in Hin. done.
Qed.

Lemma lock_rows_NoDup limit skipped P t :
  keyed key t -> NoDup (key <$> lock_rows le key limit skipped P t).
Proof.
  intros Hk. unfold lock_rows. eapply sublist_NoDup; [| apply fmap_sublist, sublist_take].
  eapply sublist_NoDup; [| apply fmap_sublist, sublist_filter].
  rewrite merge_sort_Permutation. by apply find_rows_NoDup.
Qed.

Lemma lock_rows_length limit skipped P t :
  (length (lock_rows le key limit skipped P t) <= limit)%nat.
Proof. apply firstn_le_length. Qed.

(** A table no longer than the limit is locked whole. *)
Lemma lock_rows_all limit skipped P t k r :
  (size t <= limit)%nat -> t !! k = Some r -> P r = true -> skipped (key r) = false ->
  r ∈ lock_rows le key limit skipped P t.
Proof.
  intros Hs Hk HP Hf. unfold lock_rows. rewrite take_ge.
  - apply list_elem_of_filter. split; [done |]. rewrite merge_sort_Permutation.
    apply find_rows_spec. eauto.
  - etransitivity; [apply length_filter |]. rewrite merge_sort_Permutation.
    etransitivity; [apply length_filter |]. by rewrite length_fmap, length_map_to_list.
Qed.

(** A matching row left out for want of room comes after all that were taken. *)
Lemma lock_rows_first `{!Transitive le, !Total le} limit skipped P t k r :
  t !! k = Some r -> P r = true -> skipped (key r) = false ->
  r ∉ lock_rows le key limit skipped P t ->
  Forall (fun x => le x r) (lock_rows le key limit skipped P t).
Proof.
  intros Hk HP Hf Hni. unfold lock_rows in *.
  set (l := filter _ (merge_sort le (find_rows P t))) in *.
  assert (Hl : StronglySorted le l).
  { apply (StronglySorted_sub _ (merge_sort le (find_rows P t))); [apply sublist_filter |].
    by apply StronglySorted_merge_sort. }
  assert (Hin : r ∈ drop limit l).
  { assert (Hr : r ∈ l).
    { apply list_elem_of_filter. split; [done |]. rewrite merge_sort_Permutation.
      apply find_rows_spec. eauto. }
    rewrite <- (take_drop limit l) in Hr. apply elem_of_app in Hr as [Hr | Hr]; done. }
  rewrite <- (take_drop limit l) in Hl. apply Forall_forall. intros x Hx.
  by eapply StronglySorted_app_1_elem_of.
Qed.

End LockRows.

Lemma update_ids_lookup (ids : list string) (f : R -> R) t k :
  NoDup ids -> update_ids ids f t !! k = if decide (k ∈ ids) then f <$> t !! k else t !! k.
Proof.
  unfold update_ids. induction 1 as [| x ids Hx Hnd IH]; cbn [foldr].
  { by rewrite decide_False by apply not_elem_of_nil. }
  destruct (decide (k = x)) as [-> | Hne].
  - rewrite lookup_alter_eq, IH, decide_False by done.
    by rewrite decide_True by apply list_elem_of_here.
  - rewrite lookup_alter_ne, IH by done. apply decide_ext. rewrite elem_of_cons. naive_solver.
Qed.

(** With at most one matching row, [find_row] is that row. *)
Lemma find_row_unique (P : R -> bool) t k r :
  t !! k = Some r -> P r = true ->
  (forall k' r', t !! k' = Some r' -> P r' = true -> k' = k) ->
  find_row P t = Some r.
Proof.
  intros Hk HP Hu. destruct (find_row P t) as [r' |] eqn:E.
  - apply find_row_Some in E as (k' & Hk' & HP'). rewrite (Hu _ _ Hk' HP') in Hk'. congruence.
  - rewrite (proj1 (find_row_None _ _) E _ _ Hk) in HP. done.
Qed.

Lemma map_sum_empty (f : R -> Z) : map_sum f ∅ = 0%Z.
Proof. apply map_fold_empty. Qed.

Lemma map_sum_insert_new (f : R -> Z) t k r :
  t !! k = None -> map_sum f (<[k:=r]> t) = (f r + map_sum f t)%Z.
Proof.
  intros H. unfold map_sum.
  rewrite (map_fold_insert_L (fun _ r acc => f r + acc)%Z); [done | lia | done].
Qed.

Lemma map_sum_insert_old (f : R -> Z) t k r r0 :
  t !! k = Some r0 -> map_sum f (<[k:=r]> t) = (f r - f r0 + map_sum f t)%Z.
Proof.
  intros H. rewrite <- (insert_delete_eq t k r).
  rewrite map_sum_insert_new by apply lookup_delete_eq.
  assert (Ht : map_sum f t = (f r0 + map_sum f (delete k t))%Z); [| lia].
  rewrite <- (map_sum_insert_new f (delete k t) k r0) by apply lookup_delete_eq.
  rewrite insert_delete_eq. by rewrite insert_id.
Qed.

Lemma map_sum_ind (P : Z -> Prop) (f : R -> Z) t :
  P 0%Z -> (forall k r z, t !! k = Some r -> P z -> P (f r + z)%Z) -> P (map_sum f t).
Proof.
  intros H0 Hs.
  cut (forall t', (forall k r, t' !! k = Some r -> t !! k = Some r) -> P (map_sum f t')).
  { intros H. by apply H. }
  induction t' as [| k r t' Hk IH] using map_ind; intros Hsub.
  - by rewrite map_sum_empty.
  - rewrite map_sum_insert_new by done. eapply Hs.
    + apply Hsub. apply lookup_insert_eq.
    + apply IH. intros k' r' Hk'. apply Hsub. rewrite lookup_insert_ne; [done | congruence].
Qed.

Lemma map_sum_le (f g : R -> Z) t :
  (forall k r, t !! k = Some r -> (f r <= g r)%Z) -> (map_sum f t <= map_sum g t)%Z.
Proof.
  induction t as [| k r t Hk IH] using map_ind; intros Hle.
  - by rewrite !map_sum_empty.
  - rewrite !map_sum_insert_new by done.
    assert (f r <= g r)%Z by (eapply Hle; apply lookup_insert_eq).
    assert (map_sum f t <= map_sum g t)%Z; [| lia].
    apply IH. intros k' r' Hk'. apply (Hle k'). rewrite lookup_insert_ne; [done | congruence].
Qed.

Lemma map_sum_ext (f g : R -> Z) t :
  (forall k r, t !! k = Some r -> f r = g r) -> map_sum f t = map_sum g t.
Proof.
  intros H. apply Z.le_antisymm; apply map_sum_le; intros k r Hk; rewrite (H k r Hk); lia.
Qed.

Lemma map_sum_nonneg (f : R -> Z) t :
  (forall k r, t !! k = Some r -> (0 <= f r)%Z) -> (0 <= map_sum f t)%Z.
Proof.
  intros H. apply map_sum_ind; [done |]. intros k r z Hk Hz. specialize (H k r Hk). lia.
Qed.

Lemma keyed_insert (key : R -> string) t k r :
  keyed key t -> key r = k -> keyed key (<[k:=r]> t).
Proof.
  intros Ht Hr k' r' H. apply lookup_insert_Some in H as [[<- <-] | [_ H]]; [done | by apply Ht].
Qed.

(** A concrete table is checked row by row. *)
Lemma table_check (P : R -> bool) t :
  forallb (fun kr => P kr.2) (map_to_list t) = true ->
  forall k r, t !! k = Some r -> P r = true.
Proof.
  intros H k r Hr. apply elem_of_map_to_list in Hr.
  rewrite forallb_forall in H. apply list_elem_of_In in Hr. exact (H _ Hr).
Qed.

Lemma keyed_check (key : R -> string) t :
  forallb (fun kr => bool_decide (key kr.2 = kr.1)) (map_to_list t) = true -> keyed key t.
Proof.
  intros H k r Hr. apply elem_of_map_to_list in Hr.
  rewrite forallb_forall in H. apply list_elem_of_In in Hr. specialize (H _ Hr).
  by apply bool_decide_eq_true in H.
Qed.

End Tables.

#[export] Hint Resolve keyed_insert : store.

(* ------------------------------------------------------------------ *)
(** ** JavaScript values                                                *)

(** A number as the guards of the code see it: an integer, or anything
    [Number.isInteger] refuses (a fraction, NaN, an infinity). *)
Inductive jsnum : Type :=
| JInt (z : Z)
| JFrac.

(** A parsed JSON value.  A number is an integer or, by the text it prints as,
    any other number; a date is what [toISOString] prints; an object keeps its
    fields in order. *)
Inductive json : Type :=
| JNull
| JBool (b : bool)
| JNum (z : Z)
| JFloat (repr : string)
| JStr (s : string)
| JDate (ms : Z)
| JArr (l : list json)
| JObj (fields : list (string * json)).

(** Induction over a value and everything inside it. *)
Lemma json_nested_ind (P : json -> Prop)
    (Hnull : P JNull) (Hbool : forall b, P (JBool b)) (Hnum : forall z, P (JNum z))
    (Hfloat : forall r, P (JFloat r)) (Hstr : forall s, P (JStr s)) (Hdate : forall ms, P (JDate ms))
    (Harr : forall l, Forall P l -> P (JArr l))
    (Hobj : forall fields, Forall (fun kv => P kv.2) fields -> P (JObj fields)) :
  forall v, P v.
Proof.
  exact (fix go v : P v :=
    match v with
    | JNull => Hnull | JBool b => Hbool b | JNum z => Hnum z | JFloat r => Hfloat r
    | JStr s => Hstr s | JDate ms => Hdate ms
    | JArr l => Harr l ((fix all (l : list json) : Forall P l :=
        match l with [] => Forall_nil_2 P | x :: l' => Forall_cons_2 P x l' (go x) (all l') end) l)
    | JObj fields => Hobj fields
        ((fix all (l : list (string * json)) : Forall (fun kv => P kv.2) l :=
            match l with
            | [] => Forall_nil_2 _
            | kv :: l' => Forall_cons_2 _ kv l' (go kv.2) (all l')
            end) fields)
    end).
Qed.

(** [o[k]] on an object: the last binding wins, as in [JSON.parse]. *)
Definition field (k : string) (fields : list (string * json)) : option json :=
  snd <$> last (filter (fun kv => kv.1 = k) fields).

(** [JSON] of a nullable string. *)
Definition jstr_or_null (o : option string) : json :=
  match o with Some s => JStr s | None => JNull end.

(** A nullable string that a condition takes as true: neither absent nor empty. *)
Definition truthy (o : option string) : option string :=
  match o with
  | Some "" => None
  | _ => o
  end.

Lemma truthy_Some o s : truthy o = Some s <-> o = Some s /\ s <> "".
Proof.
  destruct o as [[| c s1] |]; cbn; naive_solver.
Qed.

(** The two clocks a handler reads: [Date.now()] in the process and [NOW()] in
    the database, in milliseconds. *)
Record clock : Type := { app_now : Z; db_now : Z }.
