(* ===== verification/Errors.v ===== *)
(** Errors.v: the exceptions of the program and their HTTP mapping
    (src/src/shared/errors, src/src/modules/payments/domain/providers). *)

From S2P Require Import Prelude.

(** [HoldRejectionContext] of table-reservations.service.ts *)
Record HoldRejectionContext : Type := {
  hrc_actorUserId : string;
  hrc_eventId : string;
  hrc_eventTableId : string;
  hrc_organizerId : option string;
  hrc_venueTableId : option string;
  hrc_reason : string
}.

(** The error classes of domain-errors.ts, provider-errors.ts and
    session.service.ts and table-reservations.service.ts, the NestJS
    HTTP exceptions the code throws itself, the known request errors of Prisma
    (by their code) and any other [Error] (by name and message). *)
Inductive error : Type :=
| DomainConflictError (msg : string)
| NotFoundError (msg : string)
| InvalidStateTransitionError (msg : string)
| IdempotencyConflictError (msg : string)
| PaymentAlreadyProcessedError (msg : string)
| InventoryUnavailableError (msg : string)
| ReplayDetectedError (msg : string)
| LaunchControlDisabledError (msg : string)
| LaunchControlViolationError (msg : string)
| ProviderAuthError (provider msg : string)
| ProviderTimeoutError (provider msg : string)
| ProviderNetworkError (provider msg : string)
| ProviderResponseError (provider code : string) (statusCode : Z) (msg : string)
| WebhookSignatureError (provider msg : string)
| RefreshReplayError (sessionId reason : string)
| HoldRejectionError (statusCode : Z) (msg : string) (context : HoldRejectionContext)
| HttpException (status : Z) (msg : string)
| PrismaKnownError (code msg : string)
| OtherError (name msg : string).

(** [error.message] *)
Definition message (e : error) : string :=
  match e with
  | DomainConflictError m | NotFoundError m | InvalidStateTransitionError m
  | IdempotencyConflictError m | PaymentAlreadyProcessedError m
  | InventoryUnavailableError m | ReplayDetectedError m
  | LaunchControlDisabledError m | LaunchControlViolationError m
  | ProviderAuthError _ m | ProviderTimeoutError _ m | ProviderNetworkError _ m
  | ProviderResponseError _ _ _ m | WebhookSignatureError _ m
  | HttpException _ m | PrismaKnownError _ m | OtherError _ m
  | HoldRejectionError _ m _ => m
  | RefreshReplayError _ _ => "refresh replay detected"
  end.

(** [error.name]: the provider errors set it; the domain errors inherit
    ['Error'].  The NestJS exceptions carry their class name, which depends on
    the status. *)
Definition error_name (e : error) : string :=
  match e with
  | DomainConflictError _ | NotFoundError _ | InvalidStateTransitionError _
  | IdempotencyConflictError _ | PaymentAlreadyProcessedError _
  | InventoryUnavailableError _ | ReplayDetectedError _
  | LaunchControlDisabledError _ | LaunchControlViolationError _
  | HoldRejectionError _ _ _ => "Error"
  | ProviderAuthError _ _ => "ProviderAuthError"
  | ProviderTimeoutError _ _ => "ProviderTimeoutError"
  | ProviderNetworkError _ _ => "ProviderNetworkError"
  | ProviderResponseError _ _ _ _ => "ProviderResponseError"
  | WebhookSignatureError _ _ => "WebhookSignatureError"
  | RefreshReplayError _ _ => "RefreshReplayError"
  | HttpException 400 _ => "BadRequestException"
  | HttpException 401 _ => "UnauthorizedException"
  | HttpException 403 _ => "ForbiddenException"
  | HttpException 404 _ => "NotFoundException"
  | HttpException 409 _ => "ConflictException"
  | HttpException 500 _ => "InternalServerErrorException"
  | HttpException 503 _ => "ServiceUnavailableException"
  | HttpException _ _ => "HttpException"
  | PrismaKnownError _ _ => "PrismaClientKnownRequestError"
  | OtherError n _ => n
  end.

Definition BadRequestException := HttpException 400.
Definition UnauthorizedException := HttpException 401.
Definition ForbiddenException := HttpException 403.
Definition NotFoundException := HttpException 404.
Definition ConflictException := HttpException 409.
Definition InternalServerErrorException := HttpException 500.

(** [error instanceof PrismaClientKnownRequestError && error.code === 'P2002'] *)
Definition is_unique_violation (e : error) : bool :=
  match e with
  | PrismaKnownError code _ => bool_decide (code = "P2002")
  | _ => false
  end.

(** What Prisma throws for a unique constraint and for a missing row. *)
Definition unique_violation : error := PrismaKnownError "P2002" "Unique constraint failed".
Definition record_not_found : error := PrismaKnownError "P2025" "Record to update not found.".

(** What Prisma throws for a statement sent in a PostgreSQL transaction in which
    an earlier statement has failed (SQLSTATE 25P02). *)
Definition transaction_aborted : error :=
  OtherError "PrismaClientUnknownRequestError"
    "current transaction is aborted, commands ignored until end of transaction block".

Definition nonce_unavailable : string := "Nonce replay protection unavailable:".

(** [mapErrorToHttp]: the status of the exception it builds. *)
Definition mapErrorToHttp (e : error) : Z :=
  match e with
  | NotFoundError _ => 404
  | InventoryUnavailableError _ => 409
  | DomainConflictError _ => 409
  | IdempotencyConflictError _ => 409
  | PaymentAlreadyProcessedError _ => 409
  | ReplayDetectedError _ => 409
  | LaunchControlViolationError _ => 403
  | LaunchControlDisabledError _ => 503
  | InvalidStateTransitionError _ => 400
  | WebhookSignatureError _ _ => 401
  | ProviderTimeoutError _ _ => 504
  | ProviderAuthError _ _ | ProviderNetworkError _ _ => 503
  | ProviderResponseError _ _ statusCode _ =>
      if (500 <=? statusCode)%Z || (statusCode =? 0)%Z then 503
      else if (400 <=? statusCode)%Z && (statusCode <? 500)%Z then 400
      else 503
  | _ =>
      if String.prefix nonce_unavailable (message e) then 503 else 500
  end%Z.

(** [GlobalExceptionFilter.catch]: an [HttpException] keeps its own status. *)
Definition exception_status (e : error) : Z :=
  match e with
  | HttpException status _ => status
  | _ => mapErrorToHttp e
  end.
