(* ===== verification/Values.v ===== *)
(** Values.v: what the code uses of JavaScript's dynamic values: property
    access, String, BigInt and Number on parsed JSON. *)

From S2P Require Import Prelude Errors.

Local Open Scope Z_scope.

(** A value that may be undefined. *)
Definition jsval : Type := option json.

Definition TypeError (msg : string) : error := OtherError "TypeError" msg.
Definition SyntaxError (msg : string) : error := OtherError "SyntaxError" msg.

(** [v.k]: reading a property of undefined or null throws. *)
Definition prop (v : jsval) (k : string) : outcome error jsval :=
  match v with
  | None | Some JNull => Err (TypeError ("Cannot read properties (reading '" +:+ k +:+ "')"))
  | Some (JObj fs) => Ok (field k fs)
  | Some _ => Ok None
  end.

(** [v?.k] *)
Definition prop_opt (v : jsval) (k : string) : jsval :=
  match v with
  | Some (JObj fs) => field k fs
  | _ => None
  end.

(** [a ?? b] on values. *)
Definition coalesce (a : jsval) (b : json) : json :=
  match a with
  | None | Some JNull => b
  | Some v => v
  end.

(** [typeof v === 'string' ? v : null] *)
Definition string_of (v : jsval) : option string :=
  match v with Some (JStr s) => Some s | _ => None end.

(** [String(v)] *)
Fixpoint js_String (v : json) : string :=
  match v with
  | JNull => "null"
  | JBool b => if b then "true" else "false"
  | JNum z => pretty z
  | JFloat r => r
  | JStr s => s
  | JDate _ => "Invalid Date"
  | JArr l =>
      let element j := match j with JNull => EmptyString | _ => js_String j end in
      (fix join (l : list json) : string :=
         match l with
         | [] => EmptyString
         | [j] => element j
         | j :: l' => element j +:+ "," +:+ join l'
         end) l
  | JObj _ => "[object Object]"
  end.

(** [!!v] *)
Definition js_truthy (v : jsval) : bool :=
  match v with
  | None | Some JNull | Some (JBool false) | Some (JNum 0) | Some (JStr "") => false
  | Some (JFloat r) => negb (bool_decide (r = "NaN"))
  | Some _ => true
  end.

(* ------------------------------------------------------------------ *)
(** ** Numeric text                                                     *)

Definition is_space (c : ascii) : bool :=
  let n := nat_of_ascii c in
  ((9 <=? n) && (n <=? 13) || (n =? 32) || (n =? 160))%nat.

Fixpoint trim_start (s : string) : string :=
  match s with
  | String c s' => if is_space c then trim_start s' else s
  | EmptyString => EmptyString
  end.

Fixpoint trim_end (s : string) : string :=
  match s with
  | EmptyString => EmptyString
  | String c s' =>
      match trim_end s' with
      | EmptyString => if is_space c then EmptyString else String c EmptyString
      | s'' => String c s''
      end
  end.

(** [String.prototype.trim], on Latin-1 text. *)
Definition trim (s : string) : string := trim_end (trim_start s).

(** [String.prototype.toLowerCase], on Latin-1 text. *)
Definition lower_char (c : ascii) : ascii :=
  let n := nat_of_ascii c in
  if ((65 <=? n) && (n <=? 90) || (192 <=? n) && (n <=? 222) && negb (n =? 215))%nat
  then ascii_of_nat (n + 32) else c.

Fixpoint toLowerCase (s : string) : string :=
  match s with
  | EmptyString => EmptyString
  | String c s' => String (lower_char c) (toLowerCase s')
  end.

(** A string of one character class per position: the patterns that fix a length. *)
Fixpoint matches_shape (shape : list (ascii -> bool)) (s : string) : bool :=
  match shape, s with
  | [], EmptyString => true
  | P :: shape', String c s' => P c && matches_shape shape' s'
  | _, _ => false
  end.

Definition char_range (a b : nat) (c : ascii) : bool :=
  ((a <=? nat_of_ascii c) && (nat_of_ascii c <=? b))%nat.

Definition is_hex (c : ascii) : bool := char_range 48 57 c || char_range 97 102 c || char_range 65 70 c.

(** /^[0-9a-f]{8}-[0-9a-f]{4}-[1-5][0-9a-f]{3}-[89ab][0-9a-f]{3}-[0-9a-f]{12}$/i *)
Definition is_uuid (s : string) : bool :=
  let hex n := repeat is_hex n in
  let dash := [fun c => bool_decide (c = "-"%char)] in
  let variant c := char_range 56 57 c || char_range 97 98 c || char_range 65 66 c in
  matches_shape (hex 8%nat ++ dash ++ hex 4%nat ++ dash ++ [char_range 49 53] ++ hex 3%nat ++ dash ++
                 [variant] ++ hex 3%nat ++ dash ++ hex 12%nat) s.

Example uuid_yes : is_uuid "3F2504e0-4f89-41d3-9a0c-0305e82c3301" = true.
Proof. reflexivity. Qed.
Example uuid_version : is_uuid "3f2504e0-4f89-71d3-9a0c-0305e82c3301" = false.
Proof. reflexivity. Qed.

(** The value of a digit in a base up to 16. *)
Definition digit_value (base : Z) (c : ascii) : option Z :=
  let n := Z.of_nat (nat_of_ascii c) in
  let d := if (48 <=? n) && (n <=? 57) then n - 48
           else if (97 <=? n) && (n <=? 102) then n - 87
           else if (65 <=? n) && (n <=? 70) then n - 55 else 99 in
  if d <? base then Some d else None.

(** The longest run of digits: its value, its length and what follows. *)
Fixpoint read_digits (base acc : Z) (len : nat) (s : string) : Z * nat * string :=
  match s with
  | EmptyString => (acc, len, s)
  | String c s' =>
      match digit_value base c with
      | Some d => read_digits base (base * acc + d) (S len) s'
      | None => (acc, len, s)
      end
  end.

(** A whole string of digits. *)
Definition digits_only (base : Z) (s : string) : option Z :=
  match read_digits base 0 0 s with
  | (z, S _, EmptyString) => Some z
  | _ => None
  end.

Definition read_sign (s : string) : Z * string :=
  match s with
  | String c s' =>
      if bool_decide (c = "-"%char) then (-1, s')
      else if bool_decide (c = "+"%char) then (1, s') else (1, s)
  | EmptyString => (1, s)
  end.

(** The radix prefixes 0x, 0o and 0b. *)
Definition radix_literal (s : string) : option Z :=
  match s with
  | String "0" (String c s') =>
      if bool_decide (c = "x"%char) || bool_decide (c = "X"%char) then digits_only 16 s'
      else if bool_decide (c = "o"%char) || bool_decide (c = "O"%char) then digits_only 8 s'
      else if bool_decide (c = "b"%char) || bool_decide (c = "B"%char) then digits_only 2 s'
      else None
  | _ => None
  end.

(** [BigInt(v)] *)
Definition BigInt (v : jsval) : outcome error Z :=
  match v with
  | Some (JNum z) => Ok z
  | Some (JBool b) => Ok (if b then 1 else 0)
  | Some (JStr s) =>
      let t := trim s in
      match t with
      | EmptyString => Ok 0
      | _ =>
          match radix_literal t with
          | Some z => Ok z
          | None =>
              let (sign, u) := read_sign t in
              match digits_only 10 u with
              | Some z => Ok (sign * z)
              | None => Err (SyntaxError ("Cannot convert " +:+ s +:+ " to a BigInt"))
              end
          end
      end
  | Some (JFloat _) => Err (OtherError "RangeError" "The number cannot be converted to a BigInt")
  | _ => Err (TypeError "Cannot convert to a BigInt")
  end.

(** A decimal literal [m * 10^e]: digits, an optional fraction and exponent. *)
Definition decimal_literal (s : string) : option (Z * Z) :=
  let '(ip, ni, r1) := read_digits 10 0 0 s in
  let '(m, nf, nd, r2) :=
    match r1 with
    | String "." r => let '(m, nf, r2) := read_digits 10 ip 0 r in (m, nf, (ni + nf)%nat, r2)
    | _ => (ip, 0%nat, ni, r1)
    end in
  if (nd =? 0)%nat then None
  else
    match r2 with
    | EmptyString => Some (m, - Z.of_nat nf)
    | String c r =>
        if bool_decide (c = "e"%char) || bool_decide (c = "E"%char) then
          let (sign, u) := read_sign r in
          match digits_only 10 u with
          | Some e => Some (m, sign * e - Z.of_nat nf)
          | None => None
          end
        else None
    end.

(** [p / q] rounded to the nearest integer, ties to even. *)
Definition round_half_even (p q : Z) : Z :=
  let d := p / q in
  let r := p mod q in
  if 2 * r <? q then d
  else if q <? 2 * r then d + 1
  else if Z.even d then d else d + 1.

(** A finite double: [db_mantissa * 2 ^ db_exponent].  The sign of zero is not kept. *)
Record double : Type := {
  db_mantissa : Z;
  db_exponent : Z
}.

(** The double nearest to [p / q], for positive [p] and [q]: [None] beyond the
    largest one. *)
Definition nearest_double (p q : Z) : option double :=
  let d := Z.log2 p - Z.log2 q in
  let l := if Z.shiftl q (Z.max 0 d) <=? Z.shiftl p (Z.max 0 (- d)) then d else d - 1 in
  let t := Z.max (-1074) (l - 52) in
  let m := round_half_even (Z.shiftl p (Z.max 0 (- t))) (Z.shiftl q (Z.max 0 t)) in
  if 1024 <=? Z.log2 m + t then None else Some {| db_mantissa := m; db_exponent := t |}.

Definition double_of (sign m e : Z) : option double :=
  if m =? 0 then Some {| db_mantissa := 0; db_exponent := 0 |}
  else (fun x => {| db_mantissa := sign * db_mantissa x; db_exponent := db_exponent x |}) <$>
         nearest_double (m * 10 ^ Z.max 0 e) (10 ^ Z.max 0 (- e)).

(** [Number(s)] when it is finite. *)
Definition finite_double (s : string) : option double :=
  let t := trim s in
  match t with
  | EmptyString => Some {| db_mantissa := 0; db_exponent := 0 |}
  | _ =>
      match radix_literal t with
      | Some z => double_of 1 z 0
      | None =>
          let (sign, u) := read_sign t in
          match decimal_literal u with
          | Some (m, e) => double_of sign m e
          | None => None
          end
      end
  end.

(** The integer a double is, when it is one. *)
Definition double_number (x : double) : jsnum :=
  let m := db_mantissa x in
  let t := db_exponent x in
  if 0 <=? t then JInt (Z.shiftl m t)
  else if m mod 2 ^ (- t) =? 0 then JInt (m / 2 ^ (- t))
  else JFrac.

Definition finite_Number (s : string) : option jsnum := double_number <$> finite_double s.

(** [x < z] for an integer [z]. *)
Definition double_ltb (x : double) (z : Z) : bool :=
  db_mantissa x * 2 ^ Z.max 0 (db_exponent x) <? z * 2 ^ Z.max 0 (- db_exponent x).

(** [x > z] *)
Definition double_gtb (x : double) (z : Z) : bool :=
  z * 2 ^ Z.max 0 (- db_exponent x) <? db_mantissa x * 2 ^ Z.max 0 (db_exponent x).

Example number_plain : finite_Number " 2500 " = Some (JInt 2500).
Proof. reflexivity. Qed.
Example number_fraction : finite_Number "25.50" = Some JFrac.
Proof. reflexivity. Qed.
Example number_exponent : finite_Number "25.5e1" = Some (JInt 255).
Proof. reflexivity. Qed.
Example number_rounds : finite_Number "0.99999999999999999999" = Some (JInt 1).
Proof. reflexivity. Qed.
Example number_negative : finite_Number "-2.50e2" = Some (JInt (-250)).
Proof. reflexivity. Qed.
Example number_nan : finite_Number "12a" = None.
Proof. reflexivity. Qed.
Example bigint_text : BigInt (Some (JStr "12.5")) = Err (SyntaxError "Cannot convert 12.5 to a BigInt").
Proof. reflexivity. Qed.
