(* ===== verification/Hashing.v ===== *)
(** Hashing.v: the request fingerprints of the idempotency layer.  The code
    hashes [JSON.stringify] of the request with SHA-256; the hash function is a
    parameter, [JSON.stringify] is defined here and shown to be injective on the
    objects the code fingerprints. *)

From S2P Require Import Prelude.

(** The functions of node:crypto and Buffer the code calls: [sha256] is
    [createHash('sha256').update(s).digest('hex')], [hmac512 key s] is
    [createHmac('sha512', key).update(s).digest('hex')], [hmac256] the same with
    sha256, and [base64] is [Buffer.from(s).toString('base64')]. *)
Class Crypto : Type := {
  sha256 : string -> string;
  hmac256 : string -> string -> string;
  hmac512 : string -> string -> string;
  base64 : string -> string
}.

(** No two inputs the program hashes collide. *)
Class CollisionFree `(C : Crypto) : Prop := sha256_inj : forall a b, sha256 a = sha256 b -> a = b.

(* ------------------------------------------------------------------ *)
(** ** JSON.stringify                                                   *)

Definition hex_digit (n : nat) : ascii :=
  ascii_of_nat (if (n <? 10)%nat then 48 + n else 87 + n).

Definition dquote : ascii := "034"%char.
Definition backslash : ascii := "092"%char.

(** The escape sequence of one character. *)
Definition escape (c : ascii) : string :=
  let n := nat_of_ascii c in
  if (n =? 34)%nat then String backslash (String dquote "")
  else if (n =? 92)%nat then String backslash (String backslash "")
  else if (n =? 8)%nat then String backslash "b"
  else if (n =? 9)%nat then String backslash "t"
  else if (n =? 10)%nat then String backslash "n"
  else if (n =? 12)%nat then String backslash "f"
  else if (n =? 13)%nat then String backslash "r"
  else if (n <? 32)%nat
  then String backslash ("u00" +:+ String (hex_digit (n / 16)) (String (hex_digit (n mod 16)) ""))
  else String c "".

Fixpoint escape_all (s : string) : string :=
  match s with
  | EmptyString => ""
  | String c s' => escape c +:+ escape_all s'
  end.

Definition json_quote (s : string) : string :=
  String dquote (escape_all s +:+ String dquote "").

(** A field whose value is a string or null. *)
Definition scalar (v : option string) : string :=
  match v with
  | Some s => json_quote s
  | None => "null"
  end.

Fixpoint stringify_fields (fields : list (string * option string)) : string :=
  match fields with
  | [] => ""
  | [(k, v)] => json_quote k +:+ ":" +:+ scalar v
  | (k, v) :: fields' => json_quote k +:+ ":" +:+ scalar v +:+ "," +:+ stringify_fields fields'
  end.

(** [JSON.stringify] of an object of strings and nulls. *)
Definition stringify (fields : list (string * option string)) : string :=
  "{" +:+ stringify_fields fields +:+ "}".

Example stringify_example :
  stringify [("eventId", Some "e1"); ("customerPhone", None)] =
  String "{" (String dquote ("eventId" +:+ String dquote (":" +:+ String dquote ("e1" +:+
    String dquote ("," +:+ String dquote ("customerPhone" +:+ String dquote ":null}")))))).
Proof. reflexivity. Qed.

(* ------------------------------------------------------------------ *)
(** ** Reading the escapes back                                         *)

Definition hex_value (c : ascii) : nat :=
  let n := nat_of_ascii c in if (n <? 58)%nat then n - 48 else n - 87.

Definition unescape (s : string) : option (ascii * string) :=
  match s with
  | EmptyString => None
  | String c r =>
      if (nat_of_ascii c =? 34)%nat then None
      else if (nat_of_ascii c =? 92)%nat then
        match r with
        | String d r' =>
            match nat_of_ascii d with
            | 98 => Some (ascii_of_nat 8, r')
            | 116 => Some (ascii_of_nat 9, r')
            | 110 => Some (ascii_of_nat 10, r')
            | 102 => Some (ascii_of_nat 12, r')
            | 114 => Some (ascii_of_nat 13, r')
            | 117 =>
                match r' with
                | String _ (String _ (String h (String l r''))) =>
                    Some (ascii_of_nat (16 * hex_value h + hex_value l), r'')
                | _ => None
                end
            | _ => Some (d, r')
            end
        | EmptyString => None
        end
      else Some (c, r)
  end.

Lemma unescape_escape c r : unescape (escape c +:+ r) = Some (c, r).
Proof. destruct c as [[] [] [] [] [] [] [] []]; reflexivity. Qed.

Lemma unescape_dquote r : unescape (String dquote r) = None.
Proof. reflexivity. Qed.

Lemma string_app_assoc (a b c : string) : (a +:+ b) +:+ c = a +:+ (b +:+ c).
Proof.
  induction a as [| x a IH]; [done |].
  change (String x ((a +:+ b) +:+ c) = String x (a +:+ (b +:+ c))). by rewrite IH.
Qed.

Lemma string_app_cons x a b : String x a +:+ b = String x (a +:+ b).
Proof. reflexivity. Qed.

Lemma string_app_nil (b : string) : "" +:+ b = b.
Proof. reflexivity. Qed.

#[export] Hint Rewrite string_app_assoc string_app_cons string_app_nil : append.

(** A quoted string is delimited by its closing quote. *)
Lemma escape_all_prefix s1 : forall s2 r1 r2,
  escape_all s1 +:+ String dquote r1 = escape_all s2 +:+ String dquote r2 -> s1 = s2 /\ r1 = r2.
Proof.
  induction s1 as [| c1 s1 IH]; intros [| c2 s2] r1 r2 H; cbn [escape_all] in H;
    autorewrite with append in H.
  - split; [done |]. congruence.
  - apply (f_equal unescape) in H. rewrite unescape_escape in H. done.
  - apply (f_equal unescape) in H. rewrite unescape_escape in H. done.
  - apply (f_equal unescape) in H. rewrite !unescape_escape in H.
    injection H as -> H. apply IH in H as [-> ->]. done.
Qed.

Lemma json_quote_prefix s1 s2 r1 r2 :
  json_quote s1 +:+ r1 = json_quote s2 +:+ r2 -> s1 = s2 /\ r1 = r2.
Proof.
  unfold json_quote. intros H. autorewrite with append in H. injection H as H.
  by apply escape_all_prefix in H.
Qed.

Lemma scalar_prefix v1 v2 r1 r2 :
  scalar v1 +:+ r1 = scalar v2 +:+ r2 -> v1 = v2 /\ r1 = r2.
Proof.
  destruct v1 as [s1 |], v2 as [s2 |]; cbn [scalar]; intros H.
  - apply json_quote_prefix in H as [-> ->]. done.
  - discriminate H.
  - discriminate H.
  - autorewrite with append in H. split; congruence.
Qed.

Lemma string_app_cancel (p a b : string) : p +:+ a = p +:+ b -> a = b.
Proof.
  induction p as [| c p IH]; [done |]. rewrite !string_app_cons. intros H. apply IH. congruence.
Qed.

Lemma stringify_fields_inj fs1 : forall fs2,
  fst <$> fs1 = fst <$> fs2 ->
  stringify_fields fs1 +:+ "}" = stringify_fields fs2 +:+ "}" -> fs1 = fs2.
Proof.
  induction fs1 as [| [k v1] fs1 IH]; intros [| [k' v2] fs2] Hk H; try discriminate Hk; [done |].
  cbn in Hk. injection Hk as <- Hk.
  destruct fs1 as [| kv1 fs1], fs2 as [| kv2 fs2]; try discriminate Hk; cbn [stringify_fields] in H;
    rewrite !string_app_assoc in H; apply string_app_cancel in H;
    autorewrite with append in H; injection H as H.
  - by apply scalar_prefix in H as [-> _].
  - apply scalar_prefix in H as [-> H]. injection H as H. f_equal. by apply IH.
Qed.

(** Two requests with the same keys and the same text are the same request. *)
Lemma stringify_inj fs1 fs2 :
  fst <$> fs1 = fst <$> fs2 -> stringify fs1 = stringify fs2 -> fs1 = fs2.
Proof.
  intros Hk H. apply stringify_fields_inj; [done |]. unfold stringify in H.
  autorewrite with append in H. by injection H.
Qed.

(** A collision-free instance, for the examples: the text is its own digest. *)
Definition plain_crypto : Crypto :=
  {| sha256 := fun s => s; hmac256 := fun key s => "(" +:+ key +:+ ")" +:+ s;
     hmac512 := fun key s => "(" +:+ key +:+ ")" +:+ s; base64 := fun s => s |}.

Lemma plain_crypto_collision_free : CollisionFree plain_crypto.
Proof. intros a b Hab. exact Hab. Qed.
