(* ===== verification/Store.v ===== *)
(** Store.v: the data model (prisma/schema.prisma) and the database
    statements the repositories issue.

    A table is a finite map from the primary key to the row; a record groups the
    tables of a component and [world] is the whole database.  [create] fails with
    P2002 when the primary key or a unique index is taken, [update] with P2025
    when the row is missing, [updateMany] counts the rows it changes.  Foreign
    keys are not modelled: they can only make a statement fail. *)

From S2P Require Import Prelude Errors.

(* ------------------------------------------------------------------ *)
(** ** Enumerations                                                     *)

Inductive UserRole : Type :=
| CUSTOMER
| ORGANIZER
| GATE_STAFF
| ADMIN.

Inductive SessionStatus : Type :=
| SESSION_ACTIVE
| SESSION_REVOKED
| SESSION_EXPIRED.

Inductive OrganizerStatus : Type :=
| ORG_DRAFT
| ORG_PENDING_REVIEW
| ORG_APPROVED
| ORG_SUSPENDED
| ORG_REJECTED.

Inductive EventStatus : Type :=
| EV_DRAFT
| EV_PUBLISHED
| EV_CANCELLED
| EV_ARCHIVED.

Inductive EventVisibility : Type :=
| PRIVATE
| UNLISTED
| PUBLIC.

Inductive EventCategory : Type :=
| NIGHTLIFE
| CONCERT
| FESTIVAL
| CAMPUS
| CORPORATE
| COMMUNITY
| SPORTS
| ARTS
| OTHER_CATEGORY.

Inductive OrderStatus : Type :=
| ORDER_CREATED
| ORDER_RESERVED
| ORDER_PAYMENT_PENDING
| ORDER_PAID
| ORDER_FULFILLED
| ORDER_COMPLETED
| ORDER_EXPIRED
| ORDER_FAILED
| ORDER_CANCELLED.

Inductive PaymentStatus : Type :=
| PAY_INITIATED
| PAY_PENDING
| PAY_SUCCESS
| PAY_FAILED
| PAY_REVERSED
| PAY_REFUNDED.

Inductive PaymentProvider : Type :=
| PAYSTACK
| MTN_MOMO.

Inductive PaymentIntentStatus : Type :=
| INITIATION_PENDING
| INITIATED
| INITIATION_FAILED
| VERIFIED
| FAILED.

Inductive WebhookProcessingStatus : Type :=
| WH_RECEIVED
| WH_VERIFIED
| WH_REJECTED
| WH_DUPLICATE
| WH_PROCESSED
| WH_FAILED.

Inductive TicketStatus : Type :=
| T_ISSUED
| T_ACTIVE
| T_USED
| T_EXITED
| T_INVALIDATED
| T_REFUNDED
| T_BLOCKED
| T_VOIDED
| T_EXPIRED.

Inductive AdmissionScanStatus : Type :=
| SCAN_ACCEPTED
| SCAN_REJECTED.

Inductive AdmissionRejectionReason : Type :=
| INVALID_TOKEN
| TICKET_NOT_FOUND
| TICKET_NOT_ISSUED
| TICKET_VOIDED
| TICKET_EXPIRED
| TICKET_ALREADY_USED
| EVENT_NOT_ACTIVE
| EVENT_MISMATCH
| ORGANIZER_MISMATCH
| TOKEN_REPLAY_DETECTED
| STAFF_NOT_AUTHORIZED.

Inductive AdminActionStatus : Type :=
| ADMIN_SUCCEEDED
| ADMIN_REJECTED
| ADMIN_FAILED.

Inductive ReservationStatus : Type :=
| HELD
| EXPIRED
| CONSUMED
| CANCELLED.

Inductive VenueTableStatus : Type :=
| VT_ACTIVE
| VT_INACTIVE
| VT_MAINTENANCE.

Inductive EventTableStatus : Type :=
| ET_AVAILABLE
| ET_HELD
| ET_UNAVAILABLE.

Inductive TableReservationStatus : Type :=
| TR_HELD
| TR_EXPIRED
| TR_CANCELLED.

Inductive TableAuditEvent : Type :=
| VENUE_TABLE_CREATED
| VENUE_TABLE_UPDATED
| EVENT_TABLE_CREATED
| EVENT_TABLE_UPDATED
| TABLE_HOLD_CREATED
| TABLE_HOLD_EXPIRED
| TABLE_HOLD_CANCELLED
| TABLE_RESERVATION_REJECTED.

Inductive LedgerDirection : Type :=
| DEBIT
| CREDIT.

Inductive AuthAuditAction : Type :=
| SIGNUP
| LOGIN
| LOGOUT
| REFRESH
| REFRESH_REPLAY_DETECTED
| SESSION_REVOKED_ACTION
| ME_ACCESSED
| AUTH_FAILURE
| EXPIRED_SESSION_DETECTED.

(** Equality of enumeration values is decidable. *)
#[export] Instance UserRole_eq_dec : EqDecision UserRole.
Proof. solve_decision. Defined.
#[export] Instance SessionStatus_eq_dec : EqDecision SessionStatus.
Proof. solve_decision. Defined.
#[export] Instance OrganizerStatus_eq_dec : EqDecision OrganizerStatus.
Proof. solve_decision. Defined.
#[export] Instance EventStatus_eq_dec : EqDecision EventStatus.
Proof. solve_decision. Defined.
#[export] Instance EventVisibility_eq_dec : EqDecision EventVisibility.
Proof. solve_decision. Defined.
#[export] Instance EventCategory_eq_dec : EqDecision EventCategory.
Proof. solve_decision. Defined.
#[export] Instance OrderStatus_eq_dec : EqDecision OrderStatus.
Proof. solve_decision. Defined.
#[export] Instance PaymentStatus_eq_dec : EqDecision PaymentStatus.
Proof. solve_decision. Defined.
#[export] Instance PaymentProvider_eq_dec : EqDecision PaymentProvider.
Proof. solve_decision. Defined.
#[export] Instance PaymentIntentStatus_eq_dec : EqDecision PaymentIntentStatus.
Proof. solve_decision. Defined.
#[export] Instance WebhookProcessingStatus_eq_dec : EqDecision WebhookProcessingStatus.
Proof. solve_decision. Defined.
#[export] Instance TicketStatus_eq_dec : EqDecision TicketStatus.
Proof. solve_decision. Defined.
#[export] Instance AdmissionScanStatus_eq_dec : EqDecision AdmissionScanStatus.
Proof. solve_decision. Defined.
#[export] Instance AdmissionRejectionReason_eq_dec : EqDecision AdmissionRejectionReason.
Proof. solve_decision. Defined.
#[export] Instance ReservationStatus_eq_dec : EqDecision ReservationStatus.
Proof. solve_decision. Defined.
#[export] Instance AdminActionStatus_eq_dec : EqDecision AdminActionStatus.
Proof. solve_decision. Defined.
#[export] Instance VenueTableStatus_eq_dec : EqDecision VenueTableStatus.
Proof. solve_decision. Defined.
#[export] Instance EventTableStatus_eq_dec : EqDecision EventTableStatus.
Proof. solve_decision. Defined.
#[export] Instance TableReservationStatus_eq_dec : EqDecision TableReservationStatus.
Proof. solve_decision. Defined.
#[export] Instance TableAuditEvent_eq_dec : EqDecision TableAuditEvent.
Proof. solve_decision. Defined.
#[export] Instance LedgerDirection_eq_dec : EqDecision LedgerDirection.
Proof. solve_decision. Defined.
#[export] Instance AuthAuditAction_eq_dec : EqDecision AuthAuditAction.
Proof. solve_decision. Defined.

(* ------------------------------------------------------------------ *)
(** ** Rows                                                             *)

Record user : Type := {
  user_id : string;
  user_email : string;
  user_passwordHash : string;
  user_role : UserRole;
  user_isActive : bool;
  user_emailVerifiedAt : option Z
}.

(** The columns of an organizer that only its own pages show. *)
Record organizer_profile : Type := {
  op_displayName : string;
  op_slug : string;
  op_description : option string;
  op_contactEmail : option string;
  op_contactPhone : option string
}.

Record organizer : Type := {
  org_id : string;
  org_ownerUserId : string;
  org_status : OrganizerStatus;
  org_profile : organizer_profile
}.

(** The columns of an event that the sale and the admission do not read.  A
    latitude or longitude is the text of the decimal. *)
Record event_listing : Type := {
  el_title : string;
  el_slug : string;
  el_description : option string;
  el_category : EventCategory;
  el_startsAt : Z;
  el_timezone : string;
  el_venueName : option string;
  el_addressLine1 : option string;
  el_addressLine2 : option string;
  el_city : option string;
  el_region : option string;
  el_country : string;
  el_latitude : option string;
  el_longitude : option string;
  el_capacityTotal : option Z;
  el_capacityHeld : Z;
  el_publishedAt : option Z;
  el_cancelledAt : option Z
}.

Record event : Type := {
  ev_id : string;
  ev_organizerId : string;
  ev_venueId : string;
  ev_status : EventStatus;
  ev_visibility : EventVisibility;
  ev_endsAt : Z;
  ev_paymentEnabled : bool;
  ev_priceMinor : option Z;
  ev_priceCurrency : string;
  ev_listing : event_listing
}.

Record gate : Type := {
  gate_id : string;
  gate_venueId : string
}.

Record inventory : Type := {
  inv_id : string;
  inv_eventId : string;
  inv_ticketTypeId : string;
  inv_capacityTotal : Z;
  inv_reservedCount : Z;
  inv_soldCount : Z
}.

Record reservation : Type := {
  rsv_id : string;
  rsv_ownerUserId : string;
  rsv_eventId : string;
  rsv_ticketTypeId : string;
  rsv_quantity : Z;
  rsv_status : ReservationStatus;
  rsv_expiresAt : Z
}.

Record order : Type := {
  ord_id : string;
  ord_userId : string;
  ord_eventId : string;
  ord_reservationId : option string;
  ord_status : OrderStatus;
  ord_totalAmount : Z;
  ord_currency : string
}.

Record payment : Type := {
  pay_id : string;
  pay_orderId : string;
  pay_provider : string;
  pay_providerRef : option string;
  pay_status : PaymentStatus;
  pay_amount : Z
}.

Record ledger_entry : Type := {
  led_id : string;
  led_orderId : option string;
  led_paymentId : option string;
  led_direction : LedgerDirection;
  led_accountType : string;
  led_amount : Z;
  led_currency : string;
  led_correlationId : option string
}.

Record idempotency_key : Type := {
  idk_actorUserId : string;
  idk_useCase : string;
  idk_idempotencyKeyHash : string;
  idk_requestHash : string;
  idk_responseCode : option Z;
  idk_responseBody : json
}.

Record ticket : Type := {
  tk_id : string;
  tk_ticketNumber : option string;
  tk_eventId : string;
  tk_organizerId : option string;
  tk_ticketTypeId : option string;
  tk_ownerUserId : string;
  tk_orderId : option string;
  tk_paymentIntentId : option string;
  tk_status : TicketStatus;
  tk_admissionTokenHash : option string;
  tk_admissionTokenVersion : Z;
  tk_ticketSerial : string;
  tk_publicReference : string;
  tk_issuedAt : Z;
  tk_usedAt : option Z;
  tk_voidedAt : option Z;
  tk_expiresAt : option Z
}.

Record audit_log : Type := {
  al_id : string;
  al_actorId : option string;
  al_action : string;
  al_entityType : string;
  al_entityId : string;
  al_correlationId : option string;
  al_metadata : json
}.

Record outbox_event : Type := {
  ob_id : string;
  ob_aggregateType : string;
  ob_aggregateId : string;
  ob_eventType : string;
  ob_payload : json;
  ob_createdAt : Z;
  ob_processed : bool;
  ob_processedAt : option Z;
  ob_retryCount : Z;
  ob_nextAttemptAt : option Z;
  ob_lastErrorCode : option string;
  ob_deadLetteredAt : option Z
}.

Record payment_intent : Type := {
  pi_id : string;
  pi_buyerUserId : string;
  pi_organizerId : string;
  pi_eventId : string;
  pi_provider : PaymentProvider;
  pi_status : PaymentIntentStatus;
  pi_amountMinor : Z;
  pi_currency : string;
  pi_idempotencyUseCase : string;
  pi_idempotencyKeyHash : string;
  pi_requestFingerprintHash : string;
  pi_providerReference : string;
  pi_providerCheckoutUrl : option string;
  pi_providerAccessCode : option string;
  pi_providerRawResponse : json;
  pi_failureCode : option string;
  pi_failureMessage : option string;
  pi_initiatedAt : option Z;
  pi_verifiedAt : option Z;
  pi_failedAt : option Z;
  pi_providerVerifiedStatus : option string;
  pi_providerVerifiedAmount : option Z;
  pi_providerVerifiedCurrency : option string;
  pi_providerVerificationRaw : json
}.

Record intent_audit : Type := {
  ia_paymentIntentId : string;
  ia_buyerUserId : string;
  ia_eventType : string;
  ia_data : json
}.

Record webhook_event : Type := {
  we_id : string;
  we_provider : PaymentProvider;
  we_providerEventId : string;
  we_providerReference : option string;
  we_payloadHash : string;
  we_signatureValid : option bool;
  we_processingStatus : WebhookProcessingStatus;
  we_failureCode : option string;
  we_failureMessage : option string;
  we_rawHeaders : json;
  we_rawPayload : string;
  we_verifiedPayload : json;
  we_paymentIntentId : option string;
  we_processedAt : option Z
}.

Record issuance_audit : Type := {
  isa_paymentIntentId : string;
  isa_ticketId : option string;
  isa_buyerUserId : string;
  isa_eventId : string;
  isa_organizerId : string;
  isa_auditEvent : string;
  isa_reason : option string
}.

Record scan_audit : Type := {
  sa_ticketId : option string;
  sa_eventId : option string;
  sa_organizerId : option string;
  sa_scannedByUserId : option string;
  sa_status : AdmissionScanStatus;
  sa_rejectionReason : option AdmissionRejectionReason;
  sa_tokenHash : option string;
  sa_deviceId : option string;
  sa_gateLabel : option string;
  sa_metadata : json;
  sa_scannedAt : Z
}.

Record session : Type := {
  ses_id : string;
  ses_userId : string;
  ses_deviceId : string;
  ses_refreshTokenHash : option string;
  ses_previousRefreshTokenHash : option string;
  ses_refreshTokenVersion : Z;
  ses_userAgent : option string;
  ses_ipAddress : option string;
  ses_lastSeenAt : Z;
  ses_expiresAt : Z;
  ses_status : SessionStatus;
  ses_revokedAt : option Z;
  ses_revokedReason : option string
}.

Record auth_audit : Type := {
  aa_action : AuthAuditAction;
  aa_success : bool;
  aa_userId : option string;
  aa_email : option string;
  aa_sessionId : option string;
  aa_ipAddress : option string;
  aa_userAgent : option string;
  aa_reason : option string;
  aa_metadata : json
}.

Record floor_section : Type := {
  fs_id : string;
  fs_organizerId : string;
  fs_name : string;
  fs_description : option string
}.

Record venue_table : Type := {
  vt_id : string;
  vt_organizerId : string;
  vt_floorSectionId : option string;
  vt_label : string;
  vt_seatCount : Z;
  vt_status : VenueTableStatus
}.

Record event_table : Type := {
  et_id : string;
  et_organizerId : string;
  et_eventId : string;
  et_venueTableId : string;
  et_status : EventTableStatus;
  et_priceMinor : Z;
  et_currency : string;
  et_holdExpiresAt : option Z
}.

Record table_reservation : Type := {
  tr_id : string;
  tr_actorUserId : string;
  tr_organizerId : string;
  tr_eventId : string;
  tr_eventTableId : string;
  tr_status : TableReservationStatus;
  tr_amountMinor : Z;
  tr_currency : string;
  tr_idempotencyUseCase : string;
  tr_idempotencyKeyHash : string;
  tr_requestFingerprintHash : string;
  tr_holdExpiresAt : Z;
  tr_cancelledAt : option Z;
  tr_expiredAt : option Z
}.

Record table_audit : Type := {
  ta_actorUserId : option string;
  ta_organizerId : option string;
  ta_eventId : option string;
  ta_venueTableId : option string;
  ta_eventTableId : option string;
  ta_reservationId : option string;
  ta_event : TableAuditEvent;
  ta_reason : option string;
  ta_metadata : json
}.

Record support_audit : Type := {
  sup_id : string;
  sup_actorUserId : string;
  sup_action : string;
  sup_status : AdminActionStatus;
  sup_targetType : option string;
  sup_targetId : option string;
  sup_reasonCode : string;
  sup_reasonNote : option string;
  sup_metadata : json
}.

(* ------------------------------------------------------------------ *)
(** ** The database: a record of tables per component                   *)

Record catalog_db : Type := {
  users : gmap string user;
  organizers : gmap string organizer;
  events : gmap string event;
  gates : gmap string gate;
  venues : gset string
}.

Record stock_db : Type := {
  inventories : gmap string inventory;
  reservations : gmap string reservation
}.

Record checkout_db : Type := {
  orders : gmap string order;
  payments : gmap string payment;
  ledger : gmap string ledger_entry;
  idempotency : gmap (string * string * string) idempotency_key
}.

Record journal_db : Type := {
  audit_logs : gmap string audit_log;
  outbox : gmap string outbox_event;
  support_audits : gmap string support_audit
}.

Record intents_db : Type := {
  payment_intents : gmap string payment_intent;
  intent_audits : list intent_audit;
  webhook_events : gmap string webhook_event
}.

Record ticketing_db : Type := {
  tickets : gmap string ticket;
  issuance_audits : list issuance_audit;
  scan_audits : list scan_audit
}.

Record seating_db : Type := {
  floor_sections : gmap string floor_section;
  venue_tables : gmap string venue_table;
  event_tables : gmap string event_table;
  table_reservations : gmap string table_reservation;
  table_audits : list table_audit
}.

Record identity_db : Type := {
  sessions : gmap string session;
  auth_audits : list auth_audit
}.

Record world : Type := {
  catalog : catalog_db;
  stock : stock_db;
  checkout : checkout_db;
  journal : journal_db;
  intents : intents_db;
  ticketing : ticketing_db;
  seating : seating_db;
  identity : identity_db
}.

(** The methods of the back end run over the database and throw [error]. *)
Definition op (A : Type) : Type := prog world error A.

Definition set_catalog (x : catalog_db) (w : world) : world :=
  {| catalog := x; stock := stock w; checkout := checkout w; journal := journal w; intents := intents w; ticketing := ticketing w; seating := seating w; identity := identity w |}.
Definition set_stock (x : stock_db) (w : world) : world :=
  {| catalog := catalog w; stock := x; checkout := checkout w; journal := journal w; intents := intents w; ticketing := ticketing w; seating := seating w; identity := identity w |}.
Definition set_checkout (x : checkout_db) (w : world) : world :=
  {| catalog := catalog w; stock := stock w; checkout := x; journal := journal w; intents := intents w; ticketing := ticketing w; seating := seating w; identity := identity w |}.
Definition set_journal (x : journal_db) (w : world) : world :=
  {| catalog := catalog w; stock := stock w; checkout := checkout w; journal := x; intents := intents w; ticketing := ticketing w; seating := seating w; identity := identity w |}.
Definition set_intents (x : intents_db) (w : world) : world :=
  {| catalog := catalog w; stock := stock w; checkout := checkout w; journal := journal w; intents := x; ticketing := ticketing w; seating := seating w; identity := identity w |}.
Definition set_ticketing (x : ticketing_db) (w : world) : world :=
  {| catalog := catalog w; stock := stock w; checkout := checkout w; journal := journal w; intents := intents w; ticketing := x; seating := seating w; identity := identity w |}.
Definition set_seating (x : seating_db) (w : world) : world :=
  {| catalog := catalog w; stock := stock w; checkout := checkout w; journal := journal w; intents := intents w; ticketing := ticketing w; seating := x; identity := identity w |}.
Definition set_identity (x : identity_db) (w : world) : world :=
  {| catalog := catalog w; stock := stock w; checkout := checkout w; journal := journal w; intents := intents w; ticketing := ticketing w; seating := seating w; identity := x |}.

Definition set_users (x : gmap string user) (w : world) : world :=
  set_catalog {| users := x; organizers := organizers (catalog w); events := events (catalog w); gates := gates (catalog w); venues := venues (catalog w) |} w.
Definition set_organizers (x : gmap string organizer) (w : world) : world :=
  set_catalog {| users := users (catalog w); organizers := x; events := events (catalog w); gates := gates (catalog w); venues := venues (catalog w) |} w.
Definition set_events (x : gmap string event) (w : world) : world :=
  set_catalog {| users := users (catalog w); organizers := organizers (catalog w); events := x; gates := gates (catalog w); venues := venues (catalog w) |} w.
Definition set_gates (x : gmap string gate) (w : world) : world :=
  set_catalog {| users := users (catalog w); organizers := organizers (catalog w); events := events (catalog w); gates := x; venues := venues (catalog w) |} w.
Definition set_venues (x : gset string) (w : world) : world :=
  set_catalog {| users := users (catalog w); organizers := organizers (catalog w); events := events (catalog w); gates := gates (catalog w); venues := x |} w.
Definition set_inventories (x : gmap string inventory) (w : world) : world :=
  set_stock {| inventories := x; reservations := reservations (stock w) |} w.
Definition set_reservations (x : gmap string reservation) (w : world) : world :=
  set_stock {| inventories := inventories (stock w); reservations := x |} w.
Definition set_orders (x : gmap string order) (w : world) : world :=
  set_checkout {| orders := x; payments := payments (checkout w); ledger := ledger (checkout w); idempotency := idempotency (checkout w) |} w.
Definition set_payments (x : gmap string payment) (w : world) : world :=
  set_checkout {| orders := orders (checkout w); payments := x; ledger := ledger (checkout w); idempotency := idempotency (checkout w) |} w.
Definition set_ledger (x : gmap string ledger_entry) (w : world) : world :=
  set_checkout {| orders := orders (checkout w); payments := payments (checkout w); ledger := x; idempotency := idempotency (checkout w) |} w.
Definition set_idempotency (x : gmap (string * string * string) idempotency_key) (w : world) : world :=
  set_checkout {| orders := orders (checkout w); payments := payments (checkout w); ledger := ledger (checkout w); idempotency := x |} w.
Definition set_audit_logs (x : gmap string audit_log) (w : world) : world :=
  set_journal {| audit_logs := x; outbox := outbox (journal w); support_audits := support_audits (journal w) |} w.
Definition set_outbox (x : gmap string outbox_event) (w : world) : world :=
  set_journal {| audit_logs := audit_logs (journal w); outbox := x; support_audits := support_audits (journal w) |} w.
Definition set_support_audits (x : gmap string support_audit) (w : world) : world :=
  set_journal {| audit_logs := audit_logs (journal w); outbox := outbox (journal w); support_audits := x |} w.
Definition set_payment_intents (x : gmap string payment_intent) (w : world) : world :=
  set_intents {| payment_intents := x; intent_audits := intent_audits (intents w); webhook_events := webhook_events (intents w) |} w.
Definition set_intent_audits (x : list intent_audit) (w : world) : world :=
  set_intents {| payment_intents := payment_intents (intents w); intent_audits := x; webhook_events := webhook_events (intents w) |} w.
Definition set_webhook_events (x : gmap string webhook_event) (w : world) : world :=
  set_intents {| payment_intents := payment_intents (intents w); intent_audits := intent_audits (intents w); webhook_events := x |} w.
Definition set_tickets (x : gmap string ticket) (w : world) : world :=
  set_ticketing {| tickets := x; issuance_audits := issuance_audits (ticketing w); scan_audits := scan_audits (ticketing w) |} w.
Definition set_issuance_audits (x : list issuance_audit) (w : world) : world :=
  set_ticketing {| tickets := tickets (ticketing w); issuance_audits := x; scan_audits := scan_audits (ticketing w) |} w.
Definition set_scan_audits (x : list scan_audit) (w : world) : world :=
  set_ticketing {| tickets := tickets (ticketing w); issuance_audits := issuance_audits (ticketing w); scan_audits := x |} w.
Definition set_floor_sections (x : gmap string floor_section) (w : world) : world :=
  set_seating {| floor_sections := x; venue_tables := venue_tables (seating w); event_tables := event_tables (seating w); table_reservations := table_reservations (seating w); table_audits := table_audits (seating w) |} w.
Definition set_venue_tables (x : gmap string venue_table) (w : world) : world :=
  set_seating {| floor_sections := floor_sections (seating w); venue_tables := x; event_tables := event_tables (seating w); table_reservations := table_reservations (seating w); table_audits := table_audits (seating w) |} w.
Definition set_event_tables (x : gmap string event_table) (w : world) : world :=
  set_seating {| floor_sections := floor_sections (seating w); venue_tables := venue_tables (seating w); event_tables := x; table_reservations := table_reservations (seating w); table_audits := table_audits (seating w) |} w.
Definition set_table_reservations (x : gmap string table_reservation) (w : world) : world :=
  set_seating {| floor_sections := floor_sections (seating w); venue_tables := venue_tables (seating w); event_tables := event_tables (seating w); table_reservations := x; table_audits := table_audits (seating w) |} w.
Definition set_table_audits (x : list table_audit) (w : world) : world :=
  set_seating {| floor_sections := floor_sections (seating w); venue_tables := venue_tables (seating w); event_tables := event_tables (seating w); table_reservations := table_reservations (seating w); table_audits := x |} w.
Definition set_sessions (x : gmap string session) (w : world) : world :=
  set_identity {| sessions := x; auth_audits := auth_audits (identity w) |} w.
Definition set_auth_audits (x : list auth_audit) (w : world) : world :=
  set_identity {| sessions := sessions (identity w); auth_audits := x |} w.

(** The empty database. *)
Definition empty_world : world :=
  {| catalog := {| users := ∅; organizers := ∅; events := ∅; gates := ∅; venues := ∅ |};
     stock := {| inventories := ∅; reservations := ∅ |};
     checkout := {| orders := ∅; payments := ∅; ledger := ∅; idempotency := ∅ |};
     journal := {| audit_logs := ∅; outbox := ∅; support_audits := ∅ |};
     intents := {| payment_intents := ∅; intent_audits := []; webhook_events := ∅ |};
     ticketing := {| tickets := ∅; issuance_audits := []; scan_audits := [] |};
     seating := {| floor_sections := ∅; venue_tables := ∅; event_tables := ∅; table_reservations := ∅; table_audits := [] |};
     identity := {| sessions := ∅; auth_audits := [] |} |}.

(* ------------------------------------------------------------------ *)
(** ** Statements                                                       *)

(** A table of the database: how to read and write it, the primary key of a row
    and whether two rows clash on another unique index. *)
Record table (R : Type) : Type := {
  tb_rows : world -> gmap string R;
  tb_store : gmap string R -> world -> world;
  tb_id : R -> string;
  tb_clash : R -> R -> bool
}.
Arguments tb_rows {R}.
Arguments tb_store {R}.
Arguments tb_id {R}.
Arguments tb_clash {R}.

Section Statements.
Context {R : Type} (T : table R).

(** [create({ data })] *)
Definition create (r : R) : op unit :=
  fun w =>
    if bool_decide (tb_rows T w !! tb_id T r = None) &&
       bool_decide (find_row (tb_clash T r) (tb_rows T w) = None)
    then (Ok tt, tb_store T (<[tb_id T r := r]> (tb_rows T w)) w)
    else (Err unique_violation, w).

(** [findUnique({ where: { id } })] *)
Definition findUnique (id : string) : op (option R) :=
  reads (fun w => tb_rows T w !! id).

(** [findFirst({ where })], or [findUnique] on another unique index. *)
Definition findFirst (P : R -> bool) : op (option R) :=
  reads (fun w => find_row P (tb_rows T w)).

(** [findMany({ where })] *)
Definition findMany (P : R -> bool) : op (list R) :=
  reads (fun w => find_rows P (tb_rows T w)).

(** [update({ where: { id }, data })], returning the new row. *)
Definition update (id : string) (f : R -> R) : op R :=
  fun w =>
    match tb_rows T w !! id with
    | Some r => (Ok (f r), tb_store T (<[id := f r]> (tb_rows T w)) w)
    | None => (Err record_not_found, w)
    end.

(** [updateMany({ where: { id, ...P }, data })]: how many rows changed. *)
Definition updateMany (id : string) (P : R -> bool) (f : R -> R) : op Z :=
  fun w =>
    match tb_rows T w !! id with
    | Some r =>
        if P r then (Ok 1%Z, tb_store T (<[id := f r]> (tb_rows T w)) w) else (Ok 0%Z, w)
    | None => (Ok 0%Z, w)
    end.

Lemma wp_create r (Q : unit -> world -> Prop) X w :
  (tb_rows T w !! tb_id T r = None -> find_row (tb_clash T r) (tb_rows T w) = None ->
   Q tt (tb_store T (<[tb_id T r := r]> (tb_rows T w)) w)) ->
  X unique_violation w ->
  wp (create r) Q X w.
Proof.
  intros HQ HX. unfold wp, create.
  destruct (bool_decide _) eqn:H1; cbn [andb]; [| exact HX].
  destruct (bool_decide (find_row _ _ = None)) eqn:H2; [| exact HX].
  apply bool_decide_eq_true in H1, H2. auto.
Qed.

Lemma wp_findUnique id (Q : option R -> world -> Prop) X w :
  Q (tb_rows T w !! id) w -> wp (findUnique id) Q X w.
Proof. done. Qed.

Lemma wp_findFirst P (Q : option R -> world -> Prop) X w :
  Q (find_row P (tb_rows T w)) w -> wp (findFirst P) Q X w.
Proof. done. Qed.

Lemma wp_findMany P (Q : list R -> world -> Prop) X w :
  Q (find_rows P (tb_rows T w)) w -> wp (findMany P) Q X w.
Proof. done. Qed.

Lemma wp_update id f (Q : R -> world -> Prop) X w :
  (forall r, tb_rows T w !! id = Some r ->
             Q (f r) (tb_store T (<[id := f r]> (tb_rows T w)) w)) ->
  (tb_rows T w !! id = None -> X record_not_found w) ->
  wp (update id f) Q X w.
Proof. intros HQ HX. unfold wp, update. destruct (tb_rows T w !! id) eqn:E; auto. Qed.

Lemma wp_updateMany id P f (Q : Z -> world -> Prop) X w :
  (forall r, tb_rows T w !! id = Some r -> P r = true ->
             Q 1%Z (tb_store T (<[id := f r]> (tb_rows T w)) w)) ->
  ((forall r, tb_rows T w !! id = Some r -> P r = false) -> Q 0%Z w) ->
  wp (updateMany id P f) Q X w.
Proof.
  intros HQ H0. unfold wp, updateMany.
  destruct (tb_rows T w !! id) as [r |] eqn:E; [| apply H0; congruence].
  destruct (P r) eqn:HP; [by apply HQ |]. apply H0. congruence.
Qed.

End Statements.

(** [update] on a table with a unique index: the row the data gives must not
    clash with another row. *)
Definition update_unique {R} (T : table R) (id : string) (f : R -> R) : op R :=
  fun w =>
    match tb_rows T w !! id with
    | None => (Err record_not_found, w)
    | Some r =>
        if bool_decide (find_row (tb_clash T (f r)) (delete id (tb_rows T w)) = None)
        then (Ok (f r), tb_store T (<[id := f r]> (tb_rows T w)) w)
        else (Err unique_violation, w)
    end.

Lemma wp_update_unique {R} (T : table R) id f (Q : R -> world -> Prop) X w :
  (forall r, tb_rows T w !! id = Some r ->
     find_row (tb_clash T (f r)) (delete id (tb_rows T w)) = None ->
     Q (f r) (tb_store T (<[id := f r]> (tb_rows T w)) w)) ->
  (tb_rows T w !! id = None -> X record_not_found w) -> X unique_violation w ->
  wp (update_unique T id f) Q X w.
Proof.
  intros HQ HN HX. unfold wp, update_unique. destruct (tb_rows T w !! id) eqn:E; [| auto].
  case_bool_decide; auto.
Qed.

(** Two nullable values of a unique column clash when both are present and
    equal: NULLs never clash. *)
Definition same_some (x y : option string) : bool :=
  match x, y with
  | Some a, Some b => bool_decide (a = b)
  | _, _ => false
  end.

(** A bare profile and a bare listing, for the examples. *)
Definition plain_profile (slug : string) : organizer_profile :=
  {| op_displayName := slug; op_slug := slug; op_description := None; op_contactEmail := None;
     op_contactPhone := None |}.
Definition plain_listing (slug : string) : event_listing :=
  {| el_title := slug; el_slug := slug; el_description := None; el_category := OTHER_CATEGORY;
     el_startsAt := 0%Z; el_timezone := "Africa/Accra"; el_venueName := Some "Hall";
     el_addressLine1 := None; el_addressLine2 := None; el_city := Some "Accra"; el_region := None;
     el_country := "Ghana"; el_latitude := None; el_longitude := None;
     el_capacityTotal := Some 100%Z; el_capacityHeld := 0%Z; el_publishedAt := None;
     el_cancelledAt := None |}.

Definition no_clash {R} (_ _ : R) : bool := false.

(** In such a table an insert fails only on an id in use. *)
Lemma wp_create_plain {R} (T : table R) r (Q : unit -> world -> Prop) X w :
  tb_clash T = no_clash ->
  (tb_rows T w !! tb_id T r = None -> Q tt (tb_store T (<[tb_id T r := r]> (tb_rows T w)) w)) ->
  (tb_rows T w !! tb_id T r <> None -> X unique_violation w) ->
  wp (create T r) Q X w.
Proof.
  intros Hc HQ HX. unfold wp, create. rewrite Hc.
  rewrite (bool_decide_true (find_row _ _ = None)) by (by apply find_row_None).
  rewrite andb_true_r. case_bool_decide; auto.
Qed.

Definition users_t : table user :=
  {| tb_rows := fun w => users (catalog w); tb_store := set_users; tb_id := user_id;
     tb_clash := fun a b => bool_decide (user_email a = user_email b) |}.
Definition organizers_t : table organizer :=
  {| tb_rows := fun w => organizers (catalog w); tb_store := set_organizers;
     tb_id := org_id;
     tb_clash := fun a b => bool_decide (op_slug (org_profile a) = op_slug (org_profile b)) |}.
Definition events_t : table event :=
  {| tb_rows := fun w => events (catalog w); tb_store := set_events; tb_id := ev_id;
     tb_clash := fun a b => bool_decide (ev_organizerId a = ev_organizerId b) &&
                            bool_decide (el_slug (ev_listing a) = el_slug (ev_listing b)) |}.
Definition gates_t : table gate :=
  {| tb_rows := fun w => gates (catalog w); tb_store := set_gates; tb_id := gate_id;
     tb_clash := no_clash |}.
Definition inventories_t : table inventory :=
  {| tb_rows := fun w => inventories (stock w); tb_store := set_inventories; tb_id := inv_id;
     tb_clash := fun a b => bool_decide (inv_eventId a = inv_eventId b) &&
                            bool_decide (inv_ticketTypeId a = inv_ticketTypeId b) |}.
Definition reservations_t : table reservation :=
  {| tb_rows := fun w => reservations (stock w); tb_store := set_reservations;
     tb_id := rsv_id; tb_clash := no_clash |}.
Definition orders_t : table order :=
  {| tb_rows := fun w => orders (checkout w); tb_store := set_orders; tb_id := ord_id;
     tb_clash := no_clash |}.
Definition payments_t : table payment :=
  {| tb_rows := fun w => payments (checkout w); tb_store := set_payments; tb_id := pay_id;
     tb_clash := fun a b => bool_decide (pay_provider a = pay_provider b) &&
                            same_some (pay_providerRef a) (pay_providerRef b) |}.
Definition ledger_t : table ledger_entry :=
  {| tb_rows := fun w => ledger (checkout w); tb_store := set_ledger; tb_id := led_id;
     tb_clash := no_clash |}.
Definition audit_logs_t : table audit_log :=
  {| tb_rows := fun w => audit_logs (journal w); tb_store := set_audit_logs; tb_id := al_id;
     tb_clash := no_clash |}.
Definition outbox_t : table outbox_event :=
  {| tb_rows := fun w => outbox (journal w); tb_store := set_outbox; tb_id := ob_id;
     tb_clash := no_clash |}.
Definition payment_intents_t : table payment_intent :=
  {| tb_rows := fun w => payment_intents (intents w); tb_store := set_payment_intents;
     tb_id := pi_id;
     tb_clash := fun a b =>
       bool_decide (pi_providerReference a = pi_providerReference b) ||
       (bool_decide (pi_buyerUserId a = pi_buyerUserId b) &&
        bool_decide (pi_idempotencyUseCase a = pi_idempotencyUseCase b) &&
        bool_decide (pi_idempotencyKeyHash a = pi_idempotencyKeyHash b)) |}.
Definition webhook_events_t : table webhook_event :=
  {| tb_rows := fun w => webhook_events (intents w); tb_store := set_webhook_events;
     tb_id := we_id;
     tb_clash := fun a b =>
       bool_decide (we_provider a = we_provider b) &&
       (bool_decide (we_providerEventId a = we_providerEventId b) ||
        bool_decide (we_payloadHash a = we_payloadHash b)) |}.
Definition tickets_t : table ticket :=
  {| tb_rows := fun w => tickets (ticketing w); tb_store := set_tickets; tb_id := tk_id;
     tb_clash := fun a b =>
       same_some (tk_ticketNumber a) (tk_ticketNumber b) ||
       same_some (tk_admissionTokenHash a) (tk_admissionTokenHash b) ||
       bool_decide (tk_ticketSerial a = tk_ticketSerial b) ||
       bool_decide (tk_publicReference a = tk_publicReference b) ||
       (same_some (tk_paymentIntentId a) (tk_paymentIntentId b) &&
        bool_decide (tk_ownerUserId a = tk_ownerUserId b) &&
        bool_decide (tk_eventId a = tk_eventId b)) |}.
Definition sessions_t : table session :=
  {| tb_rows := fun w => sessions (identity w); tb_store := set_sessions; tb_id := ses_id;
     tb_clash := no_clash |}.
Definition support_audits_t : table support_audit :=
  {| tb_rows := fun w => support_audits (journal w); tb_store := set_support_audits; tb_id := sup_id;
     tb_clash := no_clash |}.
Definition venue_tables_t : table venue_table :=
  {| tb_rows := fun w => venue_tables (seating w); tb_store := set_venue_tables; tb_id := vt_id;
     tb_clash := fun a b => bool_decide (vt_organizerId a = vt_organizerId b) &&
                            bool_decide (vt_label a = vt_label b) |}.
Definition floor_sections_t : table floor_section :=
  {| tb_rows := fun w => floor_sections (seating w); tb_store := set_floor_sections;
     tb_id := fs_id;
     tb_clash := fun a b => bool_decide (fs_organizerId a = fs_organizerId b) &&
                            bool_decide (fs_name a = fs_name b) |}.
Definition event_tables_t : table event_table :=
  {| tb_rows := fun w => event_tables (seating w); tb_store := set_event_tables; tb_id := et_id;
     tb_clash := fun a b => bool_decide (et_eventId a = et_eventId b) &&
                            bool_decide (et_venueTableId a = et_venueTableId b) |}.
Definition table_reservations_t : table table_reservation :=
  {| tb_rows := fun w => table_reservations (seating w); tb_store := set_table_reservations;
     tb_id := tr_id;
     tb_clash := fun a b =>
       bool_decide (tr_actorUserId a = tr_actorUserId b) &&
       bool_decide (tr_idempotencyUseCase a = tr_idempotencyUseCase b) &&
       bool_decide (tr_idempotencyKeyHash a = tr_idempotencyKeyHash b) |}.

(** A statement sent in a transaction after one that failed in it: PostgreSQL
    refuses it whatever it is (25P02). *)
Definition statement_refused {A} (statement : op A) : op A := throw transaction_aborted.

(** Symbolic execution with the statements; a method that is not one of them is
    unfolded. *)
Ltac prog_head m := lazymatch m with ?f _ => prog_head f | _ => m end.

Ltac wp_stmt :=
  lazymatch goal with
  | |- wp (create _ _) _ _ _ => apply wp_create; [intros ? ? |]
  | |- wp (findUnique _ _) _ _ _ => apply wp_findUnique
  | |- wp (findFirst _ _) _ _ _ => apply wp_findFirst
  | |- wp (findMany _ _) _ _ _ => apply wp_findMany
  | |- wp (update _ _ _) _ _ _ => apply wp_update; [intros ? ? | intros ?]
  | |- wp (update_unique _ _ _) _ _ _ => apply wp_update_unique; [intros ? ? ? | intros ? |]
  | |- wp (updateMany _ _ _ _) _ _ _ => apply wp_updateMany; [intros ? ? ? | intros ?]
  | |- wp (bind _ _) _ _ _ => wp_step
  | |- wp (ret _) _ _ _ => wp_step
  | |- wp (throw _) _ _ _ => wp_step
  | |- wp (reads _) _ _ _ => wp_step
  | |- wp (modify _) _ _ _ => wp_step
  | |- wp (catch _ _) _ _ _ => wp_step
  | |- wp (transaction _) _ _ _ => wp_step
  | |- wp (throw_if _ _) _ _ _ => wp_step
  | |- wp (or_throw _ _) _ _ _ => wp_step
  | |- wp (when _ _) _ _ _ => wp_step
  | |- wp (match _ with _ => _ end) _ _ _ => wp_step
  | |- wp (let _ := _ in _) _ _ _ => cbv zeta
  | |- wp ?m _ _ _ => let h := prog_head m in unfold h
  | |- any _ _ => exact Logic.I
  end; cbv beta.


(** Reduce reads and writes of tables. *)
Ltac wsimpl :=
  cbn [tb_rows tb_store tb_id tb_clash
    users_t organizers_t events_t gates_t inventories_t reservations_t orders_t payments_t
    ledger_t audit_logs_t outbox_t payment_intents_t webhook_events_t tickets_t floor_sections_t venue_tables_t
    event_tables_t table_reservations_t sessions_t support_audits_t catalog set_catalog users organizers events
    gates venues set_users set_organizers set_events set_gates set_venues stock set_stock inventories
    reservations set_inventories set_reservations checkout set_checkout orders payments ledger
    idempotency set_orders set_payments set_ledger set_idempotency journal set_journal audit_logs
    outbox support_audits set_audit_logs set_outbox set_support_audits intents set_intents payment_intents intent_audits webhook_events
    set_payment_intents set_intent_audits set_webhook_events ticketing set_ticketing tickets issuance_audits scan_audits
    set_tickets set_issuance_audits set_scan_audits seating set_seating floor_sections venue_tables event_tables
    table_reservations table_audits set_floor_sections set_venue_tables set_event_tables set_table_reservations set_table_audits identity
    set_identity sessions auth_audits set_sessions set_auth_audits] in *.

(** The row just updated is the row that was read. *)
Ltac same_row H :=
  lazymatch type of H with
  | ?t !! ?k = Some ?a =>
      repeat match goal with
      | H2 : t !! k = Some ?b |- _ =>
          assert_fails (constr_eq a b); assert (b = a) by congruence; subst b
      end
  end.

(** Execute up to the calls of [f], which a lemma describes. *)
Ltac wp_until f :=
  repeat (lazymatch goal with
          | |- wp ?m _ _ _ => let h := prog_head m in assert_fails (constr_eq h f)
          | |- _ => idtac
          end; wp_stmt);
  try exact Logic.I.

(** A call whose lemma is known. *)
Ltac wp_call lem := eapply wp_mono; [apply lem | | done].

(** Execute to the end of every branch and reduce the tables. *)
Ltac wp_go := repeat wp_stmt; try exact Logic.I; wsimpl.

(** Reduce the fields of concrete rows as well. *)
Ltac rsimpl :=
  wsimpl;
  cbn [user_id user_email user_passwordHash user_role user_isActive user_emailVerifiedAt org_id org_ownerUserId
    org_status org_profile op_displayName op_slug op_description op_contactEmail op_contactPhone
    ev_listing el_title el_slug el_description el_category el_startsAt el_timezone el_venueName
    el_addressLine1 el_addressLine2 el_city el_region el_country el_latitude el_longitude
    el_capacityTotal el_capacityHeld el_publishedAt el_cancelledAt ev_id ev_organizerId ev_venueId ev_status ev_visibility ev_endsAt ev_paymentEnabled
    ev_priceMinor ev_priceCurrency gate_id gate_venueId inv_id inv_eventId inv_ticketTypeId inv_capacityTotal
    inv_reservedCount inv_soldCount rsv_id rsv_ownerUserId rsv_eventId rsv_ticketTypeId rsv_quantity rsv_status
    rsv_expiresAt ord_id ord_userId ord_eventId ord_reservationId ord_status ord_totalAmount ord_currency
    pay_id pay_orderId pay_provider pay_providerRef pay_status pay_amount led_id led_orderId
    led_paymentId led_direction led_accountType led_amount led_currency led_correlationId idk_actorUserId idk_useCase
    idk_idempotencyKeyHash idk_requestHash idk_responseCode idk_responseBody tk_id tk_ticketNumber tk_eventId tk_organizerId
    tk_ticketTypeId tk_ownerUserId tk_orderId tk_paymentIntentId tk_status tk_admissionTokenHash tk_admissionTokenVersion tk_ticketSerial
    tk_publicReference tk_issuedAt tk_usedAt tk_voidedAt tk_expiresAt al_id al_actorId al_action
    al_entityType al_entityId al_correlationId al_metadata ob_id ob_aggregateType ob_aggregateId ob_eventType
    ob_payload ob_createdAt ob_processed ob_processedAt ob_retryCount ob_nextAttemptAt ob_lastErrorCode ob_deadLetteredAt
    pi_id pi_buyerUserId pi_organizerId pi_eventId pi_provider pi_status pi_amountMinor pi_currency
    pi_idempotencyUseCase pi_idempotencyKeyHash pi_requestFingerprintHash pi_providerReference pi_providerCheckoutUrl pi_providerAccessCode pi_providerRawResponse pi_failureCode
    pi_failureMessage pi_initiatedAt pi_verifiedAt pi_failedAt pi_providerVerifiedStatus pi_providerVerifiedAmount pi_providerVerifiedCurrency pi_providerVerificationRaw
    ia_paymentIntentId ia_buyerUserId ia_eventType ia_data we_id we_provider we_providerEventId we_providerReference
    we_payloadHash we_signatureValid we_processingStatus we_failureCode we_failureMessage we_rawHeaders we_rawPayload we_verifiedPayload
    we_paymentIntentId we_processedAt isa_paymentIntentId isa_ticketId isa_buyerUserId isa_eventId isa_organizerId isa_auditEvent
    isa_reason sa_ticketId sa_eventId sa_organizerId sa_scannedByUserId sa_status sa_rejectionReason sa_tokenHash
    sa_deviceId sa_gateLabel sa_metadata sa_scannedAt ses_id ses_userId ses_deviceId ses_refreshTokenHash
    ses_previousRefreshTokenHash ses_refreshTokenVersion ses_userAgent ses_ipAddress ses_lastSeenAt ses_expiresAt ses_status ses_revokedAt
    ses_revokedReason aa_action aa_success aa_userId aa_email aa_sessionId aa_ipAddress aa_userAgent
    aa_reason aa_metadata fs_id fs_organizerId fs_name fs_description vt_id vt_organizerId
    vt_floorSectionId vt_label vt_seatCount vt_status et_id et_organizerId et_eventId et_venueTableId
    et_status et_priceMinor et_currency et_holdExpiresAt tr_id tr_actorUserId tr_organizerId tr_eventId
    tr_eventTableId tr_status tr_amountMinor tr_currency tr_idempotencyUseCase tr_idempotencyKeyHash tr_requestFingerprintHash tr_holdExpiresAt
    tr_cancelledAt tr_expiredAt ta_actorUserId ta_organizerId ta_eventId ta_venueTableId ta_eventTableId ta_reservationId
    ta_event ta_reason ta_metadata] in *.
