(* ===== verification/Context.v ===== *)
(** Context.v: the request context (src/src/shared/context) and the append-only
    journal every service writes to: the audit log
    (src/src/modules/audit/infrastructure/repositories) and the outbox
    (src/src/shared/outbox/prisma-outbox.repository.ts). *)

From S2P Require Import Prelude Errors Store.

(** [RequestContextValue] *)
Record RequestContextValue : Type := {
  correlationId : string;
  requestId : string;
  ctx_userId : option string;
  ctx_deviceId : option string;
  ctx_organizerId : option string;
  ctx_ipAddress : option string;
  ctx_userAgent : option string
}.

(** A header as Express gives it: absent, a string, or several values. *)
Inductive header : Type :=
| HAbsent
| HOne (s : string)
| HMany (l : list string).

(** [getHeaderValue] *)
Definition getHeaderValue (h : header) : option string :=
  match h with
  | HOne s => Some s
  | HMany l => head l
  | HAbsent => None
  end.

Definition is_alnum (c : Ascii.ascii) : bool :=
  let n := Ascii.nat_of_ascii c in
  (48 <=? n) && (n <=? 57) || (65 <=? n) && (n <=? 90) || (97 <=? n) && (n <=? 122).

(** One character of [A-Za-z0-9._:-]. *)
Definition correlation_char (c : Ascii.ascii) : bool :=
  is_alnum c || bool_decide (c = "."%char) || bool_decide (c = "_"%char)
  || bool_decide (c = ":"%char) || bool_decide (c = "-"%char).

Fixpoint string_forall (P : Ascii.ascii -> bool) (s : string) : bool :=
  match s with
  | EmptyString => true
  | String c s' => P c && string_forall P s'
  end.

(** [isValidCorrelationId]: the pattern /^[A-Za-z0-9._:-]{8,128}$/ *)
Definition isValidCorrelationId (value : option string) : bool :=
  match value with
  | Some s => (8 <=? String.length s) && (String.length s <=? 128) && string_forall correlation_char s
  | None => false
  end.

(** What the middleware reads of the request. *)
Record RequestLike : Type := {
  h_correlationId : header;
  h_userAgent : header;
  h_deviceId : header;
  h_organizerId : header;
  rq_ip : option string;
  rq_remoteAddress : option string;
  rq_user_id : option string;
  rq_user_userId : option string;
  rq_user_deviceId : option string;
  rq_user_organizerId : option string
}.

(** [a ?? b] *)
Definition nullish {A} (a b : option A) : option A :=
  match a with Some _ => a | None => b end.

(** [RequestContextMiddleware.use]: the context it runs the request in; the
    correlation and request ids are also the response headers. *)
Definition middleware_use (uuid : nat -> string) (rq : RequestLike) : RequestContextValue :=
  let inbound := getHeaderValue (h_correlationId rq) in
  {| correlationId := match inbound with
                      | Some c => if isValidCorrelationId inbound then c else uuid 1
                      | None => uuid 1
                      end;
     requestId := uuid 0;
     ctx_userId := nullish (rq_user_id rq) (rq_user_userId rq);
     ctx_deviceId := nullish (rq_user_deviceId rq) (getHeaderValue (h_deviceId rq));
     ctx_organizerId := nullish (rq_user_organizerId rq) (getHeaderValue (h_organizerId rq));
     ctx_ipAddress := nullish (rq_ip rq) (rq_remoteAddress rq);
     ctx_userAgent := getHeaderValue (h_userAgent rq) |}.

(** [ctx?.userId] when it is truthy. *)
Definition actor_of (ctx : option RequestContextValue) : option string :=
  truthy (ctx ≫= ctx_userId).

(** [ctx?.correlationId] *)
Definition correlation_of (ctx : option RequestContextValue) : option string :=
  correlationId <$> ctx.

(** The context of an authenticated request, for the examples. *)
Definition context_for (user corr : string) : RequestContextValue :=
  {| correlationId := corr; requestId := "req"; ctx_userId := Some user; ctx_deviceId := None;
     ctx_organizerId := None; ctx_ipAddress := None; ctx_userAgent := None |}.

(** [PrismaAuditLogRepository.append] *)
Definition appendAuditLog (id : string) (actorId : option string)
    (action entityType entityId : string) (corr : option string) (metadata : json) : op unit :=
  create audit_logs_t
    {| al_id := id; al_actorId := actorId; al_action := action; al_entityType := entityType;
       al_entityId := entityId; al_correlationId := corr; al_metadata := metadata |}.

(** [PrismaOutboxRepository.append]: the other columns take their defaults. *)
Definition appendOutbox (createdAt : Z) (id aggregateType aggregateId eventType : string)
    (payload : json) : op unit :=
  create outbox_t
    {| ob_id := id; ob_aggregateType := aggregateType; ob_aggregateId := aggregateId;
       ob_eventType := eventType; ob_payload := payload; ob_createdAt := createdAt;
       ob_processed := false; ob_processedAt := None; ob_retryCount := 0;
       ob_nextAttemptAt := None; ob_lastErrorCode := None; ob_deadLetteredAt := None |}.

(** The correlation id of a request is either the caller's, when it is 8 to 128
    characters of the allowed set, or the generated one. *)
Lemma middleware_correlation_valid uuid rq :
  isValidCorrelationId (Some (uuid 1)) = true ->
  isValidCorrelationId (Some (correlationId (middleware_use uuid rq))) = true.
Proof.
  intros Hu. unfold middleware_use; cbn [correlationId].
  destruct (getHeaderValue _) as [c |] eqn:E; [| exact Hu].
  destruct (isValidCorrelationId (Some c)) eqn:Hc; [exact Hc | exact Hu].
Qed.
