(* ===== verification/LaunchControl.v ===== *)
(** LaunchControl.v: the pilot launch controls
    (src/src/shared/launch-control/launch-control.service.ts). *)

From S2P Require Import Prelude Errors Store.

(** The configuration values the constructor reads. *)
Record PilotConfig : Type := {
  PILOT_CHECKOUT_ENABLED : option bool;
  PILOT_PAYMENTS_ENABLED : option bool;
  PILOT_ADMISSIONS_ENABLED : option bool;
  PILOT_ALLOWED_PAYMENT_PROVIDERS : option (list string);
  PILOT_ALLOWED_CURRENCIES : option (list string);
  PILOT_ALLOWED_ORGANIZER_IDS : option (list string);
  PILOT_ALLOWED_EVENT_IDS : option (list string);
  PILOT_ALLOWED_GATE_IDS : option (list string)
}.

(** The service's fields: an absent set allows everything. *)
Record LaunchControlService : Type := {
  checkoutEnabled : bool;
  paymentsEnabled : bool;
  admissionsEnabled : bool;
  allowedProviders : option (gset string);
  allowedCurrencies : option (gset string);
  allowedOrganizerIds : option (gset string);
  allowedEventIds : option (gset string);
  allowedGateIds : option (gset string)
}.

Record EventScope : Type := {
  scope_eventId : string;
  scope_organizerId : string;
  scope_venueId : string
}.

(** [toReadonlySet]: no list and the empty list both mean no restriction. *)
Definition toReadonlySet (values : option (list string)) : option (gset string) :=
  match values with
  | None | Some [] => None
  | Some l => Some (list_to_set l)
  end.

(** The constructor. *)
Definition launch_control (c : PilotConfig) : LaunchControlService :=
  {| checkoutEnabled := default true (PILOT_CHECKOUT_ENABLED c);
     paymentsEnabled := default true (PILOT_PAYMENTS_ENABLED c);
     admissionsEnabled := default true (PILOT_ADMISSIONS_ENABLED c);
     allowedProviders := toReadonlySet (PILOT_ALLOWED_PAYMENT_PROVIDERS c);
     allowedCurrencies := toReadonlySet (PILOT_ALLOWED_CURRENCIES c);
     allowedOrganizerIds := toReadonlySet (PILOT_ALLOWED_ORGANIZER_IDS c);
     allowedEventIds := toReadonlySet (PILOT_ALLOWED_EVENT_IDS c);
     allowedGateIds := toReadonlySet (PILOT_ALLOWED_GATE_IDS c) |}.

(** [this.allowedX && !this.allowedX.has(x)] *)
Definition refused (s : option (gset string)) (x : string) : bool :=
  match s with
  | Some s => bool_decide (x ∉ s)
  | None => false
  end.

Section Service.
Context (lc : LaunchControlService).

Definition loadEventScope (eventId : string) : op EventScope :=
  let* ev := findUnique events_t eventId in
  match ev with
  | None => throw (NotFoundError "Event not found.")
  | Some ev =>
      ret {| scope_eventId := ev_id ev; scope_organizerId := ev_organizerId ev;
             scope_venueId := ev_venueId ev |}
  end.

Definition loadGate (gateId : string) : op gate :=
  let* g := findUnique gates_t gateId in
  or_throw g (NotFoundError "Gate not found.").

Definition assertEventScopeAllowed (scope : EventScope) : op unit :=
  do* throw_if (refused (allowedEventIds lc) (scope_eventId scope))
        (LaunchControlViolationError
           ("Event " ++ scope_eventId scope ++ " is not enabled for the pilot.")) in
  throw_if (refused (allowedOrganizerIds lc) (scope_organizerId scope))
    (LaunchControlViolationError
       ("Organizer " ++ scope_organizerId scope ++ " is not enabled for the pilot.")).

Definition assertProviderAllowed (provider : string) : op unit :=
  throw_if (refused (allowedProviders lc) provider)
    (LaunchControlViolationError
       ("Payment provider " ++ provider ++ " is not enabled for the pilot.")).

Definition assertCurrencyAllowed (currency : string) : op unit :=
  throw_if (refused (allowedCurrencies lc) currency)
    (LaunchControlViolationError ("Currency " ++ currency ++ " is not enabled for the pilot.")).

Definition assertCheckoutAllowed (eventId currency : string) : op unit :=
  do* throw_if (negb (checkoutEnabled lc))
        (LaunchControlDisabledError "Checkout is disabled by pilot launch control.") in
  let* scope := loadEventScope eventId in
  do* assertEventScopeAllowed scope in
  assertCurrencyAllowed currency.

Definition assertPaymentInitiationAllowed (provider eventId currency : string) : op unit :=
  do* throw_if (negb (paymentsEnabled lc))
        (LaunchControlDisabledError "Payment initiation is disabled by pilot launch control.") in
  let* scope := loadEventScope eventId in
  do* assertEventScopeAllowed scope in
  do* assertProviderAllowed provider in
  assertCurrencyAllowed currency.

Definition assertAdmissionValidationAllowed (eventId gateId : string) : op unit :=
  do* throw_if (negb (admissionsEnabled lc))
        (LaunchControlDisabledError "Admission validation is disabled by pilot launch control.") in
  let* scope := loadEventScope eventId in
  let* g := loadGate gateId in
  do* assertEventScopeAllowed scope in
  do* throw_if (negb (bool_decide (gate_venueId g = scope_venueId scope)))
        (DomainConflictError "Gate does not belong to the ticket event venue.") in
  throw_if (refused (allowedGateIds lc) gateId)
    (LaunchControlViolationError ("Gate " ++ gateId ++ " is not enabled for the pilot.")).

(** What the configuration permits, as a predicate. *)
Definition permits (s : option (gset string)) (x : string) : Prop :=
  match s with Some s => x ∈ s | None => True end.

Definition checkout_permitted (ev : event) (currency : string) : Prop :=
  checkoutEnabled lc = true /\ permits (allowedEventIds lc) (ev_id ev) /\
  permits (allowedOrganizerIds lc) (ev_organizerId ev) /\
  permits (allowedCurrencies lc) currency.

Definition payment_permitted (ev : event) (provider currency : string) : Prop :=
  paymentsEnabled lc = true /\ permits (allowedEventIds lc) (ev_id ev) /\
  permits (allowedOrganizerIds lc) (ev_organizerId ev) /\
  permits (allowedProviders lc) provider /\ permits (allowedCurrencies lc) currency.

Definition admission_permitted (ev : event) (g : gate) (gateId : string) : Prop :=
  admissionsEnabled lc = true /\ permits (allowedEventIds lc) (ev_id ev) /\
  permits (allowedOrganizerIds lc) (ev_organizerId ev) /\
  gate_venueId g = ev_venueId ev /\ permits (allowedGateIds lc) gateId.

End Service.

(* ------------------------------------------------------------------ *)
(** ** Lemmas                                                           *)

Lemma refused_permits s x : refused s x = false <-> permits s x.
Proof.
  destruct s as [s |]; cbn; [| done].
  rewrite bool_decide_eq_false. split; [apply dec_stable | tauto].
Qed.

Lemma refused_not_permits s x : refused s x = true <-> ~ permits s x.
Proof. rewrite <- refused_permits. destruct (refused s x); naive_solver. Qed.

(** The assertions only read. *)
Definition reads_only {A} (m : op A) : Prop := forall w, (m w).2 = w.

Lemma throw_if_run {S} b (e : error) (s : S) :
  throw_if b e s = (if b then Err e else Ok tt, s).
Proof. by destruct b. Qed.

#[export] Hint Rewrite refused_permits refused_not_permits negb_true_iff negb_false_iff
  @bool_decide_eq_true @bool_decide_eq_false : launch.

(** Run an assertion to its outcome, splitting on each guard. *)
Ltac launch_cases :=
  repeat match goal with
  | |- context [throw_if ?b _ _] => rewrite (throw_if_run b); destruct b eqn:?
  | |- context [match ?x with Some _ => _ | None => _ end] => destruct x eqn:?
  | |- context [ret _ _] => unfold ret; cbv beta iota
  end; autorewrite with launch in *.

(** Each branch either meets the condition or contradicts it. *)
Ltac launch_iff :=
  cbn [fst scope_eventId scope_organizerId scope_venueId] in *;
  split; intros Hrun; destruct_and?; repeat match goal with H : exists _, _ |- _ => destruct H end; destruct_and?; simplify_eq;
  first [ done | congruence | contradiction | by repeat eexists ].

Lemma assertCheckoutAllowed_reads_only lc eventId currency :
  reads_only (assertCheckoutAllowed lc eventId currency).
Proof.
  intros w. unfold assertCheckoutAllowed, loadEventScope, assertEventScopeAllowed,
    assertCurrencyAllowed, bind, findUnique, reads, throw, ret.
  cbn [tb_rows events_t]. launch_cases; done.
Qed.

Lemma assertPaymentInitiationAllowed_reads_only lc provider eventId currency :
  reads_only (assertPaymentInitiationAllowed lc provider eventId currency).
Proof.
  intros w. unfold assertPaymentInitiationAllowed, loadEventScope, assertEventScopeAllowed,
    assertProviderAllowed, assertCurrencyAllowed, bind, findUnique, reads, throw, ret.
  cbn [tb_rows events_t]. launch_cases; done.
Qed.

(** The checkout gate is open exactly when the event exists and everything the
    configuration restricts is permitted. *)
Lemma assertCheckoutAllowed_iff lc eventId currency w :
  (assertCheckoutAllowed lc eventId currency w).1 = Ok tt <->
  exists ev, events (catalog w) !! eventId = Some ev /\ checkout_permitted lc ev currency.
Proof.
  unfold assertCheckoutAllowed, loadEventScope, assertEventScopeAllowed,
    assertCurrencyAllowed, bind, findUnique, reads, throw, ret, checkout_permitted.
  cbn [tb_rows events_t]. launch_cases; launch_iff.
Qed.

(** So is the payment gate. *)
Lemma assertPaymentInitiationAllowed_iff lc provider eventId currency w :
  (assertPaymentInitiationAllowed lc provider eventId currency w).1 = Ok tt <->
  exists ev, events (catalog w) !! eventId = Some ev /\
             payment_permitted lc ev provider currency.
Proof.
  unfold assertPaymentInitiationAllowed, loadEventScope, assertEventScopeAllowed,
    assertProviderAllowed, assertCurrencyAllowed, bind, findUnique, reads, throw, ret,
    payment_permitted.
  cbn [tb_rows events_t]. launch_cases; launch_iff.
Qed.

(** And the admission gate, which also ties the gate to the event's venue. *)
Lemma assertAdmissionValidationAllowed_iff lc eventId gateId w :
  (assertAdmissionValidationAllowed lc eventId gateId w).1 = Ok tt <->
  exists ev g, events (catalog w) !! eventId = Some ev /\ gates (catalog w) !! gateId = Some g /\
               admission_permitted lc ev g gateId.
Proof.
  unfold assertAdmissionValidationAllowed, loadEventScope, loadGate, assertEventScopeAllowed,
    bind, findUnique, reads, throw, ret, or_throw, admission_permitted.
  cbn [tb_rows events_t gates_t]. launch_cases; launch_iff.
Qed.

(* ------------------------------------------------------------------ *)
(** ** Properties                                                       *)

(** The three pilot gates are exact: each opens precisely when its kill switch is on, the
    event (and the gate) exist, and everything the configuration restricts,
    event, organizer, provider, currency, admission gate, is on its list; the
    admission gate also has to stand at the event's venue. *)
Theorem launch_gates_exact lc eventId provider currency gateId w :
  ((assertCheckoutAllowed lc eventId currency w).1 = Ok tt <->
     exists ev, events (catalog w) !! eventId = Some ev /\ checkout_permitted lc ev currency) /\
  ((assertPaymentInitiationAllowed lc provider eventId currency w).1 = Ok tt <->
     exists ev, events (catalog w) !! eventId = Some ev /\
                payment_permitted lc ev provider currency) /\
  ((assertAdmissionValidationAllowed lc eventId gateId w).1 = Ok tt <->
     exists ev g, events (catalog w) !! eventId = Some ev /\
                  gates (catalog w) !! gateId = Some g /\ admission_permitted lc ev g gateId).
Proof.
  split_and!; [apply assertCheckoutAllowed_iff | apply assertPaymentInitiationAllowed_iff
              | apply assertAdmissionValidationAllowed_iff].
Qed.
