(* ===== verification/Inventory.v ===== *)
(** Inventory.v: ticket inventory and reservations (src/src/modules/inventory):
    the two repositories and the four use cases. *)

From S2P Require Import Prelude Errors Store Context.

Local Open Scope Z_scope.

(* ------------------------------------------------------------------ *)
(** ** PrismaInventoryRepository                                        *)

(** The unique index (event_id, ticket_type_id). *)
Definition is_bucket (eventId ticketTypeId : string) (i : inventory) : bool :=
  bool_decide (inv_eventId i = eventId) && bool_decide (inv_ticketTypeId i = ticketTypeId).

Definition lockInventory (eventId ticketTypeId : string) : op (option inventory) :=
  findFirst inventories_t (is_bucket eventId ticketTypeId).

Definition with_reservedCount (n : Z) (i : inventory) : inventory :=
  {| inv_id := inv_id i; inv_eventId := inv_eventId i; inv_ticketTypeId := inv_ticketTypeId i;
     inv_capacityTotal := inv_capacityTotal i; inv_reservedCount := n;
     inv_soldCount := inv_soldCount i |}.

Definition with_soldCount (n : Z) (i : inventory) : inventory :=
  {| inv_id := inv_id i; inv_eventId := inv_eventId i; inv_ticketTypeId := inv_ticketTypeId i;
     inv_capacityTotal := inv_capacityTotal i; inv_reservedCount := inv_reservedCount i;
     inv_soldCount := n |}.

Definition updateReservedCount (inventoryId : string) (newReservedCount : Z) : op unit :=
  do* update inventories_t inventoryId (with_reservedCount newReservedCount) in ret tt.

Definition incrementSoldCount (inventoryId : string) (delta : Z) : op unit :=
  do* update inventories_t inventoryId (fun i => with_soldCount (inv_soldCount i + delta) i) in
  ret tt.

(* ------------------------------------------------------------------ *)
(** ** PrismaReservationRepository                                      *)

Definition createHeldReservation (id ownerUserId eventId ticketTypeId : string)
    (quantity expiresAt : Z) : op unit :=
  create reservations_t
    {| rsv_id := id; rsv_ownerUserId := ownerUserId; rsv_eventId := eventId;
       rsv_ticketTypeId := ticketTypeId; rsv_quantity := quantity; rsv_status := HELD;
       rsv_expiresAt := expiresAt |}.

(** WHERE status = 'HELD' AND expires_at <= NOW() *)
Definition is_expired_held (now : Z) (r : reservation) : bool :=
  bool_decide (rsv_status r = HELD) && (rsv_expiresAt r <=? now).

Definition expires_le (a b : reservation) : Prop := rsv_expiresAt a <= rsv_expiresAt b.
#[export] Instance expires_le_dec : RelDecision expires_le.
Proof. intros a b. unfold expires_le. apply _. Defined.

(** The batch query; [skipped] are the rows another transaction has locked. *)
Definition claimExpiredHeldReservations (limit : nat) (skipped : string -> bool) (now : Z)
  : op (list reservation) :=
  reads (fun w =>
    lock_rows expires_le rsv_id limit skipped (is_expired_held now) (reservations (stock w))).

(** WHERE event_id, ticket_type_id AND status = 'HELD' AND expires_at > NOW() *)
Definition is_active (eventId ticketTypeId : string) (now : Z) (r : reservation) : bool :=
  bool_decide (rsv_eventId r = eventId) && bool_decide (rsv_ticketTypeId r = ticketTypeId) &&
  bool_decide (rsv_status r = HELD) && (now <? rsv_expiresAt r).

Definition active_quantity (eventId ticketTypeId : string) (now : Z) (r : reservation) : Z :=
  if is_active eventId ticketTypeId now r then rsv_quantity r else 0.

(** COALESCE(SUM(quantity), 0) over the active reservations of a bucket. *)
Definition active_total (eventId ticketTypeId : string) (now : Z) (w : world) : Z :=
  map_sum (active_quantity eventId ticketTypeId now) (reservations (stock w)).

Definition getActiveReservationQuantity (eventId ticketTypeId : string) (now : Z) : op Z :=
  reads (active_total eventId ticketTypeId now).

Definition with_rsv_status (s : ReservationStatus) (r : reservation) : reservation :=
  {| rsv_id := rsv_id r; rsv_ownerUserId := rsv_ownerUserId r; rsv_eventId := rsv_eventId r;
     rsv_ticketTypeId := rsv_ticketTypeId r; rsv_quantity := rsv_quantity r; rsv_status := s;
     rsv_expiresAt := rsv_expiresAt r |}.

Definition updateReservationStatus (reservationId : string) (s : ReservationStatus) : op unit :=
  do* update reservations_t reservationId (with_rsv_status s) in ret tt.

Definition findReservationById (reservationId : string) : op (option reservation) :=
  findUnique reservations_t reservationId.

(* ------------------------------------------------------------------ *)
(** ** ReserveInventoryUseCase                                          *)

Record ReserveInventoryInput : Type := {
  rin_eventId : string;
  rin_ticketTypeId : string;
  rin_quantity : jsnum;
  rin_holdTtlSeconds : jsnum
}.

Record ReserveInventoryResult : Type := {
  rres_reservationId : string;
  rres_expiresAt : Z;
  rres_quantity : Z
}.

(** [Number.isInteger(n) && n > 0] *)
Definition positive_integer (n : jsnum) : option Z :=
  match n with
  | JInt z => if 0 <? z then Some z else None
  | JFrac => None
  end.

(** [cachedAvailable <= Math.max(Math.floor(capacityTotal * 0.05), 50)] *)
Definition is_tight (i : inventory) : bool :=
  inv_capacityTotal i - inv_reservedCount i - inv_soldCount i
    <=? Z.max (inv_capacityTotal i / 20) 50.

(** The transaction body.  Draws of [randomUUID]: 0 is the reservation, 1 the
    audit entry, 2 the outbox event. *)
Definition reserve_tx (uuid : nat -> string) (ck : clock) (ctx : option RequestContextValue)
    (actorUserId eventId ticketTypeId : string) (quantity holdTtlSeconds : Z)
  : op ReserveInventoryResult :=
  let* found := lockInventory eventId ticketTypeId in
  let* inventory := or_throw found (NotFoundError "Inventory bucket not found.") in
  let* authoritativeReserved :=
    (if is_tight inventory
     then getActiveReservationQuantity eventId ticketTypeId (db_now ck)
     else ret (inv_reservedCount inventory)) in
  let available := inv_capacityTotal inventory - authoritativeReserved - inv_soldCount inventory in
  do* throw_if (available <? quantity)
        (InventoryUnavailableError "Not enough tickets available.") in
  let reservationId := uuid 0%nat in
  let expiresAt := app_now ck + holdTtlSeconds * 1000 in
  let newReservedCount := authoritativeReserved + quantity in
  do* createHeldReservation reservationId actorUserId eventId ticketTypeId quantity expiresAt in
  do* updateReservedCount (inv_id inventory) newReservedCount in
  do* appendAuditLog (uuid 1%nat) (ctx ≫= ctx_userId) "INVENTORY_RESERVED" "ticket_reservation"
        reservationId (correlation_of ctx)
        (JObj [("eventId", JStr eventId); ("ticketTypeId", JStr ticketTypeId);
               ("quantity", JNum quantity); ("expiresAt", JDate expiresAt)]) in
  do* appendOutbox (db_now ck) (uuid 2%nat) "ticket_reservation" reservationId
        "TicketReservationCreated"
        (JObj [("reservationId", JStr reservationId); ("eventId", JStr eventId);
               ("ticketTypeId", JStr ticketTypeId); ("quantity", JNum quantity);
               ("expiresAt", JDate expiresAt)]) in
  ret {| rres_reservationId := reservationId; rres_expiresAt := expiresAt;
         rres_quantity := quantity |}.

(** [execute] *)
Definition reserveInventory (uuid : nat -> string) (ck : clock)
    (ctx : option RequestContextValue) (input : ReserveInventoryInput)
  : op ReserveInventoryResult :=
  let* quantity := or_throw (positive_integer (rin_quantity input))
      (DomainConflictError "Reservation quantity must be a positive integer.") in
  let* ttl := or_throw (positive_integer (rin_holdTtlSeconds input))
      (DomainConflictError "Hold TTL must be a positive integer.") in
  let* actorUserId := or_throw (actor_of ctx)
      (DomainConflictError "Authenticated user context is required.") in
  transaction
    (reserve_tx uuid ck ctx actorUserId (rin_eventId input) (rin_ticketTypeId input) quantity ttl).

(* ------------------------------------------------------------------ *)
(** ** ReleaseExpiredReservationUseCase                                 *)

Record ReleaseResult : Type := {
  rel_released : bool;
  rel_inventoryId : option string;
  rel_reservedCount : option Z
}.

(** [now] is [input.now ?? new Date()]. *)
Definition releaseExpiredReservation (ck : clock) (reservationId : string) (inputNow : option Z)
  : op ReleaseResult :=
  let now := default (app_now ck) inputNow in
  transaction (
    let* found := findReservationById reservationId in
    let* r := or_throw found (NotFoundException "Reservation not found") in
    if negb (bool_decide (rsv_status r = HELD)) || (now <? rsv_expiresAt r)
    then ret {| rel_released := false; rel_inventoryId := None; rel_reservedCount := None |}
    else
      let* locked := lockInventory (rsv_eventId r) (rsv_ticketTypeId r) in
      let* inventory := or_throw locked (NotFoundException "Inventory not found") in
      let* liveReserved :=
        getActiveReservationQuantity (rsv_eventId r) (rsv_ticketTypeId r) (db_now ck) in
      do* updateReservationStatus (rsv_id r) EXPIRED in
      do* updateReservedCount (inv_id inventory) liveReserved in
      ret {| rel_released := true; rel_inventoryId := Some (inv_id inventory);
             rel_reservedCount := Some liveReserved |}).

(* ------------------------------------------------------------------ *)
(** ** ReconcileInventoryDriftUseCase                                   *)

Record ReconcileResult : Type := {
  rec_inventoryId : string;
  rec_cachedReservedCount : Z;
  rec_liveReservedCount : Z;
  rec_corrected : bool
}.

Definition reconcileInventoryDrift (ck : clock) (eventId ticketTypeId : string)
  : op ReconcileResult :=
  transaction (
    let* locked := lockInventory eventId ticketTypeId in
    let* inventory := or_throw locked (NotFoundException "Inventory not found") in
    let* liveReserved := getActiveReservationQuantity eventId ticketTypeId (db_now ck) in
    let corrected := negb (liveReserved =? inv_reservedCount inventory) in
    do* when corrected (updateReservedCount (inv_id inventory) liveReserved) in
    ret {| rec_inventoryId := inv_id inventory;
           rec_cachedReservedCount := inv_reservedCount inventory;
           rec_liveReservedCount := liveReserved; rec_corrected := corrected |}).

(* ------------------------------------------------------------------ *)
(** ** SweepExpiredReservationsUseCase                                  *)

Definition DEFAULT_SWEEP_LIMIT : nat := 100.

(** One iteration of the sweep. *)
Definition sweep_one (auditId outboxId : string) (ck : clock) (r : reservation) : op unit :=
  let* locked := lockInventory (rsv_eventId r) (rsv_ticketTypeId r) in
  let* inventory := or_throw locked
      (NotFoundError "Inventory bucket not found for expired reservation.") in
  do* updateReservationStatus (rsv_id r) EXPIRED in
  let* liveReserved :=
    getActiveReservationQuantity (rsv_eventId r) (rsv_ticketTypeId r) (db_now ck) in
  do* updateReservedCount (inv_id inventory) liveReserved in
  do* appendAuditLog auditId None "RESERVATION_EXPIRED" "ticket_reservation" (rsv_id r) None
        (JObj [("eventId", JStr (rsv_eventId r)); ("ticketTypeId", JStr (rsv_ticketTypeId r));
               ("quantity", JNum (rsv_quantity r)); ("expiresAt", JDate (rsv_expiresAt r))]) in
  appendOutbox (db_now ck) outboxId "ticket_reservation" (rsv_id r) "TicketReservationExpired"
    (JObj [("reservationId", JStr (rsv_id r)); ("eventId", JStr (rsv_eventId r));
           ("ticketTypeId", JStr (rsv_ticketTypeId r)); ("quantity", JNum (rsv_quantity r))]).

(** The loop: iteration [i] draws the ids [2 * i] and [2 * i + 1]. *)
Fixpoint sweep_loop (uuid : nat -> string) (ck : clock) (i : nat) (rs : list reservation)
  : op (list string) :=
  match rs with
  | [] => ret []
  | r :: rs' =>
      do* sweep_one (uuid (2 * i)%nat) (uuid (2 * i + 1)%nat) ck r in
      let* ids := sweep_loop uuid ck (S i) rs' in
      ret (rsv_id r :: ids)
  end.

(** [execute]: the ids swept; [swept] is their number.  The log line and the
    counter written after the transaction are not modelled. *)
Definition sweepExpiredReservations (uuid : nat -> string) (ck : clock) (skipped : string -> bool)
    (limit : option nat) : op (list string) :=
  transaction (
    let* expired :=
      claimExpiredHeldReservations (default DEFAULT_SWEEP_LIMIT limit) skipped (db_now ck) in
    sweep_loop uuid ck 0 expired).

(* ------------------------------------------------------------------ *)
(** ** Well-formed stock and the reservations that count                *)

(** Rows are stored under their ids and a bucket has one inventory row. *)
Record wf_stock (w : world) : Prop := {
  wf_inv_keyed : keyed inv_id (inventories (stock w));
  wf_rsv_keyed : keyed rsv_id (reservations (stock w));
  wf_bucket_unique : forall k1 k2 i1 i2,
    inventories (stock w) !! k1 = Some i1 -> inventories (stock w) !! k2 = Some i2 ->
    inv_eventId i1 = inv_eventId i2 -> inv_ticketTypeId i1 = inv_ticketTypeId i2 -> k1 = k2;
  wf_quantity : forall k r, reservations (stock w) !! k = Some r -> 0 <= rsv_quantity r
}.

Lemma is_bucket_true e t i :
  is_bucket e t i = true <-> inv_eventId i = e /\ inv_ticketTypeId i = t.
Proof. unfold is_bucket. by rewrite andb_true_iff, !bool_decide_eq_true. Qed.

(** The locked row is stored under its own id. *)
Lemma locked_row w e t i :
  wf_stock w -> find_row (is_bucket e t) (inventories (stock w)) = Some i ->
  inventories (stock w) !! inv_id i = Some i /\ inv_eventId i = e /\ inv_ticketTypeId i = t.
Proof.
  intros Hwf Hi. apply find_row_Some in Hi as (k & Hk & Hb).
  apply is_bucket_true in Hb. by rewrite (wf_inv_keyed _ Hwf _ _ Hk).
Qed.

(** Locking a bucket finds its inventory row. *)
Lemma lock_finds w k i :
  wf_stock w -> inventories (stock w) !! k = Some i ->
  find_row (is_bucket (inv_eventId i) (inv_ticketTypeId i)) (inventories (stock w)) = Some i.
Proof.
  intros Hwf Hk. eapply find_row_unique; [exact Hk | by apply is_bucket_true |].
  intros k' i' Hk' Hb. apply is_bucket_true in Hb as [He Ht].
  by eapply (wf_bucket_unique _ Hwf).
Qed.

Lemma active_quantity_nonneg e t now r : 0 <= rsv_quantity r -> 0 <= active_quantity e t now r.
Proof. unfold active_quantity. by destruct (is_active _ _ _ _). Qed.

Lemma active_total_nonneg e t now w : wf_stock w -> 0 <= active_total e t now w.
Proof.
  intros Hwf. apply map_sum_nonneg. intros k r Hk. apply active_quantity_nonneg.
  by eapply (wf_quantity _ Hwf).
Qed.

(** Reservations only stop being active as time passes. *)
Lemma active_total_antitone e t now now' w :
  wf_stock w -> now <= now' -> active_total e t now' w <= active_total e t now w.
Proof.
  intros Hwf Hle. apply map_sum_le. intros k r Hk.
  pose proof (wf_quantity _ Hwf _ _ Hk) as Hq. unfold active_quantity, is_active.
  repeat case_bool_decide; cbn [andb]; try lia.
  destruct (now' <? rsv_expiresAt r) eqn:E1, (now <? rsv_expiresAt r) eqn:E2; lia.
Qed.

(** A reservation that leaves HELD gives back what it counted for. *)
Lemma active_total_release e t now w id r s :
  reservations (stock w) !! id = Some r -> s <> HELD ->
  map_sum (active_quantity e t now) (<[id := with_rsv_status s r]> (reservations (stock w))) =
  active_total e t now w - active_quantity e t now r.
Proof.
  intros Hr Hs. rewrite (map_sum_insert_old _ _ _ _ _ Hr). unfold active_total.
  assert (active_quantity e t now (with_rsv_status s r) = 0) as ->; [| lia].
  unfold active_quantity, is_active; cbn [with_rsv_status rsv_status rsv_eventId rsv_ticketTypeId].
  rewrite (bool_decide_eq_false_2 (s = HELD)) by done. by rewrite andb_false_r.
Qed.

(** A new reservation counts for at most its quantity, in its bucket only. *)
Lemma active_total_new e t now w id r :
  reservations (stock w) !! id = None -> 0 <= rsv_quantity r ->
  map_sum (active_quantity e t now) (<[id := r]> (reservations (stock w))) <=
  (if bool_decide (rsv_eventId r = e) && bool_decide (rsv_ticketTypeId r = t)
   then rsv_quantity r else 0) + active_total e t now w.
Proof.
  intros Hid Hq. rewrite map_sum_insert_new by done. unfold active_total.
  apply Z.add_le_mono_r. unfold active_quantity, is_active.
  repeat case_bool_decide; cbn [andb]; try lia. destruct (now <? _); lia.
Qed.

Lemma active_quantity_other e t e' t' now r :
  rsv_eventId r = e' -> rsv_ticketTypeId r = t' -> (e, t) <> (e', t') ->
  active_quantity e t now r = 0.
Proof.
  intros <- <- Hne. unfold active_quantity, is_active.
  repeat case_bool_decide; subst; cbn [andb]; try done.
Qed.

(** Updating a count column or a status keeps the stock well formed. *)
Lemma wf_stock_inv_update w k i i' :
  wf_stock w -> inventories (stock w) !! k = Some i ->
  inv_id i' = inv_id i -> inv_eventId i' = inv_eventId i ->
  inv_ticketTypeId i' = inv_ticketTypeId i ->
  wf_stock (set_inventories (<[k := i']> (inventories (stock w))) w).
Proof.
  intros Hwf Hk Hid He Ht. split; wsimpl.
  - apply keyed_insert; [apply Hwf | rewrite Hid; by apply (wf_inv_keyed _ Hwf)].
  - apply Hwf.
  - assert (Hlk : forall k' j, <[k := i']> (inventories (stock w)) !! k' = Some j ->
      exists j0, inventories (stock w) !! k' = Some j0 /\ inv_eventId j = inv_eventId j0 /\
                 inv_ticketTypeId j = inv_ticketTypeId j0).
    { intros k' j Hj. apply lookup_insert_Some in Hj as [[<- <-] | [_ Hj]]; eauto. }
    intros k1 k2 i1 i2 H1 H2 H12 H12'.
    destruct (Hlk _ _ H1) as (j1 & Hj1 & E1 & E1'), (Hlk _ _ H2) as (j2 & Hj2 & E2 & E2').
    eapply (wf_bucket_unique _ Hwf); [exact Hj1 | exact Hj2 | congruence | congruence].
  - apply Hwf.
Qed.

Lemma wf_stock_rsv_insert w k r :
  wf_stock w -> rsv_id r = k -> 0 <= rsv_quantity r ->
  wf_stock (set_reservations (<[k := r]> (reservations (stock w))) w).
Proof.
  intros Hwf Hid Hq. split; wsimpl; try apply Hwf.
  - apply keyed_insert; [apply Hwf | done].
  - intros k' r' H. apply lookup_insert_Some in H as [[_ <-] | [_ H]]; [done |].
    by eapply (wf_quantity _ Hwf).
Qed.

(* ------------------------------------------------------------------ *)
(** ** What each use case does                                          *)

(** Only the stock and the journal differ. *)
Definition stock_step (w w' : world) : Prop :=
  catalog w' = catalog w /\ checkout w' = checkout w /\ intents w' = intents w /\
  ticketing w' = ticketing w /\ seating w' = seating w /\ identity w' = identity w.

#[export] Instance stock_step_preorder : PreOrder stock_step.
Proof. split; unfold stock_step; [by intros w | intros w1 w2 w3; naive_solver congruence]. Qed.

(** The quantity the code treats as reserved in the bucket. *)
Definition authoritative (now : Z) (i : inventory) (w : world) : Z :=
  if is_tight i then active_total (inv_eventId i) (inv_ticketTypeId i) now w
  else inv_reservedCount i.

(** A successful reservation, as one step of the stock: the bucket exists, the
    quantity fits in what the code considers free, and exactly one HELD row and
    one count change. *)
Record reserved (actor e t : string) (q ttl : Z) (uuid : nat -> string) (ck : clock)
    (i : inventory) (res : ReserveInventoryResult) (w w' : world) : Prop := {
  rd_bucket : find_row (is_bucket e t) (inventories (stock w)) = Some i;
  rd_fits : q <= inv_capacityTotal i - authoritative (db_now ck) i w - inv_soldCount i;
  rd_result : res = {| rres_reservationId := uuid 0%nat;
                       rres_expiresAt := app_now ck + ttl * 1000; rres_quantity := q |};
  rd_fresh : reservations (stock w) !! uuid 0%nat = None;
  rd_reservations : reservations (stock w') =
    <[uuid 0%nat := {| rsv_id := uuid 0%nat; rsv_ownerUserId := actor; rsv_eventId := e;
                       rsv_ticketTypeId := t; rsv_quantity := q; rsv_status := HELD;
                       rsv_expiresAt := app_now ck + ttl * 1000 |}]> (reservations (stock w));
  rd_inventories : inventories (stock w') =
    <[inv_id i := with_reservedCount (authoritative (db_now ck) i w + q) i]> (inventories (stock w));
  rd_frame : stock_step w w'
}.

Lemma reserve_tx_wp uuid ck ctx actor e t q ttl w :
  wf_stock w ->
  wp (reserve_tx uuid ck ctx actor e t q ttl)
     (fun res w' => exists i, reserved actor e t q ttl uuid ck i res w w') any w.
Proof.
  intros Hwf. wp_go.
  all: match goal with H : find_row _ _ = Some ?i |- _ =>
         pose proof (locked_row _ _ _ _ Hwf H) as (Hrow & He & Ht); exists i end.
  all: match goal with H : inventories _ !! inv_id _ = Some ?r |- _ =>
         rewrite Hrow in H; injection H as <- end.
  all: apply Z.ltb_ge in H0.
  all: split; wsimpl; unfold authoritative; rewrite ?Heqb, ?He, ?Ht; try done.
Qed.

(** A HELD reservation expires and its bucket's count is set to [n]. *)
Record expired_with (r : reservation) (i : inventory) (n : Z) (w w' : world) : Prop := {
  xp_row : reservations (stock w) !! rsv_id r = Some r;
  xp_bucket : find_row (is_bucket (rsv_eventId r) (rsv_ticketTypeId r)) (inventories (stock w)) = Some i;
  xp_reservations : reservations (stock w') =
    <[rsv_id r := with_rsv_status EXPIRED r]> (reservations (stock w));
  xp_inventories : inventories (stock w') =
    <[inv_id i := with_reservedCount n i]> (inventories (stock w));
  xp_frame : stock_step w w'
}.

Lemma releaseExpired_wp ck id inputNow w :
  wf_stock w ->
  wp (releaseExpiredReservation ck id inputNow)
     (fun res w' =>
        (rel_released res = false /\ w' = w /\
         exists r, reservations (stock w) !! id = Some r /\
           (rsv_status r <> HELD \/ default (app_now ck) inputNow < rsv_expiresAt r)) \/
        (exists r i, let n := active_total (rsv_eventId r) (rsv_ticketTypeId r) (db_now ck) w in
           res = {| rel_released := true; rel_inventoryId := Some (inv_id i);
                    rel_reservedCount := Some n |} /\
           reservations (stock w) !! id = Some r /\ rsv_status r = HELD /\
           rsv_expiresAt r <= default (app_now ck) inputNow /\ expired_with r i n w w'))
     any w.
Proof.
  intros Hwf. wp_go.
  - left. split; [done |]. split; [done |]. exists a. split; [done |].
    apply orb_true_iff in Heqb as [Hs | Hs]; [left | right; lia].
    by apply negb_true_iff, bool_decide_eq_false in Hs.
  - right. apply orb_false_iff in Heqb as [Hs Hx].
    apply negb_false_iff, bool_decide_eq_true in Hs. apply Z.ltb_ge in Hx.
    pose proof (wf_rsv_keyed _ Hwf _ _ H) as Hid. rewrite Hid in *.
    destruct (locked_row _ _ _ _ Hwf H0) as (Hrow & He & Ht). same_row Hrow. same_row H.
    exists a, a0. repeat split; rewrite ?Hid; done.
Qed.

Lemma reconcile_wp ck e t w :
  wf_stock w ->
  wp (reconcileInventoryDrift ck e t)
     (fun res w' => exists i,
        find_row (is_bucket e t) (inventories (stock w)) = Some i /\
        res = {| rec_inventoryId := inv_id i; rec_cachedReservedCount := inv_reservedCount i;
                 rec_liveReservedCount := active_total e t (db_now ck) w;
                 rec_corrected := negb (active_total e t (db_now ck) w =? inv_reservedCount i) |} /\
        reservations (stock w') = reservations (stock w) /\
        inventories (stock w') =
          <[inv_id i := with_reservedCount (active_total e t (db_now ck) w) i]>
            (inventories (stock w)) /\
        stock_step w w')
     any w.
Proof.
  intros Hwf. wp_go; destruct (locked_row _ _ _ _ Hwf H) as (Hrow & He & Ht); exists a.
  - same_row Hrow. done.
  - repeat split; try done. symmetry. apply insert_id. rewrite Hrow. f_equal.
    apply negb_false_iff, Z.eqb_eq in H0. rewrite H0. by destruct a.
Qed.

Lemma sweep_one_wp auditId outboxId ck r w :
  wf_stock w -> reservations (stock w) !! rsv_id r = Some r ->
  wp (sweep_one auditId outboxId ck r)
     (fun _ w' => exists i,
        expired_with r i
          (active_total (rsv_eventId r) (rsv_ticketTypeId r) (db_now ck) w' ) w w')
     any w.
Proof.
  intros Hwf Hr. wp_go. destruct (locked_row _ _ _ _ Hwf H) as (Hrow & He & Ht). same_row Hrow. same_row Hr.
  exists a. split; done.
Qed.

(** Well-formedness only looks at the two tables of the stock. *)
Lemma wf_stock_ext w w' :
  inventories (stock w') = inventories (stock w) ->
  reservations (stock w') = reservations (stock w) -> wf_stock w -> wf_stock w'.
Proof. intros Hi Hr [? ? ? ?]. split; rewrite ?Hi, ?Hr; done. Qed.

(** A step that rewrites one inventory row's counts and one reservation. *)
Lemma wf_stock_step w w' i i' k r :
  wf_stock w -> inventories (stock w) !! inv_id i = Some i ->
  inv_id i' = inv_id i -> inv_eventId i' = inv_eventId i ->
  inv_ticketTypeId i' = inv_ticketTypeId i -> rsv_id r = k -> 0 <= rsv_quantity r ->
  reservations (stock w') = <[k := r]> (reservations (stock w)) ->
  inventories (stock w') = <[inv_id i := i']> (inventories (stock w)) -> wf_stock w'.
Proof.
  intros Hwf Hi H1 H2 H3 Hk Hq Hr' Hi'.
  pose proof (wf_stock_rsv_insert w k r Hwf Hk Hq) as Hwf1.
  eapply wf_stock_ext; [| | eapply (wf_stock_inv_update _ (inv_id i) i i' Hwf1)]; done.
Qed.

Lemma wf_stock_reserved actor e t q ttl uuid ck i res w w' :
  0 <= q -> wf_stock w -> reserved actor e t q ttl uuid ck i res w w' -> wf_stock w'.
Proof.
  intros Hq Hwf H. destruct (locked_row _ _ _ _ Hwf (rd_bucket _ _ _ _ _ _ _ _ _ _ _ H)) as (Hrow & _).
  eapply (wf_stock_step w w' i); [done | done | | | | | | apply H | apply H]; done.
Qed.

Lemma wf_stock_expired r i n w w' : wf_stock w -> expired_with r i n w w' -> wf_stock w'.
Proof.
  intros Hwf H. destruct (locked_row _ _ _ _ Hwf (xp_bucket _ _ _ _ _ H)) as (Hrow & _).
  eapply (wf_stock_step w w' i); [done | done | | | | | | apply H | apply H]; try done.
  cbn. eapply (wf_quantity _ Hwf). apply (xp_row _ _ _ _ _ H).
Qed.

(** Each listed reservation is EXPIRED and the other rows are as they were. *)
Definition all_expired (ids : list string) (w w' : world) : Prop :=
  forall k, reservations (stock w') !! k =
    if decide (k ∈ ids) then with_rsv_status EXPIRED <$> reservations (stock w) !! k
    else reservations (stock w) !! k.

Lemma sweep_loop_wp uuid ck rs : forall i w,
  wf_stock w -> NoDup (rsv_id <$> rs) ->
  Forall (fun r => reservations (stock w) !! rsv_id r = Some r) rs ->
  wp (sweep_loop uuid ck i rs)
     (fun ids w' => ids = rsv_id <$> rs /\ wf_stock w' /\ all_expired ids w w' /\ stock_step w w')
     any w.
Proof.
  induction rs as [| r rs IH]; intros i w Hwf Hnd Hrows; cbn [sweep_loop fmap list_fmap] in *.
  { apply wp_ret. split; [done |]. split; [done |]. split; [| reflexivity].
    intros k. by rewrite decide_False by apply not_elem_of_nil. }
  apply NoDup_cons in Hnd as [Hni Hnd]. apply Forall_cons in Hrows as [Hr Hrows].
  apply wp_bind. eapply wp_mono; [by apply sweep_one_wp | | done].
  intros [] w1 [inv Hx]. apply wp_bind.
  pose proof (wf_stock_expired _ _ _ _ _ Hwf Hx) as Hwf1. destruct Hx as [_ _ Hr1 _ Hf].
  eapply wp_mono; [apply (IH (S i) w1) | | done]; [done | done | |].
  - apply Forall_forall. intros r' Hr'. rewrite Hr1, lookup_insert_ne.
    + rewrite Forall_forall in Hrows. by apply Hrows.
    + intros Heq. apply Hni. rewrite Heq. by apply list_elem_of_fmap_2.
  - intros ids w2 (-> & Hwf2 & Hall & Hf2). apply wp_ret.
    split; [done |]. split; [done |]. split; [| by etransitivity].
    intros k. rewrite Hall, Hr1. destruct (decide (k = rsv_id r)) as [-> | Hne].
    + rewrite decide_False by done. rewrite decide_True by apply list_elem_of_here.
      by rewrite lookup_insert_eq, Hr.
    + rewrite lookup_insert_ne by done.
      destruct (decide (k ∈ rsv_id <$> rs)) as [Hin | Hin].
      * rewrite decide_True; [done | by apply list_elem_of_further].
      * rewrite decide_False; [done |]. rewrite not_elem_of_cons. done.
Qed.

(** What a sweep claims: at most [limit] distinct HELD rows past their expiry,
    none of them locked elsewhere. *)
Definition claimed (limit : nat) (skipped : string -> bool) (now : Z) (w : world) : list reservation :=
  lock_rows expires_le rsv_id limit skipped (is_expired_held now) (reservations (stock w)).

Lemma claimed_spec limit skipped now w r :
  r ∈ claimed limit skipped now w ->
  skipped (rsv_id r) = false /\ rsv_status r = HELD /\ rsv_expiresAt r <= now /\
  exists k, reservations (stock w) !! k = Some r.
Proof.
  intros H. apply lock_rows_spec in H as (Hs & k & Hk & Hx).
  apply andb_true_iff in Hx as [Hh He]. apply bool_decide_eq_true in Hh. apply Z.leb_le in He.
  eauto 6.
Qed.

Lemma claimed_NoDup limit skipped now w :
  wf_stock w -> NoDup (rsv_id <$> claimed limit skipped now w).
Proof.
  intros Hwf. apply lock_rows_NoDup, Hwf.
Qed.

Lemma sweep_wp uuid ck skipped limit w :
  wf_stock w ->
  wp (sweepExpiredReservations uuid ck skipped limit)
     (fun ids w' =>
        ids = rsv_id <$> claimed (default DEFAULT_SWEEP_LIMIT limit) skipped (db_now ck) w /\
        wf_stock w' /\ all_expired ids w w' /\ stock_step w w')
     any w.
Proof.
  intros Hwf. unfold sweepExpiredReservations. do 3 wp_stmt. apply wp_reads.
  eapply wp_mono; [apply sweep_loop_wp; [done | by apply claimed_NoDup |] | |]; [| auto | done].
  apply Forall_forall. intros r Hr. apply claimed_spec in Hr as (_ & _ & _ & k & Hk).
  by rewrite (wf_rsv_keyed _ Hwf _ _ Hk).
Qed.

(** Sections of [reserveInventory]: the guards, then the transaction. *)
Lemma reserveInventory_wp uuid ck ctx input w :
  wf_stock w ->
  wp (reserveInventory uuid ck ctx input)
     (fun res w' => exists actor q ttl i, actor_of ctx = Some actor /\
        rin_quantity input = JInt q /\ rin_holdTtlSeconds input = JInt ttl /\ 0 < q /\ 0 < ttl /\
        reserved actor (rin_eventId input) (rin_ticketTypeId input) q ttl uuid ck i res w w')
     (fun _ w' => w' = w) w.
Proof.
  intros Hwf. unfold reserveInventory.
  wp_stmt; wp_stmt; [done |]. wp_stmt; wp_stmt; [done |]. wp_stmt; wp_stmt; [done |].
  apply wp_transaction. eapply wp_mono; [by apply reserve_tx_wp | | done].
  intros res w' [i Hi]. exists a1, a, a0, i.
  destruct (rin_quantity input) as [q |]; cbn in H; [| done]. destruct (0 <? q) eqn:Eq; [| done].
  destruct (rin_holdTtlSeconds input) as [ttl |]; cbn in H0; [| done].
  destruct (0 <? ttl) eqn:Et; [| done]. simplify_eq. split_and!; try done; lia.
Qed.

(* ------------------------------------------------------------------ *)
(** ** A stock to work on                                               *)

Module StockExample.

Definition inv : inventory :=
  {| inv_id := "inv"; inv_eventId := "ev"; inv_ticketTypeId := "vip"; inv_capacityTotal := 10;
     inv_reservedCount := 4; inv_soldCount := 3 |}.
Definition rsv : reservation :=
  {| rsv_id := "rsv"; rsv_ownerUserId := "alice"; rsv_eventId := "ev"; rsv_ticketTypeId := "vip";
     rsv_quantity := 4; rsv_status := HELD; rsv_expiresAt := 600000 |}.

Definition invs : gmap string inventory := {["inv" := inv]}.
Definition rsvs : gmap string reservation := {["rsv" := rsv]}.
Definition w0 : world := set_reservations rsvs (set_inventories invs empty_world).

Definition ids (i : nat) : string := "id" +:+ pretty i.
Definition at_time (t : Z) : clock := {| app_now := t; db_now := t |}.
Definition bob : option RequestContextValue := Some (context_for "bob" "corr-0001").
Definition rin (q : Z) : ReserveInventoryInput :=
  {| rin_eventId := "ev"; rin_ticketTypeId := "vip"; rin_quantity := JInt q;
     rin_holdTtlSeconds := JInt 60 |}.

Lemma wf_stock_w0 : wf_stock w0.
Proof.
  assert (Hi : forall k i, inventories (stock w0) !! k = Some i -> k = "inv" /\ i = inv).
  { intros k i H. change (invs !! k = Some i) in H. unfold invs in H.
    by apply lookup_singleton_Some in H as [<- <-]. }
  assert (Hr : forall k r, reservations (stock w0) !! k = Some r -> k = "rsv" /\ r = rsv).
  { intros k r H. change (rsvs !! k = Some r) in H. unfold rsvs in H.
    by apply lookup_singleton_Some in H as [<- <-]. }
  split.
  - intros k i H. by apply Hi in H as [-> ->].
  - intros k r H. by apply Hr in H as [-> ->].
  - intros k1 k2 i1 i2 H1 H2 _ _. apply Hi in H1 as [-> _], H2 as [-> _]. done.
  - intros k r H. apply Hr in H as [_ ->]. done.
Qed.

(** Three seats are free while the hold of four is alive, seven once it is over. *)
Example reserve_live : (reserveInventory ids (at_time 1000) bob (rin 4) w0).1 =
  Err (InventoryUnavailableError "Not enough tickets available.").
Proof. vm_run. Qed.

Definition reserved_world : world := (reserveInventory ids (at_time 700000) bob (rin 7) w0).2.
Definition reserved_result : ReserveInventoryResult :=
  {| rres_reservationId := "id0"; rres_expiresAt := 760000; rres_quantity := 7 |}.
Example reserve_later : reserveInventory ids (at_time 700000) bob (rin 7) w0 =
  (Ok reserved_result, reserved_world).
Proof. vm_run. Qed.

Definition swept_world : world :=
  (sweepExpiredReservations ids (at_time 700000) (fun _ => false) None w0).2.
Example sweep_later :
  sweepExpiredReservations ids (at_time 700000) (fun _ => false) None w0 = (Ok ["rsv"], swept_world).
Proof. vm_run. Qed.

End StockExample.

(* ------------------------------------------------------------------ *)
(** ** Properties                                                       *)

(** A reservation is granted only for a positive whole quantity and hold, to an
    authenticated actor, on an existing bucket, and only if the quantity fits in
    what the bucket has free; then exactly one HELD row, expiring after the hold,
    and the bucket's reserved count change.  Anything else throws and leaves the
    database as it was. *)
Theorem reserveInventory_outcome uuid ck ctx input w (Hwf : wf_stock w) :
  match reserveInventory uuid ck ctx input w with
  | (Ok res, w') => exists actor q ttl i, actor_of ctx = Some actor /\
      rin_quantity input = JInt q /\ rin_holdTtlSeconds input = JInt ttl /\ 0 < q /\ 0 < ttl /\
      reserved actor (rin_eventId input) (rin_ticketTypeId input) q ttl uuid ck i res w w'
  | (Err _, w') => w' = w
  end.
Proof. exact (reserveInventory_wp uuid ck ctx input w Hwf). Qed.

Lemma reserveInventory_outcome_witness :
  exists actor q ttl i, reserved actor "ev" "vip" q ttl StockExample.ids
    (StockExample.at_time 700000) i StockExample.reserved_result
    StockExample.w0 StockExample.reserved_world.
Proof.
  pose proof (reserveInventory_outcome StockExample.ids (StockExample.at_time 700000)
    StockExample.bob (StockExample.rin 7) StockExample.w0 StockExample.wf_stock_w0) as H.
  rewrite StockExample.reserve_later in H. destruct H as (a & q & ttl & i & _ & _ & _ & _ & _ & H).
  exists a, q, ttl, i. exact H.
Defined.

(** A sweep expires exactly the reservations it claimed, at most the limit, each HELD,
    past its expiry and not locked by another sweep; every other reservation
    keeps its state, and the stock stays well formed.  A sweep that throws
    changes nothing. *)
Theorem sweepExpiredReservations_outcome uuid ck skipped limit w (Hwf : wf_stock w) :
  match sweepExpiredReservations uuid ck skipped limit w with
  | (Ok ids, w') =>
      (length ids <= default DEFAULT_SWEEP_LIMIT limit)%nat /\ NoDup ids /\
      (forall id, id ∈ ids -> exists r, reservations (stock w) !! id = Some r /\
         rsv_status r = HELD /\ rsv_expiresAt r <= db_now ck /\ skipped id = false) /\
      all_expired ids w w' /\ wf_stock w' /\ stock_step w w'
  | (Err _, w') => w' = w
  end.
Proof.
  pose proof (sweep_wp uuid ck skipped limit w Hwf) as Hwp. unfold wp in Hwp.
  destruct (sweepExpiredReservations uuid ck skipped limit w) as [[ids | e] w'] eqn:E.
  - destruct Hwp as (-> & Hwf' & Hall & Hstep). split_and!; try done.
    + rewrite length_fmap. apply lock_rows_length.
    + by apply claimed_NoDup.
    + intros id Hid. apply list_elem_of_fmap in Hid as (r & -> & Hr).
      apply claimed_spec in Hr as (Hs & Hh & Hx & k & Hk).
      pose proof (wf_rsv_keyed _ Hwf _ _ Hk) as <-. by exists r.
  - by apply transaction_err_inv in E.
Qed.

Lemma sweepExpiredReservations_outcome_witness :
  all_expired ["rsv"] StockExample.w0 StockExample.swept_world /\ wf_stock StockExample.swept_world.
Proof.
  pose proof (sweepExpiredReservations_outcome StockExample.ids (StockExample.at_time 700000)
    (fun _ => false) None StockExample.w0 StockExample.wf_stock_w0) as H.
  rewrite StockExample.sweep_later in H. destruct H as (_ & _ & _ & Hall & Hwf & _). by split.
Defined.

(** After a reconciliation the cached reserved count of the bucket is the quantity of its
    active reservations, no reservation has changed, and the report says what
    was found; a reconciliation that throws changes nothing. *)
Theorem reconcileInventoryDrift_outcome ck e t w (Hwf : wf_stock w) :
  match reconcileInventoryDrift ck e t w with
  | (Ok res, w') => exists i i',
      find_row (is_bucket e t) (inventories (stock w)) = Some i /\
      find_row (is_bucket e t) (inventories (stock w')) = Some i' /\
      inv_reservedCount i' = active_total e t (db_now ck) w' /\
      inv_soldCount i' = inv_soldCount i /\ inv_capacityTotal i' = inv_capacityTotal i /\
      reservations (stock w') = reservations (stock w) /\
      (rec_corrected res = true <-> inv_reservedCount i <> inv_reservedCount i')
  | (Err _, w') => w' = w
  end.
Proof.
  pose proof (reconcile_wp ck e t w Hwf) as Hwp. unfold wp in Hwp.
  destruct (reconcileInventoryDrift ck e t w) as [[res | err] w'] eqn:E;
    [| by apply transaction_err_inv in E].
  destruct Hwp as (i & Hb & -> & Hr & Hi & _).
  destruct (locked_row _ _ _ _ Hwf Hb) as (Hrow & He & Ht).
  set (i' := with_reservedCount (active_total e t (db_now ck) w) i) in *.
  assert (Hwf' : wf_stock w').
  { eapply (wf_stock_ext (set_inventories (inventories (stock w')) w)); [done | done |].
    rewrite Hi. eapply wf_stock_inv_update; [done | exact Hrow | done | done | done]. }
  exists i, i'. split_and!; try done.
  - assert (Hi' : inventories (stock w') !! inv_id i = Some i') by (rewrite Hi; apply lookup_insert_eq).
    pose proof (lock_finds _ _ _ Hwf' Hi') as Hf. cbn in Hf. by rewrite He, Ht in Hf.
  - cbn. unfold active_total. by rewrite Hr.
  - cbn. rewrite negb_true_iff, Z.eqb_neq. naive_solver.
Qed.

Lemma reconcileInventoryDrift_outcome_witness :
  exists res w', reconcileInventoryDrift (StockExample.at_time 700000) "ev" "vip" StockExample.w0 =
      (Ok res, w') /\ reservations (stock w') = reservations (stock StockExample.w0).
Proof.
  pose proof (reconcileInventoryDrift_outcome (StockExample.at_time 700000) "ev" "vip"
    StockExample.w0 StockExample.wf_stock_w0) as H.
  set (out := reconcileInventoryDrift (StockExample.at_time 700000) "ev" "vip" StockExample.w0) in *.
  exists {| rec_inventoryId := "inv"; rec_cachedReservedCount := 4; rec_liveReservedCount := 0;
            rec_corrected := true |}, out.2.
  assert (E : out = (Ok {| rec_inventoryId := "inv"; rec_cachedReservedCount := 4;
    rec_liveReservedCount := 0; rec_corrected := true |}, out.2)) by run_ends.
  split; [exact E |]. rewrite E in H. destruct H as (i & i' & _ & _ & _ & _ & _ & H & _). exact H.
Defined.
