(* ===== verification/Providers.v ===== *)
(** Providers.v: the payment provider clients
    (src/src/modules/payments/infrastructure/providers), the verification
    adapters (src/src/modules/payments/verification) and the webhook signature
    check (src/src/modules/payments/webhooks).  The network is a parameter:
    what [fetch] gives for a request. *)

From S2P Require Import Prelude Errors Values Hashing Store Context.

Local Open Scope Z_scope.

(* ------------------------------------------------------------------ *)
(** ** The network and the configuration                                *)

Record http_request : Type := {
  rq_method : string;
  rq_url : string;
  rq_headers : list (string * string);
  rq_body : option json
}.

(** A response: its status, and its body when it parses. *)
Record http_response : Type := {
  rs_status : Z;
  rs_json : outcome error json
}.

(** [fetch] is aborted by the timer, throws, or answers. *)
Inductive fetch_result : Type :=
| FetchAborted
| FetchThrew (name msg : string)
| FetchResponse (r : http_response).

(** [response.ok] *)
Definition response_ok (r : http_response) : bool :=
  (200 <=? rs_status r) && (rs_status r <=? 299).

(** [response.status === 401 || response.status === 403] *)
Definition response_unauthorized (r : http_response) : bool :=
  (rs_status r =? 401) || (rs_status r =? 403).

Definition lift {A} (o : outcome error A) : op A :=
  match o with Ok a => ret a | Err e => throw e end.

(** One character [encodeURIComponent] leaves alone. *)
Definition uri_unreserved (c : ascii) : bool :=
  is_alnum c || bool_decide (c ∈ ["-"; "_"; "."; "!"; "~"; "*"; "'"; "("; ")"]%char).

Definition hex_upper (n : nat) : ascii :=
  ascii_of_nat (if (n <? 10)%nat then 48 + n else 55 + n).

(** [encodeURIComponent], on UTF-8 text. *)
Fixpoint encodeURIComponent (s : string) : string :=
  match s with
  | EmptyString => EmptyString
  | String c s' =>
      if uri_unreserved c then String c (encodeURIComponent s')
      else String "%" (String (hex_upper (nat_of_ascii c / 16))
             (String (hex_upper (nat_of_ascii c mod 16)) (encodeURIComponent s')))
  end.

Definition is_provider_error_kept (e : error) : bool :=
  match e with
  | ProviderResponseError _ _ _ _ | ProviderAuthError _ _ => true
  | _ => false
  end.

(** [ProviderVerificationResult]; [paidAt] is not read by the program. *)
Inductive ProviderVerificationStatus : Type := PV_SUCCESS | PV_FAILED | PV_PENDING | PV_UNKNOWN.

#[export] Instance ProviderVerificationStatus_eq_dec : EqDecision ProviderVerificationStatus.
Proof. solve_decision. Defined.

Record ProviderVerificationResult : Type := {
  pv_provider : PaymentProvider;
  pv_providerReference : string;
  pv_status : ProviderVerificationStatus;
  pv_amountMinor : option jsnum;
  pv_currency : option string;
  pv_providerStatus : string;
  pv_rawResponse : json
}.

(** [VerifyPaymentResult] of payment-provider.interface.ts.  The fields the code
    casts to string are read as their type says; another type is absent. *)
Inductive ProviderPaymentStatus : Type :=
| PP_SUCCESS
| PP_FAILED
| PP_PENDING
| PP_REVERSED
| PP_REFUNDED.

#[export] Instance ProviderPaymentStatus_eq_dec : EqDecision ProviderPaymentStatus.
Proof. solve_decision. Defined.

Record VerifyPaymentResult : Type := {
  vp_providerRef : option string;
  vp_status : ProviderPaymentStatus;
  vp_amountMinor : Z;
  vp_currency : option string;
  vp_raw : json
}.

(** [InitiatePaymentInput] and [InitiatePaymentResult]. *)
Record ProviderInitiateInput : Type := {
  pin_paymentIntentId : string;
  pin_providerReference : string;
  pin_amountMinor : Z;
  pin_currency : string;
  pin_customerEmail : string;
  pin_customerPhone : option string;
  pin_metadata : list (string * json)
}.

Record ProviderInitiateResult : Type := {
  pir_providerReference : string;
  pir_checkoutUrl : option string;
  pir_accessCode : option string;
  pir_rawResponse : json
}.

Section Network.
Context `{Crypto}.
Context (fetch : http_request -> fetch_result) (cfg : string -> option string).

(** [getOrThrow] and [getOptional] of AppConfigService. *)
Definition getOrThrow (key : string) : op string :=
  match cfg key with
  | None | Some "" => throw (OtherError "Error" ("Missing configuration value for " +:+ key))
  | Some v => ret v
  end.

Definition getOptional (key : string) : option string := cfg key.

Definition await_fetch (rq : http_request) : op http_response :=
  match fetch rq with
  | FetchAborted => throw (OtherError "AbortError" "This operation was aborted")
  | FetchThrew n m => throw (OtherError n m)
  | FetchResponse r => ret r
  end.

(* ------------------------------------------------------------------ *)
(** ** PaystackAdapter                                                  *)

Definition paystack_getBaseUrl : string :=
  default "https://api.paystack.co" (getOptional "PAYSTACK_BASE_URL").

Definition paystack_fetchJson (rq : http_request) (errorCode : string) : op json :=
  catch
    (let* response := await_fetch rq in
     do* throw_if (response_unauthorized response)
           (ProviderAuthError "paystack"
              ("Paystack authentication failed with status " +:+ pretty (rs_status response))) in
     do* throw_if (negb (response_ok response))
           (ProviderResponseError "paystack" errorCode (rs_status response)
              ("Paystack request failed with status " +:+ pretty (rs_status response))) in
     lift (rs_json response))
    (fun e =>
       if bool_decide (error_name e = "AbortError")
       then throw (ProviderTimeoutError "paystack" "Paystack request timed out.")
       else if is_provider_error_kept e then throw e
       else throw (ProviderNetworkError "paystack"
                     ("Paystack network/request failure: " +:+ message e))).

(** [mapPaystackStatus] *)
Definition mapPaystackStatus (status : jsval) : ProviderPaymentStatus :=
  match status with
  | Some (JStr s) =>
      if bool_decide (s = "success") then PP_SUCCESS
      else if bool_decide (s = "failed") || bool_decide (s = "abandoned") then PP_FAILED
      else if bool_decide (s = "reversed") then PP_REVERSED
      else if bool_decide (s = "refunded") then PP_REFUNDED
      else PP_PENDING
  | _ => PP_PENDING
  end.

(** [...(customerPhone ? { customerPhone } : {})] *)
Definition phone_entry (phone : option string) : list (string * json) :=
  match truthy phone with Some p => [("customerPhone", JStr p)] | None => [] end.

Definition paystack_initiatePayment (input : ProviderInitiateInput) : op ProviderInitiateResult :=
  let providerReference := pin_providerReference input in
  let* secret := getOrThrow "PAYSTACK_SECRET_KEY" in
  let* body := paystack_fetchJson
    {| rq_method := "POST"; rq_url := paystack_getBaseUrl +:+ "/transaction/initialize";
       rq_headers := [("Authorization", "Bearer " +:+ secret); ("Content-Type", "application/json")];
       rq_body := Some (JObj
         [("email", JStr (pin_customerEmail input)); ("amount", JNum (pin_amountMinor input));
          ("currency", JStr (pin_currency input)); ("reference", JStr providerReference);
          ("metadata", JObj (pin_metadata input ++ phone_entry (pin_customerPhone input))%list)]) |}
    "PAYSTACK_INIT_FAILED" in
  let* data := lift (prop (Some body) "data") in
  let* reference := lift (prop data "reference") in
  let* url := lift (prop data "authorization_url") in
  let* code := lift (prop data "access_code") in
  ret {| pir_providerReference := default providerReference (string_of reference);
         pir_checkoutUrl := string_of url; pir_accessCode := string_of code;
         pir_rawResponse := body |}.

(** The result the adapter reads off [body.data], in [verifyPayment] and in
    [parseWebhook]. *)
Definition paystack_read (body : json) : op VerifyPaymentResult :=
  let* data := lift (prop (Some body) "data") in
  let* reference := lift (prop data "reference") in
  let* status := lift (prop data "status") in
  let* amount := lift (prop data "amount") in
  let* amountMinor := lift (BigInt amount) in
  let* currency := lift (prop data "currency") in
  ret {| vp_providerRef := string_of reference; vp_status := mapPaystackStatus status;
         vp_amountMinor := amountMinor; vp_currency := string_of currency; vp_raw := body |}.

Definition paystack_verifyPayment (providerRef : string) : op VerifyPaymentResult :=
  let* secret := getOrThrow "PAYSTACK_SECRET_KEY" in
  let* body := paystack_fetchJson
    {| rq_method := "GET";
       rq_url := paystack_getBaseUrl +:+ "/transaction/verify/" +:+ encodeURIComponent providerRef;
       rq_headers := [("Authorization", "Bearer " +:+ secret)]; rq_body := None |}
    "PAYSTACK_VERIFY_FAILED" in
  paystack_read body.

(** [headers[key]] *)
Definition header_value (headers : list (string * header)) (key : string) : header :=
  default HAbsent (snd <$> last (filter (fun kv => kv.1 = key) headers)).

(** [typeof headerValue === 'string' ? headerValue : headerValue?.[0]], when it is
    truthy. *)
Definition signature_header (headers : list (string * header)) (key : string) : option string :=
  truthy (getHeaderValue (header_value headers key)).

(** The two buffers have one length and [timingSafeEqual] accepts them. *)
Definition same_bytes (expected actual : string) : bool :=
  (String.length expected =? String.length actual)%nat && bool_decide (expected = actual).

Definition paystack_verifyWebhookSignature (rawBody : string) (headers : list (string * header))
  : op unit :=
  let* signature := or_throw (signature_header headers "x-paystack-signature")
      (WebhookSignatureError "paystack" "Missing Paystack webhook signature.") in
  let* secret := getOrThrow "PAYSTACK_SECRET_KEY" in
  throw_if (negb (same_bytes (hmac512 secret rawBody) signature))
    (WebhookSignatureError "paystack" "Invalid Paystack webhook signature.").

Definition paystack_parseWebhook (rawBody : string) (parsedBody : json)
    (headers : list (string * header)) : op VerifyPaymentResult :=
  do* paystack_verifyWebhookSignature rawBody headers in
  paystack_read parsedBody.

(* ------------------------------------------------------------------ *)
(** ** MomoAdapter                                                      *)

Definition momo_getTargetEnvironment : op string :=
  match getOptional "MTN_MOMO_TARGET_ENVIRONMENT" with
  | Some v => ret v
  | None => getOrThrow "MTN_MOMO_ENVIRONMENT"
  end.

Definition momo_getBaseUrl : op string :=
  match truthy (getOptional "MTN_MOMO_BASE_URL") with
  | Some url => ret url
  | None =>
      let* env := momo_getTargetEnvironment in
      ret (if bool_decide (env = "sandbox") then "https://sandbox.momodeveloper.mtn.com"
           else "https://momodeveloper.mtn.com")
  end.

Definition momo_getSubscriptionKey : op string :=
  match getOptional "MTN_MOMO_COLLECTION_SUBSCRIPTION_KEY" with
  | Some v => ret v
  | None => getOrThrow "MTN_MOMO_SUBSCRIPTION_KEY"
  end.

Definition momo_buildBasicAuth : op string :=
  let* apiUser := match getOptional "MTN_MOMO_API_USER" with
                  | Some v => ret v
                  | None => getOrThrow "MTN_MOMO_API_KEY"
                  end in
  let* apiKey := getOrThrow "MTN_MOMO_API_SECRET" in
  ret (base64 (apiUser +:+ ":" +:+ apiKey)).

(** The classification both fetchers end with. *)
Definition momo_rethrow {A} (e : error) : op A :=
  if bool_decide (error_name e = "AbortError")
  then throw (ProviderTimeoutError "momo" "MoMo request timed out.")
  else if is_provider_error_kept e then throw e
  else throw (ProviderNetworkError "momo" ("MoMo network/request failure: " +:+ message e)).

Definition momo_fetchJson (rq : http_request) (errorCode : string) : op json :=
  catch
    (let* response := await_fetch rq in
     do* throw_if (response_unauthorized response)
           (ProviderAuthError "momo"
              ("MoMo authentication failed with status " +:+ pretty (rs_status response))) in
     do* throw_if (negb (response_ok response))
           (ProviderResponseError "momo" errorCode (rs_status response)
              ("MoMo request failed with status " +:+ pretty (rs_status response))) in
     lift (rs_json response))
    momo_rethrow.

Definition momo_fetchVoid (rq : http_request) (errorCode : string) (accepted : list Z) : op unit :=
  catch
    (let* response := await_fetch rq in
     do* throw_if (response_unauthorized response)
           (ProviderAuthError "momo"
              ("MoMo authentication failed with status " +:+ pretty (rs_status response))) in
     throw_if (bool_decide (rs_status response ∉ accepted))
       (ProviderResponseError "momo" errorCode (rs_status response)
          ("MoMo request failed with status " +:+ pretty (rs_status response))))
    momo_rethrow.

(** [mapMomoStatus] *)
Definition mapMomoStatus (status : jsval) : ProviderPaymentStatus :=
  match status with
  | Some (JStr s) =>
      if bool_decide (s = "SUCCESSFUL") then PP_SUCCESS
      else if bool_decide (s = "FAILED") || bool_decide (s = "REJECTED") then PP_FAILED
      else if bool_decide (s = "REVERSED") then PP_REVERSED
      else PP_PENDING
  | _ => PP_PENDING
  end.

(** A template literal around a value that may be undefined. *)
Definition template (v : jsval) : string :=
  match v with None => "undefined" | Some j => js_String j end.

Definition momo_getAccessToken : op jsval :=
  let* base := momo_getBaseUrl in
  let* auth := momo_buildBasicAuth in
  let* key := momo_getSubscriptionKey in
  let* body := momo_fetchJson
    {| rq_method := "POST"; rq_url := base +:+ "/collection/token/";
       rq_headers := [("Authorization", "Basic " +:+ auth); ("Ocp-Apim-Subscription-Key", key)];
       rq_body := None |}
    "MOMO_TOKEN_FAILED" in
  lift (prop (Some body) "access_token").

Definition momo_initiatePayment (input : ProviderInitiateInput) : op ProviderInitiateResult :=
  let* phone := or_throw (truthy (pin_customerPhone input))
      (ProviderResponseError "momo" "MOMO_INVALID_INITIATE_INPUT" 0
         "MoMo initiation requires customerPhone.") in
  let providerReference := pin_providerReference input in
  let* baseUrl := momo_getBaseUrl in
  let* token := momo_getAccessToken in
  let* env := momo_getTargetEnvironment in
  let* key := momo_getSubscriptionKey in
  do* momo_fetchVoid
    {| rq_method := "POST"; rq_url := baseUrl +:+ "/collection/v1_0/requesttopay";
       rq_headers := [("Authorization", "Bearer " +:+ template token);
                      ("X-Reference-Id", providerReference); ("X-Target-Environment", env);
                      ("Ocp-Apim-Subscription-Key", key); ("Content-Type", "application/json")];
       rq_body := Some (JObj
         [("amount", JStr (pretty (pin_amountMinor input))); ("currency", JStr (pin_currency input));
          ("externalId", JStr (pin_paymentIntentId input));
          ("payer", JObj [("partyIdType", JStr "MSISDN"); ("partyId", JStr phone)]);
          ("payerMessage", JStr ("GoVibe payment " +:+ pin_paymentIntentId input));
          ("payeeNote", JStr "GoVibe ticket payment")]) |}
    "MOMO_INIT_FAILED" [202] in
  ret {| pir_providerReference := providerReference; pir_checkoutUrl := None;
         pir_accessCode := None; pir_rawResponse := JObj [("status", JNum 202)] |}.

(** The result read off a MoMo body. *)
Definition momo_read (providerRef : string) (body : json) : op VerifyPaymentResult :=
  let* status := lift (prop (Some body) "status") in
  let* amount := lift (prop (Some body) "amount") in
  let* amountMinor := lift (BigInt amount) in
  let* currency := lift (prop (Some body) "currency") in
  ret {| vp_providerRef := Some providerRef; vp_status := mapMomoStatus status;
         vp_amountMinor := amountMinor; vp_currency := string_of currency; vp_raw := body |}.

Definition momo_verifyPayment (providerRef : string) : op VerifyPaymentResult :=
  let* baseUrl := momo_getBaseUrl in
  let* token := momo_getAccessToken in
  let* env := momo_getTargetEnvironment in
  let* key := momo_getSubscriptionKey in
  let* body := momo_fetchJson
    {| rq_method := "GET"; rq_url := baseUrl +:+ "/collection/v1_0/requesttopay/" +:+ providerRef;
       rq_headers := [("Authorization", "Bearer " +:+ template token);
                      ("X-Target-Environment", env); ("Ocp-Apim-Subscription-Key", key)];
       rq_body := None |}
    "MOMO_VERIFY_FAILED" in
  momo_read providerRef body.

Definition momo_verifyWebhookAuthenticity (rawBody : string) (headers : list (string * header))
  : op unit :=
  let* secret := or_throw (truthy (cfg "MTN_MOMO_WEBHOOK_SECRET"))
      (WebhookSignatureError "momo" "MoMo webhook secret not configured.") in
  let* signature := or_throw (signature_header headers "x-momo-signature")
      (WebhookSignatureError "momo" "Missing MoMo webhook signature.") in
  throw_if (negb (same_bytes (hmac256 secret rawBody) signature))
    (WebhookSignatureError "momo" "Invalid MoMo webhook signature.").

Definition momo_parseWebhook (rawBody : string) (parsedBody : json)
    (headers : list (string * header)) : op VerifyPaymentResult :=
  do* momo_verifyWebhookAuthenticity rawBody headers in
  let* referenceId := lift (prop (Some parsedBody) "referenceId") in
  let* referenceId := or_throw (truthy (string_of referenceId))
      (WebhookSignatureError "momo" "MoMo webhook missing referenceId.") in
  momo_read referenceId parsedBody.

(* ------------------------------------------------------------------ *)
(** ** The verification adapters                                        *)

(** [fetchWithTimeout]: the abort becomes a FetchTimeoutError. *)
Definition FetchTimeoutError (timeoutMs : Z) : error :=
  OtherError "FetchTimeoutError" ("Request timed out after " +:+ pretty timeoutMs +:+ "ms.").

Definition fetchWithTimeout (rq : http_request) (timeoutMs : Z) : op http_response :=
  catch (await_fetch rq)
    (fun e => if bool_decide (error_name e = "AbortError") then throw (FetchTimeoutError timeoutMs)
              else throw e).

(** [PAYMENT_PROVIDER_TIMEOUT_MS ?? 10000] *)
Definition getTimeoutMs : Z :=
  match getOptional "PAYMENT_PROVIDER_TIMEOUT_MS" ≫= digits_only 10 with
  | Some ms => ms
  | None => 10000
  end.

Definition is_timeout (e : error) : bool := bool_decide (error_name e = "FetchTimeoutError").

Definition is_provider_failure (e : error) : bool :=
  match e with
  | ProviderAuthError _ _ | ProviderResponseError _ _ _ _ | ProviderTimeoutError _ _ => true
  | _ => false
  end.

(** [PaystackVerificationAdapter.mapStatus] *)
Definition paystack_mapStatus (status : jsval) : ProviderVerificationStatus :=
  match status with
  | Some (JStr s) =>
      if bool_decide (s = "success") then PV_SUCCESS
      else if bool_decide (s ∈ ["failed"; "abandoned"; "reversed"; "refunded"]) then PV_FAILED
      else if bool_decide (s ∈ ["pending"; "ongoing"]) then PV_PENDING
      else PV_UNKNOWN
  | _ => PV_UNKNOWN
  end.

(** [typeof amount === 'number' ? amount : null] *)
Definition number_of (v : jsval) : option jsnum :=
  match v with
  | Some (JNum z) => Some (JInt z)
  | Some (JFloat _) => Some JFrac
  | _ => None
  end.

Definition paystack_verifyByReference (providerReference : string)
  : op ProviderVerificationResult :=
  catch
    (let* secret := getOrThrow "PAYSTACK_SECRET_KEY" in
     let* response := fetchWithTimeout
       {| rq_method := "GET";
          rq_url := paystack_getBaseUrl +:+ "/transaction/verify/" +:+
                    encodeURIComponent providerReference;
          rq_headers := [("Authorization", "Bearer " +:+ secret)]; rq_body := None |}
       getTimeoutMs in
     do* throw_if (response_unauthorized response)
           (ProviderAuthError "paystack"
              ("Paystack authentication failed with status " +:+ pretty (rs_status response))) in
     do* throw_if (negb (response_ok response))
           (ProviderResponseError "paystack" "PAYSTACK_VERIFY_FAILED" (rs_status response)
              ("Paystack verification failed with status " +:+ pretty (rs_status response))) in
     let* body := lift (rs_json response) in
     let* data := lift (prop (Some body) "data") in
     ret {| pv_provider := PAYSTACK;
            pv_providerReference :=
              js_String (coalesce (prop_opt data "reference") (JStr providerReference));
            pv_status := paystack_mapStatus (prop_opt data "status");
            pv_amountMinor := number_of (prop_opt data "amount");
            pv_currency := string_of (prop_opt data "currency");
            pv_providerStatus := js_String (coalesce (prop_opt data "status") (JStr "unknown"));
            pv_rawResponse := body |})
    (fun e =>
       if is_timeout e
       then throw (ProviderTimeoutError "paystack" "Paystack verification timed out.")
       else if is_provider_failure e then throw e
       else throw (ProviderNetworkError "paystack"
                     ("Paystack verification request failed: " +:+ message e))).

(** [MtnMomoVerificationAdapter.mapStatus] *)
Definition momo_mapStatus (status : jsval) : ProviderVerificationStatus :=
  match status with
  | Some (JStr s) =>
      if bool_decide (s = "SUCCESSFUL") then PV_SUCCESS
      else if bool_decide (s ∈ ["FAILED"; "EXPIRED"; "REJECTED"; "TIMEOUT"]) then PV_FAILED
      else if bool_decide (s = "PENDING") then PV_PENDING
      else PV_UNKNOWN
  | _ => PV_UNKNOWN
  end.

(** The adapter's own [buildBasicAuth]: its API key is optional. *)
Definition momo_verification_buildBasicAuth : op string :=
  let* apiUser := match getOptional "MTN_MOMO_API_USER" with
                  | Some v => ret v
                  | None => getOrThrow "MTN_MOMO_API_KEY"
                  end in
  let* apiKey := match getOptional "MTN_MOMO_API_SECRET" with
                 | Some v => ret v
                 | None => getOrThrow "MTN_MOMO_API_KEY"
                 end in
  ret (base64 (apiUser +:+ ":" +:+ apiKey)).

Definition momo_verification_getAccessToken : op json :=
  let* base := momo_getBaseUrl in
  let* auth := momo_verification_buildBasicAuth in
  let* key := momo_getSubscriptionKey in
  let* response := fetchWithTimeout
    {| rq_method := "POST"; rq_url := base +:+ "/collection/token/";
       rq_headers := [("Authorization", "Basic " +:+ auth); ("Ocp-Apim-Subscription-Key", key)];
       rq_body := None |} getTimeoutMs in
  do* throw_if (response_unauthorized response)
        (ProviderAuthError "momo"
           ("MoMo authentication failed with status " +:+ pretty (rs_status response))) in
  do* throw_if (negb (response_ok response))
        (ProviderResponseError "momo" "MOMO_TOKEN_FAILED" (rs_status response)
           ("MoMo token request failed with status " +:+ pretty (rs_status response))) in
  let* body := lift (rs_json response) in
  let* token := lift (prop (Some body) "access_token") in
  or_throw (if js_truthy token then token else None)
    (ProviderResponseError "momo" "MOMO_TOKEN_FAILED" 502
       "MoMo token response did not include an access token.").

(** [typeof amount === 'string' && amount.trim().length > 0 ? Number(amount) : NaN],
    or null when it is not finite. *)
Definition momo_amount (v : jsval) : option jsnum :=
  match v with
  | Some (JStr s) => if bool_decide (trim s = "") then None else finite_Number s
  | _ => None
  end.

Definition momo_verifyByReference (providerReference : string) : op ProviderVerificationResult :=
  catch
    (let* token := momo_verification_getAccessToken in
     let* base := momo_getBaseUrl in
     let* env := momo_getTargetEnvironment in
     let* key := momo_getSubscriptionKey in
     let* response := fetchWithTimeout
       {| rq_method := "GET";
          rq_url := base +:+ "/collection/v1_0/requesttopay/" +:+
                    encodeURIComponent providerReference;
          rq_headers := [("Authorization", "Bearer " +:+ js_String token);
                         ("X-Target-Environment", env); ("Ocp-Apim-Subscription-Key", key)];
          rq_body := None |} getTimeoutMs in
     do* throw_if (response_unauthorized response)
           (ProviderAuthError "momo"
              ("MoMo authentication failed with status " +:+ pretty (rs_status response))) in
     do* throw_if (negb (response_ok response))
           (ProviderResponseError "momo" "MOMO_VERIFY_FAILED" (rs_status response)
              ("MoMo verification failed with status " +:+ pretty (rs_status response))) in
     let* body := lift (rs_json response) in
     let* amount := lift (prop (Some body) "amount") in
     let* status := lift (prop (Some body) "status") in
     let* currency := lift (prop (Some body) "currency") in
     ret {| pv_provider := MTN_MOMO; pv_providerReference := providerReference;
            pv_status := momo_mapStatus status; pv_amountMinor := momo_amount amount;
            pv_currency := string_of currency;
            pv_providerStatus := js_String (coalesce status (JStr "UNKNOWN"));
            pv_rawResponse := body |})
    (fun e =>
       if is_timeout e then throw (ProviderTimeoutError "momo" "MoMo verification timed out.")
       else if is_provider_failure e then throw e
       else throw (ProviderNetworkError "momo"
                     ("MoMo verification request failed: " +:+ message e))).

(** [ProviderVerificationRegistry.get(provider).verifyByReference] *)
Definition verifyByReference (provider : PaymentProvider) (providerReference : string)
  : op ProviderVerificationResult :=
  match provider with
  | PAYSTACK => paystack_verifyByReference providerReference
  | MTN_MOMO => momo_verifyByReference providerReference
  end.

(* ------------------------------------------------------------------ *)
(** ** WebhookSignatureService                                          *)

Definition computePayloadHash (rawBody : string) : string := sha256 rawBody.

(** [validatePaystackSignature]: [None] when valid, otherwise the failure message. *)
Definition validatePaystackSignature (rawBody : string) (headers : list (string * header))
    (secretKey : string) : option string :=
  match signature_header headers "x-paystack-signature" with
  | None => Some "Missing Paystack webhook signature."
  | Some signature =>
      if same_bytes (hmac512 secretKey rawBody) signature then None
      else Some "Invalid Paystack webhook signature."
  end.

(** [toJsonHeaders] *)
Definition toJsonHeaders (headers : list (string * header)) : json :=
  JObj (omap (fun kv =>
    match kv.2 with
    | HOne s => Some (kv.1, JStr s)
    | HMany l => Some (kv.1, JArr (JStr <$> l))
    | HAbsent => None
    end) headers).

End Network.

(* ------------------------------------------------------------------ *)
(** ** Properties                                                       *)

(** The errors of providers-errors.ts a verification can end with. *)
Definition is_verification_error (e : error) : bool :=
  match e with
  | ProviderAuthError _ _ | ProviderTimeoutError _ _ | ProviderNetworkError _ _
  | ProviderResponseError _ _ _ _ => true
  | _ => false
  end.

(** Where the provider's answer says what became of the payment: its status, amount,
    currency and reference. *)
Definition reported (provider : PaymentProvider) (body : json) (key : string) : jsval :=
  match provider with
  | PAYSTACK => prop_opt (prop_opt (Some body) "data") key
  | MTN_MOMO => prop_opt (Some body) key
  end.

Definition success_text (provider : PaymentProvider) : string :=
  match provider with PAYSTACK => "success" | MTN_MOMO => "SUCCESSFUL" end.

(** The provider's site, by the configuration. *)
Definition provider_site (cfg : string -> option string) (provider : PaymentProvider) : string :=
  match provider with
  | PAYSTACK => default "https://api.paystack.co" (cfg "PAYSTACK_BASE_URL")
  | MTN_MOMO =>
      match cfg "MTN_MOMO_BASE_URL" with
      | Some (String c url) => String c url
      | _ =>
          if bool_decide (default (default "" (cfg "MTN_MOMO_ENVIRONMENT")) (cfg "MTN_MOMO_TARGET_ENVIRONMENT")
                          = "sandbox")
          then "https://sandbox.momodeveloper.mtn.com" else "https://momodeveloper.mtn.com"
      end
  end.

(** Where the provider keeps its payments. *)
Definition payments_path (provider : PaymentProvider) : string :=
  match provider with PAYSTACK => "/transaction/verify/" | MTN_MOMO => "/collection/v1_0/requesttopay/" end.

(** Asked about the payment with this reference, as a segment of the path, the
    provider answered with this body. *)
Definition provider_answers (fetch : http_request -> fetch_result) (cfg : string -> option string)
    (provider : PaymentProvider) (segment : string) (body : json) : Prop :=
  exists rq resp, rq_method rq = "GET" /\
    rq_url rq = provider_site cfg provider +:+ payments_path provider +:+ segment /\
    fetch rq = FetchResponse resp /\ response_ok resp = true /\ rs_json resp = Ok body.

(** What the answer says of the amount, where the provider's answers have it: Paystack's
    a number, MoMo's a text that reads as one. *)
Definition reported_amount (provider : PaymentProvider) (body : json) : option jsnum :=
  match provider with
  | PAYSTACK => number_of (reported provider body "amount")
  | MTN_MOMO => momo_amount (reported provider body "amount")
  end.

(** The verdict repeats the answer of the provider about the reference asked for. *)
Record repeats_answer (provider : PaymentProvider) (ref : string) (body : json)
    (r : ProviderVerificationResult) : Prop := {
  ra_provider : pv_provider r = provider;
  ra_status : pv_status r = PV_SUCCESS <->
    reported provider body "status" = Some (JStr (success_text provider));
  ra_amount : pv_amountMinor r = reported_amount provider body;
  ra_currency : pv_currency r = string_of (reported provider body "currency");
  ra_reference : pv_providerReference r =
    match provider with
    | PAYSTACK => js_String (coalesce (reported provider body "reference") (JStr ref))
    | MTN_MOMO => ref
    end;
  ra_raw : pv_rawResponse r = body
}.

(** A read property of an object is what the optional read gives. *)
Lemma prop_Ok v k u : prop v k = Ok u -> prop_opt v k = u.
Proof. destruct v as [[] |]; cbn; congruence. Qed.

Lemma paystack_mapStatus_success v :
  paystack_mapStatus v = PV_SUCCESS <-> v = Some (JStr "success").
Proof. destruct v as [[] |]; cbn; try done. repeat case_bool_decide; naive_solver. Qed.

Lemma momo_mapStatus_success v :
  momo_mapStatus v = PV_SUCCESS <-> v = Some (JStr "SUCCESSFUL").
Proof. destruct v as [[] |]; cbn; try done. repeat case_bool_decide; naive_solver. Qed.

Lemma wp_lift {A} (o : outcome error A) (Q : A -> world -> Prop) X w :
  (forall a, o = Ok a -> Q a w) -> (forall e, o = Err e -> X e w) -> wp (lift o) Q X w.
Proof. destruct o; cbn; auto. Qed.

(** A computation that leaves the database alone. *)
Definition pure {A} (m : op A) : Prop := forall w, wp m (fun _ w' => w' = w) (fun _ w' => w' = w) w.

Section NetworkLemmas.
Context `{Crypto} (fetch : http_request -> fetch_result) (cfg : string -> option string).

Lemma wp_await_fetch rq (Q : http_response -> world -> Prop) (X : error -> world -> Prop) w :
  (forall r, fetch rq = FetchResponse r -> Q r w) -> (forall e, X e w) ->
  wp (await_fetch fetch rq) Q X w.
Proof. intros HQ HX. unfold await_fetch. destruct (fetch rq); cbn; auto; apply HX. Qed.

Lemma wp_fetchWithTimeout rq ms (Q : http_response -> world -> Prop) (X : error -> world -> Prop) w :
  (forall r, fetch rq = FetchResponse r -> Q r w) -> (forall e, X e w) ->
  wp (fetchWithTimeout fetch rq ms) Q X w.
Proof.
  intros HQ HX. apply wp_catch. apply wp_await_fetch; [exact HQ |].
  intros e. destruct (bool_decide _); apply HX.
Qed.

Lemma wp_getOrThrow key (Q : string -> world -> Prop) (X : error -> world -> Prop) w :
  (forall s, Q s w) -> (forall e, X e w) -> wp (getOrThrow cfg key) Q X w.
Proof. intros HQ HX. unfold getOrThrow. destruct (cfg key) as [[] |]; cbn; auto; apply HX. Qed.

(** The site the MoMo adapters compute is the configured one. *)
Lemma wp_momo_getBaseUrl (Q : string -> world -> Prop) (X : error -> world -> Prop) w :
  Q (provider_site cfg MTN_MOMO) w -> (forall e, X e w) -> wp (momo_getBaseUrl cfg) Q X w.
Proof.
  unfold momo_getBaseUrl, momo_getTargetEnvironment, provider_site, getOptional, truthy. intros HQ HX.
  assert (Hsite : wp (let* env := match cfg "MTN_MOMO_TARGET_ENVIRONMENT" with
                                  | Some v => ret v | None => getOrThrow cfg "MTN_MOMO_ENVIRONMENT" end in
                      ret (if bool_decide (env = "sandbox") then "https://sandbox.momodeveloper.mtn.com"
                           else "https://momodeveloper.mtn.com"))
    (fun url w' => w' = w /\ url = (if bool_decide (default (default "" (cfg "MTN_MOMO_ENVIRONMENT"))
         (cfg "MTN_MOMO_TARGET_ENVIRONMENT") = "sandbox")
       then "https://sandbox.momodeveloper.mtn.com" else "https://momodeveloper.mtn.com"))
    (fun _ w' => w' = w) w).
  { unfold getOrThrow. destruct (cfg "MTN_MOMO_TARGET_ENVIRONMENT"); cbn; [done |].
    by destruct (cfg "MTN_MOMO_ENVIRONMENT") as [[] |]. }
  destruct (cfg "MTN_MOMO_BASE_URL") as [[| c url] |]; [| by apply wp_ret |];
    (eapply wp_mono; [exact Hsite | by intros ? ? [-> ->] | by intros ? ? ->]).
Qed.

Lemma wp_pure {A} (m : op A) (Q : A -> world -> Prop) (X : error -> world -> Prop) w :
  pure m -> (forall a, Q a w) -> (forall e, X e w) -> wp m Q X w.
Proof.
  intros Hm HQ HX. eapply wp_mono; [apply Hm | |]; cbn; intros ? ? ->; auto.
Qed.

End NetworkLemmas.

(** Step through an adapter: its steps never touch the database. *)
Ltac net_step :=
  lazymatch goal with
  | |- wp (lift _) _ _ _ => apply wp_lift; [intros ? ? | intros ? ?]
  | |- wp (await_fetch _ _) _ _ _ => apply wp_await_fetch; [intros ? ? | intros ?]
  | |- wp (fetchWithTimeout _ _ _) _ _ _ => apply wp_fetchWithTimeout; [intros ? ? | intros ?]
  | |- wp (getOrThrow _ _) _ _ _ => apply wp_getOrThrow; [intros ? | intros ?]
  | |- wp (momo_getBaseUrl _) _ _ _ => apply wp_momo_getBaseUrl; [| intros ?]
  | |- wp _ _ _ _ =>
      first [apply wp_pure; [solve [auto with pure] | intros ? | intros ?] | wp_stmt]
  end; cbv beta.

Ltac net_pure := intros ?; repeat net_step; done.

Create HintDb pure.

Section MomoPure.
Context `{Crypto} (fetch : http_request -> fetch_result) (cfg : string -> option string).

Lemma momo_getTargetEnvironment_pure : pure (momo_getTargetEnvironment cfg).
Proof. net_pure. Qed.
#[local] Hint Resolve momo_getTargetEnvironment_pure : pure.

Lemma momo_getBaseUrl_pure : pure (momo_getBaseUrl cfg).
Proof. net_pure. Qed.
#[local] Hint Resolve momo_getBaseUrl_pure : pure.

Lemma momo_getSubscriptionKey_pure : pure (momo_getSubscriptionKey cfg).
Proof. net_pure. Qed.
#[local] Hint Resolve momo_getSubscriptionKey_pure : pure.

Lemma momo_verification_buildBasicAuth_pure : pure (momo_verification_buildBasicAuth cfg).
Proof. net_pure. Qed.
#[local] Hint Resolve momo_verification_buildBasicAuth_pure : pure.

Lemma momo_verification_getAccessToken_pure : pure (momo_verification_getAccessToken fetch cfg).
Proof. net_pure. Qed.

End MomoPure.

#[export] Hint Resolve momo_getTargetEnvironment_pure momo_getBaseUrl_pure
  momo_getSubscriptionKey_pure momo_verification_buildBasicAuth_pure
  momo_verification_getAccessToken_pure : pure.

(** The handler around an adapter's body only throws provider errors. *)
Lemma wp_verification_catch {A} (m : op A) (Q : A -> world -> Prop) w timeout_error label :
  is_verification_error timeout_error = true ->
  wp m Q (fun _ w' => w' = w) w ->
  wp (catch m (fun e =>
        if is_timeout e then throw timeout_error
        else if is_provider_failure e then throw e
        else throw (ProviderNetworkError label.1 (label.2 +:+ message e))))
     Q (fun e w' => w' = w /\ is_verification_error e = true) w.
Proof.
  intros Ht Hm. apply wp_catch. eapply wp_mono; [exact Hm | auto |].
  intros e w' ->. destruct (is_timeout e); [by split |].
  destruct (is_provider_failure e) eqn:E; [| by split]. split; [done |]. by destruct e.
Qed.

(** A verification either throws a provider error, or repeats what the provider
    answered about the reference; the database is not touched. *)
Lemma verifyByReference_wp `{Crypto} fetch cfg provider ref w :
  wp (verifyByReference fetch cfg provider ref)
     (fun r w' => w' = w /\ exists body,
        provider_answers fetch cfg provider (encodeURIComponent ref) body /\ repeats_answer provider ref body r)
     (fun e w' => w' = w /\ is_verification_error e = true) w.
Proof.
  destruct provider; unfold verifyByReference.
  - apply (wp_verification_catch _ _ _ _ ("paystack", "Paystack verification request failed: "));
      [done |].
    repeat net_step; try done.
    split; [done |]. eexists. split.
    + eexists _, _. split_and!; [| | eassumption | by apply negb_false_iff | eassumption]; done.
    + match goal with Hd : prop _ _ = Ok _ |- _ => apply prop_Ok in Hd; subst end.
      split; try done. apply paystack_mapStatus_success.
  - apply (wp_verification_catch _ _ _ _ ("momo", "MoMo verification request failed: "));
      [done |].
    repeat net_step; try done.
    split; [done |]. eexists. split.
    + eexists _, _. split_and!; [| | eassumption | by apply negb_false_iff | eassumption]; done.
    + repeat match goal with Hd : prop _ _ = Ok _ |- _ => apply prop_Ok in Hd; subst end.
      split; try done. apply momo_mapStatus_success.
Qed.

(** C37: A verification repeats the provider's own words.  Whatever the network or the
    configuration does, an adapter either fails with one of the four provider errors
    the webhook handler knows, or returns what a 2xx answer of the provider's site, to
    a GET for the very reference asked about, says: SUCCESS exactly when the answer has
    the provider's word for a settled payment, and its amount, its currency and (for
    Paystack, which repeats it) its reference.  It never writes to the database. *)
Theorem verifyByReference_genuine `{Crypto} fetch cfg provider ref w :
  match verifyByReference fetch cfg provider ref w with
  | (Ok r, w') => w' = w /\ exists body,
      provider_answers fetch cfg provider (encodeURIComponent ref) body /\ repeats_answer provider ref body r
  | (Err e, w') => w' = w /\ is_verification_error e = true
  end.
Proof. exact (verifyByReference_wp fetch cfg provider ref w). Qed.

Lemma same_bytes_eq a b : same_bytes a b = true <-> a = b.
Proof.
  unfold same_bytes. rewrite andb_true_iff, Nat.eqb_eq, bool_decide_eq_true. naive_solver.
Qed.

(** A Paystack webhook passes the signature check exactly when its signature header is
    present, not empty, and the HMAC-SHA512 of the raw body under the secret key. *)
Theorem validatePaystackSignature_iff `{Crypto} rawBody headers secretKey :
  validatePaystackSignature rawBody headers secretKey = None <->
  hmac512 secretKey rawBody <> "" /\
  getHeaderValue (header_value headers "x-paystack-signature") = Some (hmac512 secretKey rawBody).
Proof.
  unfold validatePaystackSignature, signature_header.
  destruct (truthy _) as [s |] eqn:E.
  - apply truthy_Some in E as [E Hs]. rewrite E.
    destruct (same_bytes _ s) eqn:Hb; [apply same_bytes_eq in Hb; naive_solver |].
    split; [done |]. intros [_ Heq]. simplify_eq.
    by rewrite (proj2 (same_bytes_eq _ _) eq_refl) in Hb.
  - split; [done |]. intros [Hne Heq]. rewrite Heq in E. cbn in E.
    destruct (hmac512 secretKey rawBody); done.
Qed.
