(* ===== verification/Orders.v ===== *)
(** Orders.v: checkout (src/src/modules/orders) and the idempotency layer it
    stands on (src/src/modules/idempotency, src/src/shared/idempotency). *)

From S2P Require Import Prelude Errors Values Hashing Store Context LaunchControl Inventory.

Local Open Scope Z_scope.

(* ------------------------------------------------------------------ *)
(** ** The Idempotency-Key header                                       *)

(** [requireIdempotencyKey] *)
Definition requireIdempotencyKey (value : header) : op string :=
  match value with
  | HOne s =>
      let normalized := trim s in
      do* throw_if ((String.length normalized =? 0) || (128 <? String.length normalized))%nat
            (BadRequestException "Missing or invalid Idempotency-Key header.") in
      ret normalized
  | _ => throw (BadRequestException "Missing or invalid Idempotency-Key header.")
  end.

(* ------------------------------------------------------------------ *)
(** ** PrismaIdempotencyRepository                                      *)

Section Checkout.
Context `{Crypto}.

(** The primary key (actor_user_id, use_case, idempotency_key_hash). *)
Definition idempotency_pk (actorUserId useCase idempotencyKey : string) : string * string * string :=
  (actorUserId, useCase, sha256 idempotencyKey).

(** [responseBody && typeof responseBody === 'object'] *)
Definition object_or_null (j : json) : json :=
  match j with
  | JObj _ | JArr _ => j
  | _ => JNull
  end.

Definition with_response (code : option Z) (body : json) (k : idempotency_key) : idempotency_key :=
  {| idk_actorUserId := idk_actorUserId k; idk_useCase := idk_useCase k;
     idk_idempotencyKeyHash := idk_idempotencyKeyHash k; idk_requestHash := idk_requestHash k;
     idk_responseCode := code; idk_responseBody := body |}.

Definition findByKey (actorUserId useCase idempotencyKey : string) : op (option idempotency_key) :=
  reads (fun w =>
    (fun k => with_response (idk_responseCode k) (object_or_null (idk_responseBody k)) k) <$>
    idempotency (checkout w) !! idempotency_pk actorUserId useCase idempotencyKey).

(** [tx.idempotencyKey.create] *)
Definition insert_idempotency (pk : string * string * string) (row : idempotency_key) : op unit :=
  fun w =>
    match idempotency (checkout w) !! pk with
    | Some _ => (Err unique_violation, w)
    | None => (Ok tt, set_idempotency (<[pk := row]> (idempotency (checkout w))) w)
    end.

Definition tryCreatePending (actorUserId useCase idempotencyKey requestHash : string) : op bool :=
  catch
    (do* insert_idempotency (idempotency_pk actorUserId useCase idempotencyKey)
           {| idk_actorUserId := actorUserId; idk_useCase := useCase;
              idk_idempotencyKeyHash := sha256 idempotencyKey; idk_requestHash := requestHash;
              idk_responseCode := None; idk_responseBody := JNull |} in
     ret true)
    (fun e => if is_unique_violation e then ret false else throw e).

Definition complete (actorUserId useCase idempotencyKey : string) (responseCode : Z)
    (responseBody : json) : op unit :=
  fun w =>
    let pk := idempotency_pk actorUserId useCase idempotencyKey in
    match idempotency (checkout w) !! pk with
    | Some k => (Ok tt, set_idempotency
                          (<[pk := with_response (Some responseCode) responseBody k]>
                             (idempotency (checkout w))) w)
    | None => (Err record_not_found, w)
    end.

(* ------------------------------------------------------------------ *)
(** ** PrismaOrderRepository                                            *)

Definition createOrderRow (o : order) : op unit := create orders_t o.

Definition findOrderById (orderId : string) : op (option order) := findUnique orders_t orderId.

Definition with_ord_status (s : OrderStatus) (o : order) : order :=
  {| ord_id := ord_id o; ord_userId := ord_userId o; ord_eventId := ord_eventId o;
     ord_reservationId := ord_reservationId o; ord_status := s;
     ord_totalAmount := ord_totalAmount o; ord_currency := ord_currency o |}.

Definition updateOrderStatus (orderId : string) (s : OrderStatus) : op unit :=
  do* update orders_t orderId (with_ord_status s) in ret tt.

(* ------------------------------------------------------------------ *)
(** ** CreateOrderUseCase                                               *)

Record CreateOrderInput : Type := {
  coi_idempotencyKey : string;
  coi_reservationId : string;
  coi_totalAmount : Z;
  coi_currency : string
}.

Definition CHECKOUT_IDEMPOTENCY_USE_CASE : string := "checkout.create_order".

(** [JSON.stringify(input, replacer)]: the replacer prints the bigint. *)
Definition order_fingerprint (input : CreateOrderInput) : string :=
  sha256 (stringify [("idempotencyKey", Some (coi_idempotencyKey input));
                     ("reservationId", Some (coi_reservationId input));
                     ("totalAmount", Some (pretty (coi_totalAmount input)));
                     ("currency", Some (coi_currency input))]).

(** [CreateOrderResult], as the JSON the idempotency row keeps. *)
Definition order_result (orderId : string) : json :=
  JObj [("orderId", JStr orderId); ("status", JStr "RESERVED")].

(** The claim of the idempotency key: [None] when this request owns it.  When the
    key is taken, the failed insert has aborted the transaction, and the search
    for the row that took it is refused. *)
Definition claim_key (actorId : string) (input : CreateOrderInput) : op (option idempotency_key) :=
  let requestHash := order_fingerprint input in
  let* claimed := tryCreatePending actorId CHECKOUT_IDEMPOTENCY_USE_CASE
                    (coi_idempotencyKey input) requestHash in
  if claimed then ret None
  else
    let* existing := statement_refused
      (findByKey actorId CHECKOUT_IDEMPOTENCY_USE_CASE (coi_idempotencyKey input)) in
    let* existing := or_throw existing (IdempotencyConflictError "Idempotency key collision.") in
    do* throw_if (negb (bool_decide (idk_requestHash existing = requestHash)))
          (IdempotencyConflictError "Idempotency key reused with different payload.") in
    ret (Some existing).

(** The reservation checks, for the first request and for its replays. *)
Definition check_reservation (lc : LaunchControlService) (ck : clock) (actorId : string)
    (input : CreateOrderInput) : op reservation :=
  let* found := findReservationById (coi_reservationId input) in
  let* r := or_throw found (NotFoundError "Reservation not found.") in
  do* throw_if (negb (bool_decide (rsv_ownerUserId r = actorId)))
        (NotFoundError "Reservation not found.") in
  do* throw_if (negb (bool_decide (rsv_status r = HELD)))
        (InvalidStateTransitionError "Reservation is not active.") in
  do* throw_if (rsv_expiresAt r <=? app_now ck)
        (InvalidStateTransitionError "Reservation has expired.") in
  do* assertCheckoutAllowed lc (rsv_eventId r) (coi_currency input) in
  ret r.

(** The transaction body.  Draws of [randomUUID]: 0 is the order, 1 the audit
    entry, 2 the outbox event. *)
Definition createOrder_tx (lc : LaunchControlService) (uuid : nat -> string) (ck : clock)
    (actorId corr : string) (input : CreateOrderInput) : op json :=
  let* existingIdempotency := claim_key actorId input in
  let* r := check_reservation lc ck actorId input in
  match existingIdempotency with
  | Some existing =>
      match idk_responseBody existing with
      | JNull => throw (IdempotencyConflictError "Idempotent request is already in progress.")
      | body => ret body
      end
  | None =>
      let orderId := uuid 0%nat in
      do* createOrderRow
            {| ord_id := orderId; ord_userId := actorId; ord_eventId := rsv_eventId r;
               ord_reservationId := Some (rsv_id r); ord_status := ORDER_RESERVED;
               ord_totalAmount := coi_totalAmount input; ord_currency := coi_currency input |} in
      do* complete actorId CHECKOUT_IDEMPOTENCY_USE_CASE (coi_idempotencyKey input) 201
            (order_result orderId) in
      do* appendAuditLog (uuid 1%nat) (Some actorId) "ORDER_CREATED" "order" orderId (Some corr)
            (JObj [("reservationId", JStr (rsv_id r));
                   ("totalAmount", JStr (pretty (coi_totalAmount input)));
                   ("currency", JStr (coi_currency input))]) in
      do* appendOutbox (db_now ck) (uuid 2%nat) "order" orderId "OrderCreated"
            (JObj [("orderId", JStr orderId); ("reservationId", JStr (rsv_id r));
                   ("eventId", JStr (rsv_eventId r))]) in
      ret (order_result orderId)
  end.

(** [execute] *)
Definition createOrder (lc : LaunchControlService) (uuid : nat -> string) (ck : clock)
    (ctx : option RequestContextValue) (input : CreateOrderInput) : op json :=
  match ctx, actor_of ctx with
  | Some c, Some actorId =>
      transaction (createOrder_tx lc uuid ck actorId (correlationId c) input)
  | _, _ => throw (DomainConflictError "Authenticated user context is required.")
  end.

(** [BigInt(s)] on a string of digits. *)
Fixpoint BigInt_digits (acc : Z) (s : string) : Z :=
  match s with
  | EmptyString => acc
  | String c s' => BigInt_digits (10 * acc + (Z.of_nat (nat_of_ascii c) - 48)) s'
  end.

(** [CheckoutController.createOrder], on a body the validation pipe accepted. *)
Definition checkout_createOrder (lc : LaunchControlService) (uuid : nat -> string) (ck : clock)
    (ctx : option RequestContextValue) (reservationId totalAmountMinor currency : string)
    (idempotencyKey : header) : op json :=
  let* key := requireIdempotencyKey idempotencyKey in
  let* result := createOrder lc uuid ck ctx
    {| coi_idempotencyKey := key; coi_reservationId := reservationId;
       coi_totalAmount := BigInt_digits 0 totalAmountMinor; coi_currency := currency |} in
  ret result.

End Checkout.

(* ------------------------------------------------------------------ *)
(** ** What checkout does                                               *)

Section CheckoutLemmas.
Context `{C : Crypto}.

Definition order_pk (actorId : string) (input : CreateOrderInput) : string * string * string :=
  idempotency_pk actorId CHECKOUT_IDEMPOTENCY_USE_CASE (coi_idempotencyKey input).

(** The idempotency row of a request that has been claimed, and completed. *)
Definition pending_row (actorId : string) (input : CreateOrderInput) : idempotency_key :=
  {| idk_actorUserId := actorId; idk_useCase := CHECKOUT_IDEMPOTENCY_USE_CASE;
     idk_idempotencyKeyHash := sha256 (coi_idempotencyKey input);
     idk_requestHash := order_fingerprint input; idk_responseCode := None;
     idk_responseBody := JNull |}.

Definition completed_row (actorId orderId : string) (input : CreateOrderInput) : idempotency_key :=
  with_response (Some 201) (order_result orderId) (pending_row actorId input).

(** The reservation can be checked out by this actor, now. *)
Record checkable (lc : LaunchControlService) (ck : clock) (actorId : string)
    (input : CreateOrderInput) (r : reservation) (w : world) : Prop := {
  co_row : reservations (stock w) !! coi_reservationId input = Some r;
  co_owner : rsv_ownerUserId r = actorId;
  co_held : rsv_status r = HELD;
  co_unexpired : app_now ck < rsv_expiresAt r;
  co_permitted : exists ev, events (catalog w) !! rsv_eventId r = Some ev /\
                            checkout_permitted lc ev (coi_currency input)
}.

(** The first request of a key: one order, the key completed with its result. *)
Record order_created (lc : LaunchControlService) (uuid : nat -> string) (ck : clock)
    (actorId : string) (input : CreateOrderInput) (res : json) (w w' : world) : Prop := {
  oc_fresh : idempotency (checkout w) !! order_pk actorId input = None;
  oc_reservation : exists r, checkable lc ck actorId input r w /\
    orders (checkout w') =
      <[uuid 0%nat := {| ord_id := uuid 0%nat; ord_userId := actorId; ord_eventId := rsv_eventId r;
                         ord_reservationId := Some (rsv_id r); ord_status := ORDER_RESERVED;
                         ord_totalAmount := coi_totalAmount input;
                         ord_currency := coi_currency input |}]> (orders (checkout w));
  oc_new_order : orders (checkout w) !! uuid 0%nat = None;
  oc_result : res = order_result (uuid 0%nat);
  oc_idempotency : idempotency (checkout w') =
    <[order_pk actorId input := completed_row actorId (uuid 0%nat) input]>
      (idempotency (checkout w));
  oc_stock : stock w' = stock w;
  oc_catalog : catalog w' = catalog w;
  oc_payments : payments (checkout w') = payments (checkout w) /\
                ledger (checkout w') = ledger (checkout w)
}.

(** What a request needs: a key nobody took, a reservation it can check out, an
    amount its column holds, a user row to refer to, and unused ids. *)
Record order_servable (lc : LaunchControlService) (uuid : nat -> string) (ck : clock)
    (actorId : string) (input : CreateOrderInput) (w : world) : Prop := {
  os_key : idempotency (checkout w) !! order_pk actorId input = None;
  os_reservation : exists r, checkable lc ck actorId input r w;
  os_amount : coi_totalAmount input < 2 ^ 63;
  os_user : is_Some (users (catalog w) !! actorId);
  os_ids : orders (checkout w) !! uuid 0%nat = None /\ audit_logs (journal w) !! uuid 1%nat = None /\
           outbox (journal w) !! uuid 2%nat = None
}.

Lemma wp_assertCheckoutAllowed lc e c w :
  wp (assertCheckoutAllowed lc e c)
     (fun _ w' => w' = w /\ exists ev, events (catalog w) !! e = Some ev /\
                                       checkout_permitted lc ev c) any w.
Proof.
  pose proof (assertCheckoutAllowed_reads_only lc e c w) as Hro.
  pose proof (proj1 (assertCheckoutAllowed_iff lc e c w)) as Hiff.
  unfold wp. destruct (assertCheckoutAllowed lc e c w) as [[[] | err] w'] eqn:E; [| done].
  split; [exact Hro | by apply Hiff].
Qed.

Lemma check_reservation_runs lc ck actorId input r w :
  checkable lc ck actorId input r w -> check_reservation lc ck actorId input w = (Ok r, w).
Proof.
  intros [Hr Ho Hs Hx Hp]. apply assertCheckoutAllowed_iff in Hp. apply Z.leb_gt in Hx.
  pose proof (assertCheckoutAllowed_reads_only lc (rsv_eventId r) (coi_currency input) w) as Hro.
  unfold check_reservation, findReservationById, findUnique, bind, reads. cbn [tb_rows reservations_t].
  rewrite Hr. cbn [or_throw]. unfold ret at 1.
  rewrite (bool_decide_eq_true_2 _ Ho), (bool_decide_eq_true_2 _ Hs), Hx. cbn [negb throw_if].
  unfold ret. destruct (assertCheckoutAllowed lc (rsv_eventId r) (coi_currency input) w) as [o w1].
  cbn in Hp, Hro. by subst.
Qed.

Lemma check_reservation_passes lc ck actorId input w :
  wp (check_reservation lc ck actorId input)
     (fun r w' => w' = w /\ checkable lc ck actorId input r w) any w.
Proof.
  wp_until assertCheckoutAllowed. wp_call wp_assertCheckoutAllowed.
  intros [] w1 [-> Hev]. apply wp_ret. split; [done |].
  apply negb_false_iff, bool_decide_eq_true in H0, H1. apply Z.leb_gt in H2. by split.
Qed.

(** The checks pass exactly on a reservation the actor can check out. *)
Lemma check_reservation_wp lc ck actorId input w :
  wp (check_reservation lc ck actorId input)
     (fun r w' => w' = w /\ checkable lc ck actorId input r w)
     (fun _ _ => ~ exists r, checkable lc ck actorId input r w) w.
Proof.
  pose proof (check_reservation_passes lc ck actorId input w) as Hwp. unfold wp in *.
  destruct (check_reservation lc ck actorId input w) as [[r | e] w'] eqn:E; [done |].
  intros [r Hr]. apply check_reservation_runs in Hr. congruence.
Qed.

(** A free key is claimed; a taken one ends the transaction. *)
Lemma claim_key_wp actorId input w :
  wp (claim_key actorId input)
     (fun res w' => res = None /\ idempotency (checkout w) !! order_pk actorId input = None /\
        w' = set_idempotency (<[order_pk actorId input := pending_row actorId input]>
                                (idempotency (checkout w))) w)
     (fun e _ => e = transaction_aborted /\ idempotency (checkout w) !! order_pk actorId input <> None) w.
Proof.
  unfold claim_key, tryCreatePending, wp, bind, catch, insert_idempotency, statement_refused, ret, throw.
  change (idempotency_pk actorId CHECKOUT_IDEMPOTENCY_USE_CASE (coi_idempotencyKey input))
    with (order_pk actorId input).
  by destruct (idempotency (checkout w) !! order_pk actorId input) as [row |] eqn:E.
Qed.

Lemma wp_complete actorId useCase key code body row w (Q : unit -> world -> Prop) X :
  idempotency (checkout w) !! idempotency_pk actorId useCase key = Some row ->
  Q tt (set_idempotency (<[idempotency_pk actorId useCase key := with_response (Some code) body row]>
                           (idempotency (checkout w))) w) ->
  wp (complete actorId useCase key code body) Q X w.
Proof. intros Hrow HQ. unfold wp, complete. by rewrite Hrow. Qed.

Lemma checkable_claimed lc ck actorId input r w x :
  checkable lc ck actorId input r (set_idempotency x w) <-> checkable lc ck actorId input r w.
Proof. split; intros []; by split. Qed.

Lemma createOrder_tx_wp lc uuid ck actorId corr input w :
  wp (createOrder_tx lc uuid ck actorId corr input)
     (fun res w' => order_created lc uuid ck actorId input res w w')
     (fun e _ => ~ order_servable lc uuid ck actorId input w /\
        (idempotency (checkout w) !! order_pk actorId input <> None -> e = transaction_aborted)) w.
Proof.
  unfold createOrder_tx. wp_step. eapply wp_mono; [apply claim_key_wp | cbn beta |].
  2: { intros e w' [-> Hk]. split; [intros []; done | done]. }
  intros res w1 (-> & Hnone & ->). wp_step.
  eapply wp_mono; [apply check_reservation_wp | cbn beta |].
  2: { intros e w' Hno. split; [| done]. intros [_ [r Hr] _ _ _]. destruct Hno. exists r. by apply checkable_claimed. }
  intros r w2 (-> & Hr). rewrite checkable_claimed in Hr. unfold createOrderRow, appendAuditLog, appendOutbox.
  wp_stmt. apply wp_create_plain; [done | intros Ho | intros Ho; split; [by intros [? ? ? ? (? & _)] | done]].
  wp_stmt. eapply wp_complete; [wsimpl; apply lookup_insert_eq |].
  wp_stmt. apply wp_create_plain; [done | intros Hl | intros Hl; split; [by intros [? ? ? ? (_ & ? & _)] | done]].
  wp_stmt. apply wp_create_plain; [done | intros Hb | intros Hb; split; [by intros [? ? ? ? (_ & _ & ?)] | done]].
  apply wp_ret. split; wsimpl; try done.
  - by exists r.
  - by rewrite insert_insert_eq.
Qed.

Lemma createOrder_wp lc uuid ck ctx input w :
  wp (createOrder lc uuid ck ctx input)
     (fun res w' => exists actorId, actor_of ctx = Some actorId /\
        order_created lc uuid ck actorId input res w w')
     (fun e w' => w' = w /\ forall actorId, actor_of ctx = Some actorId ->
        ~ order_servable lc uuid ck actorId input w /\
        (idempotency (checkout w) !! order_pk actorId input <> None -> e = transaction_aborted)) w.
Proof.
  unfold createOrder. destruct ctx as [c |]; [| by apply wp_throw].
  destruct (actor_of (Some c)) as [actorId |] eqn:Ha; [| by apply wp_throw].
  apply wp_transaction. eapply wp_mono; [apply createOrder_tx_wp | eauto |].
  intros e w1 He. split; [done |]. intros a Heq. assert (actorId = a) as <- by congruence. exact He.
Qed.

(** One request of a sequence: what happens to the database before it, and the
    request itself. *)
Record checkout_call : Type := {
  cc_meanwhile : world -> world;
  cc_uuid : nat -> string;
  cc_clock : clock;
  cc_ctx : option RequestContextValue;
  cc_input : CreateOrderInput
}.

(** What a request found, answered and left. *)
Record checkout_attempt : Type := {
  ca_before : world;
  ca_answer : outcome error json;
  ca_after : world
}.

Definition run_checkout (lc : LaunchControlService) (c : checkout_call) (w : world) : checkout_attempt :=
  let w1 := cc_meanwhile c w in
  let run := createOrder lc (cc_uuid c) (cc_clock c) (cc_ctx c) (cc_input c) w1 in
  {| ca_before := w1; ca_answer := run.1; ca_after := run.2 |}.

Fixpoint run_checkouts (lc : LaunchControlService) (calls : list checkout_call) (w : world)
  : list checkout_attempt :=
  match calls with
  | [] => []
  | c :: calls => let a := run_checkout lc c w in a :: run_checkouts lc calls (ca_after a)
  end.

(** The rows of the taken keys stay: nothing in the source deletes one. *)
Definition keeps_keys (f : world -> world) : Prop :=
  forall w pk, idempotency (checkout w) !! pk <> None -> idempotency (checkout (f w)) !! pk <> None.

Lemma createOrder_keeps_keys lc uuid ck ctx input :
  keeps_keys (fun w => (createOrder lc uuid ck ctx input w).2).
Proof.
  intros w pk Hpk. pose proof (createOrder_wp lc uuid ck ctx input w) as Hwp. unfold wp in Hwp.
  destruct (createOrder lc uuid ck ctx input w) as [[res | e] w']; cbn [snd].
  - destruct Hwp as (a & _ & Hc). rewrite (oc_idempotency _ _ _ _ _ _ _ _ Hc).
    by intros [Hn _]%lookup_insert_None.
  - by destruct Hwp as [-> _].
Qed.

(** A request whose key is taken ends with the aborted transaction. *)
Lemma createOrder_taken lc uuid ck ctx input actorId w :
  actor_of ctx = Some actorId -> idempotency (checkout w) !! order_pk actorId input <> None ->
  createOrder lc uuid ck ctx input w = (Err transaction_aborted, w).
Proof.
  intros Ha Hk. pose proof (createOrder_wp lc uuid ck ctx input w) as Hwp. unfold wp in Hwp.
  destruct (createOrder lc uuid ck ctx input w) as [[res | e] w'].
  - destruct Hwp as (a & Ha' & Hc). rewrite Ha in Ha'. injection Ha' as <-.
    by destruct Hk; apply (oc_fresh _ _ _ _ _ _ _ _ Hc).
  - destruct Hwp as [-> He]. by rewrite (proj2 (He actorId Ha) Hk).
Qed.

(** Once a key is taken, every later request for it is refused. *)
Lemma taken_key_refused lc calls : forall w j c a actorId,
  Forall (fun c => keeps_keys (cc_meanwhile c)) calls ->
  calls !! j = Some c -> run_checkouts lc calls w !! j = Some a -> actor_of (cc_ctx c) = Some actorId ->
  idempotency (checkout w) !! order_pk actorId (cc_input c) <> None ->
  ca_answer a = Err transaction_aborted /\ ca_after a = ca_before a.
Proof.
  induction calls as [| c0 calls IH]; intros w j c a actorId Hkeep Hj Ha Hactor Hk; [done |].
  apply Forall_cons in Hkeep as [H0 Hkeep]. destruct j as [| j]; cbn in Hj, Ha.
  - injection Hj as ->. injection Ha as <-. cbn. by rewrite (createOrder_taken _ _ _ _ _ actorId) by auto.
  - eapply IH; [done | exact Hj | exact Ha | exact Hactor |]. cbn. by apply createOrder_keeps_keys, H0.
Qed.

End CheckoutLemmas.

(* ------------------------------------------------------------------ *)
(** ** A checkout to run                                                *)

Module CheckoutExample.

Definition lc : LaunchControlService :=
  launch_control {| PILOT_CHECKOUT_ENABLED := None; PILOT_PAYMENTS_ENABLED := None;
    PILOT_ADMISSIONS_ENABLED := None; PILOT_ALLOWED_PAYMENT_PROVIDERS := None;
    PILOT_ALLOWED_CURRENCIES := Some ["GHS"]; PILOT_ALLOWED_ORGANIZER_IDS := None;
    PILOT_ALLOWED_EVENT_IDS := Some ["ev"]; PILOT_ALLOWED_GATE_IDS := None |}.

Definition ev : event :=
  {| ev_id := "ev"; ev_organizerId := "org"; ev_venueId := "venue"; ev_status := EV_PUBLISHED;
     ev_visibility := PUBLIC; ev_endsAt := 9000000; ev_paymentEnabled := true;
     ev_priceMinor := Some 5000; ev_priceCurrency := "GHS";
     ev_listing := plain_listing "ev" |}.

Definition rsv : reservation :=
  {| rsv_id := "rsv"; rsv_ownerUserId := "alice"; rsv_eventId := "ev"; rsv_ticketTypeId := "vip";
     rsv_quantity := 2; rsv_status := HELD; rsv_expiresAt := 600000 |}.

Definition w0 : world :=
  set_reservations {["rsv" := rsv]} (set_events {["ev" := ev]} empty_world).

(** Call number [n] draws ids of its own. *)
Definition ids (n : string) (i : nat) : string := n +:+ pretty i.

Definition at_time (t : Z) : clock := {| app_now := t; db_now := t |}.

Definition req (key : string) : CreateOrderInput :=
  {| coi_idempotencyKey := key; coi_reservationId := "rsv"; coi_totalAmount := 10000;
     coi_currency := "GHS" |}.

Definition run (n : string) (t : Z) (i : CreateOrderInput) : op json :=
  createOrder (H := plain_crypto) lc (ids n) (at_time t) (Some (context_for "alice" "corr-0001")) i.

Definition w1 : world := (run "a" 1000 (req "k1") w0).2.

Definition call (n : string) (t : Z) (key : string) : checkout_call :=
  {| cc_meanwhile := fun w => w; cc_uuid := ids n; cc_clock := at_time t;
     cc_ctx := Some (context_for "alice" "corr-0001"); cc_input := req key |}.

Lemma calls_keep_keys :
  Forall (fun c => keeps_keys (cc_meanwhile c)) [call "a" 1000 "k1"; call "b" 2000 "k1"].
Proof. apply Forall_forall. intros c Hc. apply list_elem_of_In in Hc. destruct Hc as [<- | [<- | []]]; intros w pk Hpk; exact Hpk. Qed.

Example first_run : (run "a" 1000 (req "k1") w0).1 = Ok (order_result "a0").
Proof. vm_run. Qed.

End CheckoutExample.

(* ------------------------------------------------------------------ *)
(** ** Properties                                                       *)

(** C29: Checkout succeeds exactly when it can be served.  A request that succeeds has
    created one RESERVED order for the caller's held, unexpired reservation of an
    event the launch controls permit, stored its response under a key that was free
    and touched no stock, catalogue, payment or ledger row.  A request that throws
    leaves the database as it was, and then something was missing: the caller was
    unknown, the key was taken, the reservation could not be checked out, or an id drawn was in use, the
    amount too large or the user's row gone.  When the key was taken the error is
    PostgreSQL's refusal of the statements that follow a failed one, whatever the
    payload. *)
Theorem createOrder_outcome `{C : Crypto} lc uuid ck ctx input w :
  match createOrder lc uuid ck ctx input w with
  | (Ok res, w') => exists actorId, actor_of ctx = Some actorId /\
      order_created lc uuid ck actorId input res w w'
  | (Err e, w') => w' = w /\ forall actorId, actor_of ctx = Some actorId ->
      ~ order_servable lc uuid ck actorId input w /\
      (idempotency (checkout w) !! order_pk actorId input <> None -> e = transaction_aborted)
  end.
Proof. exact (createOrder_wp lc uuid ck ctx input w). Qed.

(** C14: Checkout creates at most one order per key.  In any sequence of checkout
    requests, by any users, with any payloads, draws and clocks, and with anything
    between them that deletes no row of the idempotency table (nothing in the source
    does), once a request of an actor with a key has succeeded every later request
    of that actor with that key, with the same payload or another, is refused and
    leaves the database as it found it. *)
Theorem createOrder_at_most_once `{C : Crypto} lc calls w i j c1 c2 a1 a2 res actorId
    (Hmeanwhile : Forall (fun c => keeps_keys (cc_meanwhile c)) calls)
    (Horder : (i < j)%nat) (H1 : calls !! i = Some c1) (H2 : calls !! j = Some c2)
    (Ha1 : run_checkouts lc calls w !! i = Some a1) (Ha2 : run_checkouts lc calls w !! j = Some a2)
    (Hactor1 : actor_of (cc_ctx c1) = Some actorId) (Hactor2 : actor_of (cc_ctx c2) = Some actorId)
    (Hkey : coi_idempotencyKey (cc_input c2) = coi_idempotencyKey (cc_input c1))
    (Hdone : ca_answer a1 = Ok res) :
  ca_answer a2 = Err transaction_aborted /\ ca_after a2 = ca_before a2.
Proof.
  revert w i j Horder H1 H2 Ha1 Ha2. induction calls as [| c calls IH]; intros w i j Hij H1 H2 Ha1 Ha2; [done |].
  apply Forall_cons in Hmeanwhile as [Hc Hcs]. destruct j as [| j]; [lia |].
  destruct i as [| i]; [| by eapply IH; [.. | exact H1 | exact H2 | exact Ha1 | exact Ha2]; try done; lia].
  cbn in H1, H2, Ha1, Ha2. injection H1 as ->. injection Ha1 as <-. cbn in Hdone.
  eapply taken_key_refused; [exact Hcs | exact H2 | exact Ha2 | exact Hactor2 |]. cbn.
  pose proof (createOrder_wp lc (cc_uuid c1) (cc_clock c1) (cc_ctx c1) (cc_input c1) (cc_meanwhile c1 w)) as Hwp.
  unfold wp in Hwp. destruct (createOrder _ _ _ _ _ _) as [[r | e] w']; cbn in Hdone; [| discriminate Hdone].
  destruct Hwp as (a & Ha & Hcr). rewrite Hactor1 in Ha. injection Ha as <-. cbn.
  rewrite (oc_idempotency _ _ _ _ _ _ _ _ Hcr). unfold order_pk. rewrite Hkey, lookup_insert_eq. done.
Qed.

Lemma createOrder_at_most_once_witness :
  CheckoutExample.run "a" 1000 (CheckoutExample.req "k1") CheckoutExample.w0 =
    (Ok (order_result "a0"), CheckoutExample.w1) /\
  CheckoutExample.run "b" 2000 (CheckoutExample.req "k1") CheckoutExample.w1 =
    (Err transaction_aborted, CheckoutExample.w1).
Proof.
  assert (Hrun : CheckoutExample.run "a" 1000 (CheckoutExample.req "k1") CheckoutExample.w0 =
    (Ok (order_result "a0"), CheckoutExample.w1)) by run_ends.
  split; [exact Hrun |].
  pose proof (createOrder_at_most_once (C := plain_crypto) CheckoutExample.lc
    [CheckoutExample.call "a" 1000 "k1"; CheckoutExample.call "b" 2000 "k1"] CheckoutExample.w0 0 1
    _ _ _ _ (order_result "a0") "alice" CheckoutExample.calls_keep_keys (Nat.lt_0_succ 0)
    eq_refl eq_refl eq_refl eq_refl eq_refl eq_refl eq_refl (f_equal fst Hrun)) as [Hanswer Hafter].
  unfold run_checkouts, run_checkout, CheckoutExample.call in Hanswer, Hafter.
  cbn [cc_meanwhile cc_uuid cc_clock cc_ctx cc_input ca_before ca_answer ca_after] in Hanswer, Hafter.
  rewrite (surjective_pairing (CheckoutExample.run "b" 2000 (CheckoutExample.req "k1") CheckoutExample.w1)).
  exact (f_equal2 pair Hanswer Hafter).
Defined.

(** Checkout does not consume the reservation: two requests with different
    keys each create a RESERVED order for the same reservation. *)
Theorem createOrder_reservation_reused :
  exists w2, CheckoutExample.run "b" 2000 (CheckoutExample.req "k2") CheckoutExample.w1 =
               (Ok (order_result "b0"), w2) /\
    (ord_reservationId <$> orders (checkout w2) !! "a0") = Some (Some "rsv") /\
    (ord_reservationId <$> orders (checkout w2) !! "b0") = Some (Some "rsv").
Proof.
  exists (CheckoutExample.run "b" 2000 (CheckoutExample.req "k2") CheckoutExample.w1).2.
  split; [run_ends |]. split; vm_run.
Qed.
