(* ===== verification/Payments.v ===== *)
(** Payments.v: settling an order's payment
    (src/src/modules/payments/application/use-cases/verify-payment.use-case.ts)
    and the payment and ledger repositories. *)

From S2P Require Import Prelude Errors Values Hashing Store Context Providers Orders.

Local Open Scope Z_scope.

(* ------------------------------------------------------------------ *)
(** ** PrismaPaymentRepository and PrismaLedgerRepository               *)

Definition createPayment (p : payment) : op unit := create payments_t p.

Definition findByProviderRef (provider providerRef : string) : op (option payment) :=
  findFirst payments_t (fun p =>
    bool_decide (pay_provider p = provider) && bool_decide (pay_providerRef p = Some providerRef)).

Definition with_pay_status (s : PaymentStatus) (p : payment) : payment :=
  {| pay_id := pay_id p; pay_orderId := pay_orderId p; pay_provider := pay_provider p;
     pay_providerRef := pay_providerRef p; pay_status := s; pay_amount := pay_amount p |}.

Definition updatePaymentStatus (paymentId : string) (s : PaymentStatus) : op unit :=
  do* update payments_t paymentId (with_pay_status s) in ret tt.

Definition appendLedger (e : ledger_entry) : op unit := create ledger_t e.

(* ------------------------------------------------------------------ *)
(** ** VerifyPaymentUseCase                                             *)

Inductive SupportedPaymentProvider : Type := paystack | momo.

Definition provider_text (p : SupportedPaymentProvider) : string :=
  match p with paystack => "paystack" | momo => "momo" end.

Record VerifyPaymentInput : Type := {
  vpi_provider : SupportedPaymentProvider;
  vpi_providerRef : string;
  vpi_verifiedSuccess : bool;
  vpi_verifiedCurrency : string
}.

Record VerifyPaymentOutput : Type := {
  vpo_paymentId : string;
  vpo_orderId : string;
  vpo_paymentStatus : PaymentStatus;
  vpo_orderStatus : OrderStatus
}.

Definition mapProviderStatus (s : ProviderPaymentStatus) : PaymentStatus :=
  match s with
  | PP_SUCCESS => PAY_SUCCESS
  | PP_FAILED => PAY_FAILED
  | PP_REVERSED => PAY_REVERSED
  | PP_REFUNDED => PAY_REFUNDED
  | PP_PENDING => PAY_PENDING
  end.

Definition mapOrderStatus (s : PaymentStatus) : OrderStatus :=
  match s with
  | PAY_SUCCESS => ORDER_PAID
  | PAY_PENDING => ORDER_PAYMENT_PENDING
  | _ => ORDER_FAILED
  end.

Definition provider_status_text (s : ProviderPaymentStatus) : string :=
  match s with
  | PP_SUCCESS => "SUCCESS"
  | PP_FAILED => "FAILED"
  | PP_PENDING => "PENDING"
  | PP_REVERSED => "REVERSED"
  | PP_REFUNDED => "REFUNDED"
  end.

Definition terminal_payment (s : PaymentStatus) : bool :=
  bool_decide (s = PAY_SUCCESS) || bool_decide (s = PAY_REFUNDED) || bool_decide (s = PAY_REVERSED).

Definition verified_event_type (s : PaymentStatus) : string :=
  if bool_decide (s = PAY_SUCCESS) then "PaymentVerifiedSuccess"
  else if bool_decide (s = PAY_PENDING) then "PaymentVerificationPending"
  else "PaymentVerifiedFailure".

(** The transaction body, once the provider has answered.  [ids] are the next
    draws of [randomUUID]: the ledger entry is only drawn on success. *)
Definition verify_tx (uuid : nat -> string) (ck : clock) (ctx : option RequestContextValue)
    (input : VerifyPaymentInput) (verification : VerifyPaymentResult) : op VerifyPaymentOutput :=
  let* found := findByProviderRef (provider_text (vpi_provider input)) (vpi_providerRef input) in
  let* p := or_throw found (NotFoundError "Payment not found.") in
  do* throw_if (terminal_payment (pay_status p))
        (PaymentAlreadyProcessedError "Payment is already in terminal state.") in
  let* found_order := findOrderById (pay_orderId p) in
  let* o := or_throw found_order (NotFoundError "Order not found.") in
  do* throw_if (negb (vp_amountMinor verification =? pay_amount p) ||
                negb (bool_decide (vp_currency verification = Some (ord_currency o))))
        (InvalidStateTransitionError
           "Provider verification does not match expected payment amount or currency.") in
  let newPaymentStatus := mapProviderStatus (vp_status verification) in
  do* updatePaymentStatus (pay_id p) newPaymentStatus in
  let newOrderStatus := mapOrderStatus newPaymentStatus in
  do* updateOrderStatus (pay_orderId p) newOrderStatus in
  let success := bool_decide (newPaymentStatus = PAY_SUCCESS) in
  do* when success
        (appendLedger {| led_id := uuid 0%nat; led_orderId := Some (pay_orderId p);
                         led_paymentId := Some (pay_id p); led_direction := CREDIT;
                         led_accountType := "CUSTOMER_CASH_IN";
                         led_amount := vp_amountMinor verification; led_currency := ord_currency o;
                         led_correlationId := correlation_of ctx |}) in
  let n := if success then 1%nat else 0%nat in
  do* appendAuditLog (uuid n) (ctx ≫= ctx_userId) "PAYMENT_VERIFIED" "payment" (pay_id p)
        (correlation_of ctx)
        (JObj [("provider", JStr (provider_text (vpi_provider input)));
               ("providerRef", JStr (vpi_providerRef input));
               ("providerStatus", JStr (provider_status_text (vp_status verification)));
               ("orderId", JStr (pay_orderId p))]) in
  do* appendOutbox (db_now ck) (uuid (S n)) "payment" (pay_id p)
        (verified_event_type newPaymentStatus)
        (JObj [("paymentId", JStr (pay_id p)); ("orderId", JStr (pay_orderId p));
               ("provider", JStr (provider_text (vpi_provider input)));
               ("providerStatus", JStr (provider_status_text (vp_status verification)))]) in
  ret {| vpo_paymentId := pay_id p; vpo_orderId := pay_orderId p;
         vpo_paymentStatus := newPaymentStatus; vpo_orderStatus := newOrderStatus |}.

Section VerifyPayment.
Context `{Crypto} (fetch : http_request -> fetch_result) (cfg : string -> option string).

Definition provider_verifyPayment (p : SupportedPaymentProvider) (providerRef : string)
  : op VerifyPaymentResult :=
  match p with
  | paystack => paystack_verifyPayment fetch cfg providerRef
  | momo => momo_verifyPayment fetch cfg providerRef
  end.

(** [execute] *)
Definition verifyPayment (uuid : nat -> string) (ck : clock) (ctx : option RequestContextValue)
    (input : VerifyPaymentInput) : op VerifyPaymentOutput :=
  let* verification := provider_verifyPayment (vpi_provider input) (vpi_providerRef input) in
  do* throw_if (negb (bool_decide (vp_currency verification = Some (vpi_verifiedCurrency input))))
        (InvalidStateTransitionError "Webhook verification currency mismatch.") in
  do* throw_if (vpi_verifiedSuccess input && negb (bool_decide (vp_status verification = PP_SUCCESS)))
        (InvalidStateTransitionError
           "Webhook success state does not match provider verification.") in
  transaction (verify_tx uuid ck ctx input verification).

End VerifyPayment.

(** [RefundPaymentUseCase.execute] *)
Definition refundPayment : op unit :=
  throw (InvalidStateTransitionError "Refund flow is not implemented yet.").

(* ------------------------------------------------------------------ *)
(** ** What a verification does                                         *)

Section PaymentPure.
Context `{Crypto} (fetch : http_request -> fetch_result) (cfg : string -> option string).

Lemma paystack_fetchJson_pure rq code : pure (paystack_fetchJson fetch rq code).
Proof. net_pure. Qed.
#[local] Hint Resolve paystack_fetchJson_pure : pure.

Lemma momo_fetchJson_pure rq code : pure (momo_fetchJson fetch rq code).
Proof. net_pure. Qed.
#[local] Hint Resolve momo_fetchJson_pure : pure.

Lemma momo_buildBasicAuth_pure : pure (momo_buildBasicAuth cfg).
Proof. net_pure. Qed.
#[local] Hint Resolve momo_buildBasicAuth_pure : pure.

Lemma momo_getAccessToken_pure : pure (momo_getAccessToken fetch cfg).
Proof. net_pure. Qed.
#[local] Hint Resolve momo_getAccessToken_pure : pure.

Lemma paystack_read_pure body : pure (paystack_read body).
Proof. net_pure. Qed.
#[local] Hint Resolve paystack_read_pure : pure.

Lemma momo_read_pure ref body : pure (momo_read ref body).
Proof. net_pure. Qed.
#[local] Hint Resolve momo_read_pure : pure.

Lemma provider_verifyPayment_pure p ref : pure (provider_verifyPayment fetch cfg p ref).
Proof. destruct p; net_pure. Qed.

End PaymentPure.

#[export] Hint Resolve paystack_fetchJson_pure momo_fetchJson_pure momo_buildBasicAuth_pure
  momo_getAccessToken_pure : pure.

(** A pure computation gives its result wherever it runs. *)
Lemma wp_pure_value {A} (m : op A) (Q : A -> world -> Prop) (X : error -> world -> Prop) w :
  pure m -> (forall a, m w = (Ok a, w) -> Q a w) -> (forall e, X e w) -> wp m Q X w.
Proof.
  intros Hm HQ HX. specialize (Hm w). unfold wp in *.
  destruct (m w) as [[a | e] w'] eqn:E; subst; auto.
Qed.

(** One verification of one open payment: the payment and its order take the
    provider's verdict, and a settled payment is credited once. *)
Record settled (uuid : nat -> string) (input : VerifyPaymentInput) (v : VerifyPaymentResult)
    (p : payment) (o : order) (ctx : option RequestContextValue) (w w' : world) : Prop := {
  se_payment : payments (checkout w) !! pay_id p = Some p;
  se_ref : pay_provider p = provider_text (vpi_provider input) /\
           pay_providerRef p = Some (vpi_providerRef input);
  se_open : terminal_payment (pay_status p) = false;
  se_order : orders (checkout w) !! pay_orderId p = Some o;
  se_amount : vp_amountMinor v = pay_amount p;
  se_currency : vp_currency v = Some (ord_currency o);
  se_payments : payments (checkout w') =
    <[pay_id p := with_pay_status (mapProviderStatus (vp_status v)) p]> (payments (checkout w));
  se_orders : orders (checkout w') =
    <[pay_orderId p := with_ord_status (mapOrderStatus (mapProviderStatus (vp_status v))) o]>
      (orders (checkout w));
  se_ledger : (vp_status v <> PP_SUCCESS /\ ledger (checkout w') = ledger (checkout w)) \/
    (vp_status v = PP_SUCCESS /\ ledger (checkout w) !! uuid 0%nat = None /\
     ledger (checkout w') =
       <[uuid 0%nat := {| led_id := uuid 0%nat; led_orderId := Some (pay_orderId p);
                          led_paymentId := Some (pay_id p); led_direction := CREDIT;
                          led_accountType := "CUSTOMER_CASH_IN"; led_amount := vp_amountMinor v;
                          led_currency := ord_currency o;
                          led_correlationId := correlation_of ctx |}]> (ledger (checkout w)));
  se_frame : stock w' = stock w /\ catalog w' = catalog w /\ ticketing w' = ticketing w
}.

Lemma mapProviderStatus_success s : mapProviderStatus s = PAY_SUCCESS <-> s = PP_SUCCESS.
Proof. by destruct s. Qed.

Lemma verify_tx_wp uuid ck ctx input v w :
  keyed pay_id (payments (checkout w)) ->
  wp (verify_tx uuid ck ctx input v)
     (fun out w' => exists p o, settled uuid input v p o ctx w w' /\
        out = {| vpo_paymentId := pay_id p; vpo_orderId := pay_orderId p;
                 vpo_paymentStatus := mapProviderStatus (vp_status v);
                 vpo_orderStatus := mapOrderStatus (mapProviderStatus (vp_status v)) |})
     any w.
Proof.
  intros Hk. wp_go.
  all: apply find_row_Some in H as (k & Hrow & Hb); apply andb_true_iff in Hb as [Hb1 Hb2];
    apply bool_decide_eq_true in Hb1, Hb2; pose proof (Hk _ _ Hrow) as <-.
  all: apply orb_false_iff in H2 as [Ha Hc]; apply negb_false_iff in Ha, Hc;
    apply Z.eqb_eq in Ha; apply bool_decide_eq_true in Hc.
  all: exists a, a0; split; [| done]; same_row Hrow; same_row H1; split; wsimpl; try done.
  all: apply bool_decide_eq_true in H5 || apply bool_decide_eq_false in H5;
    rewrite mapProviderStatus_success in H5; auto.
Qed.

Section VerifyLemmas.
Context `{Crypto} (fetch : http_request -> fetch_result) (cfg : string -> option string).

Lemma verifyPayment_wp uuid ck ctx input w :
  keyed pay_id (payments (checkout w)) ->
  wp (verifyPayment fetch cfg uuid ck ctx input)
     (fun out w' => exists v p o,
        provider_verifyPayment fetch cfg (vpi_provider input) (vpi_providerRef input) w = (Ok v, w) /\
        vp_currency v = Some (vpi_verifiedCurrency input) /\
        (vpi_verifiedSuccess input = true -> vp_status v = PP_SUCCESS) /\
        settled uuid input v p o ctx w w' /\
        out = {| vpo_paymentId := pay_id p; vpo_orderId := pay_orderId p;
                 vpo_paymentStatus := mapProviderStatus (vp_status v);
                 vpo_orderStatus := mapOrderStatus (mapProviderStatus (vp_status v)) |})
     (fun _ w' => w' = w) w.
Proof.
  intros Hk. unfold verifyPayment. wp_step.
  apply wp_pure_value; [apply provider_verifyPayment_pure | | done].
  intros v Hv. do 2 (wp_step; wp_step; [done |]). wp_step.
  apply negb_false_iff, bool_decide_eq_true in H0.
  eapply wp_mono; [by apply verify_tx_wp | | done]. cbn beta.
  intros out w' (p & o & Hs & Ho). exists v, p, o. split_and!; try done.
  intros Hsucc. rewrite Hsucc in H1. cbn in H1.
  by apply negb_false_iff, bool_decide_eq_true in H1.
Qed.

End VerifyLemmas.

(** The books are right: rows are stored under their ids, and the payments that
    settled are exactly the ones credited, once, at their amount. *)
Record ledger_ok (w : world) : Prop := {
  lo_keyed : keyed pay_id (payments (checkout w));
  lo_credit : forall lid e pid, ledger (checkout w) !! lid = Some e -> led_paymentId e = Some pid ->
    exists p, payments (checkout w) !! pid = Some p /\ pay_status p = PAY_SUCCESS /\
      led_direction e = CREDIT /\ led_amount e = pay_amount p /\
      led_orderId e = Some (pay_orderId p);
  lo_credited : forall pid p, payments (checkout w) !! pid = Some p -> pay_status p = PAY_SUCCESS ->
    exists lid e, ledger (checkout w) !! lid = Some e /\ led_paymentId e = Some pid;
  lo_once : forall l1 l2 e1 e2 pid, ledger (checkout w) !! l1 = Some e1 ->
    ledger (checkout w) !! l2 = Some e2 -> led_paymentId e1 = Some pid ->
    led_paymentId e2 = Some pid -> l1 = l2
}.

(** A payment that is not settled has no credit. *)
Lemma open_not_credited w p lid e :
  ledger_ok w -> payments (checkout w) !! pay_id p = Some p ->
  terminal_payment (pay_status p) = false -> ledger (checkout w) !! lid = Some e ->
  led_paymentId e <> Some (pay_id p).
Proof.
  intros Hok Hp Ht He Hpid. destruct (lo_credit _ Hok _ _ _ He Hpid) as (p' & Hp' & Hs & _).
  rewrite Hp in Hp'. injection Hp' as <-. by rewrite Hs in Ht.
Qed.

Lemma ledger_ok_settled uuid input v p o ctx w w' :
  ledger_ok w -> settled uuid input v p o ctx w w' -> ledger_ok w'.
Proof.
  intros Hok [Hp _ Hopen _ Hamt _ Hpay _ Hled _].
  pose proof (open_not_credited w p) as Hnc.
  assert (Hother : forall pid q, pid <> pay_id p ->
    payments (checkout w') !! pid = Some q <-> payments (checkout w) !! pid = Some q).
  { intros pid q Hne. rewrite Hpay, lookup_insert_ne by done. done. }
  assert (Hself : payments (checkout w') !! pay_id p =
    Some (with_pay_status (mapProviderStatus (vp_status v)) p)) by by rewrite Hpay, lookup_insert_eq.
  assert (Hold : forall lid e pid, ledger (checkout w) !! lid = Some e -> led_paymentId e = Some pid ->
    exists q, payments (checkout w') !! pid = Some q /\ pay_status q = PAY_SUCCESS /\
      led_direction e = CREDIT /\ led_amount e = pay_amount q /\ led_orderId e = Some (pay_orderId q)).
  { intros lid e pid He Hpid. destruct (lo_credit _ Hok _ _ _ He Hpid) as (q & Hq & Hrest).
    exists q. split; [| done]. apply Hother; [| done]. intros ->. by eapply Hnc. }
  destruct Hled as [[Hns Hl] | (Hs & Hfresh & Hl)]; split; rewrite ?Hl.
  - rewrite Hpay. apply keyed_insert; [apply Hok | done].
  - exact Hold.
  - intros pid q Hq Hst. destruct (decide (pid = pay_id p)) as [-> | Hne].
    + rewrite Hself in Hq. injection Hq as <-. cbn in Hst. by apply mapProviderStatus_success in Hst.
    + apply Hother in Hq; [| done]. by eapply (lo_credited _ Hok).
  - apply Hok.
  - rewrite Hpay. apply keyed_insert; [apply Hok | done].
  - intros lid e pid He Hpid. apply lookup_insert_Some in He as [[<- <-] | [_ He]]; [| by eapply Hold].
    cbn in Hpid. injection Hpid as <-. rewrite Hself. eexists. split; [done |]. cbn.
    rewrite Hs. done.
  - intros pid q Hq Hst. destruct (decide (pid = pay_id p)) as [-> | Hne].
    + eexists _, _. split; [apply lookup_insert_eq | done].
    + apply Hother in Hq; [| done]. destruct (lo_credited _ Hok _ _ Hq Hst) as (lid & e & He & Hpid).
      exists lid, e. split; [| done]. rewrite lookup_insert_ne; [done | congruence].
  - intros l1 l2 e1 e2 pid H1 H2 Hp1 Hp2.
    apply lookup_insert_Some in H1 as [[<- <-] | [Hn1 H1]], H2 as [[<- <-] | [Hn2 H2]].
    + done.
    + cbn in Hp1. injection Hp1 as <-. by destruct (Hnc _ _ Hok Hp Hopen H2).
    + cbn in Hp2. injection Hp2 as <-. by destruct (Hnc _ _ Hok Hp Hopen H1).
    + by eapply (lo_once _ Hok).
Qed.

(* ------------------------------------------------------------------ *)
(** ** A payment to verify                                              *)

Module PaymentExample.

Definition cfg (k : string) : option string :=
  if bool_decide (k = "PAYSTACK_SECRET_KEY") then Some "sk_test" else None.

(** Paystack answers the verify call for the reference [ref-1]. *)
Definition fetch (status : string) (amount : Z) (rq : http_request) : fetch_result :=
  if bool_decide (rq_url rq = "https://api.paystack.co/transaction/verify/ref-1")
  then FetchResponse {| rs_status := 200; rs_json := Ok (JObj [("data", JObj
         [("reference", JStr "ref-1"); ("status", JStr status); ("amount", JNum amount);
          ("currency", JStr "GHS")])]) |}
  else FetchResponse {| rs_status := 404; rs_json := Ok JNull |}.

Definition pay : payment :=
  {| pay_id := "pay"; pay_orderId := "ord"; pay_provider := "paystack";
     pay_providerRef := Some "ref-1"; pay_status := PAY_PENDING; pay_amount := 10000 |}.

Definition ord : order :=
  {| ord_id := "ord"; ord_userId := "alice"; ord_eventId := "ev"; ord_reservationId := Some "rsv";
     ord_status := ORDER_RESERVED; ord_totalAmount := 10000; ord_currency := "GHS" |}.

Definition pays : gmap string payment := {["pay" := pay]}.

Definition w0 : world := set_payments pays (set_orders {["ord" := ord]} empty_world).

Definition ids (i : nat) : string := "id" +:+ pretty i.
Definition ck : clock := {| app_now := 1000; db_now := 1000 |}.
Definition input : VerifyPaymentInput :=
  {| vpi_provider := paystack; vpi_providerRef := "ref-1"; vpi_verifiedSuccess := true;
     vpi_verifiedCurrency := "GHS" |}.

Definition run (status : string) (amount : Z) : op VerifyPaymentOutput :=
  verifyPayment (H := plain_crypto) (fetch status amount) cfg ids ck None input.

Definition out : VerifyPaymentOutput :=
  {| vpo_paymentId := "pay"; vpo_orderId := "ord"; vpo_paymentStatus := PAY_SUCCESS;
     vpo_orderStatus := ORDER_PAID |}.

Definition w1 : world := (run "success" 10000 w0).2.

Example payment_ok : (run "success" 10000 w0).1 = Ok out.
Proof. vm_run. Qed.

Lemma keyed_orders : keyed pay_id (payments (checkout w0)).
Proof. intros k r H. change (pays !! k = Some r) in H.
  unfold pays in H; apply lookup_singleton_Some in H as [<- <-]. done. Qed.

Lemma ledger_w0 lid e : ledger (checkout w0) !! lid <> Some e.
Proof. change ((∅ : gmap string ledger_entry) !! lid <> Some e). by rewrite lookup_empty. Qed.

Lemma ledger_ok_w0 : ledger_ok w0.
Proof.
  split.
  - exact keyed_orders.
  - intros lid e pid Hl. by apply ledger_w0 in Hl.
  - intros pid p Hp Hs. change (pays !! pid = Some p) in Hp. unfold pays in Hp.
    apply lookup_singleton_Some in Hp as [<- <-]. done.
  - intros l1 l2 e1 e2 pid Hl. by apply ledger_w0 in Hl.
Qed.

End PaymentExample.

(* ------------------------------------------------------------------ *)
(** ** Properties                                                       *)

(** C27: A payment verification takes effect only on an open payment found by its provider
    reference, when the provider's answer has the payment's amount and the
    order's currency, and SUCCESS when the caller claims success; then payment
    and order take the provider's verdict and a settled payment is credited
    once.  Any other run leaves the database as it was. *)
Theorem verifyPayment_outcome `{Crypto} fetch cfg uuid ck ctx input w
    (Hkeyed : keyed pay_id (payments (checkout w))) :
  match verifyPayment fetch cfg uuid ck ctx input w with
  | (Ok out, w') => exists v p o,
      provider_verifyPayment fetch cfg (vpi_provider input) (vpi_providerRef input) w = (Ok v, w) /\
      vp_currency v = Some (vpi_verifiedCurrency input) /\
      (vpi_verifiedSuccess input = true -> vp_status v = PP_SUCCESS) /\
      settled uuid input v p o ctx w w' /\
      out = {| vpo_paymentId := pay_id p; vpo_orderId := pay_orderId p;
               vpo_paymentStatus := mapProviderStatus (vp_status v);
               vpo_orderStatus := mapOrderStatus (mapProviderStatus (vp_status v)) |}
  | (Err _, w') => w' = w
  end.
Proof. exact (verifyPayment_wp fetch cfg uuid ck ctx input w Hkeyed). Qed.

Lemma verifyPayment_outcome_witness :
  exists v p o, settled PaymentExample.ids PaymentExample.input v p o None
                  PaymentExample.w0 PaymentExample.w1.
Proof.
  pose proof (verifyPayment_outcome (H := plain_crypto) (PaymentExample.fetch "success" 10000)
    PaymentExample.cfg PaymentExample.ids PaymentExample.ck None PaymentExample.input
    PaymentExample.w0 PaymentExample.keyed_orders) as Hrun.
  assert (E : verifyPayment (H := plain_crypto) (PaymentExample.fetch "success" 10000)
    PaymentExample.cfg PaymentExample.ids PaymentExample.ck None PaymentExample.input
    PaymentExample.w0 = (Ok PaymentExample.out, PaymentExample.w1)) by run_ends.
  rewrite E in Hrun. destruct Hrun as (v & p & o & _ & _ & _ & Hs & _). exists v, p, o. exact Hs.
Defined.

(** C9: Exactly-once crediting is an invariant of payment verification, however it ends:
    every settled payment has one CREDIT ledger entry, of its own amount and
    order, and no other payment has any. *)
Theorem verifyPayment_ledger_exactly_once `{Crypto} fetch cfg uuid ck ctx input w
    (Hok : ledger_ok w) :
  ledger_ok (verifyPayment fetch cfg uuid ck ctx input w).2.
Proof.
  pose proof (verifyPayment_wp fetch cfg uuid ck ctx input w (lo_keyed _ Hok)) as Hwp.
  unfold wp in Hwp. destruct (verifyPayment _ _ _ _ _ _ w) as [[out | e] w']; [| by subst].
  destruct Hwp as (v & p & o & _ & _ & _ & Hs & _). by eapply ledger_ok_settled.
Qed.

Lemma verifyPayment_ledger_exactly_once_witness : ledger_ok PaymentExample.w1.
Proof.
  exact (verifyPayment_ledger_exactly_once (H := plain_crypto)
    (PaymentExample.fetch "success" 10000) PaymentExample.cfg PaymentExample.ids
    PaymentExample.ck None PaymentExample.input PaymentExample.w0 PaymentExample.ledger_ok_w0).
Defined.

(** A settled payment stays settled: once a verification has ended in SUCCESS, every later
    verification of the same provider reference, whatever the provider answers
    by then, throws and changes nothing. *)
Theorem verifyPayment_terminal `{Crypto} fetch cfg uuid ck ctx input w out w'
    fetch2 uuid2 ck2 ctx2 input2
    (Hkeyed : keyed pay_id (payments (checkout w)))
    (Hunique : forall k1 k2 p1 p2, payments (checkout w) !! k1 = Some p1 ->
       payments (checkout w) !! k2 = Some p2 -> pay_provider p1 = pay_provider p2 ->
       pay_providerRef p1 = pay_providerRef p2 -> pay_providerRef p1 <> None -> k1 = k2)
    (Hrun : verifyPayment fetch cfg uuid ck ctx input w = (Ok out, w'))
    (Hsuccess : vpo_paymentStatus out = PAY_SUCCESS)
    (Hsame : vpi_provider input2 = vpi_provider input /\
             vpi_providerRef input2 = vpi_providerRef input) :
  exists e, verifyPayment fetch2 cfg uuid2 ck2 ctx2 input2 w' = (Err e, w').
Proof.
  pose proof (verifyPayment_wp fetch cfg uuid ck ctx input w Hkeyed) as Hwp.
  unfold wp in Hwp. rewrite Hrun in Hwp. destruct Hwp as (v & p & o & _ & _ & _ & Hs & ->).
  cbn in Hsuccess. apply mapProviderStatus_success in Hsuccess.
  destruct Hs as [Hp [Hpr Href] Hopen _ _ _ Hpay _ _ _]. rewrite Hsuccess in Hpay.
  assert (Hk' : keyed pay_id (payments (checkout w'))).
  { rewrite Hpay. by apply keyed_insert. }
  pose proof (verifyPayment_wp fetch2 cfg uuid2 ck2 ctx2 input2 w' Hk') as Hwp2. unfold wp in Hwp2.
  destruct (verifyPayment fetch2 cfg uuid2 ck2 ctx2 input2 w') as [[out2 | e] w2];
    [| subst; by exists e].
  destruct Hwp2 as (v2 & p2 & o2 & _ & _ & _ & [Hp2 [Hpr2 Href2] Hopen2 _ _ _ _ _ _ _] & _).
  destruct Hsame as [Hs1 Hs2]. rewrite Hpay in Hp2.
  apply lookup_insert_Some in Hp2 as [[Hid <-] | [Hne Hp2]]; [by cbn in Hopen2 |].
  destruct Hne. eapply Hunique; [exact Hp | exact Hp2 | congruence | congruence | congruence].
Qed.

Lemma verifyPayment_terminal_witness :
  exists e, PaymentExample.run "failed" 10000 PaymentExample.w1 = (Err e, PaymentExample.w1).
Proof.
  assert (E : PaymentExample.run "success" 10000 PaymentExample.w0 =
    (Ok PaymentExample.out, PaymentExample.w1)) by run_ends.
  apply (verifyPayment_terminal (H := plain_crypto) _ _ _ _ _ _ _ _ _
    (PaymentExample.fetch "failed" 10000) PaymentExample.ids PaymentExample.ck None
    PaymentExample.input PaymentExample.keyed_orders) with (2 := E); [| reflexivity | by split].
  intros k1 k2 p1 p2 H1 H2 _ _ _.
  change (PaymentExample.pays !! k1 = Some p1) in H1.
  change (PaymentExample.pays !! k2 = Some p2) in H2.
  unfold PaymentExample.pays in *; apply lookup_singleton_Some in H1 as [<- _], H2 as [<- _]. done.
Defined.
