(* ===== verification/Base32.v ===== *)
(** Base32.v: the ticket references
    (src/src/shared/tickets/ticket-reference-generator.service.ts).  The encoder
    keeps its accumulator in a 32-bit integer that overflows; it is shown to
    produce the RFC 4648 digits all the same, and to be injective. *)

From S2P Require Import Prelude.

Local Open Scope Z_scope.

(* ------------------------------------------------------------------ *)
(** ** 32-bit integers of JavaScript                                    *)

(** ToInt32 *)
Definition int32 (z : Z) : Z := (z + 2 ^ 31) mod 2 ^ 32 - 2 ^ 31.

(** [a << n] and [a >>> n], for [0 <= n < 32] *)
Definition shl32 (a n : Z) : Z := int32 (Z.shiftl a n).
Definition ushr32 (a n : Z) : Z := Z.shiftr (a mod 2 ^ 32) n.

(* ------------------------------------------------------------------ *)
(** ** base32                                                           *)

Definition alphabet : string := "ABCDEFGHIJKLMNOPQRSTUVWXYZ234567".

Definition letter (d : Z) : ascii := default "?"%char (String.get (Z.to_nat d) alphabet).

(** The loop's variables: [bits], [value] and the digits put out so far. *)
Record encoder : Type := {
  en_bits : Z;
  en_value : Z;
  en_output : list Z
}.

(** [while (bits >= 5)] with [n] iterations allowed. *)
Fixpoint drain (n : nat) (e : encoder) : encoder :=
  match n with
  | O => e
  | S n' =>
      if 5 <=? en_bits e then
        drain n' {| en_bits := en_bits e - 5; en_value := en_value e;
                    en_output := en_output e ++
                      [Z.land (ushr32 (en_value e) (en_bits e - 5)) 31] |}
      else e
  end.

(** At most 4 bits are left over, so 12 at most are drained: two iterations. *)
Definition drain_fuel : nat := 2.

(** The body of [for (const byte of buffer)]. *)
Definition encode_byte (e : encoder) (byte : Z) : encoder :=
  drain drain_fuel
    {| en_bits := en_bits e + 8; en_value := Z.lor (shl32 (en_value e) 8) byte;
       en_output := en_output e |}.

Definition encode_digits (buffer : list Z) : list Z :=
  let e := foldl encode_byte {| en_bits := 0; en_value := 0; en_output := [] |} buffer in
  if 0 <? en_bits e
  then en_output e ++ [Z.land (shl32 (en_value e) (5 - en_bits e)) 31]
  else en_output e.

Fixpoint text_of (l : list ascii) : string :=
  match l with
  | [] => EmptyString
  | c :: l' => String c (text_of l')
  end.

(** [base32] *)
Definition base32 (buffer : list Z) : string := text_of (letter <$> encode_digits buffer).

(** The generator: the bytes are those [randomBytes] returned. *)
Definition generateSerial (bytes : list Z) : string := "GVS-" +:+ base32 bytes.
Definition generatePublicReference (bytes : list Z) : string := "GV-" +:+ base32 bytes.

Example base32_foobar :
  base32 [102; 111; 111; 98; 97; 114] = "MZXW6YTBOI".
Proof. reflexivity. Qed.

(* ------------------------------------------------------------------ *)
(** ** The reference: base-32 digits of the number the bytes spell      *)

Definition is_byte (b : Z) : Prop := 0 <= b < 256.

(** The bytes as one big-endian number. *)
Definition number_of_bytes (buffer : list Z) : Z := foldl (fun v b => v * 256 + b) 0 buffer.

(** The last [k] base-32 digits of [x], most significant first. *)
Fixpoint digits32 (k : nat) (x : Z) : list Z :=
  match k with
  | O => []
  | S k' => digits32 k' (x / 32) ++ [x mod 32]
  end.

(** RFC 4648: the bits are padded with zeros to a multiple of five. *)
Definition rfc4648_digits (buffer : list Z) : list Z :=
  let nbits := 8 * Z.of_nat (length buffer) in
  let pad := (- nbits) mod 5 in
  digits32 (Z.to_nat ((nbits + pad) / 5)) (number_of_bytes buffer * 2 ^ pad).

Lemma digits32_inj k : forall x y,
  0 <= x < 32 ^ Z.of_nat k -> 0 <= y < 32 ^ Z.of_nat k -> digits32 k x = digits32 k y -> x = y.
Proof.
  induction k as [| k IH]; intros x y Hx Hy H; [cbn in *; lia |].
  cbn [digits32] in H. apply app_inj_tail in H as [H Hm].
  rewrite Nat2Z.inj_succ, Z.pow_succ_r in Hx, Hy by lia.
  apply IH in H.
  - pose proof (Z.div_mod x 32). pose proof (Z.div_mod y 32). lia.
  - split; [apply Z.div_pos; lia | apply Z.div_lt_upper_bound; lia].
  - split; [apply Z.div_pos; lia | apply Z.div_lt_upper_bound; lia].
Qed.

Lemma digits32_range k : forall x, Forall (fun d => 0 <= d < 32) (digits32 k x).
Proof.
  induction k as [| k IH]; intros x; cbn; [constructor |].
  apply Forall_app. split; [apply IH |]. constructor; [apply Z.mod_pos_bound; lia | constructor].
Qed.

Lemma number_of_bytes_app p b : number_of_bytes (p ++ [b]) = number_of_bytes p * 256 + b.
Proof. unfold number_of_bytes. by rewrite foldl_app. Qed.

Lemma number_of_bytes_range p :
  Forall is_byte p -> 0 <= number_of_bytes p < 2 ^ (8 * Z.of_nat (length p)).
Proof.
  induction p as [| b p IH] using rev_ind; intros H; [cbn; lia |].
  apply Forall_app in H as [Hp Hb]. apply Forall_inv in Hb. unfold is_byte in Hb.
  rewrite number_of_bytes_app, length_app, Nat2Z.inj_add. cbn [length].
  replace (8 * (Z.of_nat (length p) + Z.of_nat 1)) with (8 * Z.of_nat (length p) + 8) by lia.
  rewrite Z.pow_add_r by lia. specialize (IH Hp). change (2 ^ 8) with 256. lia.
Qed.

Lemma number_of_bytes_inj p : forall q,
  length p = length q -> Forall is_byte p -> Forall is_byte q ->
  number_of_bytes p = number_of_bytes q -> p = q.
Proof.
  induction p as [| b p IH] using rev_ind; intros q Hl Hp Hq H.
  - by destruct q.
  - destruct q as [| b' q _] using rev_ind; [rewrite length_app in Hl; cbn in Hl; lia |].
    rewrite !length_app in Hl. cbn in Hl. rewrite !number_of_bytes_app in H.
    apply Forall_app in Hp as [Hp Hb], Hq as [Hq Hb'].
    apply Forall_inv in Hb, Hb'. unfold is_byte in *.
    assert (b = b' /\ number_of_bytes p = number_of_bytes q) as [-> Hn] by lia.
    f_equal. apply IH; [lia | done | done | done].
Qed.

(* ------------------------------------------------------------------ *)
(** ** The overflowing accumulator is harmless                          *)

Lemma int32_low z n : 0 <= n <= 32 -> int32 z mod 2 ^ n = z mod 2 ^ n.
Proof.
  intros Hn. unfold int32.
  assert (Hd : (2 ^ n | 2 ^ 32)) by (exists (2 ^ (32 - n)); rewrite <- Z.pow_add_r by lia; f_equal; lia).
  pose proof (Z.pow_pos_nonneg 2 n). 
  rewrite <- (Z.mod_mod_divide ((z + 2 ^ 31) mod 2 ^ 32 - 2 ^ 31) (2 ^ 32) (2 ^ n)) by done.
  rewrite Zminus_mod_idemp_l. replace (z + 2 ^ 31 - 2 ^ 31) with z by lia.
  by rewrite Z.mod_mod_divide.
Qed.

(** The low bits of the accumulator are those of the number read so far. *)
Definition agrees (value number : Z) : Prop := value mod 2 ^ 32 = number mod 2 ^ 32.

Lemma land_31 z : Z.land z 31 = z mod 32.
Proof. change 31 with (Z.ones 5). by rewrite Z.land_ones by lia. Qed.

Lemma agrees_low value number n : 0 <= n <= 32 -> agrees value number -> value mod 2 ^ n = number mod 2 ^ n.
Proof.
  intros Hn H. assert (Hd : (2 ^ n | 2 ^ 32)).
  { exists (2 ^ (32 - n)). rewrite <- Z.pow_add_r by lia. f_equal. lia. }
  rewrite <- (Z.mod_mod_divide value _ _ Hd), <- (Z.mod_mod_divide number _ _ Hd).
  by rewrite H.
Qed.

(** The digit the loop extracts is the digit of the exact number. *)
Lemma digit_exact value number m :
  0 <= m <= 27 -> agrees value number -> Z.land (ushr32 value m) 31 = (number / 2 ^ m) mod 32.
Proof.
  intros Hm H. rewrite land_31. unfold ushr32. rewrite H, Z.shiftr_div_pow2 by lia.
  assert (Hp : 2 ^ 32 = 2 ^ (27 - m) * 32 * 2 ^ m).
  { replace 32 with (27 - m + 5 + m) at 1 by lia. by rewrite !Z.pow_add_r by lia. }
  assert (Hd : number = number / 2 ^ 32 * 2 ^ (27 - m) * 32 * 2 ^ m + number mod 2 ^ 32).
  { rewrite (Z.div_mod number (2 ^ 32)) at 1 by done. set (q := number / 2 ^ 32).
    rewrite Hp at 1. ring. }
  rewrite Hd at 2. rewrite Z.div_add_l by (apply Z.pow_nonzero; lia).
  by rewrite Z.add_comm, Z.mod_add.
Qed.

(** So is the padded last digit. *)
Lemma last_digit_exact value number m :
  0 <= m <= 5 -> agrees value number -> Z.land (shl32 value m) 31 = (number * 2 ^ m) mod 32.
Proof.
  intros Hm H. rewrite land_31. unfold shl32. rewrite Z.shiftl_mul_pow2 by lia.
  change 32 with (2 ^ 5). rewrite int32_low by lia.
  rewrite <- Z.mul_mod_idemp_l by done. rewrite (agrees_low value number 5) by (done || lia).
  by rewrite Z.mul_mod_idemp_l.
Qed.

Lemma lor_byte a b : a mod 2 ^ 8 = 0 -> is_byte b -> Z.lor a b = a + b.
Proof.
  intros Ha Hb. assert (Hz : Z.land a b = 0).
  { apply Z.bits_inj'. intros i Hi. rewrite Z.land_spec, Z.bits_0.
    destruct (Z.lt_ge_cases i 8) as [Hlt | Hge].
    - rewrite <- (Z.mod_pow2_bits_low a 8 i Hlt), Ha, Z.bits_0. done.
    - assert (Z.testbit b i = false) as ->; [| by rewrite andb_false_r].
      unfold is_byte in Hb. apply Z.testbit_false; [done |]. rewrite Z.div_small; [done |].
      split; [lia |]. eapply Z.lt_le_trans; [apply Hb |]. change 256 with (2 ^ 8).
      apply Z.pow_le_mono_r; lia. }
  rewrite <- (Z.lxor_lor _ _ Hz). symmetry. by apply Z.add_nocarry_lxor.
Qed.

Lemma agrees_byte value number b :
  agrees value number -> is_byte b -> agrees (Z.lor (shl32 value 8) b) (number * 256 + b).
Proof.
  intros H Hb. unfold agrees, shl32. rewrite Z.shiftl_mul_pow2 by lia.
  rewrite lor_byte; [| rewrite int32_low by lia; by rewrite Z.mod_mul | done].
  rewrite <- Z.add_mod_idemp_l by done. rewrite int32_low by lia.
  rewrite Z.add_mod_idemp_l by done.
  rewrite <- (Z.add_mod_idemp_l (value * 2 ^ 8)), <- Z.mul_mod_idemp_l by done. rewrite H.
  rewrite Z.mul_mod_idemp_l, Z.add_mod_idemp_l by done. done.
Qed.

(** What the encoder has done after the bits of [number]: [k] digits are out, and
    the leftover bits are the number's low ones. *)
Record encodes (k : nat) (nbits number : Z) (e : encoder) : Prop := {
  es_split : 5 * Z.of_nat k + en_bits e = nbits;
  es_bits : 0 <= en_bits e;
  es_value : agrees (en_value e) number;
  es_output : en_output e = digits32 k (number / 2 ^ en_bits e)
}.

Lemma drain_encodes n : forall k nbits number e,
  encodes k nbits number e -> en_bits e <= 12 -> en_bits e < 5 * Z.of_nat (S n) ->
  exists k', encodes k' nbits number (drain n e) /\ en_bits (drain n e) < 5.
Proof.
  induction n as [| n IH]; intros k nbits number e H H12 Hn; cbn [drain].
  - exists k. split; [done | lia].
  - destruct (5 <=? en_bits e) eqn:E; [| exists k; split; [done | lia]].
    apply Z.leb_le in E. destruct H as [Hs Hb Hv Ho].
    apply (IH (S k)); cbn [en_bits en_value en_output]; [| lia | lia].
    split; cbn [en_bits en_value en_output]; [lia | lia | done |].
    cbn [digits32]. rewrite (digit_exact _ number) by (done || lia). rewrite Ho. do 2 f_equal.
    rewrite Z.div_div by (apply Z.pow_nonzero || apply Z.pow_pos_nonneg || lia; lia).
    change 32 with (2 ^ 5). rewrite <- Z.pow_add_r by lia. do 2 f_equal. lia.
Qed.

Lemma encode_byte_encodes k nbits number e b :
  encodes k nbits number e -> en_bits e < 5 -> is_byte b ->
  exists k', encodes k' (nbits + 8) (number * 256 + b) (encode_byte e b) /\
             en_bits (encode_byte e b) < 5.
Proof.
  intros [Hs Hb Hv Ho] H5 Hbyte. unfold encode_byte.
  apply (drain_encodes _ k); cbn [en_bits]; [| lia | unfold drain_fuel; lia].
  split; cbn [en_bits en_value en_output]; [lia | lia | by apply agrees_byte |].
  rewrite Ho. f_equal. unfold is_byte in Hbyte.
  replace (2 ^ (en_bits e + 8)) with (256 * 2 ^ en_bits e)
    by (rewrite Z.pow_add_r by lia; change (2 ^ 8) with 256; lia).
  rewrite <- Z.div_div by lia. f_equal.
  rewrite Z.div_add_l by lia. rewrite (Z.div_small b) by lia. lia.
Qed.

Lemma encode_buffer_encodes buffer :
  Forall is_byte buffer ->
  let e := foldl encode_byte {| en_bits := 0; en_value := 0; en_output := [] |} buffer in
  exists k, encodes k (8 * Z.of_nat (length buffer)) (number_of_bytes buffer) e /\ en_bits e < 5.
Proof.
  induction buffer as [| b buffer IH] using rev_ind; intros H; cbn zeta in *.
  - exists 0%nat. by split.
  - apply Forall_app in H as [Hp Hb]. apply Forall_inv in Hb.
    destruct (IH Hp) as (k & He & H5). rewrite foldl_app. cbn [foldl].
    destruct (encode_byte_encodes _ _ _ _ b He H5 Hb) as (k' & He' & H5').
    exists k'. split; [| done]. rewrite number_of_bytes_app, length_app. cbn [length].
    replace (8 * Z.of_nat (length buffer + 1)) with (8 * Z.of_nat (length buffer) + 8) by lia.
    done.
Qed.

(** The encoder computes the RFC 4648 digits. *)
Lemma encode_digits_rfc4648 buffer :
  Forall is_byte buffer -> encode_digits buffer = rfc4648_digits buffer.
Proof.
  intros H. destruct (encode_buffer_encodes buffer H) as (k & [Hs Hb Hv Ho] & H5).
  unfold encode_digits, rfc4648_digits. cbn zeta.
  set (e := foldl _ _ buffer) in *. set (n := 8 * Z.of_nat (length buffer)) in *.
  destruct (0 <? en_bits e) eqn:E.
  - apply Z.ltb_lt in E.
    assert (Hpad : (- n) mod 5 = 5 - en_bits e).
    { symmetry. apply (Z.mod_unique_pos _ _ (- Z.of_nat (S k))); lia. }
    rewrite Hpad. replace (n + (5 - en_bits e)) with (Z.of_nat (S k) * 5) by lia.
    rewrite Z.div_mul, Nat2Z.id by done. cbn [digits32].
    rewrite (last_digit_exact _ (number_of_bytes buffer)) by (done || lia). rewrite Ho.
    do 2 f_equal. replace 32 with (2 ^ en_bits e * 2 ^ (5 - en_bits e)).
    2: { rewrite <- Z.pow_add_r by lia. replace (en_bits e + (5 - en_bits e)) with 5 by lia. done. }
    rewrite Z.div_mul_cancel_r; [done | apply Z.pow_nonzero; lia | apply Z.pow_nonzero; lia].
  - apply Z.ltb_ge in E. assert (Hz : en_bits e = 0) by lia. rewrite Hz in *.
    assert (Hpad : (- n) mod 5 = 0).
    { symmetry. apply (Z.mod_unique_pos _ _ (- Z.of_nat k)); lia. }
    rewrite Hpad. replace (n + 0) with (Z.of_nat k * 5) by lia.
    rewrite Z.div_mul, Nat2Z.id by done. rewrite Ho. f_equal. rewrite Z.div_1_r. lia.
Qed.

Lemma text_of_inj l1 : forall l2, text_of l1 = text_of l2 -> l1 = l2.
Proof. induction l1; intros [] H; cbn in H; simplify_eq; [done |]. f_equal. auto. Qed.

Lemma letter_inj d1 d2 : 0 <= d1 < 32 -> 0 <= d2 < 32 -> letter d1 = letter d2 -> d1 = d2.
Proof.
  intros H1 H2 H. rewrite <- (Z2Nat.id d1), <- (Z2Nat.id d2) by lia. f_equal.
  assert (Hn1 : (Z.to_nat d1 < 32)%nat) by lia. assert (Hn2 : (Z.to_nat d2 < 32)%nat) by lia.
  unfold letter in H. revert H Hn1 Hn2. generalize (Z.to_nat d1) (Z.to_nat d2). clear. intros n1 n2.
  do 32 (destruct n1 as [| n1]; [do 32 (destruct n2 as [| n2]; [try done |]); lia |]). lia.
Qed.

Lemma letters_inj l1 : forall l2,
  Forall (fun d => 0 <= d < 32) l1 -> Forall (fun d => 0 <= d < 32) l2 ->
  letter <$> l1 = letter <$> l2 -> l1 = l2.
Proof.
  induction l1 as [| d1 l1 IH]; intros [| d2 l2] H1 H2 H; try done.
  apply Forall_cons in H1 as [Hd1 H1], H2 as [Hd2 H2].
  change (letter d1 :: (letter <$> l1) = letter d2 :: (letter <$> l2)) in H.
  injection H as Hd H. f_equal; [by apply letter_inj | by apply IH].
Qed.

(** Buffers of one length with the same text are the same buffer. *)
Lemma base32_same b1 b2 :
  Forall is_byte b1 -> Forall is_byte b2 -> length b1 = length b2 ->
  base32 b1 = base32 b2 -> b1 = b2.
Proof.
  intros H1 H2 Hl H. unfold base32 in H. apply text_of_inj in H.
  rewrite !encode_digits_rfc4648 in H by done.
  apply letters_inj in H; try apply digits32_range.
  unfold rfc4648_digits in H. cbn zeta in H. rewrite Hl in H.
  set (n := 8 * Z.of_nat (length b2)) in *. set (pad := (- n) mod 5) in *.
  assert (0 <= pad < 5) by (apply Z.mod_pos_bound; lia).
  assert (Hdiv : (n + pad) mod 5 = 0).
  { unfold pad. rewrite Z.add_mod_idemp_r by done. by rewrite Z.add_opp_diag_r. }
  assert (Hk : Z.of_nat (Z.to_nat ((n + pad) / 5)) * 5 = n + pad).
  { rewrite Z2Nat.id by (apply Z.div_pos; lia). pose proof (Z.div_mod (n + pad) 5). lia. }
  assert (Hbound : forall b, Forall is_byte b -> length b = length b2 ->
    0 <= number_of_bytes b * 2 ^ pad < 32 ^ Z.of_nat (Z.to_nat ((n + pad) / 5))).
  { intros b Hb Hlb. pose proof (number_of_bytes_range b Hb) as Hr. rewrite Hlb in Hr. fold n in Hr.
    change 32 with (2 ^ 5). rewrite <- Z.pow_mul_r by lia. rewrite Z.mul_comm in Hk. rewrite Hk.
    rewrite Z.pow_add_r by lia. pose proof (Z.pow_pos_nonneg 2 pad). nia. }
  apply digits32_inj in H; [| by apply Hbound | by apply Hbound].
  apply Z.mul_cancel_r in H; [| apply Z.pow_nonzero; lia].
  by apply number_of_bytes_inj.
Qed.

(* ------------------------------------------------------------------ *)
(** ** Properties                                                       *)

(** C36: The encoder, whose accumulator silently overflows 32 bits, still emits exactly the
    RFC 4648 base-32 digits of the buffer, zero-padded to five bits, for a
    buffer of any length; its drain loop never needs more than two rounds. *)
Theorem base32_is_rfc4648 buffer (Hbytes : Forall is_byte buffer) :
  base32 buffer = text_of (letter <$> rfc4648_digits buffer).
Proof. unfold base32. by rewrite encode_digits_rfc4648. Qed.

Lemma base32_is_rfc4648_witness :
  base32 [222; 173; 190; 239; 0; 255] =
  text_of (letter <$> rfc4648_digits [222; 173; 190; 239; 0; 255]).
Proof.
  apply (base32_is_rfc4648 [222; 173; 190; 239; 0; 255]).
  repeat constructor; unfold is_byte; lia.
Defined.

(** Distinct random draws of one size give distinct ticket serials and distinct public
    references: a collision in the database is a collision of the random bytes. *)
Theorem references_injective b1 b2 (H1 : Forall is_byte b1) (H2 : Forall is_byte b2)
    (Hlen : length b1 = length b2) (Hne : b1 <> b2) :
  generateSerial b1 <> generateSerial b2 /\
  generatePublicReference b1 <> generatePublicReference b2.
Proof.
  split; intros H; apply Hne, base32_same; try done.
  - unfold generateSerial in H. by injection H.
  - unfold generatePublicReference in H. by injection H.
Qed.

Lemma references_injective_witness :
  [1; 2; 3; 4; 5; 6] <> [1; 2; 3; 4; 5; 7] /\
  generatePublicReference [1; 2; 3; 4; 5; 6] <> generatePublicReference [1; 2; 3; 4; 5; 7].
Proof.
  split; [done |].
  apply (references_injective [1; 2; 3; 4; 5; 6] [1; 2; 3; 4; 5; 7]);
    [repeat constructor; unfold is_byte; lia | repeat constructor; unfold is_byte; lia | done | done].
Defined.
