(* ===== verification/Tickets.v ===== *)
(** Tickets.v: the ticket repository
    (src/src/modules/tickets/infrastructure/repositories), the reference
    allocator (src/src/shared/tickets) and the order flow's issuance
    (src/src/modules/tickets/application/use-cases/issue-tickets.use-case.ts). *)

From S2P Require Import Prelude Errors Hashing Store Context Inventory Orders Base32.

Local Open Scope Z_scope.

(* ------------------------------------------------------------------ *)
(** ** DefaultTicketReferenceAllocatorService                           *)

Record ticket_reference : Type := {
  ref_ticketSerial : string;
  ref_publicReference : string
}.

Definition MAX_ATTEMPTS : nat := 5.

(** [isUniqueConstraintError]: any known request error of Prisma, or any object
    whose [code] is P2002. *)
Definition isUniqueConstraintError (e : error) : bool :=
  match e with
  | PrismaKnownError _ _ => true
  | ProviderResponseError _ code _ _ => bool_decide (code = "P2002")
  | _ => false
  end.

(** The references of one attempt; [rnd] are the draws of [randomBytes]. *)
Definition draw_references (rnd : nat -> list Z) (count attempt : nat) : list ticket_reference :=
  (fun i => {| ref_ticketSerial := generateSerial (rnd (2 * (attempt * count + i))%nat);
               ref_publicReference :=
                 generatePublicReference (rnd (2 * (attempt * count + i) + 1)%nat) |})
  <$> seq 0 count.

(** The attempt loop; [n] attempts are left. *)
Fixpoint allocate_attempts {T} (rnd : nat -> list Z) (count : nat)
    (writer : nat -> list ticket_reference -> op T) (n attempt : nat) (lastError : option error)
  : op T :=
  match n with
  | O => throw (OtherError "Error"
           ("Ticket reference allocation failed after " +:+ pretty MAX_ATTEMPTS +:+ " attempts: " +:+
            default "unknown error" (message <$> lastError)))
  | S n' =>
      catch (writer attempt (draw_references rnd count attempt))
        (fun e => if isUniqueConstraintError e
                  then allocate_attempts rnd count writer n' (S attempt) (Some e)
                  else throw e)
  end.

(** [allocateBatch] *)
Definition allocateBatch {T} (rnd : nat -> list Z) (count : nat)
    (writer : nat -> list ticket_reference -> op T) : op T :=
  allocate_attempts rnd count writer MAX_ATTEMPTS 0 None.

(* ------------------------------------------------------------------ *)
(** ** PrismaTicketRepository                                           *)

(** A ticket of the order flow: the columns it does not set take their defaults. *)
Definition order_ticket (ck : clock) (id eventId ticketTypeId ownerUserId orderId : string)
    (ref : ticket_reference) : ticket :=
  {| tk_id := id; tk_ticketNumber := None; tk_eventId := eventId; tk_organizerId := None;
     tk_ticketTypeId := Some ticketTypeId; tk_ownerUserId := ownerUserId;
     tk_orderId := Some orderId; tk_paymentIntentId := None; tk_status := T_ACTIVE;
     tk_admissionTokenHash := None; tk_admissionTokenVersion := 1;
     tk_ticketSerial := ref_ticketSerial ref; tk_publicReference := ref_publicReference ref;
     tk_issuedAt := db_now ck; tk_usedAt := None; tk_voidedAt := None; tk_expiresAt := None |}.

Definition createTicket (t : ticket) : op unit := create tickets_t t.

(** [createMany]: one INSERT, so all of the rows or none. *)
Definition createMany (inputs : list ticket) : op unit :=
  match inputs with
  | [] => ret tt
  | _ => transaction (for_each inputs createTicket)
  end.

Definition findTicketById (ticketId : string) : op (option ticket) := findUnique tickets_t ticketId.

Definition with_tk_status (s : TicketStatus) (usedAt : option Z) (t : ticket) : ticket :=
  {| tk_id := tk_id t; tk_ticketNumber := tk_ticketNumber t; tk_eventId := tk_eventId t;
     tk_organizerId := tk_organizerId t; tk_ticketTypeId := tk_ticketTypeId t;
     tk_ownerUserId := tk_ownerUserId t; tk_orderId := tk_orderId t;
     tk_paymentIntentId := tk_paymentIntentId t; tk_status := s;
     tk_admissionTokenHash := tk_admissionTokenHash t;
     tk_admissionTokenVersion := tk_admissionTokenVersion t;
     tk_ticketSerial := tk_ticketSerial t; tk_publicReference := tk_publicReference t;
     tk_issuedAt := tk_issuedAt t; tk_usedAt := usedAt; tk_voidedAt := tk_voidedAt t;
     tk_expiresAt := tk_expiresAt t |}.

Definition updateTicketStatus (ticketId : string) (s : TicketStatus) : op unit :=
  do* update tickets_t ticketId (fun t => with_tk_status s (tk_usedAt t) t) in ret tt.

Definition issued_after (a b : ticket) : Prop := tk_issuedAt b <= tk_issuedAt a.
#[export] Instance issued_after_dec : RelDecision issued_after.
Proof. intros a b. unfold issued_after. apply _. Defined.

Definition findOwnedByUser (ownerUserId : string) : op (list ticket) :=
  reads (fun w => merge_sort issued_after
    (find_rows (fun t => bool_decide (tk_ownerUserId t = ownerUserId)) (tickets (ticketing w)))).

Definition findOwnedTicketById (ticketId ownerUserId : string) : op (option ticket) :=
  findFirst tickets_t (fun t =>
    bool_decide (tk_id t = ticketId) && bool_decide (tk_ownerUserId t = ownerUserId)).

Definition is_intent_ticket (paymentIntentId ownerUserId eventId : string) (t : ticket) : bool :=
  bool_decide (tk_paymentIntentId t = Some paymentIntentId) &&
  bool_decide (tk_ownerUserId t = ownerUserId) && bool_decide (tk_eventId t = eventId).

Definition findByPaymentIntentOwnerAndEvent (paymentIntentId ownerUserId eventId : string)
  : op (option ticket) :=
  findFirst tickets_t (is_intent_ticket paymentIntentId ownerUserId eventId).

Definition appendIssuanceAudit (row : issuance_audit) : op unit :=
  modify (fun w => set_issuance_audits (issuance_audits (ticketing w) ++ [row]) w).

Definition markUsedIfIssuable (ticketId admissionTokenHash : string) (usedAt : Z) : op Z :=
  updateMany tickets_t ticketId
    (fun t => bool_decide (tk_status t = T_ISSUED) &&
              bool_decide (tk_admissionTokenHash t = Some admissionTokenHash))
    (with_tk_status T_USED (Some usedAt)).

(* ------------------------------------------------------------------ *)
(** ** IssueTicketsUseCase                                              *)

Record IssueTicketsResult : Type := {
  itr_orderId : string;
  itr_issuedTicketIds : list string
}.

Definition loadValidatedOrderReservation (orderId : string) : op (order * reservation) :=
  let* found := findOrderById orderId in
  let* o := or_throw found (NotFoundError "Order not found.") in
  do* throw_if (negb (bool_decide (ord_status o = ORDER_PAID)))
        (InvalidStateTransitionError "Only paid orders can issue tickets.") in
  let* reservationId := or_throw (truthy (ord_reservationId o))
      (InvalidStateTransitionError "Order has no linked reservation.") in
  let* found := findReservationById reservationId in
  let* r := or_throw found (NotFoundError "Reservation not found.") in
  do* throw_if (negb (bool_decide (rsv_status r = HELD)))
        (InvalidStateTransitionError "Reservation is not consumable.") in
  ret (o, r).

(** The transaction body of [issueWithReferences].  Draws of [randomUUID]: one
    per ticket, then the audit entry and the outbox event. *)
Definition issue_tx (uuid : nat -> string) (ck : clock) (ctx : option RequestContextValue)
    (orderId : string) (refs : list ticket_reference) : op IssueTicketsResult :=
  let* loaded := loadValidatedOrderReservation orderId in
  let o := loaded.1 in
  let r := loaded.2 in
  do* throw_if (negb (rsv_quantity r =? Z.of_nat (length refs)))
        (InvalidStateTransitionError
           "Allocated ticket reference batch does not match reservation quantity.") in
  let* locked := lockInventory (rsv_eventId r) (rsv_ticketTypeId r) in
  let* inventory := or_throw locked (NotFoundError "Inventory bucket not found.") in
  let ticketInputs := imap (fun n ref =>
    order_ticket ck (uuid n) (ord_eventId o) (rsv_ticketTypeId r) (ord_userId o) (ord_id o) ref)
    refs in
  let issuedTicketIds := tk_id <$> ticketInputs in
  do* for_each ticketInputs createTicket in
  do* updateReservationStatus (rsv_id r) CONSUMED in
  let* remainingReserved :=
    getActiveReservationQuantity (rsv_eventId r) (rsv_ticketTypeId r) (db_now ck) in
  do* updateReservedCount (inv_id inventory) remainingReserved in
  do* incrementSoldCount (inv_id inventory) (rsv_quantity r) in
  do* updateOrderStatus (ord_id o) ORDER_FULFILLED in
  let n := length refs in
  do* appendAuditLog (uuid n) (ctx ≫= ctx_userId) "TICKETS_ISSUED" "order" (ord_id o)
        (correlation_of ctx)
        (JObj [("reservationId", JStr (rsv_id r)); ("quantity", JNum (rsv_quantity r));
               ("ticketIds", JArr (JStr <$> issuedTicketIds))]) in
  do* appendOutbox (db_now ck) (uuid (S n)) "order" (ord_id o) "TicketsIssued"
        (JObj [("orderId", JStr (ord_id o)); ("ticketIds", JArr (JStr <$> issuedTicketIds));
               ("quantity", JNum (rsv_quantity r))]) in
  ret {| itr_orderId := ord_id o; itr_issuedTicketIds := issuedTicketIds |}.

Definition issueWithReferences (uuid : nat -> string) (ck : clock)
    (ctx : option RequestContextValue) (orderId : string) (refs : list ticket_reference)
  : op IssueTicketsResult :=
  transaction (issue_tx uuid ck ctx orderId refs).

Definition getReservationQuantity (orderId : string) : op Z :=
  transaction (let* loaded := loadValidatedOrderReservation orderId in ret (rsv_quantity loaded.2)).

(** [execute]; every attempt draws ids from a block of its own. *)
Definition issueTickets (uuid : nat -> string) (rnd : nat -> list Z) (ck : clock)
    (ctx : option RequestContextValue) (orderId : string) : op IssueTicketsResult :=
  let* reservationQuantity := getReservationQuantity orderId in
  let count := Z.to_nat reservationQuantity in
  allocateBatch rnd count
    (fun attempt refs =>
       issueWithReferences (fun i => uuid (attempt * (count + 2) + i)%nat) ck ctx orderId refs).

(* ------------------------------------------------------------------ *)
(** ** What issuance does                                               *)

(** The table after the rows of [ts] are inserted. *)
Definition insert_tickets (ts : list ticket) (t : gmap string ticket) : gmap string ticket :=
  foldl (fun m x => <[tk_id x := x]> m) t ts.

Lemma insert_tickets_other ts : forall t k,
  k ∉ tk_id <$> ts -> insert_tickets ts t !! k = t !! k.
Proof.
  induction ts as [| x ts IH]; intros t k Hk; [done |]. cbn.
  rewrite fmap_cons, not_elem_of_cons in Hk. destruct Hk as [Hne Hk].
  change (insert_tickets ts (<[tk_id x := x]> t) !! k = t !! k).
  by rewrite IH, lookup_insert_ne.
Qed.

Lemma insert_tickets_lookup ts : forall t x,
  NoDup (tk_id <$> ts) -> x ∈ ts -> insert_tickets ts t !! tk_id x = Some x.
Proof.
  induction ts as [| y ts IH]; intros t x Hnd Hx; [by apply elem_of_nil in Hx |].
  rewrite fmap_cons, NoDup_cons in Hnd. destruct Hnd as [Hni Hnd].
  change (insert_tickets ts (<[tk_id y := y]> t) !! tk_id x = Some x).
  apply elem_of_cons in Hx as [-> | Hx]; [| by apply IH].
  rewrite insert_tickets_other by done. apply lookup_insert_eq.
Qed.

Lemma set_tickets_same w : set_tickets (tickets (ticketing w)) w = w.
Proof. by destruct w as [? ? ? ? ? [] ? ?]. Qed.

Lemma wp_create_tickets ts : forall w,
  wp (for_each ts createTicket)
     (fun _ w' => w' = set_tickets (insert_tickets ts (tickets (ticketing w))) w /\
        NoDup (tk_id <$> ts) /\ Forall (fun x => tickets (ticketing w) !! tk_id x = None) ts)
     any w.
Proof.
  induction ts as [| x ts IH]; intros w; cbn [for_each].
  - apply wp_ret. cbn. rewrite set_tickets_same. split; [done |]. split; constructor.
  - wp_step. unfold createTicket. wp_stmt; [| done]. wsimpl.
    eapply wp_mono; [apply IH | | done]. cbn beta. intros [] w' (-> & Hnd & Hfr). split; [done |].
    assert (Hni : forall y, y ∈ ts -> tk_id y <> tk_id x /\ tickets (ticketing w) !! tk_id y = None).
    { intros y Hy. rewrite Forall_forall in Hfr. specialize (Hfr y Hy). cbn in Hfr.
      apply lookup_insert_None in Hfr as [Hfr Hne]. split; [congruence | done]. }
    split.
    + rewrite fmap_cons. apply NoDup_cons. split; [| done].
      intros Hin. apply list_elem_of_fmap in Hin as (y & Hy & Hin). by destruct (Hni y Hin).
    + constructor; [done |]. apply Forall_forall. intros y Hy. apply (Hni y Hy).
Qed.

(** [createMany] stores every row or none. *)
Lemma createMany_wp inputs w :
  wp (createMany inputs) (fun _ w' => w' = set_tickets (insert_tickets inputs (tickets (ticketing w))) w)
     (fun _ w' => w' = w) w.
Proof.
  destruct inputs as [| x inputs]; [apply wp_ret; symmetry; apply set_tickets_same |].
  apply wp_transaction. eapply wp_mono; [apply wp_create_tickets | | done]. by intros [] w' [-> _].
Qed.

(** The tickets an order's references become. *)
Definition order_tickets (uuid : nat -> string) (ck : clock) (o : order) (r : reservation)
    (refs : list ticket_reference) : list ticket :=
  imap (fun n ref =>
    order_ticket ck (uuid n) (ord_eventId o) (rsv_ticketTypeId r) (ord_userId o) (ord_id o) ref) refs.

(** One issuance: the paid order's held reservation is consumed, its quantity
    moves to the sold count, the tickets are created and the order fulfilled. *)
Record consumed (uuid : nat -> string) (ck : clock) (orderId : string)
    (refs : list ticket_reference) (o : order) (r : reservation) (i : inventory)
    (res : IssueTicketsResult) (w w' : world) : Prop := {
  cs_order : orders (checkout w) !! orderId = Some o;
  cs_paid : ord_status o = ORDER_PAID;
  cs_link : ord_reservationId o = Some (rsv_id r);
  cs_row : reservations (stock w) !! rsv_id r = Some r;
  cs_held : rsv_status r = HELD;
  cs_count : rsv_quantity r = Z.of_nat (length refs);
  cs_bucket : find_row (is_bucket (rsv_eventId r) (rsv_ticketTypeId r)) (inventories (stock w)) = Some i;
  cs_reservations : reservations (stock w') =
    <[rsv_id r := with_rsv_status CONSUMED r]> (reservations (stock w));
  cs_inventories : inventories (stock w') =
    <[inv_id i := with_soldCount (inv_soldCount i + rsv_quantity r)
       (with_reservedCount (active_total (rsv_eventId r) (rsv_ticketTypeId r) (db_now ck) w') i)]>
      (inventories (stock w));
  cs_orders : orders (checkout w') = <[orderId := with_ord_status ORDER_FULFILLED o]> (orders (checkout w));
  cs_payments : payments (checkout w') = payments (checkout w);
  cs_ledger : ledger (checkout w') = ledger (checkout w);
  cs_tickets : tickets (ticketing w') =
    insert_tickets (order_tickets uuid ck o r refs) (tickets (ticketing w));
  cs_fresh : NoDup (tk_id <$> order_tickets uuid ck o r refs) /\
    Forall (fun x => tickets (ticketing w) !! tk_id x = None) (order_tickets uuid ck o r refs);
  cs_result : res = {| itr_orderId := orderId;
                       itr_issuedTicketIds := tk_id <$> order_tickets uuid ck o r refs |}
}.

Lemma loadValidated_wp orderId w :
  keyed ord_id (orders (checkout w)) -> wf_stock w ->
  wp (loadValidatedOrderReservation orderId)
     (fun p w' => w' = w /\ orders (checkout w) !! orderId = Some p.1 /\ ord_id p.1 = orderId /\
        ord_status p.1 = ORDER_PAID /\ ord_reservationId p.1 = Some (rsv_id p.2) /\
        reservations (stock w) !! rsv_id p.2 = Some p.2 /\ rsv_status p.2 = HELD)
     any w.
Proof.
  intros Hk Hwf. wp_go. cbn [fst snd].
  apply negb_false_iff, bool_decide_eq_true in H0, H3. apply truthy_Some in H1 as [H1 _].
  pose proof (wf_rsv_keyed _ Hwf _ _ H2) as Hid. rewrite <- Hid in *. split_and!; auto.
Qed.

Lemma issue_tx_wp uuid ck ctx orderId refs w :
  keyed ord_id (orders (checkout w)) -> wf_stock w ->
  wp (issue_tx uuid ck ctx orderId refs)
     (fun res w' => exists o r i, consumed uuid ck orderId refs o r i res w w') any w.
Proof.
  intros Hk Hwf. unfold issue_tx. wp_step. eapply wp_mono; [by apply loadValidated_wp | | done].
  intros [o r] w1 (-> & Ho & Hid & Hpaid & Hlink & Hr & Hheld). cbn [fst snd] in *.
  wp_until (@for_each). wsimpl. eapply wp_mono; [apply wp_create_tickets | | done].
  intros [] w2 (-> & Hnd & Hfr). wp_go.
  apply negb_false_iff, Z.eqb_eq in H.
  destruct (locked_row _ _ _ _ Hwf H0) as (Hrow & He & Ht). same_row Hrow. same_row Hr.
  rewrite lookup_insert_eq in H3. injection H3 as <-. subst orderId. same_row Ho.
  exists o, r, a. split; wsimpl; try done. by rewrite insert_insert_eq.
Qed.

(** Every failed attempt of the allocator is undone, so the attempts see one
    database and the first that succeeds is the only one that counts. *)
Lemma allocate_attempts_wp {T} rnd count (writer : nat -> list ticket_reference -> op T) w n :
  (forall a refs e w', writer a refs w = (Err e, w') -> w' = w) ->
  forall attempt lastError,
  wp (allocate_attempts rnd count writer n attempt lastError)
     (fun x w' => exists a, (attempt <= a < attempt + n)%nat /\
        writer a (draw_references rnd count a) w = (Ok x, w') /\
        forall b, (attempt <= b < a)%nat -> exists e,
          writer b (draw_references rnd count b) w = (Err e, w) /\ isUniqueConstraintError e = true)
     (fun _ w' => w' = w) w.
Proof.
  intros Hat. induction n as [| n IH]; intros attempt lastError; [done |].
  cbn [allocate_attempts]. apply wp_catch. unfold wp at 1.
  destruct (writer attempt _ w) as [[x | e] w'] eqn:E.
  - exists attempt. split; [lia |]. split; [done |]. intros b Hb. lia.
  - pose proof (Hat _ _ _ _ E) as ->. destruct (isUniqueConstraintError e) eqn:Hu; [| done].
    eapply wp_mono; [apply IH | | done]. cbn beta. intros x w' (a & Ha & Hx & Hprev).
    exists a. split; [lia |]. split; [done |]. intros b Hb.
    destruct (decide (b = attempt)) as [-> | Hne]; [eauto |]. apply Hprev. lia.
Qed.

Lemma issueWithReferences_atomic uuid ck ctx orderId refs w e w' :
  issueWithReferences uuid ck ctx orderId refs w = (Err e, w') -> w' = w.
Proof. apply transaction_err_inv. Qed.

Lemma issueWithReferences_wp uuid ck ctx orderId refs w :
  keyed ord_id (orders (checkout w)) -> wf_stock w ->
  wp (issueWithReferences uuid ck ctx orderId refs)
     (fun res w' => exists o r i, consumed uuid ck orderId refs o r i res w w')
     (fun _ w' => w' = w) w.
Proof.
  intros Hk Hwf. apply wp_transaction.
  eapply wp_mono; [by apply issue_tx_wp | auto | done].
Qed.

Lemma draw_references_length rnd count attempt :
  length (draw_references rnd count attempt) = count.
Proof. unfold draw_references. by rewrite length_fmap, length_seq. Qed.

Lemma issueTickets_wp uuid rnd ck ctx orderId w :
  keyed ord_id (orders (checkout w)) -> wf_stock w ->
  wp (issueTickets uuid rnd ck ctx orderId)
     (fun res w' => exists attempt o r i,
        let count := Z.to_nat (rsv_quantity r) in
        (attempt < MAX_ATTEMPTS)%nat /\
        consumed (fun n => uuid (attempt * (count + 2) + n)%nat) ck orderId
          (draw_references rnd count attempt) o r i res w w')
     (fun _ w' => w' = w) w.
Proof.
  intros Hk Hwf. unfold issueTickets, getReservationQuantity. wp_step. apply wp_transaction. wp_step.
  eapply wp_mono; [by apply loadValidated_wp | | done].
  intros [o r] w1 (-> & Ho & Hid & Hpaid & Hlink & Hr & Hheld). cbn [fst snd] in *. apply wp_ret.
  cbv zeta. eapply wp_mono; [apply allocate_attempts_wp | | done].
  - intros a refs e w'. apply issueWithReferences_atomic.
  - intros res w' (a & Ha & Hrun & _). cbn beta in *.
    pose proof (wp_ok _ _ _ _ _ _ (issueWithReferences_wp _ ck ctx orderId _ w Hk Hwf) Hrun)
      as (o' & r' & i & Hc).
    exists a, o', r', i. cbv zeta.
    pose proof (cs_order _ _ _ _ _ _ _ _ _ _ Hc) as Ho'. rewrite Ho in Ho'. injection Ho' as <-.
    pose proof (cs_link _ _ _ _ _ _ _ _ _ _ Hc) as Hl. pose proof (cs_row _ _ _ _ _ _ _ _ _ _ Hc) as Hr'.
    assert (r' = r) as -> by congruence. split; [lia | exact Hc].
Qed.

(** Once fulfilled, an order issues nothing more. *)
Lemma issue_not_paid orderId o w :
  orders (checkout w) !! orderId = Some o -> ord_status o <> ORDER_PAID ->
  loadValidatedOrderReservation orderId w =
    (Err (InvalidStateTransitionError "Only paid orders can issue tickets."), w).
Proof.
  intros Ho Hs. unfold loadValidatedOrderReservation, findOrderById, findUnique, bind, reads.
  cbn [tb_rows orders_t]. rewrite Ho. cbn [or_throw]. unfold ret at 1.
  by rewrite bool_decide_eq_false_2 by done.
Qed.

(* ------------------------------------------------------------------ *)
(** ** An order to fulfil                                               *)

Module IssueExample.

Definition inv : inventory :=
  {| inv_id := "inv"; inv_eventId := "ev"; inv_ticketTypeId := "vip"; inv_capacityTotal := 10;
     inv_reservedCount := 2; inv_soldCount := 3 |}.
Definition rsv : reservation :=
  {| rsv_id := "rsv"; rsv_ownerUserId := "alice"; rsv_eventId := "ev"; rsv_ticketTypeId := "vip";
     rsv_quantity := 2; rsv_status := HELD; rsv_expiresAt := 600000 |}.
Definition ord : order :=
  {| ord_id := "ord"; ord_userId := "alice"; ord_eventId := "ev"; ord_reservationId := Some "rsv";
     ord_status := ORDER_PAID; ord_totalAmount := 10000; ord_currency := "GHS" |}.

Definition invs : gmap string inventory := {["inv" := inv]}.
Definition rsvs : gmap string reservation := {["rsv" := rsv]}.
Definition ords : gmap string order := {["ord" := ord]}.

Definition w0 : world := set_orders ords (set_reservations rsvs (set_inventories invs empty_world)).

(** Draw [j] of the random bytes. *)
Definition rnd (j : nat) : list Z := replicate 9 0 ++ [Z.of_nat j].
Definition ids (i : nat) : string := "id" +:+ pretty i.
Definition ck : clock := {| app_now := 1000; db_now := 1000 |}.

Definition run : op IssueTicketsResult := issueTickets ids rnd ck None "ord".

Definition w1 : world := (run w0).2.
Definition out : IssueTicketsResult := {| itr_orderId := "ord"; itr_issuedTicketIds := ["id0"; "id1"] |}.

Example issue_ok : (run w0).1 = Ok out /\ length (map_to_list (tickets (ticketing w1))) = 2%nat /\
  (inv_soldCount <$> inventories (stock w1) !! "inv") = Some 5 /\
  (inv_reservedCount <$> inventories (stock w1) !! "inv") = Some 0.
Proof. split_and!; vm_run. Qed.

Lemma keyed_ord : keyed ord_id (orders (checkout w0)).
Proof.
  intros k o H. change (ords !! k = Some o) in H. unfold ords in H.
  by apply lookup_singleton_Some in H as [<- <-].
Qed.

Lemma wf_issue_stock : wf_stock w0.
Proof.
  assert (Hi : forall k i, inventories (stock w0) !! k = Some i -> k = "inv" /\ i = inv).
  { intros k i H. change (invs !! k = Some i) in H. unfold invs in H.
    by apply lookup_singleton_Some in H as [<- <-]. }
  assert (Hr : forall k r, reservations (stock w0) !! k = Some r -> k = "rsv" /\ r = rsv).
  { intros k r H. change (rsvs !! k = Some r) in H. unfold rsvs in H.
    by apply lookup_singleton_Some in H as [<- <-]. }
  split.
  - intros k i H. by apply Hi in H as [-> ->].
  - intros k r H. by apply Hr in H as [-> ->].
  - intros k1 k2 i1 i2 H1 H2 _ _. apply Hi in H1 as [-> _], H2 as [-> _]. done.
  - intros k r H. apply Hr in H as [_ ->]. done.
Qed.

End IssueExample.

(* ------------------------------------------------------------------ *)
(** ** Properties                                                       *)

(** Issuing an order's tickets either throws and leaves the database as it was, or
    consumes the paid order's held reservation in one attempt of at most five:
    exactly as many fresh ACTIVE tickets as the reservation's quantity, that
    quantity added to the sold count, the reserved count recomputed, and the
    order fulfilled. *)
Theorem issueTickets_outcome uuid rnd ck ctx orderId w
    (Hkeyed : keyed ord_id (orders (checkout w))) (Hwf : wf_stock w) :
  match issueTickets uuid rnd ck ctx orderId w with
  | (Ok res, w') => exists attempt o r i,
      let count := Z.to_nat (rsv_quantity r) in
      (attempt < MAX_ATTEMPTS)%nat /\
      consumed (fun n => uuid (attempt * (count + 2) + n)%nat) ck orderId
        (draw_references rnd count attempt) o r i res w w'
  | (Err _, w') => w' = w
  end.
Proof. exact (issueTickets_wp uuid rnd ck ctx orderId w Hkeyed Hwf). Qed.

Lemma issueTickets_outcome_witness :
  exists attempt o r i, let count := Z.to_nat (rsv_quantity r) in
    (attempt < MAX_ATTEMPTS)%nat /\
    consumed (fun n => IssueExample.ids (attempt * (count + 2) + n)%nat) IssueExample.ck "ord"
      (draw_references IssueExample.rnd count attempt) o r i IssueExample.out
      IssueExample.w0 IssueExample.w1.
Proof.
  pose proof (issueTickets_outcome IssueExample.ids IssueExample.rnd IssueExample.ck None "ord"
    IssueExample.w0 IssueExample.keyed_ord IssueExample.wf_issue_stock) as H.
  assert (E : issueTickets IssueExample.ids IssueExample.rnd IssueExample.ck None "ord"
    IssueExample.w0 = (Ok IssueExample.out, IssueExample.w1)) by run_ends.
  rewrite E in H. exact H.
Defined.

(** An order issues its tickets once: after a successful issuance every further call for
    the order, with whatever ids and random bytes, throws and changes nothing. *)
Theorem issueTickets_once uuid rnd ck ctx orderId w res w' uuid2 rnd2 ck2 ctx2
    (Hkeyed : keyed ord_id (orders (checkout w))) (Hwf : wf_stock w)
    (Hrun : issueTickets uuid rnd ck ctx orderId w = (Ok res, w')) :
  issueTickets uuid2 rnd2 ck2 ctx2 orderId w' =
    (Err (InvalidStateTransitionError "Only paid orders can issue tickets."), w').
Proof.
  pose proof (wp_ok _ _ _ _ _ _ (issueTickets_wp uuid rnd ck ctx orderId w Hkeyed Hwf) Hrun)
    as (a & o & r & i & _ & Hc).
  assert (Ho : orders (checkout w') !! orderId = Some (with_ord_status ORDER_FULFILLED o)).
  { rewrite (cs_orders _ _ _ _ _ _ _ _ _ _ Hc). apply lookup_insert_eq. }
  unfold issueTickets, getReservationQuantity, bind, transaction.
  by rewrite (issue_not_paid _ _ _ Ho).
Qed.

Lemma issueTickets_once_witness :
  IssueExample.run IssueExample.w1 =
    (Err (InvalidStateTransitionError "Only paid orders can issue tickets."), IssueExample.w1).
Proof.
  assert (E : issueTickets IssueExample.ids IssueExample.rnd IssueExample.ck None "ord"
    IssueExample.w0 = (Ok IssueExample.out, IssueExample.w1)) by run_ends.
  exact (issueTickets_once _ _ _ _ _ _ _ _ IssueExample.ids IssueExample.rnd IssueExample.ck None
    IssueExample.keyed_ord IssueExample.wf_issue_stock E).
Defined.

(** The allocator takes every known request error of Prisma for a collision of references,
    a missing row (P2025) or a write conflict (P2034) as well as P2002: it runs
    the writer five times and replaces the error by one of its own. *)
Theorem allocator_masks_known_errors rnd count (code msg : string) w :
  allocateBatch (T := unit) rnd count (fun _ _ => throw (PrismaKnownError code msg)) w =
  (Err (OtherError "Error" ("Ticket reference allocation failed after 5 attempts: " +:+ msg)), w).
Proof. reflexivity. Qed.
