(* ===== verification/Capacity.v ===== *)
(** Capacity.v: the ticket stock as a state machine.  A step is one committed
    transaction of the program that can reach the stock; between steps time
    passes.  The invariant is that the reserved and sold counts of a bucket stay
    within its capacity; what it takes is that no reservation is consumed after
    it expired, which the code does not check. *)

From S2P Require Import Prelude Errors Hashing Store Context LaunchControl Inventory Providers Orders Payments Base32 Tickets.

Local Open Scope Z_scope.

(* ------------------------------------------------------------------ *)
(** ** Steps                                                            *)

(** No reservation an order of [w] points at through [orderId] has expired. *)
Definition unexpired_reservation (orderId : string) (now : Z) (w : world) : Prop :=
  forall o r, orders (checkout w) !! orderId = Some o ->
    ord_reservationId o = Some (rsv_id r) -> reservations (stock w) !! rsv_id r = Some r ->
    now < rsv_expiresAt r.

Section Steps.
Context `{Crypto} (cfg : string -> option string) (lc : LaunchControlService).

(** [stock_run guarded t w t' w']: from time [t] and database [w], one call of the
    program at the database time [t'] leaves [w'], however it ends.  When
    [guarded], issuance only consumes reservations that have not expired. *)
Inductive stock_run (guarded : bool) : Z -> world -> Z -> world -> Prop :=
| run_reserve t w uuid ck ctx input :
    t <= db_now ck ->
    stock_run guarded t w (db_now ck) (reserveInventory uuid ck ctx input w).2
| run_release t w ck id now :
    t <= db_now ck ->
    stock_run guarded t w (db_now ck) (releaseExpiredReservation ck id now w).2
| run_reconcile t w ck e tt :
    t <= db_now ck ->
    stock_run guarded t w (db_now ck) (reconcileInventoryDrift ck e tt w).2
| run_sweep t w uuid ck skipped limit :
    t <= db_now ck ->
    stock_run guarded t w (db_now ck) (sweepExpiredReservations uuid ck skipped limit w).2
| run_order t w uuid ck ctx input :
    t <= db_now ck ->
    stock_run guarded t w (db_now ck) (createOrder lc uuid ck ctx input w).2
| run_verify t w fetch uuid ck ctx input :
    t <= db_now ck ->
    stock_run guarded t w (db_now ck) (verifyPayment fetch cfg uuid ck ctx input w).2
| run_issue t w uuid ck ctx orderId refs :
    t <= db_now ck ->
    (guarded = true -> unexpired_reservation orderId (db_now ck) w) ->
    stock_run guarded t w (db_now ck) (issueWithReferences uuid ck ctx orderId refs w).2.

Inductive stock_runs (guarded : bool) : Z -> world -> Z -> world -> Prop :=
| runs_refl t w : stock_runs guarded t w t w
| runs_step t w t1 w1 t2 w2 :
    stock_runs guarded t w t1 w1 -> stock_run guarded t1 w1 t2 w2 ->
    stock_runs guarded t w t2 w2.

End Steps.

(* ------------------------------------------------------------------ *)
(** ** The invariant                                                    *)

(** At time [t] every bucket has room for what it sold and what it holds. *)
Record within_capacity (t : Z) (w : world) : Prop := {
  wc_stock : wf_stock w;
  wc_orders : keyed ord_id (orders (checkout w));
  wc_payments : keyed pay_id (payments (checkout w));
  wc_reserved : forall k i, inventories (stock w) !! k = Some i ->
    active_total (inv_eventId i) (inv_ticketTypeId i) t w <= inv_reservedCount i;
  wc_capacity : forall k i, inventories (stock w) !! k = Some i ->
    inv_reservedCount i + inv_soldCount i <= inv_capacityTotal i
}.

(** Waiting keeps it. *)
Lemma within_capacity_later t t' w : t <= t' -> within_capacity t w -> within_capacity t' w.
Proof.
  intros Hle [Hs Ho Hp Hr Hc]. split; try done. intros k i Hi.
  pose proof (active_total_antitone (inv_eventId i) (inv_ticketTypeId i) t t' w Hs Hle).
  specialize (Hr k i Hi). lia.
Qed.

(** A step that changes one bucket's row, and active totals only of that bucket:
    it suffices to look at the new row. *)
Lemma within_capacity_step t w w' i i' :
  within_capacity t w -> wf_stock w' ->
  orders (checkout w') = orders (checkout w) \/ keyed ord_id (orders (checkout w')) ->
  payments (checkout w') = payments (checkout w) ->
  inventories (stock w') = <[inv_id i := i']> (inventories (stock w)) ->
  inv_eventId i' = inv_eventId i -> inv_ticketTypeId i' = inv_ticketTypeId i ->
  inventories (stock w) !! inv_id i = Some i ->
  (forall e tt, (e, tt) <> (inv_eventId i, inv_ticketTypeId i) ->
     active_total e tt t w' <= active_total e tt t w) ->
  active_total (inv_eventId i) (inv_ticketTypeId i) t w' <= inv_reservedCount i' ->
  inv_reservedCount i' + inv_soldCount i' <= inv_capacityTotal i' ->
  within_capacity t w'.
Proof.
  intros [Hs Ho Hp Hr Hc] Hs' Ho' Hp' Hinv He Ht Hi Hother Hact Hcap.
  split; [done | destruct Ho' as [-> | ?]; done | by rewrite Hp' | |].
  - intros k j Hj. rewrite Hinv in Hj. apply lookup_insert_Some in Hj as [[<- <-] | [Hne Hj]].
    + by rewrite He, Ht.
    + assert ((inv_eventId j, inv_ticketTypeId j) <> (inv_eventId i, inv_ticketTypeId i)) as Hb.
      { intros Heq. injection Heq as H1 H2. apply Hne. symmetry.
        by eapply (wf_bucket_unique _ Hs). }
      specialize (Hother _ _ Hb). specialize (Hr k j Hj). lia.
  - intros k j Hj. rewrite Hinv in Hj. apply lookup_insert_Some in Hj as [[<- <-] | [Hne Hj]];
      [done | by eapply Hc].
Qed.

(** The active quantity of a bucket does not see other buckets' reservations. *)
Lemma active_total_set e tt t w w' id r :
  reservations (stock w) !! id = Some r ->
  forall s, reservations (stock w') = <[id := with_rsv_status s r]> (reservations (stock w)) ->
  s <> HELD ->
  active_total e tt t w' = active_total e tt t w - active_quantity e tt t r.
Proof.
  intros Hr s Hw Hs. unfold active_total at 1. rewrite Hw.
  rewrite (active_total_release e tt t w id r s) by done. lia.
Qed.

(* ------------------------------------------------------------------ *)
(** ** Each step keeps it                                               *)

Lemma authoritative_bound t i w :
  active_total (inv_eventId i) (inv_ticketTypeId i) t w <= inv_reservedCount i ->
  active_total (inv_eventId i) (inv_ticketTypeId i) t w <= authoritative t i w <= inv_reservedCount i.
Proof. unfold authoritative. destruct (is_tight i); lia. Qed.

Lemma within_capacity_reserved actor e tt q ttl uuid ck i res w w' :
  0 <= q -> within_capacity (db_now ck) w -> reserved actor e tt q ttl uuid ck i res w w' ->
  within_capacity (db_now ck) w'.
Proof.
  intros Hq Hwc H. destruct (locked_row _ _ _ _ (wc_stock _ _ Hwc) (rd_bucket _ _ _ _ _ _ _ _ _ _ _ H))
    as (Hi & He & Ht).
  pose proof (rd_fits _ _ _ _ _ _ _ _ _ _ _ H) as Hfit.
  pose proof (authoritative_bound _ _ _ (wc_reserved _ _ Hwc _ _ Hi)) as Hau.
  assert (Hact : forall e' t', active_total e' t' (db_now ck) w' <=
    (if bool_decide (e = e') && bool_decide (tt = t') then q else 0) +
    active_total e' t' (db_now ck) w).
  { intros e' t'. unfold active_total at 1. rewrite (rd_reservations _ _ _ _ _ _ _ _ _ _ _ H).
    apply (active_total_new e' t' (db_now ck) w); [apply (rd_fresh _ _ _ _ _ _ _ _ _ _ _ H) | done]. }
  destruct (rd_frame _ _ _ _ _ _ _ _ _ _ _ H) as (_ & Hck & _).
  refine (within_capacity_step _ w w' i _ Hwc _ _ _ (rd_inventories _ _ _ _ _ _ _ _ _ _ _ H) _ _ Hi _ _ _).
  - eapply wf_stock_reserved; [exact Hq | apply Hwc | exact H].
  - left. by rewrite Hck.
  - by rewrite Hck.
  - done.
  - done.
  - intros e' t' Hne. specialize (Hact e' t'). rewrite He, Ht in Hne.
    repeat case_bool_decide; cbn [andb] in Hact; try lia. congruence.
  - specialize (Hact (inv_eventId i) (inv_ticketTypeId i)). rewrite He, Ht in *.
    rewrite !bool_decide_eq_true_2 in Hact by done. cbn in *. lia.
  - cbn. lia.
Qed.

Lemma within_capacity_expired t r i n w w' :
  within_capacity t w -> expired_with r i n w w' ->
  active_total (rsv_eventId r) (rsv_ticketTypeId r) t w' <= n ->
  n <= active_total (rsv_eventId r) (rsv_ticketTypeId r) t w ->
  within_capacity t w'.
Proof.
  intros Hwc H Hn Hn'. destruct (locked_row _ _ _ _ (wc_stock _ _ Hwc) (xp_bucket _ _ _ _ _ H))
    as (Hi & He & Ht).
  destruct (xp_frame _ _ _ _ _ H) as (_ & Hck & _).
  pose proof (wc_reserved _ _ Hwc _ _ Hi) as Hr. pose proof (wc_capacity _ _ Hwc _ _ Hi) as Hc.
  refine (within_capacity_step _ w w' i _ Hwc _ _ _ (xp_inventories _ _ _ _ _ H) _ _ Hi _ _ _).
  - eapply wf_stock_expired; [apply Hwc | exact H].
  - left. by rewrite Hck.
  - by rewrite Hck.
  - done.
  - done.
  - intros e' t' Hne.
    rewrite (active_total_set e' t' t w w' _ r (xp_row _ _ _ _ _ H) _ (xp_reservations _ _ _ _ _ H)) by done.
    pose proof (active_quantity_nonneg e' t' t r (wf_quantity _ (wc_stock _ _ Hwc) _ _ (xp_row _ _ _ _ _ H))).
    lia.
  - rewrite He, Ht. done.
  - cbn. rewrite He, Ht in *. lia.
Qed.

(** Expiring a reservation never raises the active total. *)
Lemma active_total_expired e tt t r i n w w' :
  wf_stock w -> expired_with r i n w w' ->
  active_total e tt t w' <= active_total e tt t w.
Proof.
  intros Hwf H.
  rewrite (active_total_set e tt t w w' _ r (xp_row _ _ _ _ _ H) _ (xp_reservations _ _ _ _ _ H)) by done.
  pose proof (active_quantity_nonneg e tt t r (wf_quantity _ Hwf _ _ (xp_row _ _ _ _ _ H))). lia.
Qed.

Lemma within_capacity_sweep_loop uuid ck rs : forall n w,
  within_capacity (db_now ck) w -> NoDup (rsv_id <$> rs) ->
  Forall (fun r => reservations (stock w) !! rsv_id r = Some r) rs ->
  wp (sweep_loop uuid ck n rs) (fun _ w' => within_capacity (db_now ck) w') any w.
Proof.
  induction rs as [| r rs IH]; intros n w Hwc Hnd Hrows; cbn [sweep_loop fmap list_fmap] in *.
  { by apply wp_ret. }
  apply NoDup_cons in Hnd as [Hni Hnd]. apply Forall_cons in Hrows as [Hr Hrows].
  apply wp_bind. eapply wp_mono; [apply sweep_one_wp; [apply Hwc | done] | | done].
  intros [] w1 [i Hx]. apply wp_bind. eapply wp_mono; [apply (IH (S n) w1) | | done]; [| done | |].
  - eapply within_capacity_expired; [exact Hwc | exact Hx | done |].
    eapply active_total_expired; [apply Hwc | exact Hx].
  - apply Forall_forall. intros r' Hr'. rewrite (xp_reservations _ _ _ _ _ Hx), lookup_insert_ne.
    + rewrite Forall_forall in Hrows. by apply Hrows.
    + intros Heq. apply Hni. rewrite Heq. by apply list_elem_of_fmap_2.
  - intros ids w2 Hw2. by apply wp_ret.
Qed.

Lemma within_capacity_consumed uuid ck orderId refs o r i res w w' :
  within_capacity (db_now ck) w -> consumed uuid ck orderId refs o r i res w w' ->
  db_now ck < rsv_expiresAt r ->
  within_capacity (db_now ck) w'.
Proof.
  intros Hwc H Hx. pose proof (cs_payments _ _ _ _ _ _ _ _ _ _ H) as Hpay.
  destruct (locked_row _ _ _ _ (wc_stock _ _ Hwc) (cs_bucket _ _ _ _ _ _ _ _ _ _ H)) as (Hi & He & Ht).
  pose proof (cs_row _ _ _ _ _ _ _ _ _ _ H) as Hrow.
  pose proof (wf_quantity _ (wc_stock _ _ Hwc) _ _ Hrow) as Hq.
  pose proof (fun e tt => active_total_set e tt (db_now ck) w w' _ r Hrow CONSUMED
    (cs_reservations _ _ _ _ _ _ _ _ _ _ H) ltac:(done)) as Hset.
  pose proof (wc_reserved _ _ Hwc _ _ Hi) as Hr. pose proof (wc_capacity _ _ Hwc _ _ Hi) as Hc.
  assert (Haq : active_quantity (rsv_eventId r) (rsv_ticketTypeId r) (db_now ck) r = rsv_quantity r).
  { unfold active_quantity, is_active. rewrite !bool_decide_eq_true_2; try done.
    - apply Z.ltb_lt in Hx. by rewrite Hx.
    - apply (cs_held _ _ _ _ _ _ _ _ _ _ H). }
  pose proof (Hset (rsv_eventId r) (rsv_ticketTypeId r)) as Hself. rewrite Haq in Hself.
  refine (within_capacity_step _ w w' i _ Hwc _ _ _ (cs_inventories _ _ _ _ _ _ _ _ _ _ H) _ _ Hi _ _ _).
  - eapply (wf_stock_step w w' i _ (rsv_id r) (with_rsv_status CONSUMED r));
      [apply Hwc | done | | | | | | apply (cs_reservations _ _ _ _ _ _ _ _ _ _ H)
      | apply (cs_inventories _ _ _ _ _ _ _ _ _ _ H)]; done.
  - right. rewrite (cs_orders _ _ _ _ _ _ _ _ _ _ H). apply keyed_insert; [apply Hwc |].
    cbn. by apply (wc_orders _ _ Hwc), (cs_order _ _ _ _ _ _ _ _ _ _ H).
  - done.
  - done.
  - done.
  - intros e' t' Hne. rewrite Hset. pose proof (active_quantity_nonneg e' t' (db_now ck) r Hq). lia.
  - cbn. rewrite He, Ht. lia.
  - cbn. rewrite He, Ht in *. lia.
Qed.

Lemma within_capacity_same t w w' :
  within_capacity t w -> stock w' = stock w -> keyed ord_id (orders (checkout w')) ->
  keyed pay_id (payments (checkout w')) -> within_capacity t w'.
Proof.
  intros [Hs _ _ Hr Hc] Hst Ho Hp.
  assert (Hat : forall e tt, active_total e tt t w' = active_total e tt t w).
  { intros e tt. unfold active_total. by rewrite Hst. }
  split; try done.
  - eapply wf_stock_ext; [| | exact Hs]; by rewrite Hst.
  - intros k i Hi. rewrite Hst in Hi. rewrite Hat. by eapply Hr.
  - intros k i Hi. rewrite Hst in Hi. by eapply Hc.
Qed.

(** A call that is one transaction keeps what its success keeps. *)
Lemma step_keeps {A} (m : op A) (P : world -> Prop) (Q : A -> world -> Prop) w :
  P w -> wp m Q (fun _ w' => w' = w) w -> (forall a w', Q a w' -> P w') -> P (m w).2.
Proof.
  intros Hw Hm HQ. unfold wp in Hm. destruct (m w) as [[a | e] w']; cbn; [by eapply HQ | by subst].
Qed.

Lemma transaction_wp_err {A} (m : op A) Q w :
  wp (transaction m) Q any w -> wp (transaction m) Q (fun _ w' => w' = w) w.
Proof. unfold wp, transaction. by destruct (m w) as [[a | e] w']. Qed.

Lemma within_capacity_reserve uuid ck ctx input w :
  within_capacity (db_now ck) w -> within_capacity (db_now ck) (reserveInventory uuid ck ctx input w).2.
Proof.
  intros Hwc. apply (step_keeps _ _ (fun _ w' => within_capacity (db_now ck) w')); [done | | done].
  unfold reserveInventory. do 2 (wp_stmt; wp_stmt; [done |]). wp_stmt. wp_stmt; [done |].
  apply transaction_wp_err, wp_transaction.
  eapply wp_mono; [apply reserve_tx_wp, Hwc | | done]. intros res w' [i H3].
  eapply within_capacity_reserved; [| exact Hwc | exact H3].
  destruct (rin_quantity input) as [z |]; cbn in H; [| done]. destruct (0 <? z) eqn:E; [| done].
  injection H as <-. lia.
Qed.

Lemma within_capacity_release ck id now w :
  within_capacity (db_now ck) w ->
  within_capacity (db_now ck) (releaseExpiredReservation ck id now w).2.
Proof.
  intros Hwc. apply (step_keeps _ _ (fun _ w' => within_capacity (db_now ck) w')); [done | | done].
  apply transaction_wp_err. eapply wp_mono; [apply releaseExpired_wp, Hwc | | done].
  intros res w' [(_ & -> & _) | (r & i & _ & _ & _ & _ & Hx)]; [done |].
  eapply within_capacity_expired; [exact Hwc | exact Hx | | done].
  eapply active_total_expired; [apply Hwc | exact Hx].
Qed.

Lemma within_capacity_reconcile ck e tt w :
  within_capacity (db_now ck) w ->
  within_capacity (db_now ck) (reconcileInventoryDrift ck e tt w).2.
Proof.
  intros Hwc. apply (step_keeps _ _ (fun _ w' => within_capacity (db_now ck) w')); [done | | done].
  apply transaction_wp_err. eapply wp_mono; [apply reconcile_wp, Hwc | | done].
  intros res w' (i & Hb & _ & Hr & Hi & Hf). cbn beta.
  destruct (locked_row _ _ _ _ (wc_stock _ _ Hwc) Hb) as (Hrow & He & Ht).
  destruct Hf as (_ & Hck & _).
  assert (Hat : forall e' t', active_total e' t' (db_now ck) w' = active_total e' t' (db_now ck) w).
  { intros e' t'. unfold active_total. by rewrite Hr. }
  pose proof (wc_reserved _ _ Hwc _ _ Hrow) as H1. pose proof (wc_capacity _ _ Hwc _ _ Hrow) as H2.
  refine (within_capacity_step _ w w' i _ Hwc _ _ _ Hi _ _ Hrow _ _ _); try done.
  - eapply (wf_stock_ext (set_inventories (inventories (stock w')) w)); [done | by rewrite Hr |].
    rewrite Hi. eapply wf_stock_inv_update; [apply Hwc | exact Hrow | done | done | done].
  - left. by rewrite Hck.
  - by rewrite Hck.
  - intros e' t' _. by rewrite Hat.
  - rewrite Hat, He, Ht. done.
  - cbn. rewrite He, Ht in *. lia.
Qed.

Lemma within_capacity_sweep uuid ck skipped limit w :
  within_capacity (db_now ck) w ->
  within_capacity (db_now ck) (sweepExpiredReservations uuid ck skipped limit w).2.
Proof.
  intros Hwc. apply (step_keeps _ _ (fun _ w' => within_capacity (db_now ck) w')); [done | | done].
  apply transaction_wp_err, wp_transaction. wp_step. apply wp_reads.
  eapply wp_mono; [apply within_capacity_sweep_loop | done | done]; [done | |].
  - apply claimed_NoDup, Hwc.
  - apply Forall_forall. intros r Hr. apply claimed_spec in Hr as (_ & _ & _ & k & Hk).
    by rewrite (wf_rsv_keyed _ (wc_stock _ _ Hwc) _ _ Hk).
Qed.

Section Runs.
Context `{Crypto} (cfg : string -> option string) (lc : LaunchControlService).

Lemma within_capacity_order t uuid ck ctx input w :
  within_capacity t w -> within_capacity t (createOrder lc uuid ck ctx input w).2.
Proof.
  intros Hwc. eapply step_keeps; [done | eapply wp_mono; [apply createOrder_wp | done | by intros e w' [-> _]] |]. cbn beta.
  intros res w' (a & _ & Hc).
  destruct (oc_reservation _ _ _ _ _ _ _ _ Hc) as (r & _ & Ho).
  apply (within_capacity_same t w); [done | apply (oc_stock _ _ _ _ _ _ _ _ Hc) | |].
  - rewrite Ho. apply keyed_insert; [apply Hwc | done].
  - rewrite (proj1 (oc_payments _ _ _ _ _ _ _ _ Hc)). apply Hwc.
Qed.

Lemma within_capacity_verify t fetch uuid ck ctx input w :
  within_capacity t w -> within_capacity t (verifyPayment fetch cfg uuid ck ctx input w).2.
Proof.
  intros Hwc. eapply step_keeps; [done | apply verifyPayment_wp, Hwc |]. cbn beta.
  intros res w' (v & p & o & _ & _ & _ & Hs & _).
  apply (within_capacity_same t w); [done | apply (se_frame _ _ _ _ _ _ _ _ Hs) | |].
  - rewrite (se_orders _ _ _ _ _ _ _ _ Hs). apply keyed_insert; [apply Hwc |].
    apply (wc_orders _ _ Hwc _ _ (se_order _ _ _ _ _ _ _ _ Hs)).
  - rewrite (se_payments _ _ _ _ _ _ _ _ Hs). apply keyed_insert; [apply Hwc | done].
Qed.

Lemma within_capacity_run t w t' w' :
  stock_run cfg lc true t w t' w' -> within_capacity t w -> within_capacity t' w'.
Proof.
  intros Hrun Hwc.
  destruct Hrun as [t w ? ? ? ? Hle | t w ? ? ? Hle | t w ? ? ? Hle | t w ? ? ? ? Hle
    | t w ? ? ? ? Hle | t w ? ? ? ? ? Hle | t w uuid ck ctx orderId refs Hle Hg];
    apply (within_capacity_later _ _ _ Hle) in Hwc.
  - by apply within_capacity_reserve.
  - by apply within_capacity_release.
  - by apply within_capacity_reconcile.
  - by apply within_capacity_sweep.
  - by apply within_capacity_order.
  - by apply within_capacity_verify.
  - eapply step_keeps; [done | apply issueWithReferences_wp; apply Hwc |]. cbn beta.
    intros res w' (o & r & i & Hc). eapply within_capacity_consumed; [exact Hwc | exact Hc |].
    apply (Hg eq_refl o); [apply (cs_order _ _ _ _ _ _ _ _ _ _ Hc)
      | apply (cs_link _ _ _ _ _ _ _ _ _ _ Hc) | apply (cs_row _ _ _ _ _ _ _ _ _ _ Hc)].
Qed.

Lemma within_capacity_runs t w t' w' :
  stock_runs cfg lc true t w t' w' -> within_capacity t w -> within_capacity t' w'.
Proof. induction 1; eauto using within_capacity_run. Qed.

End Runs.

(* ------------------------------------------------------------------ *)
(** ** A run that oversells                                             *)

Module OversellExample.

Definition lc : LaunchControlService := CheckoutExample.lc.
Definition at_time (t : Z) : clock := {| app_now := t; db_now := t |}.
Definition ids (call : string) (n : nat) : string := call +:+ pretty n.
Definition who (u : string) : option RequestContextValue := Some (context_for u "corr-0001").

Definition inv : inventory :=
  {| inv_id := "inv"; inv_eventId := "ev"; inv_ticketTypeId := "vip"; inv_capacityTotal := 1;
     inv_reservedCount := 0; inv_soldCount := 0 |}.
Definition pay (n orderId ref : string) : payment :=
  {| pay_id := n; pay_orderId := orderId; pay_provider := "paystack"; pay_providerRef := Some ref;
     pay_status := PAY_PENDING; pay_amount := 5000 |}.

Definition invs : gmap string inventory := {["inv" := inv]}.
Definition pays : gmap string payment :=
  <["p1" := pay "p1" "b0" "ref-alice"]> {["p2" := pay "p2" "d0" "ref-bob"]}.
Definition evs : gmap string event := {["ev" := CheckoutExample.ev]}.

(** One seat; the payments the two orders will be settled by. *)
Definition w0 : world := set_payments pays (set_inventories invs (set_events evs empty_world)).

(** Paystack says both transactions succeeded. *)
Definition fetch (rq : http_request) : fetch_result :=
  FetchResponse {| rs_status := 200; rs_json := Ok (JObj [("data", JObj
    [("reference", JStr "r"); ("status", JStr "success"); ("amount", JNum 5000);
     ("currency", JStr "GHS")])]) |}.

Definition rin : ReserveInventoryInput :=
  {| rin_eventId := "ev"; rin_ticketTypeId := "vip"; rin_quantity := JInt 1;
     rin_holdTtlSeconds := JInt 600 |}.
Definition coi (rsv : string) : CreateOrderInput :=
  {| coi_idempotencyKey := "key-1"; coi_reservationId := rsv; coi_totalAmount := 5000;
     coi_currency := "GHS" |}.
Definition vin (ref : string) : VerifyPaymentInput :=
  {| vpi_provider := paystack; vpi_providerRef := ref; vpi_verifiedSuccess := true;
     vpi_verifiedCurrency := "GHS" |}.
Definition ref (n : string) : list ticket_reference :=
  [{| ref_ticketSerial := n; ref_publicReference := n |}].

Definition step (t : Z) {A} (m : clock -> op A) (w : world) : world := (m (at_time t) w).2.

#[local] Instance crypto : Crypto := plain_crypto.

(** Alice holds the seat and orders it; her hold runs out before she pays, and
    no sweep has run when Bob reserves the seat; both pay, both are issued. *)
Definition w1 := step 1000 (fun ck => reserveInventory (ids "a") ck (who "alice") rin) w0.
Definition w2 := step 2000 (fun ck => createOrder lc (ids "b") ck (who "alice") (coi "a0")) w1.
Definition w3 := step 700000 (fun ck => reserveInventory (ids "c") ck (who "bob") rin) w2.
Definition w4 := step 701000 (fun ck => createOrder lc (ids "d") ck (who "bob") (coi "c0")) w3.
Definition w5 := step 702000 (fun ck => verifyPayment fetch PaymentExample.cfg (ids "e") ck None (vin "ref-alice")) w4.
Definition w6 := step 703000 (fun ck => verifyPayment fetch PaymentExample.cfg (ids "f") ck None (vin "ref-bob")) w5.
Definition w7 := step 704000 (fun ck => issueWithReferences (ids "g") ck None "b0" (ref "r1")) w6.
Definition w8 := step 705000 (fun ck => issueWithReferences (ids "h") ck None "d0" (ref "r2")) w7.

Lemma runs : stock_runs PaymentExample.cfg lc false 0 w0 705000 w8.
Proof.
  pose proof (run_reserve PaymentExample.cfg lc false 0 w0 (ids "a") (at_time 1000) (who "alice") rin ltac:(done)
    : stock_run PaymentExample.cfg lc false 0 w0 1000 w1) as R1.
  pose proof (runs_step _ _ _ _ _ _ _ _ _ (runs_refl _ _ _ _ _) R1) as S1.
  pose proof (run_order PaymentExample.cfg lc false 1000 w1 (ids "b") (at_time 2000) (who "alice") (coi "a0") ltac:(done)
    : stock_run PaymentExample.cfg lc false 1000 w1 2000 w2) as R2.
  pose proof (runs_step _ _ _ _ _ _ _ _ _ (S1) R2) as S2.
  pose proof (run_reserve PaymentExample.cfg lc false 2000 w2 (ids "c") (at_time 700000) (who "bob") rin ltac:(done)
    : stock_run PaymentExample.cfg lc false 2000 w2 700000 w3) as R3.
  pose proof (runs_step _ _ _ _ _ _ _ _ _ (S2) R3) as S3.
  pose proof (run_order PaymentExample.cfg lc false 700000 w3 (ids "d") (at_time 701000) (who "bob") (coi "c0") ltac:(done)
    : stock_run PaymentExample.cfg lc false 700000 w3 701000 w4) as R4.
  pose proof (runs_step _ _ _ _ _ _ _ _ _ (S3) R4) as S4.
  pose proof (run_verify PaymentExample.cfg lc false 701000 w4 fetch (ids "e") (at_time 702000) None (vin "ref-alice") ltac:(done)
    : stock_run PaymentExample.cfg lc false 701000 w4 702000 w5) as R5.
  pose proof (runs_step _ _ _ _ _ _ _ _ _ (S4) R5) as S5.
  pose proof (run_verify PaymentExample.cfg lc false 702000 w5 fetch (ids "f") (at_time 703000) None (vin "ref-bob") ltac:(done)
    : stock_run PaymentExample.cfg lc false 702000 w5 703000 w6) as R6.
  pose proof (runs_step _ _ _ _ _ _ _ _ _ (S5) R6) as S6.
  pose proof (run_issue PaymentExample.cfg lc false 703000 w6 (ids "g") (at_time 704000) None "b0" (ref "r1") ltac:(done) ltac:(intros Hft; discriminate Hft)
    : stock_run PaymentExample.cfg lc false 703000 w6 704000 w7) as R7.
  pose proof (runs_step _ _ _ _ _ _ _ _ _ (S6) R7) as S7.
  pose proof (run_issue PaymentExample.cfg lc false 704000 w7 (ids "h") (at_time 705000) None "d0" (ref "r2") ltac:(done) ltac:(intros Hft; discriminate Hft)
    : stock_run PaymentExample.cfg lc false 704000 w7 705000 w8) as R8.
  pose proof (runs_step _ _ _ _ _ _ _ _ _ (S7) R8) as S8.
  exact S8.
Qed.

Lemma within_capacity_w0 : within_capacity 0 w0.
Proof.
  assert (Hi : forall k i, inventories (stock w0) !! k = Some i -> k = "inv" /\ i = inv).
  { intros k i H. change (invs !! k = Some i) in H. unfold invs in H.
    by apply lookup_singleton_Some in H as [<- <-]. }
  assert (Hr : forall k, reservations (stock w0) !! k = None).
  { intros k. change ((∅ : gmap string reservation) !! k = None). apply lookup_empty. }
  split; [split | | | |].
  - intros k i H. by apply Hi in H as [-> ->].
  - intros k r H. by rewrite Hr in H.
  - intros k1 k2 i1 i2 H1 H2 _ _. apply Hi in H1 as [-> _], H2 as [-> _]. done.
  - intros k r H. by rewrite Hr in H.
  - intros k o H. change ((∅ : gmap string order) !! k = Some o) in H. by rewrite lookup_empty in H.
  - intros k p H. change (pays !! k = Some p) in H. unfold pays in H.
    apply lookup_insert_Some in H as [[<- <-] | [_ H]]; [done |].
    by apply lookup_singleton_Some in H as [<- <-].
  - intros k i H. apply Hi in H as [_ ->]. change (map_sum (active_quantity "ev" "vip" 0) ∅ <= 0).
    by rewrite map_sum_empty.
  - intros k i H. by apply Hi in H as [_ ->].
Qed.

End OversellExample.

(* ------------------------------------------------------------------ *)
(** ** Properties                                                       *)

(** C3: Capacity safety.  Whatever calls the program serves, in any order, with any
    interleaving of their transactions and any passage of time, a bucket that
    starts within capacity never has more tickets sold and held than its
    capacity, and never holds less than its active reservations, provided that
    no reservation is consumed after its expiry. *)
Theorem no_oversell `{Crypto} cfg lc t w t' w'
    (Hruns : stock_runs cfg lc true t w t' w') (Hwc : within_capacity t w) :
  within_capacity t' w' /\
  forall k i, inventories (stock w') !! k = Some i -> inv_soldCount i <= inv_capacityTotal i.
Proof.
  pose proof (within_capacity_runs _ _ _ _ _ _ Hruns Hwc) as Hwc'. split; [done |].
  intros k i Hi. pose proof (wc_reserved _ _ Hwc' k i Hi). pose proof (wc_capacity _ _ Hwc' k i Hi).
  pose proof (active_total_nonneg (inv_eventId i) (inv_ticketTypeId i) t' w' (wc_stock _ _ Hwc')).
  lia.
Qed.

Lemma no_oversell_witness :
  within_capacity 1000 OversellExample.w1 /\ within_capacity 0 OversellExample.w0.
Proof.
  split; [| exact OversellExample.within_capacity_w0].
  refine (proj1 (no_oversell (H := plain_crypto) PaymentExample.cfg
    OversellExample.lc 0 OversellExample.w0 1000 OversellExample.w1 _
    OversellExample.within_capacity_w0)).
  eapply runs_step; [apply runs_refl |].
  apply (run_reserve _ _ _ 0 OversellExample.w0 (OversellExample.ids "a")
    (OversellExample.at_time 1000) (OversellExample.who "alice") OversellExample.rin). done.
Defined.

(** The proviso is needed, because issuance does not look at the expiry of the reservation
    it consumes: from one free seat, eight successful calls of the program end
    with two tickets sold for it. *)
Theorem expired_reservation_oversells :
  within_capacity 0 OversellExample.w0 /\
  stock_runs (H := plain_crypto) PaymentExample.cfg OversellExample.lc false
    0 OversellExample.w0 705000 OversellExample.w8 /\
  (fun i => (inv_soldCount i, inv_capacityTotal i)) <$> inventories (stock OversellExample.w8) !! "inv" =
    Some (2, 1).
Proof.
  split; [exact OversellExample.within_capacity_w0 |]. split; [exact OversellExample.runs | vm_run].
Qed.
