(* ===== verification/PaymentIntents.v ===== *)
(** PaymentIntents.v: payment initiation
    (src/src/modules/payments/application/payments.service.ts) and the payment
    intent repositories (src/src/modules/payments/infrastructure/repositories). *)

From S2P Require Import Prelude Errors Values Hashing Store Context LaunchControl Providers Payments.

Local Open Scope Z_scope.

(* ------------------------------------------------------------------ *)
(** ** PrismaPaymentIntentRepository                                    *)

Definition is_initiation (buyerUserId useCase keyHash : string) (p : payment_intent) : bool :=
  bool_decide (pi_buyerUserId p = buyerUserId) && bool_decide (pi_idempotencyUseCase p = useCase) &&
  bool_decide (pi_idempotencyKeyHash p = keyHash).

Definition findByBuyerAndIdempotency (buyerUserId useCase keyHash : string)
  : op (option payment_intent) :=
  findFirst payment_intents_t (is_initiation buyerUserId useCase keyHash).

Definition findOwnedByBuyer (paymentIntentId buyerUserId : string) : op (option payment_intent) :=
  findFirst payment_intents_t (fun p =>
    bool_decide (pi_id p = paymentIntentId) && bool_decide (pi_buyerUserId p = buyerUserId)).

Definition findIntentById (paymentIntentId : string) : op (option payment_intent) :=
  findUnique payment_intents_t paymentIntentId.

Definition findByProviderReference (ref : string) : op (option payment_intent) :=
  findFirst payment_intents_t (fun p => bool_decide (pi_providerReference p = ref)).

Definition createIntent (p : payment_intent) : op payment_intent :=
  do* create payment_intents_t p in ret p.

(** The columns a state change writes; the others stay. *)
Record intent_state : Type := {
  is_status : PaymentIntentStatus;
  is_checkoutUrl : option string;
  is_accessCode : option string;
  is_rawResponse : json;
  is_failureCode : option string;
  is_failureMessage : option string;
  is_initiatedAt : option Z;
  is_verifiedAt : option Z;
  is_failedAt : option Z;
  is_verifiedStatus : option string;
  is_verifiedAmount : option Z;
  is_verifiedCurrency : option string;
  is_verificationRaw : json
}.

Definition with_state (s : intent_state) (p : payment_intent) : payment_intent :=
  {| pi_id := pi_id p; pi_buyerUserId := pi_buyerUserId p; pi_organizerId := pi_organizerId p;
     pi_eventId := pi_eventId p; pi_provider := pi_provider p; pi_status := is_status s;
     pi_amountMinor := pi_amountMinor p; pi_currency := pi_currency p;
     pi_idempotencyUseCase := pi_idempotencyUseCase p;
     pi_idempotencyKeyHash := pi_idempotencyKeyHash p;
     pi_requestFingerprintHash := pi_requestFingerprintHash p;
     pi_providerReference := pi_providerReference p; pi_providerCheckoutUrl := is_checkoutUrl s;
     pi_providerAccessCode := is_accessCode s; pi_providerRawResponse := is_rawResponse s;
     pi_failureCode := is_failureCode s; pi_failureMessage := is_failureMessage s;
     pi_initiatedAt := is_initiatedAt s; pi_verifiedAt := is_verifiedAt s;
     pi_failedAt := is_failedAt s; pi_providerVerifiedStatus := is_verifiedStatus s;
     pi_providerVerifiedAmount := is_verifiedAmount s;
     pi_providerVerifiedCurrency := is_verifiedCurrency s;
     pi_providerVerificationRaw := is_verificationRaw s |}.

Definition markRetryPending (paymentIntentId : string) : op payment_intent :=
  update payment_intents_t paymentIntentId (fun p => with_state
    {| is_status := INITIATION_PENDING; is_checkoutUrl := None; is_accessCode := None;
       is_rawResponse := JNull; is_failureCode := None; is_failureMessage := None;
       is_initiatedAt := pi_initiatedAt p; is_verifiedAt := pi_verifiedAt p; is_failedAt := None;
       is_verifiedStatus := pi_providerVerifiedStatus p;
       is_verifiedAmount := pi_providerVerifiedAmount p;
       is_verifiedCurrency := pi_providerVerifiedCurrency p;
       is_verificationRaw := pi_providerVerificationRaw p |} p).

Definition markInitiated (paymentIntentId : string) (checkoutUrl accessCode : option string)
    (rawResponse : json) (initiatedAt : Z) : op payment_intent :=
  update payment_intents_t paymentIntentId (with_state
    {| is_status := INITIATED; is_checkoutUrl := checkoutUrl; is_accessCode := accessCode;
       is_rawResponse := rawResponse; is_failureCode := None; is_failureMessage := None;
       is_initiatedAt := Some initiatedAt; is_verifiedAt := None; is_failedAt := None;
       is_verifiedStatus := None; is_verifiedAmount := None; is_verifiedCurrency := None;
       is_verificationRaw := JNull |}).

Definition markFailed (paymentIntentId failureCode failureMessage : string) (rawResponse : json)
    (failedAt : Z) : op payment_intent :=
  update payment_intents_t paymentIntentId (fun p => with_state
    {| is_status := INITIATION_FAILED; is_checkoutUrl := pi_providerCheckoutUrl p;
       is_accessCode := pi_providerAccessCode p; is_rawResponse := rawResponse;
       is_failureCode := Some failureCode; is_failureMessage := Some failureMessage;
       is_initiatedAt := pi_initiatedAt p; is_verifiedAt := pi_verifiedAt p;
       is_failedAt := Some failedAt; is_verifiedStatus := pi_providerVerifiedStatus p;
       is_verifiedAmount := pi_providerVerifiedAmount p;
       is_verifiedCurrency := pi_providerVerifiedCurrency p;
       is_verificationRaw := pi_providerVerificationRaw p |} p).

(** WHERE status IN (INITIATED, INITIATION_PENDING) *)
Definition awaiting_payment (p : payment_intent) : bool :=
  bool_decide (pi_status p = INITIATED) || bool_decide (pi_status p = INITIATION_PENDING).

(** The amount column is an integer; another number is refused by the driver, but
    only an amount equal to the intent's gets here. *)
Definition amount_column (n : option jsnum) : option Z :=
  match n with Some (JInt z) => Some z | _ => None end.

Definition transitionToVerified (paymentIntentId : string) (verifiedAt : Z)
    (v : ProviderVerificationResult) : op Z :=
  updateMany payment_intents_t paymentIntentId awaiting_payment (fun p => with_state
    {| is_status := VERIFIED; is_checkoutUrl := pi_providerCheckoutUrl p;
       is_accessCode := pi_providerAccessCode p; is_rawResponse := pi_providerRawResponse p;
       is_failureCode := None; is_failureMessage := None; is_initiatedAt := pi_initiatedAt p;
       is_verifiedAt := Some verifiedAt; is_failedAt := None;
       is_verifiedStatus := Some (pv_providerStatus v);
       is_verifiedAmount := amount_column (pv_amountMinor v);
       is_verifiedCurrency := pv_currency v; is_verificationRaw := pv_rawResponse v |} p).

Definition transitionToFailed (paymentIntentId : string) (failedAt : Z)
    (failureCode failureMessage : string) (v : ProviderVerificationResult) : op Z :=
  updateMany payment_intents_t paymentIntentId awaiting_payment (fun p => with_state
    {| is_status := FAILED; is_checkoutUrl := pi_providerCheckoutUrl p;
       is_accessCode := pi_providerAccessCode p; is_rawResponse := pi_providerRawResponse p;
       is_failureCode := Some failureCode; is_failureMessage := Some failureMessage;
       is_initiatedAt := pi_initiatedAt p; is_verifiedAt := pi_verifiedAt p;
       is_failedAt := Some failedAt; is_verifiedStatus := Some (pv_providerStatus v);
       is_verifiedAmount := amount_column (pv_amountMinor v);
       is_verifiedCurrency := pv_currency v; is_verificationRaw := pv_rawResponse v |} p).

(** [PrismaPaymentIntentAuditLogRepository.append] *)
Definition appendIntentAudit (paymentIntentId buyerUserId eventType : string) (data : json)
  : op unit :=
  modify (fun w => set_intent_audits (intent_audits (intents w) ++
    [{| ia_paymentIntentId := paymentIntentId; ia_buyerUserId := buyerUserId;
        ia_eventType := eventType; ia_data := data |}]) w).

(* ------------------------------------------------------------------ *)
(** ** PaymentsService                                                  *)

Record InitiatePaymentInput : Type := {
  ipi_idempotencyKey : string;
  ipi_eventId : string;
  ipi_provider : PaymentProvider;
  ipi_customerPhone : option string
}.

(** [PaymentIntentView]; the two timestamps of the row are not modelled. *)
Record PaymentIntentView : Type := {
  piv_paymentIntentId : string;
  piv_eventId : string;
  piv_organizerId : string;
  piv_buyerUserId : string;
  piv_provider : PaymentProvider;
  piv_status : PaymentIntentStatus;
  piv_amountMinor : Z;
  piv_currency : string;
  piv_providerReference : string;
  piv_providerCheckoutUrl : option string;
  piv_providerAccessCode : option string;
  piv_failureCode : option string;
  piv_failureMessage : option string;
  piv_initiatedAt : option Z;
  piv_verifiedAt : option Z;
  piv_failedAt : option Z;
  piv_providerVerifiedStatus : option string;
  piv_providerVerifiedAmount : option Z;
  piv_providerVerifiedCurrency : option string
}.

Definition toView (p : payment_intent) : PaymentIntentView :=
  {| piv_paymentIntentId := pi_id p; piv_eventId := pi_eventId p;
     piv_organizerId := pi_organizerId p; piv_buyerUserId := pi_buyerUserId p;
     piv_provider := pi_provider p; piv_status := pi_status p; piv_amountMinor := pi_amountMinor p;
     piv_currency := pi_currency p; piv_providerReference := pi_providerReference p;
     piv_providerCheckoutUrl := pi_providerCheckoutUrl p;
     piv_providerAccessCode := pi_providerAccessCode p; piv_failureCode := pi_failureCode p;
     piv_failureMessage := pi_failureMessage p; piv_initiatedAt := pi_initiatedAt p;
     piv_verifiedAt := pi_verifiedAt p; piv_failedAt := pi_failedAt p;
     piv_providerVerifiedStatus := pi_providerVerifiedStatus p;
     piv_providerVerifiedAmount := pi_providerVerifiedAmount p;
     piv_providerVerifiedCurrency := pi_providerVerifiedCurrency p |}.

Definition PAYMENT_INITIATION_IDEMPOTENCY_USE_CASE : string := "payments.initiate".

Definition intent_status_text (s : PaymentIntentStatus) : string :=
  match s with
  | INITIATION_PENDING => "INITIATION_PENDING"
  | INITIATED => "INITIATED"
  | INITIATION_FAILED => "INITIATION_FAILED"
  | VERIFIED => "VERIFIED"
  | FAILED => "FAILED"
  end.

Definition provider_name (p : PaymentProvider) : string :=
  match p with PAYSTACK => "PAYSTACK" | MTN_MOMO => "MTN_MOMO" end.

Definition toSupportedProvider (p : PaymentProvider) : string :=
  match p with PAYSTACK => "paystack" | MTN_MOMO => "momo" end.

Definition toProviderCode (p : PaymentProvider) : string :=
  match p with PAYSTACK => "paystack" | MTN_MOMO => "momo" end.

Definition normalizePhone (value : option string) : option string := truthy (trim <$> value).

(** [`pi_${idempotencyKeyHash.slice(0, 24)}`] *)
Definition buildProviderReference (idempotencyKeyHash : string) : string :=
  "pi_" +:+ String.substring 0 24 idempotencyKeyHash.

(** [findByIdForPaymentInitiation]: the event with its organizer. *)
Definition findByIdForPaymentInitiation (eventId : string) : op (option (event * OrganizerStatus)) :=
  reads (fun w =>
    ev ← events (catalog w) !! eventId;
    org ← organizers (catalog w) !! ev_organizerId ev;
    Some (ev, org_status org)).

(** [assertEventEligible]: the event and its price. *)
Definition assertEventEligible (found : option (event * OrganizerStatus)) (eventId : string)
  : op (event * Z) :=
  let* eo := or_throw found (NotFoundError "Event not found.") in
  let ev := eo.1 in
  do* throw_if (negb (bool_decide (ev_status ev = EV_PUBLISHED)))
        (DomainConflictError "Event is not published.") in
  do* throw_if (negb (bool_decide (eo.2 = ORG_APPROVED)))
        (DomainConflictError "Organizer is not approved for payments.") in
  do* throw_if (negb (ev_paymentEnabled ev))
        (DomainConflictError "Event is not enabled for payments.") in
  let* price := or_throw (match ev_priceMinor ev with
                          | Some z => if 0 <? z then Some z else None
                          | None => None
                          end)
      (DomainConflictError
         ("Event " +:+ eventId +:+ " does not have a valid payment amount configured.")) in
  do* throw_if (bool_decide (trim (ev_priceCurrency ev) = ""))
        (DomainConflictError
           ("Event " +:+ eventId +:+ " does not have a valid payment currency configured.")) in
  ret (ev, price).

Definition resolveFailureCode (e : error) : string :=
  match e with
  | ProviderTimeoutError _ _ => "PAYMENT_PROVIDER_TIMEOUT"
  | ProviderAuthError _ _ => "PAYMENT_PROVIDER_AUTH_ERROR"
  | ProviderNetworkError _ _ => "PAYMENT_PROVIDER_NETWORK_ERROR"
  | ProviderResponseError _ code _ _ => code
  | _ => "PAYMENT_INITIATION_FAILED"
  end.

(** [resolveFailurePayload]; no error of the program carries metadata. *)
Definition resolveFailurePayload (e : error) : json :=
  JObj [("name", JStr (error_name e)); ("message", JStr (message e))].

Definition recordInitiationFailure (now : Z) (p : payment_intent) (buyerUserId : string)
    (provider : PaymentProvider) (e : error) : op unit :=
  transaction (
    do* markFailed (pi_id p) (resolveFailureCode e) (message e) (resolveFailurePayload e) now in
    appendIntentAudit (pi_id p) buyerUserId "payment_initiation_failed"
      (JObj [("provider", JStr (provider_name provider));
             ("providerReference", JStr (pi_providerReference p));
             ("failureCode", JStr (resolveFailureCode e)); ("failureMessage", JStr (message e))])).

(** [tryAppendAuditLog]: best effort. *)
Definition tryAppendAuditLog (paymentIntentId buyerUserId eventType : string) (data : json)
  : op unit :=
  catch (appendIntentAudit paymentIntentId buyerUserId eventType data) (fun _ => ret tt).

Definition recordProviderSuccessPersistenceFailure (now : Z) (p : payment_intent)
    (buyerUserId : string) (rawResponse : json) (e : error) : op unit :=
  catch
    (transaction (
       do* markFailed (pi_id p) "LOCAL_PERSISTENCE_FAILURE_AFTER_PROVIDER_SUCCESS"
             "Provider initiation succeeded but the local state could not be finalized."
             rawResponse now in
       appendIntentAudit (pi_id p) buyerUserId
         "payment_initiation_provider_created_db_update_failed"
         (JObj [("providerReference", JStr (pi_providerReference p)); ("error", JStr (message e))])))
    (fun _ => tryAppendAuditLog (pi_id p) buyerUserId
       "payment_initiation_provider_created_db_update_failed"
       (JObj [("providerReference", JStr (pi_providerReference p)); ("error", JStr (message e));
              ("auditFallback", JBool true)])).

(** What the first transaction decides. *)
Inductive InitiationAction : Type :=
| CallProvider (p : payment_intent)
| ReturnExisting (p : payment_intent).

Section Initiation.
Context `{Crypto} (fetch : http_request -> fetch_result) (cfg : string -> option string)
  (lc : LaunchControlService).

Definition initiation_fingerprint (input : InitiatePaymentInput) : string :=
  sha256 (stringify [("eventId", Some (ipi_eventId input));
                     ("provider", Some (provider_name (ipi_provider input)));
                     ("customerPhone", normalizePhone (ipi_customerPhone input))]).

(** The first transaction: replay, retry or create. *)
Definition claim_intent (newId : string) (buyer : user) (ev : event) (amountMinor : Z)
    (input : InitiatePaymentInput) : op InitiationAction :=
  let idempotencyKeyHash := sha256 (ipi_idempotencyKey input) in
  let requestFingerprintHash := initiation_fingerprint input in
  let* existing := findByBuyerAndIdempotency (user_id buyer)
                     PAYMENT_INITIATION_IDEMPOTENCY_USE_CASE idempotencyKeyHash in
  match existing with
  | Some existing =>
      do* throw_if (negb (bool_decide (pi_requestFingerprintHash existing = requestFingerprintHash)))
            (IdempotencyConflictError "Idempotency key reused with different payload.") in
      if bool_decide (pi_status existing = INITIATION_FAILED) then
        let* retried := markRetryPending (pi_id existing) in
        do* appendIntentAudit (pi_id retried) (user_id buyer) "payment_initiation_requested"
              (JObj [("retry", JBool true); ("eventId", JStr (ev_id ev));
                     ("organizerId", JStr (ev_organizerId ev));
                     ("provider", JStr (provider_name (ipi_provider input)))]) in
        ret (CallProvider retried)
      else
        do* appendIntentAudit (pi_id existing) (user_id buyer) "payment_initiation_idempotent_replay"
              (JObj [("eventId", JStr (pi_eventId existing));
                     ("provider", JStr (provider_name (pi_provider existing)));
                     ("status", JStr (intent_status_text (pi_status existing)))]) in
        ret (ReturnExisting existing)
  | None =>
      let* created := createIntent
        {| pi_id := newId; pi_buyerUserId := user_id buyer; pi_organizerId := ev_organizerId ev;
           pi_eventId := ev_id ev; pi_provider := ipi_provider input;
           pi_status := INITIATION_PENDING; pi_amountMinor := amountMinor;
           pi_currency := ev_priceCurrency ev;
           pi_idempotencyUseCase := PAYMENT_INITIATION_IDEMPOTENCY_USE_CASE;
           pi_idempotencyKeyHash := idempotencyKeyHash;
           pi_requestFingerprintHash := requestFingerprintHash;
           pi_providerReference := buildProviderReference idempotencyKeyHash;
           pi_providerCheckoutUrl := None; pi_providerAccessCode := None;
           pi_providerRawResponse := JNull; pi_failureCode := None; pi_failureMessage := None;
           pi_initiatedAt := None; pi_verifiedAt := None; pi_failedAt := None;
           pi_providerVerifiedStatus := None; pi_providerVerifiedAmount := None;
           pi_providerVerifiedCurrency := None; pi_providerVerificationRaw := JNull |} in
      do* appendIntentAudit (pi_id created) (user_id buyer) "payment_initiation_requested"
            (JObj [("eventId", JStr (ev_id ev)); ("organizerId", JStr (ev_organizerId ev));
                   ("provider", JStr (provider_name (ipi_provider input)))]) in
      ret (CallProvider created)
  end.

(** [resolveProvider(provider).initiate]; the callback url is never passed. *)
Definition adapter_initiate (provider : PaymentProvider) (input : ProviderInitiateInput)
  : op ProviderInitiateResult :=
  match provider with
  | PAYSTACK => paystack_initiatePayment fetch cfg input
  | MTN_MOMO => momo_initiatePayment fetch cfg input
  end.

(** While the provider is awaited other requests run: [meanwhile] is what they do
    to the database. *)
Definition awaiting {A} (meanwhile : world -> world) (m : op A) : op A :=
  fun w => let (o, w') := m w in (o, meanwhile w').

(** The transaction that stores the provider's answer.  [fault] is a failure of
    the database connection itself, if there is one. *)
Definition persist_initiated (fault : option error) (now : Z) (buyer : user) (p : payment_intent)
    (initiated : ProviderInitiateResult) : op payment_intent :=
  transaction (
    do* match fault with Some e => throw e | None => ret tt end in
    let* updated := markInitiated (pi_id p) (pir_checkoutUrl initiated) (pir_accessCode initiated)
                      (pir_rawResponse initiated) now in
    do* appendIntentAudit (pi_id updated) (user_id buyer) "payment_initiation_initiated"
          (JObj [("provider", JStr (provider_name (pi_provider updated)));
                 ("providerReference", JStr (pi_providerReference updated));
                 ("providerCheckoutUrl", jstr_or_null (pi_providerCheckoutUrl updated));
                 ("providerAccessCode", jstr_or_null (pi_providerAccessCode updated))]) in
    ret updated).

(** The provider call and what follows it, inside the outer try. *)
Definition call_provider (meanwhile : world -> world) (fault : option error) (now : Z)
    (buyer : user) (input : InitiatePaymentInput) (p : payment_intent) : op PaymentIntentView :=
  let* initiated := awaiting meanwhile (adapter_initiate (ipi_provider input)
    {| pin_paymentIntentId := pi_id p; pin_providerReference := pi_providerReference p;
       pin_amountMinor := pi_amountMinor p; pin_currency := pi_currency p;
       pin_customerEmail := user_email buyer;
       pin_customerPhone := normalizePhone (ipi_customerPhone input);
       pin_metadata := [("paymentIntentId", JStr (pi_id p)); ("eventId", JStr (pi_eventId p));
                        ("organizerId", JStr (pi_organizerId p));
                        ("buyerUserId", JStr (pi_buyerUserId p))] |}) in
  do* throw_if (negb (bool_decide (pir_providerReference initiated = pi_providerReference p)))
        (ProviderResponseError (toProviderCode (ipi_provider input))
           "PAYMENT_PROVIDER_REFERENCE_MISMATCH" 500
           "Provider returned an unexpected payment reference.") in
  catch
    (let* persisted := persist_initiated fault now buyer p initiated in ret (toView persisted))
    (fun e =>
       do* recordProviderSuccessPersistenceFailure now p (user_id buyer)
             (pir_rawResponse initiated) e in
       throw (InternalServerErrorException
                "Payment provider initiation succeeded but local persistence failed.")).

(** [initiatePayment].  [newId] is the id the database gives a new intent. *)
Definition initiatePayment (newId : string) (meanwhile : world -> world) (fault : option error)
    (ck : clock) (ctx : option RequestContextValue) (input : InitiatePaymentInput)
  : op PaymentIntentView :=
  let* userId := or_throw (actor_of ctx)
      (DomainConflictError "Authenticated user context is required.") in
  let* found := findUnique users_t userId in
  let* buyer := or_throw found (NotFoundError "Buyer not found.") in
  do* throw_if (negb (user_isActive buyer))
        (DomainConflictError "Inactive users cannot initiate payments.") in
  do* throw_if (bool_decide (user_emailVerifiedAt buyer = None))
        (DomainConflictError "Email verification is required before initiating payments.") in
  let* found := findByIdForPaymentInitiation (ipi_eventId input) in
  let* eligible := assertEventEligible found (ipi_eventId input) in
  let ev := eligible.1 in
  do* assertPaymentInitiationAllowed lc (toSupportedProvider (ipi_provider input)) (ev_id ev)
        (ev_priceCurrency ev) in
  let* action := transaction (claim_intent newId buyer ev eligible.2 input) in
  match action with
  | ReturnExisting p => ret (toView p)
  | CallProvider p =>
      catch (call_provider meanwhile fault (app_now ck) buyer input p)
        (fun e =>
           do* recordInitiationFailure (app_now ck) p (user_id buyer) (ipi_provider input) e in
           throw e)
  end.

(** [getPaymentIntentForBuyer] *)
Definition getPaymentIntentForBuyer (paymentIntentId buyerUserId : string) : op PaymentIntentView :=
  let* found := findOwnedByBuyer paymentIntentId buyerUserId in
  let* p := or_throw found (NotFoundError "Payment intent not found.") in
  ret (toView p).

End Initiation.

(* ------------------------------------------------------------------ *)
(** ** What initiation does                                             *)

Definition key_of `{Crypto} (input : InitiatePaymentInput) (p : payment_intent) : Prop :=
  pi_idempotencyUseCase p = PAYMENT_INITIATION_IDEMPOTENCY_USE_CASE /\
  pi_idempotencyKeyHash p = sha256 (ipi_idempotencyKey input).

(** A state change keeps who pays, for what, and how much. *)
Definition same_terms (p q : payment_intent) : Prop := exists s, q = with_state s p.

Lemma same_terms_refl p : same_terms p p.
Proof.
  exists {| is_status := pi_status p; is_checkoutUrl := pi_providerCheckoutUrl p;
    is_accessCode := pi_providerAccessCode p; is_rawResponse := pi_providerRawResponse p;
    is_failureCode := pi_failureCode p; is_failureMessage := pi_failureMessage p;
    is_initiatedAt := pi_initiatedAt p; is_verifiedAt := pi_verifiedAt p;
    is_failedAt := pi_failedAt p; is_verifiedStatus := pi_providerVerifiedStatus p;
    is_verifiedAmount := pi_providerVerifiedAmount p;
    is_verifiedCurrency := pi_providerVerifiedCurrency p;
    is_verificationRaw := pi_providerVerificationRaw p |}. by destruct p.
Qed.

Lemma same_terms_trans p q r : same_terms p q -> same_terms q r -> same_terms p r.
Proof. intros [s ->] [s' ->]. by exists s'. Qed.

Section InitiationLemmas.
Context `{Crypto} (fetch : http_request -> fetch_result) (cfg : string -> option string)
  (lc : LaunchControlService).

Lemma momo_fetchVoid_pure rq code l : pure (momo_fetchVoid fetch rq code l).
Proof. net_pure. Qed.
#[local] Hint Resolve momo_fetchVoid_pure : pure.

Lemma adapter_initiate_pure p input : pure (adapter_initiate fetch cfg p input).
Proof. destruct p; net_pure. Qed.

(** The first transaction either replays, and leaves the intents alone, or hands
    a pending intent of the buyer and key to the provider call. *)
Lemma claim_intent_wp newId buyer ev amount input w :
  keyed pi_id (payment_intents (intents w)) ->
  wp (transaction (claim_intent newId buyer ev amount input))
     (fun a w' => users (catalog w') = users (catalog w) /\ match a with
        | ReturnExisting p => payment_intents (intents w') = payment_intents (intents w) /\
            pi_status p <> INITIATION_FAILED
        | CallProvider p =>
            payment_intents (intents w') = <[pi_id p := p]> (payment_intents (intents w)) /\
            pi_buyerUserId p = user_id buyer /\ key_of input p /\
            pi_requestFingerprintHash p = initiation_fingerprint input /\
            pi_status p = INITIATION_PENDING /\
            ((payment_intents (intents w) !! pi_id p = None /\ pi_amountMinor p = amount /\
              pi_currency p = ev_priceCurrency ev /\ pi_eventId p = ev_id ev) \/
             exists old, payment_intents (intents w) !! pi_id p = Some old /\
               pi_status old = INITIATION_FAILED /\ same_terms old p)
        end)
     (fun _ w' => w' = w) w.
Proof.
  intros Hk. unfold claim_intent. wp_go; try done.
  - apply negb_false_iff, bool_decide_eq_true in H0. apply bool_decide_eq_true in Heqb.
    apply find_row_Some in Heqo as (k & Hrow & Hb). pose proof (Hk _ _ Hrow) as <-.
    same_row Hrow. unfold is_initiation in Hb.
    apply andb_true_iff in Hb as [Hb Hb3]. apply andb_true_iff in Hb as [Hb1 Hb2].
    apply bool_decide_eq_true in Hb1, Hb2, Hb3.
    split_and!; try done. right. exists p. split_and!; try done. by eexists.
  - apply bool_decide_eq_false in Heqb. done.
  - split_and!; try done. left. done.
Qed.

(** With nobody else at work, the provider call ends with the intent INITIATED,
    or throws having touched at most the state of that intent. *)
Lemma call_provider_wp fault now buyer input p w :
  payment_intents (intents w) !! pi_id p = Some p ->
  wp (call_provider fetch cfg (fun w => w) fault now buyer input p)
     (fun v w' => exists p', same_terms p p' /\ pi_status p' = INITIATED /\ v = toView p' /\
        payment_intents (intents w') = <[pi_id p := p']> (payment_intents (intents w)))
     (fun _ w' => exists p', same_terms p p' /\
        payment_intents (intents w') = <[pi_id p := p']> (payment_intents (intents w))) w.
Proof.
  intros Hp. unfold call_provider. wp_step.
  assert (Hsame : exists p', same_terms p p' /\
    payment_intents (intents w) = <[pi_id p := p']> (payment_intents (intents w))).
  { exists p. split; [apply same_terms_refl |]. by rewrite insert_id. }
  unfold awaiting, wp at 1.
  pose proof (adapter_initiate_pure (ipi_provider input)
    {| pin_paymentIntentId := pi_id p; pin_providerReference := pi_providerReference p;
       pin_amountMinor := pi_amountMinor p; pin_currency := pi_currency p;
       pin_customerEmail := user_email buyer;
       pin_customerPhone := normalizePhone (ipi_customerPhone input);
       pin_metadata := [("paymentIntentId", JStr (pi_id p)); ("eventId", JStr (pi_eventId p));
                        ("organizerId", JStr (pi_organizerId p));
                        ("buyerUserId", JStr (pi_buyerUserId p))] |} w) as Hpure.
  unfold wp in Hpure. destruct (adapter_initiate _ _ _ _ w) as [[initiated | e] w1];
    subst w1; [| exact Hsame].
  wp_step. wp_step; [exact Hsame |]. wp_go; try exact Hsame.
  all: same_row Hp; try (eexists; split; [by eexists | done]); try congruence.
  exists (with_state {| is_status := INITIATED; is_checkoutUrl := pir_checkoutUrl initiated;
       is_accessCode := pir_accessCode initiated; is_rawResponse := pir_rawResponse initiated;
       is_failureCode := None; is_failureMessage := None; is_initiatedAt := Some now;
       is_verifiedAt := None; is_failedAt := None; is_verifiedStatus := None;
       is_verifiedAmount := None; is_verifiedCurrency := None; is_verificationRaw := JNull |} p).
  split_and!; try done. by eexists.
Qed.

End InitiationLemmas.

(** The buyer may start this payment, for this event at this price. *)
Record may_initiate (lc : LaunchControlService) (ctx : option RequestContextValue)
    (input : InitiatePaymentInput) (buyer : user) (ev : event) (price : Z) (w : world) : Prop := {
  mi_buyer : exists userId, actor_of ctx = Some userId /\ users (catalog w) !! userId = Some buyer;
  mi_active : user_isActive buyer = true /\ user_emailVerifiedAt buyer <> None;
  mi_event : events (catalog w) !! ipi_eventId input = Some ev /\ ev_status ev = EV_PUBLISHED /\
             ev_paymentEnabled ev = true;
  mi_organizer : exists org, organizers (catalog w) !! ev_organizerId ev = Some org /\
                             org_status org = ORG_APPROVED;
  mi_price : ev_priceMinor ev = Some price /\ 0 < price
}.

Section InitiationOutcome.
Context `{Crypto} (fetch : http_request -> fetch_result) (cfg : string -> option string)
  (lc : LaunchControlService).

Lemma wp_assertPaymentInitiationAllowed provider e c w :
  wp (assertPaymentInitiationAllowed lc provider e c)
     (fun _ w' => w' = w) (fun _ w' => w' = w) w.
Proof.
  pose proof (assertPaymentInitiationAllowed_reads_only lc provider e c w) as Hro.
  unfold wp. by destruct (assertPaymentInitiationAllowed lc provider e c w) as [[[] | err] w'].
Qed.

(** The guards before the first transaction only read. *)
Lemma initiate_guards newId meanwhile fault ck ctx input w (Q : PaymentIntentView -> world -> Prop) X :
  (forall e, X e w) ->
  (forall buyer ev price, may_initiate lc ctx input buyer ev price w ->
     wp (let* action := transaction (claim_intent newId buyer ev price input) in
         match action with
         | ReturnExisting p => ret (toView p)
         | CallProvider p =>
             catch (call_provider fetch cfg meanwhile fault (app_now ck) buyer input p)
               (fun e =>
                  do* recordInitiationFailure (app_now ck) p (user_id buyer) (ipi_provider input) e in
                  throw e)
         end) Q X w) ->
  wp (initiatePayment fetch cfg lc newId meanwhile fault ck ctx input) Q X w.
Proof.
  intros HX HQ. unfold initiatePayment.
  wp_until (@assertPaymentInitiationAllowed); try apply HX. cbn [fst snd] in *.
  eapply wp_mono; [apply wp_assertPaymentInitiationAllowed | | intros e w' ->; apply HX].
  intros [] w' ->. cbv beta.
  destruct (events (catalog w) !! ipi_eventId input) as [ev |] eqn:Hev; [| done].
  cbn in H4. destruct (organizers (catalog w) !! ev_organizerId ev) as [org |] eqn:Horg; [| done].
  cbn in H4. injection H4 as <-. cbn [fst snd] in *.
  apply negb_false_iff in H2, H5, H6, H7. apply bool_decide_eq_true in H5, H6.
  apply bool_decide_eq_false in H3.
  destruct (ev_priceMinor ev) as [z |] eqn:Hz; [| done]. destruct (0 <? z) eqn:Hpos; [| done].
  injection H8 as <-. apply HQ. split; [by eauto | done | done | by eauto | split; [done | lia]].
Qed.
End InitiationOutcome.

Section InitiationTheorems.
Context `{Crypto} (fetch : http_request -> fetch_result) (cfg : string -> option string)
  (lc : LaunchControlService).

(** The one intent a run may have changed. *)
Definition touched (input : InitiatePaymentInput) (buyer : user) (p : payment_intent)
    (w w' : world) : Prop :=
  payment_intents (intents w') = <[pi_id p := p]> (payment_intents (intents w)) /\
  pi_buyerUserId p = user_id buyer /\ key_of input p.

(** Where its amount comes from: the event's price when it is new, itself when a
    failed attempt is retried. *)
Definition priced (ev : event) (price : Z) (p : payment_intent) (w : world) : Prop :=
  (payment_intents (intents w) !! pi_id p = None /\ pi_amountMinor p = price /\
   pi_currency p = ev_priceCurrency ev /\ pi_eventId p = ev_id ev) \/
  (exists old, payment_intents (intents w) !! pi_id p = Some old /\
     pi_status old = INITIATION_FAILED /\ same_terms old p).

Lemma touched_with input buyer p p' w w1 w' :
  touched input buyer p w w1 -> same_terms p p' ->
  payment_intents (intents w') = <[pi_id p := p']> (payment_intents (intents w1)) ->
  touched input buyer p' w w'.
Proof.
  intros (Hi & Hb & Hk) [s ->] Hw. split; [| done]. cbn. by rewrite Hw, Hi, insert_insert_eq.
Qed.

Lemma priced_with ev price p p' w : priced ev price p w -> same_terms p p' -> priced ev price p' w.
Proof.
  intros Hp [s ->]. destruct Hp as [Hp | (old & Ho & Hs & Ht)]; [by left | right].
  exists old. split_and!; try done. eapply same_terms_trans; [exact Ht | by exists s].
Qed.

Lemma initiatePayment_wp newId fault ck ctx input w :
  keyed pi_id (payment_intents (intents w)) ->
  wp (initiatePayment fetch cfg lc newId (fun w => w) fault ck ctx input)
     (fun v w' => payment_intents (intents w') = payment_intents (intents w) \/
        exists buyer ev price p, may_initiate lc ctx input buyer ev price w /\
          touched input buyer p w w' /\ priced ev price p w /\
          pi_status p = INITIATED /\ v = toView p)
     (fun e w' => payment_intents (intents w') = payment_intents (intents w) \/
        exists buyer ev price p, may_initiate lc ctx input buyer ev price w /\
          touched input buyer p w w' /\ priced ev price p w /\
          pi_status p = INITIATION_FAILED /\ pi_failureCode p = Some (resolveFailureCode e)) w.
Proof.
  intros Hk. apply initiate_guards; [by left |]. intros buyer ev price Hmay.
  wp_step. eapply wp_mono; [by apply claim_intent_wp | | intros e w' ->; by left].
  intros [p | p] w1 [_ Hc]; [| left; apply Hc].
  destruct Hc as (Hw1 & Hb & Hkey & _ & _ & Hsrc).
  assert (Ht : touched input buyer p w w1) by done. assert (Hpr : priced ev price p w) by exact Hsrc.
  apply wp_catch. eapply wp_mono; [apply call_provider_wp; rewrite Hw1; apply lookup_insert_eq | |].
  - intros v w2 (p' & Hs & Hst & -> & Hw2). right. exists buyer, ev, price, p'.
    split_and!; try done; [by eapply touched_with | by eapply priced_with].
  - intros e w2 (p' & Hs & Hw2). wp_go.
    2: { rewrite Hw2, lookup_insert_eq in *. done. }
    right. destruct Hs as [s ->].
    match goal with Hr : payment_intents (intents w2) !! pi_id p = Some ?r |- _ =>
      rewrite Hw2, lookup_insert_eq in Hr; injection Hr as <- end.
    eexists buyer, ev, price, (with_state _ p). split_and!; [done | | | |].
    + eapply (touched_with _ _ p); [exact Ht | by eexists |]. rsimpl. rewrite Hw2.
      by rewrite insert_insert_eq.
    + eapply priced_with; [exact Hpr | by eexists].
    + done.
    + done.
Qed.

End InitiationTheorems.

(** Two programs that agree on what they bind agree on what they do. *)
Lemma bind_ext {A B} (m : op A) (k1 k2 : A -> op B) w :
  (forall a w', m w = (Ok a, w') -> k1 a w' = k2 a w') -> bind m k1 w = bind m k2 w.
Proof. unfold bind. destruct (m w) as [[a | e] w']; auto. Qed.

(** With a live intent for the key, the first transaction only replays it. *)
Lemma claim_existing `{Crypto} newId buyer ev price input p w :
  find_row (is_initiation (user_id buyer) PAYMENT_INITIATION_IDEMPOTENCY_USE_CASE
              (sha256 (ipi_idempotencyKey input))) (payment_intents (intents w)) = Some p ->
  pi_status p <> INITIATION_FAILED ->
  wp (transaction (claim_intent newId buyer ev price input))
     (fun a w' => a = ReturnExisting p /\
        payment_intents (intents w') = payment_intents (intents w) /\
        pi_requestFingerprintHash p = initiation_fingerprint input)
     (fun _ w' => w' = w) w.
Proof.
  intros Hf Hs. unfold claim_intent. wp_go; try done; rewrite Hf in Heqo; simplify_eq.
  - by apply bool_decide_eq_true in Heqb.
  - by apply negb_false_iff, bool_decide_eq_true in H0.
Qed.

Lemma claim_existing_newId `{Crypto} newId1 newId2 buyer ev price input p w :
  find_row (is_initiation (user_id buyer) PAYMENT_INITIATION_IDEMPOTENCY_USE_CASE
              (sha256 (ipi_idempotencyKey input))) (payment_intents (intents w)) = Some p ->
  transaction (claim_intent newId1 buyer ev price input) w =
  transaction (claim_intent newId2 buyer ev price input) w.
Proof.
  intros Hf. unfold claim_intent, transaction, findByBuyerAndIdempotency, findFirst, bind, reads.
  cbn [tb_rows payment_intents_t]. by rewrite Hf.
Qed.

Lemma throw_if_same b (e : error) (w w' : world) : throw_if b e w = (Ok tt, w') -> w' = w.
Proof. unfold throw_if, throw, ret. destruct b; congruence. Qed.

Lemma assertEventEligible_same found eventId el w w' :
  assertEventEligible found eventId w = (Ok el, w') -> w' = w.
Proof.
  apply (wp_ok (assertEventEligible found eventId) (fun _ w' => w' = w) any).
  wp_go; done.
Qed.

(* ------------------------------------------------------------------ *)
(** ** A payment to initiate                                            *)

Module InitiationExample.

Definition alice : user :=
  {| user_id := "alice"; user_email := "a@example.com"; user_passwordHash := "h";
     user_role := CUSTOMER; user_isActive := true; user_emailVerifiedAt := Some 1 |}.
Definition bob : user :=
  {| user_id := "bob"; user_email := "b@example.com"; user_passwordHash := "h";
     user_role := CUSTOMER; user_isActive := true; user_emailVerifiedAt := Some 1 |}.
Definition org : organizer := {| org_id := "org"; org_ownerUserId := "olu"; org_status := ORG_APPROVED;
     org_profile := plain_profile "org" |}.
Definition ev : event :=
  {| ev_id := "ev"; ev_organizerId := "org"; ev_venueId := "venue"; ev_status := EV_PUBLISHED;
     ev_visibility := PUBLIC; ev_endsAt := 9000000; ev_paymentEnabled := true;
     ev_priceMinor := Some 5000; ev_priceCurrency := "GHS";
     ev_listing := plain_listing "ev" |}.

Definition w0 : world :=
  set_events {["ev" := ev]} (set_organizers {["org" := org]}
    (set_users (<["alice" := alice]> {["bob" := bob]}) empty_world)).

Definition lc : LaunchControlService :=
  launch_control {| PILOT_CHECKOUT_ENABLED := None; PILOT_PAYMENTS_ENABLED := None;
    PILOT_ADMISSIONS_ENABLED := None; PILOT_ALLOWED_PAYMENT_PROVIDERS := Some ["paystack"];
    PILOT_ALLOWED_CURRENCIES := None; PILOT_ALLOWED_ORGANIZER_IDS := None;
    PILOT_ALLOWED_EVENT_IDS := None; PILOT_ALLOWED_GATE_IDS := None |}.

Definition cfg (k : string) : option string :=
  if bool_decide (k = "PAYSTACK_SECRET_KEY") then Some "sk_test" else None.

(** Paystack accepts the initialisation and returns the reference it was given. *)
Definition fetch (rq : http_request) : fetch_result :=
  FetchResponse {| rs_status := 200; rs_json := Ok (JObj [("data", JObj
    [("reference", JStr "pi_key-1"); ("authorization_url", JStr "https://pay/1")])]) |}.

Definition input : InitiatePaymentInput :=
  {| ipi_idempotencyKey := "key-1"; ipi_eventId := "ev"; ipi_provider := PAYSTACK;
     ipi_customerPhone := None |}.
Definition ck : clock := {| app_now := 1000; db_now := 1000 |}.
Definition who (u : string) : option RequestContextValue := Some (context_for u "corr-0001").

#[export] Instance crypto : Crypto := plain_crypto.

Definition run (newId : string) (meanwhile : world -> world) (fault : option error)
    (u : string) : op PaymentIntentView :=
  initiatePayment fetch cfg lc newId meanwhile fault ck (who u) input.

Definition nothing (w : world) : world := w.

Definition w1 : world := (run "int-1" nothing None "alice" w0).2.
Definition intent : option payment_intent := payment_intents (intents w1) !! "int-1".

Example initiated : pi_status <$> intent = Some INITIATED /\ pi_amountMinor <$> intent = Some 5000.
Proof. split; vm_run. Qed.

Lemma keyed_empty : keyed pi_id (payment_intents (intents w0)).
Proof.
  intros k p Hk. change ((∅ : gmap string payment_intent) !! k = Some p) in Hk.
  by rewrite lookup_empty in Hk.
Qed.

End InitiationExample.

(* ------------------------------------------------------------------ *)
(** ** Properties                                                       *)

(** C12: A payment request that nobody interferes with settles its intent.  Either no intent
    changes (a guard refused it, or it was a replay), or exactly one intent of
    this buyer and key does: it carries the published event's own price (or the
    terms of the failed attempt it retries), and it ends INITIATED with the call
    succeeding, or INITIATION_FAILED with the failure code of the error thrown;
    it is never left pending. *)
Theorem initiatePayment_settles `{Crypto} fetch cfg lc newId fault ck ctx input w
    (Hkeyed : keyed pi_id (payment_intents (intents w))) :
  let run := initiatePayment fetch cfg lc newId (fun w => w) fault ck ctx input w in
  payment_intents (intents run.2) = payment_intents (intents w) \/
  exists buyer ev price p, may_initiate lc ctx input buyer ev price w /\
    touched input buyer p w run.2 /\ priced ev price p w /\
    match run.1 with
    | Ok v => pi_status p = INITIATED /\ v = toView p
    | Err e => pi_status p = INITIATION_FAILED /\ pi_failureCode p = Some (resolveFailureCode e)
    end.
Proof.
  pose proof (initiatePayment_wp fetch cfg lc newId fault ck ctx input w Hkeyed) as Hwp.
  unfold wp in Hwp. cbn zeta.
  by destruct (initiatePayment fetch cfg lc newId (fun w => w) fault ck ctx input w) as [[v | e] w'].
Qed.

Lemma initiatePayment_settles_witness :
  payment_intents (intents InitiationExample.w1) = payment_intents (intents InitiationExample.w0) \/
  exists p, pi_status p = INITIATED /\
    payment_intents (intents InitiationExample.w1) =
      <[pi_id p := p]> (payment_intents (intents InitiationExample.w0)).
Proof.
  pose proof (initiatePayment_settles (H := plain_crypto) InitiationExample.fetch
    InitiationExample.cfg InitiationExample.lc "int-1" None InitiationExample.ck
    (InitiationExample.who "alice") InitiationExample.input InitiationExample.w0
    InitiationExample.keyed_empty) as Hs.
  cbn zeta in Hs. destruct Hs as [Hs | (buyer & ev & price & p & _ & Ht & _ & Hv)].
  - left. exact Hs.
  - right. exists p. split; [| exact (proj1 Ht)].
    assert (E : exists v, (initiatePayment (H := plain_crypto) InitiationExample.fetch
      InitiationExample.cfg InitiationExample.lc "int-1" (fun w => w) None InitiationExample.ck
      (InitiationExample.who "alice") InitiationExample.input InitiationExample.w0).1 = Ok v).
    { eexists. vm_compute. reflexivity. }
    destruct E as [v E]. rewrite E in Hv. exact (proj1 Hv).
Defined.

(** Replaying an initiation is safe.  While the buyer's intent for the key is in any state
    but INITIATION_FAILED, a further request with that key changes no intent,
    does not depend on the provider, on what else runs or on the id it would
    give (so the provider is not called), and can only return the stored intent,
    and only for the same request. *)
Theorem initiatePayment_replay `{Crypto} fetch cfg lc newId meanwhile fault ck ctx input w userId buyer p
    (Hactor : actor_of ctx = Some userId) (Hbuyer : users (catalog w) !! userId = Some buyer)
    (Hintent : find_row (is_initiation (user_id buyer) PAYMENT_INITIATION_IDEMPOTENCY_USE_CASE
                 (sha256 (ipi_idempotencyKey input))) (payment_intents (intents w)) = Some p)
    (Hlive : pi_status p <> INITIATION_FAILED) :
  let run := initiatePayment fetch cfg lc newId meanwhile fault ck ctx input w in
  payment_intents (intents run.2) = payment_intents (intents w) /\
  (forall v, run.1 = Ok v ->
     v = toView p /\ pi_requestFingerprintHash p = initiation_fingerprint input) /\
  (forall fetch2 newId2 meanwhile2 fault2,
     initiatePayment fetch2 cfg lc newId2 meanwhile2 fault2 ck ctx input w = run).
Proof.
  cbn zeta.
  assert (Hmay : forall b ev price, may_initiate lc ctx input b ev price w -> b = buyer).
  { intros b ev price [(u & Hu & Hb) _ _ _ _]. congruence. }
  assert (Hwp : wp (initiatePayment fetch cfg lc newId meanwhile fault ck ctx input)
    (fun v w' => payment_intents (intents w') = payment_intents (intents w) /\
       v = toView p /\ pi_requestFingerprintHash p = initiation_fingerprint input)
    (fun _ w' => payment_intents (intents w') = payment_intents (intents w)) w).
  { apply initiate_guards; [done |]. intros b ev price Hm. apply Hmay in Hm as ->. wp_step.
    eapply wp_mono; [by apply (claim_existing _ _ _ _ _ p) | | by intros e w' ->].
    by intros a w' (-> & Hw' & Hfp). }
  unfold wp in Hwp. split_and!.
  - by destruct (initiatePayment _ _ _ _ _ _ _ _ _ _) as [[v | e] w']; [apply Hwp |].
  - intros v Hv. destruct (initiatePayment _ _ _ _ _ _ _ _ _ _) as [[v' | e] w']; [| done].
    cbn in Hv. injection Hv as <-. apply Hwp.
  - intros fetch2 newId2 meanwhile2 fault2. unfold initiatePayment.
    apply bind_ext. intros u w1 Hu. rewrite Hactor in Hu. cbn in Hu. injection Hu as <- <-.
    apply bind_ext. intros fb w1 Hfb. cbn in Hfb. injection Hfb as <- <-.
    apply bind_ext. intros b w1 Hb. rewrite Hbuyer in Hb. cbn in Hb. injection Hb as <- <-.
    do 2 (apply bind_ext; intros [] w1 Hg; apply throw_if_same in Hg as ->).
    apply bind_ext. intros fe w1 Hfe. cbn in Hfe. injection Hfe as <- <-.
    apply bind_ext. intros el w1 Hel. apply assertEventEligible_same in Hel as ->.
    apply bind_ext. intros [] w1 Hp.
    pose proof (assertPaymentInitiationAllowed_reads_only lc
      (toSupportedProvider (ipi_provider input)) (ev_id el.1) (ev_priceCurrency el.1) w) as Hro.
    rewrite Hp in Hro. cbn in Hro. subst w1.
    unfold bind. rewrite (claim_existing_newId newId2 newId _ _ _ _ p) by done.
    pose proof (claim_existing newId buyer el.1 el.2 input p w Hintent Hlive) as Hc. unfold wp in Hc.
    destruct (transaction _ w) as [[a | e] w2]; [| done]. by destruct Hc as (-> & _).
Qed.

Lemma initiatePayment_replay_witness :
  payment_intents (intents (InitiationExample.run "int-2" InitiationExample.nothing None "alice"
    InitiationExample.w1).2) = payment_intents (intents InitiationExample.w1).
Proof.
  pose (p := default (with_state {| is_status := FAILED; is_checkoutUrl := None;
    is_accessCode := None; is_rawResponse := JNull; is_failureCode := None;
    is_failureMessage := None; is_initiatedAt := None; is_verifiedAt := None; is_failedAt := None;
    is_verifiedStatus := None; is_verifiedAmount := None; is_verifiedCurrency := None;
    is_verificationRaw := JNull |}
    {| pi_id := ""; pi_buyerUserId := ""; pi_organizerId := ""; pi_eventId := "";
       pi_provider := PAYSTACK; pi_status := FAILED; pi_amountMinor := 0; pi_currency := "";
       pi_idempotencyUseCase := ""; pi_idempotencyKeyHash := ""; pi_requestFingerprintHash := "";
       pi_providerReference := ""; pi_providerCheckoutUrl := None; pi_providerAccessCode := None;
       pi_providerRawResponse := JNull; pi_failureCode := None; pi_failureMessage := None;
       pi_initiatedAt := None; pi_verifiedAt := None; pi_failedAt := None;
       pi_providerVerifiedStatus := None; pi_providerVerifiedAmount := None;
       pi_providerVerifiedCurrency := None; pi_providerVerificationRaw := JNull |})
    InitiationExample.intent).
  refine (proj1 (initiatePayment_replay (H := plain_crypto) InitiationExample.fetch
    InitiationExample.cfg InitiationExample.lc "int-2" InitiationExample.nothing None
    InitiationExample.ck (InitiationExample.who "alice") InitiationExample.input
    InitiationExample.w1 "alice" InitiationExample.alice p _ _ _ _)).
  - reflexivity.
  - vm_run.
  - vm_run.
  - assert (E : pi_status p = INITIATED) by vm_run. rewrite E. done.
Defined.

(** When the provider accepted the payment but the local update failed, the failure code
    written for that case does not survive: the outer handler records the
    InternalServerErrorException over it, and the intent ends with the generic
    PAYMENT_INITIATION_FAILED and the audit trail of an ordinary failure. *)
Theorem persistence_failure_code_lost :
  let run := InitiationExample.run "int-1" InitiationExample.nothing
               (Some (OtherError "Error" "connection lost")) "alice" InitiationExample.w0 in
  run.1 = Err (InternalServerErrorException
                 "Payment provider initiation succeeded but local persistence failed.") /\
  pi_failureCode <$> payment_intents (intents run.2) !! "int-1" =
    Some (Some "PAYMENT_INITIATION_FAILED") /\
  ia_eventType <$> intent_audits (intents run.2) =
    ["payment_initiation_requested"; "payment_initiation_provider_created_db_update_failed";
     "payment_initiation_failed"].
Proof. split_and!; vm_run. Qed.

(** The provider reference is derived from the idempotency key alone, so two buyers who
    choose the same key collide on its unique index: the second buyer's request
    ends in the unhandled P2002, answered with status 500. *)
Theorem provider_reference_collides :
  let run := InitiationExample.run "int-2" InitiationExample.nothing None "bob"
               InitiationExample.w1 in
  run.1 = Err unique_violation /\ exception_status unique_violation = 500 /\
  payment_intents (intents run.2) !! "int-2" = None.
Proof. split_and!; vm_run. Qed.
