(* ===== verification/Webhooks.v ===== *)
(** Webhooks.v: provider webhooks and payment verification
    (src/src/modules/payments/application/payment-verification.service.ts and the
    webhook event repository). *)

From S2P Require Import Prelude Errors Values Hashing Store Context Providers Payments PaymentIntents.

Local Open Scope Z_scope.

(* ------------------------------------------------------------------ *)
(** ** PrismaProviderWebhookEventRepository                             *)

Definition createWebhookRow (e : webhook_event) : op webhook_event :=
  do* create webhook_events_t e in ret e.

Definition findByProviderAndEventId (provider : PaymentProvider) (eventId : string)
  : op (option webhook_event) :=
  findFirst webhook_events_t (fun e =>
    bool_decide (we_provider e = provider) && bool_decide (we_providerEventId e = eventId)).

Definition findByProviderAndPayloadHash (provider : PaymentProvider) (payloadHash : string)
  : op (option webhook_event) :=
  findFirst webhook_events_t (fun e =>
    bool_decide (we_provider e = provider) && bool_decide (we_payloadHash e = payloadHash)).

(** [updateProcessing]: an absent failure leaves the two columns alone; the
    signature and the payload are never passed. *)
Definition updateProcessing (webhookEventId : string) (status : WebhookProcessingStatus)
    (paymentIntentId providerReference : option string) (failure : option (string * string))
    (processedAt : Z) : op webhook_event :=
  update webhook_events_t webhookEventId (fun e =>
    {| we_id := we_id e; we_provider := we_provider e; we_providerEventId := we_providerEventId e;
       we_providerReference := providerReference; we_payloadHash := we_payloadHash e;
       we_signatureValid := we_signatureValid e; we_processingStatus := status;
       we_failureCode := match failure with Some f => Some f.1 | None => we_failureCode e end;
       we_failureMessage := match failure with Some f => Some f.2 | None => we_failureMessage e end;
       we_rawHeaders := we_rawHeaders e; we_rawPayload := we_rawPayload e;
       we_verifiedPayload := we_verifiedPayload e; we_paymentIntentId := paymentIntentId;
       we_processedAt := Some processedAt |}).

(* ------------------------------------------------------------------ *)
(** ** PaymentVerificationService: envelopes                            *)

Record PaymentWebhookInput : Type := {
  pwi_provider : SupportedPaymentProvider;
  pwi_rawBody : string;
  pwi_parsedBody : jsval;
  pwi_headers : list (string * header)
}.

(** [PaymentWebhookResult]; [acknowledged] is always true. *)
Record PaymentWebhookResult : Type := {
  pwr_paymentIntentId : option string;
  pwr_processingStatus : WebhookProcessingStatus
}.

Record ParsedWebhookEnvelope : Type := {
  env_provider : PaymentProvider;
  env_payloadHash : string;
  env_rawPayload : string;
  env_rawHeaders : json;
  env_providerEventId : string;
  env_providerReference : option string;
  env_eventType : option string;
  env_signatureValid : option bool;
  env_verifiedPayload : json;
  env_supported : bool
}.

(** [assertRecord] *)
Definition assertRecord (v : jsval) : op (list (string * json)) :=
  match v with
  | Some (JObj fs) => ret fs
  | _ => throw (BadRequestException "Webhook payload must be a JSON object.")
  end.

(** [assertOptionalRecord] *)
Definition assertOptionalRecord (v : jsval) : op (option (list (string * json))) :=
  if negb (js_truthy v) then ret None
  else match v with
       | Some (JObj fs) => ret (Some fs)
       | _ => throw (BadRequestException "Webhook payload data must be a JSON object.")
       end.

(** [typeof v === 'string' || typeof v === 'number' ? String(v) : null] *)
Definition string_or_number (v : jsval) : option string :=
  match v with
  | Some (JStr s) => Some s
  | Some (JNum z) => Some (pretty z)
  | Some (JFloat r) => Some r
  | _ => None
  end.

Definition parsePaystackEnvelope (parsedBody : jsval) (payloadHash rawPayload : string)
    (rawHeaders : json) : op ParsedWebhookEnvelope :=
  let* body := assertRecord parsedBody in
  let* data := assertOptionalRecord (field "data" body) in
  let get k := data ≫= field k in
  let eventType := string_of (field "event" body) in
  ret {| env_provider := PAYSTACK; env_payloadHash := payloadHash; env_rawPayload := rawPayload;
         env_rawHeaders := rawHeaders;
         env_providerEventId := default ("payload:" +:+ payloadHash) (string_or_number (get "id"));
         env_providerReference := string_of (get "reference"); env_eventType := eventType;
         env_signatureValid := Some true; env_verifiedPayload := JObj body;
         env_supported := bool_decide (eventType = Some "charge.success") ||
                          bool_decide (eventType = Some "charge.failed") |}.

Definition parseMomoEnvelope (parsedBody : jsval) (payloadHash rawPayload : string)
    (rawHeaders : json) : op ParsedWebhookEnvelope :=
  let* body := assertRecord parsedBody in
  ret {| env_provider := MTN_MOMO; env_payloadHash := payloadHash; env_rawPayload := rawPayload;
         env_rawHeaders := rawHeaders; env_providerEventId := "payload:" +:+ payloadHash;
         env_providerReference := string_of (field "referenceId" body);
         env_eventType := string_of (field "status" body); env_signatureValid := None;
         env_verifiedPayload := JObj body; env_supported := true |}.

(* ------------------------------------------------------------------ *)
(** ** PaymentVerificationService: processing                           *)

Definition isDuplicateError (e : error) : bool := is_unique_violation e.

Definition webhook_row (newId : string) (env : ParsedWebhookEnvelope)
    (paymentIntentId : option string) : webhook_event :=
  {| we_id := newId; we_provider := env_provider env; we_providerEventId := env_providerEventId env;
     we_providerReference := env_providerReference env; we_payloadHash := env_payloadHash env;
     we_signatureValid := env_signatureValid env; we_processingStatus := WH_RECEIVED;
     we_failureCode := None; we_failureMessage := None; we_rawHeaders := env_rawHeaders env;
     we_rawPayload := env_rawPayload env; we_verifiedPayload := env_verifiedPayload env;
     we_paymentIntentId := paymentIntentId; we_processedAt := None |}.

(** [createWebhookEvent]: whether the event is new, and its row. *)
Definition createWebhookEvent (newId : string) (env : ParsedWebhookEnvelope)
    (intent : option payment_intent) : op (bool * webhook_event) :=
  catch
    (let* e := createWebhookRow (webhook_row newId env (pi_id <$> intent)) in ret (true, e))
    (fun e =>
       do* throw_if (negb (isDuplicateError e)) e in
       let* byHash := findByProviderAndPayloadHash (env_provider env) (env_payloadHash env) in
       let* existing := match byHash with
                        | Some x => ret (Some x)
                        | None => findByProviderAndEventId (env_provider env)
                                    (env_providerEventId env)
                        end in
       let* x := or_throw existing e in
       ret (false, x)).

Definition persistRejectedSignatureEvent (newId : string) (now : Z) (payloadHash rawPayload : string)
    (rawHeaders : json) (failureMessage : string) : op unit :=
  catch
    (do* create webhook_events_t
       {| we_id := newId; we_provider := PAYSTACK; we_providerEventId := "payload:" +:+ payloadHash;
          we_providerReference := None; we_payloadHash := payloadHash;
          we_signatureValid := Some false; we_processingStatus := WH_REJECTED;
          we_failureCode := Some "INVALID_SIGNATURE"; we_failureMessage := Some failureMessage;
          we_rawHeaders := rawHeaders; we_rawPayload := rawPayload; we_verifiedPayload := JNull;
          we_paymentIntentId := None; we_processedAt := Some now |} in ret tt)
    (fun e => throw_if (negb (isDuplicateError e)) e).

(** [rejectWebhook] *)
Definition rejectWebhook (now : Z) (e : webhook_event) (intent : option payment_intent)
    (failureCode failureMessage : string) (audit : option (string * json)) : op unit :=
  transaction (
    do* updateProcessing (we_id e) WH_REJECTED (pi_id <$> intent)
          (nullish (pi_providerReference <$> intent) (we_providerReference e))
          (Some (failureCode, failureMessage)) now in
    match intent, audit with
    | Some p, Some a => appendIntentAudit (pi_id p) (pi_buyerUserId p) a.1 a.2
    | _, _ => ret tt
    end).

(** [markWebhookProcessed] *)
Definition markWebhookProcessed (now : Z) (e : webhook_event) (intent : option payment_intent)
    (audit : string * json) : op unit :=
  transaction (
    do* updateProcessing (we_id e) WH_PROCESSED (pi_id <$> intent)
          (nullish (pi_providerReference <$> intent) (we_providerReference e)) None now in
    match intent with
    | Some p => appendIntentAudit (pi_id p) (pi_buyerUserId p) audit.1 audit.2
    | None => ret tt
    end).

Definition handleDuplicateDelivery (e : webhook_event) (intent : option payment_intent)
    (env : ParsedWebhookEnvelope) : op PaymentWebhookResult :=
  let* duplicateIntent :=
    match intent, truthy (we_paymentIntentId e) with
    | Some p, _ => ret (Some p)
    | None, Some id => findIntentById id
    | None, None => ret None
    end in
  do* match duplicateIntent with
      | Some p => appendIntentAudit (pi_id p) (pi_buyerUserId p) "payment_webhook_duplicate"
          (JObj [("provider", JStr (provider_name (env_provider env)));
                 ("providerEventId", JStr (env_providerEventId env));
                 ("payloadHash", JStr (env_payloadHash env))])
      | None => ret tt
      end in
  ret {| pwr_paymentIntentId := pi_id <$> duplicateIntent; pwr_processingStatus := WH_DUPLICATE |}.

Definition resolveVerificationFailureCode (e : error) : string :=
  match e with
  | ProviderTimeoutError _ _ => "PROVIDER_VERIFICATION_TIMEOUT"
  | ProviderResponseError _ code _ _ => code
  | ProviderAuthError _ _ => "PROVIDER_VERIFICATION_AUTH_ERROR"
  | ProviderNetworkError _ _ => "PROVIDER_VERIFICATION_NETWORK_ERROR"
  | _ => "PROVIDER_VERIFICATION_FAILED"
  end.

Definition handleVerificationError (now : Z) (e : webhook_event) (p : payment_intent) (err : error)
  : op PaymentWebhookResult :=
  let failureCode := resolveVerificationFailureCode err in
  do* transaction (
    do* updateProcessing (we_id e) WH_FAILED (Some (pi_id p)) (Some (pi_providerReference p))
          (Some (failureCode, message err)) now in
    appendIntentAudit (pi_id p) (pi_buyerUserId p) "payment_verification_failed"
      (JObj [("provider", JStr (provider_name (pi_provider p)));
             ("providerReference", JStr (pi_providerReference p));
             ("failureCode", JStr failureCode); ("failureMessage", JStr (message err))])) in
  ret {| pwr_paymentIntentId := Some (pi_id p); pwr_processingStatus := WH_FAILED |}.

(** The two targets of [applyTerminalTransition]. *)
Inductive TerminalStatus : Type := ToVerified | ToFailed.

Definition target_text (t : TerminalStatus) : string :=
  match t with ToVerified => "VERIFIED" | ToFailed => "FAILED" end.

Definition transition_reason (p : payment_intent) (t : TerminalStatus) : json :=
  if bool_decide (pi_status p = INITIATION_PENDING)
  then match t with
       | ToVerified => JStr "provider_verified_success_from_pending_local_state"
       | ToFailed => JStr "provider_verified_failure_from_pending_local_state"
       end
  else JNull.

Definition applyTerminalTransition (now : Z) (p : payment_intent) (e : webhook_event)
    (v : ProviderVerificationResult) (target : TerminalStatus) : op PaymentWebhookResult :=
  transaction (
    let* transitionCount :=
      match target with
      | ToVerified => transitionToVerified (pi_id p) now v
      | ToFailed => transitionToFailed (pi_id p) now "PROVIDER_PAYMENT_FAILED"
                      ("Provider reported " +:+ pv_providerStatus v +:+ ".") v
      end in
    if negb (transitionCount =? 1) then
      let* current := findIntentById (pi_id p) in
      let isAlreadyProcessed :=
        bool_decide (pi_status <$> current = Some VERIFIED) &&
        match target with ToVerified => true | ToFailed => false end in
      do* appendIntentAudit (pi_id p) (pi_buyerUserId p)
            (if isAlreadyProcessed then "payment_status_transition_skipped_already_processed"
             else "payment_status_transition_rejected")
            (JObj [("currentStatus", jstr_or_null (intent_status_text ∘ pi_status <$> current));
                   ("attemptedStatus", JStr (target_text target));
                   ("reason", JStr "status_guard_prevented_duplicate_transition")]) in
      do* updateProcessing (we_id e) WH_PROCESSED (Some (pi_id p)) (Some (pi_providerReference p))
            None now in
      ret {| pwr_paymentIntentId := Some (pi_id p); pwr_processingStatus := WH_PROCESSED |}
    else
      do* appendIntentAudit (pi_id p) (pi_buyerUserId p)
            match target with
            | ToVerified => "payment_verification_succeeded"
            | ToFailed => "payment_verification_failed"
            end
            (JObj [("providerStatus", JStr (pv_providerStatus v));
                   ("providerReference", JStr (pi_providerReference p))]) in
      do* appendIntentAudit (pi_id p) (pi_buyerUserId p)
            match target with
            | ToVerified => "payment_status_transition_verified"
            | ToFailed => "payment_status_transition_failed"
            end
            (JObj [("previousStatus", JStr (intent_status_text (pi_status p)));
                   ("newStatus", JStr (target_text target));
                   ("reason", transition_reason p target)]) in
      do* updateProcessing (we_id e) WH_VERIFIED (Some (pi_id p)) (Some (pi_providerReference p))
            None now in
      ret {| pwr_paymentIntentId := Some (pi_id p); pwr_processingStatus := WH_VERIFIED |}).

(** [verification.amountMinor !== paymentIntent.amountMinor] *)
Definition amount_matches (v : ProviderVerificationResult) (p : payment_intent) : bool :=
  match pv_amountMinor v with
  | Some (JInt z) => z =? pi_amountMinor p
  | _ => false
  end.

Definition json_of_amount (n : option jsnum) : json :=
  match n with Some (JInt z) => JNum z | Some JFrac => JFloat "fraction" | None => JNull end.

Definition handleVerificationResult (now : Z) (e : webhook_event) (p : payment_intent)
    (v : ProviderVerificationResult) : op PaymentWebhookResult :=
  let rejected := {| pwr_paymentIntentId := Some (pi_id p); pwr_processingStatus := WH_REJECTED |} in
  if negb (bool_decide (pv_providerReference v = pi_providerReference p)) then
    do* rejectWebhook now e (Some p) "PAYMENT_VERIFICATION_REFERENCE_MISMATCH"
          "Provider verification reference did not match payment intent reference."
          (Some ("payment_verification_reference_mismatch",
             JObj [("expectedReference", JStr (pi_providerReference p));
                   ("actualReference", JStr (pv_providerReference v));
                   ("providerStatus", JStr (pv_providerStatus v))])) in
    ret rejected
  else if negb (amount_matches v p) then
    do* rejectWebhook now e (Some p) "PAYMENT_VERIFICATION_AMOUNT_MISMATCH"
          "Provider verification amount did not match payment intent amount."
          (Some ("payment_verification_amount_mismatch",
             JObj [("expectedAmountMinor", JNum (pi_amountMinor p));
                   ("actualAmountMinor", json_of_amount (pv_amountMinor v));
                   ("providerStatus", JStr (pv_providerStatus v))])) in
    ret rejected
  else if negb (bool_decide (pv_currency v = Some (pi_currency p))) then
    do* rejectWebhook now e (Some p) "PAYMENT_VERIFICATION_CURRENCY_MISMATCH"
          "Provider verification currency did not match payment intent currency."
          (Some ("payment_verification_currency_mismatch",
             JObj [("expectedCurrency", JStr (pi_currency p));
                   ("actualCurrency", jstr_or_null (pv_currency v));
                   ("providerStatus", JStr (pv_providerStatus v))])) in
    ret rejected
  else
    match pv_status v with
    | PV_SUCCESS => applyTerminalTransition now p e v ToVerified
    | PV_FAILED => applyTerminalTransition now p e v ToFailed
    | PV_PENDING | PV_UNKNOWN =>
        do* markWebhookProcessed now e (Some p)
              ("payment_verification_pending",
               JObj [("providerStatus", JStr (pv_providerStatus v));
                     ("providerReference", JStr (pi_providerReference p))]) in
        ret {| pwr_paymentIntentId := Some (pi_id p); pwr_processingStatus := WH_PROCESSED |}
    end.

Section Webhooks.
Context `{Crypto} (fetch : http_request -> fetch_result) (cfg : string -> option string).

(** [processEnvelope].  [meanwhile] is what other requests do while the provider
    is awaited. *)
Definition processEnvelope (newId : string) (meanwhile : world -> world) (now : Z)
    (env : ParsedWebhookEnvelope) : op PaymentWebhookResult :=
  let* intent := match truthy (env_providerReference env) with
                 | Some ref => findByProviderReference ref
                 | None => ret None
                 end in
  let* created := createWebhookEvent newId env intent in
  let e := created.2 in
  if negb created.1 then handleDuplicateDelivery e intent env
  else
    do* match intent with
        | Some p => appendIntentAudit (pi_id p) (pi_buyerUserId p) "payment_webhook_received"
            (JObj [("provider", JStr (provider_name (env_provider env)));
                   ("providerEventId", JStr (env_providerEventId env));
                   ("providerReference", jstr_or_null (env_providerReference env));
                   ("processingStatus", JStr "RECEIVED")])
        | None => ret tt
        end in
    if negb (env_supported env) then
      do* markWebhookProcessed now e intent
            ("payment_webhook_unsupported_event_ignored",
             JObj [("eventType", jstr_or_null (env_eventType env));
                   ("providerReference", jstr_or_null (env_providerReference env))]) in
      ret {| pwr_paymentIntentId := pi_id <$> intent; pwr_processingStatus := WH_PROCESSED |}
    else
      match truthy (env_providerReference env) with
      | None =>
          do* rejectWebhook now e intent "MISSING_PROVIDER_REFERENCE"
                "Webhook payload did not include a provider reference." None in
          ret {| pwr_paymentIntentId := None; pwr_processingStatus := WH_REJECTED |}
      | Some ref =>
          match intent with
          | None =>
              do* rejectWebhook now e intent "PAYMENT_INTENT_NOT_FOUND"
                    "Payment intent could not be found for the provider reference." None in
              ret {| pwr_paymentIntentId := None; pwr_processingStatus := WH_REJECTED |}
          | Some p =>
              if negb (bool_decide (pi_provider p = env_provider env)) then
                do* rejectWebhook now e intent "PROVIDER_MISMATCH"
                      "Webhook provider does not match payment intent provider."
                      (Some ("payment_verification_provider_mismatch",
                         JObj [("expectedProvider", JStr (provider_name (pi_provider p)));
                               ("actualProvider", JStr (provider_name (env_provider env)));
                               ("providerReference", JStr (pi_providerReference p))])) in
                ret {| pwr_paymentIntentId := Some (pi_id p); pwr_processingStatus := WH_REJECTED |}
              else
                do* appendIntentAudit (pi_id p) (pi_buyerUserId p) "payment_verification_started"
                      (JObj [("provider", JStr (provider_name (pi_provider p)));
                             ("providerReference", JStr (pi_providerReference p));
                             ("webhookEventId", JStr (we_id e))]) in
                fun w =>
                  match awaiting meanwhile (verifyByReference fetch cfg (env_provider env) ref) w with
                  | (Ok v, w') => handleVerificationResult now e p v w'
                  | (Err err, w') => handleVerificationError now e p err w'
                  end
          end
      end.

(** [handleWebhook] *)
Definition handleWebhook (newId : string) (meanwhile : world -> world) (ck : clock)
    (input : PaymentWebhookInput) : op PaymentWebhookResult :=
  let payloadHash := computePayloadHash (pwi_rawBody input) in
  let rawPayload := pwi_rawBody input in
  let rawHeaders := toJsonHeaders (pwi_headers input) in
  match pwi_provider input with
  | paystack =>
      let* secret := getOrThrow cfg "PAYSTACK_SECRET_KEY" in
      match validatePaystackSignature (pwi_rawBody input) (pwi_headers input) secret with
      | Some failureMessage =>
          do* persistRejectedSignatureEvent newId (app_now ck) payloadHash rawPayload rawHeaders
                failureMessage in
          throw (WebhookSignatureError "paystack" failureMessage)
      | None =>
          let* env := parsePaystackEnvelope (pwi_parsedBody input) payloadHash rawPayload rawHeaders in
          processEnvelope newId meanwhile (app_now ck) env
      end
  | momo =>
      let* env := parseMomoEnvelope (pwi_parsedBody input) payloadHash rawPayload rawHeaders in
      processEnvelope newId meanwhile (app_now ck) env
  end.

(** [PaymentWebhooksController]: the raw body is required. *)
Definition payment_webhook (newId : string) (meanwhile : world -> world) (ck : clock)
    (provider : SupportedPaymentProvider) (rawBody : option string) (parsedBody : jsval)
    (headers : list (string * header)) : op PaymentWebhookResult :=
  let* raw := or_throw rawBody
      (BadRequestException "Raw request body is required for webhook verification.") in
  handleWebhook newId meanwhile ck
    {| pwi_provider := provider; pwi_rawBody := raw; pwi_parsedBody := parsedBody;
       pwi_headers := headers |}.

End Webhooks.

(* ------------------------------------------------------------------ *)
(** ** What a webhook can do to the intents                             *)

Definition the_intents (w : world) : gmap string payment_intent := payment_intents (intents w).

Definition reached (t : TerminalStatus) : PaymentIntentStatus :=
  match t with ToVerified => VERIFIED | ToFailed => FAILED end.

(** The provider's word that settles [p] as [t]. *)
Definition settles_as (v : ProviderVerificationResult) (p : payment_intent) (t : TerminalStatus)
  : Prop :=
  pv_provider v = pi_provider p /\
  pv_providerReference v = pi_providerReference p /\ amount_matches v p = true /\
  pv_currency v = Some (pi_currency p) /\
  pv_status v = match t with ToVerified => PV_SUCCESS | ToFailed => PV_FAILED end.

(** From [base], nothing changes or one waiting intent is settled by [v]. *)
Definition settled_from (v : ProviderVerificationResult) (base after : gmap string payment_intent)
  : Prop :=
  after = base \/
  exists p p' t, base !! pi_id p = Some p /\ awaiting_payment p = true /\ same_terms p p' /\
    pi_status p' = reached t /\ settles_as v p t /\ after = <[pi_id p := p']> base.

Lemma settles_as_terms v p q t : same_terms p q -> settles_as v p t -> settles_as v q t.
Proof. intros [s ->] H. exact H. Qed.

Lemma same_terms_id p q : same_terms p q -> pi_id q = pi_id p.
Proof. by intros [s ->]. Qed.

Lemma applyTerminalTransition_wp now p p0 e v t w :
  the_intents w !! pi_id p = Some p0 -> same_terms p p0 -> settles_as v p t ->
  wp (applyTerminalTransition now p e v t)
     (fun _ w' => settled_from v (the_intents w) (the_intents w')) (fun _ w' => w' = w) w.
Proof.
  intros Hp Hsame Hv. unfold the_intents in *. pose proof (same_terms_id _ _ Hsame) as Hid.
  apply (settles_as_terms _ _ _ _ Hsame) in Hv.
  destruct t; wp_go; try done; try (by left).
  - right. same_row Hp. exists p0. eexists. exists ToVerified. rewrite Hid.
    split_and!; try done; [by eexists | done].
  - right. same_row Hp. exists p0. eexists. exists ToFailed. rewrite Hid.
    split_and!; try done; [by eexists | done].
Qed.

(** A step that leaves the intents alone. *)
Lemma wp_keeps_intents {A} (m : op A) w (Q : gmap string payment_intent -> Prop) :
  wp m (fun _ w' => the_intents w' = the_intents w) (fun _ w' => the_intents w' = the_intents w) w ->
  Q (the_intents w) ->
  wp m (fun _ w' => Q (the_intents w')) (fun _ w' => Q (the_intents w')) w.
Proof. intros Hm HQ. eapply wp_mono; [exact Hm | |]; cbn; intros ? ? ->; exact HQ. Qed.

(** Run a method that never touches the intents. *)
Ltac intents_same := unfold the_intents; wp_go; done.

Lemma handleVerificationResult_wp now e p p0 v w :
  the_intents w !! pi_id p = Some p0 -> same_terms p p0 -> pv_provider v = pi_provider p ->
  wp (handleVerificationResult now e p v)
     (fun _ w' => settled_from v (the_intents w) (the_intents w'))
     (fun _ w' => settled_from v (the_intents w) (the_intents w')) w.
Proof.
  intros Hp Hs Hprov. unfold handleVerificationResult. cbv zeta.
  destruct (bool_decide (pv_providerReference v = pi_providerReference p)) eqn:H1; cbn [negb];
    [| apply wp_keeps_intents; [intents_same | by left]].
  destruct (amount_matches v p) eqn:H2; cbn [negb];
    [| apply wp_keeps_intents; [intents_same | by left]].
  destruct (bool_decide (pv_currency v = Some (pi_currency p))) eqn:H3; cbn [negb];
    [| apply wp_keeps_intents; [intents_same | by left]].
  apply bool_decide_eq_true in H1, H3.
  destruct (pv_status v) eqn:H4; [| | apply wp_keeps_intents; [intents_same | by left] ..].
  - eapply wp_mono; [apply (applyTerminalTransition_wp now p p0 e v ToVerified) | done |];
      try done. intros err w' ->. by left.
  - eapply wp_mono; [apply (applyTerminalTransition_wp now p p0 e v ToFailed) | done |];
      try done. intros err w' ->. by left.
Qed.

(** Other requests change the state of intents, never their terms. *)
Definition keeps_terms (meanwhile : world -> world) : Prop :=
  forall w k p, the_intents w !! k = Some p ->
    exists p', the_intents (meanwhile w) !! k = Some p' /\ same_terms p p'.

(** The outcome of an envelope: nothing, or the provider was asked about the
    reference of a waiting intent and its answer settled it. *)
Definition envelope_effect `{Crypto} fetch cfg (meanwhile : world -> world)
    (env : ParsedWebhookEnvelope) (w w' : world) : Prop :=
  the_intents w' = the_intents w \/
  exists w1 ref, the_intents w1 = the_intents w /\ env_providerReference env = Some ref /\
    (the_intents w' = the_intents (meanwhile w1) \/
     exists v, verifyByReference fetch cfg (env_provider env) ref w1 = (Ok v, w1) /\
       settled_from v (the_intents (meanwhile w1)) (the_intents w')).

Section WebhookLemmas.
Context `{Crypto} (fetch : http_request -> fetch_result) (cfg : string -> option string).

Lemma createWebhookEvent_wp newId env intent w :
  wp (createWebhookEvent newId env intent)
     (fun _ w' => the_intents w' = the_intents w) (fun _ w' => the_intents w' = the_intents w) w.
Proof. unfold createWebhookEvent. intents_same. Qed.

Lemma processEnvelope_wp newId meanwhile now env w :
  keyed pi_id (the_intents w) -> keeps_terms meanwhile ->
  wp (processEnvelope fetch cfg newId meanwhile now env)
     (fun _ w' => envelope_effect fetch cfg meanwhile env w w')
     (fun _ w' => envelope_effect fetch cfg meanwhile env w w') w.
Proof.
  intros Hk Hm. unfold processEnvelope. wp_step.
  set (found := match truthy (env_providerReference env) with
                | Some ref => find_row (fun p => bool_decide (pi_providerReference p = ref)) (the_intents w)
                | None => None end).
  assert (Hfind : wp (match truthy (env_providerReference env) with
                      | Some ref => findByProviderReference ref
                      | None => ret None end)
    (fun i w' => w' = w /\ i = found) (fun _ _ => False) w).
  { unfold found. destruct (truthy _); [| done]. unfold findByProviderReference. wp_go. done. }
  eapply wp_mono; [exact Hfind | | by intros]. intros intent w0 [-> ->]. clear Hfind. wp_step.
  eapply wp_mono; [apply createWebhookEvent_wp | | by left].
  intros [new e] w1 Hw1. cbn [fst snd].
  assert (Hnothing : forall w', the_intents w' = the_intents w1 -> envelope_effect fetch cfg meanwhile env w w').
  { intros w' Hw'. left. by rewrite Hw', Hw1. }
  destruct (negb new).
  { apply (wp_mono _ (fun _ w' => the_intents w' = the_intents w1) _
      (fun _ w' => the_intents w' = the_intents w1)); [| auto | auto].
    unfold handleDuplicateDelivery. intents_same. }
  wp_step. apply (wp_mono _ (fun _ w' => the_intents w' = the_intents w1) _
    (fun _ w' => the_intents w' = the_intents w1)); [intents_same | | auto].
  intros [] w2 Hw2.
  assert (Hnothing2 : forall A (m : op A),
    wp m (fun _ w' => the_intents w' = the_intents w2) (fun _ w' => the_intents w' = the_intents w2) w2 ->
    wp m (fun _ w' => envelope_effect fetch cfg meanwhile env w w')
         (fun _ w' => envelope_effect fetch cfg meanwhile env w w') w2).
  { intros A m Hwp. eapply wp_mono; [exact Hwp | |]; cbv beta; intros ? w' Hw'; apply Hnothing; congruence. }
  destruct (negb (env_supported env)); [apply Hnothing2; intents_same |].
  destruct (truthy (env_providerReference env)) as [ref |] eqn:Href; [| apply Hnothing2; intents_same].
  apply truthy_Some in Href as [Href _].
  destruct found as [p |] eqn:Hfound; [| apply Hnothing2; intents_same].
  destruct (bool_decide (pi_provider p = env_provider env)) eqn:Hprov; [| apply Hnothing2; intents_same].
  apply bool_decide_eq_true in Hprov. cbn [negb].
  wp_step. apply (wp_mono _ (fun _ w' => the_intents w' = the_intents w2) _
    (fun _ w' => the_intents w' = the_intents w2)); [intents_same | |];
    [| intros err w' Hw'; apply Hnothing; congruence].
  intros [] w3 Hw3. unfold wp, awaiting.
  pose proof (verifyByReference_wp fetch cfg (env_provider env) ref w3) as Hv. unfold wp in Hv.
  destruct (verifyByReference fetch cfg (env_provider env) ref w3) as [[v | err] w4] eqn:Ev;
    destruct Hv as [-> Hv].
  - destruct Hv as (body & _ & Hra). pose proof (ra_provider _ _ _ _ Hra) as Hv. clear Hra.
    apply find_row_Some in Hfound as (k & Hrow & _). pose proof (Hk _ _ Hrow) as <-.
    rewrite <- Hw1, <- Hw2, <- Hw3 in Hrow. destruct (Hm w3 _ _ Hrow) as (p0 & Hp0 & Hs).
    pose proof (handleVerificationResult_wp now e p p0 v _ Hp0 Hs (eq_trans Hv (eq_sym Hprov))) as Hr. unfold wp in Hr.
    destruct (handleVerificationResult now e p v (meanwhile w3)) as [[a | a] w'];
      right; exists w3, ref; (split; [congruence |]); (split; [done |]); right; by exists v.
  - assert (Hr : wp (handleVerificationError now e p err)
      (fun _ w' => the_intents w' = the_intents (meanwhile w3))
      (fun _ w' => the_intents w' = the_intents (meanwhile w3)) (meanwhile w3)) by intents_same.
    unfold wp in Hr. destruct (handleVerificationError now e p err (meanwhile w3)) as [[a | a] w'];
      right; exists w3, ref; (split; [congruence |]); (split; [done |]); by left.
Qed.

End WebhookLemmas.

(** The envelope of a request carries its provider. *)
Lemma parsePaystackEnvelope_wp body h raw hs w :
  wp (parsePaystackEnvelope body h raw hs)
     (fun env w' => w' = w /\ env_provider env = PAYSTACK /\ env_payloadHash env = h)
     (fun _ w' => w' = w) w.
Proof. wp_go; done. Qed.

Lemma parseMomoEnvelope_wp body h raw hs w :
  wp (parseMomoEnvelope body h raw hs)
     (fun env w' => w' = w /\ env_provider env = MTN_MOMO /\ env_payloadHash env = h)
     (fun _ w' => w' = w) w.
Proof. wp_go; done. Qed.

(** The provider of a request, and whether its signature is good. *)
Definition resolveProvider (p : SupportedPaymentProvider) : PaymentProvider :=
  match p with paystack => PAYSTACK | momo => MTN_MOMO end.

Definition signed_by_paystack `{Crypto} (cfg : string -> option string) (input : PaymentWebhookInput)
  : Prop :=
  exists secret, cfg "PAYSTACK_SECRET_KEY" = Some secret /\
    validatePaystackSignature (pwi_rawBody input) (pwi_headers input) secret = None.

(** What a delivery does to the intents: nothing of its own, or it settles one. *)
Definition webhook_effect `{Crypto} fetch cfg (meanwhile : world -> world)
    (input : PaymentWebhookInput) (w w' : world) : Prop :=
  the_intents w' = the_intents w \/
  ((pwi_provider input = paystack -> signed_by_paystack cfg input) /\
   exists w1, the_intents w1 = the_intents w /\
     (the_intents w' = the_intents (meanwhile w1) \/
      exists ref v, verifyByReference fetch cfg (resolveProvider (pwi_provider input)) ref w1 = (Ok v, w1) /\
        settled_from v (the_intents (meanwhile w1)) (the_intents w'))).

Lemma wp_getOrThrow_value cfg key (Q : string -> world -> Prop) (X : error -> world -> Prop) w :
  (forall s, cfg key = Some s -> Q s w) -> (forall e, X e w) -> wp (getOrThrow cfg key) Q X w.
Proof.
  intros HQ HX. unfold getOrThrow. destruct (cfg key) as [[| c s] |] eqn:E; cbn; auto; apply HX.
Qed.

Lemma handleWebhook_wp `{Crypto} fetch cfg newId meanwhile ck input w :
  keyed pi_id (the_intents w) -> keeps_terms meanwhile ->
  wp (handleWebhook fetch cfg newId meanwhile ck input)
     (fun _ w' => webhook_effect fetch cfg meanwhile input w w')
     (fun _ w' => webhook_effect fetch cfg meanwhile input w w') w.
Proof.
  intros Hk Hm. unfold handleWebhook. cbv zeta.
  assert (Heff : forall env w', env_provider env = resolveProvider (pwi_provider input) ->
    (pwi_provider input = paystack -> signed_by_paystack cfg input) ->
    envelope_effect fetch cfg meanwhile env w w' -> webhook_effect fetch cfg meanwhile input w w').
  { intros env w' Henv Hsig [He | (w1 & ref & Hw1 & _ & He)]; [by left | right]. split; [done |].
    exists w1. split; [done |]. destruct He as [He | (v & Hv & Hs)]; [by left | right]. exists ref, v.
    by rewrite <- Henv. }
  destruct (pwi_provider input) eqn:Ep.
  - wp_step. apply wp_getOrThrow_value; [| by left]. intros secret Hsecret.
    destruct (validatePaystackSignature _ _ secret) as [msg |] eqn:Hsig.
    + apply (wp_mono _ (fun _ w' => the_intents w' = the_intents w) _
        (fun _ w' => the_intents w' = the_intents w)); [| by left | by left].
      unfold persistRejectedSignatureEvent. intents_same.
    + wp_step. eapply wp_mono; [apply parsePaystackEnvelope_wp | | intros e w' ->; by left].
      intros env w1 (-> & Henv & _).
      eapply wp_mono; [by apply processEnvelope_wp | |]; intros ? w' He; cbv beta in *;
        (eapply Heff; [exact Henv | intros _; by exists secret | exact He]).
  - wp_step. eapply wp_mono; [apply parseMomoEnvelope_wp | | intros e w' ->; by left].
    intros env w1 (-> & Henv & _).
    eapply wp_mono; [by apply processEnvelope_wp | |]; intros ? w' He; cbv beta in *;
      (eapply Heff; [exact Henv | done | exact He]).
Qed.

(* ------------------------------------------------------------------ *)
(** ** Webhooks to process                                              *)

Module WebhookExample.

Import InitiationExample.

(** Paystack initialises, and reports the transaction as it stands. *)
Definition network (verify : fetch_result) (rq : http_request) : fetch_result :=
  if bool_decide (rq_method rq = "GET") then verify else InitiationExample.fetch rq.

Definition paid : fetch_result :=
  FetchResponse {| rs_status := 200; rs_json := Ok (JObj [("data", JObj
    [("reference", JStr "pi_key-1"); ("status", JStr "success"); ("amount", JNum 5000);
     ("currency", JStr "GHS")])]) |}.

Definition delivery (body : string) : PaymentWebhookInput :=
  {| pwi_provider := paystack; pwi_rawBody := body;
     pwi_parsedBody := Some (JObj [("event", JStr "charge.success");
       ("data", JObj [("id", JNum 77); ("reference", JStr "pi_key-1")])]);
     pwi_headers := [("x-paystack-signature", HOne (hmac512 "sk_test" body))] |}.

Definition deliver (newId : string) (verify : fetch_result) (t : Z) : op PaymentWebhookResult :=
  handleWebhook (network verify) cfg newId nothing {| app_now := t; db_now := t |} (delivery "body").

(** The intent of alice, then the webhook that settles it. *)
Definition w2 : world := (deliver "wh-1" paid 2000 w1).2.

Definition intent_in (w : world) : option (PaymentIntentStatus * option Z) :=
  (fun p => (pi_status p, pi_verifiedAt p)) <$> the_intents w !! "int-1".

Example delivered : (deliver "wh-1" paid 2000 w1).1 =
    Ok {| pwr_paymentIntentId := Some "int-1"; pwr_processingStatus := WH_VERIFIED |} /\
  intent_in w2 = Some (VERIFIED, Some 2000).
Proof. split; vm_run. Qed.

End WebhookExample.

(* ------------------------------------------------------------------ *)
(** ** Properties                                                       *)

Lemma keeps_terms_nothing : keeps_terms InitiationExample.nothing.
Proof. intros w k p Hp. exists p. split; [exact Hp | apply same_terms_refl]. Qed.

Lemma keyed_intents : keyed pi_id (the_intents InitiationExample.w1).
Proof. apply keyed_check. vm_run. Qed.

(** C5: A webhook can only settle a payment the provider confirms.  Whatever the payload says
    and however the delivery ends, it leaves the intents as it (or the requests
    that ran while the provider was asked) found them, or it moves exactly one
    intent, from INITIATED or INITIATION_PENDING, to VERIFIED or FAILED, after
    the answer of its own provider about a reference matched that intent in
    reference, amount and currency and said success or failure; a Paystack
    delivery must also carry a valid signature. *)
Theorem handleWebhook_sound `{Crypto} fetch cfg newId meanwhile ck input w
    (Hkeyed : keyed pi_id (the_intents w)) (Hmeanwhile : keeps_terms meanwhile) :
  webhook_effect fetch cfg meanwhile input w
    (handleWebhook fetch cfg newId meanwhile ck input w).2.
Proof.
  pose proof (handleWebhook_wp fetch cfg newId meanwhile ck input w Hkeyed Hmeanwhile) as Hwp.
  unfold wp in Hwp. by destruct (handleWebhook fetch cfg newId meanwhile ck input w) as [[r | e] w'].
Qed.

Lemma handleWebhook_sound_witness :
  webhook_effect (H := plain_crypto) (WebhookExample.network WebhookExample.paid)
    InitiationExample.cfg InitiationExample.nothing (WebhookExample.delivery "body")
    InitiationExample.w1 WebhookExample.w2.
Proof.
  exact (handleWebhook_sound (H := plain_crypto) (WebhookExample.network WebhookExample.paid)
    InitiationExample.cfg "wh-1" InitiationExample.nothing {| app_now := 2000; db_now := 2000 |}
    (WebhookExample.delivery "body") InitiationExample.w1 keyed_intents keeps_terms_nothing).
Defined.

(** An event of the same provider and payload is already stored. *)
Definition known_delivery `{Crypto} (input : PaymentWebhookInput) (w : world) : Prop :=
  exists k e, webhook_events (intents w) !! k = Some e /\
    we_provider e = resolveProvider (pwi_provider input) /\
    we_payloadHash e = sha256 (pwi_rawBody input).

Lemma createWebhookEvent_known newId env intent w k e :
  webhook_events (intents w) !! k = Some e -> we_provider e = env_provider env ->
  we_payloadHash e = env_payloadHash env ->
  wp (createWebhookEvent newId env intent) (fun x w' => w' = w /\ x.1 = false)
     (fun _ w' => w' = w) w.
Proof.
  intros He Hp Hh. unfold createWebhookEvent. wp_go; try done. exfalso.
  unfold webhook_row in H0. cbn in H0. rewrite find_row_None in H0. specialize (H0 _ _ He).
  cbn in H0. rewrite Hp, Hh in H0. repeat case_bool_decide; done.
Qed.

(** Neither the intents nor the stored events differ. *)
Definition same_payments (w w' : world) : Prop :=
  the_intents w' = the_intents w /\ webhook_events (intents w') = webhook_events (intents w).

Lemma processEnvelope_known `{Crypto} fetch cfg newId meanwhile now env w k e :
  webhook_events (intents w) !! k = Some e -> we_provider e = env_provider env ->
  we_payloadHash e = env_payloadHash env ->
  wp (processEnvelope fetch cfg newId meanwhile now env)
     (fun r w' => same_payments w w' /\ pwr_processingStatus r = WH_DUPLICATE)
     (fun _ w' => same_payments w w') w.
Proof.
  intros He Hp Hh. unfold processEnvelope. wp_step.
  apply (wp_mono _ (fun _ w' => w' = w) _ (fun _ w' => w' = w)).
  { destruct (truthy _); [| done]. unfold findByProviderReference. wp_go. done. }
  2: { by intros err w' ->. }
  intros intent w1 ->. wp_step.
  eapply wp_mono; [by eapply createWebhookEvent_known | | by intros err w' ->].
  intros [new x] w1 [-> Hnew]. cbn in Hnew. subst new. cbn [fst snd negb].
  unfold handleDuplicateDelivery. wp_go; done.
Qed.

(** Redelivery is harmless: when an event of the same provider and raw body is already
    stored, a delivery changes neither the intents nor the stored events, asks
    the provider nothing and, if it is acknowledged, is acknowledged as
    DUPLICATE. *)
Theorem handleWebhook_duplicate `{Crypto} fetch cfg newId meanwhile ck input w
    (Hknown : known_delivery input w) :
  let run := handleWebhook fetch cfg newId meanwhile ck input w in
  same_payments w run.2 /\
  (forall r, run.1 = Ok r -> pwr_processingStatus r = WH_DUPLICATE).
Proof.
  destruct Hknown as (k & e & He & Hp & Hh). cbn zeta.
  assert (Hwp : wp (handleWebhook fetch cfg newId meanwhile ck input)
    (fun r w' => same_payments w w' /\ pwr_processingStatus r = WH_DUPLICATE)
    (fun _ w' => same_payments w w') w).
  { unfold handleWebhook. cbv zeta. destruct (pwi_provider input) eqn:Ep; cbn in Hp.
    - wp_step. apply wp_getOrThrow_value; [| done]. intros secret _.
      destruct (validatePaystackSignature _ _ secret) as [msg |].
      + unfold persistRejectedSignatureEvent. wp_go; try done. exfalso.
        rewrite find_row_None in H1. specialize (H1 _ _ He). cbn in H1.
        unfold computePayloadHash in H1. rewrite Hp, Hh in H1.
        repeat case_bool_decide; done.
      + wp_step. eapply wp_mono; [apply parsePaystackEnvelope_wp | | by intros err w' ->].
        intros env w1 (-> & Henv & Hhash). eapply processEnvelope_known; [exact He | congruence |].
        rewrite Hh, Hhash. done.
    - wp_step. eapply wp_mono; [apply parseMomoEnvelope_wp | | by intros err w' ->].
      intros env w1 (-> & Henv & Hhash). eapply processEnvelope_known; [exact He | congruence |].
      rewrite Hh, Hhash. done. }
  unfold wp in Hwp. destruct (handleWebhook fetch cfg newId meanwhile ck input w) as [[r | err] w'].
  - destruct Hwp as [Hs Hr]. split; [exact Hs |]. intros r' Hr'. cbn in Hr'. congruence.
  - split; [exact Hwp |]. intros r' Hr'. discriminate Hr'.
Qed.

Lemma handleWebhook_duplicate_witness :
  same_payments WebhookExample.w2
    (WebhookExample.deliver "wh-2" FetchAborted 3000 WebhookExample.w2).2.
Proof.
  refine (proj1 (handleWebhook_duplicate (H := plain_crypto) (WebhookExample.network FetchAborted)
    InitiationExample.cfg "wh-2" InitiationExample.nothing {| app_now := 3000; db_now := 3000 |}
    (WebhookExample.delivery "body") WebhookExample.w2 _)).
  destruct (webhook_events (intents WebhookExample.w2) !! "wh-1") as [e |] eqn:E.
  - exists "wh-1", e. split; [exact E |].
    assert (Hf : (fun e => (we_provider e, we_payloadHash e)) <$>
      webhook_events (intents WebhookExample.w2) !! "wh-1" = Some (PAYSTACK, "body")) by vm_run.
    rewrite E in Hf. cbn in Hf. injection Hf as H1 H2. split; [exact H1 | exact H2].
  - exfalso. assert (Hf : we_id <$> webhook_events (intents WebhookExample.w2) !! "wh-1" = Some "wh-1")
      by vm_run. by rewrite E in Hf.
Defined.

(** The duplicate guard also swallows the retries that matter: when the first delivery's
    verification timed out, Paystack's redelivery of the same event, with the
    provider up again, is answered DUPLICATE and the paid intent stays
    unverified. *)
Theorem timed_out_verification_not_retried :
  let first := WebhookExample.deliver "wh-1" FetchAborted 2000 InitiationExample.w1 in
  let second := WebhookExample.deliver "wh-2" WebhookExample.paid 60000 first.2 in
  first.1 = Ok {| pwr_paymentIntentId := Some "int-1"; pwr_processingStatus := WH_FAILED |} /\
  second.1 = Ok {| pwr_paymentIntentId := Some "int-1"; pwr_processingStatus := WH_DUPLICATE |} /\
  WebhookExample.intent_in second.2 = Some (INITIATED, None).
Proof. split_and!; vm_run. Qed.

(** Initiation can undo a verification: a webhook that verifies the payment while the
    initiating request still awaits the provider is overwritten when that request
    returns; the intent goes back to INITIATED, its verification erased, and the
    redelivery of the webhook is a DUPLICATE. *)
Theorem initiation_overwrites_verification :
  let webhook w := (WebhookExample.deliver "wh-1" WebhookExample.paid 2000 w).2 in
  let awaiting_provider := (transaction (claim_intent (H := plain_crypto) "int-1"
    InitiationExample.alice InitiationExample.ev 5000 InitiationExample.input)
    InitiationExample.w0).2 in
  let run := InitiationExample.run "int-1" webhook None "alice" InitiationExample.w0 in
  WebhookExample.intent_in awaiting_provider = Some (INITIATION_PENDING, None) /\
  WebhookExample.intent_in (webhook awaiting_provider) = Some (VERIFIED, Some 2000) /\
  (exists v, run.1 = Ok v) /\
  WebhookExample.intent_in run.2 = Some (INITIATED, None) /\
  (WebhookExample.deliver "wh-2" WebhookExample.paid 9000 run.2).1 =
    Ok {| pwr_paymentIntentId := Some "int-1"; pwr_processingStatus := WH_DUPLICATE |}.
Proof.
  cbv zeta. do 2 (split; [vm_run |]). split; [eexists; vm_compute; reflexivity |].
  split; vm_run.
Qed.
