(* ===== verification/Issuance.v ===== *)
(** Issuance.v: the tickets of verified payments
    (src/src/modules/tickets/application/ticket-issuance.service.ts), the token
    service and the owner's views (tickets.service.ts). *)

From S2P Require Import Prelude Errors Hashing Store Context Providers Payments PaymentIntents Tickets.

Local Open Scope Z_scope.

(* ------------------------------------------------------------------ *)
(** ** TicketTokenService                                               *)

Definition hex_byte (b : Z) : string :=
  let n := Z.to_nat b in
  String (hex_upper (n / 16)) (String (hex_upper (n mod 16)) EmptyString).

(** [randomBytes(10).toString('hex').toUpperCase()] *)
Fixpoint hex_text (bytes : list Z) : string :=
  match bytes with
  | [] => EmptyString
  | b :: l => hex_byte b +:+ hex_text l
  end.

Definition generateTicketNumber (bytes : list Z) : string := "GV-" +:+ hex_text bytes.

Definition hashToken `{Crypto} (token : string) : string := sha256 token.

(* ------------------------------------------------------------------ *)
(** ** Views                                                            *)

(** [TicketResponseDto] *)
Record TicketResponse : Type := {
  tr_ticket_id : string;
  tr_ticketNumber : string;
  tr_owner : string;
  tr_event : string;
  tr_organizer : string;
  tr_ticket_status : TicketStatus;
  tr_issuedAt : Z;
  tr_usedAt : option Z;
  tr_voidedAt : option Z;
  tr_expiresAt : option Z
}.

(** The organizer of a ticket's event, which the select joins in. *)
Definition event_organizer (w : world) (t : ticket) : string :=
  default EmptyString (ev_organizerId <$> events (catalog w) !! tk_eventId t).

Definition toTicketResponse (w : world) (t : ticket) : TicketResponse :=
  {| tr_ticket_id := tk_id t; tr_ticketNumber := default (tk_id t) (tk_ticketNumber t);
     tr_owner := tk_ownerUserId t; tr_event := tk_eventId t;
     tr_organizer := default (event_organizer w t) (tk_organizerId t);
     tr_ticket_status := tk_status t; tr_issuedAt := tk_issuedAt t; tr_usedAt := tk_usedAt t;
     tr_voidedAt := tk_voidedAt t; tr_expiresAt := tk_expiresAt t |}.

(** [TicketsService] *)
Definition listMine (ownerUserId : string) : op (list TicketResponse) :=
  let* ts := findOwnedByUser ownerUserId in
  reads (fun w => toTicketResponse w <$> ts).

Definition getOwned (ticketId ownerUserId : string) : op TicketResponse :=
  let* found := findOwnedTicketById ticketId ownerUserId in
  let* t := or_throw found (NotFoundException "ticket not found") in
  reads (fun w => toTicketResponse w t).

(* ------------------------------------------------------------------ *)
(** ** TicketIssuanceService                                            *)

(** What the transaction returns. *)
Inductive IssuanceOutcome : Type :=
| Created (t : ticket) (token : string)
| Existing (t : ticket)
| Rejected (msg : string)
| Failed (msg : string).

(** The ticket and, when it is new, the QR payload: its id and token. *)
Record IssuedTicketResponse : Type := {
  itr_ticket : TicketResponse;
  itr_qrPayload : option (string * string)
}.

Definition audit_of (p : payment_intent) (ticketId : option string) (auditEvent : string)
    (reason : option string) : issuance_audit :=
  {| isa_paymentIntentId := pi_id p; isa_ticketId := ticketId;
     isa_buyerUserId := pi_buyerUserId p; isa_eventId := pi_eventId p;
     isa_organizerId := pi_organizerId p; isa_auditEvent := auditEvent; isa_reason := reason |}.

(** [hasIssuanceSnapshot]: the rows the include joins in. *)
Definition hasIssuanceSnapshot (w : world) (p : payment_intent) : bool :=
  bool_decide (is_Some (users (catalog w) !! pi_buyerUserId p)) &&
  bool_decide (is_Some (organizers (catalog w) !! pi_organizerId p)) &&
  match events (catalog w) !! pi_eventId p with
  | Some ev => bool_decide (is_Some (organizers (catalog w) !! ev_organizerId ev))
  | None => false
  end.

(** [createIssuedTicket] *)
Definition issued_ticket (id ticketNumber tokenHash : string) (p : payment_intent)
    (issuedAt expiresAt : Z) : ticket :=
  {| tk_id := id; tk_ticketNumber := Some ticketNumber; tk_eventId := pi_eventId p;
     tk_organizerId := Some (pi_organizerId p); tk_ticketTypeId := None;
     tk_ownerUserId := pi_buyerUserId p; tk_orderId := None; tk_paymentIntentId := Some (pi_id p);
     tk_status := T_ISSUED; tk_admissionTokenHash := Some tokenHash;
     tk_admissionTokenVersion := 1; tk_ticketSerial := ticketNumber;
     tk_publicReference := ticketNumber; tk_issuedAt := issuedAt; tk_usedAt := None;
     tk_voidedAt := None; tk_expiresAt := Some expiresAt |}.

Definition findIntentTicket (p : payment_intent) : op (option ticket) :=
  findByPaymentIntentOwnerAndEvent (pi_id p) (pi_buyerUserId p) (pi_eventId p).

Definition missing_context : string :=
  "Verified payment intent is missing ticket issuance context.".

Section Issuance.
Context `{Crypto}.

(** The try block and its handler.  What the try block catches is a failed insert,
    after which the handler's statements are refused. *)
Definition create_or_recover (id ticketNumber token : string) (ck : clock) (p : payment_intent)
    (ev : event) : op IssuanceOutcome :=
  catch
    (let t := issued_ticket id ticketNumber (hashToken token) p (app_now ck) (ev_endsAt ev) in
     do* createTicket t in
     do* appendIssuanceAudit (audit_of p (Some (tk_id t)) "ticket_issued" None) in
     ret (Created t token))
    (fun e =>
       let* recovered := if is_unique_violation e then statement_refused (findIntentTicket p) else ret None in
       match recovered with
       | Some t =>
           do* statement_refused
                 (appendIssuanceAudit (audit_of p (Some (tk_id t)) "ticket_issuance_idempotent_replay"
                    (Some "p2002_recovered_existing_ticket"))) in
           ret (Existing t)
       | None =>
           do* statement_refused
                 (appendIssuanceAudit (audit_of p None "ticket_issuance_failed" (Some (message e)))) in
           throw e
       end).

(** The transaction body; [numberBytes] and [token] are what the two draws of
    [randomBytes] become. *)
Definition issuance_tx (id : string) (numberBytes : list Z) (token : string) (ck : clock)
    (paymentIntentId : string) : op IssuanceOutcome :=
  let* found := findIntentById paymentIntentId in
  let* p := or_throw found (NotFoundError "payment intent not found") in
  if negb (bool_decide (pi_status p = VERIFIED)) then
    do* appendIssuanceAudit (audit_of p None "ticket_issuance_rejected_payment_not_verified"
          (Some (intent_status_text (pi_status p)))) in
    ret (Rejected "Only verified payment intents can issue tickets.")
  else
    let* snapshot := reads (fun w => hasIssuanceSnapshot w p) in
    if negb snapshot then
      do* appendIssuanceAudit (audit_of p None "ticket_issuance_failed"
            (Some "missing_issuance_snapshot")) in
      ret (Failed missing_context)
    else
      let* found := findByIdForPaymentInitiation (pi_eventId p) in
      match found with
      | Some (ev, _) =>
          if negb (bool_decide (ev_organizerId ev = pi_organizerId p)) then
            do* appendIssuanceAudit (audit_of p None "ticket_issuance_failed"
                  (Some "missing_event_snapshot")) in
            ret (Failed missing_context)
          else
            do* appendIssuanceAudit (audit_of p None "ticket_issuance_requested" None) in
            let* existing := findIntentTicket p in
            match existing with
            | Some t =>
                do* appendIssuanceAudit (audit_of p (Some (tk_id t))
                      "ticket_issuance_idempotent_replay" None) in
                ret (Existing t)
            | None => create_or_recover id (generateTicketNumber numberBytes) token ck p ev
            end
      | None =>
          do* appendIssuanceAudit (audit_of p None "ticket_issuance_failed"
                (Some "missing_event_snapshot")) in
          ret (Failed missing_context)
      end.

(** [issueTicketFromVerifiedPayment] *)
Definition issueTicketFromVerifiedPayment (id : string) (numberBytes : list Z) (token : string)
    (ck : clock) (paymentIntentId : string) : op IssuedTicketResponse :=
  let* outcome := transaction (issuance_tx id numberBytes token ck paymentIntentId) in
  match outcome with
  | Rejected msg | Failed msg => throw (InvalidStateTransitionError msg)
  | Created t token =>
      reads (fun w => {| itr_ticket := toTicketResponse w t; itr_qrPayload := Some (tk_id t, token) |})
  | Existing t =>
      reads (fun w => {| itr_ticket := toTicketResponse w t; itr_qrPayload := None |})
  end.

End Issuance.

(* ------------------------------------------------------------------ *)
(** ** What issuance does                                               *)

(** One ticket per intent, and tickets are stored under their ids. *)
Record wf_tickets (w : world) : Prop := {
  wt_keyed : keyed tk_id (tickets (ticketing w));
  wt_once : forall k1 k2 t1 t2, tickets (ticketing w) !! k1 = Some t1 ->
    tickets (ticketing w) !! k2 = Some t2 -> tk_paymentIntentId t1 <> None ->
    tk_paymentIntentId t1 = tk_paymentIntentId t2 -> tk_ownerUserId t1 = tk_ownerUserId t2 ->
    tk_eventId t1 = tk_eventId t2 -> k1 = k2
}.

Definition db_tickets (w : world) : gmap string ticket := tickets (ticketing w).

(** What a call can do to the tickets: nothing, or add the one ticket of a
    verified intent that had none. *)
Definition issued_from `{Crypto} (id token : string) (numberBytes : list Z) (ck : clock)
    (paymentIntentId : string) (w w' : world) : Prop :=
  exists p ev, payment_intents (intents w) !! paymentIntentId = Some p /\ pi_status p = VERIFIED /\
    hasIssuanceSnapshot w p = true /\
    events (catalog w) !! pi_eventId p = Some ev /\ ev_organizerId ev = pi_organizerId p /\
    find_row (is_intent_ticket (pi_id p) (pi_buyerUserId p) (pi_eventId p)) (db_tickets w) = None /\
    db_tickets w !! id = None /\
    db_tickets w' = <[id := issued_ticket id (generateTicketNumber numberBytes) (hashToken token) p
                             (app_now ck) (ev_endsAt ev)]> (db_tickets w).

(** The verified intent's ticket is in the table. *)
Definition has_ticket (paymentIntentId : string) (t : ticket) (w : world) : Prop :=
  exists p ev, payment_intents (intents w) !! paymentIntentId = Some p /\ pi_status p = VERIFIED /\
    hasIssuanceSnapshot w p = true /\
    events (catalog w) !! pi_eventId p = Some ev /\ ev_organizerId ev = pi_organizerId p /\
    find_row (is_intent_ticket (pi_id p) (pi_buyerUserId p) (pi_eventId p)) (db_tickets w) = Some t.

Lemma issuance_tx_wp `{Crypto} id numberBytes token ck paymentIntentId w :
  wp (transaction (issuance_tx id numberBytes token ck paymentIntentId))
     (fun o w' => catalog w' = catalog w /\ intents w' = intents w /\ match o with
        | Created t tok => tok = token /\ tk_id t = id /\
            issued_from id token numberBytes ck paymentIntentId w w' /\
            db_tickets w' !! id = Some t
        | Existing t => db_tickets w' = db_tickets w /\ has_ticket paymentIntentId t w
        | Rejected _ | Failed _ => db_tickets w' = db_tickets w
        end)
     (fun _ w' => w' = w) w.
Proof.
  unfold db_tickets, issued_from, has_ticket. wp_go; try done.
  all: apply negb_false_iff, bool_decide_eq_true in Heqb.
  all: apply negb_false_iff in Heqb0.
  all: destruct (events (catalog w) !! pi_eventId a) as [ev |] eqn:Hev; [| done].
  all: cbn in Heqo; destruct (organizers (catalog w) !! ev_organizerId ev) as [org |]; [| done].
  all: cbn in Heqo; injection Heqo as <- <-.
  all: apply negb_false_iff, bool_decide_eq_true in Heqb1.
  - do 3 (split; [done |]). exists a, ev. split_and!; done.
  - do 4 (split; [done |]). split; [| apply lookup_insert_eq].
    exists a, ev. split_and!; done.
Qed.

(** With its ticket in place, an intent's issuance replays it. *)
Lemma issuance_replays `{Crypto} id numberBytes token ck paymentIntentId t w :
  has_ticket paymentIntentId t w ->
  wp (transaction (issuance_tx id numberBytes token ck paymentIntentId))
     (fun o w' => o = Existing t /\ db_tickets w' = db_tickets w /\ catalog w' = catalog w)
     (fun _ _ => False) w.
Proof.
  intros (p & ev & Hp & Hv & Hsnap & Hev & Horg & Hfind). unfold db_tickets in *.
  assert (Hinit : (ev ← events (catalog w) !! pi_eventId p;
                   org ← organizers (catalog w) !! ev_organizerId ev;
                   Some (ev, org_status org)) <> None).
  { unfold hasIssuanceSnapshot in Hsnap. rewrite Hev in *. cbn.
    destruct (organizers (catalog w) !! ev_organizerId ev); [done |].
    by rewrite andb_false_r in Hsnap. }
  wp_go; simplify_eq; try done.
  all: try (rewrite Hp in *; simplify_eq).
  all: try (rewrite bool_decide_eq_true_2 in * by done; done).
  all: try (rewrite Hsnap in *; done).
  all: try (rewrite Hev in *; cbn in *;
            destruct (organizers (catalog w) !! ev_organizerId ev); cbn in *; simplify_eq).
  all: try (rewrite bool_decide_eq_true_2 in * by done; done).
  all: rewrite Hfind in *; simplify_eq; done.
Qed.

(** A ticket just created is the intent's ticket. *)
Lemma issued_has_ticket `{Crypto} id token numberBytes ck paymentIntentId t w w' :
  issued_from id token numberBytes ck paymentIntentId w w' -> db_tickets w' !! id = Some t ->
  catalog w' = catalog w -> intents w' = intents w -> has_ticket paymentIntentId t w'.
Proof.
  intros (p & ev & Hp & Hv & Hsnap & Hev & Horg & Hnone & _ & Hw') Ht Hcat Hint.
  exists p, ev. rewrite Hint, Hcat. split_and!; try done.
  - by unfold hasIssuanceSnapshot in *; rewrite Hcat.
  - eapply find_row_unique; [exact Ht | |].
    + rewrite Hw', lookup_insert_eq in Ht. injection Ht as <-.
      unfold is_intent_ticket; cbn. by rewrite !bool_decide_eq_true_2.
    + rewrite Hw'. intros k r [[<- <-] | [_ Hk]]%lookup_insert_Some Hr; [done |].
      rewrite (proj1 (find_row_None _ _) Hnone _ _ Hk) in Hr. done.
Qed.

Lemma has_ticket_same paymentIntentId t w w' :
  has_ticket paymentIntentId t w -> db_tickets w' = db_tickets w -> catalog w' = catalog w ->
  intents w' = intents w -> has_ticket paymentIntentId t w'.
Proof.
  intros (p & ev & Hp & Hv & Hsnap & Hev & Horg & Hfind) Ht Hcat Hint.
  exists p, ev. rewrite Hint, Hcat, Ht. split_and!; try done.
  by unfold hasIssuanceSnapshot in *; rewrite Hcat.
Qed.

(** What the method returns and writes. *)
Lemma issueTicket_wp `{Crypto} id numberBytes token ck paymentIntentId w :
  wp (issueTicketFromVerifiedPayment id numberBytes token ck paymentIntentId)
     (fun r w' => catalog w' = catalog w /\ intents w' = intents w /\ exists t,
        itr_ticket r = toTicketResponse w' t /\ has_ticket paymentIntentId t w' /\
        match itr_qrPayload r with
        | Some qr => qr = (id, token) /\ db_tickets w' !! id = Some t /\
            issued_from id token numberBytes ck paymentIntentId w w'
        | None => db_tickets w' = db_tickets w
        end)
     (fun _ w' => db_tickets w' = db_tickets w) w.
Proof.
  apply wp_bind. eapply wp_mono; [apply issuance_tx_wp | | by intros e w' ->].
  intros [t tok | t | msg | msg] w' (Hcat & Hint & Ho); wp_go; try done.
  - destruct Ho as (-> & <- & Hfrom & Ht). do 2 (split; [done |]). exists t. cbn [itr_ticket itr_qrPayload].
    split; [done |]. split; [by eapply issued_has_ticket | done].
  - destruct Ho as [Ht Hhas]. do 2 (split; [done |]). exists t. cbn [itr_ticket itr_qrPayload].
    split; [done |]. split; [by eapply has_ticket_same | done].
Qed.

(** Nothing else than an issuance puts a row in, and it puts one per intent. *)
Lemma issued_from_wf `{Crypto} id token numberBytes ck paymentIntentId w w' :
  issued_from id token numberBytes ck paymentIntentId w w' -> wf_tickets w -> wf_tickets w'.
Proof.
  intros (p & ev & Hp & Hv & Hsnap & Hev & Horg & Hnone & Hid & Hw') [Hk Ho].
  unfold db_tickets in *. split; rewrite Hw'.
  - by apply keyed_insert.
  - assert (Hno : forall k t, tickets (ticketing w) !! k = Some t ->
      tk_paymentIntentId t = Some (pi_id p) -> tk_ownerUserId t = pi_buyerUserId p ->
      tk_eventId t = pi_eventId p -> False).
    { intros k t Ht H1 H2 H3. apply (proj1 (find_row_None _ _) Hnone) in Ht.
      unfold is_intent_ticket in Ht. by rewrite !bool_decide_eq_true_2 in Ht. }
    intros k1 k2 t1 t2 [[<- <-] | [_ H1]]%lookup_insert_Some [[<- <-] | [_ H2]]%lookup_insert_Some;
      cbn; intros; try done.
    + exfalso. by eapply Hno.
    + exfalso. by eapply Hno.
    + by eapply Ho.
Qed.

(* ------------------------------------------------------------------ *)
(** ** A verified intent                                                *)

Module IssuanceExample.

Definition alice : user :=
  {| user_id := "alice"; user_email := "a@example.com"; user_passwordHash := "h";
     user_role := CUSTOMER; user_isActive := true; user_emailVerifiedAt := Some 1 |}.
Definition org : organizer :=
  {| org_id := "org"; org_ownerUserId := "olu"; org_status := ORG_APPROVED;
     org_profile := plain_profile "org" |}.
Definition ev : event :=
  {| ev_id := "ev"; ev_organizerId := "org"; ev_venueId := "venue"; ev_status := EV_PUBLISHED;
     ev_visibility := PUBLIC; ev_endsAt := 9000000; ev_paymentEnabled := true;
     ev_priceMinor := Some 5000; ev_priceCurrency := "GHS";
     ev_listing := plain_listing "ev" |}.
Definition intent (id key : string) : payment_intent :=
  {| pi_id := id; pi_buyerUserId := "alice"; pi_organizerId := "org"; pi_eventId := "ev";
     pi_provider := PAYSTACK; pi_status := VERIFIED; pi_amountMinor := 5000; pi_currency := "GHS";
     pi_idempotencyUseCase := "InitiatePayment"; pi_idempotencyKeyHash := key;
     pi_requestFingerprintHash := key; pi_providerReference := "pi_" +:+ key;
     pi_providerCheckoutUrl := None; pi_providerAccessCode := None; pi_providerRawResponse := JNull;
     pi_failureCode := None; pi_failureMessage := None; pi_initiatedAt := Some 1;
     pi_verifiedAt := Some 2; pi_failedAt := None; pi_providerVerifiedStatus := None;
     pi_providerVerifiedAmount := None; pi_providerVerifiedCurrency := None;
     pi_providerVerificationRaw := JNull |}.

Definition w0 : world :=
  set_payment_intents (<["int-1" := intent "int-1" "k1"]> {["int-2" := intent "int-2" "k2"]})
    (set_events {["ev" := ev]} (set_organizers {["org" := org]}
      (set_users {["alice" := alice]} empty_world))).

#[export] Instance crypto : Crypto := plain_crypto.
Definition ck : clock := {| app_now := 1000; db_now := 1000 |}.
Definition bytes : list Z := replicate 10 7.

Definition run (id token : string) (paymentIntentId : string) : op IssuedTicketResponse :=
  issueTicketFromVerifiedPayment id bytes token ck paymentIntentId.

Definition w1 : world := (run "tk-1" "secret" "int-1" w0).2.
Definition t1 : ticket :=
  issued_ticket "tk-1" "GV-07070707070707070707" (hashToken "secret") (intent "int-1" "k1") 1000
    9000000.
Definition out : IssuedTicketResponse :=
  {| itr_ticket := toTicketResponse w1 t1; itr_qrPayload := Some ("tk-1", "secret") |}.

Lemma ticket_issued : run "tk-1" "secret" "int-1" w0 = (Ok out, w1).
Proof. run_ends. Qed.

Lemma wf_w0 : wf_tickets w0.
Proof.
  split.
  - apply keyed_check. vm_run.
  - intros k1 k2 a b H. change ((∅ : gmap string ticket) !! k1 = Some a) in H.
    by rewrite lookup_empty in H.
Qed.

End IssuanceExample.

(* ------------------------------------------------------------------ *)
(** ** Properties                                                       *)

(** Issuing the ticket of a payment intent either throws and leaves every ticket as it
    was, or returns the intent's one ticket: the intent is VERIFIED and its
    event is its organizer's.  The QR payload is returned exactly when the call
    created the ticket, ISSUED, expiring when the event ends and storing the
    hash of the token and never the token; otherwise the ticket was there and
    no ticket is written. *)
Theorem issueTicketFromVerifiedPayment_outcome `{Crypto} id numberBytes token ck paymentIntentId w :
  match issueTicketFromVerifiedPayment id numberBytes token ck paymentIntentId w with
  | (Ok r, w') => exists t, itr_ticket r = toTicketResponse w' t /\ has_ticket paymentIntentId t w' /\
      match itr_qrPayload r with
      | Some qr => qr = (id, token) /\ db_tickets w' !! id = Some t /\
          issued_from id token numberBytes ck paymentIntentId w w'
      | None => db_tickets w' = db_tickets w
      end
  | (Err _, w') => db_tickets w' = db_tickets w
  end.
Proof.
  eapply wp_mono; [apply issueTicket_wp | | done]. by intros r w' (_ & _ & Ht).
Qed.

(** C13: Issuance is idempotent: after a call that returned a ticket, every further call for
    the intent, with whatever draws and clock, succeeds with the same ticket,
    without a QR payload, and writes no ticket. *)
Theorem issueTicketFromVerifiedPayment_idempotent `{Crypto}
    id numberBytes token ck id2 numberBytes2 token2 ck2 paymentIntentId w r w'
    (Hrun : issueTicketFromVerifiedPayment id numberBytes token ck paymentIntentId w = (Ok r, w')) :
  exists w'', issueTicketFromVerifiedPayment id2 numberBytes2 token2 ck2 paymentIntentId w' =
      (Ok {| itr_ticket := itr_ticket r; itr_qrPayload := None |}, w'') /\
    db_tickets w'' = db_tickets w'.
Proof.
  pose proof (wp_ok _ _ _ _ _ _ (issueTicket_wp _ _ _ _ _ _) Hrun) as (_ & _ & t & Hr & Hhas & _).
  pose proof (issuance_replays id2 numberBytes2 token2 ck2 _ _ _ Hhas) as Hrep.
  unfold wp in Hrep. unfold issueTicketFromVerifiedPayment, bind.
  destruct (transaction _ w') as [[o | e] w''] eqn:E; [| done].
  destruct Hrep as (-> & Ht & Hcat). exists w''. split; [| done].
  unfold reads. rewrite Hr. by unfold toTicketResponse, event_organizer; rewrite Hcat.
Qed.

Lemma issueTicketFromVerifiedPayment_idempotent_witness :
  exists w2, IssuanceExample.run "tk-2" "other" "int-1" IssuanceExample.w1 =
      (Ok {| itr_ticket := itr_ticket IssuanceExample.out; itr_qrPayload := None |}, w2) /\
    db_tickets w2 = db_tickets IssuanceExample.w1.
Proof.
  exact (issueTicketFromVerifiedPayment_idempotent (H := plain_crypto) "tk-1" IssuanceExample.bytes
    "secret" IssuanceExample.ck "tk-2" IssuanceExample.bytes "other" IssuanceExample.ck "int-1"
    IssuanceExample.w0 _ _ IssuanceExample.ticket_issued).
Defined.

(** The audit row "ticket_issuance_failed" of a failing creation is never kept: the handler
    appends it in the transaction that the failed insert has aborted, and its error
    replaces the one caught.  Here a clash of ticket numbers fails the issuance and
    no audit row is left. *)
Theorem failed_issuance_audit_lost :
  let clash := IssuanceExample.run "tk-2" "other" "int-2" IssuanceExample.w1 in
  clash = (Err transaction_aborted, IssuanceExample.w1) /\
  forallb (fun a => bool_decide (isa_paymentIntentId a = "int-1"))
    (issuance_audits (ticketing clash.2)) = true.
Proof. split; vm_run. Qed.
