(* ===== verification/Admissions.v ===== *)
(** Admissions.v: the gate scan
    (src/src/modules/admissions/application/admissions.service.ts), its audit
    trail, and what it guarantees when scans interleave with each other and with
    the issuance of tickets. *)

From S2P Require Import Prelude Errors Hashing Store Context Inventory Orders PaymentIntents Tickets Issuance.

Local Open Scope Z_scope.

(* ------------------------------------------------------------------ *)
(** ** Data                                                             *)

(** [AdmissionScanTicketRecord]: the ticket and the rows its select joins in. *)
Record AdmissionScanTicketRecord : Type := {
  ast_ticket : ticket;
  ast_event : event;
  ast_organizer : organizer
}.

Record ScanTicketInput : Type := {
  sti_ticketId : string;
  sti_token : string;
  sti_scannedByUserId : string;
  sti_eventId : option string;
  sti_deviceId : option string;
  sti_gateLabel : option string
}.

(** [AdmissionScanResponseDto] *)
Record AdmissionScanResponse : Type := {
  asr_accepted : bool;
  asr_status : AdmissionScanStatus;
  asr_rejectionReason : option AdmissionRejectionReason;
  asr_ticketId : option string;
  asr_scannedAt : Z
}.

(* ------------------------------------------------------------------ *)
(** ** Repositories                                                     *)

(** [findForAdmissionScan].  The event of a ticket and its organizer are
    required relations, so the join misses only when the ticket does. *)
Definition scan_record (w : world) (ticketId : string) : option AdmissionScanTicketRecord :=
  t ← tickets (ticketing w) !! ticketId;
  ev ← events (catalog w) !! tk_eventId t;
  org ← organizers (catalog w) !! ev_organizerId ev;
  Some {| ast_ticket := t; ast_event := ev; ast_organizer := org |}.

Definition findForAdmissionScan (ticketId : string) : op (option AdmissionScanTicketRecord) :=
  reads (fun w => scan_record w ticketId).

(** [AdmissionAuditService.record], [appendScanAudit] *)
Definition appendScanAudit (row : scan_audit) : op unit :=
  modify (fun w => set_scan_audits (scan_audits (ticketing w) ++ [row]) w).

(* ------------------------------------------------------------------ *)
(** ** AdmissionsService                                                *)

Definition classifyTicketState (rc : AdmissionScanTicketRecord) (scannedAt : Z)
  : option AdmissionRejectionReason :=
  match tk_status (ast_ticket rc) with
  | T_USED => Some TICKET_ALREADY_USED
  | T_VOIDED | T_INVALIDATED | T_REFUNDED | T_BLOCKED => Some TICKET_VOIDED
  | T_EXPIRED => Some TICKET_EXPIRED
  | T_ACTIVE | T_EXITED => Some TICKET_NOT_ISSUED
  | T_ISSUED =>
      if negb (bool_decide (ev_status (ast_event rc) = EV_PUBLISHED)) then Some EVENT_NOT_ACTIVE
      else if match tk_expiresAt (ast_ticket rc) with
              | Some expiresAt => expiresAt <? scannedAt
              | None => false
              end then Some TICKET_EXPIRED
      else if ev_endsAt (ast_event rc) <? scannedAt then Some EVENT_NOT_ACTIVE
      else None
  end.

(** [input.eventId ? { providedEventId: input.eventId } : null] *)
Definition scan_metadata (input : ScanTicketInput) : json :=
  match truthy (sti_eventId input) with
  | Some e => JObj [("providedEventId", JStr e)]
  | None => JNull
  end.

Definition scan_row (input : ScanTicketInput) (ticketId eventId organizerId : option string)
    (status : AdmissionScanStatus) (reason : option AdmissionRejectionReason) (tokenHash : string)
    (scannedAt : Z) : scan_audit :=
  {| sa_ticketId := ticketId; sa_eventId := eventId; sa_organizerId := organizerId;
     sa_scannedByUserId := Some (sti_scannedByUserId input); sa_status := status;
     sa_rejectionReason := reason; sa_tokenHash := Some tokenHash;
     sa_deviceId := sti_deviceId input; sa_gateLabel := sti_gateLabel input;
     sa_metadata := scan_metadata input; sa_scannedAt := scannedAt |}.

(** [ticket.organizerId ?? ticket.event.organizerId] *)
Definition record_organizer (rc : AdmissionScanTicketRecord) : string :=
  default (ev_organizerId (ast_event rc)) (tk_organizerId (ast_ticket rc)).

Definition unknown_ticket_row (input : ScanTicketInput) (reason : AdmissionRejectionReason)
    (tokenHash : string) (scannedAt : Z) : scan_audit :=
  scan_row input None None None SCAN_REJECTED (Some reason) tokenHash scannedAt.

Definition buildTicketAuditInput (rc : AdmissionScanTicketRecord) (input : ScanTicketInput)
    (reason : AdmissionRejectionReason) (tokenHash : string) (scannedAt : Z) : scan_audit :=
  scan_row input (Some (tk_id (ast_ticket rc))) (Some (tk_eventId (ast_ticket rc)))
    (Some (record_organizer rc)) SCAN_REJECTED (Some reason) tokenHash scannedAt.

Definition accepted_row (rc : AdmissionScanTicketRecord) (input : ScanTicketInput)
    (tokenHash : string) (scannedAt : Z) : scan_audit :=
  scan_row input (Some (tk_id (ast_ticket rc))) (Some (tk_eventId (ast_ticket rc)))
    (Some (record_organizer rc)) SCAN_ACCEPTED None tokenHash scannedAt.

Definition rejected (reason : option AdmissionRejectionReason) (scannedAt : Z)
  : AdmissionScanResponse :=
  {| asr_accepted := false; asr_status := SCAN_REJECTED; asr_rejectionReason := reason;
     asr_ticketId := None; asr_scannedAt := scannedAt |}.

Definition recordRejectedDecision (row : scan_audit) (scannedAt : Z) : op AdmissionScanResponse :=
  do* appendScanAudit row in
  ret (rejected (sa_rejectionReason row) scannedAt).

Section Scan.
Context `{Crypto}.

(** The checks before the transaction: the response of a rejected scan, or the
    record to admit. *)
Definition scan_preflight (scannedAt : Z) (input : ScanTicketInput)
  : op (AdmissionScanResponse + AdmissionScanTicketRecord) :=
  let tokenHash := hashToken (sti_token input) in
  let reject row := let* r := recordRejectedDecision row scannedAt in ret (inl r) in
  let* found := findForAdmissionScan (sti_ticketId input) in
  match found with
  | None => reject (unknown_ticket_row input TICKET_NOT_FOUND tokenHash scannedAt)
  | Some rc =>
      let reject_for reason := reject (buildTicketAuditInput rc input reason tokenHash scannedAt) in
      if negb (bool_decide (truthy (tk_admissionTokenHash (ast_ticket rc)) = Some tokenHash))
      then reject_for INVALID_TOKEN
      else if match truthy (tk_organizerId (ast_ticket rc)) with
              | Some o => negb (bool_decide (o = ev_organizerId (ast_event rc)))
              | None => false
              end
      then reject_for ORGANIZER_MISMATCH
      else if negb (bool_decide (org_ownerUserId (ast_organizer rc) = sti_scannedByUserId input))
      then reject_for STAFF_NOT_AUTHORIZED
      else if match truthy (sti_eventId input) with
              | Some e => negb (bool_decide (e = tk_eventId (ast_ticket rc)))
              | None => false
              end
      then reject_for EVENT_MISMATCH
      else match classifyTicketState rc scannedAt with
           | Some reason => reject_for reason
           | None => ret (inr rc)
           end
  end.

(** The transaction. *)
Definition scan_commit (scannedAt : Z) (input : ScanTicketInput) (rc : AdmissionScanTicketRecord)
  : op AdmissionScanResponse :=
  let tokenHash := hashToken (sti_token input) in
  transaction
    (let* updatedCount := markUsedIfIssuable (tk_id (ast_ticket rc)) tokenHash scannedAt in
     if updatedCount =? 1 then
       do* appendScanAudit (accepted_row rc input tokenHash scannedAt) in
       ret {| asr_accepted := true; asr_status := SCAN_ACCEPTED; asr_rejectionReason := None;
              asr_ticketId := Some (tk_id (ast_ticket rc)); asr_scannedAt := scannedAt |}
     else
       let* reloaded := findForAdmissionScan (tk_id (ast_ticket rc)) in
       let reason := match reloaded with
                     | Some rc' => default TOKEN_REPLAY_DETECTED (classifyTicketState rc' scannedAt)
                     | None => TICKET_NOT_FOUND
                     end in
       do* appendScanAudit
             (match reloaded with
              | Some rc' => buildTicketAuditInput rc' input reason tokenHash scannedAt
              | None => unknown_ticket_row input reason tokenHash scannedAt
              end) in
       ret (rejected (Some reason) scannedAt)).

(** [scanTicket] *)
Definition scanTicket (ck : clock) (input : ScanTicketInput) : op AdmissionScanResponse :=
  let* checked := scan_preflight (app_now ck) input in
  match checked with
  | inl r => ret r
  | inr rc => scan_commit (app_now ck) input rc
  end.

End Scan.

(* ------------------------------------------------------------------ *)
(** ** What a scan does                                                 *)

(** The ticket of [rc] may be admitted at [now]: the conditions of a scan, each
    on its own. *)
Record admissible `{Crypto} (w : world) (now : Z) (input : ScanTicketInput)
    (rc : AdmissionScanTicketRecord) : Prop := {
  ad_found : scan_record w (sti_ticketId input) = Some rc;
  ad_token : truthy (tk_admissionTokenHash (ast_ticket rc)) = Some (hashToken (sti_token input));
  ad_organizer : forall o, truthy (tk_organizerId (ast_ticket rc)) = Some o ->
    o = ev_organizerId (ast_event rc);
  ad_staff : org_ownerUserId (ast_organizer rc) = sti_scannedByUserId input;
  ad_event : forall e, truthy (sti_eventId input) = Some e -> e = tk_eventId (ast_ticket rc);
  ad_issued : tk_status (ast_ticket rc) = T_ISSUED;
  ad_published : ev_status (ast_event rc) = EV_PUBLISHED;
  ad_fresh : forall t, tk_expiresAt (ast_ticket rc) = Some t -> now <= t;
  ad_running : now <= ev_endsAt (ast_event rc)
}.

(** The world after one audit row. *)
Definition audited (row : scan_audit) (w : world) : world :=
  set_scan_audits (scan_audits (ticketing w) ++ [row]) w.

(** A rejected scan leaves its row and nothing else. *)
Definition scan_rejected (now : Z) (r : AdmissionScanResponse) (w w' : world) : Prop :=
  exists reason row, r = rejected (Some reason) now /\ w' = audited row w /\
    sa_status row = SCAN_REJECTED /\ sa_rejectionReason row = Some reason.

(** An accepted scan uses the ticket and leaves its row. *)
Definition scan_accepted `{Crypto} (now : Z) (input : ScanTicketInput)
    (rc : AdmissionScanTicketRecord) (r : AdmissionScanResponse) (w w' : world) : Prop :=
  exists t, db_tickets w !! tk_id (ast_ticket rc) = Some t /\ tk_status t = T_ISSUED /\
    tk_admissionTokenHash t = Some (hashToken (sti_token input)) /\
    r = {| asr_accepted := true; asr_status := SCAN_ACCEPTED; asr_rejectionReason := None;
           asr_ticketId := Some (tk_id (ast_ticket rc)); asr_scannedAt := now |} /\
    w' = audited (accepted_row rc input (hashToken (sti_token input)) now)
           (set_tickets (<[tk_id (ast_ticket rc) := with_tk_status T_USED (Some now) t]>
                           (db_tickets w)) w).

(** [now > x], when there is an [x]. *)
Lemma not_expired_iff (o : option Z) now :
  match o with Some x => x <? now | None => false end = false <->
  forall x, o = Some x -> now <= x.
Proof. destruct o as [y |]; [rewrite Z.ltb_ge |]; naive_solver. Qed.

Lemma classify_None rc now :
  classifyTicketState rc now = None <->
  tk_status (ast_ticket rc) = T_ISSUED /\ ev_status (ast_event rc) = EV_PUBLISHED /\
  (forall t, tk_expiresAt (ast_ticket rc) = Some t -> now <= t) /\ now <= ev_endsAt (ast_event rc).
Proof.
  unfold classifyTicketState. rewrite <- not_expired_iff, <- Z.ltb_ge.
  destruct (tk_status (ast_ticket rc)); cbn [negb]; try (split; [done | by intros []]).
  destruct (decide (ev_status (ast_event rc) = EV_PUBLISHED)) as [Hp | Hp];
    [rewrite bool_decide_eq_true_2 by done | rewrite bool_decide_eq_false_2 by done];
    cbn [negb]; [| naive_solver].
  set (late := match tk_expiresAt _ with Some _ => _ | None => _ end).
  destruct late, (ev_endsAt (ast_event rc) <? now); naive_solver.
Qed.

(** [a && a !== b] *)
Lemma mismatch_iff (o : option string) b :
  match o with Some x => negb (bool_decide (x = b)) | None => false end = false <->
  forall x, o = Some x -> x = b.
Proof.
  destruct o as [y |]; [rewrite negb_false_iff, bool_decide_eq_true |]; naive_solver.
Qed.

(** The six checks together are [admissible]. *)
Lemma scan_preflight_wp `{Crypto} now input w :
  wp (scan_preflight now input)
     (fun d w' => match d with
        | inl r => scan_rejected now r w w' /\ forall rc, ~ admissible w now input rc
        | inr rc => w' = w /\ admissible w now input rc
        end)
     (fun _ _ => False) w.
Proof.
  unfold scan_preflight. wp_go.
  all: try (split; [by eexists _, _ |]; intros rc Had; pose proof (ad_found _ _ _ _ Had) as Hf;
            rewrite Hf in Heqo; simplify_eq; destruct Had).
  - rewrite bool_decide_eq_true_2 in * by done. done.
  - by rewrite (proj2 (mismatch_iff _ _)) in Heqb0.
  - rewrite bool_decide_eq_true_2 in * by done. done.
  - by rewrite (proj2 (mismatch_iff _ _)) in Heqb2.
  - by rewrite (proj2 (classify_None _ _)) in Heqo0.
  - apply negb_false_iff, bool_decide_eq_true in Heqb, Heqb1.
    pose proof (proj1 (mismatch_iff _ _) Heqb0). pose proof (proj1 (mismatch_iff _ _) Heqb2).
    apply classify_None in Heqo0 as (? & ? & ? & ?). split; [done |]. by split.
Qed.

(** The transaction admits on the row it finds, not on the record it was given. *)
Lemma scan_commit_wp `{Crypto} now input rc w :
  wp (scan_commit now input rc)
     (fun r w' => scan_accepted now input rc r w w' \/ scan_rejected now r w w')
     (fun _ _ => False) w.
Proof.
  unfold scan_commit, scan_accepted, scan_rejected, audited, db_tickets. wp_go; try done.
  - left. apply andb_true_iff in H1 as [Hs Ht]. apply bool_decide_eq_true in Hs, Ht.
    by exists r.
  - right. by destruct (scan_record _ _); eexists _, _.
Qed.

(** Sequentially, the record of the checks is the row of the transaction. *)
Lemma scan_record_ticket w id rc :
  scan_record w id = Some rc -> db_tickets w !! id = Some (ast_ticket rc).
Proof.
  unfold scan_record, db_tickets. intros Hr.
  destruct (tickets (ticketing w) !! id) as [t |]; [| done]. cbn in Hr.
  destruct (events (catalog w) !! tk_eventId t) as [ev |]; [| done]. cbn in Hr.
  destruct (organizers (catalog w) !! ev_organizerId ev); [| done]. by injection Hr as <-.
Qed.

Lemma scan_commit_admits `{Crypto} now input rc w :
  keyed tk_id (db_tickets w) -> admissible w now input rc ->
  wp (scan_commit now input rc) (fun r w' => scan_accepted now input rc r w w')
     (fun _ _ => False) w.
Proof.
  intros Hk Had. pose proof (scan_record_ticket _ _ _ (ad_found _ _ _ _ Had)) as Ht.
  pose proof (Hk _ _ Ht) as Hid. rewrite <- Hid in Ht.
  pose proof (proj1 (proj1 (truthy_Some _ _) (ad_token _ _ _ _ Had))) as Htok.
  pose proof (ad_issued _ _ _ _ Had) as Hs.
  unfold scan_commit, scan_accepted, audited, db_tickets in *. wp_go; try done.
  - same_row Ht. by exists (ast_ticket rc).
  - specialize (H0 _ Ht). rewrite !bool_decide_eq_true_2 in H0 by done. done.
Qed.

(* ------------------------------------------------------------------ *)
(** ** Interleaved scans                                                *)

(** A scan between its checks and its transaction. *)
Record pending_scan : Type := {
  ps_scannedAt : Z;
  ps_input : ScanTicketInput;
  ps_record : AdmissionScanTicketRecord
}.

(** The gate: every write of a ticket or of a scan's audit row, one committed
    transaction at a time, in any order; [gate_elsewhere] is the rest of the
    program, which writes neither. *)
Inductive gate_step `{Crypto} : world * list pending_scan -> world * list pending_scan -> Prop :=
| gate_rejects now input r w w' ps :
    scan_preflight now input w = (Ok (inl r), w') -> gate_step (w, ps) (w', ps)
| gate_passes now input rc w w' ps :
    scan_preflight now input w = (Ok (inr rc), w') ->
    gate_step (w, ps) (w', {| ps_scannedAt := now; ps_input := input; ps_record := rc |} :: ps)
| gate_commits p r w w' ps :
    p ∈ ps -> scan_commit (ps_scannedAt p) (ps_input p) (ps_record p) w = (Ok r, w') ->
    gate_step (w, ps) (w', ps)
| gate_issues id bytes token ck paymentIntentId w ps :
    gate_step (w, ps) ((issueTicketFromVerifiedPayment id bytes token ck paymentIntentId w).2, ps)
| gate_fulfils uuid rnd ck ctx orderId w ps :
    gate_step (w, ps) ((issueTickets uuid rnd ck ctx orderId w).2, ps)
| gate_elsewhere w w' ps :
    ticketing w' = ticketing w -> gate_step (w, ps) (w', ps).

(** The tickets of the accepted rows, in order. *)
Definition admitted_ids (l : list scan_audit) : list string :=
  omap (fun a => if bool_decide (sa_status a = SCAN_ACCEPTED) then sa_ticketId a else None) l.

(** The row admits a ticket: the one it names, used once and for all when the
    row was written, by its token, and issued for a payment intent. *)
Definition admits (tbl : gmap string ticket) (a : scan_audit) : Prop :=
  exists id t, sa_ticketId a = Some id /\ tbl !! id = Some t /\ tk_status t = T_USED /\
    tk_admissionTokenHash t = sa_tokenHash a /\ tk_usedAt t = Some (sa_scannedAt a) /\
    is_Some (tk_paymentIntentId t).

Record gate_inv (w : world) : Prop := {
  gi_keyed : keyed tk_id (db_tickets w);
  gi_intent : forall k t, db_tickets w !! k = Some t -> is_Some (tk_admissionTokenHash t) ->
    is_Some (tk_paymentIntentId t);
  gi_once : NoDup (admitted_ids (scan_audits (ticketing w)));
  gi_admits : forall a, a ∈ scan_audits (ticketing w) -> sa_status a = SCAN_ACCEPTED ->
    admits (db_tickets w) a
}.

Lemma admitted_ids_snoc l a :
  admitted_ids (l ++ [a]) =
    admitted_ids l ++ if bool_decide (sa_status a = SCAN_ACCEPTED) then option_list (sa_ticketId a) else [].
Proof.
  unfold admitted_ids. rewrite omap_app. f_equal. cbn.
  destruct (bool_decide _); [by destruct (sa_ticketId a) | done].
Qed.

Lemma gate_inv_same w w' : ticketing w' = ticketing w -> gate_inv w -> gate_inv w'.
Proof. intros E [H1 H2 H3 H4]. unfold db_tickets in *. split; unfold db_tickets; rewrite E; done. Qed.

Lemma gate_inv_rejected now r w w' : scan_rejected now r w w' -> gate_inv w -> gate_inv w'.
Proof.
  intros (reason & row & _ & -> & Hst & _) [H1 H2 H3 H4].
  unfold audited in *. split; unfold db_tickets in *; wsimpl; [done | done | |].
  - rewrite admitted_ids_snoc, Hst. cbn. by rewrite app_nil_r.
  - intros a [Ha | ->%list_elem_of_singleton]%elem_of_app Hacc; [by apply H4 | congruence].
Qed.

(** New rows under new ids. *)
Lemma gate_inv_grow w w' :
  scan_audits (ticketing w') = scan_audits (ticketing w) ->
  db_tickets w ⊆ db_tickets w' -> keyed tk_id (db_tickets w') ->
  (forall k t, db_tickets w' !! k = Some t -> db_tickets w !! k = None ->
     is_Some (tk_admissionTokenHash t) -> is_Some (tk_paymentIntentId t)) ->
  gate_inv w -> gate_inv w'.
Proof.
  intros Ha Hsub Hk Hnew [H1 H2 H3 H4]. split; rewrite ?Ha; try done.
  - intros k t Ht Htok. destruct (db_tickets w !! k) as [t' |] eqn:E; [| by eapply Hnew].
    pose proof (lookup_weaken _ _ _ _ E Hsub). simplify_eq. by eapply H2.
  - intros a Hin Hacc. destruct (H4 a Hin Hacc) as (id & t & ? & Ht & ?).
    exists id, t. split; [done |]. split; [by eapply lookup_weaken | done].
Qed.

(** An accepted scan adds a ticket that no row admitted before. *)
Lemma gate_inv_accepted `{Crypto} now input rc r w w' :
  scan_accepted now input rc r w w' -> gate_inv w -> gate_inv w'.
Proof.
  intros (t & Ht & Hs & Htok & _ & ->) [H1 H2 H3 H4]. set (id := tk_id (ast_ticket rc)) in *.
  assert (Hin : forall a, a ∈ scan_audits (ticketing w) -> sa_status a = SCAN_ACCEPTED ->
                  sa_ticketId a <> Some id).
  { intros a Ha Hacc Hid. destruct (H4 a Ha Hacc) as (id' & t' & ? & Ht' & Hu & _). congruence. }
  assert (Hfresh : id ∉ admitted_ids (scan_audits (ticketing w))).
  { unfold admitted_ids. intros (a & Ha & Hid)%list_elem_of_omap.
    case_bool_decide; [| done]. by eapply Hin. }
  unfold audited. split; unfold db_tickets in *; wsimpl.
  - apply keyed_insert; [done |]. cbn. by apply H1.
  - intros k t' [[<- <-] | [_ Hk]]%lookup_insert_Some; [| by eapply H2]. cbn. by eapply H2.
  - rewrite admitted_ids_snoc. cbn. apply NoDup_app. split; [done |]. split; [| apply NoDup_singleton].
    intros x Hx ->%list_elem_of_singleton. by apply Hfresh.
  - intros a [Ha | ->%list_elem_of_singleton]%elem_of_app Hacc.
    + destruct (H4 a Ha Hacc) as (id' & t' & Hid & Ht' & Hu & Hrest). exists id', t'.
      split; [done |]. split; [| done]. rewrite lookup_insert_ne; [done |]. congruence.
    + exists id, (with_tk_status T_USED (Some now) t). cbn. rewrite lookup_insert_eq.
      split_and!; try done. by eapply H2.
Qed.

Lemma insert_tickets_keyed ts : forall t, keyed tk_id t -> keyed tk_id (insert_tickets ts t).
Proof.
  induction ts as [| x ts IH]; intros t Ht; [done |]. cbn. by apply IH, keyed_insert.
Qed.

(** A row of the new table is an old row or one of the inserted. *)
Lemma insert_tickets_inv ts : forall t k r,
  insert_tickets ts t !! k = Some r -> t !! k = Some r \/ r ∈ ts.
Proof.
  induction ts as [| x ts IH]; intros t k r Hr; [by left |]. cbn in Hr.
  apply IH in Hr as [[[_ <-] | [_ Hr]]%lookup_insert_Some | Hr]; [right; left | by left | by right; right].
Qed.

(** What the order flow adds: tickets without a token, and no audit row. *)
Definition adds_orders (w w' : world) : Prop :=
  scan_audits (ticketing w') = scan_audits (ticketing w) /\ exists ts,
    db_tickets w' = insert_tickets ts (db_tickets w) /\
    Forall (fun x => db_tickets w !! tk_id x = None) ts /\
    Forall (fun x => tk_admissionTokenHash x = None) ts.

Lemma loadValidated_reads orderId w :
  wp (loadValidatedOrderReservation orderId) (fun _ w' => w' = w) any w.
Proof. by wp_go. Qed.

Lemma issueWithReferences_adds uuid ck ctx orderId refs w :
  wp (issueWithReferences uuid ck ctx orderId refs) (fun _ w' => adds_orders w w') any w.
Proof.
  apply wp_transaction. unfold issue_tx. wp_step.
  eapply wp_mono; [apply loadValidated_reads | | done]. intros [o r] ? ->.
  wp_until (@for_each). wsimpl. eapply wp_mono; [apply wp_create_tickets | | done].
  intros [] w2 (-> & _ & Hfr). unfold adds_orders, db_tickets. wp_go. split; [done |].
  eexists. split; [done |]. split; [done |].
  apply Forall_lookup. intros n x Hx. rewrite list_lookup_imap in Hx.
  by apply fmap_Some in Hx as (ref & _ & ->).
Qed.

Lemma issueTickets_adds uuid rnd ck ctx orderId w :
  wp (issueTickets uuid rnd ck ctx orderId) (fun _ w' => adds_orders w w') (fun _ w' => w' = w) w.
Proof.
  unfold issueTickets, getReservationQuantity. wp_step. apply wp_transaction.
  wp_step. eapply wp_mono; [apply loadValidated_reads | | done]. intros [o r] ? ->. apply wp_ret.
  cbv zeta. eapply wp_mono; [apply allocate_attempts_wp | | done].
  { intros a refs e w'. apply issueWithReferences_atomic. }
  intros res w' (a & _ & Hrun & _). cbn beta in *.
  by refine (wp_ok _ _ any _ _ _ (issueWithReferences_adds _ _ _ _ _ w) Hrun).
Qed.

Lemma issueTicket_audits `{Crypto} id bytes token ck paymentIntentId w :
  wp (issueTicketFromVerifiedPayment id bytes token ck paymentIntentId)
     (fun _ w' => scan_audits (ticketing w') = scan_audits (ticketing w))
     (fun _ w' => scan_audits (ticketing w') = scan_audits (ticketing w)) w.
Proof. by wp_go. Qed.

Lemma gate_inv_issues `{Crypto} id bytes token ck paymentIntentId w :
  gate_inv w -> gate_inv (issueTicketFromVerifiedPayment id bytes token ck paymentIntentId w).2.
Proof.
  intros Hi. pose proof (issueTicket_wp id bytes token ck paymentIntentId w) as Hw.
  pose proof (issueTicket_audits id bytes token ck paymentIntentId w) as Ha. unfold wp in *.
  destruct (issueTicketFromVerifiedPayment _ _ _ _ _ w) as [[r | e] w']; cbn [snd].
  - destruct Hw as (_ & _ & t & _ & _ & Hq).
    destruct (itr_qrPayload r) as [qr |].
    + destruct Hq as (_ & _ & p & ev & _ & _ & _ & _ & _ & _ & Hid & Hw').
      apply (gate_inv_grow w); [done | | | | done]; rewrite Hw'.
      * by apply insert_subseteq.
      * apply keyed_insert; [apply (gi_keyed _ Hi) | done].
      * intros k t' [[_ <-] | [_ Hk]]%lookup_insert_Some Hn; [done | congruence].
    + apply (gate_inv_grow w); rewrite ?Hq; [done | done | apply (gi_keyed _ Hi) | congruence | done].
  - apply (gate_inv_grow w); rewrite ?Hw; [done | done | apply (gi_keyed _ Hi) | congruence | done].
Qed.

Lemma gate_inv_fulfils uuid rnd ck ctx orderId w :
  gate_inv w -> gate_inv (issueTickets uuid rnd ck ctx orderId w).2.
Proof.
  intros Hi. pose proof (issueTickets_adds uuid rnd ck ctx orderId w) as Hw. unfold wp in Hw.
  destruct (issueTickets _ _ _ _ _ w) as [[r | e] w']; cbn [snd]; [| by subst].
  destruct Hw as (Ha & ts & Hw' & Hfr & Hnone). rewrite Forall_forall in *.
  apply (gate_inv_grow w); [done | | | | done]; rewrite Hw'.
  - apply map_subseteq_spec. intros k t Hk. rewrite insert_tickets_other; [done |].
    intros (x & -> & Hx)%list_elem_of_fmap. by rewrite (Hfr x Hx) in Hk.
  - apply insert_tickets_keyed, Hi.
  - intros k t [Hk | Ht]%insert_tickets_inv Hn; [congruence |]. rewrite (Hnone t Ht). by intros [].
Qed.

Lemma gate_inv_step `{Crypto} s s' : gate_step s s' -> gate_inv s.1 -> gate_inv s'.1.
Proof.
  intros Hs Hi. destruct Hs; cbn [fst] in *.
  - pose proof (wp_ok _ _ _ _ _ _ (scan_preflight_wp now input w) H0) as [Hr _].
    by eapply gate_inv_rejected.
  - by destruct (wp_ok _ _ _ _ _ _ (scan_preflight_wp now input w) H0) as [-> _].
  - destruct (wp_ok _ _ _ _ _ _ (scan_commit_wp _ _ _ w) H1) as [Hr | Hr];
      [by eapply gate_inv_accepted | by eapply gate_inv_rejected].
  - by apply gate_inv_issues.
  - by apply gate_inv_fulfils.
  - by eapply gate_inv_same.
Qed.

Lemma gate_inv_run `{Crypto} s s' : rtc gate_step s s' -> gate_inv s.1 -> gate_inv s'.1.
Proof. induction 1 as [| s1 s2 s3 Hs _ IH]; intros Hi; [done |]. by apply IH, (gate_inv_step s1). Qed.

(* ------------------------------------------------------------------ *)
(** ** A ticket at the gate                                             *)

Module ScanExample.
Import IssuanceExample.

Definition input (ticketId token : string) : ScanTicketInput :=
  {| sti_ticketId := ticketId; sti_token := token; sti_scannedByUserId := "olu";
     sti_eventId := Some "ev"; sti_deviceId := None; sti_gateLabel := Some "north" |}.

(** Two devices read the ticket of [w1] at once: both pass the checks. *)
Definition scan : ScanTicketInput := input "tk-1" "secret".
Definition rc : AdmissionScanTicketRecord :=
  {| ast_ticket := t1; ast_event := ev; ast_organizer := org |}.
Definition w2 : world := (scan_commit 2000 scan rc w1).2.
Definition w3 : world := (scan_commit 2001 scan rc w2).2.

Definition pending (now : Z) : pending_scan :=
  {| ps_scannedAt := now; ps_input := scan; ps_record := rc |}.

Definition won : AdmissionScanResponse :=
  {| asr_accepted := true; asr_status := SCAN_ACCEPTED; asr_rejectionReason := None;
     asr_ticketId := Some "tk-1"; asr_scannedAt := 2000 |}.

Lemma passes now : now = 2000 \/ now = 2001 -> scan_preflight now scan w1 = (Ok (inr rc), w1).
Proof.
  intros Hnow. assert (E : (scan_preflight now scan w1).1 = Ok (inr rc)) by (destruct Hnow as [-> | ->]; vm_run).
  rewrite (surjective_pairing (scan_preflight now scan w1)), E. f_equal.
  refine (proj1 (wp_ok _ _ _ _ _ _ (scan_preflight_wp now scan w1) (run_result _ _ _ E))).
Qed.

Lemma keyed_tickets : keyed tk_id (db_tickets w1).
Proof. apply keyed_check. vm_run. Qed.

Lemma run_race : rtc gate_step (w1, []) (w3, [pending 2001; pending 2000]).
Proof.
  assert (E1 : scan_commit 2000 scan rc w1 = (Ok won, w2)) by run_ends.
  assert (E2 : scan_commit 2001 scan rc w2 = (Ok (rejected (Some TICKET_ALREADY_USED) 2001), w3))
    by run_ends.
  pose proof (gate_passes 2000 scan rc w1 w1 [] (passes 2000 ltac:(by left))) as S1.
  pose proof (gate_passes 2001 scan rc w1 w1 [pending 2000] (passes 2001 ltac:(by right))) as S2.
  pose proof (gate_commits (pending 2000) _ w1 w2 [pending 2001; pending 2000]
    ltac:(right; left) E1) as S3.
  pose proof (gate_commits (pending 2001) _ w2 w3 [pending 2001; pending 2000]
    ltac:(left) E2) as S4.
  exact (rtc_l _ _ _ _ S1 (rtc_l _ _ _ _ S2 (rtc_l _ _ _ _ S3 (rtc_once _ _ S4)))).
Qed.

Lemma gate_inv_w1 : gate_inv w1.
Proof.
  split.
  - apply keyed_tickets.
  - intros k t Hk _. eapply (bool_decide_eq_true (is_Some (tk_paymentIntentId t))).
    exact (table_check (fun t => bool_decide (is_Some (tk_paymentIntentId t))) (db_tickets w1)
             ltac:(vm_run) k t Hk).
  - assert (E : admitted_ids (scan_audits (ticketing w1)) = []) by vm_run. rewrite E. constructor.
  - assert (E : scan_audits (ticketing w1) = []) by vm_run. rewrite E. by intros a Ha%elem_of_nil.
Qed.

End ScanExample.

(* ------------------------------------------------------------------ *)
(** ** Properties                                                       *)

(** A scan always resolves, and accepts exactly when the ticket may be admitted: it exists,
    the token's hash is the stored one, its organizer (when set) is its event's,
    the scanner owns that organizer, the event is the one expected (when given),
    and the ticket is ISSUED, unexpired, for a published event that has not
    ended.  An accepted scan marks that one ticket USED at the scan's time; a
    rejected one names its reason and changes no ticket; each appends exactly
    one audit row with its verdict, and writes nothing else. *)
Theorem scanTicket_outcome `{Crypto} ck input w (Hkeyed : keyed tk_id (db_tickets w)) :
  exists r w', scanTicket ck input w = (Ok r, w') /\
    ((exists rc, admissible w (app_now ck) input rc /\ scan_accepted (app_now ck) input rc r w w') \/
     ((forall rc, ~ admissible w (app_now ck) input rc) /\ scan_rejected (app_now ck) r w w')).
Proof.
  assert (Hw : wp (scanTicket ck input) (fun r w' =>
    (exists rc, admissible w (app_now ck) input rc /\ scan_accepted (app_now ck) input rc r w w') \/
    ((forall rc, ~ admissible w (app_now ck) input rc) /\ scan_rejected (app_now ck) r w w'))
    (fun _ _ => False) w).
  { apply wp_bind. eapply wp_mono; [apply scan_preflight_wp | | done].
    intros [r | rc] w' Hd; [apply wp_ret; right; by destruct Hd |]. destruct Hd as [-> Had].
    eapply wp_mono; [by apply scan_commit_admits | | done]. intros r w' Hr. left. by exists rc. }
  unfold wp in Hw. destruct (scanTicket ck input w) as [[r | e] w']; [by exists r, w' | done].
Qed.

Lemma scanTicket_outcome_witness :
  exists r w', scanTicket (H := plain_crypto) IssuanceExample.ck ScanExample.scan IssuanceExample.w1 =
      (Ok r, w') /\
    ((exists rc, admissible (H := plain_crypto) IssuanceExample.w1 1000 ScanExample.scan rc /\
        scan_accepted (H := plain_crypto) 1000 ScanExample.scan rc r IssuanceExample.w1 w') \/
     ((forall rc, ~ admissible (H := plain_crypto) IssuanceExample.w1 1000 ScanExample.scan rc) /\
        scan_rejected 1000 r IssuanceExample.w1 w')).
Proof.
  exact (scanTicket_outcome (H := plain_crypto) IssuanceExample.ck ScanExample.scan
    IssuanceExample.w1 ScanExample.keyed_tickets).
Defined.

(** C6: A ticket is admitted once.  However the checks and transactions of concurrent scans,
    both kinds of ticket issuance and the rest of the program interleave, no two
    ACCEPTED audit rows name one ticket, and every ACCEPTED row names a ticket
    that is USED since that row's time, carries the row's token hash and was
    issued for a payment intent. *)
Theorem single_admission `{Crypto} w ps w' ps'
    (Hinv : gate_inv w) (Hrun : rtc gate_step (w, ps) (w', ps')) :
  NoDup (admitted_ids (scan_audits (ticketing w'))) /\
  forall a, a ∈ scan_audits (ticketing w') -> sa_status a = SCAN_ACCEPTED -> admits (db_tickets w') a.
Proof. by destruct (gate_inv_run _ _ Hrun Hinv). Qed.

Lemma single_admission_witness :
  admitted_ids (scan_audits (ticketing ScanExample.w3)) = ["tk-1"] /\
  NoDup (admitted_ids (scan_audits (ticketing ScanExample.w3))) /\
  forall a, a ∈ scan_audits (ticketing ScanExample.w3) -> sa_status a = SCAN_ACCEPTED ->
    admits (db_tickets ScanExample.w3) a.
Proof.
  split; [vm_run |].
  exact (single_admission (H := plain_crypto) _ _ _ _ ScanExample.gate_inv_w1 ScanExample.run_race).
Defined.

(** No scan ever admits a ticket of the order flow: it is issued ACTIVE and without an
    admission token, so whatever token, scanner, event and time a scan gives,
    it is rejected and the ticket stays as it is. *)
Theorem order_tickets_not_admissible `{Crypto} uuid rnd ck ctx orderId w res w' ck2 input
    (Hkeyed : keyed ord_id (orders (checkout w))) (Hwf : wf_stock w)
    (Hrun : issueTickets uuid rnd ck ctx orderId w = (Ok res, w'))
    (Hid : sti_ticketId input ∈ itr_issuedTicketIds res) :
  exists reason w'', scanTicket ck2 input w' = (Ok (rejected (Some reason) (app_now ck2)), w'') /\
    db_tickets w'' = db_tickets w'.
Proof.
  pose proof (wp_ok _ _ _ _ _ _ (issueTickets_wp uuid rnd ck ctx orderId w Hkeyed Hwf) Hrun)
    as (a & o & r & i & _ & Hc).
  assert (Hnot : forall rc, ~ admissible w' (app_now ck2) input rc).
  { intros rc Had. pose proof (scan_record_ticket _ _ _ (ad_found _ _ _ _ Had)) as Ht.
    pose proof (proj1 (proj1 (truthy_Some _ _) (ad_token _ _ _ _ Had))) as Htok.
    rewrite (cs_result _ _ _ _ _ _ _ _ _ _ Hc) in Hid. cbn in Hid.
    apply list_elem_of_fmap in Hid as (x & Hx & Hin).
    unfold db_tickets in Ht. rewrite (cs_tickets _ _ _ _ _ _ _ _ _ _ Hc), Hx in Ht.
    rewrite insert_tickets_lookup in Ht; [| apply (cs_fresh _ _ _ _ _ _ _ _ _ _ Hc) | done].
    injection Ht as ->. unfold order_tickets in Hin.
    apply list_elem_of_lookup in Hin as [n Hn]. rewrite list_lookup_imap in Hn.
    apply fmap_Some in Hn as (ref & _ & Hn). by rewrite Hn in Htok. }
  pose proof (scan_preflight_wp (app_now ck2) input w') as Hp. unfold wp in Hp.
  unfold scanTicket, bind. destruct (scan_preflight _ _ w') as [[[rj | rc] | e] w2]; [| | done].
  - destruct Hp as [(reason & row & -> & -> & _) _]. by eexists _, _.
  - destruct Hp as [_ Had]. by apply Hnot in Had.
Qed.

Lemma order_tickets_not_admissible_witness :
  exists reason w'', scanTicket (H := plain_crypto) IssuanceExample.ck (ScanExample.input "id0" "secret")
      IssueExample.w1 = (Ok (rejected (Some reason) 1000), w'') /\
    db_tickets w'' = db_tickets IssueExample.w1.
Proof.
  assert (E : issueTickets IssueExample.ids IssueExample.rnd IssueExample.ck None "ord"
    IssueExample.w0 = (Ok IssueExample.out, IssueExample.w1)) by run_ends.
  refine (order_tickets_not_admissible (H := plain_crypto) _ _ _ _ _ _ _ _ IssuanceExample.ck
    (ScanExample.input "id0" "secret") IssueExample.keyed_ord IssueExample.wf_issue_stock E _).
  cbn. left.
Defined.
