(* ===== verification/AdmissionCycles.v ===== *)
(** AdmissionCycles.v: the entry and exit cycles of a ticket
    (src/src/modules/admissions/infrastructure/repositories): the state row with its
    version, and the log of admission events.  The scan of Admissions.v does not use
    them; what they offer a caller is optimistic locking. *)

From S2P Require Import Prelude Errors Store.

Local Open Scope Z_scope.

Inductive AdmissionState : Type := NOT_USED | INSIDE | EXITED | STATE_REJECTED | BLOCKED.

#[export] Instance AdmissionState_eq_dec : EqDecision AdmissionState.
Proof. solve_decision. Defined.

Inductive AdmissionDirection : Type := DIRECTION_ENTRY | DIRECTION_EXIT.

Inductive AdmissionEventResult : Type :=
| EVENT_ACCEPTED | EVENT_REJECTED | CONFLICT_DUPLICATE_OFFLINE_ENTRY | CONFLICT_EXIT_WITHOUT_ENTRY
| CONFLICT_ALREADY_CONSUMED_ONLINE | EVENT_BLOCKED.

(** A row of ticket_admission_state. *)
Record admission_state : Type := {
  as_ticketId : string;
  as_currentState : AdmissionState;
  as_admissionCycleNo : Z;
  as_lastEntryAt : option Z;
  as_lastExitAt : option Z;
  as_version : Z
}.

(** A row of admission_events. *)
Record admission_event : Type := {
  ae_id : string;
  ae_scanEventId : option string;
  ae_ticketId : string;
  ae_admissionCycleNo : Z;
  ae_direction : AdmissionDirection;
  ae_result : AdmissionEventResult;
  ae_scannedAt : Z;
  ae_gateId : option string
}.

(** The two tables. *)
Record cycles : Type := {
  states : gmap string admission_state;
  events_log : gmap string admission_event
}.

Definition cycle_op (A : Type) : Type := prog cycles error A.

Definition with_states (t : gmap string admission_state) (s : cycles) : cycles :=
  {| states := t; events_log := events_log s |}.

(** An INTEGER column holds 32 bits. *)
Definition is_int4 (z : Z) : bool := (- 2 ^ 31 <=? z) && (z <? 2 ^ 31).

Definition out_of_range : error := OtherError "PrismaClientUnknownRequestError" "integer out of range".

(* ------------------------------------------------------------------ *)
(** ** The repositories                                                 *)

(** SELECT ... FOR UPDATE: the lock itself is the transaction the caller is in. *)
Definition lockAdmissionState (ticketId : string) : cycle_op (option admission_state) :=
  reads (fun s => states s !! ticketId).

Record AdmissionStateUpdate : Type := {
  asu_ticketId : string;
  asu_currentState : AdmissionState;
  asu_admissionCycleNo : Z;
  asu_lastEntryAt : option Z;
  asu_lastExitAt : option Z;
  asu_expectedVersion : Z
}.

Definition updated_state (input : AdmissionStateUpdate) (r : admission_state) : admission_state :=
  {| as_ticketId := as_ticketId r; as_currentState := asu_currentState input;
     as_admissionCycleNo := asu_admissionCycleNo input; as_lastEntryAt := asu_lastEntryAt input;
     as_lastExitAt := asu_lastExitAt input; as_version := as_version r + 1 |}.

(** UPDATE ... WHERE ticket_id = and version =; whether it changed its one row. *)
Definition updateAdmissionStateWithVersion (input : AdmissionStateUpdate) : cycle_op bool :=
  let* found := reads (fun s => states s !! asu_ticketId input) in
  match found with
  | Some r =>
      if as_version r =? asu_expectedVersion input then
        do* throw_if (negb (is_int4 (asu_admissionCycleNo input) && is_int4 (as_version r + 1))) out_of_range in
        do* modify (fun s => with_states (<[asu_ticketId input := updated_state input r]> (states s)) s) in
        ret true
      else ret false
  | None => ret false
  end.

(** [PrismaAdmissionEventRepository.append]: the id and the scan event are unique. *)
Definition same_scan (e e' : admission_event) : bool :=
  match ae_scanEventId e with Some _ => bool_decide (ae_scanEventId e' = ae_scanEventId e) | None => false end.

Definition appendAdmissionEvent (e : admission_event) : cycle_op unit :=
  let* taken := reads (fun s => events_log s) in
  do* throw_if (negb (bool_decide (taken !! ae_id e = None) && bool_decide (find_row (same_scan e) taken = None)))
        unique_violation in
  modify (fun s => {| states := states s; events_log := <[ae_id e := e]> (events_log s) |}).

(* ------------------------------------------------------------------ *)
(** ** Optimistic locking                                               *)

(** One call of either repository, by anybody. *)
Inductive cycle_step (s : cycles) : cycles -> Prop :=
| cycle_read id : cycle_step s (lockAdmissionState id s).2
| cycle_update input : cycle_step s (updateAdmissionStateWithVersion input s).2
| cycle_append e : cycle_step s (appendAdmissionEvent e s).2.

(** How a call ends: a row changes only by an update that names its version. *)
Lemma update_wp input s :
  wp (updateAdmissionStateWithVersion input)
     (fun changed s' => events_log s' = events_log s /\
        if changed then exists r, states s !! asu_ticketId input = Some r /\
                          as_version r = asu_expectedVersion input /\
                          states s' = <[asu_ticketId input := updated_state input r]> (states s)
        else states s' = states s /\
             (forall r, states s !! asu_ticketId input = Some r -> as_version r <> asu_expectedVersion input))
     (fun _ s' => s' = s) s.
Proof.
  unfold updateAdmissionStateWithVersion. wp_step. wp_step.
  destruct (states s !! asu_ticketId input) as [r |] eqn:Hr; [| wp_run; split_and!; by try intros ? [=]].
  destruct (as_version r =? asu_expectedVersion input) eqn:Hv.
  - apply Z.eqb_eq in Hv. wp_run; [done |]. split; [done |]. by exists r.
  - apply Z.eqb_neq in Hv. wp_run. split_and!; [done | done |]. by intros ? [= <-].
Qed.

(** Along calls a version never goes back, and while it stands the row stands. *)
Definition succeeds (id : string) (s s' : cycles) : Prop :=
  forall r, states s !! id = Some r -> exists r', states s' !! id = Some r' /\
    (r' = r \/ as_version r < as_version r').

Lemma succeeds_step id s s' : cycle_step s s' -> succeeds id s s'.
Proof.
  intros Hstep r Hr. assert (Hsame : states s' = states s -> exists r', states s' !! id = Some r' /\
    (r' = r \/ as_version r < as_version r')) by (intros ->; eauto).
  destruct Hstep as [k | input | e]; [by apply Hsame | |].
  - pose proof (update_wp input s) as Hup. unfold wp in Hup.
    destruct (updateAdmissionStateWithVersion input s) as [[[] | err] s']; cbn [snd] in *;
      [| by apply Hsame, Hup | apply Hsame; by subst s'].
    destruct Hup as (_ & r0 & Hr0 & _ & Hs'). rewrite Hs'.
    destruct (decide (asu_ticketId input = id)) as [<- | Hne].
    + rewrite lookup_insert_eq. eexists. split; [done |]. right. cbn. assert (r0 = r) as -> by congruence. lia.
    + rewrite lookup_insert_ne by done. eauto.
  - apply Hsame. unfold appendAdmissionEvent, bind, reads, throw_if. by destruct (negb _).
Qed.

#[export] Instance succeeds_preorder id : PreOrder (succeeds id).
Proof.
  split; [intros s r Hr; eauto |]. intros s1 s2 s3 H12 H23 r Hr.
  destruct (H12 r Hr) as (r2 & Hr2 & H2), (H23 r2 Hr2) as (r3 & Hr3 & H3). exists r3. split; [done |].
  destruct H2 as [-> | H2], H3 as [-> | H3]; auto. right. lia.
Qed.

(** No lost update: an update under the version that was read overwrites exactly the row
    that was read, whatever other calls came between, and its version is the next. *)
Theorem no_lost_update s s1 s2 id r input
    (Hread : lockAdmissionState id s = (Ok (Some r), s)) (Hcalls : rtc cycle_step s s1)
    (Hid : asu_ticketId input = id) (Hversion : asu_expectedVersion input = as_version r)
    (Hdone : updateAdmissionStateWithVersion input s1 = (Ok true, s2)) :
  states s1 !! id = Some r /\ states s2 = <[id := updated_state input r]> (states s1).
Proof.
  injection Hread as Hr.
  assert (Hgo : succeeds id s s1) by (clear -Hcalls; induction Hcalls; [done | etransitivity; [by apply succeeds_step | done]]).
  pose proof (wp_ok _ _ _ _ _ _ (update_wp input s1) Hdone) as (_ & r1 & Hr1 & Hv & Hs2). rewrite Hid in *.
  destruct (Hgo r Hr) as (r' & Hr' & Hcase). assert (r' = r1) as -> by congruence.
  destruct Hcase as [-> | Hlt]; [done |]. lia.
Qed.

(* ------------------------------------------------------------------ *)
(** ** Two gates at once                                                *)

Module CycleExample.

Definition fresh_row : admission_state :=
  {| as_ticketId := "t"; as_currentState := NOT_USED; as_admissionCycleNo := 0; as_lastEntryAt := None;
     as_lastExitAt := None; as_version := 0 |}.
Definition rows : gmap string admission_state := {["t" := fresh_row]}.
Definition start : cycles := {| states := rows; events_log := ∅ |}.

Definition enter (now : Z) : AdmissionStateUpdate :=
  {| asu_ticketId := "t"; asu_currentState := INSIDE; asu_admissionCycleNo := 1; asu_lastEntryAt := Some now;
     asu_lastExitAt := None; asu_expectedVersion := 0 |}.

Definition entered : cycles := (updateAdmissionStateWithVersion (enter 1000) start).2.

Definition scan (id : string) : admission_event :=
  {| ae_id := id; ae_scanEventId := Some "scan"; ae_ticketId := "t"; ae_admissionCycleNo := 1;
     ae_direction := DIRECTION_ENTRY; ae_result := EVENT_ACCEPTED; ae_scannedAt := 1000; ae_gateId := None |}.

(** Both gates read version 0; the second entry is turned away. *)
Example second_gate_refused :
  ((updateAdmissionStateWithVersion (enter 1000) start).1, (updateAdmissionStateWithVersion (enter 1001) entered).1,
   as_version <$> states entered !! "t") = (Ok true, Ok false, Some 1).
Proof. vm_run. Qed.

(** One event per scan. *)
Example scan_logged_once :
  (appendAdmissionEvent (scan "e2") (appendAdmissionEvent (scan "e1") start).2).1 = Err unique_violation.
Proof. vm_run. Qed.

End CycleExample.

Lemma no_lost_update_witness : states CycleExample.start !! "t" = Some CycleExample.fresh_row.
Proof.
  refine (proj1 (no_lost_update CycleExample.start CycleExample.start CycleExample.entered "t"
    CycleExample.fresh_row (CycleExample.enter 1000) _ (rtc_refl _ _) eq_refl eq_refl (run_result _ _ _ _)));
    [run_ends | vm_run].
Defined.
