(* ===== verification/Repositories.v ===== *)
(** Repositories.v: what the repositories promise to the use cases: the interfaces of the
    domain directories (src/src/modules/tickets/domain/repositories, payments, orders,
    inventory, idempotency) as classes of operations with their laws, over any store.  The Prisma
    implementations (Tickets.v, PaymentIntents.v, Webhooks.v, Orders.v,
    Inventory.v) are instances; what
    is shown for the interface alone holds of them, and of any other implementation.

    The heart of the contract is the guarded write: of all who try it, the first wins. *)

From S2P Require Import Prelude Errors Values Hashing Store Context LaunchControl Inventory Providers Orders Payments Base32 Tickets PaymentIntents Webhooks Issuance Admissions.

Local Open Scope Z_scope.

(* ------------------------------------------------------------------ *)
(** ** Guarded writes                                                   *)

(** A family of writes that answer how many rows they changed, guarded by one test. *)
Class OneShot {S A : Type} (attempt : A -> prog S error Z) (is_open : S -> bool) : Prop := {
  shot_wins : forall a s, is_open s = true -> exists s', attempt a s = (Ok 1, s') /\ is_open s' = false;
  shot_loses : forall a s, is_open s = false -> attempt a s = (Ok 0, s)
}.

Section OneShots.
Context {S A : Type} (attempt : A -> prog S error Z) (is_open : S -> bool) `{!OneShot attempt is_open}.

Fixpoint attempts (l : list A) : prog S error (list Z) :=
  match l with
  | [] => ret []
  | a :: l => let* n := attempt a in let* ns := attempts l in ret (n :: ns)
  end.

Lemma all_lose l s : is_open s = false -> attempts l s = (Ok (repeat 0 (length l)), s).
Proof.
  intros Hs. induction l as [| a l IH]; [done |]. cbn [attempts]. unfold bind.
  by rewrite (shot_loses a s Hs), IH.
Qed.

(** Whoever else tries, in whatever number: the first has changed the row, the others
    are told that they changed nothing, and have changed nothing. *)
Lemma first_wins a l s :
  is_open s = true -> attempts (a :: l) s = (Ok (1 :: repeat 0 (length l)), (attempt a s).2).
Proof.
  intros Hs. destruct (shot_wins a s Hs) as (s' & Ha & Hs'). cbn [attempts]. unfold bind.
  by rewrite Ha, (all_lose l s' Hs').
Qed.
End OneShots.

(** [updateMany] guarded by a test that the write turns off. *)
Lemma updateMany_one_shot {R A} (T : table R) id (P : R -> bool) (f : A -> R -> R) :
  (forall m w, tb_rows T (tb_store T m w) = m) -> (forall a r, P r = true -> P (f a r) = false) ->
  OneShot (fun a => updateMany T id P (f a)) (fun w => match tb_rows T w !! id with Some r => P r | None => false end).
Proof.
  intros Hstore Hoff. split; intros a w; unfold updateMany; destruct (tb_rows T w !! id) as [r |] eqn:Hr; try done.
  - intros HP. rewrite HP. eexists. split; [done |]. rewrite Hstore, lookup_insert_eq. by apply Hoff.
  - intros HP. by rewrite HP.
Qed.

(* ------------------------------------------------------------------ *)
(** ** TicketRepository                                                 *)

Class TicketRepository (S : Type) : Type := {
  tr_create : ticket -> prog S error unit;
  tr_createMany : list ticket -> prog S error unit;
  tr_findById : string -> prog S error (option ticket);
  tr_updateStatus : string -> TicketStatus -> prog S error unit;
  tr_findOwnedByUser : string -> prog S error (list ticket);
  tr_findOwnedById : string -> string -> prog S error (option ticket);
  tr_findByPaymentIntentOwnerAndEvent : string -> string -> string -> prog S error (option ticket);
  tr_createIssuedTicket : ticket -> prog S error ticket;
  tr_appendIssuanceAudit : issuance_audit -> prog S error unit;
  tr_findForAdmissionScan : string -> prog S error (option AdmissionScanTicketRecord);
  tr_markUsedIfIssuable : string -> string -> Z -> prog S error Z
}.

(** A ticket a scan with this token may mark as used. *)
Definition issuable (hash : string) (t : ticket) : bool :=
  bool_decide (tk_status t = T_ISSUED) && bool_decide (tk_admissionTokenHash t = Some hash).

(** A write of one new row: refused whole, or the row is there and the others as before. *)
Definition inserts {S R} (row_of : S -> string -> option R) (id : R -> string) (r : R) (m : prog S error unit) (s : S) : Prop :=
  m s = (Err unique_violation, s) \/
  exists s', m s = (Ok tt, s') /\ row_of s (id r) = None /\
    forall k, row_of s' k = if bool_decide (k = id r) then Some r else row_of s k.

Class TicketRepositoryLaws {S} (R : TicketRepository S) (row_of : S -> string -> option ticket) : Prop := {
  tl_find : forall id s, tr_findById id s = (Ok (row_of s id), s);
  tl_create : forall t s, inserts row_of tk_id t (tr_create t) s;
  tl_createMany : forall ts s, exists s', tr_createMany ts s = (Ok tt, s') \/ tr_createMany ts s = (Err unique_violation, s);
  tl_createIssued : forall t s, tr_createIssuedTicket t s = (do* tr_create t in ret t) s;
  tl_updateStatus : forall id st t s, row_of s id = Some t -> exists s', tr_updateStatus id st s = (Ok tt, s') /\
    row_of s' id = Some (with_tk_status st (tk_usedAt t) t);
  tl_owned : forall owner s, exists ts, tr_findOwnedByUser owner s = (Ok ts, s) /\ Forall (fun t => tk_ownerUserId t = owner) ts;
  tl_ownedById : forall id owner s, exists o, tr_findOwnedById id owner s = (Ok o, s) /\
    forall t, o = Some t -> tk_id t = id /\ tk_ownerUserId t = owner;
  tl_ofIntent : forall intent owner ev s, exists o, tr_findByPaymentIntentOwnerAndEvent intent owner ev s = (Ok o, s) /\
    forall t, o = Some t -> tk_paymentIntentId t = Some intent /\ tk_ownerUserId t = owner /\ tk_eventId t = ev;
  tl_audit : forall row s, exists s', tr_appendIssuanceAudit row s = (Ok tt, s') /\ row_of s' = row_of s;
  tl_scan : forall id s, exists o, tr_findForAdmissionScan id s = (Ok o, s) /\
    forall rc, o = Some rc -> row_of s id = Some (ast_ticket rc);
  tl_used_once :: forall id hash, OneShot (tr_markUsedIfIssuable id hash)
    (fun s => match row_of s id with Some t => issuable hash t | None => false end);
  tl_used : forall id hash usedAt t s, row_of s id = Some t -> issuable hash t = true ->
    row_of (tr_markUsedIfIssuable id hash usedAt s).2 id = Some (with_tk_status T_USED (Some usedAt) t)
}.

Section Tickets.
Context {S : Type} {R : TicketRepository S} {row_of : S -> string -> option ticket} `{!TicketRepositoryLaws R row_of}.

(** A ticket that was created is the one that is found. *)
Lemma created_ticket_found t s s' :
  tr_create t s = (Ok tt, s') -> tr_findById (tk_id t) s' = (Ok (Some t), s').
Proof.
  intros Hc. rewrite tl_find. destruct (tl_create t s) as [He | (s1 & He & _ & Hrow)]; rewrite He in Hc; [done |].
  injection Hc as <-. by rewrite Hrow, bool_decide_true.
Qed.

(** Scans of one issued ticket with its token, at any times: the first admits, and the
    ticket shows its time for ever after; the others admit nobody. *)
Lemma first_scan_admits id hash t s (usedAt : Z) later :
  row_of s id = Some t -> issuable hash t = true ->
  exists s', attempts (tr_markUsedIfIssuable id hash) (usedAt :: later) s = (Ok (1 :: repeat 0 (length later)), s') /\
    tr_findById id s' = (Ok (Some (with_tk_status T_USED (Some usedAt) t)), s').
Proof.
  intros Ht Hi. eexists. split; [eapply (first_wins _ _ (OneShot0 := tl_used_once id hash)); by rewrite Ht |].
  rewrite tl_find. by rewrite (tl_used id hash usedAt t s Ht Hi).
Qed.
End Tickets.

(* ------------------------------------------------------------------ *)
(** ** PaymentIntentRepository                                          *)

(** [TicketIssuancePaymentIntentRecord]: the intent and the rows its include joins in. *)
Record TicketIssuancePaymentIntentRecord : Type := {
  tip_intent : payment_intent;
  tip_buyer : option user;
  tip_organizer : option organizer;
  tip_event : option (event * option organizer)
}.

(** [hasIssuanceSnapshot] on the record. *)
Definition joined_whole (r : TicketIssuancePaymentIntentRecord) : bool :=
  match tip_buyer r, tip_organizer r, tip_event r with Some _, Some _, Some (_, Some _) => true | _, _, _ => false end.

Class PaymentIntentRepository (S : Type) : Type := {
  ir_findByIdForTicketIssuance : string -> prog S error (option TicketIssuancePaymentIntentRecord);
  ir_findByBuyerAndIdempotency : string -> string -> string -> prog S error (option payment_intent);
  ir_findOwnedByBuyer : string -> string -> prog S error (option payment_intent);
  ir_findById : string -> prog S error (option payment_intent);
  ir_findByProviderReference : string -> prog S error (option payment_intent);
  ir_create : payment_intent -> prog S error payment_intent;
  ir_markRetryPending : string -> prog S error payment_intent;
  ir_markInitiated : string -> option string -> option string -> json -> Z -> prog S error payment_intent;
  ir_markFailed : string -> string -> string -> json -> Z -> prog S error payment_intent;
  ir_transitionToVerified : string -> Z -> ProviderVerificationResult -> prog S error Z;
  ir_transitionToFailed : string -> Z -> string -> string -> ProviderVerificationResult -> prog S error Z
}.

(** The two ways a verification ends an intent. *)
Inductive settlement : Type :=
| to_verified (verifiedAt : Z) (v : ProviderVerificationResult)
| to_failed (failedAt : Z) (failureCode failureMessage : string) (v : ProviderVerificationResult).

Definition settled_status (a : settlement) : PaymentIntentStatus :=
  match a with to_verified _ _ => VERIFIED | to_failed _ _ _ _ => FAILED end.

Definition settling {S} `{PaymentIntentRepository S} (id : string) (a : settlement) : prog S error Z :=
  match a with
  | to_verified verifiedAt v => ir_transitionToVerified id verifiedAt v
  | to_failed failedAt code msg v => ir_transitionToFailed id failedAt code msg v
  end.

(** A write of a row that must be there. *)
Definition marks {S} (row_of : S -> string -> option payment_intent) (id : string) (st : PaymentIntentStatus)
    (m : prog S error payment_intent) (s : S) : Prop :=
  match row_of s id with
  | None => m s = (Err record_not_found, s)
  | Some _ => exists p s', m s = (Ok p, s') /\ row_of s' id = Some p /\ pi_status p = st
  end.

Class PaymentIntentRepositoryLaws {S} (R : PaymentIntentRepository S) (row_of : S -> string -> option payment_intent) : Prop := {
  il_find : forall id s, ir_findById id s = (Ok (row_of s id), s);
  il_issuance : forall id s, exists o, ir_findByIdForTicketIssuance id s = (Ok o, s) /\ tip_intent <$> o = row_of s id;
  il_create : forall p s, inserts row_of pi_id p (do* ir_create p in ret tt) s;
  il_byKey : forall buyer use key s, exists o, ir_findByBuyerAndIdempotency buyer use key s = (Ok o, s) /\
    forall p, o = Some p -> pi_buyerUserId p = buyer /\ pi_idempotencyUseCase p = use /\ pi_idempotencyKeyHash p = key;
  il_owned : forall id buyer s, exists o, ir_findOwnedByBuyer id buyer s = (Ok o, s) /\
    forall p, o = Some p -> pi_id p = id /\ pi_buyerUserId p = buyer;
  il_byReference : forall ref s, exists o, ir_findByProviderReference ref s = (Ok o, s) /\
    forall p, o = Some p -> pi_providerReference p = ref;
  il_retry : forall id s, marks row_of id INITIATION_PENDING (ir_markRetryPending id) s;
  il_initiated : forall id url code raw at_ s, marks row_of id INITIATED (ir_markInitiated id url code raw at_) s;
  il_failed : forall id code msg raw at_ s, marks row_of id INITIATION_FAILED (ir_markFailed id code msg raw at_) s;
  il_settle_once :: forall id, OneShot (settling id)
    (fun s => match row_of s id with Some p => awaiting_payment p | None => false end);
  il_settled : forall id a p s, row_of s id = Some p -> awaiting_payment p = true ->
    exists p', row_of (settling id a s).2 id = Some p' /\ pi_status p' = settled_status a
}.

Section Intents.
Context {S : Type} {R : PaymentIntentRepository S} {row_of : S -> string -> option payment_intent}
  `{!PaymentIntentRepositoryLaws R row_of}.

(** Webhooks that settle one intent at once, some as verified, some as failed: the first
    decides, the others are told that they changed nothing. *)
Lemma first_settlement_decides id p s a later :
  row_of s id = Some p -> awaiting_payment p = true ->
  exists s' p', attempts (settling id) (a :: later) s = (Ok (1 :: repeat 0 (length later)), s') /\
    ir_findById id s' = (Ok (Some p'), s') /\ pi_status p' = settled_status a.
Proof.
  intros Hp Ha. destruct (il_settled id a p s Hp Ha) as (p' & Hp' & Hst). eexists _, p'.
  split; [eapply (first_wins _ _ (OneShot0 := il_settle_once id)); by rewrite Hp |]. by rewrite il_find, Hp'.
Qed.
End Intents.

(* ------------------------------------------------------------------ *)
(** ** ProviderWebhookEventRepository and OrderRepository               *)

Class ProviderWebhookEventRepository (S : Type) : Type := {
  wr_create : webhook_event -> prog S error webhook_event;
  wr_findByProviderAndEventId : PaymentProvider -> string -> prog S error (option webhook_event);
  wr_findByProviderAndPayloadHash : PaymentProvider -> string -> prog S error (option webhook_event);
  wr_updateProcessing : string -> WebhookProcessingStatus -> option string -> option string -> option (string * string) -> Z ->
    prog S error webhook_event
}.

(** What tells a delivery from another. *)
Definition delivery_of (e : webhook_event) : PaymentProvider * string * string :=
  (we_provider e, we_providerEventId e, we_payloadHash e).

(** Two rows for one delivery: of one provider, with its event id or its payload. *)
Definition same_delivery (a b : webhook_event) : Prop :=
  we_provider a = we_provider b /\ (we_providerEventId a = we_providerEventId b \/ we_payloadHash a = we_payloadHash b).

Class ProviderWebhookEventRepositoryLaws {S} (R : ProviderWebhookEventRepository S)
    (row_of : S -> string -> option webhook_event) : Prop := {
  wl_create : forall e s, inserts row_of we_id e (do* wr_create e in ret tt) s;
  wl_refuses : forall e s id e0, row_of s id = Some e0 -> same_delivery e e0 -> wr_create e s = (Err unique_violation, s);
  wl_byEventId : forall provider eventId s, exists o, wr_findByProviderAndEventId provider eventId s = (Ok o, s) /\
    (o = None -> forall id e, row_of s id = Some e -> we_provider e = provider -> we_providerEventId e <> eventId);
  wl_byHash : forall provider hash s, exists o, wr_findByProviderAndPayloadHash provider hash s = (Ok o, s) /\
    (o = None -> forall id e, row_of s id = Some e -> we_provider e = provider -> we_payloadHash e <> hash);
  wl_update : forall id st intent ref failure at_ e s, row_of s id = Some e ->
    exists e' s', wr_updateProcessing id st intent ref failure at_ s = (Ok e', s') /\ row_of s' id = Some e' /\
      we_processingStatus e' = st /\ delivery_of e' = delivery_of e
}.

Section Deliveries.
Context {S : Type} {R : ProviderWebhookEventRepository S} {row_of : S -> string -> option webhook_event}
  `{!ProviderWebhookEventRepositoryLaws R row_of}.

(** A delivery that was recorded is recorded once, in whatever state its processing is:
    another row for it is refused, and one of the two finds that the services try finds
    a row. *)
Lemma delivery_recorded_once e e' st intent ref failure at_ s s1 :
  (do* wr_create e in ret tt) s = (Ok tt, s1) -> same_delivery e' e ->
  exists e1 s2, wr_updateProcessing (we_id e) st intent ref failure at_ s1 = (Ok e1, s2) /\
    wr_create e' s2 = (Err unique_violation, s2) /\
    ((exists x, wr_findByProviderAndEventId (we_provider e') (we_providerEventId e') s2 = (Ok (Some x), s2)) \/
     (exists x, wr_findByProviderAndPayloadHash (we_provider e') (we_payloadHash e') s2 = (Ok (Some x), s2))).
Proof.
  intros Hc Hsame. destruct (wl_create e s) as [He | (s1' & He & _ & Hrow)]; rewrite He in Hc; [done |]. injection Hc as ->.
  destruct (wl_update (we_id e) st intent ref failure at_ e s1) as (e1 & s2 & Hup & Hrow2 & _ & [= Hprov Hev Hhash]);
    [by rewrite Hrow, bool_decide_true |].
  exists e1, s2. split; [done |]. split; [eapply wl_refuses; [exact Hrow2 |]; unfold same_delivery in *; by rewrite Hprov, Hev, Hhash |].
  destruct Hsame as [Hp [Hid | Hh]]; [left | right].
  - destruct (wl_byEventId (we_provider e') (we_providerEventId e') s2) as ([x |] & Hfind & Hnone); [by exists x |].
    destruct (Hnone eq_refl _ _ Hrow2); congruence.
  - destruct (wl_byHash (we_provider e') (we_payloadHash e') s2) as ([x |] & Hfind & Hnone); [by exists x |].
    destruct (Hnone eq_refl _ _ Hrow2); congruence.
Qed.
End Deliveries.

Class OrderRepository (S : Type) : Type := {
  or_create : order -> prog S error unit;
  or_findById : string -> prog S error (option order);
  or_updateStatus : string -> OrderStatus -> prog S error unit
}.

Class OrderRepositoryLaws {S} (R : OrderRepository S) (row_of : S -> string -> option order) : Prop := {
  ol_create : forall o s, inserts row_of ord_id o (or_create o) s;
  ol_find : forall id s, or_findById id s = (Ok (row_of s id), s);
  ol_update : forall id st s, match row_of s id with
    | None => or_updateStatus id st s = (Err record_not_found, s)
    | Some o => exists s', or_updateStatus id st s = (Ok tt, s') /\ row_of s' id = Some (with_ord_status st o)
    end
}.

(* ------------------------------------------------------------------ *)
(** ** ReservationRepository and IdempotencyRepository                  *)

Class ReservationRepository (S : Type) : Type := {
  rr_createHeldReservation : string -> string -> string -> string -> Z -> Z -> prog S error unit;
  rr_claimExpiredHeldReservations : nat -> (string -> bool) -> Z -> prog S error (list reservation);
  rr_getActiveReservationQuantity : string -> string -> Z -> prog S error Z;
  rr_updateReservationStatus : string -> ReservationStatus -> prog S error unit;
  rr_findById : string -> prog S error (option reservation)
}.

Class ReservationRepositoryLaws {S} (R : ReservationRepository S) (row_of : S -> string -> option reservation) : Prop := {
  rl_find : forall id s, rr_findById id s = (Ok (row_of s id), s);
  rl_create : forall id owner ev tt_ q exp s,
    inserts row_of rsv_id
      {| rsv_id := id; rsv_ownerUserId := owner; rsv_eventId := ev; rsv_ticketTypeId := tt_; rsv_quantity := q;
         rsv_status := HELD; rsv_expiresAt := exp |} (rr_createHeldReservation id owner ev tt_ q exp) s;
  rl_claim : forall limit skipped now s, exists l, rr_claimExpiredHeldReservations limit skipped now s = (Ok l, s) /\
    (length l <= limit)%nat /\
    Forall (fun r => rsv_status r = HELD /\ rsv_expiresAt r <= now /\ skipped (rsv_id r) = false) l;
  rl_update : forall id st r s, row_of s id = Some r -> exists s', rr_updateReservationStatus id st s = (Ok tt, s') /\
    row_of s' id = Some (with_rsv_status st r)
}.

Class IdempotencyRepository (S : Type) : Type := {
  er_findByKey : string -> string -> string -> prog S error (option idempotency_key);
  er_tryCreatePending : string -> string -> string -> string -> prog S error bool;
  er_complete : string -> string -> string -> Z -> json -> prog S error unit
}.

(** What the calls answer when each runs outside a transaction, or first in one. *)
Class IdempotencyRepositoryLaws {S} (R : IdempotencyRepository S) : Prop := {
  el_find : forall actor use key s, exists o, er_findByKey actor use key s = (Ok o, s);
  el_taken : forall actor use key hash k s, er_findByKey actor use key s = (Ok (Some k), s) ->
    er_tryCreatePending actor use key hash s = (Ok false, s);
  el_free : forall actor use key hash s, er_findByKey actor use key s = (Ok None, s) ->
    exists s' k, er_tryCreatePending actor use key hash s = (Ok true, s') /\
      er_findByKey actor use key s' = (Ok (Some k), s') /\ idk_requestHash k = hash /\ idk_responseCode k = None;
  el_complete : forall actor use key code body k s, er_findByKey actor use key s = (Ok (Some k), s) ->
    exists s', er_complete actor use key code body s = (Ok tt, s') /\
      er_findByKey actor use key s' = (Ok (Some (with_response (Some code) (object_or_null body) k)), s')
}.

Section Idempotency.
Context {S : Type} {R : IdempotencyRepository S} `{!IdempotencyRepositoryLaws R}.

(** The life of a key, each call a transaction of its own: the first claim takes it, a
    second does not; what the first then answers is what a third request finds, under the
    fingerprint of the first.  (Inside one transaction a failed claim aborts the rest:
    [Store.statement_refused].) *)
Lemma key_replays actor use key hash hash' code fields s :
  er_findByKey actor use key s = (Ok None, s) ->
  exists k s', (do* er_tryCreatePending actor use key hash in
                let* second := er_tryCreatePending actor use key hash' in
                do* er_complete actor use key code (JObj fields) in
                let* found := er_findByKey actor use key in ret (second, found)) s = (Ok (false, Some k), s') /\
    idk_requestHash k = hash /\ idk_responseCode k = Some code /\ idk_responseBody k = JObj fields.
Proof.
  intros Hfree. destruct (el_free actor use key hash s Hfree) as (s1 & k & Hclaim & Hfind & Hhash & _).
  destruct (el_complete actor use key code (JObj fields) k s1 Hfind) as (s2 & Hdone & Hfound).
  eexists _, s2. unfold bind. rewrite Hclaim, (el_taken actor use key hash' k s1 Hfind), Hdone, Hfound. done.
Qed.
End Idempotency.

(* ------------------------------------------------------------------ *)
(** ** The implementations                                              *)

Lemma create_inserts {R} (T : table R) r w :
  (forall m w', tb_rows T (tb_store T m w') = m) ->
  inserts (fun w k => tb_rows T w !! k) (tb_id T) r (create T r) w.
Proof.
  intros Hstore. unfold inserts, create. repeat case_bool_decide; cbn [andb]; try by left.
  right. eexists. split; [done |]. split; [done |]. intros k. rewrite Hstore. case_bool_decide; subst.
  - apply lookup_insert_eq.
  - by apply lookup_insert_ne.
Qed.

Lemma update_marks f st id w :
  (forall p, pi_status (f p) = st) ->
  marks (fun w k => payment_intents (intents w) !! k) id st (update payment_intents_t id f) w.
Proof.
  intros Hst. unfold marks, update. cbn. destruct (payment_intents (intents w) !! id) as [p |]; [| done].
  eexists _, _. split; [done |]. cbn. by rewrite lookup_insert_eq.
Qed.

Section Prisma.
Context `{Crypto}.

Definition PrismaTicketRepository : TicketRepository world := {|
  tr_create := createTicket; tr_createMany := createMany; tr_findById := findTicketById;
  tr_updateStatus := updateTicketStatus; tr_findOwnedByUser := Tickets.findOwnedByUser;
  tr_findOwnedById := findOwnedTicketById; tr_findByPaymentIntentOwnerAndEvent := findByPaymentIntentOwnerAndEvent;
  tr_createIssuedTicket := fun t => do* createTicket t in ret t;
  tr_appendIssuanceAudit := appendIssuanceAudit; tr_findForAdmissionScan := findForAdmissionScan;
  tr_markUsedIfIssuable := markUsedIfIssuable |}.
#[export] Existing Instance PrismaTicketRepository.

Definition findByIdForTicketIssuance (paymentIntentId : string) : op (option TicketIssuancePaymentIntentRecord) :=
  reads (fun w =>
    (fun p => {| tip_intent := p; tip_buyer := users (catalog w) !! pi_buyerUserId p;
                 tip_organizer := organizers (catalog w) !! pi_organizerId p;
                 tip_event := (fun ev => (ev, organizers (catalog w) !! ev_organizerId ev)) <$>
                              events (catalog w) !! pi_eventId p |}) <$>
    payment_intents (intents w) !! paymentIntentId).

(** The record is what [issuance_tx] (Issuance.v) reads in two steps: the intent, and
    whether all the rows it needs are joined in. *)
Lemma issuance_record_read id w :
  exists o, findByIdForTicketIssuance id w = (Ok o, w) /\ findIntentById id w = (Ok (tip_intent <$> o), w) /\
    forall r, o = Some r -> joined_whole r = hasIssuanceSnapshot w (tip_intent r).
Proof.
  unfold findByIdForTicketIssuance, findIntentById, findUnique, reads. eexists. split; [done |]. cbn.
  destruct (payment_intents (intents w) !! id) as [p |]; cbn; (split; [done |]); [| done].
  intros r [= <-]. unfold joined_whole, hasIssuanceSnapshot. cbn.
  destruct (users _ !! _), (organizers _ !! pi_organizerId p), (events _ !! _) as [ev |]; try reflexivity;
    cbn; by destruct (organizers _ !! ev_organizerId ev).
Qed.

Definition PrismaPaymentIntentRepository : PaymentIntentRepository world := {|
  ir_findByIdForTicketIssuance := findByIdForTicketIssuance;
  ir_findByBuyerAndIdempotency := findByBuyerAndIdempotency; ir_findOwnedByBuyer := findOwnedByBuyer;
  ir_findById := findIntentById; ir_findByProviderReference := findByProviderReference;
  ir_create := createIntent; ir_markRetryPending := markRetryPending; ir_markInitiated := markInitiated;
  ir_markFailed := markFailed; ir_transitionToVerified := transitionToVerified;
  ir_transitionToFailed := transitionToFailed |}.
#[export] Existing Instance PrismaPaymentIntentRepository.

Definition PrismaReservationRepository : ReservationRepository world := {|
  rr_createHeldReservation := createHeldReservation;
  rr_claimExpiredHeldReservations := claimExpiredHeldReservations;
  rr_getActiveReservationQuantity := getActiveReservationQuantity;
  rr_updateReservationStatus := updateReservationStatus; rr_findById := findReservationById |}.
#[export] Existing Instance PrismaReservationRepository.

Definition PrismaIdempotencyRepository : IdempotencyRepository world := {|
  er_findByKey := findByKey; er_tryCreatePending := tryCreatePending; er_complete := complete |}.
#[export] Existing Instance PrismaIdempotencyRepository.

Definition PrismaProviderWebhookEventRepository : ProviderWebhookEventRepository world := {|
  wr_create := createWebhookRow; wr_findByProviderAndEventId := findByProviderAndEventId;
  wr_findByProviderAndPayloadHash := findByProviderAndPayloadHash; wr_updateProcessing := updateProcessing |}.
#[export] Existing Instance PrismaProviderWebhookEventRepository.

Definition PrismaOrderRepository : OrderRepository world := {|
  or_create := createOrderRow; or_findById := findOrderById; or_updateStatus := updateOrderStatus |}.
#[export] Existing Instance PrismaOrderRepository.

Definition webhook_row_of (w : world) (id : string) : option webhook_event := webhook_events (intents w) !! id.
Definition order_row (w : world) (id : string) : option order := orders (checkout w) !! id.
Definition ticket_row (w : world) (id : string) : option ticket := tickets (ticketing w) !! id.
Definition intent_row (w : world) (id : string) : option payment_intent := payment_intents (intents w) !! id.
Definition reservation_row (w : world) (id : string) : option reservation := reservations (stock w) !! id.

Lemma createMany_whole ts w :
  exists w', createMany ts w = (Ok tt, w') \/ createMany ts w = (Err unique_violation, w).
Proof.
  destruct ts as [| t ts]; [by eexists; left |]. cbn [createMany]. unfold transaction.
  assert (Hl : forall l w, exists w', for_each l createTicket w = (Ok tt, w') \/
    exists w'', for_each l createTicket w = (Err unique_violation, w'')).
  { intros l. induction l as [| x l IH]; intros w0; [by eexists; left |]. cbn [for_each]. unfold bind.
    destruct (create_inserts tickets_t x w0 ltac:(done)) as [He | (w1 & He & _)]; unfold createTicket at 1 3; rewrite He;
      [exists w0; right; by eexists | apply IH]. }
  destruct (Hl (t :: ts) w) as (w' & [He | [w'' He]]); rewrite He; eexists; [by left | by right].
Unshelve. exact w.
Qed.

#[export] Instance prisma_tickets_lawful : TicketRepositoryLaws PrismaTicketRepository ticket_row.
Proof.
  split.
  - done.
  - intros t w. by apply (create_inserts tickets_t).
  - intros ts w. apply createMany_whole.
  - done.
  - intros id st t w Ht. cbn. unfold updateTicketStatus, bind, update. cbn. unfold ticket_row in *. rewrite Ht.
    eexists. split; [done |]. cbn. by rewrite lookup_insert_eq.
  - intros owner w. eexists. split; [done |]. rewrite merge_sort_Permutation. apply Forall_forall.
    intros t (k & _ & Ho)%find_rows_spec. by apply bool_decide_eq_true in Ho.
  - intros id owner w. eexists. split; [done |]. cbn. intros t (k & _ & Ho)%find_row_Some.
    by apply andb_true_iff in Ho as [?%bool_decide_eq_true ?%bool_decide_eq_true].
  - intros intent owner ev w. eexists. split; [done |]. cbn. intros t (k & _ & Ho)%find_row_Some.
    apply andb_true_iff in Ho as [[?%bool_decide_eq_true ?%bool_decide_eq_true]%andb_true_iff ?%bool_decide_eq_true]. done.
  - intros row w. by eexists.
  - intros id w. eexists. split; [done |]. cbn. unfold scan_record, ticket_row. intros rc Hrc.
    destruct (tickets (ticketing w) !! id) as [t |]; [cbn in Hrc | done].
    destruct (events _ !! _) as [ev |]; [cbn in Hrc | done]. destruct (organizers _ !! _) as [org |]; [| done].
    by injection Hrc as <-.
  - intros id hash. apply (updateMany_one_shot tickets_t id (issuable hash) (fun usedAt => with_tk_status T_USED (Some usedAt)));
      [done |]. intros usedAt t _. done.
  - intros id hash usedAt t w Ht Hi. cbn. unfold markUsedIfIssuable, updateMany. cbn. unfold ticket_row, issuable in *.
    rewrite Ht, Hi. cbn. by rewrite lookup_insert_eq.
Qed.

#[export] Instance prisma_payment_intents_lawful : PaymentIntentRepositoryLaws PrismaPaymentIntentRepository intent_row.
Proof.
  split.
  - done.
  - intros id w. eexists. split; [done |]. cbn. unfold intent_row. by destruct (_ !! id).
  - intros p w. destruct (create_inserts payment_intents_t p w ltac:(done)) as [He | (w' & He & Hrest)];
      [left | right; exists w'; split; [| done]]; cbn; unfold createIntent, bind; by rewrite He.
  - intros buyer use key w. eexists. split; [done |]. cbn. intros p (k & _ & Ho)%find_row_Some.
    apply andb_true_iff in Ho as [[?%bool_decide_eq_true ?%bool_decide_eq_true]%andb_true_iff ?%bool_decide_eq_true]. done.
  - intros id buyer w. eexists. split; [done |]. cbn. intros p (k & _ & Ho)%find_row_Some.
    by apply andb_true_iff in Ho as [?%bool_decide_eq_true ?%bool_decide_eq_true].
  - intros ref w. eexists. split; [done |]. cbn. intros p (k & _ & Ho)%find_row_Some. by apply bool_decide_eq_true in Ho.
  - intros id w. by apply update_marks.
  - intros id url code raw at_ w. by apply update_marks.
  - intros id code msg raw at_ w. by apply update_marks.
  - intros id. split; intros [verifiedAt v | failedAt code msg v] w; cbn;
      unfold transitionToVerified, transitionToFailed, updateMany, intent_row; cbn;
      (destruct (payment_intents (intents w) !! id) as [p |]; [| done]); intros ->; try done;
      eexists; (split; [done |]); cbn; by rewrite lookup_insert_eq.
  - intros id [verifiedAt v | failedAt code msg v] p w Hp Ha; cbn;
      unfold transitionToVerified, transitionToFailed, updateMany, intent_row in *; cbn; rewrite Hp, Ha;
      eexists; cbn; by rewrite lookup_insert_eq.
Qed.

Lemma find_row_misses {R} (P : R -> bool) (t : gmap string R) k r : find_row P t = None -> t !! k = Some r -> P r = false.
Proof. intros Hnone. by apply find_row_None. Qed.

#[export] Instance prisma_webhook_events_lawful :
  ProviderWebhookEventRepositoryLaws PrismaProviderWebhookEventRepository webhook_row_of.
Proof.
  split.
  - intros e w. destruct (create_inserts webhook_events_t e w ltac:(done)) as [He | (w' & He & Hrest)];
      [left | right; exists w'; split; [| done]]; cbn; unfold createWebhookRow, bind; by rewrite He.
  - intros e w id e0 Hrow [Hp Hor]. cbn. unfold createWebhookRow, bind, create.
    case_bool_decide; cbn [andb]; [| done]. case_bool_decide as Hnone; [| done]. exfalso.
    pose proof (find_row_misses _ _ _ _ Hnone Hrow) as Hclash. cbn in Hclash.
    rewrite bool_decide_true in Hclash by done. apply orb_false_iff in Hclash as [?%bool_decide_eq_false ?%bool_decide_eq_false].
    naive_solver.
  - intros provider eventId w. eexists. split; [done |]. cbn. intros Hnone id e Hrow <- <-.
    pose proof (find_row_misses _ _ _ _ Hnone Hrow) as Hm. cbn in Hm. by rewrite !bool_decide_true in Hm.
  - intros provider hash w. eexists. split; [done |]. cbn. intros Hnone id e Hrow <- <-.
    pose proof (find_row_misses _ _ _ _ Hnone Hrow) as Hm. cbn in Hm. by rewrite !bool_decide_true in Hm.
  - intros id st intent ref failure at_ e w Hrow. cbn. unfold updateProcessing, update. cbn. unfold webhook_row_of in *.
    rewrite Hrow. eexists _, _. split; [done |]. cbn. by rewrite lookup_insert_eq.
Qed.

#[export] Instance prisma_orders_lawful : OrderRepositoryLaws PrismaOrderRepository order_row.
Proof.
  split.
  - intros o w. by apply (create_inserts orders_t).
  - done.
  - intros id st w. cbn. unfold updateOrderStatus, bind, update, order_row. cbn.
    destruct (orders (checkout w) !! id) as [o |]; [| done]. eexists. split; [done |]. cbn. by rewrite lookup_insert_eq.
Qed.

#[export] Instance prisma_reservations_lawful : ReservationRepositoryLaws PrismaReservationRepository reservation_row.
Proof.
  split.
  - done.
  - intros id owner ev tt_ q exp w. by apply (create_inserts reservations_t).
  - intros limit skipped now w. eexists. split; [done |]. split; [apply lock_rows_length |]. apply Forall_forall.
    intros r (Hs & k & _ & Hr)%lock_rows_spec. by apply andb_true_iff in Hr as [?%bool_decide_eq_true ?%Z.leb_le].
  - intros id st r w Hr. cbn. unfold updateReservationStatus, bind, update. cbn. unfold reservation_row in *. rewrite Hr.
    eexists. split; [done |]. cbn. by rewrite lookup_insert_eq.
Qed.

#[export] Instance prisma_idempotency_lawful : IdempotencyRepositoryLaws PrismaIdempotencyRepository.
Proof.
  split.
  - intros actor use key w. by eexists.
  - intros actor use key hash k w. cbn. unfold findByKey, tryCreatePending, insert_idempotency, reads, catch, bind.
    destruct (idempotency (checkout w) !! _) as [k' |]; cbn; [done |]. intros [=].
  - intros actor use key hash w. cbn. unfold findByKey, tryCreatePending, insert_idempotency, reads, catch, bind.
    destruct (idempotency (checkout w) !! _) as [k' |]; cbn; [intros [=] |]. intros _.
    eexists _, _. split; [done |]. cbn. rewrite lookup_insert_eq. by repeat split.
  - intros actor use key code body k w. cbn. unfold findByKey, complete, reads.
    destruct (idempotency (checkout w) !! _) as [k' |] eqn:Hk; cbn; [| intros [=]]. intros [= <-].
    eexists. split; [done |]. cbn. by rewrite lookup_insert_eq.
Qed.
End Prisma.

(** Two webhooks on one intent of the database: the first, which verifies it, decides. *)
Example webhooks_race :
  let v st := {| pv_provider := PAYSTACK; pv_providerReference := "ref"; pv_status := st; pv_amountMinor := None;
                 pv_currency := None; pv_providerStatus := "x"; pv_rawResponse := JNull |} in
  forall w p, intent_row w "pi" = Some p -> awaiting_payment p = true ->
  (attempts (settling "pi") [to_verified 1 (v PV_SUCCESS); to_failed 2 "c" "m" (v PV_FAILED)] w).1 = Ok [1; 0].
Proof.
  intros v w p Hp Ha. destruct (first_settlement_decides "pi" p w (to_verified 1 (v PV_SUCCESS))
    [to_failed 2 "c" "m" (v PV_FAILED)] Hp Ha) as (w' & p' & Hrun & _). by rewrite Hrun.
Qed.
