(* ===== verification/Outbox.v ===== *)
(** Outbox.v: the delivery of outbox events (src/src/shared/outbox): claiming a
    batch, dispatching it, the retry schedule and the dead letters. *)

From S2P Require Import Prelude Errors Store Context Providers.

Local Open Scope Z_scope.

(* ------------------------------------------------------------------ *)
(** ** OutboxClaimRepository                                            *)

Record ClaimedOutboxEvent : Type := {
  co_id : string;
  co_aggregateType : string;
  co_aggregateId : string;
  co_eventType : string;
  co_payload : json;
  co_retryCount : Z
}.

(** The columns delivery writes. *)
Record delivery_state : Type := {
  ds_processed : bool;
  ds_processedAt : option Z;
  ds_retryCount : Z;
  ds_nextAttemptAt : option Z;
  ds_lastErrorCode : option string;
  ds_deadLetteredAt : option Z
}.

Definition with_delivery (d : delivery_state) (r : outbox_event) : outbox_event :=
  {| ob_id := ob_id r; ob_aggregateType := ob_aggregateType r;
     ob_aggregateId := ob_aggregateId r; ob_eventType := ob_eventType r;
     ob_payload := ob_payload r; ob_createdAt := ob_createdAt r;
     ob_processed := ds_processed d; ob_processedAt := ds_processedAt d;
     ob_retryCount := ds_retryCount d; ob_nextAttemptAt := ds_nextAttemptAt d;
     ob_lastErrorCode := ds_lastErrorCode d; ob_deadLetteredAt := ds_deadLetteredAt d |}.

(** WHERE processed = false AND dead_lettered_at IS NULL AND (next_attempt_at IS
    NULL OR next_attempt_at <= NOW()) *)
Definition is_pending (r : outbox_event) : bool :=
  negb (ob_processed r) && bool_decide (ob_deadLetteredAt r = None).

Definition is_due (now : Z) (r : outbox_event) : bool :=
  is_pending r && match ob_nextAttemptAt r with Some t => t <=? now | None => true end.

Definition created_le (a b : outbox_event) : Prop := ob_createdAt a <= ob_createdAt b.
#[export] Instance created_le_dec : RelDecision created_le.
Proof. intros a b. unfold created_le. apply _. Defined.
#[export] Instance created_le_trans : Transitive created_le.
Proof. intros a b c. unfold created_le. lia. Qed.
#[export] Instance created_le_total : Total created_le.
Proof. intros a b. unfold created_le. lia. Qed.

(** [row.payload && typeof row.payload === 'object' ? row.payload : {}] *)
Definition object_payload (j : json) : json :=
  match j with
  | JObj _ | JArr _ => j
  | _ => JObj []
  end.

Definition claimed_event (r : outbox_event) : ClaimedOutboxEvent :=
  {| co_id := ob_id r; co_aggregateType := ob_aggregateType r;
     co_aggregateId := ob_aggregateId r; co_eventType := ob_eventType r;
     co_payload := object_payload (ob_payload r); co_retryCount := ob_retryCount r |}.

(** The lease of a claim. *)
Definition leased (until : Z) (r : outbox_event) : outbox_event :=
  with_delivery {| ds_processed := ob_processed r; ds_processedAt := ob_processedAt r;
    ds_retryCount := ob_retryCount r; ds_nextAttemptAt := Some until;
    ds_lastErrorCode := ob_lastErrorCode r; ds_deadLetteredAt := ob_deadLetteredAt r |} r.

(** The rows a claim locks; [skipped] are locked by another claim. *)
Definition due_rows (limit : nat) (skipped : string -> bool) (now : Z) (w : world)
  : list outbox_event :=
  lock_rows created_le ob_id limit skipped (is_due now) (outbox (journal w)).

Definition claimBatch (limit : nat) (skipped : string -> bool) (ck : clock)
  : op (list ClaimedOutboxEvent) :=
  transaction (
    let* rows := reads (due_rows limit skipped (db_now ck)) in
    match rows with
    | [] => ret []
    | _ =>
        do* modify (fun w => set_outbox
              (update_ids (ob_id <$> rows) (leased (app_now ck + 30000)) (outbox (journal w))) w) in
        ret (claimed_event <$> rows)
    end).

Definition processed_row (now : Z) (r : outbox_event) : outbox_event :=
  with_delivery {| ds_processed := true; ds_processedAt := Some now;
    ds_retryCount := ob_retryCount r; ds_nextAttemptAt := None; ds_lastErrorCode := None;
    ds_deadLetteredAt := None |} r.

Definition markProcessed (eventId : string) (now : Z) : op unit :=
  do* update outbox_t eventId (processed_row now) in ret tt.

(** [Math.min(300, 2 ** Math.min(retryCount, 8))] *)
Definition delaySeconds (retryCount : Z) : Z := Z.min 300 (2 ^ Z.min retryCount 8).

Definition failed_row (retryCount : Z) (errorCode : string) (retryable : bool) (now : Z)
    (r : outbox_event) : outbox_event :=
  let deadLetter := negb retryable || (10 <=? retryCount) in
  with_delivery {| ds_processed := ob_processed r; ds_processedAt := ob_processedAt r;
    ds_retryCount := retryCount;
    ds_nextAttemptAt := if deadLetter then None else Some (now + delaySeconds retryCount * 1000);
    ds_lastErrorCode := Some errorCode;
    ds_deadLetteredAt := if deadLetter then Some now else None |} r.

Definition markFailure (eventId : string) (retryCount : Z) (errorCode : string)
    (retryable : bool) (now : Z) : op unit :=
  do* update outbox_t eventId (failed_row retryCount errorCode retryable now) in ret tt.

(* ------------------------------------------------------------------ *)
(** ** OutboxProcessor                                                  *)

Record DispatchableOutboxEvent : Type := {
  de_id : string;
  de_aggregateType : string;
  de_aggregateId : string;
  de_eventType : string;
  de_payload : json
}.

Definition BATCH_SIZE : nat := 100.

Definition isRetryableError (e : error) : bool :=
  match e with
  | ProviderTimeoutError _ _ | ProviderNetworkError _ _ => true
  | ProviderAuthError _ _ | WebhookSignatureError _ _ => false
  | ProviderResponseError _ _ statusCode _ =>
      (statusCode =? 0) || (500 <=? statusCode) || (statusCode =? 408) || (statusCode =? 429)
  | _ =>
      negb (bool_decide (error_name e = "ValidationError") ||
            bool_decide (error_name e = "SyntaxError") ||
            bool_decide (error_name e = "TypeError"))
  end.

Definition getErrorCode (e : error) : string :=
  match e with
  | ProviderResponseError _ code _ _ => code
  | _ => error_name e
  end.

Definition dispatchable (row : ClaimedOutboxEvent) : DispatchableOutboxEvent :=
  {| de_id := co_id row; de_aggregateType := co_aggregateType row;
     de_aggregateId := co_aggregateId row; de_eventType := co_eventType row;
     de_payload := co_payload row |}.

Section Processor.
Context (dispatch : DispatchableOutboxEvent -> outcome error unit).

(** The body of the loop. *)
Definition process_one (now : Z) (row : ClaimedOutboxEvent) : op unit :=
  catch
    (do* lift (dispatch (dispatchable row)) in
     markProcessed (co_id row) now)
    (fun e => markFailure (co_id row) (co_retryCount row + 1) (getErrorCode e)
                (isRetryableError e) now).

(** The loop; row [i] is written at the [i]-th reading of the clock. *)
Fixpoint process_loop (clocks : nat -> Z) (i : nat) (rows : list ClaimedOutboxEvent) : op unit :=
  match rows with
  | [] => ret tt
  | row :: rows' =>
      do* process_one (clocks i) row in
      process_loop clocks (S i) rows'
  end.

(** [processBatch] *)
Definition processBatch (skipped : string -> bool) (ck : clock) (clocks : nat -> Z) : op Z :=
  let* rows := claimBatch BATCH_SIZE skipped ck in
  do* process_loop clocks 0 rows in
  ret (Z.of_nat (length rows)).

(** [OutboxService.dispatchPendingBatch]: whatever limit is asked for. *)
Definition dispatchPendingBatch (limit : Z) (skipped : string -> bool) (ck : clock)
    (clocks : nat -> Z) : op Z :=
  processBatch skipped ck clocks.

End Processor.

(** [OutboxService.enqueue] *)
Definition enqueue (id : string) (ck : clock) (eventType aggregateId : string) (payload : json)
    (aggregateType : string) : op unit :=
  transaction (appendOutbox (db_now ck) id aggregateType aggregateId eventType payload).

(* ------------------------------------------------------------------ *)
(** ** What a batch does to the table                                   *)

(** A claimed row after its dispatch. *)
Definition settled_row (dispatch : DispatchableOutboxEvent -> outcome error unit) (now : Z)
    (r : outbox_event) : outbox_event :=
  match dispatch (dispatchable (claimed_event r)) with
  | Ok _ => processed_row now r
  | Err e => failed_row (ob_retryCount r + 1) (getErrorCode e) (isRetryableError e) now r
  end.

(** [rows] are settled one by one, the other rows of [t] are those of [t']. *)
Definition settles dispatch (clocks : nat -> Z) (rows : list outbox_event)
    (t t' : gmap string outbox_event) : Prop :=
  (forall j r, rows !! j = Some r -> t' !! ob_id r = Some (settled_row dispatch (clocks j) r)) /\
  (forall k, k ∉ ob_id <$> rows -> t' !! k = t !! k).

Lemma process_one_wp dispatch now until r w :
  outbox (journal w) !! ob_id r = Some (leased until r) ->
  wp (process_one dispatch now (claimed_event r))
     (fun _ w' => w' = set_outbox (<[ob_id r := settled_row dispatch now r]> (outbox (journal w))) w)
     (fun _ _ => False) w.
Proof.
  intros Hr. unfold process_one, settled_row. wp_stmt. wp_stmt. unfold lift.
  destruct (dispatch _) as [[] | e]; wp_go; cbn [co_id co_retryCount claimed_event] in *;
    try congruence; by same_row Hr.
Qed.

Lemma process_loop_wp dispatch until rows : forall clocks i w,
  NoDup (ob_id <$> rows) ->
  Forall (fun r => outbox (journal w) !! ob_id r = Some (leased until r)) rows ->
  wp (process_loop dispatch clocks i (claimed_event <$> rows))
     (fun _ w' => exists t', w' = set_outbox t' w /\
        settles dispatch (fun j => clocks (i + j)%nat) rows (outbox (journal w)) t')
     (fun _ _ => False) w.
Proof.
  induction rows as [| r rows IH]; intros clocks i w Hnd Hrows;
    cbn [process_loop fmap list_fmap] in *.
  { apply wp_ret. exists (outbox (journal w)). split; [by destruct w as [? ? ? [] ? ? ? ?] |].
    split; done. }
  apply NoDup_cons in Hnd as [Hni Hnd]. apply Forall_cons in Hrows as [Hr Hrows].
  apply wp_bind. eapply wp_mono; [by eapply process_one_wp | cbn | done]. intros [] w1 ->.
  eapply wp_mono; [apply (IH clocks (S i)) | cbn | done]; [done | |].
  - rewrite Forall_forall in *. intros r' Hr'. cbn. rewrite lookup_insert_ne; [by apply Hrows |].
    intros Heq. apply Hni. rewrite Heq. by apply list_elem_of_fmap_2.
  - intros _ w2 (t' & -> & Hs & Hf). exists t'. split; [done |]. split.
    + intros [| j] r' Hj; cbn in Hj.
      * injection Hj as <-. rewrite Hf by done. cbn. by rewrite lookup_insert_eq, Nat.add_0_r.
      * rewrite (Hs j r' Hj). by rewrite Nat.add_succ_r.
    + intros k Hk. apply not_elem_of_cons in Hk as [Hne Hk]. rewrite Hf by done. cbn.
      by apply lookup_insert_ne.
Qed.

(** Rows found in a keyed table sit under their own keys. *)
Lemma due_rows_lookup limit skipped now w r :
  keyed ob_id (outbox (journal w)) -> r ∈ due_rows limit skipped now w ->
  outbox (journal w) !! ob_id r = Some r /\ is_due now r = true /\ skipped (ob_id r) = false.
Proof.
  intros Hk Hr. apply lock_rows_spec in Hr as (Hs & k & Hr & Hd).
  rewrite <- (Hk _ _ Hr) in Hr. done.
Qed.

Lemma claimBatch_wp limit skipped ck w :
  keyed ob_id (outbox (journal w)) ->
  wp (claimBatch limit skipped ck)
     (fun res w' =>
        let rows := due_rows limit skipped (db_now ck) w in
        res = claimed_event <$> rows /\ exists t', w' = set_outbox t' w /\
        Forall (fun r => t' !! ob_id r = Some (leased (app_now ck + 30000) r)) rows /\
        (forall k, k ∉ ob_id <$> rows -> t' !! k = outbox (journal w) !! k))
     (fun _ _ => False) w.
Proof.
  intros Hk. pose proof (due_rows_lookup limit skipped (db_now ck) w) as Hrows.
  pose proof (lock_rows_NoDup created_le ob_id limit skipped (is_due (db_now ck)) _ Hk) as Hnd.
  fold (due_rows limit skipped (db_now ck) w) in Hnd.
  unfold claimBatch. wp_stmt. wp_stmt. wp_stmt.
  destruct (due_rows limit skipped (db_now ck) w) as [| r0 rows0].
  - apply wp_ret. split; [done |]. exists (outbox (journal w)).
    split; [by destruct w as [? ? ? [] ? ? ? ?] | done].
  - set (rows := r0 :: rows0) in *. wp_stmt. apply wp_modify, wp_ret.
    split; [done |]. eexists. split; [done |]. split.
    + apply Forall_forall. intros r Hr. rewrite update_ids_lookup by done.
      rewrite decide_True by (by apply list_elem_of_fmap_2).
      by rewrite (proj1 (Hrows r Hk Hr)).
    + intros k Hni. rewrite update_ids_lookup by done. by rewrite decide_False.
Qed.

Lemma processBatch_wp dispatch skipped ck clocks w :
  keyed ob_id (outbox (journal w)) ->
  wp (processBatch dispatch skipped ck clocks)
     (fun n w' =>
        let rows := due_rows BATCH_SIZE skipped (db_now ck) w in
        n = Z.of_nat (length rows) /\ exists t', w' = set_outbox t' w /\
        settles dispatch clocks rows (outbox (journal w)) t')
     (fun _ _ => False) w.
Proof.
  intros Hk. unfold processBatch. wp_stmt. wp_call claimBatch_wp; [done |].
  cbv zeta. set (rows := due_rows _ _ _ w).
  intros res w1 (-> & t1 & -> & Hl & Hf). wp_stmt.
  eapply wp_mono; [eapply process_loop_wp | | done].
  - by apply lock_rows_NoDup.
  - exact Hl.
  - intros [] w2 (t2 & -> & Hs & Hf2). apply wp_ret. rewrite length_fmap. split; [done |].
    exists t2. split; [done |]. split; [exact Hs |].
    intros k Hni. rewrite Hf2 by done. by apply Hf.
Qed.

Lemma settles_lookup dispatch clocks rows t t' k r :
  settles dispatch clocks rows t t' -> keyed ob_id t ->
  Forall (fun r => t !! ob_id r = Some r) rows -> t' !! k = Some r ->
  (exists j r0, rows !! j = Some r0 /\ t !! k = Some r0 /\ ob_id r0 = k /\
     r = settled_row dispatch (clocks j) r0) \/
  ((k ∉ ob_id <$> rows) /\ t !! k = Some r).
Proof.
  intros [Hs Hf] Hk Hrows Hr. destruct (decide (k ∈ ob_id <$> rows)) as [Hin | Hni].
  - left. apply list_elem_of_fmap in Hin as (r0 & -> & Hin).
    apply list_elem_of_lookup in Hin as [j Hj]. exists j, r0.
    rewrite (Hs j r0 Hj) in Hr. rewrite Forall_lookup in Hrows. specialize (Hrows j r0 Hj).
    by simplify_eq.
  - right. by rewrite <- Hf.
Qed.

Lemma settled_row_id dispatch now r : ob_id (settled_row dispatch now r) = ob_id r.
Proof. unfold settled_row. by destruct (dispatch _). Qed.

(** The retry counters of a table: never negative, and below ten while delivery
    has not given up. *)
Record outbox_wf (t : gmap string outbox_event) : Prop := {
  ow_keyed : keyed ob_id t;
  ow_retries : forall k r, t !! k = Some r ->
    0 <= ob_retryCount r /\ (is_pending r = true -> ob_retryCount r < 10)
}.

Lemma delaySeconds_bounds n : 1 <= n -> 2 <= delaySeconds n <= 256.
Proof.
  intros Hn. unfold delaySeconds.
  pose proof (Z.pow_le_mono_r 2 1 (Z.min n 8) ltac:(lia) ltac:(lia)).
  pose proof (Z.pow_le_mono_r 2 (Z.min n 8) 8 ltac:(lia) ltac:(lia)). lia.
Qed.

(** Still to be delivered after a settlement: one more attempt is counted and the
    next one is scheduled. *)
Definition rescheduled (now : Z) (r0 r : outbox_event) : Prop :=
  ob_retryCount r = ob_retryCount r0 + 1 /\ ob_retryCount r < 10 /\
  exists t, ob_nextAttemptAt r = Some t /\ now + 2000 <= t <= now + 256000.

Lemma settled_row_pending dispatch now r :
  0 <= ob_retryCount r -> is_pending (settled_row dispatch now r) = true ->
  rescheduled now r (settled_row dispatch now r).
Proof.
  intros Hr Hp. unfold settled_row in *. destruct (dispatch _) as [[] | e]; [done |].
  unfold failed_row, rescheduled in *. cbn in *.
  destruct (negb (isRetryableError e)) eqn:He; cbn in *.
  { by apply andb_true_iff in Hp as [_ Hp%bool_decide_eq_true]. }
  destruct (10 <=? ob_retryCount r + 1) eqn:Hc.
  { by apply andb_true_iff in Hp as [_ Hp%bool_decide_eq_true]. }
  pose proof (delaySeconds_bounds (ob_retryCount r + 1) ltac:(lia)).
  split; [done |]. split; [lia |]. eexists. split; [done |]. lia.
Qed.

Lemma settled_row_retries dispatch now r :
  0 <= ob_retryCount r -> 0 <= ob_retryCount (settled_row dispatch now r).
Proof. unfold settled_row. destruct (dispatch _); cbn; lia. Qed.

Lemma settles_wf dispatch clocks rows t t' :
  outbox_wf t -> Forall (fun r => t !! ob_id r = Some r) rows ->
  settles dispatch clocks rows t t' -> outbox_wf t'.
Proof.
  intros [Hk Hr] Hrows Hs. split.
  - intros k r Hkr. eapply settles_lookup in Hkr as [(j & r0 & _ & _ & <- & ->) | [_ Hkr]];
      [| by apply Hk | done..]. apply settled_row_id.
  - intros k r Hkr. eapply settles_lookup in Hkr as [(j & r0 & _ & H0 & _ & ->) | [_ Hkr]];
      [| by eapply Hr | done..].
    apply Hr in H0 as [H0 _]. split; [by apply settled_row_retries |].
    intros Hp. by apply settled_row_pending in Hp as (_ & Hlt & _).
Qed.

Lemma due_rows_Forall limit skipped now w :
  keyed ob_id (outbox (journal w)) ->
  Forall (fun r => outbox (journal w) !! ob_id r = Some r) (due_rows limit skipped now w).
Proof. intros Hk. apply Forall_forall. intros r Hr. by apply due_rows_lookup in Hr as [? _]. Qed.

(* ------------------------------------------------------------------ *)
(** ** Successive batches of one worker                                 *)

Record round : Type := {
  rd_dispatch : DispatchableOutboxEvent -> outcome error unit;
  rd_clock : clock;
  rd_clocks : nat -> Z
}.

Definition run_round (b : round) (w : world) : world :=
  (processBatch (rd_dispatch b) (fun _ => false) (rd_clock b) (rd_clocks b) w).2.

Definition run_rounds (l : list round) (w : world) : world := foldl (fun w b => run_round b w) w l.

(** The next batch runs at least 256 seconds after the writes of this one. *)
Definition spaced (a b : round) : Prop := forall j, rd_clocks a j + 256000 <= db_now (rd_clock b).

Definition all_due (now : Z) (t : gmap string outbox_event) : Prop :=
  forall k r, t !! k = Some r -> is_pending r = true -> is_due now r = true.

Definition attempted (n : Z) (t : gmap string outbox_event) : Prop :=
  forall k r, t !! k = Some r -> is_pending r = true -> n <= ob_retryCount r.

Lemma settles_dom dispatch clocks rows t t' :
  Forall (fun r => t !! ob_id r = Some r) rows -> settles dispatch clocks rows t t' ->
  size t' = size t.
Proof.
  intros Hrows [Hs Hf]. rewrite <- !size_dom. f_equal. apply set_eq. intros k.
  rewrite !elem_of_dom. destruct (decide (k ∈ ob_id <$> rows)) as [Hin | Hni].
  - apply list_elem_of_fmap in Hin as (r & -> & Hin).
    apply list_elem_of_lookup in Hin as [j Hj]. rewrite (Hs j r Hj).
    rewrite Forall_lookup in Hrows. by rewrite (Hrows j r Hj).
  - by rewrite Hf.
Qed.

(** A batch over a due table of at most a hundred rows tries every pending row. *)
Lemma run_round_progress b n w :
  outbox_wf (outbox (journal w)) -> (size (outbox (journal w)) <= BATCH_SIZE)%nat ->
  all_due (db_now (rd_clock b)) (outbox (journal w)) -> attempted n (outbox (journal w)) ->
  let t' := outbox (journal (run_round b w)) in
  outbox_wf t' /\ (size t' <= BATCH_SIZE)%nat /\ attempted (n + 1) t' /\
  (forall c, spaced b c -> all_due (db_now (rd_clock c)) t').
Proof.
  intros Hwf Hsz Hdue Hatt.
  pose proof (processBatch_wp (rd_dispatch b) (fun _ => false) (rd_clock b) (rd_clocks b) w
    (ow_keyed _ Hwf)) as H.
  unfold wp, run_round in *. destruct (processBatch _ _ _ _ w) as [[m | e] w1]; [| done].
  destruct H as (_ & t' & -> & Hs). cbn.
  pose proof (due_rows_Forall BATCH_SIZE (fun _ => false) (db_now (rd_clock b)) w
    (ow_keyed _ Hwf)) as Hrows.
  assert (Hall : forall k r, outbox (journal w) !! k = Some r -> is_pending r = true ->
    k ∈ ob_id <$> due_rows BATCH_SIZE (fun _ => false) (db_now (rd_clock b)) w).
  { intros k r Hr Hp. rewrite <- (ow_keyed _ Hwf k r Hr).
    apply list_elem_of_fmap_2. eapply lock_rows_all; eauto. }
  assert (Hnew : forall k r, t' !! k = Some r -> is_pending r = true -> exists j r0,
    outbox (journal w) !! k = Some r0 /\ r = settled_row (rd_dispatch b) (rd_clocks b j) r0 /\
    is_pending r0 = true).
  { intros k r Hr Hp. eapply settles_lookup in Hr as [(j & r0 & Hj & H0 & _ & ->) | [Hni Hr]];
      [| | done | apply Hwf | done].
    - exists j, r0. split_and!; [done | done |]. apply list_elem_of_lookup_2 in Hj.
      apply due_rows_lookup in Hj as (_ & Hd & _); [| apply Hwf].
      by apply andb_true_iff in Hd as [Hd _].
    - destruct Hni. by eapply Hall. }
  split; [by eapply settles_wf |]. split; [by erewrite settles_dom |]. split.
  - intros k r Hr Hp. destruct (Hnew k r Hr Hp) as (j & r0 & H0 & -> & Hp0).
    apply settled_row_pending in Hp as (-> & _); [| by eapply Hwf]. specialize (Hatt k r0 H0 Hp0). lia.
  - intros c Hc k r Hr Hp. unfold is_due. rewrite Hp.
    destruct (Hnew k r Hr Hp) as (j & r0 & H0 & -> & Hp0).
    apply settled_row_pending in Hp as (_ & _ & t & -> & Ht); [| by eapply Hwf].
    specialize (Hc j). cbn. lia.
Qed.

Lemma run_rounds_attempted l : forall n w,
  outbox_wf (outbox (journal w)) -> (size (outbox (journal w)) <= BATCH_SIZE)%nat ->
  (forall b, l !! 0%nat = Some b -> all_due (db_now (rd_clock b)) (outbox (journal w))) ->
  (forall i a b, l !! i = Some a -> l !! S i = Some b -> spaced a b) ->
  attempted n (outbox (journal w)) ->
  outbox_wf (outbox (journal (run_rounds l w))) /\
  attempted (n + Z.of_nat (length l)) (outbox (journal (run_rounds l w))).
Proof.
  induction l as [| b l IH]; intros n w Hwf Hsz Hdue Hsp Hatt; cbn [run_rounds foldl length].
  { by rewrite Z.add_0_r. }
  destruct (run_round_progress b n w Hwf Hsz (Hdue b eq_refl) Hatt) as (Hwf' & Hsz' & Hatt' & Hnext).
  fold (run_rounds l (run_round b w)).
  replace (n + Z.of_nat (S (length l))) with (n + 1 + Z.of_nat (length l)) by lia.
  apply IH; [done | done | | | done].
  - intros c Hc. apply Hnext. by apply (Hsp 0%nat).
  - intros i a c Ha Hc. by apply (Hsp (S i)).
Qed.

(* ------------------------------------------------------------------ *)
(** ** An outbox to deliver                                             *)

Module OutboxExample.

Definition row (id : string) (created : Z) : outbox_event :=
  {| ob_id := id; ob_aggregateType := "RESERVATION"; ob_aggregateId := "rsv";
     ob_eventType := "reservation.created"; ob_payload := JObj []; ob_createdAt := created;
     ob_processed := false; ob_processedAt := None; ob_retryCount := 0;
     ob_nextAttemptAt := None; ob_lastErrorCode := None; ob_deadLetteredAt := None |}.

Definition rows : gmap string outbox_event := {["a" := row "a" 2; "b" := row "b" 1]}.
Definition w0 : world := set_outbox rows empty_world.
Definition at_time (t : Z) : clock := {| app_now := t; db_now := t |}.

(** Row [a] never gets through. *)
Definition dispatch (ev : DispatchableOutboxEvent) : outcome error unit :=
  if bool_decide (de_id ev = "a") then Err (ProviderTimeoutError "timeout" "PAYSTACK") else Ok tt.

Lemma wf_rows : outbox_wf (outbox (journal w0)).
Proof.
  split; [by apply keyed_check; vm_run |].
  intros k r Hr.
  pose proof (table_check (fun r => bool_decide (ob_retryCount r = 0)) rows ltac:(vm_run) k r Hr) as H.
  apply bool_decide_eq_true in H. rewrite H. done.
Qed.

Definition w1 : world :=
  (processBatch dispatch (fun _ => false) (at_time 1000) (fun _ => 1000) w0).2.

Example first_batch :
  processBatch dispatch (fun _ => false) (at_time 1000) (fun _ => 1000) w0 = (Ok 2, w1).
Proof. run_ends. Qed.

Example oldest_first :
  ob_id <$> due_rows BATCH_SIZE (fun _ => false) 1000 w0 = ["b"; "a"].
Proof. vm_run. Qed.

(** Ten batches, five minutes apart. *)
Definition rounds : list round :=
  (fun i => {| rd_dispatch := dispatch; rd_clock := at_time (300000 * Z.of_nat i);
               rd_clocks := fun _ => 300000 * Z.of_nat i |}) <$> seq 0 10.

Example given_up :
  (fun r => (ob_processed r, ob_retryCount r, ob_deadLetteredAt r)) <$>
    (outbox (journal (run_rounds rounds w0)) !! "a") = Some (false, 10, Some 2700000).
Proof. vm_run. Qed.

End OutboxExample.

(* ------------------------------------------------------------------ *)
(** ** Properties                                                       *)

(** A batch never throws.  It takes at most a hundred distinct events, each
    pending, due and not locked by another worker, and no such event it leaves
    out is older than one it takes.  Each event taken is dispatched once and its
    row records the result: processed, or one more attempt with the error's
    code.  Every other row, and every other table, is as it was. *)
Theorem processBatch_outcome dispatch skipped ck clocks w
    (Hk : keyed ob_id (outbox (journal w))) :
  exists rows t',
    processBatch dispatch skipped ck clocks w = (Ok (Z.of_nat (length rows)), set_outbox t' w) /\
    (length rows <= 100)%nat /\ NoDup (ob_id <$> rows) /\
    Forall (fun r => outbox (journal w) !! ob_id r = Some r /\ is_due (db_now ck) r = true /\
                     skipped (ob_id r) = false) rows /\
    (forall k r, outbox (journal w) !! k = Some r -> is_due (db_now ck) r = true ->
       skipped k = false -> r ∉ rows -> Forall (fun x => ob_createdAt x <= ob_createdAt r) rows) /\
    settles dispatch clocks rows (outbox (journal w)) t'.
Proof.
  pose proof (processBatch_wp dispatch skipped ck clocks w Hk) as H. unfold wp in H.
  destruct (processBatch _ _ _ _ w) as [[n | e] w1]; [| done].
  destruct H as (-> & t' & -> & Hs). exists (due_rows BATCH_SIZE skipped (db_now ck) w), t'.
  split; [done |]. split; [apply lock_rows_length |]. split; [by apply lock_rows_NoDup |].
  split; [| split; [| done]].
  - apply Forall_forall. intros r Hr. by eapply due_rows_lookup.
  - intros k r Hr Hd Hf Hni. apply (lock_rows_first created_le ob_id BATCH_SIZE skipped (is_due (db_now ck)) _ k r Hr Hd);
      [| exact Hni].
    by rewrite (Hk _ _ Hr).
Qed.

Lemma processBatch_outcome_witness :
  exists rows t', settles OutboxExample.dispatch (fun _ => 1000) rows
    (outbox (journal OutboxExample.w0)) t' /\ length rows = 2%nat.
Proof.
  destruct (processBatch_outcome OutboxExample.dispatch (fun _ => false)
    (OutboxExample.at_time 1000) (fun _ => 1000) OutboxExample.w0
    (ow_keyed _ OutboxExample.wf_rows)) as (rows & t' & Hrun & _ & _ & _ & _ & Hs).
  rewrite OutboxExample.first_batch in Hrun. exists rows, t'. split; [exact Hs |].
  injection Hrun as Hn _. lia.
Defined.

(** C39: The retry counters are an invariant of delivery, and they bound it: a
    batch leaves them well formed, and an event it has tried is either finished
    (processed, or given up as a dead letter) or has one more attempt on its
    count, fewer than ten in all, and a next attempt between 2 and 256 seconds
    after the failure. *)
Theorem processBatch_schedule dispatch skipped ck clocks w
    (Hwf : outbox_wf (outbox (journal w))) :
  let t' := outbox (journal (processBatch dispatch skipped ck clocks w).2) in
  outbox_wf t' /\
  forall k r0 r, outbox (journal w) !! k = Some r0 -> t' !! k = Some r ->
    r = r0 \/ is_pending r = false \/ exists j, rescheduled (clocks j) r0 r.
Proof.
  pose proof (processBatch_wp dispatch skipped ck clocks w (ow_keyed _ Hwf)) as H. unfold wp in H.
  destruct (processBatch _ _ _ _ w) as [[n | e] w1]; [| done].
  destruct H as (_ & t' & -> & Hs). cbn.
  pose proof (due_rows_Forall BATCH_SIZE skipped (db_now ck) w (ow_keyed _ Hwf)) as Hrows.
  split; [by eapply settles_wf |]. intros k r0 r H0 Hr.
  apply (settles_lookup _ _ _ _ _ _ _ Hs (ow_keyed _ Hwf) Hrows) in Hr
    as [(j & r1 & _ & H1 & _ & ->) | [_ Hr]]; [| left; congruence].
  right. simplify_eq. destruct (is_pending _) eqn:Hp; [right | by left].
  exists j. apply settled_row_pending; [by eapply Hwf | done].
Qed.

Lemma processBatch_schedule_witness : outbox_wf (outbox (journal OutboxExample.w1)).
Proof.
  exact (proj1 (processBatch_schedule OutboxExample.dispatch (fun _ => false)
    (OutboxExample.at_time 1000) (fun _ => 1000) OutboxExample.w0 OutboxExample.wf_rows)).
Defined.

(** C10: Delivery terminates.  Of a table of at most a hundred events, all due at
    the first batch, none is still pending after ten batches of one worker that
    are at least 256 seconds apart, whatever the dispatches answer: each event
    has been processed or is a dead letter. *)
Theorem outbox_drains rounds w
    (Hwf : outbox_wf (outbox (journal w))) (Hsz : (size (outbox (journal w)) <= 100)%nat)
    (Hn : (10 <= length rounds)%nat)
    (Hdue : forall b, rounds !! 0%nat = Some b ->
       all_due (db_now (rd_clock b)) (outbox (journal w)))
    (Hsp : forall i a b, rounds !! i = Some a -> rounds !! S i = Some b -> spaced a b) :
  forall k r, outbox (journal (run_rounds rounds w)) !! k = Some r -> is_pending r = false.
Proof.
  destruct (run_rounds_attempted rounds 0 w Hwf Hsz Hdue Hsp) as [Hwf' Hatt].
  { intros k r Hr _. by eapply Hwf. }
  intros k r Hr. destruct (is_pending r) eqn:Hp; [| done].
  pose proof (Hatt k r Hr Hp). pose proof (proj2 (ow_retries _ Hwf' k r Hr) Hp). lia.
Qed.

Lemma outbox_drains_witness :
  Forall (fun kr => is_pending kr.2 = false)
    (map_to_list (outbox (journal (run_rounds OutboxExample.rounds OutboxExample.w0)))).
Proof.
  apply Forall_forall. intros [key row] Hrow. apply elem_of_map_to_list in Hrow. revert key row Hrow.
  apply (outbox_drains OutboxExample.rounds OutboxExample.w0 OutboxExample.wf_rows).
  - apply Nat.leb_le. reflexivity.
  - apply Nat.leb_le. reflexivity.
  - intros b Hb k r Hr Hp. unfold is_due. rewrite Hp.
    pose proof (table_check (fun r => bool_decide (ob_nextAttemptAt r = None)) OutboxExample.rows
      ltac:(vm_run) k r Hr) as H.
    apply bool_decide_eq_true in H. by rewrite H.
  - intros i a b Ha Hb j. unfold OutboxExample.rounds in *.
    rewrite list_lookup_fmap in Ha, Hb.
    apply fmap_Some in Ha as (x & Hx & ->), Hb as (y & Hy & ->).
    apply lookup_seq in Hx as [-> _], Hy as [-> _]. cbn. lia.
Defined.

(** A slow worker's verdict on an event that another worker, after the lease of
    30 seconds, has already given up on brings the dead letter back. *)
Lemma late_failure_revives id n code now w r :
  outbox (journal w) !! id = Some r -> ob_processed r = false -> ob_deadLetteredAt r <> None ->
  n < 10 ->
  wp (markFailure id n code true now)
     (fun _ w' => exists r', outbox (journal w') !! id = Some r' /\ is_pending r' = true)
     (fun _ _ => False) w.
Proof.
  intros Hr Hp _ Hn. wp_go; [| congruence]. same_row Hr. eexists.
  rewrite lookup_insert_eq. split; [done |]. unfold is_pending, failed_row.
  cbn. rewrite Hp. destruct (10 <=? n) eqn:E; [lia | done].
Qed.
