(* ===== verification/Sessions.v ===== *)
(** Sessions.v: the login sessions (src/src/auth/session.service.ts): creation,
    refresh-token rotation, replay detection, expiry and revocation, with the
    audit rows they write (src/src/auth/auth-audit.service.ts). *)

From S2P Require Import Prelude Errors Values Hashing Store Context.

Local Open Scope Z_scope.

Definition ACCESS_TOKEN_TTL_SECONDS : Z := 15 * 60.
Definition REFRESH_TOKEN_TTL_SECONDS : Z := 30 * 24 * 60 * 60.

(** [AuthAuditService.log] *)
Definition auth_log (row : auth_audit) : op unit :=
  modify (fun w => set_auth_audits (auth_audits (identity w) ++ [row]) w).

(** A session with its user ([include: { user: true }]). *)
Definition session_view : Type := session * option user.

Definition view_of (w : world) (s : session) : session_view := (s, users (catalog w) !! ses_userId s).

Definition db_sessions (w : world) : gmap string session := sessions (identity w).

(** [getSessionById] *)
Definition getSessionById (sessionId : string) : op (option session_view) :=
  reads (fun w => view_of w <$> db_sessions w !! sessionId).

(** [session.user.isActive]: reading a property of null throws. *)
Definition user_isActive_of (s : session_view) : op bool :=
  let* u := or_throw (snd s) (TypeError "Cannot read properties of null (reading 'isActive')") in
  ret (user_isActive u).

(** A session that is over keeps no token. *)
Definition ended (status : SessionStatus) (now : Z) (reason : string) (s : session) : session :=
  {| ses_id := ses_id s; ses_userId := ses_userId s; ses_deviceId := ses_deviceId s;
     ses_refreshTokenHash := None; ses_previousRefreshTokenHash := None;
     ses_refreshTokenVersion := ses_refreshTokenVersion s; ses_userAgent := ses_userAgent s;
     ses_ipAddress := ses_ipAddress s; ses_lastSeenAt := ses_lastSeenAt s;
     ses_expiresAt := ses_expiresAt s; ses_status := status; ses_revokedAt := Some now;
     ses_revokedReason := Some reason |}.

Definition has_status (status : SessionStatus) (s : session) : bool :=
  bool_decide (ses_status s = status).

(** [revokeForReplay] *)
Definition revokeForReplay (sessionId reason : string) (now : Z) : op unit :=
  do* updateMany sessions_t sessionId (fun s => negb (has_status SESSION_REVOKED s))
        (ended SESSION_REVOKED now reason) in
  ret tt.

(** [markExpired] *)
Definition markExpired (sessionId : string) (now : Z) : op unit :=
  let* found := getSessionById sessionId in
  match found with
  | None => ret tt
  | Some (s, u) =>
      let* count := updateMany sessions_t sessionId (has_status SESSION_ACTIVE)
                      (ended SESSION_EXPIRED now "expired_session_detected") in
      when (0 <? count)
        (auth_log {| aa_action := EXPIRED_SESSION_DETECTED; aa_success := false;
                     aa_userId := Some (ses_userId s); aa_email := user_email <$> u;
                     aa_sessionId := Some (ses_id s); aa_ipAddress := None; aa_userAgent := None;
                     aa_reason := Some "expired_session_detected"; aa_metadata := JNull |})
  end.

(** [assertSessionUsable] *)
Definition assertSessionUsable (sessionId : string) (now : Z) : op session_view :=
  let* found := getSessionById sessionId in
  let* s := or_throw found (UnauthorizedException "session not found") in
  do* throw_if (has_status SESSION_REVOKED (fst s)) (UnauthorizedException "session revoked") in
  do* (if ses_expiresAt (fst s) <? now then
         do* markExpired (ses_id (fst s)) now in throw (UnauthorizedException "session expired")
       else ret tt) in
  do* throw_if (negb (has_status SESSION_ACTIVE (fst s)))
        (UnauthorizedException "session not active") in
  let* active := user_isActive_of s in
  do* throw_if (negb active) (UnauthorizedException "user inactive") in
  ret s.

Record RotateParams : Type := {
  rp_refreshToken : string;
  rp_deviceId : string;
  rp_nextRefreshToken : string;
  rp_ipAddress : option string;
  rp_userAgent : option string
}.

Section Tokens.
Context `{Crypto}.

Definition hashRefreshToken (refreshToken : string) : string := sha256 refreshToken.

(** The row of a new session. *)
Definition new_session (sessionId userId deviceId refreshToken : string)
    (userAgent ipAddress : option string) (now : Z) : session :=
  {| ses_id := sessionId; ses_userId := userId; ses_deviceId := deviceId;
     ses_refreshTokenHash := Some (hashRefreshToken refreshToken);
     ses_previousRefreshTokenHash := None; ses_refreshTokenVersion := 0;
     ses_userAgent := userAgent; ses_ipAddress := ipAddress; ses_lastSeenAt := now;
     ses_expiresAt := now + REFRESH_TOKEN_TTL_SECONDS * 1000; ses_status := SESSION_ACTIVE;
     ses_revokedAt := None; ses_revokedReason := None |}.

Definition createSession (sessionId userId deviceId refreshToken : string)
    (userAgent ipAddress : option string) (now : Z) : op unit :=
  create sessions_t (new_session sessionId userId deviceId refreshToken userAgent ipAddress now).

(** A session one of whose two hashes is [h]. *)
Definition holds_hash (h : string) (s : session) : bool :=
  bool_decide (ses_refreshTokenHash s = Some h) ||
  bool_decide (ses_previousRefreshTokenHash s = Some h).

(** The read of [rotateRefreshToken]. *)
Definition rotate_find (p : RotateParams) : op (option session_view) :=
  let h := hashRefreshToken (rp_refreshToken p) in
  reads (fun w => view_of w <$> find_row (holds_hash h) (db_sessions w)).

(** The condition of the guarded update. *)
Definition rotatable (h : string) (s : session) : bool :=
  bool_decide (ses_refreshTokenHash s = Some h) && bool_decide (ses_revokedAt s = None) &&
  has_status SESSION_ACTIVE s.

(** Its data.  An absent address or agent leaves the column as it is. *)
Definition rotated (p : RotateParams) (now : Z) (s : session) : session :=
  {| ses_id := ses_id s; ses_userId := ses_userId s; ses_deviceId := ses_deviceId s;
     ses_refreshTokenHash := Some (hashRefreshToken (rp_nextRefreshToken p));
     ses_previousRefreshTokenHash := Some (hashRefreshToken (rp_refreshToken p));
     ses_refreshTokenVersion := ses_refreshTokenVersion s + 1;
     ses_userAgent := nullish (rp_userAgent p) (ses_userAgent s);
     ses_ipAddress := nullish (rp_ipAddress p) (ses_ipAddress s); ses_lastSeenAt := now;
     ses_expiresAt := now + REFRESH_TOKEN_TTL_SECONDS * 1000; ses_status := ses_status s;
     ses_revokedAt := ses_revokedAt s; ses_revokedReason := ses_revokedReason s |}.

Definition replay (sessionId reason : string) (now : Z) : op unit :=
  do* revokeForReplay sessionId reason now in throw (RefreshReplayError sessionId reason).

(** The rest of [rotateRefreshToken], given what was read: other requests may
    have written in between. *)
Definition rotate_continue (p : RotateParams) (found : option session_view) (now : Z)
  : op session_view :=
  let h := hashRefreshToken (rp_refreshToken p) in
  let* v := or_throw found (UnauthorizedException "invalid refresh token") in
  let s := fst v in
  do* when (negb (bool_decide (ses_deviceId s = rp_deviceId p)))
        (replay (ses_id s) "device_mismatch" now) in
  do* throw_if (has_status SESSION_REVOKED s) (UnauthorizedException "session revoked") in
  do* (if ses_expiresAt s <? now then
         do* markExpired (ses_id s) now in throw (UnauthorizedException "session expired")
       else ret tt) in
  do* throw_if (negb (has_status SESSION_ACTIVE s)) (UnauthorizedException "session not active") in
  let* active := user_isActive_of v in
  do* throw_if (negb active) (UnauthorizedException "user inactive") in
  do* when (bool_decide (ses_previousRefreshTokenHash s = Some h))
        (replay (ses_id s) "rotated_refresh_token_reused" now) in
  do* throw_if (negb (bool_decide (ses_refreshTokenHash s = Some h)))
        (UnauthorizedException "invalid refresh token") in
  let* count := updateMany sessions_t (ses_id s) (rotatable h) (rotated p now) in
  do* when (negb (count =? 1)) (replay (ses_id s) "concurrent_rotation" now) in
  let* fresh := getSessionById (ses_id s) in
  or_throw fresh (PrismaKnownError "P2025" "No Session found").

(** [rotateRefreshToken] *)
Definition rotateRefreshToken (p : RotateParams) (now : Z) : op session_view :=
  let* found := rotate_find p in
  rotate_continue p found now.

End Tokens.

(** [revokeSession] *)
Definition revokeSession (requesterUserId sessionId reason : string) (allowAny : bool) (now : Z)
  : op session_view :=
  let* found := getSessionById sessionId in
  let* s := or_throw found (UnauthorizedException "session not found") in
  do* throw_if (negb (bool_decide (ses_userId (fst s) = requesterUserId)) && negb allowAny)
        (ForbiddenException "cannot revoke another user session") in
  if has_status SESSION_REVOKED (fst s) then ret s
  else
    do* update sessions_t sessionId (ended SESSION_REVOKED now reason) in
    ret s.

(* ------------------------------------------------------------------ *)
(** ** What the operations do to the table                              *)

(** At most one session ends: an ACTIVE one expires, or one that is not yet
    revoked is. *)
Inductive ends_one (now : Z) (t : gmap string session) : gmap string session -> Prop :=
| ends_none : ends_one now t t
| ends_expired k s reason :
    t !! k = Some s -> ses_status s = SESSION_ACTIVE ->
    ends_one now t (<[k := ended SESSION_EXPIRED now reason s]> t)
| ends_revoked k s reason :
    t !! k = Some s -> ses_status s <> SESSION_REVOKED ->
    ends_one now t (<[k := ended SESSION_REVOKED now reason s]> t).

(** Nothing but the sessions and their audit changes. *)
Definition identity_step (w w' : world) : Prop := exists x, w' = set_identity x w.

#[export] Instance identity_step_preorder : PreOrder identity_step.
Proof.
  split.
  - intros w. exists (identity w). by destruct w.
  - intros w1 w2 w3 [x ->] [y ->]. by exists y.
Qed.

Definition closes (now : Z) (w w' : world) : Prop :=
  identity_step w w' /\ ends_one now (db_sessions w) (db_sessions w').

Lemma closes_refl now w : closes now w w.
Proof. split; [reflexivity | constructor]. Qed.

Lemma has_status_true status s : has_status status s = true <-> ses_status s = status.
Proof. apply bool_decide_eq_true. Qed.

Lemma has_status_false status s : has_status status s = false <-> ses_status s <> status.
Proof. apply bool_decide_eq_false. Qed.

#[export] Hint Resolve closes_refl : store.

Lemma revokeForReplay_wp id reason now w :
  wp (revokeForReplay id reason now)
     (fun _ w' => closes now w w' /\
        forall s, db_sessions w !! id = Some s -> exists s',
          db_sessions w' !! id = Some s' /\ ses_status s' = SESSION_REVOKED)
     (fun _ _ => False) w.
Proof.
  wp_go.
  - split.
    + split; [by eexists |]. apply ends_revoked; [done |]. unfold db_sessions.
      by apply negb_true_iff, has_status_false in H0.
    + intros s _. eexists. unfold db_sessions. cbn. by rewrite lookup_insert_eq.
  - split; [apply closes_refl |]. intros s Hs. exists s. split; [done |].
    specialize (H s Hs). by apply negb_false_iff, has_status_true in H.
Qed.

Lemma markExpired_wp id now w :
  wp (markExpired id now)
     (fun _ w' => closes now w w' /\
        forall s, db_sessions w' !! id = Some s -> ses_status s <> SESSION_ACTIVE)
     (fun _ _ => False) w.
Proof.
  unfold markExpired, getSessionById. do 2 wp_stmt. unfold db_sessions.
  destruct (sessions (identity w) !! id) as [s0 |] eqn:E; cbn.
  - wp_go; try (exfalso; lia).
    + split; [split; [by eexists |] |].
      * cbn. apply ends_expired; [done | by apply has_status_true].
      * intros s. cbn. rewrite lookup_insert_eq. by intros [= <-].
    + split; [apply closes_refl |]. intros s Hs. by apply has_status_false, H.
  - split; [apply closes_refl |]. unfold db_sessions. by rewrite E.
Qed.

Lemma assertSessionUsable_wp id now w :
  wp (assertSessionUsable id now)
     (fun v w' => w' = w /\ exists s u, v = (s, Some u) /\ db_sessions w !! id = Some s /\
        users (catalog w) !! ses_userId s = Some u /\ ses_status s = SESSION_ACTIVE /\
        now <= ses_expiresAt s /\ user_isActive u = true)
     (fun _ w' => closes now w w') w.
Proof.
  unfold assertSessionUsable, getSessionById. do 3 wp_stmt; wp_stmt; [apply closes_refl |].
  unfold db_sessions in *. destruct (sessions (identity w) !! id) as [s |] eqn:E; [| done].
  injection H as <-. cbn [fst snd view_of]. wp_until @markExpired; try apply closes_refl.
  - eapply wp_mono; [apply markExpired_wp | | done]. intros _ w' [Hc _]. by wp_go.
  - cbn in H1. apply negb_false_iff, has_status_true in H0. apply negb_false_iff in H2.
    split; [done |]. exists s, a. unfold view_of. rewrite H1. split_and!; try done. lia.
Qed.

Lemma revokeSession_wp requester id reason allowAny now w :
  wp (revokeSession requester id reason allowAny now)
     (fun v w' => closes now w w' /\ exists s, db_sessions w !! id = Some s /\
        v = view_of w s /\ (ses_userId s = requester \/ allowAny = true) /\
        exists s', db_sessions w' !! id = Some s' /\ ses_status s' = SESSION_REVOKED)
     (fun _ w' => w' = w) w.
Proof.
  unfold revokeSession, getSessionById. do 3 wp_stmt; wp_stmt; [done |].
  unfold db_sessions in *. destruct (sessions (identity w) !! id) as [s |] eqn:E; [| done].
  injection H as <-. cbn [fst snd view_of].
  assert (Ho : negb (bool_decide (ses_userId s = requester)) && negb allowAny = false ->
     ses_userId s = requester \/ allowAny = true).
  { intros Hb. case_bool_decide; [by left | right]. by destruct allowAny. }
  wp_go; try done.
  - split; [apply closes_refl |]. exists s. split_and!; [done | done | by apply Ho |].
    exists s. split; [done |]. by apply has_status_true.
  - same_row E. split.
    + split; [by eexists |]. cbn. apply ends_revoked; [done | by apply has_status_false].
    + exists s. split_and!; [done | done | by apply Ho |]. eexists. unfold db_sessions. cbn.
      by rewrite lookup_insert_eq.
Qed.

Section Rotation.
Context `{Crypto}.

(** A rotation that succeeds: whatever was read before, the row holds the hash of
    the incoming token now, and gets the hash of the next one. *)
Definition rotates (p : RotateParams) (now : Z) (s : session) (w w' : world) : Prop :=
  db_sessions w !! ses_id s = Some s /\ rotatable (hashRefreshToken (rp_refreshToken p)) s = true /\
  w' = set_sessions (<[ses_id s := rotated p now s]> (db_sessions w)) w.

Lemma replay_wp id reason now (Q : unit -> world -> Prop) w :
  wp (replay id reason now) Q
     (fun e w' => e = RefreshReplayError id reason /\ closes now w w' /\
        forall s, db_sessions w !! id = Some s -> exists s',
          db_sessions w' !! id = Some s' /\ ses_status s' = SESSION_REVOKED) w.
Proof.
  unfold replay. wp_stmt. eapply wp_mono; [apply revokeForReplay_wp | | done].
  intros _ w' [Hc Hr]. by wp_go.
Qed.

(** The session a continuation was given passes the checks of the code. *)
Definition refreshable (p : RotateParams) (now : Z) (v : session_view) : Prop :=
  ses_deviceId (fst v) = rp_deviceId p /\ ses_status (fst v) = SESSION_ACTIVE /\
  now <= ses_expiresAt (fst v) /\ (user_isActive <$> snd v) = Some true /\
  ses_previousRefreshTokenHash (fst v) <> Some (hashRefreshToken (rp_refreshToken p)) /\
  ses_refreshTokenHash (fst v) = Some (hashRefreshToken (rp_refreshToken p)).

Lemma rotate_continue_wp p found now w :
  keyed ses_id (db_sessions w) ->
  wp (rotate_continue p found now)
     (fun v w' => exists v0 s, found = Some v0 /\ refreshable p now v0 /\ ses_id s = ses_id (fst v0) /\
        rotates p now s w w' /\ v = view_of w' (rotated p now s))
     (fun e w' => closes now w w' /\
        forall id reason, e = RefreshReplayError id reason ->
          exists v0, found = Some v0 /\ id = ses_id (fst v0) /\
          forall s, db_sessions w !! id = Some s -> exists s',
            db_sessions w' !! id = Some s' /\ ses_status s' = SESSION_REVOKED) w.
Proof.
  intros Hk. unfold rotate_continue. cbv zeta.
  assert (Href : forall e, (forall i r, e <> RefreshReplayError i r) ->
    closes now w w /\ forall id reason, e = RefreshReplayError id reason ->
      exists v0, found = Some v0 /\ id = ses_id (fst v0) /\
      forall s, db_sessions w !! id = Some s -> exists s',
        db_sessions w !! id = Some s' /\ ses_status s' = SESSION_REVOKED).
  { intros e He. split; [apply closes_refl |]. intros i r ->. by destruct (He i r). }
  wp_stmt. wp_stmt; [by apply Href |]. destruct a as [s u]. cbn [fst snd].
  assert (Hrep : forall reason (Q : unit -> world -> Prop),
    wp (replay (ses_id s) reason now) Q
     (fun e w' => closes now w w' /\ forall id reason, e = RefreshReplayError id reason ->
          exists v0, found = Some v0 /\ id = ses_id (fst v0) /\
          forall s, db_sessions w !! id = Some s -> exists s',
            db_sessions w' !! id = Some s' /\ ses_status s' = SESSION_REVOKED) w).
  { intros reason Q. eapply wp_mono; [apply (replay_wp _ _ _ (fun _ _ => False)) | done |].
    cbn. intros e w' (-> & Hc & Hr).
    split; [done |]. intros ? ? [= <- <-]. by exists (s, u). }
  wp_stmt. wp_stmt; [apply Hrep |]. wp_stmt. wp_stmt; [by apply Href |]. wp_stmt. wp_stmt.
  { wp_stmt. eapply wp_mono; [apply markExpired_wp | | done]. intros _ w' [Hc _]. by wp_go. }
  wp_stmt. wp_stmt. wp_stmt; [by apply Href |]. wp_stmt. unfold user_isActive_of. wp_stmt.
  wp_stmt; [by apply Href |]. wp_stmt. wp_stmt. wp_stmt; [by apply Href |].
  wp_stmt. wp_stmt; [apply Hrep |]. wp_stmt. wp_stmt; [by apply Href |].
  wp_stmt. wp_stmt; cbv beta; wp_stmt; (wp_stmt; [try apply Hrep |]); try done.
  pose proof (Hk _ _ H8) as Hid. unfold getSessionById.
  wp_stmt. wp_stmt. unfold db_sessions in *. wsimpl. rewrite lookup_insert_eq. wp_stmt; [done |].
  exists (s, u), r. rewrite ?negb_false_iff, ?has_status_true in *.
  apply bool_decide_eq_true in H1, H7. apply bool_decide_eq_false in H6. cbn in H4. subst u.
  injection H11 as <-. unfold refreshable, rotates. cbn.
  rewrite H5. split_and!; try done; try lia; by rewrite Hid.
Qed.

Lemma rotateRefreshToken_wp p now w :
  keyed ses_id (db_sessions w) ->
  wp (rotateRefreshToken p now)
     (fun v w' => exists s, refreshable p now (view_of w s) /\ rotates p now s w w' /\
        v = view_of w' (rotated p now s))
     (fun e w' => closes now w w' /\
        forall id reason, e = RefreshReplayError id reason ->
          exists s, db_sessions w !! id = Some s /\
            holds_hash (hashRefreshToken (rp_refreshToken p)) s = true /\
            exists s', db_sessions w' !! id = Some s' /\ ses_status s' = SESSION_REVOKED) w.
Proof.
  intros Hk. unfold rotateRefreshToken, rotate_find. cbv zeta. do 2 wp_stmt.
  assert (Hf : forall v, view_of w <$> find_row (holds_hash (hashRefreshToken (rp_refreshToken p)))
     (db_sessions w) = Some v -> exists s, v = view_of w s /\ db_sessions w !! ses_id s = Some s /\
     holds_hash (hashRefreshToken (rp_refreshToken p)) s = true).
  { intros v (s & Hs & ->)%fmap_Some. exists s.
    apply find_row_Some in Hs as (k & Hs & Hh). by rewrite (Hk _ _ Hs). }
  eapply wp_mono; [by apply rotate_continue_wp | cbn |].
  - intros v w' (v0 & s & Hv & Href & Hid & Hrot & ->).
    apply Hf in Hv as (s0 & -> & Hs0 & _). cbn in Hid.
    assert (s = s0) as -> by (destruct Hrot as [Hs _]; congruence). by exists s0.
  - intros e w' [Hc Hr]. split; [done |]. intros id reason He.
    destruct (Hr id reason He) as (v0 & Hv & -> & Hs). apply Hf in Hv as (s & -> & Hs0 & Hh).
    exists s. split_and!; [done | done | by eapply Hs].
Qed.

Lemma createSession_wp id userId deviceId token ua ip now w :
  wp (createSession id userId deviceId token ua ip now)
     (fun _ w' => db_sessions w !! id = None /\
        w' = set_sessions (<[id := new_session id userId deviceId token ua ip now]> (db_sessions w)) w)
     (fun _ w' => w' = w) w.
Proof. by wp_go. Qed.

End Rotation.

(* ------------------------------------------------------------------ *)
(** ** The life of a refresh token                                      *)

Section Tokens.
Context `{Crypto}.

(** What the sessions know of the tokens, given the hashes of all the tokens
    drawn so far: a session that is over keeps none, and no hash is on two
    sessions or twice on one. *)
Record tokens_ok (issued : gset string) (t : gmap string session) : Prop := {
  tk_keyed : keyed ses_id t;
  tk_over : forall k s, t !! k = Some s -> ses_status s <> SESSION_ACTIVE ->
    forall h, holds_hash h s = false;
  tk_issued : forall k s h, t !! k = Some s -> holds_hash h s = true -> h ∈ issued;
  tk_unique : forall k1 k2 s1 s2 h, t !! k1 = Some s1 -> t !! k2 = Some s2 ->
    holds_hash h s1 = true -> holds_hash h s2 = true -> k1 = k2;
  tk_distinct : forall k s h, t !! k = Some s -> ses_refreshTokenHash s = Some h ->
    ses_previousRefreshTokenHash s <> Some h;
  tk_live : forall k s, t !! k = Some s -> ses_status s = SESSION_ACTIVE -> ses_revokedAt s = None
}.

Lemma holds_hash_spec h s :
  holds_hash h s = true <-> ses_refreshTokenHash s = Some h \/ ses_previousRefreshTokenHash s = Some h.
Proof. unfold holds_hash. rewrite orb_true_iff, !bool_decide_eq_true. done. Qed.

Lemma ended_holds h status now reason s : holds_hash h (ended status now reason s) = false.
Proof. done. Qed.

(** A row of a table with one row replaced. *)
Lemma tokens_replace issued issued' t k s s' :
  tokens_ok issued t -> t !! k = Some s -> ses_id s' = k -> issued ⊆ issued' ->
  (ses_status s' <> SESSION_ACTIVE -> forall h, holds_hash h s' = false) ->
  (forall h, holds_hash h s' = true -> h ∈ issued' /\ (holds_hash h s = true \/ h ∉ issued)) ->
  (forall h, ses_refreshTokenHash s' = Some h -> ses_previousRefreshTokenHash s' <> Some h) ->
  (ses_status s' = SESSION_ACTIVE -> ses_revokedAt s' = None) ->
  tokens_ok issued' (<[k := s']> t).
Proof.
  intros [Hk Ho Hi Hu Hd Hl] Hs Hid Hsub Hov Hnew Hdis Hlv. split.
  - by apply keyed_insert.
  - intros j x [[<- <-] | [_ Hx]]%lookup_insert_Some; [done | by eapply Ho].
  - intros j x h [[<- <-] | [_ Hx]]%lookup_insert_Some Hh; [by apply Hnew |].
    by eapply Hsub, Hi.
  - intros k1 k2 s1 s2 h [[<- <-] | [Hn1 H1]]%lookup_insert_Some
      [[<- <-] | [Hn2 H2]]%lookup_insert_Some Hh1 Hh2; [done | | | by eapply Hu].
    + destruct (proj2 (Hnew h Hh1)) as [Hold | Hold]; [by eapply (Hu k k2) |].
      destruct Hold. by eapply Hi.
    + destruct (proj2 (Hnew h Hh2)) as [Hold | Hold]; [by eapply (Hu k1 k) |].
      destruct Hold. by eapply Hi.
  - intros j x h [[<- <-] | [_ Hx]]%lookup_insert_Some; [apply Hdis | by eapply Hd].
  - intros j x [[<- <-] | [_ Hx]]%lookup_insert_Some; [done | by eapply Hl].
Qed.

Lemma tokens_weaken issued issued' t : tokens_ok issued t -> issued ⊆ issued' -> tokens_ok issued' t.
Proof. intros [Hk Ho Hi Hu Hd Hl] Hs. split; eauto. Qed.

Lemma tokens_ends issued issued' now t t' :
  tokens_ok issued t -> issued ⊆ issued' -> ends_one now t t' -> tokens_ok issued' t'.
Proof.
  intros Ht Hsub [| k s reason Hs _ | k s reason Hs _]; [by eapply tokens_weaken | |];
    (eapply tokens_replace; [exact Ht | exact Hs | exact (tk_keyed _ _ Ht _ _ Hs) | done..]).
Qed.

Lemma tokens_rotates issued p now s w w' :
  let next := hashRefreshToken (rp_nextRefreshToken p) in
  tokens_ok issued (db_sessions w) -> next ∉ issued -> rotates p now s w w' ->
  tokens_ok ({[next]} ∪ issued) (db_sessions w').
Proof.
  intros next Ht Hn (Hs & Hr & ->).
  apply andb_true_iff in Hr as [[Hr _]%andb_true_iff Ha]. apply bool_decide_eq_true in Hr.
  apply has_status_true in Ha. cbn.
  assert (Hcur : hashRefreshToken (rp_refreshToken p) ∈ issued).
  { eapply (tk_issued _ _ Ht); [exact Hs |]. apply holds_hash_spec. by left. }
  eapply tokens_replace; [exact Ht | exact Hs | done | set_solver | done | | | exact (tk_live _ _ Ht _ _ Hs)].
  - intros h [Hh | Hh]%holds_hash_spec; cbn in Hh; injection Hh as <-.
    + split; [set_solver | by right].
    + split; [set_solver |]. left. apply holds_hash_spec. by left.
  - cbn. intros h [= <-] [= Heq]. apply Hn. unfold next. congruence.
Qed.

Lemma tokens_created issued id userId deviceId token ua ip now t :
  let h := hashRefreshToken token in
  tokens_ok issued t -> h ∉ issued -> t !! id = None ->
  tokens_ok ({[h]} ∪ issued) (<[id := new_session id userId deviceId token ua ip now]> t).
Proof.
  intros h [Hk Ho Hi Hu Hd Hl] Hn Hid.
  set (s := new_session id userId deviceId token ua ip now).
  assert (Hs : forall x, holds_hash x s = true -> x = h).
  { by intros x [[= <-] | [=]]%holds_hash_spec. }
  split.
  - by apply keyed_insert.
  - intros j x [[<- <-] | [_ Hx]]%lookup_insert_Some; [by intros [] | by eapply Ho].
  - intros j x y [[<- <-] | [_ Hx]]%lookup_insert_Some Hh; [apply Hs in Hh as ->; set_solver |].
    apply elem_of_union_r. by eapply Hi.
  - intros k1 k2 s1 s2 y [[<- <-] | [Hn1 H1]]%lookup_insert_Some
      [[<- <-] | [Hn2 H2]]%lookup_insert_Some Hh1 Hh2; [done | | | by eapply Hu].
    + apply Hs in Hh1 as ->. destruct Hn. by eapply Hi.
    + apply Hs in Hh2 as ->. destruct Hn. by eapply Hi.
  - intros j x y [[<- <-] | [_ Hx]]%lookup_insert_Some; [done | by eapply Hd].
  - intros j x [[<- <-] | [_ Hx]]%lookup_insert_Some; [done | by eapply Hl].
Qed.

(** A history: the database, the hashes of the tokens drawn, and the hashes of
    the tokens redeemed, the latest first. *)
Record history : Type := { hs_world : world; hs_issued : gset string; hs_redeemed : list string }.

(** One call of the service, by any requester.  A rotation continues from
    whatever it read earlier; new tokens are fresh ([randomBytes(48)]). *)
Inductive session_call : history -> history -> Prop :=
| call_create id userId deviceId token ua ip now w w' iss rs :
    hashRefreshToken token ∉ iss ->
    createSession id userId deviceId token ua ip now w = (Ok tt, w') ->
    session_call {| hs_world := w; hs_issued := iss; hs_redeemed := rs |}
      {| hs_world := w'; hs_issued := {[hashRefreshToken token]} ∪ iss; hs_redeemed := rs |}
| call_rotate p found now v w w' iss rs :
    hashRefreshToken (rp_nextRefreshToken p) ∉ iss ->
    rotate_continue p found now w = (Ok v, w') ->
    session_call {| hs_world := w; hs_issued := iss; hs_redeemed := rs |}
      {| hs_world := w'; hs_issued := {[hashRefreshToken (rp_nextRefreshToken p)]} ∪ iss;
         hs_redeemed := hashRefreshToken (rp_refreshToken p) :: rs |}
| call_rotate_fails p found now e w w' iss rs :
    rotate_continue p found now w = (Err e, w') ->
    session_call {| hs_world := w; hs_issued := iss; hs_redeemed := rs |}
      {| hs_world := w'; hs_issued := iss; hs_redeemed := rs |}
| call_use id now w iss rs :
    session_call {| hs_world := w; hs_issued := iss; hs_redeemed := rs |}
      {| hs_world := (assertSessionUsable id now w).2; hs_issued := iss; hs_redeemed := rs |}
| call_revoke requester id reason allowAny now w iss rs :
    session_call {| hs_world := w; hs_issued := iss; hs_redeemed := rs |}
      {| hs_world := (revokeSession requester id reason allowAny now w).2;
         hs_issued := iss; hs_redeemed := rs |}
| call_other w w' iss rs :
    db_sessions w' = db_sessions w ->
    session_call {| hs_world := w; hs_issued := iss; hs_redeemed := rs |}
      {| hs_world := w'; hs_issued := iss; hs_redeemed := rs |}.

Definition history_ok (x : history) : Prop :=
  tokens_ok (hs_issued x) (db_sessions (hs_world x)) /\ NoDup (hs_redeemed x) /\
  forall h, h ∈ hs_redeemed x -> h ∈ hs_issued x /\
    forall k s, db_sessions (hs_world x) !! k = Some s -> ses_refreshTokenHash s <> Some h.

(** What a call does to the table of sessions. *)
Inductive table_move (x y : history) : Prop :=
| move_ends now :
    hs_issued y = hs_issued x -> hs_redeemed y = hs_redeemed x ->
    ends_one now (db_sessions (hs_world x)) (db_sessions (hs_world y)) -> table_move x y
| move_rotates p now s :
    hashRefreshToken (rp_nextRefreshToken p) ∉ hs_issued x ->
    rotates p now s (hs_world x) (hs_world y) ->
    hs_issued y = {[hashRefreshToken (rp_nextRefreshToken p)]} ∪ hs_issued x ->
    hs_redeemed y = hashRefreshToken (rp_refreshToken p) :: hs_redeemed x -> table_move x y
| move_creates id userId deviceId token ua ip now :
    hashRefreshToken token ∉ hs_issued x -> db_sessions (hs_world x) !! id = None ->
    db_sessions (hs_world y) =
      <[id := new_session id userId deviceId token ua ip now]> (db_sessions (hs_world x)) ->
    hs_issued y = {[hashRefreshToken token]} ∪ hs_issued x -> hs_redeemed y = hs_redeemed x ->
    table_move x y.

Lemma session_call_move x y :
  keyed ses_id (db_sessions (hs_world x)) -> session_call x y -> table_move x y.
Proof.
  intros Hk Hc. destruct Hc; cbn [hs_world hs_issued hs_redeemed] in *.
  - destruct (wp_ok _ _ _ _ _ _ (createSession_wp _ _ _ _ _ _ _ w) H1) as [Hid ->].
    by eapply move_creates.
  - destruct (wp_ok _ _ _ _ _ _ (rotate_continue_wp p found now w Hk) H1)
      as (v0 & s & _ & _ & _ & Hr & _).
    by eapply move_rotates.
  - destruct (wp_err _ _ _ _ _ _ (rotate_continue_wp p found now w Hk) H0) as [[_ He] _].
    by eapply move_ends.
  - pose proof (assertSessionUsable_wp id now w) as Hw. unfold wp in Hw.
    eapply (move_ends _ _ now); [done | done |]. cbn [hs_world].
    destruct (assertSessionUsable id now w) as [[v | e] w']; [| apply Hw].
    destruct Hw as [-> _]. constructor.
  - pose proof (revokeSession_wp requester id reason allowAny now w) as Hw. unfold wp in Hw.
    eapply (move_ends _ _ now); [done | done |]. cbn [hs_world].
    destruct (revokeSession _ _ _ _ _ w) as [[v | e] w']; [apply Hw |]. subst w'. constructor.
  - eapply (move_ends _ _ 0); [done | done |]. cbn [hs_world]. rewrite H0. constructor.
Qed.

Lemma ends_one_current now t t' k s' h :
  ends_one now t t' -> t' !! k = Some s' -> ses_refreshTokenHash s' = Some h ->
  exists s, t !! k = Some s /\ ses_refreshTokenHash s = Some h.
Proof.
  intros [| j s reason Hj Ha | j s reason Hj Ha] Hs Hh; [by eauto | |];
    apply lookup_insert_Some in Hs as [[<- <-] | [_ Hs]]; [done | by eauto | done | by eauto].
Qed.

Lemma history_ok_call x y : history_ok x -> session_call x y -> history_ok y.
Proof.
  intros (Ht & Hnd & Hred) Hc. apply session_call_move in Hc; [| apply Ht].
  destruct Hc as [now Hi Hr He | p now s Hn Hr Hi Hrd | id userId deviceId token ua ip now Hn Hid Hy Hi Hrd].
  - unfold history_ok. rewrite Hi, Hr. split; [by eapply tokens_ends |]. split; [done |].
    intros h Hh. destruct (Hred h Hh) as [Hiss Hcur]. split; [done |]. intros k s Hs Heq.
    eapply ends_one_current in Hs as (s0 & Hs0 & Hh0); [| done | done]. by eapply Hcur.
  - unfold history_ok. rewrite Hi, Hrd. split; [by eapply tokens_rotates |].
    destruct Hr as (Hs & Hcan & ->).
    apply andb_true_iff in Hcan as [[Hcur _]%andb_true_iff _]. apply bool_decide_eq_true in Hcur.
    set (h0 := hashRefreshToken (rp_refreshToken p)) in *.
    assert (Hh0 : h0 ∈ hs_issued x).
    { eapply (tk_issued _ _ Ht); [exact Hs |]. apply holds_hash_spec. by left. }
    assert (Hnext : forall h, h ∈ hs_issued x -> hashRefreshToken (rp_nextRefreshToken p) <> h).
    { by intros h Hh <-. }
    split.
    + apply NoDup_cons. split; [| done]. intros Hin.
      destruct (Hred h0 Hin) as [_ Hno]. by eapply Hno.
    + intros h Hh. assert (Hiss : h ∈ hs_issued x).
      { apply elem_of_cons in Hh as [-> | Hh]; [done | by apply Hred]. }
      split; [set_solver |]. cbn.
      intros k s' [[<- <-] | [Hne Hs']]%lookup_insert_Some Heq.
      { cbn in Heq. injection Heq as Heq. by eapply Hnext. }
      apply elem_of_cons in Hh as [-> | Hh]; [| by eapply (proj2 (Hred h Hh))].
      apply Hne. eapply (tk_unique _ _ Ht); [exact Hs | exact Hs' | |]; apply holds_hash_spec; by left.
  - unfold history_ok. rewrite Hi, Hy, Hrd. split; [by apply tokens_created |]. split; [done |].
    intros h Hh. destruct (Hred h Hh) as [Hiss Hcur]. split; [set_solver |].
    intros k s [[<- <-] | [_ Hs]]%lookup_insert_Some Heq; [| by eapply Hcur].
    cbn in Heq. injection Heq as Heq. by subst.
Qed.

Lemma history_ok_run x y : rtc session_call x y -> history_ok x -> history_ok y.
Proof. induction 1; eauto using history_ok_call. Qed.

(** A revoked session: the row a table has for good. *)
Lemma revoked_stays x y k s :
  session_call x y -> keyed ses_id (db_sessions (hs_world x)) ->
  db_sessions (hs_world x) !! k = Some s -> ses_status s = SESSION_REVOKED ->
  db_sessions (hs_world y) !! k = Some s.
Proof.
  intros Hc Hk Hs Hrev. apply session_call_move in Hc; [| done].
  destruct Hc as [now _ _ He | p now s0 _ (Hs0 & Hcan & ->) _ _ | id userId deviceId token ua ip now _ Hid -> _ _].
  - destruct He as [| j r reason Hj Ha | j r reason Hj Ha]; [done | |];
      (rewrite lookup_insert_ne; [done |]; intros ->; congruence).
  - cbn. rewrite lookup_insert_ne; [done |]. intros <-.
    apply andb_true_iff in Hcan as [_ Ha]. apply has_status_true in Ha. congruence.
  - rewrite lookup_insert_ne; [done | congruence].
Qed.

Lemma call_keyed x y : keyed ses_id (db_sessions (hs_world x)) -> session_call x y ->
  keyed ses_id (db_sessions (hs_world y)).
Proof.
  intros Hk Hc. apply session_call_move in Hc; [| done].
  destruct Hc as [now _ _ He | p now s0 _ (Hs0 & Hcan & ->) _ _ | id userId deviceId token ua ip now _ Hid -> _ _].
  - destruct He as [| j r reason Hj Ha | j r reason Hj Ha]; [done | |];
      (apply keyed_insert; [done | exact (Hk _ _ Hj)]).
  - by apply keyed_insert.
  - by apply keyed_insert.
Qed.

(** A token that no session holds any more, and that will not be drawn again. *)
Definition dead_token (h : string) (x : history) : Prop :=
  h ∈ hs_issued x /\ forall k s, db_sessions (hs_world x) !! k = Some s -> holds_hash h s = false.

Lemma no_hash h s : ses_refreshTokenHash s <> Some h -> ses_previousRefreshTokenHash s <> Some h -> holds_hash h s = false.
Proof. intros Hc Hp. unfold holds_hash. by rewrite !bool_decide_false. Qed.

Lemma dead_token_call h x y :
  keyed ses_id (db_sessions (hs_world x)) -> session_call x y -> dead_token h x -> dead_token h y.
Proof.
  intros Hk Hc [Hi Hno]. apply session_call_move in Hc; [| done].
  destruct Hc as [now Hiy _ He | p now s0 Hn (Hs0 & Hcan & Hw) Hiy _ | id userId deviceId token ua ip now Hn Hid Hy Hiy _];
    (split; [rewrite Hiy; set_solver |]).
  - intros k s Hs. destruct He as [| j r reason Hj Ha | j r reason Hj Ha]; [by eapply Hno | |];
      (apply lookup_insert_Some in Hs as [[_ <-] | [_ Hs]]; [done | by eapply Hno]).
  - intros k s. rewrite Hw. cbn. intros [[_ <-] | [_ Hs]]%lookup_insert_Some; [| by eapply Hno].
    apply andb_true_iff in Hcan as [[Hcur%bool_decide_eq_true _]%andb_true_iff _].
    specialize (Hno _ _ Hs0). apply no_hash; cbn; intros [= Heq]; [by rewrite <- Heq in Hi |].
    rewrite (proj2 (holds_hash_spec h s0)) in Hno; [done | left; congruence].
  - intros k s. rewrite Hy. intros [[_ <-] | [_ Hs]]%lookup_insert_Some; [| by eapply Hno].
    apply no_hash; cbn; [intros [= Heq]; by rewrite <- Heq in Hi | done].
Qed.

(** Nobody can redeem it. *)
Lemma dead_token_refused p now x :
  dead_token (hashRefreshToken (rp_refreshToken p)) x ->
  rotateRefreshToken p now (hs_world x) = (Err (UnauthorizedException "invalid refresh token"), hs_world x).
Proof.
  intros [_ Hno]. unfold rotateRefreshToken, rotate_find, rotate_continue, bind, reads.
  by rewrite (proj2 (find_row_None _ _) Hno).
Qed.

(** The state after a call of [revokeSession] that succeeded. *)
Definition revoked_history (w : world) (x : history) : history :=
  {| hs_world := w; hs_issued := hs_issued x; hs_redeemed := hs_redeemed x |}.

Lemma revokeSession_call requester k reason allowAny at_ x v w :
  revokeSession requester k reason allowAny at_ (hs_world x) = (Ok v, w) -> session_call x (revoked_history w x).
Proof.
  intros Hrun. destruct x as [w0 iss rs]. pose proof (call_revoke requester k reason allowAny at_ w0 iss rs) as Hc.
  cbn [hs_world] in Hrun. by rewrite Hrun in Hc.
Qed.

(** Its session is revoked, and the tokens it held are dead. *)
Lemma revokeSession_kills requester k reason allowAny at_ x v w :
  history_ok x -> revokeSession requester k reason allowAny at_ (hs_world x) = (Ok v, w) ->
  exists s s', db_sessions (hs_world x) !! k = Some s /\ db_sessions w !! k = Some s' /\
    ses_status s' = SESSION_REVOKED /\
    forall h, holds_hash h s = true -> dead_token h (revoked_history w x).
Proof.
  intros [Ht Hrest] Hrun.
  pose proof (history_ok_call _ _ (conj Ht Hrest) (revokeSession_call _ _ _ _ _ _ _ _ Hrun)) as [Ht' _].
  destruct (wp_ok _ _ _ _ _ _ (revokeSession_wp requester k reason allowAny at_ (hs_world x)) Hrun)
    as ([_ He] & s & Hs & _ & _ & s' & Hs' & Hrev).
  exists s, s'. split_and!; [done.. |]. intros h Hh. split; [by eapply (tk_issued _ _ Ht) |]. cbn in *.
  intros j r Hr. destruct (decide (j = k)) as [-> | Hne].
  - same_row Hr. eapply (tk_over _ _ Ht'); [exact Hs' | congruence].
  - assert (Hrx : db_sessions (hs_world x) !! j = Some r \/ holds_hash h r = false).
    { destruct He as [| i r0 why Hi Ha | i r0 why Hi Ha]; [by left | |];
        (apply lookup_insert_Some in Hr as [[_ <-] | [_ Hr]]; [by right | by left]). }
    destruct Hrx as [Hrx | Hno]; [| done]. destruct (holds_hash h r) eqn:Hhr; [| done].
    destruct Hne. by eapply (tk_unique _ _ Ht).
Qed.

End Tokens.

Section Checks.
Context `{Crypto}.

(** The checks of the code are exactly [refreshable]. *)
Lemma rotate_continue_ok p v now w :
  refreshable p now v -> db_sessions w !! ses_id (fst v) = Some (fst v) ->
  ses_revokedAt (fst v) = None ->
  wp (rotate_continue p (Some v) now) (fun _ _ => True) (fun _ _ => False) w.
Proof.
  destruct v as [s u]. unfold refreshable. cbn [fst snd].
  intros (Hd & Ha & Hx & Hu & Hp & Hc) Hs Hr. apply fmap_Some in Hu as (u0 & -> & Hu).
  unfold rotate_continue, user_isActive_of. cbn [or_throw]. wp_step. apply wp_ret. cbn [fst snd].
  unfold has_status. rewrite (bool_decide_true (ses_deviceId s = _)) by done.
  rewrite (bool_decide_true (ses_refreshTokenHash s = _)) by done.
  rewrite Ha, (proj2 (Z.ltb_ge _ _)) by lia.
  rewrite bool_decide_false by done. rewrite (bool_decide_false (ses_previousRefreshTokenHash s = _)) by done.
  repeat (first [progress cbn [negb when throw_if] | wp_step]); try done.
  { cbn in *. simplify_eq. by rewrite <- Hu in *. }
  apply wp_updateMany.
  - intros r Hr' _. unfold db_sessions in *. wp_go; unfold db_sessions in *; wsimpl;
      rewrite ?lookup_insert_eq in *; done.
  - intros Hf. specialize (Hf s Hs). unfold rotatable, has_status in Hf.
    by rewrite !bool_decide_true in Hf.
Qed.

(** With the tokens in order, a hash finds its session. *)
Lemma find_holder issued w k s h :
  tokens_ok issued (db_sessions w) -> db_sessions w !! k = Some s -> holds_hash h s = true ->
  find_row (holds_hash h) (db_sessions w) = Some s.
Proof.
  intros Ht Hs Hh. eapply find_row_unique; [exact Hs | exact Hh |].
  intros k' s' Hs' Hh'. by eapply (tk_unique _ _ Ht).
Qed.

Lemma rotate_continue_reused p s u now w :
  ses_status s = SESSION_ACTIVE ->
  ses_previousRefreshTokenHash s = Some (hashRefreshToken (rp_refreshToken p)) ->
  (ses_deviceId s <> rp_deviceId p \/ (now <= ses_expiresAt s /\ user_isActive u = true)) ->
  wp (rotate_continue p (Some (s, Some u)) now) (fun _ _ => False)
     (fun e w' => (exists reason, e = RefreshReplayError (ses_id s) reason) /\ closes now w w' /\
        forall s0, db_sessions w !! ses_id s = Some s0 -> exists s',
          db_sessions w' !! ses_id s = Some s' /\ ses_status s' = SESSION_REVOKED) w.
Proof.
  intros Ha Hp Hor. unfold rotate_continue, user_isActive_of. cbn [or_throw]. cbv zeta.
  assert (Hrep : forall reason, wp (replay (ses_id s) reason now) (fun _ _ => False)
     (fun e w' => (exists reason, e = RefreshReplayError (ses_id s) reason) /\ closes now w w' /\
        forall s0, db_sessions w !! ses_id s = Some s0 -> exists s',
          db_sessions w' !! ses_id s = Some s' /\ ses_status s' = SESSION_REVOKED) w).
  { intros reason. eapply wp_mono; [apply (replay_wp _ _ _ (fun _ _ => False)) | done |].
    intros e w' (-> & Hc & Hs). split; [by eexists | done]. }
  wp_step. apply wp_ret. cbn [fst snd]. wp_step. wp_step.
  { eapply wp_mono; [apply Hrep | done | done]. }
  apply negb_false_iff, bool_decide_eq_true in H0.
  destruct Hor as [? | [Hx Hu]]; [done |].
  unfold has_status. rewrite Ha, (proj2 (Z.ltb_ge _ _)) by lia.
  rewrite (bool_decide_true (ses_previousRefreshTokenHash s = _)) by done.
  repeat (first [progress cbn [negb when throw_if] | wp_step]); try done.
  { cbn in *. simplify_eq. by rewrite Hu in *. }
  eapply wp_mono; [apply Hrep | done | done].
Qed.

End Checks.

(* ------------------------------------------------------------------ *)
(** ** A session to refresh                                             *)

Module SessionExample.

#[local] Instance crypto : Crypto := plain_crypto.

Definition ama : user :=
  {| user_id := "ama"; user_email := "ama@example.com"; user_passwordHash := "h";
     user_role := CUSTOMER; user_isActive := true; user_emailVerifiedAt := None |}.

Definition params (token next : string) : RotateParams :=
  {| rp_refreshToken := token; rp_deviceId := "phone"; rp_nextRefreshToken := next;
     rp_ipAddress := None; rp_userAgent := None |}.

Definition start : world := set_users {["ama" := ama]} empty_world.

(** A login, a refresh, and a second use of the first token. *)
Definition w1 : world := (createSession "ses" "ama" "phone" "tok1" None None 1000 start).2.
Definition w2 : world := (rotateRefreshToken (params "tok1" "tok2") 2000 w1).2.
Definition w3 : world := (rotateRefreshToken (params "tok1" "tok3") 3000 w2).2.

Definition s1 : session := new_session "ses" "ama" "phone" "tok1" None None 1000.
Definition s2 : session := rotated (params "tok1" "tok2") 2000 s1.

Example login_run : createSession "ses" "ama" "phone" "tok1" None None 1000 start = (Ok tt, w1).
Proof. run_ends. Qed.
Example refresh_run : rotateRefreshToken (params "tok1" "tok2") 2000 w1 = (Ok (s2, Some ama), w2).
Proof. run_ends. Qed.
Example refresh_read : view_of w1 <$> find_row (holds_hash (hashRefreshToken "tok1")) (db_sessions w1)
  = Some (s1, Some ama).
Proof. vm_run. Qed.
Example reuse_run : (rotateRefreshToken (params "tok1" "tok3") 3000 w2).1 =
  Err (RefreshReplayError "ses" "rotated_refresh_token_reused").
Proof. vm_run. Qed.
Example reuse_revokes : (fun s => (ses_status s, ses_refreshTokenHash s)) <$> (db_sessions w3 !! "ses")
  = Some (SESSION_REVOKED, None).
Proof. vm_run. Qed.

Lemma start_ok : tokens_ok ∅ (db_sessions start).
Proof. split; intros *; cbn; rewrite ?lookup_empty; done. Qed.

Definition h0 : history := {| hs_world := start; hs_issued := ∅; hs_redeemed := [] |}.
Definition h1 : history :=
  {| hs_world := w1; hs_issued := {[hashRefreshToken "tok1"]} ∪ ∅; hs_redeemed := [] |}.
Definition h2 : history :=
  {| hs_world := w2; hs_issued := {[hashRefreshToken "tok2"]} ∪ ({[hashRefreshToken "tok1"]} ∪ ∅);
     hs_redeemed := [hashRefreshToken "tok1"] |}.

Lemma run_h2 : rtc session_call h0 h2.
Proof.
  apply (rtc_l _ _ h1); [| apply rtc_once].
  - eapply call_create; [set_solver | exact login_run].
  - eapply (call_rotate (params "tok1" "tok2") (Some (s1, Some ama)) 2000 (s2, Some ama)).
    + cbn. intros Hin. apply elem_of_union in Hin as [Hin | Hin]; [| by apply elem_of_empty in Hin].
      by apply elem_of_singleton in Hin.
    + rewrite <- refresh_read. exact refresh_run.
Qed.

Lemma w2_ok : tokens_ok (hs_issued h2) (db_sessions w2).
Proof.
  refine (proj1 (history_ok_run h0 h2 run_h2 _)). split; [exact start_ok |].
  split; [constructor |]. intros h Hh. by apply elem_of_nil in Hh.
Qed.

End SessionExample.

(* ------------------------------------------------------------------ *)
(** ** Properties                                                       *)

(** C8: No refresh token is redeemed twice.  Over any sequence of logins, refreshes,
    revocations and expiries, in any order and with every refresh continuing
    from a session it read at any earlier time, the tokens that bought a new pair
    are all different, provided each new token is fresh; and none of them is the
    current token of any session. *)
Theorem refresh_token_single_use `{Crypto} x y
    (Hok : tokens_ok (hs_issued x) (db_sessions (hs_world x))) (Hnone : hs_redeemed x = [])
    (Hrun : rtc session_call x y) :
  NoDup (hs_redeemed y) /\
  forall h, h ∈ hs_redeemed y -> forall k s, db_sessions (hs_world y) !! k = Some s ->
    ses_refreshTokenHash s <> Some h.
Proof.
  destruct (history_ok_run x y Hrun) as (_ & Hnd & Hred).
  - split; [done |]. rewrite Hnone. split; [constructor |]. by intros h Hh%elem_of_nil.
  - split; [done |]. intros h Hh. by apply Hred.
Qed.

Lemma refresh_token_single_use_witness : NoDup (hs_redeemed SessionExample.h2).
Proof.
  exact (proj1 (refresh_token_single_use (H := plain_crypto) SessionExample.h0 SessionExample.h2
    SessionExample.start_ok eq_refl SessionExample.run_h2)).
Defined.

(** A refresh succeeds exactly when the token is the current one of an ACTIVE,
    unexpired session of an active user, on the session's own device: the row then
    gets the next token, keeps the spent one as its previous, and lives another
    thirty days.  Otherwise it throws and at most one session ends. *)
Theorem rotateRefreshToken_outcome `{Crypto} issued p now w
    (Hok : tokens_ok issued (db_sessions w)) :
  match rotateRefreshToken p now w with
  | (Ok v, w') => exists s, refreshable p now (view_of w s) /\ rotates p now s w w' /\
      v = view_of w' (rotated p now s)
  | (Err _, w') => closes now w w' /\
      forall k s, db_sessions w !! k = Some s -> ~ refreshable p now (view_of w s)
  end.
Proof.
  pose proof (rotateRefreshToken_wp p now w (tk_keyed _ _ Hok)) as Hwp. unfold wp in Hwp.
  destruct (rotateRefreshToken p now w) as [[v | e] w'] eqn:E; [exact Hwp |].
  split; [apply Hwp |]. intros k s Hs Href.
  assert (Hh : holds_hash (hashRefreshToken (rp_refreshToken p)) s = true).
  { apply holds_hash_spec. left. apply Href. }
  pose proof (find_holder _ _ _ _ _ Hok Hs Hh) as Hf.
  unfold rotateRefreshToken, rotate_find, bind, reads in E. rewrite Hf in E.
  refine (wp_err _ _ _ _ _ _ (rotate_continue_ok p (view_of w s) now w Href _ _) E).
  - cbn. by rewrite (tk_keyed _ _ Hok _ _ Hs).
  - eapply (tk_live _ _ Hok); [exact Hs |]. apply Href.
Qed.

Lemma rotateRefreshToken_outcome_witness :
  exists s, rotates (H := plain_crypto) (SessionExample.params "tok2" "tok4") 4000 s SessionExample.w2
    (rotateRefreshToken (H := plain_crypto) (SessionExample.params "tok2" "tok4") 4000
       SessionExample.w2).2.
Proof.
  pose proof (rotateRefreshToken_outcome (H := plain_crypto) _
    (SessionExample.params "tok2" "tok4") 4000 SessionExample.w2 SessionExample.w2_ok) as Hout.
  set (run := rotateRefreshToken _ _ _) in *.
  assert (E : run.1 = Ok (rotated (H := plain_crypto) (SessionExample.params "tok2" "tok4") 4000 SessionExample.s2,
    Some SessionExample.ama)) by vm_run.
  destruct run as [[v | e] w']; [| discriminate E].
  destruct Hout as (s & _ & Hr & _). by exists s.
Defined.

(** A stolen token is found out.  Presenting a token that has already been
    rotated (or any token of a session, from another device) throws a replay
    error and revokes the session it belongs to, so that the current token is
    dead as well. *)
Theorem reused_token_revokes `{Crypto} issued p now w k s u
    (Hok : tokens_ok issued (db_sessions w))
    (Hs : db_sessions w !! k = Some s) (Hu : users (catalog w) !! ses_userId s = Some u)
    (Hp : ses_previousRefreshTokenHash s = Some (hashRefreshToken (rp_refreshToken p)))
    (Hor : ses_deviceId s <> rp_deviceId p \/ (now <= ses_expiresAt s /\ user_isActive u = true)) :
  exists reason w' s', rotateRefreshToken p now w = (Err (RefreshReplayError k reason), w') /\
    db_sessions w' !! k = Some s' /\ ses_status s' = SESSION_REVOKED /\
    forall h, holds_hash h s' = false.
Proof.
  assert (Hh : holds_hash (hashRefreshToken (rp_refreshToken p)) s = true).
  { apply holds_hash_spec. by right. }
  assert (Ha : ses_status s = SESSION_ACTIVE).
  { destruct (decide (ses_status s = SESSION_ACTIVE)) as [| Hne]; [done |].
    by rewrite (tk_over _ _ Hok _ _ Hs Hne) in Hh. }
  pose proof (find_holder _ _ _ _ _ Hok Hs Hh) as Hf.
  pose proof (tk_keyed _ _ Hok _ _ Hs) as Hid.
  pose proof (rotate_continue_reused p s u now w Ha Hp Hor) as Hwp.
  assert (E : rotateRefreshToken p now w = rotate_continue p (Some (s, Some u)) now w).
  { unfold rotateRefreshToken, rotate_find, bind, reads. rewrite Hf. unfold view_of. cbn.
    by rewrite Hu. }
  rewrite E. unfold wp in Hwp. destruct (rotate_continue _ _ _ w) as [[v | e] w']; [done |].
  rewrite Hid in Hwp. destruct Hwp as ([reason ->] & [_ Hc] & Hr).
  destruct (Hr s Hs) as (s' & Hs' & Hrev). exists reason, w', s'. split_and!; try done.
  eapply (tk_over issued); [by eapply tokens_ends | exact Hs' | by rewrite Hrev].
Qed.

Lemma reused_token_revokes_witness :
  exists reason w' s', rotateRefreshToken (H := plain_crypto)
      (SessionExample.params "tok1" "tok3") 3000 SessionExample.w2 =
      (Err (RefreshReplayError "ses" reason), w') /\
    db_sessions w' !! "ses" = Some s' /\ ses_status s' = SESSION_REVOKED /\
    forall h, holds_hash h s' = false.
Proof.
  apply (reused_token_revokes (H := plain_crypto) _ (SessionExample.params "tok1" "tok3") 3000
    SessionExample.w2 "ses" SessionExample.s2 SessionExample.ama SessionExample.w2_ok);
    [vm_run | vm_run | vm_run | right; split; [vm_compute; discriminate | reflexivity]].
Defined.

