(* ===== verification/Auth.v ===== *)
(** Auth.v: sign-up, login, refresh, logout and the guards of a request
    (src/src/auth), over the users (src/src/users) and the sessions of
    Sessions.v.  bcrypt and the JWT library are parameters. *)

From S2P Require Import Prelude Errors Values Hashing Store Context Sessions.

Local Open Scope Z_scope.

(* ------------------------------------------------------------------ *)
(** ** Roles and permissions                                            *)

Inductive AppPermission : Type :=
| AUTHENTICATED
| CUSTOMER_ACCESS | ORGANIZER_ACCESS | GATE_STAFF_ACCESS | ADMIN_ACCESS
| ADMIN_SUPPORT_READ_USERS | ADMIN_SUPPORT_READ_ORGANIZERS | ADMIN_SUPPORT_READ_EVENTS
| ADMIN_SUPPORT_READ_PAYMENTS | ADMIN_SUPPORT_READ_TICKETS | ADMIN_SUPPORT_READ_ADMISSIONS
| ADMIN_SUPPORT_READ_AUDIT_LOGS
| SESSION_REVOKE_OWN | SESSION_REVOKE_ANY | USER_READ_SELF
| ORGANIZER_CREATE | ORGANIZER_READ_OWN | ORGANIZER_UPDATE_OWN | ORGANIZER_SUBMIT_OWN
| EVENT_CREATE_OWN | EVENT_READ_OWN | EVENT_UPDATE_OWN | EVENT_PUBLISH_OWN | EVENT_CANCEL_OWN
| TABLE_MANAGE_ORGANIZER | TABLE_READ_ORGANIZER | TABLE_READ_PUBLIC | TABLE_HOLD_OWN
| TABLE_READ_OWN_RESERVATION
| PAYMENT_INITIATE_OWN | PAYMENT_READ_OWN | TICKET_READ_OWN | ADMISSION_SCAN_EVENT.

#[export] Instance AppPermission_eq_dec : EqDecision AppPermission.
Proof. solve_decision. Defined.

Definition ROLE_PERMISSIONS (role : UserRole) : list AppPermission :=
  match role with
  | CUSTOMER =>
      [AUTHENTICATED; CUSTOMER_ACCESS; SESSION_REVOKE_OWN; USER_READ_SELF; ORGANIZER_CREATE;
       ORGANIZER_READ_OWN; ORGANIZER_UPDATE_OWN; ORGANIZER_SUBMIT_OWN; EVENT_CREATE_OWN;
       EVENT_READ_OWN; EVENT_UPDATE_OWN; EVENT_PUBLISH_OWN; EVENT_CANCEL_OWN; TABLE_READ_PUBLIC;
       TABLE_HOLD_OWN; TABLE_READ_OWN_RESERVATION; PAYMENT_INITIATE_OWN; PAYMENT_READ_OWN;
       TICKET_READ_OWN]
  | ORGANIZER =>
      [AUTHENTICATED; ORGANIZER_ACCESS; SESSION_REVOKE_OWN; USER_READ_SELF; ORGANIZER_CREATE;
       ORGANIZER_READ_OWN; ORGANIZER_UPDATE_OWN; ORGANIZER_SUBMIT_OWN; EVENT_CREATE_OWN;
       EVENT_READ_OWN; EVENT_UPDATE_OWN; EVENT_PUBLISH_OWN; EVENT_CANCEL_OWN;
       TABLE_MANAGE_ORGANIZER; TABLE_READ_ORGANIZER; PAYMENT_INITIATE_OWN; PAYMENT_READ_OWN;
       TICKET_READ_OWN; ADMISSION_SCAN_EVENT]
  | GATE_STAFF => [AUTHENTICATED; GATE_STAFF_ACCESS]
  | ADMIN =>
      [AUTHENTICATED; ADMIN_ACCESS; ADMIN_SUPPORT_READ_USERS; ADMIN_SUPPORT_READ_ORGANIZERS;
       ADMIN_SUPPORT_READ_EVENTS; ADMIN_SUPPORT_READ_PAYMENTS; ADMIN_SUPPORT_READ_TICKETS;
       ADMIN_SUPPORT_READ_ADMISSIONS; ADMIN_SUPPORT_READ_AUDIT_LOGS; SESSION_REVOKE_OWN;
       SESSION_REVOKE_ANY; USER_READ_SELF; ORGANIZER_CREATE; ORGANIZER_READ_OWN;
       ORGANIZER_UPDATE_OWN; ORGANIZER_SUBMIT_OWN; EVENT_CREATE_OWN; EVENT_READ_OWN;
       EVENT_UPDATE_OWN; EVENT_PUBLISH_OWN; EVENT_CANCEL_OWN; TABLE_MANAGE_ORGANIZER;
       TABLE_READ_ORGANIZER; TABLE_READ_PUBLIC; TABLE_HOLD_OWN; TABLE_READ_OWN_RESERVATION;
       PAYMENT_INITIATE_OWN; PAYMENT_READ_OWN; TICKET_READ_OWN]
  end.

(** [PermissionsGuard.canActivate]: the metadata of the handler and the role on
    the request. *)
Definition permissions_canActivate (required : option (list AppPermission)) (role : option UserRole)
  : outcome error bool :=
  match required with
  | None | Some [] => Ok true
  | Some l =>
      match role with
      | None => Err (ForbiddenException "missing user")
      | Some r =>
          if forallb (fun permission => bool_decide (permission ∈ ROLE_PERMISSIONS r)) l then Ok true
          else Err (ForbiddenException "insufficient permissions")
      end
  end.

(** [RolesGuard.canActivate] *)
Definition roles_canActivate (roles : option (list UserRole)) (role : option UserRole)
  : outcome error bool :=
  match roles with
  | None | Some [] => Ok true
  | Some l =>
      match role with
      | Some r => if bool_decide (r ∈ l) then Ok true else Err (ForbiddenException "insufficient role")
      | None => Err (ForbiddenException "insufficient role")
      end
  end.

Record AuthUser : Type := {
  au_id : string;
  au_email : string;
  au_role : UserRole;
  au_sessionId : string;
  au_permissions : list AppPermission;
  au_emailVerifiedAt : option Z;
  au_isActive : bool
}.

(** [JwtAuthGuard.handleRequest]: the user it accepts and the request context
    after [requestContext.set], which does nothing without a store. *)
Definition handleRequest (err : option error) (u : option AuthUser)
    (ctx : option RequestContextValue)
  : outcome error (AuthUser * option RequestContextValue) :=
  match err, u with
  | Some (HttpException 401 msg), _ => Err (UnauthorizedException msg)
  | Some _, _ | None, None => Err (UnauthorizedException "Unauthorized")
  | None, Some u =>
      Ok (u, (fun c =>
        {| correlationId := correlationId c; requestId := requestId c;
           ctx_userId := Some (au_id u); ctx_deviceId := ctx_deviceId c;
           ctx_organizerId := if bool_decide (au_role u = ORGANIZER) then Some (au_id u) else None;
           ctx_ipAddress := ctx_ipAddress c; ctx_userAgent := ctx_userAgent c |}) <$> ctx)
  end.

(* ------------------------------------------------------------------ *)
(** ** Libraries                                                        *)

Record JwtPayload : Type := {
  jwt_sub : string;
  jwt_email : string;
  jwt_role : UserRole;
  jwt_sessionId : string;
  jwt_jti : string;
  jwt_type : string
}.

(** [bcrypt.hash] (for one salt), [bcrypt.compare], and [jwtService.signAsync] with a
    payload, a secret, a lifetime in seconds and the instant of the call, which the
    library puts into the token. *)
Class AuthLibraries : Type := {
  bcrypt_hash : Z -> string -> string;
  bcrypt_compare : string -> string -> bool;
  jwt_sign : JwtPayload -> string -> Z -> Z -> string
}.

(** What the program relies on: a password matches its own hash. *)
Class BcryptSound `(L : AuthLibraries) : Prop :=
  bcrypt_sound : forall rounds p, bcrypt_compare p (bcrypt_hash rounds p) = true.

(* ------------------------------------------------------------------ *)
(** ** Users                                                            *)

Definition normalizeEmail (email : string) : string := toLowerCase (trim email).

Definition findByEmail (email : string) : op (option user) :=
  findFirst users_t (fun u => bool_decide (user_email u = normalizeEmail email)).

(** The columns a new user takes. *)
Definition new_user (id email passwordHash : string) (role : option UserRole) : user :=
  {| user_id := id; user_email := normalizeEmail email; user_passwordHash := passwordHash;
     user_role := default CUSTOMER role; user_isActive := true; user_emailVerifiedAt := None |}.

Definition createUser (id email passwordHash : string) (role : option UserRole) : op user :=
  let u := new_user id email passwordHash role in
  catch (do* create users_t u in ret u)
    (fun e => if is_unique_violation e then throw (ConflictException "email already registered")
              else throw e).

Definition setActive (userId : string) (isActive : bool) : op user :=
  update users_t userId (fun u =>
    {| user_id := user_id u; user_email := user_email u; user_passwordHash := user_passwordHash u;
       user_role := user_role u; user_isActive := isActive;
       user_emailVerifiedAt := user_emailVerifiedAt u |}).

(* ------------------------------------------------------------------ *)
(** ** AuthService                                                      *)

(** What the service reads of a request. *)
Record AuthRequest : Type := {
  ar_forwardedFor : header;
  ar_ip : option string;
  ar_userAgent : header
}.

(** [s.split(',')[0]] *)
Fixpoint before_comma (s : string) : string :=
  match s with
  | EmptyString => EmptyString
  | String c s' => if bool_decide (c = ","%char) then EmptyString else String c (before_comma s')
  end.

(** [this.ip(req)] *)
Definition request_ip (req : AuthRequest) : option string :=
  match ar_forwardedFor req with
  | HMany l => (fun s => trim (before_comma s)) <$> head l
  | HOne s => Some (trim (before_comma s))
  | HAbsent => ar_ip req
  end.

(** [this.userAgent(req)] *)
Definition request_agent (req : AuthRequest) : option string := getHeaderValue (ar_userAgent req).

(** An audit row of this request. *)
Definition audit_row (req : AuthRequest) (action : AuthAuditAction) (success : bool)
    (userId email sessionId reason : option string) (metadata : json) : auth_audit :=
  {| aa_action := action; aa_success := success; aa_userId := userId; aa_email := email;
     aa_sessionId := sessionId; aa_ipAddress := request_ip req;
     aa_userAgent := request_agent req; aa_reason := reason; aa_metadata := metadata |}.

Record AuthResponse : Type := {
  res_userId : string;
  res_email : string;
  res_role : UserRole;
  res_emailVerifiedAt : option Z;
  res_sessionId : string;
  res_accessToken : string;
  res_accessTokenExpiresIn : Z;
  res_refreshToken : string;
  res_refreshTokenExpiresIn : Z
}.

Definition authResponse (u : user) (sessionId access refresh : string) : AuthResponse :=
  {| res_userId := user_id u; res_email := user_email u; res_role := user_role u;
     res_emailVerifiedAt := user_emailVerifiedAt u; res_sessionId := sessionId;
     res_accessToken := access; res_accessTokenExpiresIn := ACCESS_TOKEN_TTL_SECONDS;
     res_refreshToken := refresh; res_refreshTokenExpiresIn := REFRESH_TOKEN_TTL_SECONDS |}.

(** The random draws of one request: the new user's id, the session id, the
    [jti] and the refresh token ([randomBytes(48).toString('base64url')]). *)
Record AuthDraws : Type := {
  dr_userId : string;
  dr_sessionId : string;
  dr_jti : string;
  dr_refreshToken : string
}.

Section Service.
Context `{Crypto} `{AuthLibraries} (JWT_ACCESS_SECRET : string).

(** [PasswordService] *)
Definition BCRYPT_ROUNDS : Z := 12.
Definition password_hash (plain : string) : string := bcrypt_hash BCRYPT_ROUNDS plain.
Definition password_compare (plain hash : string) : bool := bcrypt_compare plain hash.

(** [TokenService.issueAccessToken] *)
Definition issueAccessToken (userId email : string) (role : UserRole) (sessionId jti : string)
    (now : Z) : string :=
  jwt_sign {| jwt_sub := userId; jwt_email := email; jwt_role := role; jwt_sessionId := sessionId;
              jwt_jti := jti; jwt_type := "access" |} JWT_ACCESS_SECRET ACCESS_TOKEN_TTL_SECONDS now.

(** [issueSession] *)
Definition issueSession (d : AuthDraws) (now : Z) (u : user) (deviceId : string)
    (req : AuthRequest) (action : AuthAuditAction) : op AuthResponse :=
  let sessionId := dr_sessionId d in
  do* createSession sessionId (user_id u) deviceId (dr_refreshToken d) (request_agent req)
        (request_ip req) now in
  let access := issueAccessToken (user_id u) (user_email u) (user_role u) sessionId (dr_jti d) now in
  do* auth_log (audit_row req action true (Some (user_id u)) (Some (user_email u))
                  (Some sessionId) None JNull) in
  ret (authResponse u sessionId access (dr_refreshToken d)).

(** [signup] *)
Definition signup (d : AuthDraws) (now : Z) (email password deviceId : string) (req : AuthRequest)
  : op AuthResponse :=
  let* existing := findByEmail email in
  do* throw_if (bool_decide (existing <> None)) (ConflictException "email already registered") in
  let* u := createUser (dr_userId d) email (password_hash password) (Some CUSTOMER) in
  issueSession d now u deviceId req SIGNUP.

(** [login] *)
Definition login (d : AuthDraws) (now : Z) (email password deviceId : string) (req : AuthRequest)
  : op AuthResponse :=
  let* found := findByEmail email in
  match found with
  | None =>
      do* auth_log (audit_row req AUTH_FAILURE false None (Some (normalizeEmail email)) None
                      (Some "user_not_found") JNull) in
      throw (UnauthorizedException "invalid credentials")
  | Some u =>
      if negb (password_compare password (user_passwordHash u)) then
        do* auth_log (audit_row req AUTH_FAILURE false (Some (user_id u)) (Some (user_email u)) None
                        (Some "invalid_password") JNull) in
        throw (UnauthorizedException "invalid credentials")
      else if negb (user_isActive u) then
        do* auth_log (audit_row req AUTH_FAILURE false (Some (user_id u)) (Some (user_email u)) None
                        (Some "inactive_user") JNull) in
        throw (UnauthorizedException "inactive user")
      else issueSession d now u deviceId req LOGIN
  end.

(** The [catch] of [refresh]. *)
Definition refresh_failed {A} (req : AuthRequest) (e : error) : op A :=
  match e with
  | RefreshReplayError sessionId reason =>
      let* replayed := getSessionById sessionId in
      do* auth_log (audit_row req REFRESH_REPLAY_DETECTED false
                      ((fun v => ses_userId v.1) <$> replayed)
                      (replayed ≫= fun v => user_email <$> v.2) (Some sessionId) (Some reason)
                      (JObj [("reason", JStr reason)])) in
      throw (UnauthorizedException "invalid refresh token")
  | _ =>
      do* auth_log (audit_row req AUTH_FAILURE false None None None (Some (message e)) JNull) in
      throw e
  end.

(** [refresh] *)
Definition refresh (d : AuthDraws) (now : Z) (refreshToken deviceId : string) (req : AuthRequest)
  : op AuthResponse :=
  let* session := catch
    (rotateRefreshToken {| rp_refreshToken := refreshToken; rp_deviceId := deviceId;
       rp_nextRefreshToken := dr_refreshToken d; rp_ipAddress := request_ip req;
       rp_userAgent := request_agent req |} now)
    (refresh_failed req) in
  let sessionId := ses_id session.1 in
  let* u := or_throw session.2 (TypeError "Cannot read properties of null (reading 'id')") in
  let access := issueAccessToken (user_id u) (user_email u) (user_role u) sessionId (dr_jti d) now in
  do* auth_log (audit_row req REFRESH true (Some (user_id u)) (Some (user_email u))
                  (Some sessionId) None JNull) in
  ret (authResponse u sessionId access (dr_refreshToken d)).

(** [logout] *)
Definition logout (now : Z) (userId email sessionId : string) (reason : option string)
    (req : AuthRequest) : op unit :=
  let why := default "logout" reason in
  do* revokeSession userId sessionId why false now in
  auth_log (audit_row req LOGOUT true (Some userId) (Some email) (Some sessionId) (Some why) JNull).

(** [revokeSession] *)
Definition auth_revokeSession (now : Z) (userId email : string) (role : UserRole)
    (sessionId : string) (reason : option string) (req : AuthRequest) : op string :=
  let why := default "manual_revoke" reason in
  let* revoked := revokeSession userId sessionId why (bool_decide (role = ADMIN)) now in
  do* auth_log (audit_row req SESSION_REVOKED_ACTION true (Some userId) (Some email)
                  (Some (ses_id revoked.1)) (Some why)
                  (JObj [("revokedUserId", JStr (ses_userId revoked.1))])) in
  ret (ses_id revoked.1).

(** [me]: the session the answer shows; the user in it is the current user. *)
Definition me (now : Z) (userId email sessionId : string) : op string :=
  let* session := assertSessionUsable sessionId now in
  do* throw_if (negb (bool_decide (ses_userId session.1 = userId)))
        (UnauthorizedException "session does not belong to current user") in
  do* auth_log {| aa_action := ME_ACCESSED; aa_success := true; aa_userId := Some userId;
                  aa_email := Some email; aa_sessionId := Some (ses_id session.1);
                  aa_ipAddress := None; aa_userAgent := None; aa_reason := None;
                  aa_metadata := JNull |} in
  ret (ses_id session.1).

(** [AccessTokenStrategy.validate], on the payload of a token whose signature and
    expiry passport has checked. *)
Definition validate (now : Z) (payload : JwtPayload) : op AuthUser :=
  do* throw_if (negb (bool_decide (jwt_type payload = "access")))
        (UnauthorizedException "invalid access token") in
  let* session := assertSessionUsable (jwt_sessionId payload) now in
  let* u := or_throw session.2 (TypeError "Cannot read properties of null (reading 'id')") in
  ret {| au_id := user_id u; au_email := user_email u; au_role := jwt_role payload;
         au_sessionId := ses_id session.1; au_permissions := ROLE_PERMISSIONS (jwt_role payload);
         au_emailVerifiedAt := user_emailVerifiedAt u; au_isActive := user_isActive u |}.

End Service.

(* ------------------------------------------------------------------ *)
(** ** Lemmas                                                           *)

Section Lemmas.
Context `{Crypto} `{AuthLibraries}.

Definition logged (row : auth_audit) (w : world) : world :=
  set_auth_audits (auth_audits (identity w) ++ [row]) w.

Lemma db_sessions_logged row w : db_sessions (logged row w) = db_sessions w.
Proof. done. Qed.

Lemma closes_logged now row w w' : closes now w w' -> closes now w (logged row w').
Proof.
  intros [[x ->] He]. split; [by eexists | exact He].
Qed.

(** A session issued to [u]. *)
Definition issued (secret : string) (d : AuthDraws) (now : Z) (u : user) (deviceId : string)
    (req : AuthRequest) (action : AuthAuditAction) (res : AuthResponse) (w w' : world) : Prop :=
  db_sessions w !! dr_sessionId d = None /\
  res = authResponse u (dr_sessionId d)
          (issueAccessToken secret (user_id u) (user_email u) (user_role u) (dr_sessionId d) (dr_jti d) now)
          (dr_refreshToken d) /\
  w' = logged (audit_row req action true (Some (user_id u)) (Some (user_email u))
                 (Some (dr_sessionId d)) None JNull)
         (set_sessions (<[dr_sessionId d := new_session (dr_sessionId d) (user_id u) deviceId
             (dr_refreshToken d) (request_agent req) (request_ip req) now]> (db_sessions w)) w).

Lemma issueSession_wp secret d now u deviceId req action w :
  wp (issueSession secret d now u deviceId req action)
     (fun res w' => issued secret d now u deviceId req action res w w')
     (fun e w' => w' = w /\ e = unique_violation /\ db_sessions w !! dr_sessionId d <> None) w.
Proof.
  unfold issueSession, createSession. cbv zeta. wp_stmt. unfold wp at 1, create. cbn [tb_rows sessions_t].
  destruct (bool_decide (sessions (identity w) !! _ = None)) eqn:E1; cbn [andb].
  - apply bool_decide_eq_true in E1.
    assert (Hn : find_row (tb_clash sessions_t (new_session (dr_sessionId d) (user_id u) deviceId
       (dr_refreshToken d) (request_agent req) (request_ip req) now)) (sessions (identity w)) = None).
    { by apply find_row_None. }
    rewrite bool_decide_true by exact Hn. by wp_go.
  - apply bool_decide_eq_false in E1. done.
Qed.

Lemma createUser_wp id email hash role w :
  let u := new_user id email hash role in
  wp (createUser id email hash role)
     (fun r w' => r = u /\ users (catalog w) !! id = None /\
        (forall k x, users (catalog w) !! k = Some x -> user_email x <> user_email u) /\
        w' = set_users (<[id := u]> (users (catalog w))) w)
     (fun e w' => w' = w /\ e = ConflictException "email already registered") w.
Proof.
  unfold createUser. cbv zeta. wp_stmt. wp_stmt. wp_stmt.
  - wp_stmt. split_and!; try done. intros k x Hx Heq.
    pose proof (proj1 (find_row_None _ _) H2 _ _ Hx) as Hc. cbn in Hc.
    by apply bool_decide_eq_false in Hc.
  - done.
Qed.

End Lemmas.

(* ------------------------------------------------------------------ *)
(** ** A customer                                                       *)

(** A stand-in for the libraries: the hash is the password with a mark. *)
Definition plain_auth : AuthLibraries :=
  {| bcrypt_hash := fun _ p => "bcrypt:" +:+ p;
     bcrypt_compare := fun p h => bool_decide (h = "bcrypt:" +:+ p);
     jwt_sign := fun p _ _ _ => "jwt:" +:+ jwt_jti p |}.

Lemma plain_auth_sound : BcryptSound plain_auth.
Proof. intros rounds p. cbn. by apply bool_decide_true. Qed.

Module AuthExample.

#[local] Instance crypto : Crypto := plain_crypto.
#[local] Instance libraries : AuthLibraries := plain_auth.

Definition draws (n : string) : AuthDraws :=
  {| dr_userId := "user" +:+ n; dr_sessionId := "ses" +:+ n; dr_jti := "jti" +:+ n;
     dr_refreshToken := "tok" +:+ n |}.
Definition req : AuthRequest :=
  {| ar_forwardedFor := HOne "10.0.0.1, 10.0.0.2"; ar_ip := Some "127.0.0.1"; ar_userAgent := HAbsent |}.

Definition w1 : world :=
  (signup "secret" (draws "1") 1000 "Ama@Example.com" "Passw0rd" "phone" req empty_world).2.
Definition signed_up : AuthResponse :=
  {| res_userId := "user1"; res_email := "ama@example.com"; res_role := CUSTOMER;
     res_emailVerifiedAt := None; res_sessionId := "ses1"; res_accessToken := "jwt:jti1";
     res_accessTokenExpiresIn := 900; res_refreshToken := "tok1";
     res_refreshTokenExpiresIn := 2592000 |}.

Example signup_run :
  signup "secret" (draws "1") 1000 "Ama@Example.com" "Passw0rd" "phone" req empty_world
  = (Ok signed_up, w1).
Proof. run_ends. Qed.

Example first_hop : request_ip req = Some "10.0.0.1".
Proof. reflexivity. Qed.

Example wrong_password :
  (login "secret" (draws "2") 2000 "ama@example.com" "nope" "phone" req w1).1 =
  Err (UnauthorizedException "invalid credentials").
Proof. vm_run. Qed.

Definition w2 : world := (logout 3000 "ama" "ama@example.com" "ses" None req SessionExample.w2).2.
Example logout_run :
  logout 3000 "ama" "ama@example.com" "ses" None req SessionExample.w2 = (Ok tt, w2).
Proof. run_ends. Qed.

Definition w_revoked : world := (revokeSession "ama" "ses" "lost phone" false 3000 SessionExample.w2).2.
Example revoke_run : revokeSession "ama" "ses" "lost phone" false 3000 SessionExample.w2 =
  (Ok (SessionExample.s2, Some SessionExample.ama), w_revoked).
Proof. run_ends. Qed.
Example holds_tok2 : holds_hash (hashRefreshToken "tok2") <$> db_sessions SessionExample.w2 !! "ses" = Some true.
Proof. vm_run. Qed.
Lemma h2_ok : history_ok SessionExample.h2.
Proof.
  refine (history_ok_run SessionExample.h0 SessionExample.h2 SessionExample.run_h2 _).
  split; [exact SessionExample.start_ok |]. split; [constructor |]. intros h Hh. by apply elem_of_nil in Hh.
Qed.

Definition payload : JwtPayload :=
  {| jwt_sub := "ama"; jwt_email := "ama@example.com"; jwt_role := CUSTOMER;
     jwt_sessionId := "ses"; jwt_jti := "jti"; jwt_type := "access" |}.
Example token_accepted : (validate 3000 payload SessionExample.w2).1 =
  Ok {| au_id := "ama"; au_email := "ama@example.com"; au_role := CUSTOMER; au_sessionId := "ses";
        au_permissions := ROLE_PERMISSIONS CUSTOMER; au_emailVerifiedAt := None;
        au_isActive := true |}.
Proof. vm_run. Qed.

End AuthExample.

(* ------------------------------------------------------------------ *)
(** ** Properties                                                       *)

(** Sign-up and login round-trip in the service.  Whoever signs up becomes an active
    customer, whom a login with the password and any spelling of the email that
    normalises to the same address names, opening a new session bound to the device
    (the login body is another matter: [Dto.login_body_accepted]). *)
Theorem signup_then_login `{Crypto} `{L : AuthLibraries} (Hb : BcryptSound L) secret
    d now email password deviceId req w res w'
    (Hrun : signup secret d now email password deviceId req w = (Ok res, w'))
    d' now' email' deviceId' req'
    (He : normalizeEmail email' = normalizeEmail email)
    (Hs : db_sessions w' !! dr_sessionId d' = None) :
  exists res' w'', login secret d' now' email' password deviceId' req' w' = (Ok res', w'') /\
    res_userId res' = res_userId res /\ res_role res' = CUSTOMER /\
    res_email res' = normalizeEmail email /\
    exists s, db_sessions w'' !! res_sessionId res' = Some s /\ ses_status s = SESSION_ACTIVE /\
      ses_deviceId s = deviceId' /\ ses_userId s = res_userId res /\
      ses_refreshTokenHash s = Some (hashRefreshToken (res_refreshToken res')).
Proof.
  set (u := new_user (dr_userId d) email (password_hash password) (Some CUSTOMER)).
  assert (Hw : wp (signup secret d now email password deviceId req)
    (fun r w1 => res_userId r = user_id u /\
       find_row (fun x => bool_decide (user_email x = normalizeEmail email)) (users (catalog w1)) = Some u)
    any w).
  { unfold signup, findByEmail. do 4 wp_stmt; [done |]. wp_stmt.
    eapply wp_mono; [apply createUser_wp | cbn beta | done]. intros r w1 (-> & Hid & Hem & ->).
    eapply wp_mono; [apply issueSession_wp | cbn beta | done]. intros r w2 (_ & -> & ->).
    split; [done |]. cbn.
    eapply find_row_unique; [apply lookup_insert_eq | by apply bool_decide_true |].
    intros k x [[<- _] | [_ Hx]]%lookup_insert_Some Hxe; [done |].
    apply bool_decide_eq_true in Hxe. by destruct (Hem k x Hx). }
  destruct (wp_ok _ _ _ _ _ _ Hw Hrun) as [Huid Hfind]. clear Hw Hrun.
  unfold login, findByEmail, findFirst, bind, reads. cbn [tb_rows users_t]. rewrite He, Hfind.
  assert (Hc : password_compare password (user_passwordHash u) = true) by apply Hb.
  rewrite Hc. cbn [negb]. change (user_isActive u) with true. cbn [negb].
  pose proof (issueSession_wp secret d' now' u deviceId' req' LOGIN w') as Hi. unfold wp in Hi.
  destruct (issueSession _ _ _ _ _ _ _ w') as [[r | e] w2]; [| by destruct Hi as (_ & _ & Hi)].
  destruct Hi as (_ & -> & ->). eexists _, _. split; [done |].
  split_and!; [by rewrite Huid | done | done |].
  eexists. cbn. rewrite lookup_insert_eq. split_and!; done.
Qed.

(** A refresh either rotates the token of a usable session and answers with a
    new pair for that session's user, or throws, ends at most one session, issues
    nothing and leaves exactly one audit row; the caller cannot tell a replay
    from an unknown token, both are refused as an invalid refresh token. *)
Theorem refresh_outcome `{Crypto} `{AuthLibraries} secret d now token deviceId req w
    (Hk : keyed ses_id (db_sessions w)) :
  match refresh secret d now token deviceId req w with
  | (Ok res, w') => exists p s u w1,
      rp_refreshToken p = token /\ rp_deviceId p = deviceId /\
      rp_nextRefreshToken p = dr_refreshToken d /\ refreshable p now (s, Some u) /\
      rotates p now s w w1 /\
      w' = logged (audit_row req REFRESH true (Some (user_id u)) (Some (user_email u))
                     (Some (ses_id s)) None JNull) w1 /\
      res = authResponse u (ses_id s)
              (issueAccessToken secret (user_id u) (user_email u) (user_role u) (ses_id s) (dr_jti d) now)
              (dr_refreshToken d)
  | (Err e, w') => exists w1 row, w' = logged row w1 /\ closes now w w1 /\
      (aa_action row = REFRESH_REPLAY_DETECTED /\ e = UnauthorizedException "invalid refresh token"
       \/ aa_action row = AUTH_FAILURE)
  end.
Proof.
  set (p := {| rp_refreshToken := token; rp_deviceId := deviceId;
    rp_nextRefreshToken := dr_refreshToken d; rp_ipAddress := request_ip req;
    rp_userAgent := request_agent req |}).
  assert (Hw : wp (refresh secret d now token deviceId req)
    (fun res w' => exists p s u w1,
      rp_refreshToken p = token /\ rp_deviceId p = deviceId /\
      rp_nextRefreshToken p = dr_refreshToken d /\ refreshable p now (s, Some u) /\
      rotates p now s w w1 /\
      w' = logged (audit_row req REFRESH true (Some (user_id u)) (Some (user_email u))
                     (Some (ses_id s)) None JNull) w1 /\
      res = authResponse u (ses_id s)
              (issueAccessToken secret (user_id u) (user_email u) (user_role u) (ses_id s) (dr_jti d) now)
              (dr_refreshToken d))
    (fun e w' => exists w1 row, w' = logged row w1 /\ closes now w w1 /\
      (aa_action row = REFRESH_REPLAY_DETECTED /\ e = UnauthorizedException "invalid refresh token"
       \/ aa_action row = AUTH_FAILURE)) w).
  { unfold refresh. fold p. wp_stmt. wp_stmt. eapply wp_mono; [by apply rotateRefreshToken_wp | cbn beta |].
    - intros v w1 (s & Href & Hrot & ->). cbn [fst snd view_of].
      destruct Href as (H1 & H2 & H3 & Hu & H4). cbn in Hu. apply fmap_Some in Hu as (u & Hu & Ha).
      assert (Hu1 : users (catalog w1) !! ses_userId (rotated p now s) = Some u).
      { by destruct Hrot as (_ & _ & ->). }
      rewrite Hu1. wp_go; [done |]. injection H5 as <-.
      exists p, s, u, w1. split_and!; try done.
      unfold refreshable. cbn. rewrite <- Ha. done.
    - intros e w1 [Hc _]. unfold refresh_failed.
      destruct e; wp_go; eexists w1, _; (split; [reflexivity | split; [exact Hc |]]);
        first [left; split; reflexivity | right; reflexivity]. }
  exact Hw.
Qed.

Lemma refresh_outcome_witness :
  exists p s u w1, rp_refreshToken p = "tok1" /\ refreshable (H := plain_crypto) p 2000 (s, Some u) /\
    rotates (H := plain_crypto) p 2000 s AuthExample.w1 w1.
Proof.
  pose proof (refresh_outcome (H := plain_crypto) (H0 := plain_auth) "secret" (AuthExample.draws "2")
    2000 "tok1" "phone" AuthExample.req AuthExample.w1 ltac:(apply keyed_check; vm_run)) as Hout.
  set (run := refresh _ _ _ _ _ _ _) in *.
  assert (E : match run.1 with Ok _ => true | Err _ => false end = true) by vm_run.
  destruct run as [[res | e] w']; [| discriminate E].
  destruct Hout as (p & s & u & w1 & H1 & _ & _ & H2 & H3 & _). exists p, s, u, w1. done.
Defined.

(** Logging out locks the session out at once: after it, every access token of
    the session, however long it was still valid, is refused with 401, and no
    refresh token finds the session any more. *)
Theorem logout_locks_out `{Crypto} drawn now userId email sessionId reason req w w' payload now'
    (Hok : tokens_ok drawn (db_sessions w))
    (Hrun : logout now userId email sessionId reason req w = (Ok tt, w'))
    (Hp : jwt_sessionId payload = sessionId) :
  (exists msg, validate now' payload w' = (Err (UnauthorizedException msg), w')) /\
  forall s h, db_sessions w' !! sessionId = Some s -> holds_hash h s = false.
Proof.
  assert (Hw : wp (logout now userId email sessionId reason req)
    (fun _ w1 => tokens_ok drawn (db_sessions w1) /\ exists s,
       db_sessions w1 !! sessionId = Some s /\ ses_status s = SESSION_REVOKED) any w).
  { unfold logout. cbv zeta. wp_stmt. eapply wp_mono; [apply revokeSession_wp | cbn beta | done].
    intros v w1 ([_ Hc] & s & _ & _ & _ & s' & Hs' & Hr). wp_go. split; [| by exists s'].
    by eapply (tokens_ends drawn). }
  destruct (wp_ok _ _ _ _ _ _ Hw Hrun) as (Hok' & s & Hs & Hr). split.
  - unfold validate, bind, throw_if. case_bool_decide; cbn [negb]; [| by eexists].
    cbn. unfold assertSessionUsable, getSessionById, bind, reads. rewrite Hp, Hs. cbn.
    unfold has_status. rewrite Hr. by eexists.
  - intros s' h Hs'. eapply (tk_over _ _ Hok'); [exact Hs' |]. congruence.
Qed.

Lemma logout_locks_out_witness :
  exists msg, validate 4000 AuthExample.payload AuthExample.w2 =
    (Err (UnauthorizedException msg), AuthExample.w2).
Proof.
  exact (proj1 (logout_locks_out (H := plain_crypto) (hs_issued SessionExample.h2) 3000 "ama"
    "ama@example.com" "ses" None AuthExample.req SessionExample.w2 AuthExample.w2
    AuthExample.payload 4000 SessionExample.w2_ok AuthExample.logout_run eq_refl)).
Defined.

(** C38: Revocation is final and takes effect at once.  After a call of revokeSession that
    succeeded, and whatever calls of the session store follow it (logins, refreshes that
    go on from an earlier read, uses and revocations, each new token drawn fresh), the row
    of the session is REVOKED and never changes again; every access token of the session,
    however long it is still valid, is refused with 401; and every refresh token the
    session held when it was revoked is refused as invalid, with nothing written. *)
Theorem revocation_is_final `{Crypto} requester k reason allowAny at_ v x w y
    (Hok : history_ok x)
    (Hrevoke : revokeSession requester k reason allowAny at_ (hs_world x) = (Ok v, w))
    (Hrun : rtc session_call (revoked_history w x) y) :
  exists s s', db_sessions (hs_world x) !! k = Some s /\ db_sessions w !! k = Some s' /\
    ses_status s' = SESSION_REVOKED /\ db_sessions (hs_world y) !! k = Some s' /\
    (forall now payload, jwt_sessionId payload = k ->
       exists msg, validate now payload (hs_world y) = (Err (UnauthorizedException msg), hs_world y)) /\
    (forall now p, holds_hash (hashRefreshToken (rp_refreshToken p)) s = true ->
       rotateRefreshToken p now (hs_world y) =
         (Err (UnauthorizedException "invalid refresh token"), hs_world y)).
Proof.
  destruct (revokeSession_kills _ _ _ _ _ _ _ _ Hok Hrevoke) as (s & s' & Hs & Hs' & Hrev & Hdead).
  pose proof (history_ok_call _ _ Hok (revokeSession_call _ _ _ _ _ _ _ _ Hrevoke)) as Hok'.
  assert (Hy : keyed ses_id (db_sessions (hs_world y)) /\ db_sessions (hs_world y) !! k = Some s' /\
    forall h, holds_hash h s = true -> dead_token h y).
  { assert (Hk : keyed ses_id (db_sessions (hs_world (revoked_history w x)))) by apply Hok'.
    clear Hok' Hrevoke. change w with (hs_world (revoked_history w x)) in Hs'.
    induction Hrun as [z | z z' y Hc _ IH]; [done |].
    apply IH; [by eapply revoked_stays | by intros h Hh; eapply dead_token_call; eauto | by eapply call_keyed]. }
  destruct Hy as (_ & Hrow & Hgone). exists s, s'. split_and!; try done.
  - intros now payload Hp. unfold validate, bind, throw_if.
    case_bool_decide; cbn [negb]; [| by eexists]. cbn.
    unfold assertSessionUsable, getSessionById, bind, reads. rewrite Hp, Hrow. cbn.
    unfold has_status. rewrite Hrev. by eexists.
  - intros now p Hh. by apply dead_token_refused, Hgone.
Qed.

Lemma revocation_is_final_witness :
  rotateRefreshToken (H := plain_crypto) (SessionExample.params "tok2" "tok4") 4000 AuthExample.w_revoked =
    (Err (UnauthorizedException "invalid refresh token"), AuthExample.w_revoked).
Proof.
  destruct (revocation_is_final (H := plain_crypto) "ama" "ses" "lost phone" false 3000 _ SessionExample.h2
    AuthExample.w_revoked _ AuthExample.h2_ok AuthExample.revoke_run (rtc_refl _ _))
    as (s & s' & Hs & _ & _ & _ & _ & Hr).
  apply (Hr 4000 (SessionExample.params "tok2" "tok4")).
  change (hs_world SessionExample.h2) with SessionExample.w2 in Hs.
  pose proof AuthExample.holds_tok2 as Hh. rewrite Hs in Hh. by injection Hh.
Defined.

(** Gate staff can do nothing but prove who they are: scanning a ticket and
    logging out are refused to their role. *)
Lemma gate_staff_refused permission :
  permission <> AUTHENTICATED -> permission <> GATE_STAFF_ACCESS ->
  permissions_canActivate (Some [permission]) (Some GATE_STAFF) =
    Err (ForbiddenException "insufficient permissions").
Proof. by destruct permission. Qed.
