(* ===== verification/Organizers.v ===== *)
(** Organizers.v: the organizer profiles and their review status
    (src/src/modules/organizers/application/organizers.service.ts and its
    repository). *)

From S2P Require Import Prelude Errors Values Store.

Local Open Scope Z_scope.

Record CreateOrganizerRequest : Type := {
  cor_displayName : string;
  cor_slug : string;
  cor_description : option string;
  cor_contactEmail : option string;
  cor_contactPhone : option string
}.

Record UpdateOrganizerRequest : Type := {
  uor_displayName : option string;
  uor_slug : option string;
  uor_description : option string;
  uor_contactEmail : option string;
  uor_contactPhone : option string
}.

(** [s.toLowerCase().trim()] *)
Definition lower_trim (s : string) : string := trim (toLowerCase s).

(** [catch (error)] of the writes: a taken slug is a conflict. *)
Definition slug_conflict {A} (msg : string) (e : error) : op A :=
  if is_unique_violation e then throw (ConflictException msg) else throw e.

Definition new_organizer (id ownerUserId : string) (dto : CreateOrganizerRequest) : organizer :=
  {| org_id := id; org_ownerUserId := ownerUserId; org_status := ORG_DRAFT;
     org_profile := {| op_displayName := trim (cor_displayName dto);
                       op_slug := lower_trim (cor_slug dto);
                       op_description := trim <$> cor_description dto;
                       op_contactEmail := lower_trim <$> cor_contactEmail dto;
                       op_contactPhone := trim <$> cor_contactPhone dto |} |}.

(** [create] *)
Definition org_create (id ownerUserId : string) (dto : CreateOrganizerRequest) : op organizer :=
  let o := new_organizer id ownerUserId dto in
  catch (do* create organizers_t o in ret o) (slug_conflict "organizer slug already exists").

Definition owned_by (ownerUserId : string) (o : organizer) : bool :=
  bool_decide (org_ownerUserId o = ownerUserId).

(** [listMine]; the order (newest first) is that of creation times. *)
Definition org_listMine (ownerUserId : string) : op (list organizer) :=
  findMany organizers_t (owned_by ownerUserId).

(** [findOwnedByUser] *)
Definition findOwnedByUser (organizerId ownerUserId : string) (w : world) : option organizer :=
  o ← organizers (catalog w) !! organizerId;
  if owned_by ownerUserId o then Some o else None.

(** [getOwned] *)
Definition org_getOwned (organizerId ownerUserId : string) : op organizer :=
  let* o := reads (findOwnedByUser organizerId ownerUserId) in
  or_throw o (NotFoundException "organizer not found").

(** The update: an absent field leaves its column alone. *)
Definition updated_profile (dto : UpdateOrganizerRequest) (p : organizer_profile)
  : organizer_profile :=
  let set (new old : option string) := match new with Some s => Some s | None => old end in
  {| op_displayName := default (op_displayName p) (trim <$> uor_displayName dto);
     op_slug := default (op_slug p) (lower_trim <$> uor_slug dto);
     op_description := set (trim <$> uor_description dto) (op_description p);
     op_contactEmail := set (lower_trim <$> uor_contactEmail dto) (op_contactEmail p);
     op_contactPhone := set (trim <$> uor_contactPhone dto) (op_contactPhone p) |}.

Definition with_profile (p : organizer_profile) (o : organizer) : organizer :=
  {| org_id := org_id o; org_ownerUserId := org_ownerUserId o; org_status := org_status o;
     org_profile := p |}.

Definition with_org_status (s : OrganizerStatus) (o : organizer) : organizer :=
  {| org_id := org_id o; org_ownerUserId := org_ownerUserId o; org_status := s;
     org_profile := org_profile o |}.

(** [updateOwned] *)
Definition org_updateOwned (organizerId ownerUserId : string) (dto : UpdateOrganizerRequest)
  : op organizer :=
  let* o := org_getOwned organizerId ownerUserId in
  do* throw_if (bool_decide (org_status o = ORG_SUSPENDED))
        (ForbiddenException "suspended organizer cannot be updated") in
  do* throw_if (bool_decide (org_status o = ORG_REJECTED))
        (ForbiddenException "rejected organizer cannot be updated") in
  catch (update_unique organizers_t (org_id o)
           (fun r => with_profile (updated_profile dto (org_profile r)) r))
    (slug_conflict "organizer slug already exists").

(** [submitForReview] *)
Definition submitForReview (organizerId ownerUserId : string) : op organizer :=
  let* o := org_getOwned organizerId ownerUserId in
  do* throw_if (negb (bool_decide (org_status o = ORG_DRAFT)))
        (BadRequestException "only draft organizers can be submitted for review") in
  update organizers_t (org_id o) (with_org_status ORG_PENDING_REVIEW).

(** [assertApprovedOwned] *)
Definition assertApprovedOwned (organizerId ownerUserId : string) : op organizer :=
  let* o := org_getOwned organizerId ownerUserId in
  do* throw_if (negb (bool_decide (org_status o = ORG_APPROVED)))
        (ForbiddenException "organizer is not approved") in
  ret o.

(* ------------------------------------------------------------------ *)
(** ** What the owner's calls do                                        *)

Definition db_organizers (w : world) : gmap string organizer := organizers (catalog w).

(** An owner's change to an organizer: its profile, or a draft sent to review. *)
Definition organizer_move (actor : string) (o o' : organizer) : Prop :=
  org_ownerUserId o = actor /\ org_id o' = org_id o /\ org_ownerUserId o' = org_ownerUserId o /\
  (org_status o' = org_status o /\ org_status o <> ORG_SUSPENDED /\ org_status o <> ORG_REJECTED \/
   org_status o = ORG_DRAFT /\ org_status o' = ORG_PENDING_REVIEW /\ org_profile o' = org_profile o).

(** At most one organizer changes or is created, by its owner; nothing else. *)
Inductive organizers_step (actor : string) (w : world) : world -> Prop :=
| os_same : organizers_step actor w w
| os_moved k o o' :
    db_organizers w !! k = Some o -> organizer_move actor o o' ->
    organizers_step actor w (set_organizers (<[k := o']> (db_organizers w)) w)
| os_created o :
    db_organizers w !! org_id o = None -> org_ownerUserId o = actor -> org_status o = ORG_DRAFT ->
    organizers_step actor w (set_organizers (<[org_id o := o]> (db_organizers w)) w).

#[export] Hint Constructors organizers_step : store.

Lemma findOwnedByUser_Some k actor w o :
  findOwnedByUser k actor w = Some o ->
  db_organizers w !! k = Some o /\ org_ownerUserId o = actor.
Proof.
  unfold findOwnedByUser, owned_by. intros H. apply bind_Some in H as (o' & Ho & H).
  case_bool_decide; [| done]. by injection H as <-.
Qed.

Lemma org_getOwned_wp k actor w :
  wp (org_getOwned k actor)
     (fun o w' => w' = w /\ db_organizers w !! k = Some o /\ org_ownerUserId o = actor)
     (fun e w' => w' = w /\ e = NotFoundException "organizer not found") w.
Proof. unfold org_getOwned. do 2 wp_stmt. wp_stmt; [done |]. split; [done |]. by apply findOwnedByUser_Some. Qed.

Lemma assertApprovedOwned_wp k actor w :
  wp (assertApprovedOwned k actor)
     (fun o w' => w' = w /\ db_organizers w !! k = Some o /\ org_ownerUserId o = actor /\
        org_status o = ORG_APPROVED)
     (fun _ w' => w' = w) w.
Proof.
  unfold assertApprovedOwned. wp_stmt. eapply wp_mono; [apply org_getOwned_wp | cbn beta | by intros e w' [-> _]].
  intros o w' (-> & Ho & Hown). wp_go; [done |]. split_and!; try done.
  by apply negb_false_iff, bool_decide_eq_true in H.
Qed.

Lemma org_create_wp id actor dto w :
  wp (org_create id actor dto) (fun o w' => o = new_organizer id actor dto /\ organizers_step actor w w')
     (fun _ w' => w' = w) w.
Proof.
  unfold org_create, slug_conflict. wp_go; [| done..]. split; [done |].
  by apply (os_created actor w (new_organizer id actor dto)).
Qed.

Lemma org_updateOwned_wp k actor dto w :
  keyed org_id (db_organizers w) ->
  wp (org_updateOwned k actor dto) (fun o w' => org_ownerUserId o = actor /\ organizers_step actor w w')
     (fun _ w' => w' = w) w.
Proof.
  intros Hk. unfold org_updateOwned. wp_stmt.
  eapply wp_mono; [apply org_getOwned_wp | cbn beta | by intros e w' [-> _]].
  intros o w' (-> & Ho & Hown). unfold slug_conflict. wp_go; try done.
  apply bool_decide_eq_false in H, H0. unfold db_organizers in *. rewrite (Hk _ _ Ho) in *. same_row Ho.
  split; [done |]. eapply os_moved; [exact Ho |]. unfold organizer_move. naive_solver.
Qed.

Lemma submitForReview_wp k actor w :
  keyed org_id (db_organizers w) ->
  wp (submitForReview k actor) (fun o w' => org_ownerUserId o = actor /\ organizers_step actor w w')
     (fun _ w' => w' = w) w.
Proof.
  intros Hk. unfold submitForReview. wp_stmt.
  eapply wp_mono; [apply org_getOwned_wp | cbn beta | by intros e w' [-> _]].
  intros o w' (-> & Ho & Hown). wp_go; try done.
  apply negb_false_iff, bool_decide_eq_true in H. unfold db_organizers in *. rewrite (Hk _ _ Ho) in *. same_row Ho.
  split; [done |]. eapply os_moved; [exact Ho |]. unfold organizer_move. naive_solver.
Qed.
