(* ===== verification/Events.v ===== *)
(** Events.v: the life of an event (src/src/modules/events/application/
    events.service.ts and its repository), over the organizers of Organizers.v.

    A date of a request is what [new Date(...).getTime()] gives for its text:
    [None] for an invalid date. *)

From S2P Require Import Prelude Errors Values Store Organizers.

Local Open Scope Z_scope.

Record CreateEventRequest : Type := {
  cer_title : string;
  cer_slug : string;
  cer_description : option string;
  cer_visibility : option EventVisibility;
  cer_category : option EventCategory;
  cer_startsAt : option Z;
  cer_endsAt : option Z;
  cer_timezone : option string;
  cer_venueName : option string;
  cer_addressLine1 : option string;
  cer_addressLine2 : option string;
  cer_city : option string;
  cer_region : option string;
  cer_country : option string;
  cer_latitude : option string;
  cer_longitude : option string;
  cer_capacityTotal : option Z
}.

(** In an update every field may be absent; a capacity may also be null. *)
Record UpdateEventRequest : Type := {
  uer_title : option string;
  uer_slug : option string;
  uer_description : option string;
  uer_visibility : option EventVisibility;
  uer_category : option EventCategory;
  uer_startsAt : option (option Z);
  uer_endsAt : option (option Z);
  uer_timezone : option string;
  uer_venueName : option string;
  uer_addressLine1 : option string;
  uer_addressLine2 : option string;
  uer_city : option string;
  uer_region : option string;
  uer_country : option string;
  uer_latitude : option string;
  uer_longitude : option string;
  uer_capacityTotal : option (option Z)
}.

(** [assertValidDateRange] *)
Definition assertValidDateRange (startsAt endsAt : option Z) : op (Z * Z) :=
  match startsAt, endsAt with
  | Some s, Some e =>
      do* throw_if (e <=? s) (BadRequestException "event end time must be after start time") in
      ret (s, e)
  | _, _ => throw (BadRequestException "invalid event date range")
  end.

(** The row [create] writes, with the venue it creates along. *)
Definition new_event (id venueId organizerId : string) (startsAt endsAt : Z)
    (dto : CreateEventRequest) : event :=
  {| ev_id := id; ev_organizerId := organizerId; ev_venueId := venueId; ev_status := EV_DRAFT;
     ev_visibility := default PRIVATE (cer_visibility dto); ev_endsAt := endsAt;
     ev_paymentEnabled := false; ev_priceMinor := None; ev_priceCurrency := "GHS";
     ev_listing :=
       {| el_title := trim (cer_title dto); el_slug := lower_trim (cer_slug dto);
          el_description := trim <$> cer_description dto;
          el_category := default OTHER_CATEGORY (cer_category dto); el_startsAt := startsAt;
          el_timezone := default "Africa/Accra" (trim <$> cer_timezone dto);
          el_venueName := trim <$> cer_venueName dto;
          el_addressLine1 := trim <$> cer_addressLine1 dto;
          el_addressLine2 := trim <$> cer_addressLine2 dto; el_city := trim <$> cer_city dto;
          el_region := trim <$> cer_region dto;
          el_country := default "Ghana" (trim <$> cer_country dto);
          el_latitude := cer_latitude dto; el_longitude := cer_longitude dto;
          el_capacityTotal := cer_capacityTotal dto; el_capacityHeld := 0;
          el_publishedAt := None; el_cancelledAt := None |} |}.

(** [createForOrganizer]; the venue and the event are one nested write. *)
Definition createForOrganizer (id venueId organizerId ownerUserId : string)
    (dto : CreateEventRequest) : op event :=
  do* assertApprovedOwned organizerId ownerUserId in
  let* range := assertValidDateRange (cer_startsAt dto) (cer_endsAt dto) in
  let ev := new_event id venueId organizerId range.1 range.2 dto in
  catch
    (transaction
       (do* modify (fun w => set_venues ({[venueId]} ∪ venues (catalog w)) w) in
        do* create events_t ev in
        ret ev))
    (slug_conflict "event slug already exists for organizer").

Definition starts_le (a b : event) : Prop :=
  el_startsAt (ev_listing a) <= el_startsAt (ev_listing b).
#[export] Instance starts_le_dec : RelDecision starts_le.
Proof. intros a b. unfold starts_le. apply _. Defined.

(** [listForOwnedOrganizer] *)
Definition listForOwnedOrganizer (organizerId ownerUserId : string) : op (list event) :=
  do* org_getOwned organizerId ownerUserId in
  let* rows := findMany events_t (fun ev => bool_decide (ev_organizerId ev = organizerId)) in
  ret (merge_sort starts_le rows).

(** [findOwnedByUser]: the event with its organizer. *)
Definition findOwnedEvent (eventId ownerUserId : string) (w : world) : option (event * organizer) :=
  ev ← events (catalog w) !! eventId;
  o ← findOwnedByUser (ev_organizerId ev) ownerUserId w;
  Some (ev, o).

(** [getOwned] *)
Definition event_getOwned (eventId ownerUserId : string) : op (event * organizer) :=
  let* r := reads (findOwnedEvent eventId ownerUserId) in
  or_throw r (NotFoundException "event not found").

(** The update: an absent field leaves its column alone. *)
Definition updated_event (dto : UpdateEventRequest) (startsAt endsAt : option Z) (ev : event) : event :=
  let l := ev_listing ev in
  let set (new old : option string) := match new with Some s => Some s | None => old end in
  {| ev_id := ev_id ev; ev_organizerId := ev_organizerId ev; ev_venueId := ev_venueId ev;
     ev_status := ev_status ev; ev_visibility := default (ev_visibility ev) (uer_visibility dto);
     ev_endsAt := default (ev_endsAt ev) endsAt; ev_paymentEnabled := ev_paymentEnabled ev;
     ev_priceMinor := ev_priceMinor ev; ev_priceCurrency := ev_priceCurrency ev;
     ev_listing :=
       {| el_title := default (el_title l) (trim <$> uer_title dto);
          el_slug := default (el_slug l) (lower_trim <$> uer_slug dto);
          el_description := set (trim <$> uer_description dto) (el_description l);
          el_category := default (el_category l) (uer_category dto);
          el_startsAt := default (el_startsAt l) startsAt;
          el_timezone := default (el_timezone l) (trim <$> uer_timezone dto);
          el_venueName := set (trim <$> uer_venueName dto) (el_venueName l);
          el_addressLine1 := set (trim <$> uer_addressLine1 dto) (el_addressLine1 l);
          el_addressLine2 := set (trim <$> uer_addressLine2 dto) (el_addressLine2 l);
          el_city := set (trim <$> uer_city dto) (el_city l);
          el_region := set (trim <$> uer_region dto) (el_region l);
          el_country := default (el_country l) (trim <$> uer_country dto);
          el_latitude := set (uer_latitude dto) (el_latitude l);
          el_longitude := set (uer_longitude dto) (el_longitude l);
          el_capacityTotal := default (el_capacityTotal l) (uer_capacityTotal dto);
          el_capacityHeld := el_capacityHeld l; el_publishedAt := el_publishedAt l;
          el_cancelledAt := el_cancelledAt l |} |}.

(** [updateOwned] reads and checks, then writes.  The two are separate statements with no
    transaction around them, so another request can come in between. *)
Definition update_check (eventId ownerUserId : string) (dto : UpdateEventRequest) : op event :=
  let* r := event_getOwned eventId ownerUserId in
  let ev := r.1 in
  do* throw_if (bool_decide (ev_status ev = EV_CANCELLED))
        (ForbiddenException "cancelled event cannot be updated") in
  do* throw_if (bool_decide (ev_status ev = EV_ARCHIVED))
        (ForbiddenException "archived event cannot be updated") in
  do* assertValidDateRange (default (Some (el_startsAt (ev_listing ev))) (uer_startsAt dto))
        (default (Some (ev_endsAt ev)) (uer_endsAt dto)) in
  do* throw_if (match uer_capacityTotal dto with
                | Some c => default 0 c <? el_capacityHeld (ev_listing ev)
                | None => false
                end)
        (BadRequestException "capacityTotal cannot be lower than currently held capacity") in
  ret ev.

Definition update_write (dto : UpdateEventRequest) (ev : event) : op event :=
  catch (update_unique events_t (ev_id ev)
           (updated_event dto (mjoin (uer_startsAt dto)) (mjoin (uer_endsAt dto))))
    (slug_conflict "event slug already exists for organizer").

Definition event_updateOwned (eventId ownerUserId : string) (dto : UpdateEventRequest) : op event :=
  let* ev := update_check eventId ownerUserId dto in update_write dto ev.

(** What [assertPublishable] asks for. *)
Definition publishable (ev : event) : bool :=
  let l := ev_listing ev in
  negb (bool_decide (trim (el_title l) = "")) && (el_startsAt l <? ev_endsAt ev) &&
  bool_decide (truthy (el_venueName l) <> None) && bool_decide (truthy (el_city l) <> None) &&
  negb (bool_decide (el_country l = "")) &&
  match el_capacityTotal l with Some c => 1 <=? c | None => false end.

(** [assertPublishable] *)
Definition assertPublishable (ev : event) : op unit :=
  let l := ev_listing ev in
  do* throw_if (bool_decide (trim (el_title l) = "")) (BadRequestException "event title is required") in
  do* throw_if (ev_endsAt ev <=? el_startsAt l)
        (BadRequestException "event end time must be after start time") in
  do* throw_if (bool_decide (truthy (el_venueName l) = None) || bool_decide (truthy (el_city l) = None)
                || bool_decide (el_country l = ""))
        (BadRequestException "event location is required before publish") in
  throw_if (match el_capacityTotal l with Some c => (c =? 0) || (c <? 1) | None => true end)
    (BadRequestException "event capacity is required before publish").

(** [setStatus]: an absent date leaves its column alone. *)
Definition with_ev_status (status : EventStatus) (publishedAt cancelledAt : option Z) (ev : event)
  : event :=
  {| ev_id := ev_id ev; ev_organizerId := ev_organizerId ev; ev_venueId := ev_venueId ev;
     ev_status := status; ev_visibility := ev_visibility ev; ev_endsAt := ev_endsAt ev;
     ev_paymentEnabled := ev_paymentEnabled ev; ev_priceMinor := ev_priceMinor ev;
     ev_priceCurrency := ev_priceCurrency ev;
     ev_listing := let l := ev_listing ev in
       {| el_title := el_title l; el_slug := el_slug l; el_description := el_description l;
          el_category := el_category l; el_startsAt := el_startsAt l; el_timezone := el_timezone l;
          el_venueName := el_venueName l; el_addressLine1 := el_addressLine1 l;
          el_addressLine2 := el_addressLine2 l; el_city := el_city l; el_region := el_region l;
          el_country := el_country l; el_latitude := el_latitude l; el_longitude := el_longitude l;
          el_capacityTotal := el_capacityTotal l; el_capacityHeld := el_capacityHeld l;
          el_publishedAt := match publishedAt with Some t => Some t | None => el_publishedAt l end;
          el_cancelledAt := match cancelledAt with Some t => Some t | None => el_cancelledAt l end |} |}.

(** [publishOwned], again a check and a write. *)
Definition publish_check (eventId ownerUserId : string) : op event :=
  let* r := event_getOwned eventId ownerUserId in
  let ev := r.1 in
  do* throw_if (negb (bool_decide (org_status r.2 = ORG_APPROVED)))
        (ForbiddenException "organizer is not approved") in
  do* throw_if (negb (bool_decide (ev_status ev = EV_DRAFT)))
        (BadRequestException "only draft events can be published") in
  do* assertPublishable ev in
  ret ev.

Definition publish_write (now : Z) (ev : event) : op event :=
  update events_t (ev_id ev) (with_ev_status EV_PUBLISHED (Some now) None).

Definition publishOwned (eventId ownerUserId : string) (now : Z) : op event :=
  let* ev := publish_check eventId ownerUserId in publish_write now ev.

(** [cancelOwned], likewise. *)
Definition cancel_check (eventId ownerUserId : string) : op event :=
  let* r := event_getOwned eventId ownerUserId in
  let ev := r.1 in
  do* throw_if (negb (bool_decide (ev_status ev = EV_PUBLISHED)))
        (BadRequestException "only published events can be cancelled") in
  ret ev.

Definition cancel_write (now : Z) (ev : event) : op event :=
  update events_t (ev_id ev) (with_ev_status EV_CANCELLED None (Some now)).

Definition cancelOwned (eventId ownerUserId : string) (now : Z) : op event :=
  let* ev := cancel_check eventId ownerUserId in cancel_write now ev.

(* ------------------------------------------------------------------ *)
(** ** The lifecycle                                                    *)

Definition db_events (w : world) : gmap string event := events (catalog w).

(** The columns only the database's operator sets. *)
Definition same_sale (a b : event) : Prop :=
  ev_id b = ev_id a /\ ev_organizerId b = ev_organizerId a /\ ev_venueId b = ev_venueId a /\
  ev_paymentEnabled b = ev_paymentEnabled a /\ ev_priceMinor b = ev_priceMinor a /\
  ev_priceCurrency b = ev_priceCurrency a /\
  el_capacityHeld (ev_listing b) = el_capacityHeld (ev_listing a).

(** One transition of an event whose organizer is [o]. *)
Inductive event_move (o : organizer) (ev ev' : event) : Prop :=
| move_edit :
    ev_status ev <> EV_CANCELLED -> ev_status ev <> EV_ARCHIVED -> ev_status ev' = ev_status ev ->
    el_startsAt (ev_listing ev') < ev_endsAt ev' -> event_move o ev ev'
| move_publish now :
    ev_status ev = EV_DRAFT -> org_status o = ORG_APPROVED -> publishable ev = true ->
    ev' = with_ev_status EV_PUBLISHED (Some now) None ev -> event_move o ev ev'
| move_cancel now :
    ev_status ev = EV_PUBLISHED -> ev' = with_ev_status EV_CANCELLED None (Some now) ev ->
    event_move o ev ev'.

(** What one call of [actor] does to the events: nothing, one transition of an
    event of an organizer the actor owns, or a new draft of an approved one. *)
Inductive events_step (actor : string) (w : world) : world -> Prop :=
| es_same : events_step actor w w
| es_moved k ev ev' o :
    db_events w !! k = Some ev -> db_organizers w !! ev_organizerId ev = Some o ->
    org_ownerUserId o = actor -> same_sale ev ev' -> event_move o ev ev' ->
    events_step actor w (set_events (<[k := ev']> (db_events w)) w)
| es_created venueId ev o :
    db_events w !! ev_id ev = None -> db_organizers w !! ev_organizerId ev = Some o ->
    org_ownerUserId o = actor -> org_status o = ORG_APPROVED -> ev_status ev = EV_DRAFT ->
    ev_paymentEnabled ev = false -> ev_priceMinor ev = None -> el_capacityHeld (ev_listing ev) = 0 ->
    el_startsAt (ev_listing ev) < ev_endsAt ev ->
    events_step actor w
      (set_events (<[ev_id ev := ev]> (db_events w)) (set_venues ({[venueId]} ∪ venues (catalog w)) w)).

Lemma findOwnedEvent_Some k actor w ev o :
  findOwnedEvent k actor w = Some (ev, o) ->
  db_events w !! k = Some ev /\ db_organizers w !! ev_organizerId ev = Some o /\
  org_ownerUserId o = actor.
Proof.
  unfold findOwnedEvent. intros (ev' & Hev & (o' & Ho & H)%bind_Some)%bind_Some.
  injection H as <- <-. by apply findOwnedByUser_Some in Ho.
Qed.

Lemma event_getOwned_wp k actor w :
  wp (event_getOwned k actor)
     (fun r w' => w' = w /\ db_events w !! k = Some r.1 /\
        db_organizers w !! ev_organizerId r.1 = Some r.2 /\ org_ownerUserId r.2 = actor)
     (fun _ w' => w' = w) w.
Proof.
  unfold event_getOwned. do 2 wp_stmt. wp_stmt; [done |]. split; [done |].
  destruct a. by apply findOwnedEvent_Some.
Qed.

Lemma assertValidDateRange_wp s e w :
  wp (assertValidDateRange s e)
     (fun r w' => w' = w /\ s = Some r.1 /\ e = Some r.2 /\ r.1 < r.2) (fun _ w' => w' = w) w.
Proof.
  unfold assertValidDateRange. destruct s, e; wp_go; try done. apply Z.leb_gt in H. done.
Qed.

(** The guards are the predicate. *)
Lemma assertPublishable_wp ev w :
  wp (assertPublishable ev) (fun _ w' => w' = w /\ publishable ev = true)
     (fun _ w' => w' = w /\ publishable ev = false) w.
Proof.
  unfold assertPublishable, publishable. cbv zeta. set (l := ev_listing ev).
  destruct (bool_decide (trim (el_title l) = "")); [by wp_go |].
  destruct (Z.leb_spec (ev_endsAt ev) (el_startsAt l)) as [Ht | Ht].
  { assert (Hf : (el_startsAt l <? ev_endsAt ev) = false) by lia. rewrite Hf. by wp_go. }
  assert (Hf : (el_startsAt l <? ev_endsAt ev) = true) by lia. rewrite Hf.
  destruct (truthy (el_venueName l)); [| by wp_go]. destruct (truthy (el_city l)); [| by wp_go].
  destruct (bool_decide (el_country l = "")); [by wp_go |].
  destruct (el_capacityTotal l) as [c |]; [| by wp_go].
  destruct (Z.leb_spec 1 c).
  - assert (Hc : (c =? 0) || (c <? 1) = false) by lia. rewrite Hc. by wp_go.
  - assert (Hc : (c =? 0) || (c <? 1) = true) by lia. rewrite Hc. by wp_go.
Qed.

Lemma createForOrganizer_wp id venueId k actor dto w :
  wp (createForOrganizer id venueId k actor dto) (fun _ w' => events_step actor w w')
     (fun _ w' => w' = w) w.
Proof.
  unfold createForOrganizer, slug_conflict. wp_stmt.
  eapply wp_mono; [apply assertApprovedOwned_wp | cbn beta | done]. intros o w' (-> & Ho & Hown & Ha).
  assert (Hid : org_id o = org_id o) by done.
  wp_stmt. eapply wp_mono; [apply assertValidDateRange_wp | cbn beta | done].
  intros [s e] w' (-> & _ & _ & Hse). wp_go; [| done..].
  by apply (es_created actor w venueId (new_event id venueId k s e dto) o).
Qed.

Lemma publish_check_wp k actor w :
  wp (publish_check k actor)
     (fun ev w' => w' = w /\ db_events w !! k = Some ev /\ exists o,
        db_organizers w !! ev_organizerId ev = Some o /\ org_ownerUserId o = actor /\
        org_status o = ORG_APPROVED /\ ev_status ev = EV_DRAFT /\ publishable ev = true)
     (fun _ w' => w' = w /\ ~ exists ev o, db_events w !! k = Some ev /\
        db_organizers w !! ev_organizerId ev = Some o /\ org_ownerUserId o = actor /\
        org_status o = ORG_APPROVED /\ ev_status ev = EV_DRAFT /\ publishable ev = true) w.
Proof.
  unfold publish_check, event_getOwned. do 3 wp_stmt. wp_stmt.
  { split; [done |]. intros (ev & o & Hev & Ho & Hown & _). unfold findOwnedEvent, findOwnedByUser in H.
    unfold db_events, db_organizers in *. rewrite Hev in H. cbn in H. rewrite Ho in H. cbn in H.
    unfold owned_by in H. by rewrite bool_decide_true in H. }
  destruct a as [ev o]. apply findOwnedEvent_Some in H as (Hev & Ho & Hown). cbn [fst snd].
  assert (Hno : forall P : event -> organizer -> Prop, ~ P ev o ->
    ~ exists ev o, db_events w !! k = Some ev /\ db_organizers w !! ev_organizerId ev = Some o /\ P ev o).
  { intros P HP (ev1 & o1 & H1 & H2 & H3). rewrite Hev in H1. injection H1 as <-.
    rewrite Ho in H2. injection H2 as <-. done. }
  wp_stmt. wp_stmt; [split; [done |]; apply Hno; intros (_ & Ha & _); by rewrite Ha in * |].
  wp_stmt. wp_stmt; [split; [done |]; apply Hno; intros (_ & _ & Hd & _); by rewrite Hd in * |].
  wp_stmt. apply negb_false_iff, bool_decide_eq_true in H, H0.
  eapply wp_mono; [apply assertPublishable_wp | cbn beta |].
  - intros _ w' [-> Hp]. wp_go. eauto 9.
  - cbn. intros e w' [-> Hp]. split; [done |]. apply Hno. intros (_ & _ & _ & Hp'). congruence.
Qed.

Lemma publishOwned_wp k actor now w :
  keyed ev_id (db_events w) ->
  wp (publishOwned k actor now)
     (fun ev' w' => exists ev o, db_events w !! k = Some ev /\
        db_organizers w !! ev_organizerId ev = Some o /\ org_ownerUserId o = actor /\
        org_status o = ORG_APPROVED /\ ev_status ev = EV_DRAFT /\ publishable ev = true /\
        ev' = with_ev_status EV_PUBLISHED (Some now) None ev /\
        w' = set_events (<[k := ev']> (db_events w)) w)
     (fun _ w' => w' = w /\ ~ exists ev o, db_events w !! k = Some ev /\
        db_organizers w !! ev_organizerId ev = Some o /\ org_ownerUserId o = actor /\
        org_status o = ORG_APPROVED /\ ev_status ev = EV_DRAFT /\ publishable ev = true) w.
Proof.
  intros Hk. unfold publishOwned. wp_stmt. eapply wp_mono; [apply publish_check_wp | cbn beta | done].
  intros ev w' (-> & Hev & o & Ho). unfold publish_write, db_events, db_organizers in *.
  rewrite (Hk _ _ Hev). apply wp_update; wsimpl; [| congruence].
  intros r Hr. same_row Hev. exists ev, o. naive_solver.
Qed.

Lemma cancelOwned_wp k actor now w :
  keyed ev_id (db_events w) ->
  wp (cancelOwned k actor now) (fun _ w' => events_step actor w w') (fun _ w' => w' = w) w.
Proof.
  intros Hk. unfold cancelOwned, cancel_check, cancel_write. do 2 wp_stmt.
  eapply wp_mono; [apply event_getOwned_wp | cbn beta | done].
  intros [ev o] w' (-> & Hev & Ho & Hown). cbn [fst snd] in *. wp_go; try done.
  apply negb_false_iff, bool_decide_eq_true in H. unfold db_events in *. rewrite (Hk _ _ Hev) in *.
  same_row Hev. eapply es_moved; [exact Hev | exact Ho | done | done | by eapply move_cancel].
Qed.

Lemma event_updateOwned_wp k actor dto w :
  keyed ev_id (db_events w) ->
  wp (event_updateOwned k actor dto) (fun _ w' => events_step actor w w') (fun _ w' => w' = w) w.
Proof.
  intros Hk. unfold event_updateOwned, update_check, update_write, slug_conflict. do 2 wp_stmt.
  eapply wp_mono; [apply event_getOwned_wp | cbn beta | done].
  intros [ev o] w' (-> & Hev & Ho & Hown). cbn [fst snd] in *.
  wp_stmt. wp_stmt; [done |]. wp_stmt. wp_stmt; [done |].
  apply bool_decide_eq_false in H, H0. wp_stmt.
  eapply wp_mono; [apply assertValidDateRange_wp | cbn beta | done].
  intros [s e] w' (-> & Hs & He & Hse). cbn [fst snd] in *. wp_go; try done.
  unfold db_events in *. rewrite (Hk _ _ Hev) in *. same_row Hev.
  eapply es_moved; [exact Hev | exact Ho | done | done |]. apply move_edit; try done. cbn.
  destruct (uer_startsAt dto) as [[]|], (uer_endsAt dto) as [[]|]; cbn in *; simplify_eq; done.
Qed.

(** The calls of the two services, by [actor]. *)
Inductive catalog_call (actor : string) (w : world) : world -> Prop :=
| cc_org_create id dto : catalog_call actor w (org_create id actor dto w).2
| cc_org_update k dto : catalog_call actor w (org_updateOwned k actor dto w).2
| cc_org_submit k : catalog_call actor w (submitForReview k actor w).2
| cc_event_create id venueId k dto :
    catalog_call actor w (createForOrganizer id venueId k actor dto w).2
| cc_event_update k dto : catalog_call actor w (event_updateOwned k actor dto w).2
| cc_event_publish k now : catalog_call actor w (publishOwned k actor now w).2
| cc_event_cancel k now : catalog_call actor w (cancelOwned k actor now w).2.

Record catalog_keyed (w : world) : Prop := {
  ck_organizers : keyed org_id (db_organizers w);
  ck_events : keyed ev_id (db_events w)
}.

Lemma catalog_call_step actor w w' :
  catalog_keyed w -> catalog_call actor w w' ->
  organizers_step actor w w' \/ events_step actor w w'.
Proof.
  intros [Hko Hke] Hc.
  assert (Hfin : forall A (m : op A) (P : world -> Prop),
    wp m (fun _ w' => P w') (fun _ w' => w' = w) w -> P w -> P (m w).2).
  { intros A m P Hm Hw. unfold wp in Hm. by destruct (m w) as [[a | e] w1]; cbn; subst. }
  destruct Hc; [left | left | left | right | right | right | right]; apply Hfin; try constructor.
  - eapply wp_mono; [apply org_create_wp | by intros o w1 [_ Hs] | done].
  - eapply wp_mono; [by apply org_updateOwned_wp | by intros o w1 [_ Hs] | done].
  - eapply wp_mono; [by apply submitForReview_wp | by intros o w1 [_ Hs] | done].
  - apply createForOrganizer_wp.
  - by apply event_updateOwned_wp.
  - eapply wp_mono; [by apply publishOwned_wp | cbn beta | by intros e w1 [-> _]].
    intros ev' w1 (ev & o & Hev & Ho & Hown & Ha & Hd & Hp & -> & ->).
    eapply es_moved; [exact Hev | exact Ho | done | done | by eapply move_publish].
  - by apply cancelOwned_wp.
Qed.

Lemma organizers_step_keyed actor w w' : organizers_step actor w w' -> catalog_keyed w -> catalog_keyed w'.
Proof.
  intros Hs [Hko Hke]. destruct Hs as [| k o o' Ho (_ & Hid & _) | o Ho _ _]; [done | |].
  - split; [| done]. apply keyed_insert; [done |]. rewrite Hid. by apply Hko.
  - split; [| done]. by apply keyed_insert.
Qed.

Lemma events_step_keyed actor w w' : events_step actor w w' -> catalog_keyed w -> catalog_keyed w'.
Proof.
  intros Hs [Hko Hke]. destruct Hs as [| k ev ev' o Hev Ho Hown (Hid & _) _ | venueId ev o Hev _ _ _ _ _ _ _ _]; [done | |].
  - split; [done |]. apply keyed_insert; [done |]. rewrite Hid. by apply Hke.
  - split; [done |]. by apply keyed_insert.
Qed.

(** Any users, any calls. *)
Definition catalog_step (w w' : world) : Prop := exists actor, catalog_call actor w w'.

Lemma catalog_step_keyed w w' : catalog_keyed w -> catalog_step w w' -> catalog_keyed w'.
Proof.
  intros Hk [actor Hc]. destruct (catalog_call_step actor w w' Hk Hc);
    eauto using organizers_step_keyed, events_step_keyed.
Qed.

(** How the catalog may evolve without the operator. *)
Record evolves (w w' : world) : Prop := {
  ev_cancelled_kept : forall k ev, db_events w !! k = Some ev -> ev_status ev = EV_CANCELLED ->
    db_events w' !! k = Some ev;
  ev_event_kept : forall k ev, db_events w !! k = Some ev -> exists ev',
    db_events w' !! k = Some ev' /\ same_sale ev ev' /\
    (ev_status ev' = EV_DRAFT -> ev_status ev = EV_DRAFT);
  ev_organizer_kept : forall k o, db_organizers w !! k = Some o -> exists o',
    db_organizers w' !! k = Some o' /\ org_ownerUserId o' = org_ownerUserId o;
  ev_no_approval : forall k o', db_organizers w' !! k = Some o' -> org_status o' = ORG_APPROVED ->
    exists o, db_organizers w !! k = Some o /\ org_status o = ORG_APPROVED /\
      org_ownerUserId o' = org_ownerUserId o
}.

Lemma same_sale_refl ev : same_sale ev ev.
Proof. done. Qed.

Lemma evolves_refl w : evolves w w.
Proof. split; eauto 6 using same_sale_refl. Qed.

Lemma evolves_trans w1 w2 w3 : evolves w1 w2 -> evolves w2 w3 -> evolves w1 w3.
Proof.
  intros [Hc He Ho Ha] [Hc' He' Ho' Ha']. split.
  - intros k ev Hev Hst. eauto.
  - intros k ev Hev. destruct (He k ev Hev) as (ev1 & H1 & Hs1 & Hd1).
    destruct (He' k ev1 H1) as (ev2 & H2 & Hs2 & Hd2). exists ev2. split; [done |].
    split; [| by auto]. unfold same_sale in *. naive_solver congruence.
  - intros k o Hk. destruct (Ho k o Hk) as (o1 & H1 & Hw1).
    destruct (Ho' k o1 H1) as (o2 & H2 & Hw2). exists o2. split; [done | congruence].
  - intros k o3 H3 Hap. destruct (Ha' k o3 H3 Hap) as (o2 & H2 & Hap2 & Hw2).
    destruct (Ha k o2 H2 Hap2) as (o1 & H1 & Hap1 & Hw1). exists o1. split_and!; [done | done | congruence].
Qed.

#[export] Instance evolves_preorder : PreOrder evolves.
Proof. split; [exact evolves_refl | exact evolves_trans]. Qed.

Lemma organizers_step_evolves actor w w' : organizers_step actor w w' -> evolves w w'.
Proof.
  intros [| k o o' Ho (Hown & Hid & Hsame & Hst) | o Ho Hown Hst]; [reflexivity | |]; split; cbn;
    eauto 6 using same_sale_refl.
  - intros j x Hx. destruct (decide (k = j)) as [<- |].
    + exists o'. rewrite lookup_insert_eq. split; [done | congruence].
    + exists x. by rewrite lookup_insert_ne.
  - intros j x [[<- <-] | [_ Hx]]%lookup_insert_Some Hap; [| by eauto].
    exists o. destruct Hst as [(Heq & _) | (_ & Heq & _)]; [| congruence].
    split_and!; [done | congruence | done].
  - intros j x Hx. exists x. rewrite lookup_insert_ne; [done | congruence].
  - intros j x [[<- <-] | [_ Hx]]%lookup_insert_Some Hap; [congruence | by eauto].
Qed.

Lemma event_move_status o ev ev' : event_move o ev ev' -> ev_status ev <> EV_CANCELLED /\
  (ev_status ev' = EV_DRAFT -> ev_status ev = EV_DRAFT).
Proof. intros [? ? Hs _ | now Hs _ _ -> | now Hs ->]; [by rewrite Hs | by rewrite Hs | by rewrite Hs]. Qed.

Lemma events_step_evolves actor w w' : events_step actor w w' -> evolves w w'.
Proof.
  intros [| k ev ev' o Hev Ho Hown Hsale Hm | venueId ev o Hev Ho Hown Hap Hd _ _ _ _]; [reflexivity | |];
    split; cbn; eauto 6.
  - intros j x Hx Hc. rewrite lookup_insert_ne; [done |]. intros ->.
    apply event_move_status in Hm as [Hm _]. congruence.
  - intros j x Hx. destruct (decide (k = j)) as [<- |].
    + exists ev'. rewrite lookup_insert_eq. apply event_move_status in Hm as [_ Hm]. by simplify_eq.
    + exists x. by rewrite lookup_insert_ne.
  - intros j x Hx Hc. rewrite lookup_insert_ne; [done | congruence].
  - intros j x Hx. exists x. rewrite lookup_insert_ne; [done | congruence].
Qed.

(* ------------------------------------------------------------------ *)
(** ** An event to publish                                              *)

Module EventExample.

Definition olu : organizer :=
  {| org_id := "org"; org_ownerUserId := "olu"; org_status := ORG_APPROVED;
     org_profile := plain_profile "org" |}.

Definition dto : CreateEventRequest :=
  {| cer_title := " Jazz night "; cer_slug := "jazz-night"; cer_description := None;
     cer_visibility := Some PUBLIC; cer_category := Some CONCERT; cer_startsAt := Some 1000;
     cer_endsAt := Some 5000; cer_timezone := None; cer_venueName := Some "Alliance";
     cer_addressLine1 := None; cer_addressLine2 := None; cer_city := Some "Accra";
     cer_region := None; cer_country := None; cer_latitude := None; cer_longitude := None;
     cer_capacityTotal := Some 200 |}.

Definition w0 : world := set_organizers {["org" := olu]} empty_world.
Definition w1 : world := (createForOrganizer "ev" "venue" "org" "olu" dto w0).2.
Definition w2 : world := (publishOwned "ev" "olu" 100 w1).2.
Definition w3 : world := (cancelOwned "ev" "olu" 200 w2).2.

Definition draft : event := new_event "ev" "venue" "org" 1000 5000 dto.

Example created : createForOrganizer "ev" "venue" "org" "olu" dto w0 = (Ok draft, w1).
Proof. run_ends. Qed.
Example published : publishOwned "ev" "olu" 100 w1 =
  (Ok (with_ev_status EV_PUBLISHED (Some 100) None draft), w2).
Proof. run_ends. Qed.
Example not_mallory : (publishOwned "ev" "mallory" 100 w1).1 = Err (NotFoundException "event not found").
Proof. vm_run. Qed.
Example cancelled_status : ev_status <$> (db_events w3 !! "ev") = Some EV_CANCELLED.
Proof. vm_run. Qed.

(** An empty edit, and one that blanks the city. *)
Definition edit (city : option string) : UpdateEventRequest :=
  {| uer_title := None; uer_slug := None; uer_description := None; uer_visibility := None;
     uer_category := None; uer_startsAt := None; uer_endsAt := None; uer_timezone := None;
     uer_venueName := None; uer_addressLine1 := None; uer_addressLine2 := None; uer_city := city;
     uer_region := None; uer_country := None; uer_latitude := None; uer_longitude := None;
     uer_capacityTotal := None |}.

Lemma keyed_w1 : catalog_keyed w1.
Proof. split; apply keyed_check; vm_run. Qed.

Lemma keyed_w0 : catalog_keyed w0.
Proof. split; apply keyed_check; vm_run. Qed.

Lemma run_w3 : rtc catalog_step w0 w3.
Proof.
  eapply rtc_l; [exists "olu"; apply (cc_event_create "olu" w0 "ev" "venue" "org" dto) |].
  eapply rtc_l; [exists "olu"; apply (cc_event_publish "olu" w1 "ev" 100) |].
  eapply rtc_l; [exists "olu"; apply (cc_event_cancel "olu" w2 "ev" 200) |]. apply rtc_refl.
Qed.

End EventExample.

(** Interleaved, the calls do not keep the lifecycle: a publication checked while the event
    was a draft, and written after others have published and cancelled it, puts the
    cancelled event back on sale. *)
Lemma cancelled_event_revived :
  publish_check "ev" "olu" EventExample.w1 = (Ok EventExample.draft, EventExample.w1) /\
  ev_status <$> (db_events EventExample.w3 !! "ev") = Some EV_CANCELLED /\
  ev_status <$> (db_events (publish_write 300 EventExample.draft EventExample.w3).2 !! "ev") = Some EV_PUBLISHED.
Proof. split_and!; [run_ends | vm_run | vm_run]. Qed.

(** The rules of publication are not kept by a later edit: blanking the city of a
    published event is accepted. *)
Lemma published_event_edited_away :
  (fun ev => (ev_status ev, publishable ev)) <$>
    (db_events (event_updateOwned "ev" "olu" (EventExample.edit (Some " ")) EventExample.w2).2 !! "ev")
  = Some (EV_PUBLISHED, false).
Proof. vm_run. Qed.

(* ------------------------------------------------------------------ *)
(** ** Properties                                                       *)

(** A publication goes through exactly when the event is a draft of an approved
    organizer owned by the caller and has a title, a location, a capacity and a
    positive duration; then its status and publication date change and nothing
    else.  Otherwise it throws and changes nothing. *)
Theorem publishOwned_outcome k actor now w (Hk : keyed ev_id (db_events w)) :
  match publishOwned k actor now w with
  | (Ok ev', w') => exists ev o, db_events w !! k = Some ev /\
      db_organizers w !! ev_organizerId ev = Some o /\ org_ownerUserId o = actor /\
      org_status o = ORG_APPROVED /\ ev_status ev = EV_DRAFT /\ publishable ev = true /\
      ev' = with_ev_status EV_PUBLISHED (Some now) None ev /\
      w' = set_events (<[k := ev']> (db_events w)) w
  | (Err _, w') => w' = w /\ ~ exists ev o, db_events w !! k = Some ev /\
      db_organizers w !! ev_organizerId ev = Some o /\ org_ownerUserId o = actor /\
      org_status o = ORG_APPROVED /\ ev_status ev = EV_DRAFT /\ publishable ev = true
  end.
Proof. exact (publishOwned_wp k actor now w Hk). Qed.

Lemma publishOwned_outcome_witness :
  exists ev o, db_events EventExample.w1 !! "ev" = Some ev /\
    db_organizers EventExample.w1 !! ev_organizerId ev = Some o /\ org_ownerUserId o = "olu".
Proof.
  pose proof (publishOwned_outcome "ev" "olu" 100 EventExample.w1
    (ck_events _ EventExample.keyed_w1)) as H.
  rewrite EventExample.published in H. destruct H as (ev & o & H1 & H2 & H3 & _). by exists ev, o.
Defined.

(** C30: No call of the organizer and event services, by any user and run whole, touches
    anything but the user's own organizers and their events, one row at a time and along
    the lifecycle: a new organizer is a draft and a draft may be sent to review; a
    new event is a draft of an approved organizer with no price, payments off and nothing
    held, ending after it starts, and comes with its venue; a draft of an approved
    organizer may be published if it is publishable, a published event may be cancelled,
    and an edit keeps the status and the sale columns. *)
Theorem catalog_call_authorised actor w w' (Hk : catalog_keyed w)
    (Hc : catalog_call actor w w') :
  organizers_step actor w w' \/ events_step actor w w'.
Proof. exact (catalog_call_step actor w w' Hk Hc). Qed.

Lemma catalog_call_authorised_witness :
  organizers_step "olu" EventExample.w1 EventExample.w2 \/
  events_step "olu" EventExample.w1 EventExample.w2.
Proof.
  exact (catalog_call_authorised "olu" EventExample.w1 EventExample.w2 EventExample.keyed_w1
    (cc_event_publish "olu" EventExample.w1 "ev" 100)).
Defined.

(** C17: Over any sequence of calls by any users, each run whole, a cancelled event never changes
    again, no event disappears or becomes a draft again or moves to another
    organizer or price, no organizer changes hands, and none becomes approved:
    approval is the operator's alone. *)
Theorem catalog_evolution w w' (Hk : catalog_keyed w) (Hrun : rtc catalog_step w w') : evolves w w'.
Proof.
  induction Hrun as [w | w1 w2 w3 Hs Hrun IH]; [reflexivity |].
  etransitivity; [| by apply IH; eapply catalog_step_keyed].
  destruct Hs as [actor Hc].
  destruct (catalog_call_step actor w1 w2 Hk Hc); eauto using organizers_step_evolves, events_step_evolves.
Qed.

Lemma catalog_evolution_witness : evolves EventExample.w0 EventExample.w3.
Proof.
  exact (catalog_evolution EventExample.w0 EventExample.w3 EventExample.keyed_w0 EventExample.run_w3).
Defined.
