(* ===== verification/TableHolds.v ===== *)
(** TableHolds.v: holds on the tables of an event (src/src/modules/tables/
    application/table-reservations.service.ts, table-idempotency.service.ts,
    table-audit.service.ts and infrastructure/*.repository.ts). *)

From S2P Require Import Prelude Errors Values Hashing Store.

Local Open Scope Z_scope.

(* ------------------------------------------------------------------ *)
(** ** TableAuditService                                                *)

(** [append] *)
Definition table_log (row : table_audit) : op unit :=
  modify (fun w => set_table_audits (table_audits (seating w) ++ [row]) w).

Definition event_table_status_name (s : EventTableStatus) : string :=
  match s with
  | ET_AVAILABLE => "AVAILABLE"
  | ET_HELD => "HELD"
  | ET_UNAVAILABLE => "UNAVAILABLE"
  end.

Definition venue_table_status_name (s : VenueTableStatus) : string :=
  match s with
  | VT_ACTIVE => "ACTIVE"
  | VT_INACTIVE => "INACTIVE"
  | VT_MAINTENANCE => "MAINTENANCE"
  end.

Definition logVenueTableCreated (actorUserId organizerId venueTableId : string)
    (floorSectionId : option string) (label : string) (seatCount : Z) (status : VenueTableStatus)
  : op unit :=
  table_log
    {| ta_actorUserId := Some actorUserId; ta_organizerId := Some organizerId; ta_eventId := None;
       ta_venueTableId := Some venueTableId; ta_eventTableId := None; ta_reservationId := None;
       ta_event := VENUE_TABLE_CREATED; ta_reason := None;
       ta_metadata := JObj [("venueTableId", JStr venueTableId); ("organizerId", JStr organizerId);
         ("floorSectionId", jstr_or_null floorSectionId); ("label", JStr label);
         ("seatCount", JNum seatCount); ("status", JStr (venue_table_status_name status))] |}.

Definition logEventTableCreated (actorUserId organizerId eventId eventTableId venueTableId : string)
    (priceMinor : Z) (currency : string) (status : EventTableStatus) : op unit :=
  table_log
    {| ta_actorUserId := Some actorUserId; ta_organizerId := Some organizerId;
       ta_eventId := Some eventId; ta_venueTableId := Some venueTableId;
       ta_eventTableId := Some eventTableId; ta_reservationId := None;
       ta_event := EVENT_TABLE_CREATED; ta_reason := None;
       ta_metadata := JObj [("organizerId", JStr organizerId); ("eventId", JStr eventId);
         ("eventTableId", JStr eventTableId); ("venueTableId", JStr venueTableId);
         ("priceMinor", JNum priceMinor); ("currency", JStr currency);
         ("status", JStr (event_table_status_name status))] |}.

Definition logEventTableUpdated (actorUserId organizerId eventId eventTableId venueTableId : string)
    (previousStatus newStatus : EventTableStatus) : op unit :=
  table_log
    {| ta_actorUserId := Some actorUserId; ta_organizerId := Some organizerId;
       ta_eventId := Some eventId; ta_venueTableId := Some venueTableId;
       ta_eventTableId := Some eventTableId; ta_reservationId := None;
       ta_event := EVENT_TABLE_UPDATED; ta_reason := None;
       ta_metadata := JObj [("organizerId", JStr organizerId); ("eventId", JStr eventId);
         ("eventTableId", JStr eventTableId); ("venueTableId", JStr venueTableId);
         ("previousStatus", JStr (event_table_status_name previousStatus));
         ("newStatus", JStr (event_table_status_name newStatus))] |}.

Definition logHoldCreated (actorUserId organizerId eventId venueTableId eventTableId reservationId : string)
    (amountMinor : Z) (currency : string) (holdExpiresAt : Z) : op unit :=
  table_log
    {| ta_actorUserId := Some actorUserId; ta_organizerId := Some organizerId;
       ta_eventId := Some eventId; ta_venueTableId := Some venueTableId;
       ta_eventTableId := Some eventTableId; ta_reservationId := Some reservationId;
       ta_event := TABLE_HOLD_CREATED; ta_reason := None;
       ta_metadata := JObj [("reservationId", JStr reservationId); ("eventTableId", JStr eventTableId);
         ("eventId", JStr eventId); ("organizerId", JStr organizerId);
         ("amountMinor", JNum amountMinor); ("currency", JStr currency);
         ("holdExpiresAt", JDate holdExpiresAt)] |}.

Definition hold_expired_row (r : table_reservation) (expiredAt : Z)
    (previousStatus newStatus : EventTableStatus) : table_audit :=
  {| ta_actorUserId := Some (tr_actorUserId r); ta_organizerId := Some (tr_organizerId r);
     ta_eventId := Some (tr_eventId r); ta_venueTableId := None;
     ta_eventTableId := Some (tr_eventTableId r); ta_reservationId := Some (tr_id r);
     ta_event := TABLE_HOLD_EXPIRED; ta_reason := Some "hold_expired";
     ta_metadata := JObj [("reservationId", JStr (tr_id r));
       ("eventTableId", JStr (tr_eventTableId r)); ("eventId", JStr (tr_eventId r));
       ("organizerId", JStr (tr_organizerId r)); ("reason", JStr "hold_expired");
       ("previousReservationStatus", JStr "HELD"); ("newReservationStatus", JStr "EXPIRED");
       ("previousEventTableStatus", JStr (event_table_status_name previousStatus));
       ("newEventTableStatus", JStr (event_table_status_name newStatus));
       ("expiredAt", JDate expiredAt); ("holdExpiresAt", JDate (tr_holdExpiresAt r))] |}.

Definition logHoldExpired (r : table_reservation) (expiredAt : Z)
    (previousStatus newStatus : EventTableStatus) : op unit :=
  table_log (hold_expired_row r expiredAt previousStatus newStatus).

Definition rejection_row (c : HoldRejectionContext) : table_audit :=
  {| ta_actorUserId := Some (hrc_actorUserId c); ta_organizerId := hrc_organizerId c;
     ta_eventId := Some (hrc_eventId c); ta_venueTableId := hrc_venueTableId c;
     ta_eventTableId := Some (hrc_eventTableId c); ta_reservationId := None;
     ta_event := TABLE_RESERVATION_REJECTED; ta_reason := Some (hrc_reason c);
     ta_metadata := JObj [("organizerId", jstr_or_null (hrc_organizerId c));
       ("eventId", JStr (hrc_eventId c)); ("venueTableId", jstr_or_null (hrc_venueTableId c));
       ("eventTableId", JStr (hrc_eventTableId c)); ("reason", JStr (hrc_reason c))] |}.

Definition logReservationRejected (c : HoldRejectionContext) : op unit := table_log (rejection_row c).

(* ------------------------------------------------------------------ *)
(** ** TableIdempotencyService                                          *)

Definition TABLE_HOLD_IDEMPOTENCY_USE_CASE : string := "tables.hold".

Definition hashIdempotencyKey `{Crypto} (value : string) : string := sha256 (trim value).

Definition buildHoldRequestFingerprintHash `{Crypto} (eventId eventTableId : string) : string :=
  sha256 (stringify [("eventId", Some eventId); ("eventTableId", Some eventTableId)]).

(* ------------------------------------------------------------------ *)
(** ** The repositories                                                 *)

Definition db_event_tables (w : world) : gmap string event_table := event_tables (seating w).
Definition db_holds (w : world) : gmap string table_reservation := table_reservations (seating w).

(** A table of an event with its organizer, event and venue table.  These
    relations are required columns: a row that lacks one is taken as absent. *)
Record EventTableRecord : Type := {
  etr_table : event_table;
  etr_organizer : organizer;
  etr_event : event;
  etr_venueTable : venue_table
}.

Definition event_table_record (w : world) (t : event_table) : option EventTableRecord :=
  o ← organizers (catalog w) !! et_organizerId t;
  ev ← events (catalog w) !! et_eventId t;
  vt ← venue_tables (seating w) !! et_venueTableId t;
  Some {| etr_table := t; etr_organizer := o; etr_event := ev; etr_venueTable := vt |}.

Definition findLockedEventTableDetails (eventTableId : string) : op (option EventTableRecord) :=
  reads (fun w => db_event_tables w !! eventTableId ≫= event_table_record w).

Definition with_et_state (status : EventTableStatus) (holdExpiresAt : option Z) (t : event_table)
  : event_table :=
  {| et_id := et_id t; et_organizerId := et_organizerId t; et_eventId := et_eventId t;
     et_venueTableId := et_venueTableId t; et_status := status; et_priceMinor := et_priceMinor t;
     et_currency := et_currency t; et_holdExpiresAt := holdExpiresAt |}.

Definition updateEventTableState (eventTableId : string) (status : EventTableStatus)
    (holdExpiresAt : option Z) : op event_table :=
  update event_tables_t eventTableId (with_et_state status holdExpiresAt).

Definition findByActorAndIdempotency (actorUserId useCase keyHash : string)
  : op (option table_reservation) :=
  findFirst table_reservations_t (fun r =>
    bool_decide (tr_actorUserId r = actorUserId) &&
    bool_decide (tr_idempotencyUseCase r = useCase) &&
    bool_decide (tr_idempotencyKeyHash r = keyHash)).

(** A reservation with its table and venue table, as the answer shows them. *)
Record TableReservationView : Type := {
  trv_reservation : table_reservation;
  trv_venueTable : venue_table;
  trv_floorSection : option floor_section
}.

Definition reservation_view (w : world) (r : table_reservation) : option TableReservationView :=
  t ← db_event_tables w !! tr_eventTableId r;
  vt ← venue_tables (seating w) !! et_venueTableId t;
  Some {| trv_reservation := r; trv_venueTable := vt;
          trv_floorSection := vt_floorSectionId vt ≫= fun f => floor_sections (seating w) !! f |}.

Definition findOwnedReservation (reservationId actorUserId : string)
  : op (option TableReservationView) :=
  reads (fun w =>
    r ← db_holds w !! reservationId;
    if bool_decide (tr_actorUserId r = actorUserId) then reservation_view w r else None).

(** status = HELD AND holdExpiresAt <= now, of one table. *)
Definition is_stale (eventTableId : string) (now : Z) (r : table_reservation) : bool :=
  bool_decide (tr_eventTableId r = eventTableId) && bool_decide (tr_status r = TR_HELD) &&
  (tr_holdExpiresAt r <=? now).

(** status = HELD AND holdExpiresAt > now, of one table. *)
Definition is_active (eventTableId : string) (now : Z) (r : table_reservation) : bool :=
  bool_decide (tr_eventTableId r = eventTableId) && bool_decide (tr_status r = TR_HELD) &&
  (now <? tr_holdExpiresAt r).

Definition hold_expires_le (a b : table_reservation) : Prop := tr_holdExpiresAt a <= tr_holdExpiresAt b.
#[export] Instance hold_expires_le_dec : RelDecision hold_expires_le.
Proof. intros a b. unfold hold_expires_le. apply _. Defined.
Definition hold_expires_ge (a b : table_reservation) : Prop := tr_holdExpiresAt b <= tr_holdExpiresAt a.
#[export] Instance hold_expires_ge_dec : RelDecision hold_expires_ge.
Proof. intros a b. unfold hold_expires_ge. apply _. Defined.

Definition findExpiredHeldByEventTable (eventTableId : string) (now : Z)
  : op (list table_reservation) :=
  reads (fun w => merge_sort hold_expires_le (find_rows (is_stale eventTableId now) (db_holds w))).

Definition latest_active (eventTableId : string) (now : Z) (holds : gmap string table_reservation)
  : option table_reservation :=
  head (merge_sort hold_expires_ge (find_rows (is_active eventTableId now) holds)).

Definition countActiveHeld (eventTableId : string) (now : Z) : op Z :=
  reads (fun w => Z.of_nat (length (find_rows (is_active eventTableId now) (db_holds w)))).

Definition with_tr_expired (expiredAt : Z) (r : table_reservation) : table_reservation :=
  {| tr_id := tr_id r; tr_actorUserId := tr_actorUserId r; tr_organizerId := tr_organizerId r;
     tr_eventId := tr_eventId r; tr_eventTableId := tr_eventTableId r; tr_status := TR_EXPIRED;
     tr_amountMinor := tr_amountMinor r; tr_currency := tr_currency r;
     tr_idempotencyUseCase := tr_idempotencyUseCase r;
     tr_idempotencyKeyHash := tr_idempotencyKeyHash r;
     tr_requestFingerprintHash := tr_requestFingerprintHash r;
     tr_holdExpiresAt := tr_holdExpiresAt r; tr_cancelledAt := tr_cancelledAt r;
     tr_expiredAt := Some expiredAt |}.

Definition tr_markExpired (reservationId : string) (expiredAt : Z) : op unit :=
  do* update table_reservations_t reservationId (with_tr_expired expiredAt) in ret tt.

(* ------------------------------------------------------------------ *)
(** ** TableReservationsService                                         *)

(** What a table's state becomes, given the latest active hold. *)
Definition next_state (status : EventTableStatus) (holdExpiresAt : option Z)
    (activeHold : option table_reservation) : EventTableStatus * option Z :=
  match activeHold with
  | Some r => (ET_HELD, Some (tr_holdExpiresAt r))
  | None =>
      if bool_decide (status = ET_HELD) then (ET_AVAILABLE, None)
      else (status, None)
  end.

(** [reconcileEventTableStateWithinTx] *)
Definition reconcileEventTableState (eventTableId : string) (now : Z)
    (currentState : option (EventTableStatus * option Z)) : op (EventTableStatus * option Z) :=
  let* state :=
    match currentState with
    | Some s => ret s
    | None =>
        let* t := findUnique event_tables_t eventTableId in
        let* t := or_throw t (NotFoundException "event table not found") in
        ret (et_status t, et_holdExpiresAt t)
    end in
  let* activeHold := reads (fun w => latest_active eventTableId now (db_holds w)) in
  let next := next_state state.1 state.2 activeHold in
  do* when (negb (bool_decide (next = state)))
        (do* updateEventTableState eventTableId next.1 next.2 in ret tt) in
  ret next.

(** [expireStaleHoldForEventTableWithinTx] *)
Definition expireStaleHold (eventTableId : string) (now : Z) : op unit :=
  let* found := findUnique event_tables_t eventTableId in
  match found with
  | None => ret tt
  | Some t =>
      let* expired := findExpiredHeldByEventTable eventTableId now in
      do* for_each expired (fun r => tr_markExpired (tr_id r) now) in
      let* next := reconcileEventTableState eventTableId now
                     (Some (et_status t, et_holdExpiresAt t)) in
      for_each expired (fun r => logHoldExpired r now (et_status t) next.1)
  end.

Definition DEFAULT_TABLE_HOLD_DURATION_SECONDS : Z := 600.
Definition MIN_TABLE_HOLD_DURATION_SECONDS : Z := 60.
Definition MAX_TABLE_HOLD_DURATION_SECONDS : Z := 1800.

(** [resolveHoldDurationSeconds], on the configured value. *)
Definition resolveHoldDurationSeconds (rawValue : jsval) : Z :=
  match rawValue with
  | None | Some JNull | Some (JStr "") => DEFAULT_TABLE_HOLD_DURATION_SECONDS
  | Some v =>
      let parsed := match v with
                    | JNum z => Some (JInt z)
                    | JFloat _ => Some JFrac
                    | _ => finite_Number (js_String v)
                    end in
      match parsed with
      | Some (JInt z) =>
          if (z <? MIN_TABLE_HOLD_DURATION_SECONDS) || (MAX_TABLE_HOLD_DURATION_SECONDS <? z)
          then DEFAULT_TABLE_HOLD_DURATION_SECONDS else z
      | _ => DEFAULT_TABLE_HOLD_DURATION_SECONDS
      end
  end.

(** The context of a rejection once the table is known. *)
Definition rejection (r : EventTableRecord) (actorUserId reason : string) : HoldRejectionContext :=
  let t := etr_table r in
  {| hrc_actorUserId := actorUserId; hrc_eventId := et_eventId t; hrc_eventTableId := et_id t;
     hrc_organizerId := Some (et_organizerId t); hrc_venueTableId := Some (et_venueTableId t);
     hrc_reason := reason |}.

(** [assertHoldEligible] *)
Definition assertHoldEligible (r : EventTableRecord) (actorUserId : string) (now : Z) : op unit :=
  let reject status msg reason := HoldRejectionError status msg (rejection r actorUserId reason) in
  let t := etr_table r in
  do* throw_if (negb (bool_decide (ev_status (etr_event r) = EV_PUBLISHED)))
        (reject 403 "event is not available for table holds" "event_not_published") in
  do* throw_if (ev_endsAt (etr_event r) <=? now) (reject 403 "event has ended" "event_ended") in
  do* throw_if (negb (bool_decide (ev_visibility (etr_event r) = PUBLIC)))
        (reject 403 "event is not customer facing" "event_not_customer_facing") in
  do* throw_if (negb (bool_decide (org_status (etr_organizer r) = ORG_APPROVED)))
        (reject 403 "organizer is not approved" "organizer_not_approved") in
  do* throw_if (negb (bool_decide (vt_organizerId (etr_venueTable r) = et_organizerId t)))
        (reject 409 "venue table organizer mismatch" "venue_table_organizer_mismatch") in
  do* throw_if (negb (bool_decide (ev_organizerId (etr_event r) = et_organizerId t)))
        (reject 409 "event organizer mismatch" "event_organizer_mismatch") in
  do* throw_if (negb (bool_decide (vt_status (etr_venueTable r) = VT_ACTIVE)))
        (reject 409 "venue table is unavailable" "venue_table_unavailable") in
  throw_if (bool_decide (et_status t = ET_UNAVAILABLE))
    (reject 409 "event table is unavailable" "event_table_unavailable").

Record TableReservationResponse : Type := {
  trr_id : string;
  trr_eventId : string;
  trr_eventTableId : string;
  trr_venueTableId : string;
  trr_label : string;
  trr_floorSectionName : option string;
  trr_seatCount : Z;
  trr_amountMinor : Z;
  trr_currency : string;
  trr_status : TableReservationStatus;
  trr_holdExpiresAt : Z;
  trr_cancelledAt : option Z;
  trr_expiredAt : option Z
}.

Definition toReservationResponse (v : TableReservationView) : TableReservationResponse :=
  let r := trv_reservation v in
  {| trr_id := tr_id r; trr_eventId := tr_eventId r; trr_eventTableId := tr_eventTableId r;
     trr_venueTableId := vt_id (trv_venueTable v); trr_label := vt_label (trv_venueTable v);
     trr_floorSectionName := fs_name <$> trv_floorSection v;
     trr_seatCount := vt_seatCount (trv_venueTable v); trr_amountMinor := tr_amountMinor r;
     trr_currency := tr_currency r; trr_status := tr_status r;
     trr_holdExpiresAt := tr_holdExpiresAt r; trr_cancelledAt := tr_cancelledAt r;
     trr_expiredAt := tr_expiredAt r |}.

(** [toHttpException] *)
Definition toHttpException (statusCode : Z) (msg : string) : error :=
  if statusCode =? 403 then ForbiddenException msg
  else if statusCode =? 404 then NotFoundException msg
  else ConflictException msg.

Record CreateHoldInput : Type := {
  chi_actorUserId : string;
  chi_eventId : string;
  chi_eventTableId : string;
  chi_idempotencyKey : string
}.

Section Service.
Context `{Crypto} (TABLE_HOLD_DURATION_SECONDS : jsval).

(** The row of a new hold. *)
Definition new_hold (id : string) (input : CreateHoldInput) (now : Z) (t : event_table)
  : table_reservation :=
  {| tr_id := id; tr_actorUserId := chi_actorUserId input; tr_organizerId := et_organizerId t;
     tr_eventId := et_eventId t; tr_eventTableId := et_id t; tr_status := TR_HELD;
     tr_amountMinor := et_priceMinor t; tr_currency := et_currency t;
     tr_idempotencyUseCase := TABLE_HOLD_IDEMPOTENCY_USE_CASE;
     tr_idempotencyKeyHash := hashIdempotencyKey (trim (chi_idempotencyKey input));
     tr_requestFingerprintHash :=
       buildHoldRequestFingerprintHash (chi_eventId input) (chi_eventTableId input);
     tr_holdExpiresAt := now + resolveHoldDurationSeconds TABLE_HOLD_DURATION_SECONDS * 1000;
     tr_cancelledAt := None; tr_expiredAt := None |}.

(** The rejections of the transaction's own checks. *)
Definition reject_input {A} (input : CreateHoldInput) (statusCode : Z) (msg reason : string)
    (t : option event_table) : op A :=
  throw (HoldRejectionError statusCode msg
    {| hrc_actorUserId := chi_actorUserId input; hrc_eventId := chi_eventId input;
       hrc_eventTableId := chi_eventTableId input; hrc_organizerId := et_organizerId <$> t;
       hrc_venueTableId := et_venueTableId <$> t; hrc_reason := reason |}).

(** The replay of a request whose reservation exists. *)
Definition hold_replay (input : CreateHoldInput) (now : Z) (t : event_table)
    (existing : table_reservation) : op TableReservationView :=
  if negb (bool_decide (tr_requestFingerprintHash existing =
             buildHoldRequestFingerprintHash (chi_eventId input) (chi_eventTableId input)))
  then reject_input input 409 "idempotency key reused with different payload"
         "idempotency_fingerprint_mismatch" (Some t)
  else
    do* expireStaleHold (et_id t) now in
    let* replay := findOwnedReservation (tr_id existing) (chi_actorUserId input) in
    or_throw replay (NotFoundException "table reservation not found").

(** The handler of a failed insert, whose statements are refused. *)
Definition create_conflict (input : CreateHoldInput) (t : event_table) (e : error)
  : op TableReservationView :=
  if is_unique_violation e then
    let* replay := statement_refused
      (findByActorAndIdempotency (chi_actorUserId input) TABLE_HOLD_IDEMPOTENCY_USE_CASE
         (hashIdempotencyKey (trim (chi_idempotencyKey input)))) in
    let conflict := reject_input input 409 "idempotency key reused with different payload"
                      "idempotency_conflict" (Some t) in
    match replay with
    | Some r =>
        if bool_decide (tr_requestFingerprintHash r =
             buildHoldRequestFingerprintHash (chi_eventId input) (chi_eventTableId input))
        then
          let* v := statement_refused (findOwnedReservation (tr_id r) (chi_actorUserId input)) in
          match v with Some v => ret v | None => conflict end
        else conflict
    | None => conflict
    end
  else throw e.

(** The new hold: [inl] continues with the reservation created, [inr] returns the
    replay found instead. *)
Definition hold_create (id : string) (input : CreateHoldInput) (now : Z) (t : event_table)
  : op (table_reservation + TableReservationView) :=
  let r := new_hold id input now t in
  catch (do* create table_reservations_t r in ret (inl r))
    (fun e => let* v := create_conflict input t e in ret (inr v)).

(** The table follows its new hold. *)
Definition hold_stored (input : CreateHoldInput) (t : event_table) (r : table_reservation)
  : op TableReservationView :=
  do* updateEventTableState (et_id t) ET_HELD (Some (tr_holdExpiresAt r)) in
  do* logHoldCreated (chi_actorUserId input) (et_organizerId t) (et_eventId t)
        (et_venueTableId t) (et_id t) (tr_id r) (tr_amountMinor r) (tr_currency r)
        (tr_holdExpiresAt r) in
  let* v := findOwnedReservation (tr_id r) (chi_actorUserId input) in
  or_throw v (NotFoundException "table reservation not found").

(** The transaction of [createHold]. *)
Definition hold_tx (id : string) (input : CreateHoldInput) (now : Z) : op TableReservationView :=
  let* locked := findUnique event_tables_t (chi_eventTableId input) in
  do* (match locked with
       | None => reject_input input 404 "event table not found" "event_table_not_found" None
       | Some _ => ret tt
       end) in
  let* details := findLockedEventTableDetails (chi_eventTableId input) in
  let* d :=
    match details with
    | Some d =>
        if bool_decide (et_eventId (etr_table d) = chi_eventId input) then ret d
        else reject_input input 404 "event table not found" "event_table_not_found" (Some (etr_table d))
    | None => reject_input input 404 "event table not found" "event_table_not_found" None
    end in
  let t := etr_table d in
  do* assertHoldEligible d (chi_actorUserId input) now in
  let* existing := findByActorAndIdempotency (chi_actorUserId input) TABLE_HOLD_IDEMPOTENCY_USE_CASE
                     (hashIdempotencyKey (trim (chi_idempotencyKey input))) in
  match existing with
  | Some existing => hold_replay input now t existing
  | None =>
      do* expireStaleHold (et_id t) now in
      let* activeCount := countActiveHeld (et_id t) now in
      do* (if 0 <? activeCount
           then reject_input input 409 "table is already held" "table_already_held" (Some t)
           else ret tt) in
      let* created := hold_create id input now t in
      match created with
      | inr replay => ret replay
      | inl r => hold_stored input t r
      end
  end.

(** A refusal is recorded outside the transaction that was rolled back. *)
Definition hold_refused (e : error) : op TableReservationResponse :=
  match e with
  | HoldRejectionError statusCode msg c =>
      do* logReservationRejected c in
      throw (toHttpException statusCode msg)
  | _ => throw e
  end.

(** [createHold] *)
Definition createHold (id : string) (input : CreateHoldInput) (now : Z)
  : op TableReservationResponse :=
  do* throw_if (bool_decide (trim (chi_idempotencyKey input) = ""))
        (BadRequestException "idempotencyKey is required") in
  catch
    (let* v := transaction (hold_tx id input now) in
     ret (toReservationResponse v))
    hold_refused.

End Service.

(** [getOwnedReservation] *)
Definition getOwnedReservation (reservationId actorUserId : string) (now : Z)
  : op TableReservationResponse :=
  let* v := transaction (
    let* existing := findOwnedReservation reservationId actorUserId in
    let* existing := or_throw existing (NotFoundException "table reservation not found") in
    let r := trv_reservation existing in
    do* (if bool_decide (tr_status r = TR_HELD) && (tr_holdExpiresAt r <=? now)
         then expireStaleHold (tr_eventTableId r) now
         else
           do* reconcileEventTableState (tr_eventTableId r) now None in ret tt) in
    let* refreshed := findOwnedReservation reservationId actorUserId in
    or_throw refreshed (NotFoundException "table reservation not found")) in
  ret (toReservationResponse v).

(* ------------------------------------------------------------------ *)
(** ** Active holds                                                     *)

Lemma is_active_spec id now r :
  is_active id now r = true <-> tr_eventTableId r = id /\ tr_status r = TR_HELD /\ now < tr_holdExpiresAt r.
Proof. unfold is_active. rewrite !andb_true_iff, !bool_decide_eq_true, Z.ltb_lt. tauto. Qed.

Lemma is_stale_spec id now r :
  is_stale id now r = true <-> tr_eventTableId r = id /\ tr_status r = TR_HELD /\ tr_holdExpiresAt r <= now.
Proof. unfold is_stale. rewrite !andb_true_iff, !bool_decide_eq_true, Z.leb_le. tauto. Qed.

Lemma latest_active_Some id now t r :
  latest_active id now t = Some r -> exists k, t !! k = Some r /\ is_active id now r = true.
Proof.
  unfold latest_active. intros H. apply find_rows_spec. rewrite <- (merge_sort_Permutation hold_expires_ge).
  destruct (merge_sort _ _); [done |]. injection H as ->. left.
Qed.

Lemma latest_active_None id now t :
  latest_active id now t = None <-> forall k r, t !! k = Some r -> is_active id now r = false.
Proof.
  unfold latest_active. split.
  - intros H k r Hk. destruct (is_active id now r) eqn:Ha; [| done].
    assert (Hr : r ∈ merge_sort hold_expires_ge (find_rows (is_active id now) t)).
    { rewrite merge_sort_Permutation. apply find_rows_spec. eauto. }
    destruct (merge_sort _ _); [by apply elem_of_nil in Hr | done].
  - intros H. destruct (head _) as [r |] eqn:E; [| done].
    destruct (latest_active_Some id now t r E) as (k & Hk & Ha). by rewrite (H k r Hk) in Ha.
Qed.

Lemma latest_active_unique id now t k r :
  t !! k = Some r -> is_active id now r = true ->
  (forall k' r', t !! k' = Some r' -> is_active id now r' = true -> k' = k) ->
  latest_active id now t = Some r.
Proof.
  intros Hk Ha Hu. destruct (latest_active id now t) as [r' |] eqn:E.
  - apply latest_active_Some in E as (k' & Hk' & Ha'). specialize (Hu k' r' Hk' Ha'). congruence.
  - by rewrite (proj1 (latest_active_None id now t) E k r Hk) in Ha.
Qed.

Lemma count_active_zero id now t :
  (0 <? Z.of_nat (length (find_rows (is_active id now) t))) = false <->
  latest_active id now t = None.
Proof.
  rewrite latest_active_None. destruct (find_rows (is_active id now) t) as [| x l] eqn:E.
  - split; [| done]. intros _ k r Hk. destruct (is_active id now r) eqn:Ha; [| done].
    assert (Hr : r ∈ find_rows (is_active id now) t) by (apply find_rows_spec; eauto).
    rewrite E in Hr. by apply elem_of_nil in Hr.
  - split; [discriminate |]. intros H.
    assert (Hx : x ∈ find_rows (is_active id now) t) by (rewrite E; left).
    apply find_rows_spec in Hx as (k & Hk & Ha). by rewrite (H k x Hk) in Ha.
Qed.

(* ------------------------------------------------------------------ *)
(** ** Expiring and reconciling                                         *)

Definition expire_row (id : string) (now : Z) (r : table_reservation) : table_reservation :=
  if is_stale id now r then with_tr_expired now r else r.

(** The state a table gets from the holds. *)
Definition settle_row (now : Z) (holds : gmap string table_reservation) (t : event_table) : event_table :=
  let n := next_state (et_status t) (et_holdExpiresAt t) (latest_active (et_id t) now holds) in
  with_et_state n.1 n.2 t.

(** The tables, holds and audits of the world. *)
Definition reseat (tables : gmap string event_table) (holds : gmap string table_reservation)
    (audits : list table_audit) (w : world) : world :=
  set_seating {| floor_sections := floor_sections (seating w); venue_tables := venue_tables (seating w);
                 event_tables := tables; table_reservations := holds; table_audits := audits |} w.

(** The stale holds of a table have expired and its state follows its holds. *)
Definition settled (id : string) (now : Z) (w w' : world) : Prop :=
  match db_event_tables w !! id with
  | None => w' = w
  | Some t => exists audits,
      w' = reseat (<[id := settle_row now (expire_row id now <$> db_holds w) t]> (db_event_tables w))
                  (expire_row id now <$> db_holds w) (table_audits (seating w) ++ audits) w
  end.

Lemma reseat_same w : reseat (db_event_tables w) (db_holds w) (table_audits (seating w)) w = w.
Proof. by destruct w as [? ? ? ? ? ? [] ?]. Qed.

Lemma with_et_state_same t : with_et_state (et_status t) (et_holdExpiresAt t) t = t.
Proof. by destruct t. Qed.

Lemma reconcile_table_wp id now state w t :
  db_event_tables w !! id = Some t -> et_id t = id ->
  default (et_status t, et_holdExpiresAt t) state = (et_status t, et_holdExpiresAt t) ->
  wp (reconcileEventTableState id now state)
     (fun n w' => w' = reseat (<[id := settle_row now (db_holds w) t]> (db_event_tables w))
                        (db_holds w) (table_audits (seating w)) w /\
        n = next_state (et_status t) (et_holdExpiresAt t) (latest_active id now (db_holds w)))
     (fun _ _ => False) w.
Proof.
  intros Ht Hid Hst. unfold reconcileEventTableState, settle_row. rewrite Hid.
  assert (Hrest : wp (let* activeHold := reads (fun w => latest_active id now (db_holds w)) in
      let next := next_state (et_status t) (et_holdExpiresAt t) activeHold in
      do* when (negb (bool_decide (next = (et_status t, et_holdExpiresAt t))))
            (do* updateEventTableState id next.1 next.2 in ret tt) in
      ret next)
     (fun n w' => w' = reseat (<[id :=
          let n := next_state (et_status t) (et_holdExpiresAt t) (latest_active id now (db_holds w)) in
          with_et_state n.1 n.2 t]> (db_event_tables w))
                        (db_holds w) (table_audits (seating w)) w /\
        n = next_state (et_status t) (et_holdExpiresAt t) (latest_active id now (db_holds w)))
     (fun _ _ => False) w).
  { wp_stmt. wp_stmt. cbv zeta.
    set (n := next_state (et_status t) (et_holdExpiresAt t) (latest_active id now (db_holds w))).
    unfold db_event_tables in *. wp_go; [same_row Ht; done | congruence |].
    split; [| done]. apply negb_false_iff, bool_decide_eq_true in H. rewrite H. cbn.
    rewrite with_et_state_same, insert_id by done. symmetry. apply reseat_same. }
  destruct state as [s |]; cbn in Hst.
  - subst s. wp_stmt. wp_stmt. exact Hrest.
  - wp_stmt. wp_stmt. wp_stmt. unfold db_event_tables in *. cbn. rewrite Ht. wp_stmt. wp_stmt; [done |].
    injection H as <-. wp_stmt. exact Hrest.
Qed.

Lemma expire_loop_wp now rs : forall w,
  NoDup (tr_id <$> rs) -> Forall (fun r => db_holds w !! tr_id r = Some r) rs ->
  wp (for_each rs (fun r => tr_markExpired (tr_id r) now))
     (fun _ w' => exists holds, w' = reseat (db_event_tables w) holds (table_audits (seating w)) w /\
        forall k, holds !! k = if decide (k ∈ tr_id <$> rs) then with_tr_expired now <$> db_holds w !! k
                               else db_holds w !! k)
     (fun _ _ => False) w.
Proof.
  induction rs as [| r rs IH]; intros w Hnd Hrows; cbn [for_each fmap list_fmap] in *.
  { wp_stmt. exists (db_holds w). rewrite reseat_same. split; [done |]. intros k.
    by rewrite decide_False by apply not_elem_of_nil. }
  apply NoDup_cons in Hnd as [Hni Hnd]. apply Forall_cons in Hrows as [Hr Hrows].
  unfold db_holds in Hr. wp_stmt. unfold tr_markExpired. wp_stmt. wp_stmt; wsimpl; [| congruence].
  same_row Hr. wp_stmt. eapply wp_mono; [apply IH | cbn beta | done]; [done | |].
  - rewrite Forall_forall in *. intros x Hx. unfold db_holds. wsimpl.
    rewrite lookup_insert_ne; [by apply Hrows |]. intros Heq. apply Hni. rewrite Heq.
    by apply list_elem_of_fmap_2.
  - intros _ w2 (holds & -> & Hall). exists holds. split; [done |]. intros k. rewrite Hall.
    unfold db_holds. wsimpl. destruct (decide (k = tr_id r)) as [-> | Hne].
    + rewrite decide_False, decide_True by (done || apply list_elem_of_here).
      by rewrite lookup_insert_eq, Hr.
    + rewrite lookup_insert_ne by done. apply decide_ext. rewrite elem_of_cons. naive_solver.
Qed.

Lemma audit_loop_wp {A} (rs : list A) (row : A -> table_audit) : forall w,
  wp (for_each rs (fun r => table_log (row r)))
     (fun _ w' => w' = reseat (db_event_tables w) (db_holds w) (table_audits (seating w) ++ (row <$> rs)) w)
     (fun _ _ => False) w.
Proof.
  induction rs as [| r rs IH]; intros w; cbn [for_each fmap list_fmap].
  { wp_stmt. by rewrite app_nil_r, reseat_same. }
  wp_stmt. unfold table_log at 1. wp_stmt. eapply wp_mono; [apply IH | cbn beta | done].
  intros _ w' ->. unfold reseat, db_event_tables, db_holds. wsimpl. by rewrite <- app_assoc.
Qed.

Lemma expireStaleHold_wp id now w :
  keyed et_id (db_event_tables w) -> keyed tr_id (db_holds w) ->
  wp (expireStaleHold id now) (fun _ w' => settled id now w w') (fun _ _ => False) w.
Proof.
  intros Hke Hkt. unfold expireStaleHold, settled. wp_stmt. wp_stmt. cbn [tb_rows event_tables_t].
  unfold db_event_tables in *. destruct (event_tables (seating w) !! id) as [t |] eqn:Ht; [| by wp_stmt].
  unfold findExpiredHeldByEventTable. wp_stmt. wp_stmt.
  set (rs := merge_sort hold_expires_le (find_rows (is_stale id now) (db_holds w))).
  assert (Hin : forall r, r ∈ rs <-> db_holds w !! tr_id r = Some r /\ is_stale id now r = true).
  { intros r. unfold rs. rewrite merge_sort_Permutation, find_rows_spec. split.
    - intros (k & Hk & Hs). by rewrite (Hkt _ _ Hk).
    - intros [Hk Hs]. eauto. }
  wp_stmt. eapply wp_mono; [apply expire_loop_wp | cbn beta | done].
  { unfold rs. rewrite merge_sort_Permutation. by apply find_rows_NoDup. }
  { apply Forall_forall. intros r Hr. by apply Hin. }
  intros _ w1 (holds & -> & Hall).
  assert (Hh : holds = expire_row id now <$> db_holds w).
  { apply map_eq. intros k. rewrite Hall, lookup_fmap. destruct (db_holds w !! k) as [r |] eqn:Hr.
    - pose proof (Hkt _ _ Hr) as Hid. unfold expire_row. cbn. case_decide as Hk.
      + apply list_elem_of_fmap in Hk as (r' & Hk & Hr'). apply Hin in Hr' as [Hr' Hs].
        assert (r' = r) as -> by congruence. by rewrite Hs.
      + destruct (is_stale id now r) eqn:Hs; [| done]. destruct Hk. rewrite <- Hid.
        apply list_elem_of_fmap_2, Hin. by rewrite Hid.
    - by case_decide. }
  wp_stmt. eapply wp_mono; [apply (reconcile_table_wp id now (Some (et_status t, et_holdExpiresAt t)) _ t) | cbn beta | done];
    [exact Ht | by apply Hke | done |].
  intros n w2 [-> Hn]. eapply wp_mono; [apply audit_loop_wp | cbn beta | done].
  intros _ w3 ->. rewrite <- Hh. by eexists.
Qed.

(* ------------------------------------------------------------------ *)
(** ** The invariant of the seating                                     *)

(** No two holds of one table are active at a time. *)
Definition exclusive (now : Z) (holds : gmap string table_reservation) : Prop :=
  forall id k1 k2 r1 r2, holds !! k1 = Some r1 -> holds !! k2 = Some r2 ->
    is_active id now r1 = true -> is_active id now r2 = true -> k1 = k2.

(** The unique index of the table. *)
Definition same_key (a b : table_reservation) : Prop :=
  tr_actorUserId a = tr_actorUserId b /\ tr_idempotencyUseCase a = tr_idempotencyUseCase b /\
  tr_idempotencyKeyHash a = tr_idempotencyKeyHash b.

Definition unique_keys (holds : gmap string table_reservation) : Prop :=
  forall k1 k2 r1 r2, holds !! k1 = Some r1 -> holds !! k2 = Some r2 -> same_key r1 r2 -> k1 = k2.

Record seating_ok (now : Z) (w : world) : Prop := {
  so_tables : keyed et_id (db_event_tables w);
  so_holds : keyed tr_id (db_holds w);
  so_unique : unique_keys (db_holds w);
  so_exclusive : exclusive now (db_holds w);
  so_state : forall id k r, db_holds w !! k = Some r -> is_active id now r = true ->
    exists t, db_event_tables w !! id = Some t /\ et_status t = ET_HELD /\
      et_holdExpiresAt t = Some (tr_holdExpiresAt r)
}.

Lemma is_active_later id now now' r : now <= now' -> is_active id now' r = true -> is_active id now r = true.
Proof. rewrite !is_active_spec. naive_solver lia. Qed.

(** Time only ends holds. *)
Lemma seating_ok_later now now' w : now <= now' -> seating_ok now w -> seating_ok now' w.
Proof.
  intros Hle [Ht Hh Hu He Hs]. split; [done | done | done | |].
  - intros id k1 k2 r1 r2 H1 H2 A1 A2. eapply (He id); eauto using is_active_later.
  - intros id k r Hk Ha. eauto using is_active_later.
Qed.

Lemma latest_active_char id now holds r :
  exclusive now holds ->
  (latest_active id now holds = Some r) <-> exists k, holds !! k = Some r /\ is_active id now r = true.
Proof.
  intros He. split; [apply latest_active_Some |]. intros (k & Hk & Ha).
  eapply latest_active_unique; [exact Hk | exact Ha |]. intros k' r' Hk' Ha'. by eapply He.
Qed.

Lemma is_active_expire j id now r : is_active j now (expire_row id now r) = is_active j now r.
Proof.
  unfold expire_row. destruct (is_stale id now r) eqn:Hs; [| done].
  apply is_stale_spec in Hs as (_ & _ & Hs). apply eq_bool_prop_intro.
  rewrite !Is_true_true, !is_active_spec. cbn. naive_solver lia.
Qed.

Lemma expire_row_active j id now r : is_active j now r = true -> expire_row id now r = r.
Proof.
  intros (_ & _ & Ha)%is_active_spec. unfold expire_row.
  destruct (is_stale id now r) eqn:Hs; [| done]. apply is_stale_spec in Hs. lia.
Qed.

Lemma expire_row_id id now r : tr_id (expire_row id now r) = tr_id r.
Proof. unfold expire_row. by destruct (is_stale _ _ _). Qed.

Lemma keyed_expire id now holds : keyed tr_id holds -> keyed tr_id (expire_row id now <$> holds).
Proof.
  intros Hk k r. rewrite lookup_fmap. intros (r0 & Hr & ->)%fmap_Some.
  rewrite expire_row_id. by apply Hk.
Qed.

Lemma unique_expire id now holds : unique_keys holds -> unique_keys (expire_row id now <$> holds).
Proof.
  intros Hu k1 k2 r1 r2. rewrite !lookup_fmap. intros (x1 & H1 & ->)%fmap_Some (x2 & H2 & ->)%fmap_Some Hk.
  apply (Hu k1 k2 x1 x2 H1 H2). unfold expire_row, same_key in *.
  by destruct (is_stale id now x1), (is_stale id now x2).
Qed.

(** An active row of the expired table is an active row of the old one. *)
Lemma expire_lookup_active j id now (holds : gmap string table_reservation) k r :
  is_active j now r = true ->
  ((expire_row id now <$> holds) !! k = Some r) <-> (holds !! k = Some r).
Proof.
  intros Ha. rewrite lookup_fmap. split.
  - intros (r0 & Hr & ->)%fmap_Some. rewrite is_active_expire in Ha.
    by rewrite (expire_row_active j).
  - intros ->. cbn. by rewrite (expire_row_active j).
Qed.

Lemma exclusive_expire id now holds : exclusive now holds -> exclusive now (expire_row id now <$> holds).
Proof.
  intros He j k1 k2 r1 r2 H1 H2 A1 A2.
  apply (expire_lookup_active j) in H1, H2; [| done..]. by eapply (He j).
Qed.

Lemma latest_active_expire j id now holds :
  exclusive now holds -> latest_active j now (expire_row id now <$> holds) = latest_active j now holds.
Proof.
  intros He. destruct (latest_active j now holds) as [r |] eqn:E.
  - apply latest_active_char; [by apply exclusive_expire |].
    apply latest_active_char in E as (k & Hk & Ha); [| done]. exists k. split; [| done].
    by apply (expire_lookup_active j).
  - apply latest_active_None. intros k r Hk. destruct (is_active j now r) eqn:Ha; [| done].
    apply (expire_lookup_active j) in Hk; [| done].
    by rewrite (proj1 (latest_active_None _ _ _) E k r Hk) in Ha.
Qed.

(** The lease of a table: who holds it now, and until when. *)
Definition lease_of (now : Z) (w : world) (id : string) : option (string * Z) :=
  (fun r => (tr_actorUserId r, tr_holdExpiresAt r)) <$> latest_active id now (db_holds w).

Lemma db_reseat ts hs audits w :
  db_event_tables (reseat ts hs audits w) = ts /\ db_holds (reseat ts hs audits w) = hs.
Proof. done. Qed.

Lemma settle_row_id now holds t : et_id (settle_row now holds t) = et_id t.
Proof. done. Qed.

(** A settled table keeps the invariant and everybody's lease. *)
Lemma settled_keeps id now w w' :
  seating_ok now w -> settled id now w w' ->
  seating_ok now w' /\ forall j, lease_of now w' j = lease_of now w j.
Proof.
  intros [Ht Hh Hu He Hs] Hset. unfold settled in Hset.
  destruct (db_event_tables w !! id) as [t |] eqn:E; [| by subst w'].
  destruct Hset as [audits ->]. pose proof (Ht _ _ E) as Hid.
  split; [| intros j; unfold lease_of; cbn; by rewrite latest_active_expire].
  split; cbn.
  - by apply keyed_insert.
  - by apply keyed_expire.
  - by apply unique_expire.
  - by apply exclusive_expire.
  - intros j k r Hk Ha. apply (expire_lookup_active j) in Hk; [| done].
    destruct (Hs j k r Hk Ha) as (t0 & Ht0 & Hst & Hx).
    destruct (decide (j = id)) as [-> |]; [| exists t0; by rewrite lookup_insert_ne].
    exists (settle_row now (expire_row id now <$> db_holds w) t).
    rewrite lookup_insert_eq. split; [done |]. unfold settle_row. rewrite Hid.
    rewrite latest_active_expire by done.
    rewrite (proj2 (latest_active_char id now (db_holds w) r He)) by eauto. done.
Qed.

(** Reconciling without expiring keeps them as well. *)
Lemma reconciled_keeps id now w t :
  seating_ok now w -> db_event_tables w !! id = Some t ->
  let w' := reseat (<[id := settle_row now (db_holds w) t]> (db_event_tables w)) (db_holds w)
              (table_audits (seating w)) w in
  seating_ok now w' /\ forall j, lease_of now w' j = lease_of now w j.
Proof.
  intros [Ht Hh Hu He Hs] E. pose proof (Ht _ _ E) as Hid. split; [| done]. split; cbn; [by apply keyed_insert | done.. |].
  intros j k r Hk Ha. destruct (Hs j k r Hk Ha) as (t0 & Ht0 & Hst & Hx).
  destruct (decide (j = id)) as [-> |]; [| exists t0; by rewrite lookup_insert_ne].
  exists (settle_row now (db_holds w) t). rewrite lookup_insert_eq. split; [done |].
  unfold settle_row. rewrite Hid.
  rewrite (proj2 (latest_active_char id now (db_holds w) r He)) by eauto. done.
Qed.

(** Taking a free table: the row of the hold and the state of the table. *)
Definition taken (r : table_reservation) (t : event_table) (audits : list table_audit) (w : world) : world :=
  reseat (<[tr_eventTableId r := with_et_state ET_HELD (Some (tr_holdExpiresAt r)) t]> (db_event_tables w))
         (<[tr_id r := r]> (db_holds w)) audits w.

Lemma taken_keeps now r t audits w :
  seating_ok now w -> db_event_tables w !! tr_eventTableId r = Some t ->
  db_holds w !! tr_id r = None -> tr_status r = TR_HELD -> now < tr_holdExpiresAt r ->
  latest_active (tr_eventTableId r) now (db_holds w) = None ->
  (forall k x, db_holds w !! k = Some x -> ~ same_key x r) ->
  seating_ok now (taken r t audits w) /\
  forall j, lease_of now (taken r t audits w) j =
    if decide (j = tr_eventTableId r) then Some (tr_actorUserId r, tr_holdExpiresAt r)
    else lease_of now w j.
Proof.
  intros [Ht Hh Hu He Hs] Htab Hid Hst Hx Hnone Hkey.
  assert (Hr : is_active (tr_eventTableId r) now r = true) by (by apply is_active_spec).
  assert (Hother : forall j k x, db_holds w !! k = Some x -> is_active j now x = true ->
    j <> tr_eventTableId r).
  { intros j k x Hk Ha ->. by rewrite (proj1 (latest_active_None _ _ _) Hnone k x Hk) in Ha. }
  assert (Hexc : exclusive now (<[tr_id r := r]> (db_holds w))).
  { intros j k1 k2 r1 r2 [[<- <-] | [_ H1]]%lookup_insert_Some
      [[<- <-] | [_ H2]]%lookup_insert_Some A1 A2; [done | | | by eapply (He j)].
    - exfalso. apply is_active_spec in A1 as [<- _]. by eapply Hother.
    - exfalso. apply is_active_spec in A2 as [<- _]. by eapply Hother. }
  split.
  - split; cbn; [| by apply keyed_insert | | done |].
    + apply keyed_insert; [done | exact (Ht _ _ Htab)].
    + intros k1 k2 r1 r2 [[<- <-] | [_ H1]]%lookup_insert_Some
        [[<- <-] | [_ H2]]%lookup_insert_Some Hsame; [done | | | by eapply Hu].
      * destruct (Hkey k2 r2 H2). unfold same_key in *. naive_solver.
      * by destruct (Hkey k1 r1 H1).
    + intros j k x [[<- <-] | [_ Hk]]%lookup_insert_Some Ha.
      * apply is_active_spec in Ha as [<- _]. rewrite lookup_insert_eq. by eexists.
      * destruct (Hs j k x Hk Ha) as (t0 & Ht0 & Hrest). exists t0.
        rewrite lookup_insert_ne; [done |]. intros Heq. by eapply Hother.
  - intros j. unfold lease_of. cbn. case_decide as Hj.
    + subst j. rewrite (proj2 (latest_active_char _ now _ r Hexc)); [done |].
      exists (tr_id r). by rewrite lookup_insert_eq.
    + f_equal. destruct (latest_active j now (db_holds w)) as [x |] eqn:E.
      * apply latest_active_char in E as (k & Hk & Ha); [| done]. apply latest_active_char; [done |].
        exists k. rewrite lookup_insert_ne; [done |]. intros <-. congruence.
      * apply latest_active_None. intros k x [[<- <-] | [_ Hk]]%lookup_insert_Some.
        -- destruct (is_active j now r) eqn:Ha; [| done]. apply is_active_spec in Ha as [Ha _]. by destruct Hj.
        -- by apply (proj1 (latest_active_None _ _ _) E k).
Qed.

(* ------------------------------------------------------------------ *)
(** ** createHold                                                       *)

(** The event is on sale to the public, its organizer approved, the table in
    service. *)
Definition eligible (d : EventTableRecord) (now : Z) : bool :=
  bool_decide (ev_status (etr_event d) = EV_PUBLISHED) && (now <? ev_endsAt (etr_event d)) &&
  bool_decide (ev_visibility (etr_event d) = PUBLIC) &&
  bool_decide (org_status (etr_organizer d) = ORG_APPROVED) &&
  bool_decide (vt_organizerId (etr_venueTable d) = et_organizerId (etr_table d)) &&
  bool_decide (ev_organizerId (etr_event d) = et_organizerId (etr_table d)) &&
  bool_decide (vt_status (etr_venueTable d) = VT_ACTIVE) &&
  negb (bool_decide (et_status (etr_table d) = ET_UNAVAILABLE)).

Lemma assertHoldEligible_wp d actor now w :
  wp (assertHoldEligible d actor now) (fun _ w' => w' = w /\ eligible d now = true)
     (fun e w' => w' = w /\ eligible d now = false) w.
Proof.
  unfold assertHoldEligible, eligible. cbv zeta.
  rewrite (Z.ltb_antisym (ev_endsAt _)). wp_go; (split; [done |]);
    repeat match goal with
           | H : negb _ = true |- _ => apply negb_true_iff in H
           | H : negb _ = false |- _ => apply negb_false_iff in H
           | H : _ = _ :> bool |- _ => rewrite H
           end; done.
Qed.

Section CreateHold.
Context `{Crypto} (cfg : jsval).

(** A reservation of this actor under this key. *)
Definition hold_key (input : CreateHoldInput) (r : table_reservation) : bool :=
  bool_decide (tr_actorUserId r = chi_actorUserId input) &&
  bool_decide (tr_idempotencyUseCase r = TABLE_HOLD_IDEMPOTENCY_USE_CASE) &&
  bool_decide (tr_idempotencyKeyHash r = hashIdempotencyKey (trim (chi_idempotencyKey input))).

Definition hold_fingerprint (input : CreateHoldInput) : string :=
  buildHoldRequestFingerprintHash (chi_eventId input) (chi_eventTableId input).

(** The table the request asks for, when it may be held. *)
Definition offered (input : CreateHoldInput) (now : Z) (d : EventTableRecord) (w : world) : Prop :=
  db_event_tables w !! chi_eventTableId input ≫= event_table_record w = Some d /\
  et_eventId (etr_table d) = chi_eventId input /\ eligible d now = true.

(** A new hold: no active hold on the table, no reservation under the key; one
    HELD row for the configured time, the table HELD with it, an audit row. *)
Definition new_hold_made (id : string) (input : CreateHoldInput) (now : Z) (v : TableReservationView)
    (w w' : world) : Prop :=
  exists d t1 w1 audits, offered input now d w /\ find_row (hold_key input) (db_holds w) = None /\
    settled (chi_eventTableId input) now w w1 /\
    latest_active (chi_eventTableId input) now (db_holds w1) = None /\
    db_holds w1 !! id = None /\ db_event_tables w1 !! chi_eventTableId input = Some t1 /\
    trv_reservation v = new_hold cfg id input now (etr_table d) /\
    w' = taken (trv_reservation v) t1 (table_audits (seating w1) ++ audits) w1.

(** A replay: the reservation of the first request, with stale holds expired. *)
Definition hold_replayed (input : CreateHoldInput) (now : Z) (v : TableReservationView) (w w' : world)
  : Prop :=
  exists d r, offered input now d w /\ find_row (hold_key input) (db_holds w) = Some r /\
    tr_requestFingerprintHash r = hold_fingerprint input /\
    settled (chi_eventTableId input) now w w' /\
    trv_reservation v = expire_row (chi_eventTableId input) now r.

Lemma offered_table input now d w :
  keyed et_id (db_event_tables w) -> offered input now d w ->
  db_event_tables w !! chi_eventTableId input = Some (etr_table d) /\
  et_id (etr_table d) = chi_eventTableId input.
Proof.
  intros Hk (Hd & _ & _). apply bind_Some in Hd as (t & Ht & Hd). unfold event_table_record in Hd.
  apply bind_Some in Hd as (o & _ & Hd). apply bind_Some in Hd as (ev & _ & Hd).
  apply bind_Some in Hd as (vt & _ & Hd). injection Hd as <-. cbn. split; [done | by apply Hk].
Qed.

Lemma find_row_expire input id now holds :
  find_row (hold_key input) (holds : gmap string table_reservation) = None ->
  find_row (hold_key input) (expire_row id now <$> holds) = None.
Proof.
  rewrite !find_row_None. intros Hn k r. rewrite lookup_fmap. intros (r0 & Hr & ->)%fmap_Some.
  specialize (Hn k r0 Hr). unfold expire_row, hold_key in *. by destruct (is_stale _ _ _).
Qed.

(** A settled world: what stays, and the table itself. *)
Lemma settled_facts id now w w' :
  settled id now w w' ->
  db_holds w' = (match db_event_tables w !! id with
                 | Some _ => expire_row id now <$> db_holds w | None => db_holds w end) /\
  catalog w' = catalog w /\ venue_tables (seating w') = venue_tables (seating w) /\
  floor_sections (seating w') = floor_sections (seating w) /\
  (forall k, k <> id -> db_event_tables w' !! k = db_event_tables w !! k) /\
  forall t, db_event_tables w !! id = Some t -> exists t', db_event_tables w' !! id = Some t' /\
    et_venueTableId t' = et_venueTableId t.
Proof.
  unfold settled. destruct (db_event_tables w !! id) as [t |].
  - intros [audits ->]. cbn. split_and!; try done.
    + intros k Hk. by rewrite lookup_insert_ne.
    + intros t0 [= <-]. rewrite lookup_insert_eq. by eexists.
  - intros ->. done.
Qed.

Lemma hold_create_wp id input now t w :
  find_row (hold_key input) (db_holds w) = None ->
  wp (hold_create cfg id input now t)
     (fun res w' => db_holds w !! id = None /\ res = inl (new_hold cfg id input now t) /\
        w' = set_table_reservations (<[id := new_hold cfg id input now t]> (db_holds w)) w)
     (fun _ _ => db_holds w !! id <> None) w.
Proof.
  intros Hn. unfold hold_create. cbv zeta. wp_stmt. wp_stmt. unfold create, wp at 1.
  cbn [tb_rows tb_id table_reservations_t new_hold tr_id].
  assert (Hc : find_row (tb_clash table_reservations_t (new_hold cfg id input now t)) (db_holds w) = None).
  { apply find_row_None. intros k r Hr. rewrite <- (proj1 (find_row_None _ _) Hn k r Hr).
    cbn. unfold hold_key. rewrite !(bool_decide_ext (_ = tr_actorUserId r) (tr_actorUserId r = _)) by done.
    repeat f_equal; apply bool_decide_ext; done. }
  rewrite (bool_decide_true (find_row _ _ = None)) by exact Hc. rewrite andb_true_r.
  case_bool_decide as Hid.
  - by repeat wp_stmt.
  - by repeat wp_stmt.
Qed.

(** The answer is the stored reservation with its table. *)
Definition shown (v : TableReservationView) (w : world) : Prop :=
  db_holds w !! tr_id (trv_reservation v) = Some (trv_reservation v) /\
  reservation_view w (trv_reservation v) = Some v.

(** The request can be served: its table is offered and either free, or the same
    request already made a reservation that can still be shown. *)
Definition acceptable (id : string) (input : CreateHoldInput) (now : Z) (w : world) : Prop :=
  exists d, offered input now d w /\
    match find_row (hold_key input) (db_holds w) with
    | Some r => tr_requestFingerprintHash r = hold_fingerprint input /\ reservation_view w r <> None
    | None => latest_active (chi_eventTableId input) now (db_holds w) = None /\ db_holds w !! id = None
    end.

Lemma reservation_view_of w r v : reservation_view w r = Some v -> trv_reservation v = r.
Proof.
  unfold reservation_view. intros (t & _ & (vt & _ & Hv)%bind_Some)%bind_Some. by injection Hv as <-.
Qed.

(** Settling a table leaves the reservations showable. *)
Lemma settled_view id now w w' j r :
  settled id now w w' -> reservation_view w r <> None ->
  reservation_view w' (expire_row j now r) <> None.
Proof.
  intros Hset Hv. destruct (settled_facts _ _ _ _ Hset) as (_ & _ & Hvt & _ & Hother & Hrow).
  unfold reservation_view in *.
  assert (Htab : tr_eventTableId (expire_row j now r) = tr_eventTableId r)
    by (unfold expire_row; by destruct (is_stale _ _ _)).
  rewrite Htab. destruct (db_event_tables w !! tr_eventTableId r) as [t |] eqn:Ht; [| done].
  cbn in Hv. destruct (venue_tables (seating w) !! et_venueTableId t) as [vt |] eqn:Hvt0; [| done].
  destruct (decide (tr_eventTableId r = id)) as [Heq | Hne].
  - rewrite Heq in Ht |- *. destruct (Hrow t Ht) as (t' & -> & Hvt1). cbn. by rewrite Hvt, Hvt1, Hvt0.
  - rewrite Hother, Ht by done. cbn. by rewrite Hvt, Hvt0.
Qed.

Lemma view_of_offered input now d w w1 t1 r :
  offered input now d w -> db_event_tables w1 !! chi_eventTableId input = Some t1 ->
  et_venueTableId t1 = et_venueTableId (etr_table d) ->
  venue_tables (seating w1) = venue_tables (seating w) -> tr_eventTableId r = chi_eventTableId input ->
  exists v, reservation_view w1 r = Some v /\ trv_reservation v = r.
Proof.
  intros (Hd & _) Ht1 Hv1 Hvt Hr. apply bind_Some in Hd as (t & _ & Hd).
  unfold event_table_record in Hd.
  apply bind_Some in Hd as (o & _ & Hd). apply bind_Some in Hd as (ev & _ & Hd).
  apply bind_Some in Hd as (vt & Hvt0 & Hd). injection Hd as <-. cbn in Hv1.
  unfold reservation_view. rewrite Hr, Ht1. cbn. rewrite Hv1, Hvt, Hvt0. cbn. by eexists.
Qed.

Lemma hold_tx_wp id input now w :
  seating_ok now w ->
  wp (hold_tx cfg id input now)
     (fun v w' => shown v w' /\ (new_hold_made id input now v w w' \/ hold_replayed input now v w w'))
     (fun _ _ => ~ acceptable id input now w) w.
Proof.
  intros [Hke Hkh _ Hexc _]. unfold hold_tx, findLockedEventTableDetails.
  wp_stmt. wp_stmt. wp_stmt. cbn [tb_rows event_tables_t].
  destruct (event_tables (seating w) !! chi_eventTableId input) as [t |] eqn:Ht.
  2: { apply wp_throw. intros (d & (Hd & _) & _). unfold db_event_tables in Hd. by rewrite Ht in Hd. }
  wp_stmt. wp_stmt. wp_stmt. wp_stmt.
  destruct (db_event_tables w !! chi_eventTableId input ≫= event_table_record w) as [d |] eqn:Hd.
  2: { apply wp_throw. intros (d & (Hd' & _) & _). congruence. }
  case_bool_decide as Hev.
  2: { apply wp_throw. intros (d' & (Hd' & Hev' & _) & _). rewrite Hd in Hd'. by injection Hd' as <-. }
  wp_stmt. wp_stmt.
  eapply wp_mono; [apply assertHoldEligible_wp | cbn beta |].
  2: { intros _ _ [_ Hel] (d' & (Hd' & _ & Hel') & _). rewrite Hd in Hd'. injection Hd' as <-. congruence. }
  intros _ w0 [-> Hel].
  assert (Hoff : offered input now d w) by done.
  destruct (offered_table input now d w Hke Hoff) as [Htab Hid]. rewrite Hid.
  unfold findByActorAndIdempotency. wp_stmt. wp_stmt. cbn [tb_rows table_reservations_t].
  change (find_row _ (table_reservations (seating w))) with (find_row (hold_key input) (db_holds w)).
  destruct (find_row (hold_key input) (db_holds w)) as [r |] eqn:Hfind.
  - assert (Hacc : acceptable id input now w -> tr_requestFingerprintHash r = hold_fingerprint input /\
      reservation_view w r <> None).
    { intros (d' & _ & Hm). by rewrite Hfind in Hm. }
    unfold hold_replay. rewrite Hid. case_bool_decide as Hfp; cbn [negb].
    2: { apply wp_throw. intros Ha. by destruct (Hacc Ha). }
    wp_stmt. eapply wp_mono; [by apply expireStaleHold_wp | cbn beta | done]. intros _ w1 Hset.
    destruct (settled_facts _ _ _ _ Hset) as (Hh & _ & Hvt & _ & _ & Hrow). rewrite Htab in Hh.
    destruct (Hrow _ Htab) as (t1 & Ht1 & Hvt1).
    apply find_row_Some in Hfind as Hf. destruct Hf as (k & Hk & Hkey). pose proof (Hkh _ _ Hk) as Hrk.
    assert (Hr1 : db_holds w1 !! tr_id r = Some (expire_row (chi_eventTableId input) now r)).
    { by rewrite Hh, lookup_fmap, Hrk, Hk. }
    assert (Hactor : tr_actorUserId (expire_row (chi_eventTableId input) now r) = chi_actorUserId input).
    { apply andb_true_iff in Hkey as [[Hkey%bool_decide_eq_true _]%andb_true_iff _].
      unfold expire_row. by destruct (is_stale _ _ _). }
    unfold findOwnedReservation. wp_stmt. wp_stmt. rewrite Hr1. cbn [mbind option_bind].
    rewrite bool_decide_true by exact Hactor. wp_stmt.
    + intros Ha. destruct (Hacc Ha) as [_ Hv]. by eapply (settled_view _ _ _ _ (chi_eventTableId input) r Hset).
    + pose proof (reservation_view_of _ _ _ H0) as Hv. split.
      * split; [by rewrite Hv, expire_row_id | by rewrite Hv].
      * right. by exists d, r.
  - wp_stmt. eapply wp_mono; [by apply expireStaleHold_wp | cbn beta | done]. intros _ w1 Hset.
    destruct (settled_facts _ _ _ _ Hset) as (Hh & _ & Hvt & _ & _ & Hrow). rewrite Htab in Hh.
    destruct (Hrow _ Htab) as (t1 & Ht1 & Hvt1).
    unfold countActiveHeld. wp_stmt. wp_stmt. wp_stmt.
    destruct (0 <? Z.of_nat _) eqn:Hc.
    { apply wp_throw. intros (_ & _ & Hm). rewrite Hfind in Hm. destruct Hm as [Hnone _]. rewrite Hh in Hc.
      rewrite (proj2 (count_active_zero _ _ _)) in Hc; [done |]. by rewrite latest_active_expire. }
    apply count_active_zero in Hc. wp_stmt. wp_stmt.
    eapply wp_mono; [apply hold_create_wp; rewrite Hh; by apply find_row_expire | cbn beta |].
    2: { intros e w2 Hbad (_ & _ & Hm). rewrite Hfind in Hm. destruct Hm as [_ Hfree]. apply Hbad. by rewrite Hh, lookup_fmap, Hfree. }
    intros res w2 (Hfresh & -> & ->). unfold hold_stored. rewrite Hid. wp_stmt. unfold updateEventTableState.
    unfold db_event_tables in Ht1. wp_stmt; wsimpl; [| congruence].
    same_row Ht1. wp_stmt. unfold logHoldCreated, table_log. wp_stmt.
    unfold findOwnedReservation. wp_stmt. wp_stmt. unfold db_holds. wsimpl. rewrite lookup_insert_eq.
    cbn [mbind option_bind]. rewrite bool_decide_true by done.
    match goal with |- wp (or_throw (reservation_view ?w3 _) _) _ _ _ =>
      destruct (view_of_offered input now d w w3 (with_et_state ET_HELD
        (Some (tr_holdExpiresAt (new_hold cfg id input now (etr_table d)))) t1)
        (new_hold cfg id input now (etr_table d)) Hoff) as (v & Hv & Hvr);
        [unfold db_event_tables; wsimpl; apply lookup_insert_eq | exact Hvt1 | exact Hvt | exact Hid |]
    end.
    rewrite Hv. cbn [or_throw]. apply wp_ret. split.
    { split; rewrite Hvr; [| exact Hv]. unfold db_holds. wsimpl. apply lookup_insert_eq. }
    left. exists d, t1, w1. eexists.
    split_and!; try done. rewrite Hvr. unfold taken, reseat. cbn. by rewrite Hid.
Qed.

End CreateHold.

(* ------------------------------------------------------------------ *)
(** ** What the calls keep                                              *)

(** A hold only ever changes by expiring once its time has come. *)
Definition hold_life (r r' : table_reservation) : Prop :=
  r' = r \/ exists at_, tr_status r = TR_HELD /\ tr_holdExpiresAt r <= at_ /\ r' = with_tr_expired at_ r.

#[export] Instance hold_life_preorder : PreOrder hold_life.
Proof.
  split; [by left |]. intros r1 r2 r3 [-> | (a & H1 & H2 & ->)] [-> | (b & H3 & H4 & ->)];
    [by left | right; by exists b | right; by exists a | done].
Qed.

(** Reservations, tables of events and tables of the venue stay; of a table only
    the state changes, of a reservation only its expiry. *)
Record seats_kept (w w' : world) : Prop := {
  sk_holds : forall k r, db_holds w !! k = Some r -> exists r', db_holds w' !! k = Some r' /\ hold_life r r';
  sk_tables : forall k t, db_event_tables w !! k = Some t -> exists status holdExpiresAt,
    db_event_tables w' !! k = Some (with_et_state status holdExpiresAt t);
  sk_venue : forall k vt, venue_tables (seating w) !! k = Some vt -> venue_tables (seating w') !! k = Some vt
}.

#[export] Instance seats_kept_preorder : PreOrder seats_kept.
Proof.
  split.
  - intros w. split; [| | done].
    + intros k r Hr. exists r. by split.
    + intros k t Ht. exists (et_status t), (et_holdExpiresAt t). by rewrite with_et_state_same.
  - intros w1 w2 w3 [H1 H2 H3] [H4 H5 H6]. split; [| | by auto].
    + intros k r Hr. destruct (H1 k r Hr) as (r2 & Hr2 & Hl). destruct (H4 k r2 Hr2) as (r3 & Hr3 & Hl').
      exists r3. split; [done | by etransitivity].
    + intros k t Ht. destruct (H2 k t Ht) as (s & h & Ht2). destruct (H5 _ _ Ht2) as (s' & h' & Ht3).
      by exists s', h'.
Qed.

(** Nobody's lease changes. *)
Record calm (now : Z) (w w' : world) : Prop := {
  cm_ok : seating_ok now w -> seating_ok now w';
  cm_lease : seating_ok now w -> forall j, lease_of now w' j = lease_of now w j;
  cm_kept : seating_ok now w -> seats_kept w w'
}.

#[export] Instance calm_preorder now : PreOrder (calm now).
Proof.
  split; [by split |]. intros w1 w2 w3 [H1 H2 H3] [H4 H5 H6]. split; intros Hok; [by auto | |].
  - intros j. rewrite H5, H2; auto.
  - etransitivity; eauto.
Qed.

(** What neither touches the holds nor the tables of events. *)
Lemma calm_elsewhere now w w' :
  db_event_tables w' = db_event_tables w -> db_holds w' = db_holds w ->
  (forall k vt, venue_tables (seating w) !! k = Some vt -> venue_tables (seating w') !! k = Some vt) ->
  calm now w w'.
Proof.
  intros Ht Hh Hv. split; intros Hok.
  - destruct Hok as [? ? ? ? ?]. split; by rewrite ?Ht, ?Hh.
  - intros j. unfold lease_of. by rewrite Hh.
  - split; rewrite ?Ht, ?Hh; [apply (sk_holds w w); reflexivity | apply (sk_tables w w); reflexivity | done].
Qed.

Lemma calm_audit now row w :
  calm now w (set_table_audits (table_audits (seating w) ++ [row]) w).
Proof. by apply calm_elsewhere. Qed.

(** The two ways a table's own state is brought up to date. *)
Lemma reseat_kept id s h (f : table_reservation -> table_reservation) audits w t :
  db_event_tables w !! id = Some t -> (forall k r, db_holds w !! k = Some r -> hold_life r (f r)) ->
  seats_kept w (reseat (<[id := with_et_state s h t]> (db_event_tables w)) (f <$> db_holds w) audits w).
Proof.
  intros Ht Hf. split; cbn; [| | done].
  - intros k r Hr. exists (f r). rewrite lookup_fmap, Hr. eauto.
  - intros k t0 Ht0. destruct (decide (k = id)) as [-> |].
    + exists s, h. rewrite lookup_insert_eq. congruence.
    + exists (et_status t0), (et_holdExpiresAt t0). by rewrite lookup_insert_ne, with_et_state_same.
Qed.

Lemma expire_row_life id now r : hold_life r (expire_row id now r).
Proof.
  unfold expire_row. destruct (is_stale id now r) eqn:Hs; [| by left].
  apply is_stale_spec in Hs as (_ & Hs & Hx). right. by exists now.
Qed.

Lemma calm_settled id now w w' : settled id now w w' -> calm now w w'.
Proof.
  intros Hset. split; intros Hok; [by eapply settled_keeps | by eapply settled_keeps |].
  unfold settled in Hset. destruct (db_event_tables w !! id) as [t |] eqn:Ht; [| subst w'; reflexivity].
  destruct Hset as [audits ->]. apply reseat_kept; [done |]. intros. apply expire_row_life.
Qed.

(** A free table gets another state. *)
Lemma calm_status id now s t w :
  db_event_tables w !! id = Some t -> latest_active id now (db_holds w) = None ->
  calm now w (set_event_tables (<[id := with_et_state s None t]> (event_tables (seating w))) w).
Proof.
  intros Ht Hnone. split; intros Hok; [| done |].
  - destruct Hok as [Hk Hh Hu He Hs]. split; try done.
    + apply keyed_insert; [done | exact (Hk _ _ Ht)].
    + intros j k r Hr Ha. destruct (Hs j k r Hr Ha) as (t0 & Ht0 & Hrest). exists t0.
      unfold db_event_tables in *. cbn. rewrite lookup_insert_ne; [done |]. intros ->.
      by rewrite (proj1 (latest_active_None _ _ _) Hnone k r Hr) in Ha.
  - pose proof (reseat_kept id s None (fun r => r) (table_audits (seating w)) w t Ht) as Hkept.
    rewrite (map_fmap_id (db_holds w)) in Hkept. apply Hkept. by left.
Qed.

(** A new table of an event. *)
Lemma calm_new_table now t w :
  db_event_tables w !! et_id t = None ->
  calm now w (set_event_tables (<[et_id t := t]> (event_tables (seating w))) w).
Proof.
  intros Ht. split; intros Hok; [| done |].
  - destruct Hok as [Hk Hh Hu He Hs]. split; try done.
    + by apply keyed_insert.
    + intros j k r Hr Ha. destruct (Hs j k r Hr Ha) as (t0 & Ht0 & Hrest). exists t0.
      unfold db_event_tables in *. cbn. rewrite lookup_insert_ne; [done |]. intros <-. congruence.
  - split; cbn; [apply (sk_holds w w); reflexivity | | done].
    intros k t0 Ht0. destruct (sk_tables w w ltac:(reflexivity) k t0 Ht0) as (s & h & Hw).
    exists s, h. unfold db_event_tables in *. cbn. rewrite lookup_insert_ne; [done |]. congruence.
Qed.

Lemma calm_reconciled id now w t :
  db_event_tables w !! id = Some t ->
  calm now w (reseat (<[id := settle_row now (db_holds w) t]> (db_event_tables w)) (db_holds w)
                (table_audits (seating w)) w).
Proof.
  intros Ht. split; intros Hok; [by apply reconciled_keeps.. |].
  pose proof (reseat_kept id (next_state (et_status t) (et_holdExpiresAt t) (latest_active (et_id t) now (db_holds w))).1
    (next_state (et_status t) (et_holdExpiresAt t) (latest_active (et_id t) now (db_holds w))).2
    (fun r => r) (table_audits (seating w)) w t Ht) as Hkept.
  rewrite (map_fmap_id (db_holds w)) in Hkept. apply Hkept. by left.
Qed.

Section Calls.
Context `{Crypto} (cfg : jsval).

Lemma createHold_wp id input now w :
  seating_ok now w ->
  wp (createHold cfg id input now)
     (fun resp w' => exists v, resp = toReservationResponse v /\ shown v w' /\
        (new_hold_made cfg id input now v w w' \/ hold_replayed input now v w w'))
     (fun _ w' => (trim (chi_idempotencyKey input) = "" \/ ~ acceptable id input now w) /\
        (w' = w \/ exists c, w' = set_table_audits (table_audits (seating w) ++ [rejection_row c]) w)) w.
Proof.
  intros Hok. unfold createHold. wp_stmt. wp_stmt.
  { apply bool_decide_eq_true in H0. by split; left. }
  wp_stmt. wp_stmt. wp_stmt. eapply wp_mono; [by apply hold_tx_wp | cbn beta |].
  - intros v w' Hv. wp_stmt. by exists v.
  - cbn beta. intros e w' Hacc.
    destruct e; try (apply wp_throw; split; [by right | by left]).
    unfold logReservationRejected, table_log. wp_go. split; [by right |]. right. by eexists.
Qed.

(** The configured duration, whatever its value, is between one and thirty minutes. *)
Lemma hold_duration_bounds :
  MIN_TABLE_HOLD_DURATION_SECONDS <= resolveHoldDurationSeconds cfg <= MAX_TABLE_HOLD_DURATION_SECONDS.
Proof.
  unfold resolveHoldDurationSeconds, DEFAULT_TABLE_HOLD_DURATION_SECONDS,
    MIN_TABLE_HOLD_DURATION_SECONDS, MAX_TABLE_HOLD_DURATION_SECONDS.
  repeat case_match; lia.
Qed.

Lemma no_same_key input (holds : gmap string table_reservation) r :
  find_row (hold_key input) holds = None -> tr_actorUserId r = chi_actorUserId input ->
  tr_idempotencyUseCase r = TABLE_HOLD_IDEMPOTENCY_USE_CASE ->
  tr_idempotencyKeyHash r = hashIdempotencyKey (trim (chi_idempotencyKey input)) ->
  forall k x, holds !! k = Some x -> ~ same_key x r.
Proof.
  intros Hn Ha Hu Hh k x Hx (H1 & H2 & H3).
  pose proof (proj1 (find_row_None _ _) Hn k x Hx) as Hf. unfold hold_key in Hf.
  rewrite !bool_decide_true in Hf by congruence. done.
Qed.

(** A new hold keeps the invariant and is a new lease of a free table. *)
Lemma new_hold_keeps id input now v w w' :
  seating_ok now w -> new_hold_made cfg id input now v w w' ->
  seating_ok now w' /\ lease_of now w (chi_eventTableId input) = None /\
  tr_eventTableId (trv_reservation v) = chi_eventTableId input /\
  forall j, lease_of now w' j =
    if decide (j = chi_eventTableId input)
    then Some (chi_actorUserId input, now + resolveHoldDurationSeconds cfg * 1000)
    else lease_of now w j.
Proof.
  intros Hok (d & t1 & w1 & audits & Hoff & Hfind & Hset & Hnone & Hid & Ht1 & Hv & ->).
  destruct (settled_keeps _ _ _ _ Hok Hset) as [Hok1 Hl1].
  destruct (settled_facts _ _ _ _ Hset) as (Hh & _).
  destruct (offered_table input now d w (so_tables _ _ Hok) Hoff) as [Htab Hti].
  rewrite Htab in Hh. rewrite Hv.
  pose proof hold_duration_bounds as Hd. unfold MIN_TABLE_HOLD_DURATION_SECONDS in Hd.
  destruct (taken_keeps now (new_hold cfg id input now (etr_table d)) t1
    (table_audits (seating w1) ++ audits) w1 Hok1) as [Hok2 Hl2]; cbn [new_hold tr_id tr_eventTableId
      tr_status tr_holdExpiresAt] in *; rewrite ?Hti; try done; try lia.
  { rewrite Hh. apply (no_same_key input); [by apply find_row_expire | done..]. }
  split; [done |]. split; [| split; [done |]].
  - rewrite <- Hl1. unfold lease_of. by rewrite Hnone.
  - intros j. rewrite Hl2. rewrite Hti. case_decide; [done | apply Hl1].
Qed.

Lemma getOwnedReservation_wp reservationId actor now w :
  seating_ok now w ->
  wp (getOwnedReservation reservationId actor now)
     (fun resp w' => trr_id resp = reservationId /\
        (exists r v, db_holds w !! reservationId = Some r /\ tr_actorUserId r = actor /\
           resp = toReservationResponse v /\
           trv_reservation v = expire_row (tr_eventTableId r) now r) /\ calm now w w')
     (fun _ w' => w' = w) w.
Proof.
  intros Hok. unfold getOwnedReservation, findOwnedReservation.
  wp_stmt. wp_stmt. wp_stmt. wp_stmt. wp_stmt. wp_stmt; [done |].
  apply bind_Some in H0 as (r & Hr & H0). case_bool_decide as Hact; [| done].
  unfold reservation_view in H0. apply bind_Some in H0 as (t & Ht & H0).
  apply bind_Some in H0 as (vt & Hvt & H0). injection H0 as <-. cbn [trv_reservation].
  pose proof (so_holds _ _ Hok _ _ Hr) as Hrid.
  assert (Hpost : forall w1, db_holds w1 !! reservationId = Some (expire_row (tr_eventTableId r) now r) ->
    calm now w w1 ->
    wp (S:=world) (E:=error) (let* refreshed := reads (fun w => r ← db_holds w !! reservationId;
          if bool_decide (tr_actorUserId r = actor) then reservation_view w r else None) in
        or_throw refreshed (NotFoundException "table reservation not found"))
      (fun v w' => wp (S:=world) (E:=error) (ret (toReservationResponse v)) (fun resp w' => trr_id resp = reservationId /\
        (exists r v, db_holds w !! reservationId = Some r /\ tr_actorUserId r = actor /\
           resp = toReservationResponse v /\
           trv_reservation v = expire_row (tr_eventTableId r) now r) /\ calm now w w') (fun _ w' => w' = w) w')
      (fun _ _ => w = w) w1).
  { intros w1 Hr1 Hok1. wp_stmt. wp_stmt. rewrite Hr1. cbn [mbind option_bind].
    wp_stmt; [done |]. case_bool_decide; [| done]. unfold reservation_view in H0.
    apply bind_Some in H0 as (t1 & _ & H0). apply bind_Some in H0 as (vt1 & _ & H0). injection H0 as <-.
    wp_stmt. cbn [toReservationResponse trr_id trv_reservation]. rewrite expire_row_id, Hrid.
    split; [done |]. split; [| done]. by exists r; eexists. }
  wp_stmt. destruct (bool_decide (tr_status r = TR_HELD) && (tr_holdExpiresAt r <=? now)) eqn:Hst.
  - eapply wp_mono; [apply expireStaleHold_wp; apply Hok | cbn beta | done].
    intros _ w1 Hset. apply Hpost; [| by eapply calm_settled].
    destruct (settled_facts _ _ _ _ Hset) as (Hh & _). by rewrite Hh, Ht, lookup_fmap, Hr.
  - assert (Hsame : expire_row (tr_eventTableId r) now r = r).
    { unfold expire_row, is_stale. rewrite bool_decide_true by done. cbn. by rewrite Hst. }
    wp_stmt. eapply wp_mono; [apply (reconcile_table_wp _ now None _ t); [done | by apply Hok | done] | cbn beta | done].
    intros n w1 [-> _]. wp_stmt. apply Hpost; [by rewrite Hsame |]. by apply calm_reconciled.
Qed.

End Calls.

(* ------------------------------------------------------------------ *)
(** ** A table to hold                                                  *)

Module HoldExample.

#[local] Instance crypto : Crypto := plain_crypto.

Definition org : organizer :=
  {| org_id := "org"; org_ownerUserId := "olu"; org_status := ORG_APPROVED;
     org_profile := plain_profile "org" |}.

Definition ev : event :=
  {| ev_id := "ev"; ev_organizerId := "org"; ev_venueId := "venue"; ev_status := EV_PUBLISHED;
     ev_visibility := PUBLIC; ev_endsAt := 90000000; ev_paymentEnabled := true;
     ev_priceMinor := Some 5000; ev_priceCurrency := "GHS"; ev_listing := plain_listing "ev" |}.

Definition vip : venue_table :=
  {| vt_id := "vip"; vt_organizerId := "org"; vt_floorSectionId := None; vt_label := "VIP 1";
     vt_seatCount := 6; vt_status := VT_ACTIVE |}.

Definition tab : event_table :=
  {| et_id := "tab"; et_organizerId := "org"; et_eventId := "ev"; et_venueTableId := "vip";
     et_status := ET_AVAILABLE; et_priceMinor := 25000; et_currency := "GHS"; et_holdExpiresAt := None |}.

Definition w0 : world :=
  set_event_tables {["tab" := tab]} (set_venue_tables {["vip" := vip]}
    (set_events {["ev" := ev]} (set_organizers {["org" := org]} empty_world))).

Definition request (actor key : string) : CreateHoldInput :=
  {| chi_actorUserId := actor; chi_eventId := "ev"; chi_eventTableId := "tab"; chi_idempotencyKey := key |}.

(** The duration is not configured: ten minutes. *)
Definition hold (id actor key : string) (now : Z) : op TableReservationResponse :=
  createHold None id (request actor key) now.

Definition w1 : world := (hold "res" "ama" "k" 1000 w0).2.

Definition response (status : TableReservationStatus) (expiredAt : option Z) : TableReservationResponse :=
  {| trr_id := "res"; trr_eventId := "ev"; trr_eventTableId := "tab"; trr_venueTableId := "vip";
     trr_label := "VIP 1"; trr_floorSectionName := None; trr_seatCount := 6; trr_amountMinor := 25000;
     trr_currency := "GHS"; trr_status := status; trr_holdExpiresAt := 601000;
     trr_cancelledAt := None; trr_expiredAt := expiredAt |}.

Example held : hold "res" "ama" "k" 1000 w0 = (Ok (response TR_HELD None), w1).
Proof. run_ends. Qed.
Example replayed : (hold "res2" "ama" "k" 2000 w1).1 = Ok (response TR_HELD None).
Proof. vm_run. Qed.
Example replayed_late : (hold "res2" "ama" "k" 700000 w1).1 = Ok (response TR_EXPIRED (Some 700000)).
Proof. vm_run. Qed.
Example refused : (hold "res2" "kofi" "k" 2000 w1).1 = Err (ConflictException "table is already held").
Proof. vm_run. Qed.
Example later_free : (fun o => match o with Ok r => Some (trr_id r, trr_status r) | Err _ => None end)
  (hold "res2" "kofi" "k" 601000 w1).1 = Some ("res2", TR_HELD).
Proof. vm_run. Qed.

Lemma ok_w0 now : seating_ok now w0.
Proof.
  assert (Hnone : forall k r, db_holds w0 !! k = Some r -> False)
    by (intros k r; change (db_holds w0) with (∅ : gmap string table_reservation); by rewrite lookup_empty).
  split; [by apply keyed_check; vm_run | by apply keyed_check; vm_run | | |].
  - intros k1 k2 r1 r2 H1. by apply Hnone in H1.
  - intros j k1 k2 r1 r2 H1. by apply Hnone in H1.
  - intros j k r H1. by apply Hnone in H1.
Qed.

End HoldExample.

(* ------------------------------------------------------------------ *)
(** ** Properties                                                       *)

(** C28: A hold is granted exactly for a table on offer: a public, published event
    that has not ended, of an approved organizer, with the table in service.  If
    the key is new and nobody holds the table, one HELD reservation at the table's
    price is stored for the configured time and the table becomes HELD until
    then; if the key is known for the same request, that reservation is answered
    again, expired if its time is over.  The answer is what is stored.  Otherwise
    the call throws and writes nothing but at most one rejection audit. *)
Theorem createHold_outcome `{Crypto} cfg id input now w (Hok : seating_ok now w) :
  match createHold cfg id input now w with
  | (Ok resp, w') => exists v, resp = toReservationResponse v /\ shown v w' /\
      (new_hold_made cfg id input now v w w' \/ hold_replayed input now v w w')
  | (Err _, w') => (trim (chi_idempotencyKey input) = "" \/ ~ acceptable id input now w) /\
      (w' = w \/ exists c, w' = set_table_audits (table_audits (seating w) ++ [rejection_row c]) w)
  end.
Proof. exact (createHold_wp cfg id input now w Hok). Qed.

Lemma createHold_outcome_witness :
  exists v, HoldExample.response TR_HELD None = toReservationResponse v /\ shown v HoldExample.w1.
Proof.
  pose proof (createHold_outcome (H := plain_crypto) None "res" (HoldExample.request "ama" "k") 1000
    HoldExample.w0 (HoldExample.ok_w0 1000)) as Hout.
  change (createHold None "res" (HoldExample.request "ama" "k") 1000 HoldExample.w0)
    with (HoldExample.hold "res" "ama" "k" 1000 HoldExample.w0) in Hout.
  rewrite HoldExample.held in Hout. destruct Hout as (v & Hv & Hs & _). by exists v.
Defined.
