(* ===== verification/Tables.v ===== *)
(** Tables.v: the tables of a venue and of its events (src/src/modules/tables/
    application/tables.service.ts, infrastructure/tables.repository.ts), over the
    organizers and events of Organizers.v and Events.v and the holds of
    TableHolds.v.  The last part shows that the seating as a whole implements an
    abstract machine of leases. *)

From S2P Require Import Prelude Errors Values Hashing Store Context Organizers Events TableHolds.

Local Open Scope Z_scope.

Record CreateFloorSectionRequest : Type := {
  cfs_organizerId : string;
  cfs_name : string;
  cfs_description : option string
}.

Record CreateVenueTableRequest : Type := {
  cvt_organizerId : string;
  cvt_floorSectionId : option string;
  cvt_label : string;
  cvt_seatCount : jsnum;
  cvt_status : option VenueTableStatus
}.

Record CreateEventTableRequest : Type := {
  cet_organizerId : string;
  cet_eventId : string;
  cet_venueTableId : string;
  cet_priceMinor : jsnum;
  cet_currency : string;
  cet_status : option EventTableStatus
}.

(* ------------------------------------------------------------------ *)
(** ** The repository                                                   *)

Definition floor_section_of (w : world) (vt : venue_table) : option floor_section :=
  vt_floorSectionId vt ≫= fun f => floor_sections (seating w) !! f.

Definition findFloorSectionByOrganizer (organizerId floorSectionId : string)
  : op (option floor_section) :=
  reads (fun w =>
    f ← floor_sections (seating w) !! floorSectionId;
    if bool_decide (fs_organizerId f = organizerId) then Some f else None).

(** [findVenueTableById] *)
Definition findVenueTableById (venueTableId : string) : op (option (venue_table * option floor_section)) :=
  reads (fun w => vt ← venue_tables (seating w) !! venueTableId; Some (vt, floor_section_of w vt)).

Definition findVenueTableByOrganizer (organizerId venueTableId : string) : op (option venue_table) :=
  reads (fun w =>
    vt ← venue_tables (seating w) !! venueTableId;
    if bool_decide (vt_organizerId vt = organizerId) then Some vt else None).

Definition section_name_le (a b : floor_section) : Prop := String.leb (fs_name a) (fs_name b) = true.
#[export] Instance section_name_le_dec : RelDecision section_name_le.
Proof. intros a b. unfold section_name_le. apply _. Defined.

Definition label_le (a b : venue_table) : Prop := String.leb (vt_label a) (vt_label b) = true.
#[export] Instance label_le_dec : RelDecision label_le.
Proof. intros a b. unfold label_le. apply _. Defined.

Definition listFloorSectionsByOrganizer (organizerId : string) : op (list floor_section) :=
  let* rows := findMany floor_sections_t (fun f => bool_decide (fs_organizerId f = organizerId)) in
  ret (merge_sort section_name_le rows).

Definition listVenueTablesByOrganizer (organizerId : string)
  : op (list (venue_table * option floor_section)) :=
  reads (fun w =>
    (fun vt => (vt, floor_section_of w vt)) <$>
      merge_sort label_le
        (find_rows (fun vt => bool_decide (vt_organizerId vt = organizerId)) (venue_tables (seating w)))).

(** A table of an event with its relations and the section of its venue table. *)
Definition EventTableViewRecord : Type := EventTableRecord * option floor_section.

Definition event_table_view (w : world) (t : event_table) : option EventTableViewRecord :=
  r ← event_table_record w t; Some (r, floor_section_of w (etr_venueTable r)).

(** The order within an event: by status, or by price. *)
Definition status_rank (s : EventTableStatus) : Z :=
  match s with ET_AVAILABLE => 0 | ET_HELD => 1 | ET_UNAVAILABLE => 2 end.

Definition status_le (a b : event_table) : Prop := status_rank (et_status a) <= status_rank (et_status b).
#[export] Instance status_le_dec : RelDecision status_le.
Proof. intros a b. unfold status_le. apply _. Defined.

Definition price_le (a b : event_table) : Prop := et_priceMinor a <= et_priceMinor b.
#[export] Instance price_le_dec : RelDecision price_le.
Proof. intros a b. unfold price_le. apply _. Defined.

Definition of_event (eventId : string) (t : event_table) : bool := bool_decide (et_eventId t = eventId).

Definition listEventTablesByEvent (eventId : string) : op (list EventTableViewRecord) :=
  reads (fun w => omap (event_table_view w)
    (merge_sort status_le (find_rows (of_event eventId) (db_event_tables w)))).

Definition listEventTablesForAvailability (eventId : string) : op (list EventTableViewRecord) :=
  reads (fun w => omap (event_table_view w)
    (merge_sort price_le (find_rows (of_event eventId) (db_event_tables w)))).

Definition findOwnedEventTable (eventTableId ownerUserId : string) : op (option EventTableViewRecord) :=
  reads (fun w =>
    t ← db_event_tables w !! eventTableId;
    v ← event_table_view w t;
    if owned_by ownerUserId (etr_organizer v.1) then Some v else None).

(** The event with its organizer. *)
Definition findCustomerEventScope (eventId : string) : op (option (event * organizer)) :=
  reads (fun w =>
    ev ← events (catalog w) !! eventId;
    o ← organizers (catalog w) !! ev_organizerId ev;
    Some (ev, o)).

(** The ids of the tables of an event, in order. *)
Definition lockEventTablesForEvent (eventId : string) : op (list string) :=
  reads (fun w => merge_sort String.le
    (et_id <$> find_rows (of_event eventId) (db_event_tables w))).

(* ------------------------------------------------------------------ *)
(** ** TablesService                                                    *)

(** [assertSeatCount], [assertPriceMinor] *)
Definition assertSeatCount (seatCount : jsnum) : op Z :=
  match seatCount with
  | JInt z => if 0 <? z then ret z else throw (BadRequestException "seatCount must be greater than 0")
  | JFrac => throw (BadRequestException "seatCount must be greater than 0")
  end.

Definition assertPriceMinor (priceMinor : jsnum) : op Z :=
  match priceMinor with
  | JInt z =>
      if 0 <=? z then ret z
      else throw (BadRequestException "priceMinor must be greater than or equal to 0")
  | JFrac => throw (BadRequestException "priceMinor must be greater than or equal to 0")
  end.

(** [/^[A-Z]{3}$/] *)
Definition is_currency_code (s : string) : bool :=
  (String.length s =? 3)%nat &&
  string_forall (fun c => (65 <=? Ascii.nat_of_ascii c)%nat && (Ascii.nat_of_ascii c <=? 90)%nat) s.

Definition assertCurrency (currency : string) : op unit :=
  throw_if (negb (is_currency_code (trim currency)))
    (BadRequestException "currency must be a 3-letter uppercase code").

(** [rethrowUniqueConflict] in a catch that rethrows. *)
Definition rethrowUniqueConflict {A} (msg : string) (e : error) : op A :=
  if is_unique_violation e then throw (ConflictException msg) else throw e.

Record TableResponse : Type := {
  tbr_id : string;
  tbr_organizerId : string;
  tbr_floorSectionId : option string;
  tbr_floorSectionName : option string;
  tbr_label : string;
  tbr_seatCount : Z;
  tbr_status : VenueTableStatus
}.

Definition toTableResponse (v : venue_table * option floor_section) : TableResponse :=
  {| tbr_id := vt_id v.1; tbr_organizerId := vt_organizerId v.1;
     tbr_floorSectionId := vt_floorSectionId v.1; tbr_floorSectionName := fs_name <$> v.2;
     tbr_label := vt_label v.1; tbr_seatCount := vt_seatCount v.1; tbr_status := vt_status v.1 |}.

(** The status shown: a table out of service is unavailable. *)
Definition shown_status (vt : venue_table) (status : EventTableStatus) : EventTableStatus :=
  if bool_decide (vt_status vt = VT_ACTIVE) then status else ET_UNAVAILABLE.

Record EventTableResponse : Type := {
  etv_id : string;
  etv_organizerId : string;
  etv_eventId : string;
  etv_venueTableId : string;
  etv_label : string;
  etv_floorSectionName : option string;
  etv_seatCount : Z;
  etv_priceMinor : Z;
  etv_currency : string;
  etv_status : EventTableStatus;
  etv_holdExpiresAt : option Z
}.

Definition toEventTableResponse (v : EventTableViewRecord) : EventTableResponse :=
  let t := etr_table v.1 in
  let vt := etr_venueTable v.1 in
  {| etv_id := et_id t; etv_organizerId := et_organizerId t; etv_eventId := et_eventId t;
     etv_venueTableId := et_venueTableId t; etv_label := vt_label vt;
     etv_floorSectionName := fs_name <$> v.2; etv_seatCount := vt_seatCount vt;
     etv_priceMinor := et_priceMinor t; etv_currency := et_currency t;
     etv_status := shown_status vt (et_status t); etv_holdExpiresAt := et_holdExpiresAt t |}.

(** [createFloorSection] *)
Definition createFloorSection (id actorUserId : string) (dto : CreateFloorSectionRequest)
  : op floor_section :=
  do* org_getOwned (cfs_organizerId dto) actorUserId in
  let f := {| fs_id := id; fs_organizerId := cfs_organizerId dto; fs_name := trim (cfs_name dto);
              fs_description := trim <$> cfs_description dto |} in
  catch (do* create floor_sections_t f in ret f)
    (rethrowUniqueConflict "floor section already exists for organizer").

(** [listFloorSections] *)
Definition listFloorSections (organizerId actorUserId : string) : op (list floor_section) :=
  do* org_getOwned organizerId actorUserId in
  listFloorSectionsByOrganizer organizerId.

Definition new_venue_table (id : string) (seatCount : Z) (dto : CreateVenueTableRequest) : venue_table :=
  {| vt_id := id; vt_organizerId := cvt_organizerId dto; vt_floorSectionId := cvt_floorSectionId dto;
     vt_label := trim (cvt_label dto); vt_seatCount := seatCount;
     vt_status := default VT_ACTIVE (cvt_status dto) |}.

(** [createVenueTable] *)
Definition createVenueTable (id actorUserId : string) (dto : CreateVenueTableRequest)
  : op TableResponse :=
  do* org_getOwned (cvt_organizerId dto) actorUserId in
  let* seatCount := assertSeatCount (cvt_seatCount dto) in
  do* (match truthy (cvt_floorSectionId dto) with
       | Some f =>
           let* section := findFloorSectionByOrganizer (cvt_organizerId dto) f in
           do* or_throw section (NotFoundException "floor section not found") in ret tt
       | None => ret tt
       end) in
  let vt := new_venue_table id seatCount dto in
  catch
    (do* transaction
       (do* create venue_tables_t vt in
        logVenueTableCreated actorUserId (cvt_organizerId dto) (vt_id vt) (cvt_floorSectionId dto)
          (vt_label vt) (vt_seatCount vt) (vt_status vt)) in
     let* created := findVenueTableById (vt_id vt) in
     let* created := or_throw created (NotFoundException "venue table not found") in
     ret (toTableResponse created))
    (rethrowUniqueConflict "venue table label already exists for organizer").

(** [listVenueTables] *)
Definition listVenueTables (organizerId actorUserId : string) : op (list TableResponse) :=
  do* org_getOwned organizerId actorUserId in
  let* tables := listVenueTablesByOrganizer organizerId in
  ret (toTableResponse <$> tables).

(** [getVenueTable] *)
Definition getVenueTable (venueTableId actorUserId : string) : op TableResponse :=
  let* v := findVenueTableById venueTableId in
  let* v := or_throw v (NotFoundException "venue table not found") in
  do* org_getOwned (vt_organizerId v.1) actorUserId in
  ret (toTableResponse v).

(** The status a new table of an event gets. *)
Definition initial_status (vt : venue_table) (status : option EventTableStatus) : EventTableStatus :=
  if bool_decide (vt_status vt = VT_ACTIVE) then default ET_AVAILABLE status else ET_UNAVAILABLE.

Definition new_event_table (id : string) (priceMinor : Z) (vt : venue_table)
    (dto : CreateEventTableRequest) : event_table :=
  {| et_id := id; et_organizerId := cet_organizerId dto; et_eventId := cet_eventId dto;
     et_venueTableId := cet_venueTableId dto; et_status := initial_status vt (cet_status dto);
     et_priceMinor := priceMinor; et_currency := trim (cet_currency dto); et_holdExpiresAt := None |}.

(** [createEventTable] *)
Definition createEventTable (id actorUserId : string) (dto : CreateEventTableRequest)
  : op EventTableResponse :=
  do* org_getOwned (cet_organizerId dto) actorUserId in
  let* priceMinor := assertPriceMinor (cet_priceMinor dto) in
  do* assertCurrency (cet_currency dto) in
  do* throw_if (bool_decide (cet_status dto = Some ET_HELD))
        (BadRequestException "event table cannot be created in HELD status") in
  let* ev := event_getOwned (cet_eventId dto) actorUserId in
  do* throw_if (negb (bool_decide (ev_organizerId ev.1 = cet_organizerId dto)))
        (ConflictException "event does not belong to organizer") in
  let* vt := findVenueTableByOrganizer (cet_organizerId dto) (cet_venueTableId dto) in
  let* vt := or_throw vt (ConflictException "venue table does not belong to organizer") in
  let t := new_event_table id priceMinor vt dto in
  catch
    (do* transaction
       (do* create event_tables_t t in
        logEventTableCreated actorUserId (cet_organizerId dto) (cet_eventId dto) (et_id t)
          (cet_venueTableId dto) (et_priceMinor t) (et_currency t) (et_status t)) in
     let* created := findOwnedEventTable (et_id t) actorUserId in
     let* created := or_throw created (NotFoundException "event table not found") in
     ret (toEventTableResponse created))
    (rethrowUniqueConflict "event table already exists for this event and venue table").

(** [listEventTablesForOwnedEvent] *)
Definition listEventTablesForOwnedEvent (eventId actorUserId : string) : op (list EventTableResponse) :=
  do* event_getOwned eventId actorUserId in
  let* tables := listEventTablesByEvent eventId in
  ret (toEventTableResponse <$> tables).

(** [updateEventTableStatus] *)
Definition updateEventTableStatus (eventTableId : string) (status : EventTableStatus)
    (actorUserId : string) (now : Z) : op EventTableResponse :=
  do* throw_if (bool_decide (status = ET_HELD))
        (BadRequestException "HELD status is derived from active table holds") in
  let* existing := findOwnedEventTable eventTableId actorUserId in
  let* existing := or_throw existing (NotFoundException "event table not found") in
  let t := etr_table existing.1 in
  do* throw_if (bool_decide (status = ET_AVAILABLE) &&
                negb (bool_decide (vt_status (etr_venueTable existing.1) = VT_ACTIVE)))
        (BadRequestException "inactive venue table cannot be made available") in
  let* updated := transaction
    (let* locked := findUnique event_tables_t eventTableId in
     do* or_throw locked (NotFoundException "event table not found") in
     do* expireStaleHold eventTableId now in
     let* activeCount := countActiveHeld eventTableId now in
     do* throw_if (0 <? activeCount)
           (ConflictException "active table hold prevents status change") in
     let* changed := updateEventTableState eventTableId status None in
     do* logEventTableUpdated actorUserId (et_organizerId t) (et_eventId t) eventTableId
           (et_venueTableId t) (et_status t) (et_status changed) in
     ret changed) in
  let* refreshed := findOwnedEventTable (et_id updated) actorUserId in
  let* refreshed := or_throw refreshed (NotFoundException "event table not found") in
  ret (toEventTableResponse refreshed).

Record TableAvailability : Type := {
  tav_eventTableId : string;
  tav_venueTableId : string;
  tav_label : string;
  tav_floorSectionName : option string;
  tav_seatCount : Z;
  tav_priceMinor : Z;
  tav_currency : string;
  tav_availabilityStatus : EventTableStatus
}.

Definition availability_row (v : EventTableViewRecord) : TableAvailability :=
  let t := etr_table v.1 in
  let vt := etr_venueTable v.1 in
  {| tav_eventTableId := et_id t; tav_venueTableId := et_venueTableId t; tav_label := vt_label vt;
     tav_floorSectionName := fs_name <$> v.2; tav_seatCount := vt_seatCount vt;
     tav_priceMinor := et_priceMinor t; tav_currency := et_currency t;
     tav_availabilityStatus := shown_status vt (et_status t) |}.

(** [getAvailability] *)
Definition getAvailability (eventId : string) (now : Z) : op (list TableAvailability) :=
  transaction
    (let* scope := findCustomerEventScope eventId in
     let* scope := or_throw scope (NotFoundException "event not found") in
     do* throw_if (negb (bool_decide (ev_status scope.1 = EV_PUBLISHED)))
           (ForbiddenException "event is not available") in
     do* throw_if (negb (bool_decide (ev_visibility scope.1 = PUBLIC)))
           (ForbiddenException "event is not customer facing") in
     do* throw_if (ev_endsAt scope.1 <=? now) (ForbiddenException "event has ended") in
     do* throw_if (negb (bool_decide (org_status scope.2 = ORG_APPROVED)))
           (ForbiddenException "organizer is not approved") in
     let* locked := lockEventTablesForEvent eventId in
     do* for_each locked (fun id => expireStaleHold id now) in
     let* records := listEventTablesForAvailability eventId in
     ret (availability_row <$> records)).

(* ------------------------------------------------------------------ *)
(** ** The calls                                                        *)

Lemma org_getOwned_same k actor w :
  wp (org_getOwned k actor) (fun _ w' => w' = w) (fun _ w' => w' = w) w.
Proof. unfold org_getOwned. by wp_go. Qed.

Lemma assertSeatCount_same n w :
  wp (assertSeatCount n) (fun z w' => w' = w /\ n = JInt z /\ 0 < z) (fun _ w' => w' = w) w.
Proof. unfold assertSeatCount. wp_go; try done. apply Z.ltb_lt in Heqb. done. Qed.

Lemma assertPriceMinor_same n w :
  wp (assertPriceMinor n) (fun z w' => w' = w /\ n = JInt z /\ 0 <= z) (fun _ w' => w' = w) w.
Proof. unfold assertPriceMinor. wp_go; try done. apply Z.leb_le in Heqb. done. Qed.

Lemma createFloorSection_wp now id actor dto w :
  wp (createFloorSection id actor dto) (fun _ w' => calm now w w') (fun _ w' => calm now w w') w.
Proof.
  unfold createFloorSection, rethrowUniqueConflict. wp_stmt.
  eapply wp_mono; [apply org_getOwned_same | cbn beta |]; [| by intros _ ? ->].
  intros _ ? ->. wp_go; try reflexivity. by apply calm_elsewhere.
Qed.

Lemma createVenueTable_wp now id actor dto w :
  wp (createVenueTable id actor dto) (fun _ w' => calm now w w') (fun _ w' => calm now w w') w.
Proof.
  unfold createVenueTable, rethrowUniqueConflict. wp_stmt.
  eapply wp_mono; [apply org_getOwned_same | cbn beta |]; [| by intros _ ? ->].
  intros _ ? ->. wp_stmt. eapply wp_mono; [apply assertSeatCount_same | cbn beta |]; [| by intros _ ? ->].
  intros z ? (-> & _ & _).
  assert (Hnew : forall vt audits, venue_tables (seating w) !! vt_id vt = None ->
    calm now w (set_table_audits audits
      (set_venue_tables (<[vt_id vt := vt]> (venue_tables (seating w))) w))).
  { intros vt audits Hvt. apply calm_elsewhere; [done | done |]. intros k x Hx. cbn.
    rewrite lookup_insert_ne; [done | congruence]. }
  wp_go; try reflexivity; by apply Hnew.
Qed.

Lemma event_table_view_Some w t v :
  event_table_view w t = Some v ->
  etr_table v.1 = t /\ organizers (catalog w) !! et_organizerId t = Some (etr_organizer v.1) /\
  events (catalog w) !! et_eventId t = Some (etr_event v.1) /\
  venue_tables (seating w) !! et_venueTableId t = Some (etr_venueTable v.1) /\
  v.2 = floor_section_of w (etr_venueTable v.1).
Proof.
  unfold event_table_view, event_table_record.
  intros (r & (o & Ho & (ev & Hev & (vt & Hvt & H)%bind_Some)%bind_Some)%bind_Some & H2)%bind_Some.
  injection H as <-. by injection H2 as <-.
Qed.

Lemma createEventTable_wp now id actor dto w :
  wp (createEventTable id actor dto) (fun _ w' => calm now w w') (fun _ w' => calm now w w') w.
Proof.
  unfold createEventTable, rethrowUniqueConflict, findOwnedEventTable. wp_stmt.
  eapply wp_mono; [apply org_getOwned_same | cbn beta |]; [| by intros _ ? ->].
  intros _ ? ->. wp_stmt. eapply wp_mono; [apply assertPriceMinor_same | cbn beta |]; [| by intros _ ? ->].
  intros z ? (-> & _ & _). wp_stmt. unfold assertCurrency. wp_stmt; [reflexivity |].
  wp_stmt. wp_stmt; [reflexivity |]. wp_stmt.
  eapply wp_mono; [apply event_getOwned_wp | cbn beta |]; [| by intros _ ? ->].
  intros ev ? (-> & _).
  assert (Hnew : forall t audits, db_event_tables w !! et_id t = None ->
    calm now w (set_table_audits audits
      (set_event_tables (<[et_id t := t]> (event_tables (seating w))) w))).
  { intros t audits Ht. etransitivity; [by apply calm_new_table |]. by apply calm_elsewhere. }
  wp_go; try reflexivity; by apply Hnew.
Qed.

(** A change of status goes through for tables nobody holds. *)
Lemma updateEventTableStatus_wp id status actor now w :
  seating_ok now w ->
  wp (updateEventTableStatus id status actor now)
     (fun _ w' => calm now w w' /\ lease_of now w id = None) (fun _ w' => calm now w w') w.
Proof.
  intros Hok. unfold updateEventTableStatus, findOwnedEventTable, countActiveHeld.
  wp_stmt. wp_stmt; [reflexivity |]. wp_stmt. wp_stmt. wp_stmt. wp_stmt; [reflexivity |].
  wp_stmt. wp_stmt; [reflexivity |]. do 5 wp_stmt. wp_stmt; [reflexivity |]. wp_stmt.
  eapply wp_mono; [apply expireStaleHold_wp; apply Hok | cbn beta | done].
  intros _ w1 Hset. pose proof (calm_settled _ _ _ _ Hset) as Hcalm.
  do 3 wp_stmt. wp_stmt; [reflexivity |].
  lazymatch goal with Hc : (0 <? _) = false |- _ => apply count_active_zero in Hc as Hfree end.
  assert (Hnone : lease_of now w id = None).
  { rewrite <- (cm_lease _ _ _ Hcalm Hok). unfold lease_of. by rewrite Hfree. }
  unfold updateEventTableState. wp_stmt. wp_stmt; [| reflexivity].
  assert (Hdone : calm now w (set_event_tables (<[id := with_et_state status None r]> (event_tables (seating w1))) w1)).
  { etransitivity; [exact Hcalm |]. by apply calm_status. }
  assert (Hlog : forall audits, calm now w (set_table_audits audits
    (set_event_tables (<[id := with_et_state status None r]> (event_tables (seating w1))) w1))).
  { intros audits. etransitivity; [exact Hdone |]. by apply calm_elsewhere. }
  wp_go; [by apply Hlog | split; [by apply Hlog | done]].
Qed.

(* ------------------------------------------------------------------ *)
(** ** What is on offer                                                 *)

Lemma settle_row_ext now h1 h2 t :
  latest_active (et_id t) now h1 = latest_active (et_id t) now h2 ->
  settle_row now h1 t = settle_row now h2 t.
Proof. unfold settle_row. by intros ->. Qed.

Lemma settle_row_twice now h t : settle_row now h (settle_row now h t) = settle_row now h t.
Proof.
  unfold settle_row. cbn [et_id with_et_state].
  destruct (latest_active (et_id t) now h); cbn [next_state fst snd et_status et_holdExpiresAt with_et_state]; [done |].
  destruct (et_status t) eqn:Hs; reflexivity.
Qed.

(** Bringing several tables up to date settles exactly those. *)
(** What a round of expiries over the tables [ids] makes of the holds. *)
Definition expired_among (ids : list string) (now : Z) (w w' : world) : Prop :=
  forall k r, is_Some (db_event_tables w !! tr_eventTableId r) -> db_holds w !! k = Some r ->
    db_holds w' !! k =
      Some (if decide (tr_eventTableId r ∈ ids) then expire_row (tr_eventTableId r) now r else r).

Lemma expired_among_cons id ids now w w1 w2 :
  settled id now w w1 -> expired_among ids now w1 w2 -> expired_among (id :: ids) now w w2.
Proof.
  intros Hset Hrest k r [t Ht] Hr. destruct (settled_facts _ _ _ _ Hset) as (Hh & _ & _ & _ & Hother & Hself).
  set (r1 := if decide (tr_eventTableId r = id) then expire_row id now r else r).
  assert (Hid : tr_eventTableId r1 = tr_eventTableId r).
  { unfold r1, expire_row. case_decide; [by destruct (is_stale _ _ _) | done]. }
  assert (Hr1 : db_holds w1 !! k = Some r1).
  { rewrite Hh. unfold r1. case_decide as Hk.
    - rewrite <- Hk, Ht, lookup_fmap, Hr. done.
    - case_match; [| done]. rewrite lookup_fmap, Hr. cbn. unfold expire_row, is_stale.
      by rewrite bool_decide_false. }
  assert (Ht1 : is_Some (db_event_tables w1 !! tr_eventTableId r1)).
  { rewrite Hid. destruct (decide (tr_eventTableId r = id)) as [Heq | Hne].
    - rewrite Heq in Ht |- *. destruct (Hself t Ht) as (t' & -> & _). by eexists.
    - rewrite Hother by done. by exists t. }
  rewrite (Hrest k r1 Ht1 Hr1), Hid. f_equal.
  rewrite (decide_ext (tr_eventTableId r ∈ id :: ids) (tr_eventTableId r = id \/ tr_eventTableId r ∈ ids)) by apply elem_of_cons.
  unfold r1. repeat case_decide; try tauto; subst; [| done].
  unfold expire_row. destruct (is_stale (tr_eventTableId r) now r) eqn:Hs; [| by rewrite Hs].
  assert (Hdone : is_stale (tr_eventTableId r) now (with_tr_expired now r) = false); [| by rewrite Hdone].
  unfold is_stale. cbn. by rewrite andb_false_r.
Qed.

Lemma expire_all_wp now ids : forall w,
  seating_ok now w ->
  wp (for_each ids (fun id => expireStaleHold id now))
     (fun _ w' => calm now w w' /\ catalog w' = catalog w /\
        venue_tables (seating w') = venue_tables (seating w) /\
        floor_sections (seating w') = floor_sections (seating w) /\
        (forall j, latest_active j now (db_holds w') = latest_active j now (db_holds w)) /\
        expired_among ids now w w' /\
        forall k, db_event_tables w' !! k =
          (if decide (k ∈ ids) then settle_row now (db_holds w) else fun t => t) <$> db_event_tables w !! k)
     (fun _ _ => False) w.
Proof.
  induction ids as [| id ids IH]; intros w Hok; cbn [for_each].
  { wp_stmt. split_and!; try done.
    - intros k r _ Hr. by rewrite decide_False by apply not_elem_of_nil.
    - intros k. rewrite decide_False by apply not_elem_of_nil. by destruct (db_event_tables w !! k). }
  wp_stmt. eapply wp_mono; [apply expireStaleHold_wp; apply Hok | cbn beta | done].
  intros _ w1 Hset. pose proof (calm_settled _ _ _ _ Hset) as Hcalm.
  destruct (settled_facts _ _ _ _ Hset) as (Hh & Hc & Hv & Hf & Hother & _).
  assert (Hlat : forall j, latest_active j now (db_holds w1) = latest_active j now (db_holds w)).
  { intros j. rewrite Hh. case_match; [| done]. apply latest_active_expire, Hok. }
  eapply wp_mono; [apply IH; by apply (cm_ok _ _ _ Hcalm) | cbn beta | done].
  intros _ w2 (Hcalm2 & Hc2 & Hv2 & Hf2 & Hlat2 & Hexp & Htabs).
  split; [by etransitivity |]. split_and!; try congruence; [by eapply expired_among_cons |].
  intros k. rewrite Htabs.
  assert (Hk1 : db_event_tables w1 !! k =
    (if decide (k = id) then settle_row now (db_holds w) else fun t => t) <$> db_event_tables w !! k).
  { case_decide as Hk; [| rewrite Hother by done; by destruct (db_event_tables w !! k)]. subst k.
    unfold settled in Hset. destruct (db_event_tables w !! id) as [t |] eqn:Ht.
    - destruct Hset as [audits ->]. cbn. rewrite lookup_insert_eq. cbn. f_equal.
      apply settle_row_ext, latest_active_expire, Hok.
    - subst w1. by rewrite Ht. }
  rewrite Hk1. destruct (db_event_tables w !! k) as [t |]; cbn; [| done]. f_equal.
  assert (Hsame : forall x, settle_row now (db_holds w1) x = settle_row now (db_holds w) x)
    by (intros x; by apply settle_row_ext).
  rewrite (decide_ext (k ∈ id :: ids) (k = id \/ k ∈ ids)) by apply elem_of_cons.
  repeat case_decide; try tauto; by rewrite ?Hsame, ?settle_row_twice.
Qed.

(** The status of a table now: its lease decides. *)
Definition status_now (now : Z) (w : world) (t : event_table) : EventTableStatus :=
  match lease_of now w (et_id t) with
  | Some _ => ET_HELD
  | None => if bool_decide (et_status t = ET_HELD) then ET_AVAILABLE else et_status t
  end.

(** What a customer should be told about a table. *)
Definition advert (now : Z) (w : world) (t : event_table) : option TableAvailability :=
  v ← event_table_view w t;
  let vt := etr_venueTable v.1 in
  Some {| tav_eventTableId := et_id t; tav_venueTableId := et_venueTableId t;
          tav_label := vt_label vt; tav_floorSectionName := fs_name <$> v.2;
          tav_seatCount := vt_seatCount vt; tav_priceMinor := et_priceMinor t;
          tav_currency := et_currency t;
          tav_availabilityStatus := shown_status vt (status_now now w t) |}.

(** What a query of an event's tables writes: each takes the status it has now, the holds
    of it that are over become EXPIRED, and no other table or hold changes. *)
Record refreshed (eventId : string) (now : Z) (w w' : world) : Prop := {
  rf_tables : forall k t, db_event_tables w !! k = Some t -> of_event eventId t = true ->
    exists t', db_event_tables w' !! k = Some t' /\ et_status t' = status_now now w t;
  rf_other_tables : forall k t, db_event_tables w !! k = Some t -> of_event eventId t = false ->
    db_event_tables w' !! k = Some t;
  rf_holds : forall k r t, db_holds w !! k = Some r -> db_event_tables w !! tr_eventTableId r = Some t ->
    db_holds w' !! k = Some
      (if of_event eventId t && bool_decide (tr_status r = TR_HELD) && (tr_holdExpiresAt r <=? now)
       then with_tr_expired now r else r)
}.

(** An event whose tables customers may see. *)
Definition on_show (eventId : string) (now : Z) (w : world) : bool :=
  match ev ← events (catalog w) !! eventId;
        o ← organizers (catalog w) !! ev_organizerId ev; Some (ev, o) with
  | Some (ev, o) =>
      bool_decide (ev_status ev = EV_PUBLISHED) && bool_decide (ev_visibility ev = PUBLIC) &&
      (now <? ev_endsAt ev) && bool_decide (org_status o = ORG_APPROVED)
  | None => false
  end.

Lemma settle_row_status now w t :
  et_status (settle_row now (db_holds w) t) = status_now now w t.
Proof.
  unfold settle_row, status_now, lease_of. cbn. destruct (latest_active (et_id t) now (db_holds w)); [done |].
  cbn. by case_bool_decide.
Qed.

(** The settled row shows what the old row's advert says. *)
Lemma advert_settled now w w' t :
  catalog w' = catalog w -> venue_tables (seating w') = venue_tables (seating w) ->
  floor_sections (seating w') = floor_sections (seating w) ->
  availability_row <$> event_table_view w' (settle_row now (db_holds w) t) = advert now w t.
Proof.
  intros Hc Hv Hf. unfold event_table_view, event_table_record, advert, floor_section_of.
  unfold event_table_view, event_table_record, floor_section_of. rewrite Hc, Hv.
  rewrite Hf. cbn [settle_row with_et_state et_organizerId et_eventId et_venueTableId].
  destruct (organizers (catalog w) !! _); [| done]. cbn.
  destruct (events (catalog w) !! _); [| done]. cbn.
  destruct (venue_tables (seating w) !! _); [| done]. cbn.
  unfold availability_row. cbn. by rewrite <- settle_row_status.
Qed.

Lemma fmap_omap {A B C} (f : A -> option B) (g : B -> C) (l : list A) :
  g <$> omap f l = omap (fun x => g <$> f x) l.
Proof. induction l as [| x l IH]; [done |]. cbn. destruct (f x); cbn; by rewrite IH. Qed.

(** The rows of a table all of whose matching rows are rewritten. *)
Lemma find_rows_fmap_found {R} (P : R -> bool) (f : R -> R) (t : gmap string R) :
  (forall r, P (f r) = P r) ->
  find_rows P ((fun r => if P r then f r else r) <$> t) ≡ₚ f <$> find_rows P t.
Proof.
  intros HP. unfold find_rows. rewrite map_to_list_fmap.
  induction (map_to_list t) as [| [k r] l IH]; [done |]. cbn.
  destruct (P r) eqn:HPr; cbn; rewrite ?HP, HPr; cbn; [by apply Permutation_skip | done].
Qed.

Lemma StronglySorted_omap {A B} (R : A -> A -> Prop) (R' : B -> B -> Prop) (f : A -> option B) l :
  (forall x y x' y', R x y -> f x = Some x' -> f y = Some y' -> R' x' y') ->
  StronglySorted R l -> StronglySorted R' (omap f l).
Proof.
  intros Hf. induction 1 as [| x l Hl IH Hx]; [constructor |]. cbn.
  destruct (f x) as [x' |] eqn:E; [| done]. constructor; [done |].
  apply Forall_forall. intros y' (y & Hy & Hfy)%list_elem_of_omap.
  eapply Hf; [by eapply Forall_forall in Hx | done..].
Qed.

Lemma omap_fmap_ext {A B C} (g : A -> B) (f : B -> option C) (h : A -> option C) (l : list A) :
  (forall x, f (g x) = h x) -> omap f (g <$> l) = omap h l.
Proof. intros Hg. induction l as [| x l IH]; [done |]. cbn. rewrite Hg. by destruct (h x); rewrite IH. Qed.

Definition cheaper (a b : TableAvailability) : Prop := tav_priceMinor a <= tav_priceMinor b.

#[local] Instance price_le_trans : Transitive price_le.
Proof. intros a b c. unfold price_le. lia. Qed.
#[local] Instance price_le_total : Total price_le.
Proof. intros a b. unfold price_le. lia. Qed.

(** The rows of the answer, from the settled tables. *)
Lemma availability_rows eventId now w w' :
  keyed et_id (db_event_tables w) ->
  catalog w' = catalog w -> venue_tables (seating w') = venue_tables (seating w) ->
  floor_sections (seating w') = floor_sections (seating w) ->
  (forall k, db_event_tables w' !! k =
    (if decide (k ∈ et_id <$> find_rows (of_event eventId) (db_event_tables w))
     then settle_row now (db_holds w) else fun t => t) <$> db_event_tables w !! k) ->
  let rows := availability_row <$> omap (event_table_view w')
    (merge_sort price_le (find_rows (of_event eventId) (db_event_tables w'))) in
  rows ≡ₚ omap (advert now w) (find_rows (of_event eventId) (db_event_tables w)) /\
  StronglySorted cheaper rows.
Proof.
  intros Hk Hc Hv Hf Htabs. cbv zeta. rewrite fmap_omap. split.
  - rewrite (merge_sort_Permutation price_le).
    assert (Hmap : db_event_tables w' =
      (fun t => if of_event eventId t then settle_row now (db_holds w) t else t) <$> db_event_tables w).
    { apply map_eq. intros k. rewrite Htabs, lookup_fmap.
      destruct (db_event_tables w !! k) as [t |] eqn:Ht; [| done]. cbn. f_equal.
      assert (Hin : k ∈ et_id <$> find_rows (of_event eventId) (db_event_tables w) <-> of_event eventId t = true).
      { rewrite list_elem_of_fmap. split.
        - intros (t' & -> & (k' & Ht' & Ho)%find_rows_spec). rewrite (Hk _ _ Ht') in Ht. congruence.
        - intros Ho. exists t. split; [symmetry; by apply Hk |]. apply find_rows_spec. eauto. }
      destruct (of_event eventId t); [by rewrite decide_True by tauto |].
      rewrite decide_False; [done |]. intros Hin'. by apply Hin in Hin'. }
    rewrite Hmap, find_rows_fmap_found by done.
    rewrite (omap_fmap_ext _ _ (advert now w)); [done |]. intros t. by apply advert_settled.
  - eapply (StronglySorted_omap price_le); [| apply StronglySorted_merge_sort; apply _].
    intros x y x' y' Hle Hx Hy. apply fmap_Some in Hx as (vx & Hx & ->), Hy as (vy & Hy & ->).
    apply event_table_view_Some in Hx as [<- _], Hy as [<- _]. exact Hle.
Qed.

Lemma event_refreshed eventId now w w' :
  keyed et_id (db_event_tables w) ->
  (forall k, db_event_tables w' !! k =
    (if decide (k ∈ et_id <$> find_rows (of_event eventId) (db_event_tables w))
     then settle_row now (db_holds w) else fun t => t) <$> db_event_tables w !! k) ->
  expired_among (et_id <$> find_rows (of_event eventId) (db_event_tables w)) now w w' ->
  refreshed eventId now w w'.
Proof.
  intros Hk Htabs Hexp.
  assert (Hin : forall k t, db_event_tables w !! k = Some t ->
    k ∈ et_id <$> find_rows (of_event eventId) (db_event_tables w) <-> of_event eventId t = true).
  { intros k t Ht. rewrite list_elem_of_fmap. split.
    - intros (t' & -> & (k' & Ht' & Ho)%find_rows_spec). rewrite (Hk _ _ Ht') in Ht. congruence.
    - intros Ho. exists t. split; [symmetry; by apply Hk |]. apply find_rows_spec. eauto. }
  split.
  - intros k t Ht Ho. exists (settle_row now (db_holds w) t). split; [| by apply settle_row_status].
    rewrite Htabs, Ht, decide_True; [done | by apply (Hin k t)].
  - intros k t Ht Ho. rewrite Htabs, Ht, decide_False; [done |]. intros Hi. apply (Hin k t Ht) in Hi. congruence.
  - intros k r t Hr Ht. rewrite (Hexp k r) by (done || by eexists). f_equal. destruct (of_event eventId t) eqn:Ho.
    + rewrite decide_True by (by apply (Hin _ t)). unfold expire_row, is_stale. by rewrite bool_decide_true.
    + rewrite decide_False; [done |]. intros Hi. apply (Hin _ t Ht) in Hi. congruence.
Qed.

Lemma getAvailability_wp eventId now w :
  seating_ok now w ->
  wp (getAvailability eventId now)
     (fun rows w' => on_show eventId now w = true /\
        rows ≡ₚ omap (advert now w) (find_rows (of_event eventId) (db_event_tables w)) /\
        StronglySorted cheaper rows /\ calm now w w' /\ refreshed eventId now w w')
     (fun _ w' => w' = w /\ on_show eventId now w = false) w.
Proof.
  intros Hok. unfold getAvailability, findCustomerEventScope, on_show.
  wp_stmt. wp_stmt. wp_stmt. wp_stmt. wp_stmt; [by rewrite H |]. destruct a as [ev o]. rewrite H. cbn [fst snd].
  wp_stmt. wp_stmt; [apply negb_true_iff in H0; by rewrite H0 |].
  wp_stmt. wp_stmt; [apply negb_true_iff in H1; by rewrite H1, andb_false_r |].
  wp_stmt. wp_stmt.
  { rewrite (Z.ltb_antisym (ev_endsAt ev)), H2. by rewrite andb_false_r. }
  wp_stmt. wp_stmt; [apply negb_true_iff in H3; by rewrite H3, andb_false_r |].
  assert (Hshow : bool_decide (ev_status ev = EV_PUBLISHED) && bool_decide (ev_visibility ev = PUBLIC) &&
    (now <? ev_endsAt ev) && bool_decide (org_status o = ORG_APPROVED) = true).
  { apply negb_false_iff in H0, H1, H3. rewrite (Z.ltb_antisym (ev_endsAt ev)). by rewrite H0, H1, H2, H3. }
  unfold lockEventTablesForEvent, listEventTablesForAvailability. wp_stmt. wp_stmt. wp_stmt.
  eapply wp_mono; [by apply expire_all_wp | cbn beta | done].
  intros _ w' (Hcalm & Hc & Hv & Hf & _ & Hexp & Htabs). wp_go.
  assert (Htabs' : forall k, db_event_tables w' !! k =
    (if decide (k ∈ et_id <$> find_rows (of_event eventId) (db_event_tables w))
     then settle_row now (db_holds w) else fun t => t) <$> db_event_tables w !! k).
  { intros k. rewrite Htabs. f_equal. apply decide_ext. by rewrite merge_sort_Permutation. }
  destruct (availability_rows eventId now w w' (so_tables _ _ Hok) Hc Hv Hf Htabs') as [Hperm Hsort].
  do 4 (split; [done |]). apply event_refreshed; [apply Hok | done |].
  intros k r Ht Hr. rewrite (Hexp k r Ht Hr). do 2 f_equal.
  apply decide_ext. by rewrite merge_sort_Permutation.
Qed.

(* ------------------------------------------------------------------ *)
(** ** The lease machine                                                *)

(** Who has which table, and until when. *)
Definition leases : Type := string -> option (string * Z).

(** What a call may do at a time: nothing, or lease a free table to somebody for
    one to thirty minutes. *)
Inductive lease_act (now : Z) (l l' : leases) : Prop :=
| la_same : (forall j, l' j = l j) -> lease_act now l l'
| la_taken id actor until :
    l id = None -> now + 60000 <= until <= now + 1800000 ->
    (forall j, l' j = if decide (j = id) then Some (actor, until) else l j) ->
    lease_act now l l'.

(** The machine: a call, or the passing of time, which ends leases. *)
Inductive lease_machine : Z * leases -> Z * leases -> Prop :=
| lm_call now l l' : lease_act now l l' -> lease_machine (now, l) (now, l')
| lm_time now now' l l' : now <= now' ->
    (forall j, l' j = match l j with
                      | Some (actor, until) => if now' <? until then Some (actor, until) else None
                      | None => None
                      end) ->
    lease_machine (now, l) (now', l').

(** A lease cannot be lost before its end. *)
Lemma lease_machine_keeps s s' j actor until :
  lease_machine s s' -> s.2 j = Some (actor, until) -> s'.1 < until -> s'.2 j = Some (actor, until).
Proof.
  intros [now l l' Hact | now now' l l' Hle Hl]; cbn; intros Hj Hlt.
  - destruct Hact as [Hs | id a u Hn _ Ht]; [by rewrite Hs |]. rewrite Ht.
    rewrite decide_False; [done |]. intros ->. congruence.
  - rewrite Hl, Hj. apply Z.ltb_lt in Hlt. by rewrite Hlt.
Qed.

Lemma lease_machine_time s s' : lease_machine s s' -> s.1 <= s'.1.
Proof. destruct 1; cbn; lia. Qed.

Lemma leases_keep s s' j actor until :
  rtc lease_machine s s' -> s.2 j = Some (actor, until) -> s'.1 < until -> s'.2 j = Some (actor, until).
Proof.
  induction 1 as [s | s1 s2 s3 Hs Hrun IH]; [done |]. intros Hj Hlt.
  assert (Htime : s2.1 <= s3.1).
  { clear -Hrun. induction Hrun as [| s1 s2 s3 Hs _ IH]; [lia |]. apply lease_machine_time in Hs. lia. }
  apply IH; [| done]. eapply lease_machine_keeps; [exact Hs | done | lia].
Qed.

Lemma lease_of_later now now' w j :
  now <= now' -> seating_ok now w ->
  lease_of now' w j = match lease_of now w j with
                      | Some (actor, until) => if now' <? until then Some (actor, until) else None
                      | None => None
                      end.
Proof.
  intros Hle Hok. pose proof (so_exclusive _ _ Hok) as He.
  pose proof (so_exclusive _ _ (seating_ok_later _ _ _ Hle Hok)) as He'. unfold lease_of.
  destruct (latest_active j now (db_holds w)) as [r |] eqn:E; cbn.
  - apply latest_active_char in E as (k & Hk & Ha); [| done].
    destruct (Z.ltb_spec now' (tr_holdExpiresAt r)) as [Hx | Hx].
    + rewrite (proj2 (latest_active_char j now' _ r He')); [done |]. exists k. split; [done |].
      apply is_active_spec in Ha as (? & ? & _). by apply is_active_spec.
    + destruct (latest_active j now' (db_holds w)) as [r' |] eqn:E'; [| done].
      apply latest_active_char in E' as (k' & Hk' & Ha'); [| done].
      assert (k' = k) as -> by (eapply He; [exact Hk' | exact Hk | by eapply is_active_later | done]).
      apply is_active_spec in Ha' as (_ & _ & Ha'). rewrite Hk in Hk'. injection Hk' as <-. lia.
  - destruct (latest_active j now' (db_holds w)) as [r' |] eqn:E'; [| done].
    apply latest_active_Some in E' as (k' & Hk' & Ha').
    eapply is_active_later in Ha'; [| done].
    by rewrite (proj1 (latest_active_None _ _ _) E k' r' Hk') in Ha'.
Qed.

(* ------------------------------------------------------------------ *)
(** ** The seating as a machine                                         *)

Section Machine.
Context `{Crypto} (cfg : jsval).

(** The calls of the two services that write. *)
Inductive seat_call (now : Z) (w : world) : world -> Prop :=
| sc_hold id input : seat_call now w (createHold cfg id input now w).2
| sc_reservation id actor : seat_call now w (getOwnedReservation id actor now w).2
| sc_section id actor dto : seat_call now w (createFloorSection id actor dto w).2
| sc_venue_table id actor dto : seat_call now w (createVenueTable id actor dto w).2
| sc_event_table id actor dto : seat_call now w (createEventTable id actor dto w).2
| sc_status id status actor : seat_call now w (updateEventTableStatus id status actor now w).2
| sc_availability eventId : seat_call now w (getAvailability eventId now w).2.

(** A call, anything outside the seating, or the passing of time. *)
Inductive seat_step : Z * world -> Z * world -> Prop :=
| ss_call now w w' : seat_call now w w' -> seat_step (now, w) (now, w')
| ss_other now w w' : seating w' = seating w -> seat_step (now, w) (now, w')
| ss_time now now' w : now <= now' -> seat_step (now, w) (now', w).

(** A new hold, from the state it starts in to the one it leaves. *)
Lemma new_hold_kept id input now v w w' :
  seating_ok now w -> new_hold_made cfg id input now v w w' -> seats_kept w w'.
Proof.
  intros Hok (d & t1 & w1 & audits & Hoff & _ & Hset & _ & Hid & Ht1 & Hv & ->).
  pose proof (cm_kept _ _ _ (calm_settled _ _ _ _ Hset) Hok) as Hkept.
  destruct (offered_table input now d w (so_tables _ _ Hok) Hoff) as [_ Hti].
  etransitivity; [exact Hkept |]. rewrite Hv. unfold taken. cbn [new_hold tr_eventTableId tr_id]. rewrite Hti.
  split; cbn; [| | done].
  - intros k r Hr. exists r. split; [| done]. rewrite lookup_insert_ne; [done | congruence].
  - intros k t Ht. destruct (decide (k = chi_eventTableId input)) as [-> |].
    + eexists _, _. rewrite lookup_insert_eq. rewrite Ht1 in Ht. by injection Ht as ->.
    + exists (et_status t), (et_holdExpiresAt t). by rewrite lookup_insert_ne, with_et_state_same.
Qed.

Definition seats_step (now : Z) (w w' : world) : Prop :=
  seating_ok now w' /\ seats_kept w w' /\ lease_act now (lease_of now w) (lease_of now w').

Lemma calm_step now w w' : seating_ok now w -> calm now w w' -> seats_step now w w'.
Proof. intros Hok [H1 H2 H3]. split_and!; [by auto.. | apply la_same; auto]. Qed.

Lemma createHold_step id input now w :
  seating_ok now w ->
  wp (createHold cfg id input now) (fun _ w' => seats_step now w w') (fun _ w' => seats_step now w w') w.
Proof.
  intros Hok. eapply wp_mono; [by apply createHold_wp | cbn beta | cbn beta].
  - intros resp w' (v & _ & _ & [Hnew | (d & r & _ & _ & _ & Hset & _)]).
    + destruct (new_hold_keeps cfg id input now v w w' Hok Hnew) as (Hok' & Hfree & _ & Hl).
      split_and!; [done | by eapply new_hold_kept |].
      pose proof (hold_duration_bounds cfg) as Hd.
      unfold MIN_TABLE_HOLD_DURATION_SECONDS, MAX_TABLE_HOLD_DURATION_SECONDS in Hd.
      eapply la_taken; [exact Hfree | | exact Hl]. lia.
    + apply calm_step; [done |]. by eapply calm_settled.
  - intros e w' (_ & [-> | [c ->]]); apply calm_step; [done | reflexivity | done | apply calm_audit].
Qed.

Lemma seat_call_step now w w' : seating_ok now w -> seat_call now w w' -> seats_step now w w'.
Proof.
  intros Hok Hc.
  assert (Hcalm : forall A (m : op A), wp m (fun _ w' => calm now w w') (fun _ w' => calm now w w') w ->
    seats_step now w (m w).2).
  { intros A m Hm. apply calm_step; [done |]. unfold wp in Hm. by destruct (m w) as [[a | e] w1]. }
  destruct Hc as [id input | id actor | id actor dto | id actor dto | id actor dto | id status actor | eventId].
  - pose proof (createHold_step id input now w Hok) as Hm. unfold wp in Hm.
    by destruct (createHold cfg id input now w) as [[resp | e] w1].
  - apply Hcalm. eapply wp_mono; [by apply getOwnedReservation_wp | cbn beta; tauto | by intros _ ? ->].
  - apply Hcalm, createFloorSection_wp.
  - apply Hcalm, createVenueTable_wp.
  - apply Hcalm, createEventTable_wp.
  - apply Hcalm. eapply wp_mono; [by apply updateEventTableStatus_wp | cbn beta; tauto | done].
  - apply Hcalm. eapply wp_mono; [by apply getAvailability_wp | cbn beta; tauto | by intros _ ? [-> _]].
Qed.

(** One step keeps the invariant, and is a step of the lease machine. *)
Lemma seat_step_refines s s' :
  seat_step s s' -> seating_ok s.1 s.2 ->
  seating_ok s'.1 s'.2 /\ seats_kept s.2 s'.2 /\
  lease_machine (s.1, lease_of s.1 s.2) (s'.1, lease_of s'.1 s'.2).
Proof.
  intros [now w w' Hc | now w w' Hw | now now' w Hle] Hok; cbn in *.
  - destruct (seat_call_step now w w' Hok Hc) as (? & ? & ?). split_and!; [done.. | by apply lm_call].
  - assert (Hcalm : calm now w w') by (apply calm_elsewhere; unfold db_event_tables, db_holds; by rewrite Hw).
    destruct (calm_step now w w' Hok Hcalm) as (? & ? & ?). split_and!; [done.. | by apply lm_call].
  - split_and!; [by eapply seating_ok_later | reflexivity | apply lm_time; [done |]].
    intros j. by apply lease_of_later.
Qed.

Lemma seat_run_refines s s' :
  rtc seat_step s s' -> seating_ok s.1 s.2 ->
  seating_ok s'.1 s'.2 /\ seats_kept s.2 s'.2 /\
  rtc lease_machine (s.1, lease_of s.1 s.2) (s'.1, lease_of s'.1 s'.2).
Proof.
  induction 1 as [s | s1 s2 s3 Hs Hrun IH]; intros Hok; [by split_and! |].
  destruct (seat_step_refines _ _ Hs Hok) as (Hok2 & Hk2 & Hl2).
  destruct (IH Hok2) as (Hok3 & Hk3 & Hl3).
  split_and!; [done | by etransitivity | by eapply rtc_l].
Qed.

Lemma seat_run_time s s' : rtc seat_step s s' -> s.1 <= s'.1.
Proof.
  induction 1 as [s | s1 s2 s3 Hs _ IH]; [lia |]. destruct Hs; cbn in *; lia.
Qed.

End Machine.

(* ------------------------------------------------------------------ *)
(** ** Repeated requests                                                *)

Section Replays.
Context `{Crypto} (cfg : jsval).

(** A request's reservation is stored and can be shown. *)
Definition reserved (input : CreateHoldInput) (id : string) (w : world) : Prop :=
  exists r, db_holds w !! id = Some r /\ tr_id r = id /\ hold_key input r = true /\
    tr_requestFingerprintHash r = hold_fingerprint input /\ reservation_view w r <> None.

Lemma hold_life_key input r r' : hold_life r r' ->
  tr_id r' = tr_id r /\ hold_key input r' = hold_key input r /\
  tr_requestFingerprintHash r' = tr_requestFingerprintHash r /\ tr_eventTableId r' = tr_eventTableId r.
Proof. by intros [-> | (a & _ & _ & ->)]. Qed.

Lemma kept_view w w' r r' :
  seats_kept w w' -> tr_eventTableId r' = tr_eventTableId r ->
  reservation_view w r <> None -> reservation_view w' r' <> None.
Proof.
  intros Hk Hr. unfold reservation_view. rewrite Hr.
  destruct (db_event_tables w !! tr_eventTableId r) as [t |] eqn:Ht; [| done]. cbn.
  destruct (venue_tables (seating w) !! et_venueTableId t) as [vt |] eqn:Hvt; [| done]. intros _.
  destruct (sk_tables _ _ Hk _ _ Ht) as (s & h & ->). cbn. by rewrite (sk_venue _ _ Hk _ _ Hvt).
Qed.

Lemma reserved_kept input id w w' : seats_kept w w' -> reserved input id w -> reserved input id w'.
Proof.
  intros Hk (r & Hr & Hid & Hkey & Hfp & Hv). destruct (sk_holds _ _ Hk _ _ Hr) as (r' & Hr' & Hl).
  destruct (hold_life_key input _ _ Hl) as (H1 & H2 & H3 & H4).
  exists r'. split_and!; [done | congruence.. |]. by eapply kept_view.
Qed.

Lemma hold_key_same input r1 r2 : hold_key input r1 = true -> hold_key input r2 = true -> same_key r1 r2.
Proof.
  unfold hold_key, same_key. rewrite !andb_true_iff, !bool_decide_eq_true. naive_solver congruence.
Qed.

Lemma reserved_found now input id w r :
  seating_ok now w -> db_holds w !! id = Some r -> hold_key input r = true ->
  find_row (hold_key input) (db_holds w) = Some r.
Proof.
  intros Hok Hr Hkey. apply (find_row_unique _ _ id); [done | done |].
  intros k' r' Hr' Hkey'. eapply (so_unique _ _ Hok); [done | done |]. by apply (hold_key_same input).
Qed.

(** Every answer is reserved. *)
Lemma createHold_reserved id input now w resp w' :
  seating_ok now w -> createHold cfg id input now w = (Ok resp, w') -> reserved input (trr_id resp) w'.
Proof.
  intros Hok Hrun. destruct (wp_ok _ _ _ _ _ _ (createHold_wp cfg id input now w Hok) Hrun)
    as (v & -> & [Hst Hview] & Hcase).
  exists (trv_reservation v). cbn [toReservationResponse trr_id].
  split; [done |]. split; [done |].
  assert (Hv : reservation_view w' (trv_reservation v) <> None) by (by rewrite Hview).
  destruct Hcase as [(d & t1 & w1 & audits & Hoff & _ & _ & _ & _ & _ & Hv1 & _) |
    (d & r & _ & Hfind & Hfp & _ & Hv1)].
  - rewrite Hv1 in *. split_and!; try done. unfold hold_key. by rewrite !bool_decide_true by done.
  - rewrite Hv1 in *. apply find_row_Some in Hfind as (k & _ & Hkey).
    destruct (hold_life_key input _ _ (expire_row_life (chi_eventTableId input) now r)) as (_ & H2 & H3 & _).
    split_and!; congruence.
Qed.

Lemma createHold_key id input now w resp w' :
  createHold cfg id input now w = (Ok resp, w') -> trim (chi_idempotencyKey input) <> "".
Proof. intros Hrun Hb. unfold createHold in Hrun. by rewrite bool_decide_true in Hrun. Qed.

Lemma settled_dom id now w w' : settled id now w w' -> dom (db_holds w') = dom (db_holds w).
Proof.
  intros Hset. destruct (settled_facts _ _ _ _ Hset) as (-> & _).
  case_match; [apply dom_fmap_L | done].
Qed.

(** A reserved request is answered with its reservation while its table is on
    offer, and makes no other. *)
Lemma createHold_again id input now w rid :
  seating_ok now w -> trim (chi_idempotencyKey input) <> "" -> reserved input rid w ->
  wp (createHold cfg id input now)
     (fun resp w' => trr_id resp = rid /\ dom (db_holds w') = dom (db_holds w))
     (fun _ _ => ~ exists d, offered input now d w) w.
Proof.
  intros Hok Hkey (r & Hr & Hid & Hk & Hfp & Hview).
  pose proof (reserved_found now input rid w r Hok Hr Hk) as Hfind.
  eapply wp_mono; [by apply createHold_wp | cbn beta | cbn beta].
  - intros resp w' (v & -> & _ & [(d & t1 & w1 & audits & _ & Hnone & _) | (d & r' & _ & Hf & _ & Hset & Hv)]);
      [congruence |]. rewrite Hfind in Hf. injection Hf as <-. cbn [toReservationResponse trr_id].
    rewrite Hv, expire_row_id. split; [done | by eapply settled_dom].
  - intros e w' ([Hb | Hn] & _); [done |]. intros [d Hoff]. apply Hn. exists d. by rewrite Hfind.
Qed.

(** While a table is leased, no new hold of it is granted and its owner cannot
    change its status. *)
Lemma leased_blocks now w j l :
  seating_ok now w -> lease_of now w j = Some l ->
  (forall id input, chi_eventTableId input = j -> find_row (hold_key input) (db_holds w) = None ->
    exists e, (createHold cfg id input now w).1 = Err e) /\
  (forall id input resp w', chi_eventTableId input = j -> createHold cfg id input now w = (Ok resp, w') ->
    trr_eventTableId resp = j -> trr_status resp = TR_HELD ->
    l = (chi_actorUserId input, trr_holdExpiresAt resp)) /\
  (forall status actor, exists e, (updateEventTableStatus j status actor now w).1 = Err e).
Proof.
  intros Hok Hl. split; [| split].
  - intros id input <- Hnone. pose proof (createHold_wp cfg id input now w Hok) as Hm. unfold wp in Hm.
    destruct (createHold cfg id input now w) as [[resp | e] w']; [| by exists e].
    destruct Hm as (v & _ & _ & [Hnew | (d & r & _ & Hf & _)]); [| congruence].
    apply new_hold_keeps in Hnew as (_ & Hfree & _); [congruence | done].
  - intros id input resp w' Hj Hrun Htab Hst.
    destruct (wp_ok _ _ _ _ _ _ (createHold_wp cfg id input now w Hok) Hrun)
      as (v & -> & _ & [Hnew | (d & r & _ & Hf & _ & _ & Hv)]).
    { apply new_hold_keeps in Hnew as (_ & Hfree & _); [congruence | done]. }
    apply find_row_Some in Hf as (k & Hk & Hkey). unfold hold_key in Hkey.
    apply andb_true_iff in Hkey as [[Hactor%bool_decide_eq_true _]%andb_true_iff _].
    unfold toReservationResponse in *. cbn [trr_eventTableId trr_status trr_holdExpiresAt] in *. rewrite Hv, Hj in *.
    unfold expire_row in *. destruct (is_stale j now r) eqn:Hs; [discriminate Hst |].
    assert (Hact : is_active j now r = true).
    { apply is_active_spec. split; [done | split; [done |]]. apply Z.nle_gt. intros Hle.
      assert (is_stale j now r = true) by by apply is_stale_spec. congruence. }
    unfold lease_of in Hl. rewrite (proj2 (latest_active_char j now _ r (so_exclusive _ _ Hok))) in Hl by eauto.
    cbn in Hl. congruence.
  - intros status actor. pose proof (updateEventTableStatus_wp j status actor now w Hok) as Hm.
    unfold wp in Hm. destruct (updateEventTableStatus j status actor now w) as [[resp | e] w'];
      [destruct Hm; congruence | by exists e].
Qed.

End Replays.

(** Ama holds the table; Kofi is refused; the owner may not close it; at ten
    minutes the hold is over. *)
Module SeatingExample.

#[local] Instance crypto : Crypto := plain_crypto.

Definition closed_attempt : world :=
  (updateEventTableStatus "tab" ET_UNAVAILABLE "olu" 3000 HoldExample.w1).2.

Example owner_refused :
  (updateEventTableStatus "tab" ET_UNAVAILABLE "olu" 3000 HoldExample.w1).1 =
  Err (ConflictException "active table hold prevents status change").
Proof. vm_run. Qed.

Definition w2 : world := (HoldExample.hold "res2" "kofi" "k" 2000 HoldExample.w1).2.
Definition w3 : world := (getAvailability "ev" 2000 w2).2.

Definition row (status : EventTableStatus) : TableAvailability :=
  {| tav_eventTableId := "tab"; tav_venueTableId := "vip"; tav_label := "VIP 1";
     tav_floorSectionName := None; tav_seatCount := 6; tav_priceMinor := 25000; tav_currency := "GHS";
     tav_availabilityStatus := status |}.

Example seen_held : getAvailability "ev" 2000 w2 = (Ok [row ET_HELD], w3).
Proof. run_ends. Qed.
Example seen_free : (getAvailability "ev" 601000 w3).1 = Ok [row ET_AVAILABLE].
Proof. vm_run. Qed.

(** From the hold to later that minute. *)
Lemma held_run : rtc (seat_step None) (1000, HoldExample.w1) (2000, w3).
Proof.
  eapply rtc_l; [by apply (ss_time None 1000 2000) |].
  eapply rtc_l; [apply ss_call, (sc_hold None 2000 HoldExample.w1 "res2" (HoldExample.request "kofi" "k")) |].
  eapply rtc_l; [apply ss_call, (sc_availability None 2000 w2 "ev") |]. apply rtc_refl.
Qed.

Lemma run_all : rtc (seat_step None) (1000, HoldExample.w0) (2000, w3).
Proof.
  eapply rtc_l; [| exact held_run].
  apply ss_call, (sc_hold None 1000 HoldExample.w0 "res" (HoldExample.request "ama" "k")).
Qed.

Lemma ok_w2 : seating_ok 2000 w2.
Proof.
  eapply (seat_run_refines None (1000, HoldExample.w0) (2000, w2)); [| apply HoldExample.ok_w0].
  eapply rtc_l; [apply ss_call, (sc_hold None 1000 HoldExample.w0 "res" (HoldExample.request "ama" "k")) |].
  eapply rtc_l; [by apply (ss_time None 1000 2000) |].
  eapply rtc_l; [apply ss_call, (sc_hold None 2000 HoldExample.w1 "res2" (HoldExample.request "kofi" "k")) |].
  apply rtc_refl.
Qed.

Lemma no_holds (P : table_reservation -> bool) : find_row P (db_holds HoldExample.w0) = None.
Proof. vm_run. Qed.

End SeatingExample.

(* ------------------------------------------------------------------ *)
(** ** Properties                                                       *)

(** C7: The seating implements the lease machine: along any sequence of holds,
    reads, new sections and tables, status changes and availability queries by
    anybody, interleaved with calls of other services and with time, the state
    stays well formed (at most one active hold per table, the table's own state
    agreeing with it, one reservation per key) and who holds which table until
    when evolves only by leasing a free table for one to thirty minutes or by a
    lease reaching its end. *)
Theorem seating_refines_leases `{Crypto} cfg now w now' w' (Hok : seating_ok now w)
    (Hrun : rtc (seat_step cfg) (now, w) (now', w')) :
  seating_ok now' w' /\ rtc lease_machine (now, lease_of now w) (now', lease_of now' w').
Proof. destruct (seat_run_refines cfg _ _ Hrun Hok) as (H1 & _ & H3). done. Qed.

Lemma seating_refines_leases_witness :
  rtc lease_machine (1000, lease_of 1000 HoldExample.w0) (2000, lease_of 2000 SeatingExample.w3).
Proof.
  exact (proj2 (seating_refines_leases (H := plain_crypto) None 1000 HoldExample.w0 2000
    SeatingExample.w3 (HoldExample.ok_w0 1000) SeatingExample.run_all)).
Defined.

(** C11: A hold is exclusive until it expires.  After a new hold, whatever calls
    follow, at any time before its expiry the table is leased to its holder; a request
    to hold it under a key that has no reservation is refused; under a key that has one
    (which is answered with it) nobody but the holder is answered with a held
    reservation of that table, and then with that expiry; and any change of the table's
    status by its owner is refused. *)
Theorem hold_is_exclusive `{Crypto} cfg id input t1 t2 w w1 w2 resp (Hok : seating_ok t1 w)
    (Hhold : createHold cfg id input t1 w = (Ok resp, w1))
    (Hnew : find_row (hold_key input) (db_holds w) = None)
    (Hrun : rtc (seat_step cfg) (t1, w1) (t2, w2)) (Ht : t2 < trr_holdExpiresAt resp) :
  lease_of t2 w2 (chi_eventTableId input) = Some (chi_actorUserId input, trr_holdExpiresAt resp) /\
  (forall id' input', chi_eventTableId input' = chi_eventTableId input ->
    find_row (hold_key input') (db_holds w2) = None ->
    exists e, (createHold cfg id' input' t2 w2).1 = Err e) /\
  (forall id' input' resp' w3, chi_eventTableId input' = chi_eventTableId input ->
    createHold cfg id' input' t2 w2 = (Ok resp', w3) ->
    trr_eventTableId resp' = chi_eventTableId input -> trr_status resp' = TR_HELD ->
    chi_actorUserId input' = chi_actorUserId input /\ trr_holdExpiresAt resp' = trr_holdExpiresAt resp) /\
  (forall status actor, exists e,
    (updateEventTableStatus (chi_eventTableId input) status actor t2 w2).1 = Err e).
Proof.
  destruct (wp_ok _ _ _ _ _ _ (createHold_wp cfg id input t1 w Hok) Hhold)
    as (v & -> & _ & [Hmade | (d & r & _ & Hf & _)]); [| congruence].
  assert (Hv : tr_holdExpiresAt (trv_reservation v) = t1 + resolveHoldDurationSeconds cfg * 1000).
  { by destruct Hmade as (d & t & w' & audits & _ & _ & _ & _ & _ & _ & -> & _). }
  destruct (new_hold_keeps cfg id input t1 v w w1 Hok Hmade) as (Hok1 & _ & _ & Hl1).
  destruct (seat_run_refines cfg _ _ Hrun Hok1) as (Hok2 & _ & Hleases). cbn in *.
  specialize (Hl1 (chi_eventTableId input)). rewrite decide_True, <- Hv in Hl1 by done.
  pose proof (leases_keep _ _ _ _ _ Hleases Hl1 Ht) as Hl2. cbn in Hl2.
  destruct (leased_blocks cfg _ _ _ _ Hok2 Hl2) as (Hnone & Hheld & Hstatus).
  split; [done |]. split; [exact Hnone |]. split; [| exact Hstatus].
  intros id' input' resp' w3 Hj Hrun' Htab Hst. by injection (Hheld id' input' resp' w3 Hj Hrun' Htab Hst) as -> ->.
Qed.

Lemma hold_is_exclusive_witness :
  lease_of 2000 SeatingExample.w3 "tab" = Some ("ama", 601000).
Proof.
  exact (proj1 (hold_is_exclusive (H := plain_crypto) None "res" (HoldExample.request "ama" "k") 1000 2000
    HoldExample.w0 HoldExample.w1 SeatingExample.w3 (HoldExample.response TR_HELD None)
    (HoldExample.ok_w0 1000) HoldExample.held (SeatingExample.no_holds _) SeatingExample.held_run
    ltac:(reflexivity))).
Defined.

(** C15: A repeated hold request never books twice: after a request was answered,
    whatever calls and time come between, the same request is answered with the
    same reservation and adds none, as long as its table is still on offer. *)
Theorem createHold_idempotent `{Crypto} cfg id1 id2 input t1 t2 w w1 w2 resp (Hok : seating_ok t1 w)
    (Hhold : createHold cfg id1 input t1 w = (Ok resp, w1))
    (Hrun : rtc (seat_step cfg) (t1, w1) (t2, w2)) :
  match createHold cfg id2 input t2 w2 with
  | (Ok resp2, w3) => trr_id resp2 = trr_id resp /\ dom (db_holds w3) = dom (db_holds w2)
  | (Err _, _) => ~ exists d, offered input t2 d w2
  end.
Proof.
  pose proof (createHold_step cfg id1 input t1 w Hok) as Hm. unfold wp in Hm. rewrite Hhold in Hm.
  destruct Hm as (Hok1 & _ & _). destruct (seat_run_refines cfg _ _ Hrun Hok1) as (Hok2 & Hkept & _).
  apply (createHold_again cfg id2 input t2 w2); [done | exact (createHold_key _ _ _ _ _ _ _ Hhold) |].
  apply (reserved_kept input (trr_id resp) w1 w2 Hkept). exact (createHold_reserved cfg id1 input t1 w resp w1 Hok Hhold).
Qed.

Lemma createHold_idempotent_witness :
  match createHold (H := plain_crypto) None "res3" (HoldExample.request "ama" "k") 2000 SeatingExample.w3 with
  | (Ok resp2, w3) => trr_id resp2 = "res" /\ dom (db_holds w3) = dom (db_holds SeatingExample.w3)
  | (Err _, _) => ~ exists d, offered (HoldExample.request "ama" "k") 2000 d SeatingExample.w3
  end.
Proof.
  exact (createHold_idempotent (H := plain_crypto) None "res" "res3" (HoldExample.request "ama" "k")
    1000 2000 HoldExample.w0 HoldExample.w1 SeatingExample.w3 (HoldExample.response TR_HELD None)
    (HoldExample.ok_w0 1000) HoldExample.held SeatingExample.held_run).
Defined.

(** C31: An availability query tells the truth: for an event on show it lists, by
    price, exactly the event's tables, each HELD if and only if somebody holds it
    at that moment (unless it is out of service).  It writes the same: each of those
    tables takes that status in the database, so a table whose hold is over is free
    again, the holds of them that are over become EXPIRED, no other table or hold is
    touched and nobody's lease changes.  Otherwise it throws and writes nothing. *)
Theorem getAvailability_truthful eventId now w (Hok : seating_ok now w) :
  match getAvailability eventId now w with
  | (Ok rows, w') => on_show eventId now w = true /\
      rows ≡ₚ omap (advert now w) (find_rows (of_event eventId) (db_event_tables w)) /\
      StronglySorted cheaper rows /\ calm now w w' /\ refreshed eventId now w w'
  | (Err _, w') => w' = w /\ on_show eventId now w = false
  end.
Proof. exact (getAvailability_wp eventId now w Hok). Qed.

Lemma getAvailability_truthful_witness :
  on_show "ev" 2000 SeatingExample.w2 = true /\
  [SeatingExample.row ET_HELD] ≡ₚ
    omap (advert 2000 SeatingExample.w2) (find_rows (of_event "ev") (db_event_tables SeatingExample.w2)).
Proof.
  pose proof (getAvailability_truthful "ev" 2000 SeatingExample.w2 SeatingExample.ok_w2) as Hout.
  rewrite SeatingExample.seen_held in Hout. destruct Hout as (H1 & H2 & _). by split.
Defined.
