(* ===== verification/Redaction.v ===== *)
(** Redaction.v: what support staff may see of a value
    (src/src/modules/admin-support/admin-support-redaction.service.ts).  Objects
    lose the fields whose names look like secrets, strings that look like secrets
    are masked.  The main lemma says what is left at every path. *)

From S2P Require Import Prelude Errors Values Store Context.

(** [s.includes(sub)] *)
Fixpoint includes (sub s : string) : bool :=
  String.prefix sub s ||
  match s with
  | EmptyString => false
  | String _ s' => includes sub s'
  end.

Fixpoint string_filter (P : ascii -> bool) (s : string) : string :=
  match s with
  | EmptyString => EmptyString
  | String c s' => if P c then String c (string_filter P s') else string_filter P s'
  end.

(** [normalizeKey]: only letters and digits, in lower case. *)
Definition normalizeKey (key : string) : string := toLowerCase (string_filter is_alnum key).

Definition FORBIDDEN_EXACT_KEYS : list string :=
  ["password"; "passwordHash"; "accessToken"; "refreshToken"; "refreshTokenHash";
   "previousRefreshTokenHash"; "sessionTokenHash"; "admissionToken"; "admissionTokenHash";
   "tokenHash"; "scanNonceHash"; "providerRawResponse"; "providerVerificationRaw";
   "providerAccessCode"; "providerCheckoutUrl"; "authorizationUrl"; "rawPayload"; "rawHeaders";
   "verifiedPayload"; "apiKey"; "authorization"; "cookie"; "set-cookie"; "x-paystack-signature";
   "x-reference-id"; "DATABASE_URL"; "REDIS_URL"; "PAYSTACK_SECRET_KEY"; "MTN_MOMO_API_KEY";
   "MTN_MOMO_API_SECRET"; "MTN_MOMO_SUBSCRIPTION_KEY"; "JWT_SECRET"; "JWT_ACCESS_SECRET";
   "JWT_REFRESH_SECRET"].

Definition HIGH_RISK_KEY_FRAGMENTS : list string :=
  ["password"; "secret"; "token"; "apikey"; "authorization"; "cookie"].

Definition EXACT_FORBIDDEN_KEY_SET : list string := normalizeKey <$> FORBIDDEN_EXACT_KEYS.

(** The environment variables whose values are secrets. *)
Definition SENSITIVE_VARIABLES : list string :=
  ["DATABASE_URL"; "REDIS_URL"; "PAYSTACK_SECRET_KEY"; "MTN_MOMO_API_KEY"; "MTN_MOMO_API_SECRET";
   "MTN_MOMO_SUBSCRIPTION_KEY"; "JWT_SECRET"; "JWT_ACCESS_SECRET"; "JWT_REFRESH_SECRET"].

(** [sensitiveValueFragments], of an environment. *)
Definition sensitiveValueFragments (env : string -> option string) : list string :=
  filter (fun v => v <> "") ((fun v => toLowerCase (trim v)) <$> omap env SENSITIVE_VARIABLES).

Definition shouldRedactKey (key : string) : bool :=
  let k := normalizeKey key in
  bool_decide (k ∈ EXACT_FORBIDDEN_KEY_SET) ||
  existsb (fun fragment => includes fragment k) HIGH_RISK_KEY_FRAGMENTS.

(** The fields that do not reach the output: those redacted, and one of the name to which
    [output[key] = ...] gives the prototype and no field. *)
Definition drops (key : string) : bool := shouldRedactKey key || bool_decide (key = "__proto__").

Section Redaction.
Context (env : string -> option string).

Definition shouldRedactStringValue (value : string) : bool :=
  let trimmed := trim value in
  if bool_decide (trimmed = "") then false
  else
    let lower := toLowerCase trimmed in
    includes "postgres://" lower || includes "postgresql://" lower || includes "redis://" lower ||
    includes "bearer " lower || existsb (fun fragment => includes fragment lower) HIGH_RISK_KEY_FRAGMENTS ||
    existsb (fun fragment => includes fragment lower) (sensitiveValueFragments env).

(** [redactUnknown]: fields are dropped, strings are masked, the rest is kept. *)
Fixpoint redactUnknown (value : json) : json :=
  match value with
  | JArr l => JArr (map redactUnknown l)
  | JStr s => if shouldRedactStringValue s then JStr "[REDACTED]" else JStr s
  | JObj fields =>
      JObj ((fix entries (l : list (string * json)) : list (string * json) :=
               match l with
               | [] => []
               | (key, child) :: l' =>
                   if drops key then entries l'
                   else (key, redactUnknown child) :: entries l'
               end) fields)
  | JNull | JBool _ | JNum _ | JFloat _ | JDate _ => value
  end.

Definition redactResponse (value : json) : json := redactUnknown value.

(* ------------------------------------------------------------------ *)
(** ** What is left                                                     *)

Definition keeps_key (kv : string * json) : bool := negb (drops kv.1).

Lemma redact_object fields :
  redactUnknown (JObj fields) =
    JObj ((fun kv => (kv.1, redactUnknown kv.2)) <$> filter keeps_key fields).
Proof.
  cbn [redactUnknown]. f_equal. induction fields as [| [k v] fields IH]; [done |].
  destruct (drops k) eqn:Hk.
  - rewrite filter_cons_False by (unfold keeps_key; cbn [fst]; rewrite Hk; cbn; tauto). exact IH.
  - rewrite filter_cons_True by (unfold keeps_key; cbn [fst]; rewrite Hk; cbn; tauto). cbn. by rewrite IH.
Qed.

(** A step into a value: a field of an object or an element of an array. *)
Inductive step_into : Type :=
| Field (key : string)
| Element (i : nat).

Fixpoint json_at (path : list step_into) (value : json) : option json :=
  match path with
  | [] => Some value
  | Field k :: path' =>
      match value with JObj fields => field k fields ≫= json_at path' | _ => None end
  | Element i :: path' =>
      match value with JArr l => l !! i ≫= json_at path' | _ => None end
  end.

Definition forbidden_step (s : step_into) : bool :=
  match s with Field k => drops k | Element _ => false end.

Lemma last_fmap {A B} (f : A -> B) (l : list A) : last (f <$> l) = f <$> last l.
Proof. induction l as [| x [| y l] IH]; [done | done | exact IH]. Qed.

Lemma filter_forbidden k fields :
  drops k = true ->
  filter (fun kv => kv.1 = k) (filter keeps_key fields) = [] :> list (string * json).
Proof.
  intros Hk. apply elem_of_nil_inv. intros [k' v] [Heq Hin]%list_elem_of_filter.
  cbn in Heq. subst k'. apply list_elem_of_filter in Hin as [Hkeep _].
  unfold keeps_key in Hkeep. cbn in Hkeep. by rewrite Hk in Hkeep.
Qed.

Lemma filter_allowed k (fields : list (string * json)) :
  drops k = false ->
  filter (fun kv => kv.1 = k) (filter keeps_key fields) = filter (fun kv => kv.1 = k) fields.
Proof.
  intros Hk. rewrite list_filter_filter. apply list_filter_iff. intros [k' v]. cbn. split; [tauto |].
  intros ->. split; [done |]. unfold keeps_key. cbn. by rewrite Hk.
Qed.

Lemma filter_key_fmap k (f : json -> json) (fields : list (string * json)) :
  filter (fun kv => kv.1 = k) ((fun kv => (kv.1, f kv.2)) <$> fields) =
  (fun kv => (kv.1, f kv.2)) <$> filter (fun kv => kv.1 = k) fields.
Proof.
  induction fields as [| [k' v] fields IH]; [done |]. cbn [fmap list_fmap fst snd].
  rewrite !filter_cons. cbn [fst]. destruct (decide (k' = k)); [| done]. cbn. by rewrite IH.
Qed.

Lemma redact_field k fields :
  field k (match redactUnknown (JObj fields) with JObj l => l | _ => [] end) =
    if drops k then None else redactUnknown <$> field k fields.
Proof.
  rewrite redact_object. unfold field. rewrite filter_key_fmap. destruct (drops k) eqn:Hk.
  - by rewrite filter_forbidden.
  - rewrite filter_allowed, last_fmap by done. by destruct (last _).
Qed.

(** At every path: nothing below a forbidden field, otherwise the redaction of what
    was there. *)
Lemma redact_at path : forall value,
  json_at path (redactUnknown value) =
    if existsb forbidden_step path then None else redactUnknown <$> json_at path value.
Proof.
  assert (Hnone : forall b : bool, (if b then None else redactUnknown <$> None) = None) by (by intros []).
  induction path as [| [k | i] path IH]; intros value; [done | |]; cbn [json_at existsb forbidden_step].
  - destruct value as [| b | z | r | s | d | l | fields]; try (by rewrite Hnone);
      [by cbn; destruct (shouldRedactStringValue s); rewrite Hnone |].
    pose proof (redact_field k fields) as Hf. rewrite redact_object in Hf |- *. rewrite Hf.
    destruct (drops k); [done |]. cbn [orb].
    destruct (field k fields) as [v |]; cbn [fmap option_fmap option_map mbind option_bind];
      [apply IH | by rewrite Hnone].
  - destruct value as [| b | z | r | s | d | l | fields]; cbn [orb];
      try (by rewrite Hnone); [by cbn; destruct (shouldRedactStringValue s); rewrite Hnone |].
    cbn [redactUnknown]. change (map redactUnknown l) with (redactUnknown <$> l).
    rewrite list_lookup_fmap. destruct (l !! i) as [v |]; cbn [fmap option_fmap option_map mbind option_bind];
      [apply IH | by rewrite Hnone].
Qed.

Lemma mask_idempotent s :
  redactUnknown (redactUnknown (JStr s)) = redactUnknown (JStr s).
Proof.
  assert (Hmask : redactUnknown (JStr "[REDACTED]") = JStr "[REDACTED]")
    by (cbn [redactUnknown]; by destruct (shouldRedactStringValue "[REDACTED]")).
  cbn [redactUnknown]. destruct (shouldRedactStringValue s) eqn:Hs; [exact Hmask |].
  cbn [redactUnknown]. by rewrite Hs.
Qed.

(** Redacting twice is redacting once. *)
Lemma redact_idempotent value : redactUnknown (redactUnknown value) = redactUnknown value.
Proof.
  induction value as [| b | z | r | s | d | l IH | fields IH] using json_nested_ind;
    [done | done | done | done | apply mask_idempotent | done | |].
  - cbn [redactUnknown]. f_equal. induction IH as [| x l Hx _ IHl]; [done |]. cbn. by rewrite Hx, IHl.
  - rewrite !redact_object. f_equal. induction IH as [| [k v] fields Hx _ IHl]; [done |].
    destruct (drops k) eqn:Hk.
    + by rewrite !(filter_cons_False keeps_key (k, v)) by (unfold keeps_key; cbn [fst]; rewrite Hk; cbn; tauto).
    + rewrite !(filter_cons_True keeps_key (k, v)) by (unfold keeps_key; cbn [fst]; rewrite Hk; cbn; tauto).
      cbn [fmap list_fmap fst snd]. rewrite filter_cons_True by (unfold keeps_key; cbn [fst]; rewrite Hk; cbn; tauto).
      cbn [fmap list_fmap fst snd] in *. rewrite Hx. by f_equal.
Qed.

(** A string that is left is the mask, or shows nothing secret: not the value of a
    secret variable in whatever case, and nothing else the code looks for. *)
Record harmless (s : string) : Prop := {
  hl_checked : shouldRedactStringValue s = false;
  hl_secrets : Forall (fun name => match env name with
                                   | Some v => trim v = "" \/
                                       includes (toLowerCase (trim v)) (toLowerCase (trim s)) = false
                                   | None => True
                                   end) SENSITIVE_VARIABLES
}.

Definition masked (s : string) : Prop := s = "[REDACTED]" \/ harmless s.

Lemma not_redacted_harmless s : shouldRedactStringValue s = false -> harmless s.
Proof.
  intros Hs. split; [done |]. apply Forall_forall. intros name Hname.
  destruct (env name) as [v |] eqn:Hv; [| done]. destruct (decide (trim v = "")) as [| Hne]; [by left | right].
  assert (Hlow : toLowerCase (trim v) <> "") by (by destruct (trim v)).
  unfold shouldRedactStringValue in Hs. case_bool_decide as Ht.
  { rewrite Ht. cbn. by destruct (toLowerCase (trim v)). }
  apply orb_false_iff in Hs as [_ Hs]. apply not_true_iff_false. intros Hin. apply not_true_iff_false in Hs.
  apply Hs, existsb_exists. exists (toLowerCase (trim v)). split; [| exact Hin].
  apply list_elem_of_In, list_elem_of_filter. split; [exact Hlow |].
  apply list_elem_of_fmap. exists v. split; [done |]. apply list_elem_of_omap. eauto.
Qed.

Lemma redact_leaf path value s :
  json_at path (redactUnknown value) = Some (JStr s) -> masked s.
Proof.
  rewrite redact_at. destruct (existsb forbidden_step path); [done |].
  intros (v & Hv & Hs)%fmap_Some. destruct v as [| | | | s' | | |]; cbn in Hs; try done.
  destruct (shouldRedactStringValue s') eqn:Hr; injection Hs as ->; [by left | right; by apply not_redacted_harmless].
Qed.

End Redaction.

(** A profile with a secret or two. *)
Module RedactionExample.

Definition env (name : string) : option string :=
  if bool_decide (name = "JWT_SECRET") then Some "Open-Sesame-1234" else None.

Definition profile : json :=
  JObj [("id", JStr "u1"); ("passwordHash", JStr "x"); ("note", JStr "use open-sesame-1234 here");
        ("tags", JArr [JStr "vip"; JStr "Bearer abc"]); ("nested", JObj [("refresh_token", JNum 3); ("n", JNum 4)])].

Example redacted : redactResponse env profile =
  JObj [("id", JStr "u1"); ("note", JStr "[REDACTED]"); ("tags", JArr [JStr "vip"; JStr "[REDACTED]"]);
        ("nested", JObj [("n", JNum 4)])].
Proof. vm_run. Qed.

End RedactionExample.

(** The words that give a secret away also occur in names that are none: the reasons
    of a rejected scan, a customer's address, an event's title. *)
Lemma harmless_values_masked :
  (fun s => redactResponse (fun _ => None) (JStr s)) <$>
    ["TOKEN_REPLAY_DETECTED"; "INVALID_TOKEN"; "ama.tokenu@example.com"; "Secret Garden Party"]
  = [JStr "[REDACTED]"; JStr "[REDACTED]"; JStr "[REDACTED]"; JStr "[REDACTED]"].
Proof. vm_run. Qed.

(** Three secrets the configuration requires are not on the list: their values pass. *)
Lemma unlisted_secrets_shown name :
  In name ["MTN_MOMO_COLLECTION_SUBSCRIPTION_KEY"; "MTN_MOMO_WEBHOOK_SECRET"; "QR_HMAC_ACTIVE_SECRET"] ->
  let env n := if bool_decide (n = name) then Some "open-sesame" else None in
  redactResponse env (JStr "open-sesame") = JStr "open-sesame".
Proof. cbn [In]. intros [<- | [<- | [<- | []]]]; vm_run. Qed.

(* ------------------------------------------------------------------ *)
(** ** Properties                                                       *)

(** C35: Redaction is exact.  At every path of a value, nothing is left under a
    field whose name looks like a secret (nor under "__proto__", which the copy loses),
    and everywhere else what was there, itself redacted: nothing is invented, moved or
    lost.  Every string left is the mask or one that shows, in whatever case, no
    connection string, no bearer token, none of the high-risk words and the value of none
    of the nine variables the service lists (three more secrets of the configuration are
    not on its list, and pass).  Redacting again changes nothing. *)
Theorem redaction_exact env value path :
  json_at path (redactResponse env value) =
    (if existsb forbidden_step path then None else redactUnknown env <$> json_at path value) /\
  match json_at path (redactResponse env value) with
  | Some (JStr s) => masked env s
  | _ => True
  end /\
  redactResponse env (redactResponse env value) = redactResponse env value.
Proof.
  split; [apply redact_at |]. split; [| apply redact_idempotent].
  destruct (json_at path (redactResponse env value)) as [[] |] eqn:E; try done. by eapply redact_leaf.
Qed.
