(* ===== verification/AdminSupport.v ===== *)
(** AdminSupport.v: what support staff can look up
    (src/src/modules/admin-support): the searches, the responses, the audit row of
    every read, and that no answer depends on a secret.

    The database's case-insensitive match, the creation and update times of rows and
    the ids it gives to scan audits are parameters. *)

From S2P Require Import Prelude Errors Values Store Context PaymentIntents Sessions Auth Redaction.

Local Open Scope Z_scope.

(* ------------------------------------------------------------------ *)
(** ** Names of the enums                                               *)

Definition role_text (r : UserRole) : string :=
  match r with
  | CUSTOMER => "CUSTOMER" | ORGANIZER => "ORGANIZER" | GATE_STAFF => "GATE_STAFF" | ADMIN => "ADMIN"
  end.

Definition organizer_status_text (s : OrganizerStatus) : string :=
  match s with
  | ORG_DRAFT => "DRAFT" | ORG_PENDING_REVIEW => "PENDING_REVIEW" | ORG_APPROVED => "APPROVED"
  | ORG_SUSPENDED => "SUSPENDED" | ORG_REJECTED => "REJECTED"
  end.

Definition event_status_text (s : EventStatus) : string :=
  match s with
  | EV_DRAFT => "DRAFT" | EV_PUBLISHED => "PUBLISHED" | EV_CANCELLED => "CANCELLED"
  | EV_ARCHIVED => "ARCHIVED"
  end.

Definition visibility_text (v : EventVisibility) : string :=
  match v with PRIVATE => "PRIVATE" | UNLISTED => "UNLISTED" | PUBLIC => "PUBLIC" end.

Definition category_text (c : EventCategory) : string :=
  match c with
  | NIGHTLIFE => "NIGHTLIFE" | CONCERT => "CONCERT" | FESTIVAL => "FESTIVAL" | CAMPUS => "CAMPUS"
  | CORPORATE => "CORPORATE" | COMMUNITY => "COMMUNITY" | SPORTS => "SPORTS" | ARTS => "ARTS"
  | OTHER_CATEGORY => "OTHER"
  end.

Definition ticket_status_text (s : TicketStatus) : string :=
  match s with
  | T_ISSUED => "ISSUED" | T_ACTIVE => "ACTIVE" | T_USED => "USED" | T_EXITED => "EXITED"
  | T_INVALIDATED => "INVALIDATED" | T_REFUNDED => "REFUNDED" | T_BLOCKED => "BLOCKED"
  | T_VOIDED => "VOIDED" | T_EXPIRED => "EXPIRED"
  end.

Definition scan_status_text (s : AdmissionScanStatus) : string :=
  match s with SCAN_ACCEPTED => "ACCEPTED" | SCAN_REJECTED => "REJECTED" end.

Definition rejection_text (r : AdmissionRejectionReason) : string :=
  match r with
  | INVALID_TOKEN => "INVALID_TOKEN" | TICKET_NOT_FOUND => "TICKET_NOT_FOUND"
  | TICKET_NOT_ISSUED => "TICKET_NOT_ISSUED" | TICKET_VOIDED => "TICKET_VOIDED"
  | TICKET_EXPIRED => "TICKET_EXPIRED" | TICKET_ALREADY_USED => "TICKET_ALREADY_USED"
  | EVENT_NOT_ACTIVE => "EVENT_NOT_ACTIVE" | EVENT_MISMATCH => "EVENT_MISMATCH"
  | ORGANIZER_MISMATCH => "ORGANIZER_MISMATCH" | TOKEN_REPLAY_DETECTED => "TOKEN_REPLAY_DETECTED"
  | STAFF_NOT_AUTHORIZED => "STAFF_NOT_AUTHORIZED"
  end.

Definition action_status_text (s : AdminActionStatus) : string :=
  match s with
  | ADMIN_SUCCEEDED => "SUCCEEDED" | ADMIN_REJECTED => "REJECTED" | ADMIN_FAILED => "FAILED"
  end.

Definition jdate_or_null (o : option Z) : json := match o with Some t => JDate t | None => JNull end.
Definition jnum_or_null (o : option Z) : json := match o with Some z => JNum z | None => JNull end.

(* ------------------------------------------------------------------ *)
(** ** AdminSupportRepository                                           *)

(** [AdminLookupQueryDto] as the pipe leaves it. *)
Record AdminLookupQuery : Type := {
  alq_limit : Z;
  alq_offset : Z;
  alq_search : option string
}.

(** [trimOptionalString] *)
Definition trimOptionalString (value : jsval) : option string :=
  match value with
  | Some (JStr s) => if bool_decide (trim s = "") then None else Some (trim s)
  | _ => None
  end.

(** [toAdminActionStatus], on ASCII letters. *)
Definition toAdminActionStatus (value : string) : option AdminActionStatus :=
  let v := toLowerCase (trim value) in
  if bool_decide (v = "succeeded") then Some ADMIN_SUCCEEDED
  else if bool_decide (v = "rejected") then Some ADMIN_REJECTED
  else if bool_decide (v = "failed") then Some ADMIN_FAILED
  else None.

(** Two spellings of one uuid. *)
Definition same_uuid (a b : string) : bool := bool_decide (toLowerCase a = toLowerCase b).

Definition same_uuid_opt (a : option string) (b : string) : bool :=
  match a with Some a => same_uuid a b | None => false end.

(** [orderBy: { t: 'desc' }] *)
Definition newest {R} (t : R -> Z) (a b : R) : Prop := t b <= t a.
#[export] Instance newest_dec {R} (t : R -> Z) : RelDecision (newest t).
Proof. intros a b. unfold newest. apply _. Defined.

(** [take] and [skip] of a sorted list. *)
Definition page {R} (t : R -> Z) (query : AdminLookupQuery) (rows : list R) : list R :=
  take (Z.to_nat (alq_limit query)) (drop (Z.to_nat (alq_offset query)) (merge_sort (newest t) rows)).

(** Sorting by a key, filtering and paging commute with what leaves the key alone. *)
Section SortFmap.
Context {R : Type} (t : R -> Z) (g : R -> R) (Hg : forall r, t (g r) = t r).

Lemma list_merge_fmap (l1 l2 : list R) :
  list_merge (newest t) (g <$> l1) (g <$> l2) = g <$> list_merge (newest t) l1 l2.
Proof.
  revert l2. induction l1 as [| x1 l1 IH1]; intros l2; [by destruct l2 |].
  induction l2 as [| x2 l2 IH2]; [done |]. cbn [fmap list_fmap]. rewrite !list_merge_cons.
  change (g x2 :: list_fmap R R g l2) with (g <$> x2 :: l2).
  rewrite (decide_ext (newest t (g x1) (g x2)) (newest t x1 x2)) by (unfold newest; by rewrite !Hg).
  destruct (decide (newest t x1 x2)); cbn [fmap list_fmap]; f_equal; [exact (IH1 (x2 :: l2)) | exact IH2].
Qed.

Definition stack_map (st : list (option (list R))) : list (option (list R)) :=
  map (option_map (fun l : list R => g <$> l)) st.

Lemma merge_list_to_stack_fmap st (l : list R) :
  merge_list_to_stack (newest t) (stack_map st) (g <$> l) =
    stack_map (merge_list_to_stack (newest t) st l).
Proof.
  revert l. induction st as [| [l' |] st IH]; intros l; [done | | done].
  cbn [stack_map map option_map merge_list_to_stack]. rewrite list_merge_fmap.
  unfold stack_map in IH. by rewrite IH.
Qed.

Lemma merge_stack_fmap (st : list (option (list R))) :
  merge_stack (newest t) (stack_map st) = g <$> merge_stack (newest t) st.
Proof.
  induction st as [| [l |] st IH]; [done | | exact IH]. change (stack_map (Some l :: st)) with
    (Some (g <$> l) :: stack_map st). cbn [merge_stack]. by rewrite <- list_merge_fmap, IH.
Qed.

Lemma merge_sort_fmap (l : list R) : merge_sort (newest t) (g <$> l) = g <$> merge_sort (newest t) l.
Proof.
  unfold merge_sort. change (@nil (option (list R))) with (stack_map []) at 1.
  generalize (@nil (option (list R))). induction l as [| x l IH]; intros st; cbn [fmap list_fmap merge_sort_aux];
    [apply merge_stack_fmap |].
  change [g x] with (g <$> [x]). by rewrite merge_list_to_stack_fmap, IH.
Qed.

Lemma page_fmap query (l : list R) : page t query (g <$> l) = g <$> page t query l.
Proof. unfold page. by rewrite merge_sort_fmap, <- fmap_drop, <- fmap_take. Qed.

End SortFmap.

Lemma filter_fmap_same {R} (g : R -> R) (P : R -> Prop) `{!forall x, Decision (P x)} (l : list R) :
  (forall r, P (g r) <-> P r) -> filter P (g <$> l) = g <$> filter P l.
Proof.
  intros HP. induction l as [| x l IH]; [done |]. cbn [fmap list_fmap]. rewrite !filter_cons.
  destruct (decide (P x)); [rewrite decide_True by (by apply HP) | rewrite decide_False by (by rewrite HP)];
    cbn [fmap list_fmap]; [f_equal |]; exact IH.
Qed.

Lemma find_rows_fmap {R} (g : R -> R) (P : R -> bool) (m : gmap string R) :
  (forall r, P (g r) = P r) -> find_rows P (g <$> m) = g <$> find_rows P m.
Proof.
  intros HP. unfold find_rows. rewrite map_to_list_fmap, <- list_fmap_compose.
  rewrite <- (filter_fmap_same g P) by (intros r; by rewrite HP).
  by rewrite <- list_fmap_compose.
Qed.

(** A scan audit with the id of its row. *)
Definition identified_scan : Type := string * scan_audit.

(** The columns the queries select. *)
Record AdminUserRecord : Type := {
  aur_id : string;
  aur_email : string;
  aur_role : UserRole;
  aur_isActive : bool;
  aur_createdAt : Z;
  aur_updatedAt : Z
}.

Record AdminOrganizerRecord : Type := {
  aor_id : string;
  aor_ownerUserId : string;
  aor_displayName : string;
  aor_slug : string;
  aor_status : OrganizerStatus;
  aor_contactEmail : option string;
  aor_contactPhone : option string;
  aor_createdAt : Z;
  aor_updatedAt : Z
}.

Record AdminEventRecord : Type := {
  aer_id : string;
  aer_organizerId : string;
  aer_title : string;
  aer_slug : string;
  aer_status : EventStatus;
  aer_visibility : EventVisibility;
  aer_category : EventCategory;
  aer_startsAt : Z;
  aer_endsAt : Z;
  aer_venueName : option string;
  aer_city : option string;
  aer_country : string;
  aer_paymentEnabled : bool;
  aer_priceMinor : option Z;
  aer_priceCurrency : string;
  aer_publishedAt : option Z;
  aer_cancelledAt : option Z;
  aer_createdAt : Z;
  aer_updatedAt : Z
}.

Record AdminPaymentRecord : Type := {
  apr_id : string;
  apr_buyerUserId : string;
  apr_organizerId : string;
  apr_eventId : string;
  apr_provider : PaymentProvider;
  apr_status : PaymentIntentStatus;
  apr_amountMinor : Z;
  apr_currency : string;
  apr_providerReference : string;
  apr_providerVerifiedStatus : option string;
  apr_providerVerifiedAmount : option Z;
  apr_providerVerifiedCurrency : option string;
  apr_createdAt : Z;
  apr_updatedAt : Z;
  apr_verifiedAt : option Z;
  apr_failedAt : option Z
}.

Record AdminTicketRecord : Type := {
  atr_id : string;
  atr_ticketNumber : option string;
  atr_ownerUserId : string;
  atr_eventId : string;
  atr_organizerId : option string;
  atr_paymentIntentId : option string;
  atr_status : TicketStatus;
  atr_issuedAt : Z;
  atr_usedAt : option Z;
  atr_voidedAt : option Z;
  atr_expiresAt : option Z
}.

Record AdminAdmissionScanRecord : Type := {
  asc_id : string;
  asc_ticketId : option string;
  asc_eventId : option string;
  asc_organizerId : option string;
  asc_scannedByUserId : option string;
  asc_status : AdmissionScanStatus;
  asc_rejectionReason : option AdmissionRejectionReason;
  asc_deviceId : option string;
  asc_gateLabel : option string;
  asc_scannedAt : Z
}.

Record AdminSupportAuditLogRecord : Type := {
  alr_id : string;
  alr_actorUserId : string;
  alr_action : string;
  alr_status : AdminActionStatus;
  alr_targetType : option string;
  alr_targetId : option string;
  alr_reasonCode : string;
  alr_reasonNote : option string;
  alr_metadata : json;
  alr_createdAt : Z
}.

Record AdminSupportListResult (R : Type) : Type := {
  lr_items : list R;
  lr_limit : Z;
  lr_offset : Z;
  lr_resultCount : Z
}.
Arguments lr_items {R}.
Arguments lr_limit {R}.
Arguments lr_offset {R}.
Arguments lr_resultCount {R}.

Definition toListResult {R} (items : list R) (query : AdminLookupQuery) : AdminSupportListResult R :=
  {| lr_items := items; lr_limit := alq_limit query; lr_offset := alq_offset query;
     lr_resultCount := Z.of_nat (length items) |}.

(** [CreateAdminSupportAuditLogInput] *)
Record CreateAdminSupportAuditLogInput : Type := {
  cal_actorUserId : string;
  cal_action : string;
  cal_status : AdminActionStatus;
  cal_targetType : option string;
  cal_targetId : option string;
  cal_reasonCode : string;
  cal_reasonNote : option string;
  cal_metadata : json
}.

Section AdminSupport.
Context (env : string -> option string).
(** [{ contains: ..., mode: 'insensitive' }] *)
Context (icontains : string -> string -> bool).
(** The columns createdAt and updatedAt, by row, and the ids of scan audits. *)
Context (createdAt updatedAt : string -> Z) (scanId : nat -> string).

Definition icontains_opt (column : option string) (search : string) : bool :=
  match column with Some c => icontains c search | None => false end.

Definition buildUserWhere (search : option string) (u : user) : bool :=
  match truthy search with
  | None => true
  | Some s => icontains (user_email u) s || is_uuid s && same_uuid (user_id u) s
  end.

Definition buildOrganizerWhere (search : option string) (o : organizer) : bool :=
  match truthy search with
  | None => true
  | Some s => icontains (op_displayName (org_profile o)) s || icontains (op_slug (org_profile o)) s ||
              is_uuid s && same_uuid (org_id o) s
  end.

Definition buildEventWhere (search : option string) (ev : event) : bool :=
  let l := ev_listing ev in
  match truthy search with
  | None => true
  | Some s => icontains (el_title l) s || icontains (el_slug l) s || icontains_opt (el_city l) s ||
              icontains (el_country l) s || is_uuid s && same_uuid (ev_id ev) s
  end.

Definition buildPaymentWhere (search : option string) (p : payment_intent) : bool :=
  match truthy search with
  | None => true
  | Some s => icontains (pi_providerReference p) s ||
              is_uuid s && (same_uuid (pi_id p) s || same_uuid (pi_buyerUserId p) s ||
                            same_uuid (pi_eventId p) s)
  end.

Definition buildTicketWhere (search : option string) (t : ticket) : bool :=
  match truthy search with
  | None => true
  | Some s => icontains_opt (tk_ticketNumber t) s ||
              is_uuid s && (same_uuid (tk_id t) s || same_uuid (tk_ownerUserId t) s ||
                            same_uuid (tk_eventId t) s)
  end.

Definition buildAdmissionScanWhere (search : option string) (r : identified_scan) : bool :=
  match truthy search with
  | None => true
  | Some s => is_uuid s && (same_uuid r.1 s || same_uuid_opt (sa_ticketId r.2) s ||
                            same_uuid_opt (sa_eventId r.2) s || same_uuid_opt (sa_organizerId r.2) s)
  end.

Definition buildAdminSupportAuditLogWhere (search : option string) (a : support_audit) : bool :=
  match truthy search with
  | None => true
  | Some s => icontains (sup_action a) s || icontains_opt (sup_targetType a) s ||
              icontains (sup_reasonCode a) s ||
              match toAdminActionStatus s with
              | Some status => bool_decide (sup_status a = status)
              | None => false
              end ||
              is_uuid s && (same_uuid (sup_actorUserId a) s || same_uuid_opt (sup_targetId a) s)
  end.

(** [userSelect] and the others. *)
Definition userSelect (u : user) : AdminUserRecord :=
  {| aur_id := user_id u; aur_email := user_email u; aur_role := user_role u;
     aur_isActive := user_isActive u; aur_createdAt := createdAt (user_id u);
     aur_updatedAt := updatedAt (user_id u) |}.

Definition organizerSelect (o : organizer) : AdminOrganizerRecord :=
  {| aor_id := org_id o; aor_ownerUserId := org_ownerUserId o;
     aor_displayName := op_displayName (org_profile o); aor_slug := op_slug (org_profile o);
     aor_status := org_status o; aor_contactEmail := op_contactEmail (org_profile o);
     aor_contactPhone := op_contactPhone (org_profile o); aor_createdAt := createdAt (org_id o);
     aor_updatedAt := updatedAt (org_id o) |}.

Definition eventSelect (ev : event) : AdminEventRecord :=
  {| aer_id := ev_id ev; aer_organizerId := ev_organizerId ev;
     aer_title := el_title (ev_listing ev); aer_slug := el_slug (ev_listing ev);
     aer_status := ev_status ev; aer_visibility := ev_visibility ev;
     aer_category := el_category (ev_listing ev); aer_startsAt := el_startsAt (ev_listing ev);
     aer_endsAt := ev_endsAt ev; aer_venueName := el_venueName (ev_listing ev);
     aer_city := el_city (ev_listing ev); aer_country := el_country (ev_listing ev);
     aer_paymentEnabled := ev_paymentEnabled ev; aer_priceMinor := ev_priceMinor ev;
     aer_priceCurrency := ev_priceCurrency ev; aer_publishedAt := el_publishedAt (ev_listing ev);
     aer_cancelledAt := el_cancelledAt (ev_listing ev); aer_createdAt := createdAt (ev_id ev);
     aer_updatedAt := updatedAt (ev_id ev) |}.

Definition paymentSelect (p : payment_intent) : AdminPaymentRecord :=
  {| apr_id := pi_id p; apr_buyerUserId := pi_buyerUserId p; apr_organizerId := pi_organizerId p;
     apr_eventId := pi_eventId p; apr_provider := pi_provider p; apr_status := pi_status p;
     apr_amountMinor := pi_amountMinor p; apr_currency := pi_currency p;
     apr_providerReference := pi_providerReference p;
     apr_providerVerifiedStatus := pi_providerVerifiedStatus p;
     apr_providerVerifiedAmount := pi_providerVerifiedAmount p;
     apr_providerVerifiedCurrency := pi_providerVerifiedCurrency p;
     apr_createdAt := createdAt (pi_id p); apr_updatedAt := updatedAt (pi_id p);
     apr_verifiedAt := pi_verifiedAt p; apr_failedAt := pi_failedAt p |}.

Definition ticketSelect (t : ticket) : AdminTicketRecord :=
  {| atr_id := tk_id t; atr_ticketNumber := tk_ticketNumber t; atr_ownerUserId := tk_ownerUserId t;
     atr_eventId := tk_eventId t; atr_organizerId := tk_organizerId t;
     atr_paymentIntentId := tk_paymentIntentId t; atr_status := tk_status t;
     atr_issuedAt := tk_issuedAt t; atr_usedAt := tk_usedAt t; atr_voidedAt := tk_voidedAt t;
     atr_expiresAt := tk_expiresAt t |}.

Definition admissionScanSelect (r : identified_scan) : AdminAdmissionScanRecord :=
  {| asc_id := r.1; asc_ticketId := sa_ticketId r.2; asc_eventId := sa_eventId r.2;
     asc_organizerId := sa_organizerId r.2; asc_scannedByUserId := sa_scannedByUserId r.2;
     asc_status := sa_status r.2; asc_rejectionReason := sa_rejectionReason r.2;
     asc_deviceId := sa_deviceId r.2; asc_gateLabel := sa_gateLabel r.2;
     asc_scannedAt := sa_scannedAt r.2 |}.

Definition adminSupportAuditLogSelect (a : support_audit) : AdminSupportAuditLogRecord :=
  {| alr_id := sup_id a; alr_actorUserId := sup_actorUserId a; alr_action := sup_action a;
     alr_status := sup_status a; alr_targetType := sup_targetType a;
     alr_targetId := sup_targetId a; alr_reasonCode := sup_reasonCode a;
     alr_reasonNote := sup_reasonNote a; alr_metadata := sup_metadata a;
     alr_createdAt := createdAt (sup_id a) |}.

Definition repo_listUsers (query : AdminLookupQuery) : op (AdminSupportListResult AdminUserRecord) :=
  reads (fun w => toListResult (userSelect <$> page (fun u => createdAt (user_id u)) query
    (find_rows (buildUserWhere (alq_search query)) (users (catalog w)))) query).

Definition getUserById (userId : string) : op (option AdminUserRecord) :=
  reads (fun w => userSelect <$> tb_rows users_t w !! userId).

Definition repo_listOrganizers (query : AdminLookupQuery) : op (AdminSupportListResult AdminOrganizerRecord) :=
  reads (fun w => toListResult (organizerSelect <$> page (fun o => createdAt (org_id o)) query
    (find_rows (buildOrganizerWhere (alq_search query)) (organizers (catalog w)))) query).

Definition getOrganizerById (organizerId : string) : op (option AdminOrganizerRecord) :=
  reads (fun w => organizerSelect <$> tb_rows organizers_t w !! organizerId).

Definition repo_listEvents (query : AdminLookupQuery) : op (AdminSupportListResult AdminEventRecord) :=
  reads (fun w => toListResult (eventSelect <$> page (fun ev => createdAt (ev_id ev)) query
    (find_rows (buildEventWhere (alq_search query)) (events (catalog w)))) query).

Definition getEventById (eventId : string) : op (option AdminEventRecord) :=
  reads (fun w => eventSelect <$> tb_rows events_t w !! eventId).

Definition repo_listPayments (query : AdminLookupQuery) : op (AdminSupportListResult AdminPaymentRecord) :=
  reads (fun w => toListResult (paymentSelect <$> page (fun p => createdAt (pi_id p)) query
    (find_rows (buildPaymentWhere (alq_search query)) (payment_intents (intents w)))) query).

Definition getPaymentById (paymentIntentId : string) : op (option AdminPaymentRecord) :=
  reads (fun w => paymentSelect <$> tb_rows payment_intents_t w !! paymentIntentId).

Definition repo_listTickets (query : AdminLookupQuery) : op (AdminSupportListResult AdminTicketRecord) :=
  reads (fun w => toListResult (ticketSelect <$> page tk_issuedAt query
    (find_rows (buildTicketWhere (alq_search query)) (tickets (ticketing w)))) query).

Definition getTicketById (ticketId : string) : op (option AdminTicketRecord) :=
  reads (fun w => ticketSelect <$> tb_rows tickets_t w !! ticketId).

Definition scan_rows (w : world) : list identified_scan :=
  imap (fun i r => (scanId i, r)) (scan_audits (ticketing w)).

Definition repo_listAdmissionScans (query : AdminLookupQuery) : op (AdminSupportListResult AdminAdmissionScanRecord) :=
  reads (fun w => toListResult (admissionScanSelect <$> page (fun r => sa_scannedAt r.2) query
    (filter (fun r => buildAdmissionScanWhere (alq_search query) r = true) (scan_rows w))) query).

Definition getAdmissionScanById (scanAuditId : string) : op (option AdminAdmissionScanRecord) :=
  reads (fun w => admissionScanSelect <$> head (filter (fun r => r.1 = scanAuditId) (scan_rows w))).

Definition repo_listAuditLogs (query : AdminLookupQuery) : op (AdminSupportListResult AdminSupportAuditLogRecord) :=
  reads (fun w => toListResult (adminSupportAuditLogSelect <$> page (fun a => createdAt (sup_id a)) query
    (find_rows (buildAdminSupportAuditLogWhere (alq_search query)) (support_audits (journal w)))) query).

(** The row's id is drawn by the database. *)
Definition createAuditLog (id : string) (input : CreateAdminSupportAuditLogInput) : op unit :=
  create support_audits_t
    {| sup_id := id; sup_actorUserId := cal_actorUserId input; sup_action := cal_action input;
       sup_status := cal_status input; sup_targetType := cal_targetType input;
       sup_targetId := cal_targetId input; sup_reasonCode := cal_reasonCode input;
       sup_reasonNote := cal_reasonNote input; sup_metadata := cal_metadata input |}.

(* ------------------------------------------------------------------ *)
(** ** AdminSupportAuditService                                         *)

Definition recordRead (id actorUserId action targetType : string) (targetId : option string)
    (metadata : json) : op unit :=
  let data := {| cal_actorUserId := actorUserId; cal_action := action; cal_status := ADMIN_SUCCEEDED;
                 cal_targetType := Some targetType; cal_targetId := targetId;
                 cal_reasonCode := "SUPPORT_READ"; cal_reasonNote := None;
                 cal_metadata := redactResponse env metadata |} in
  catch (createAuditLog id data)
    (fun _ => throw (InternalServerErrorException "Internal server error")).

(* ------------------------------------------------------------------ *)
(** ** AdminSupportService: the responses                               *)

Definition toUserResponse (r : AdminUserRecord) : json :=
  JObj [("id", JStr (aur_id r)); ("email", JStr (aur_email r));
        ("role", JStr (role_text (aur_role r))); ("isActive", JBool (aur_isActive r));
        ("createdAt", JDate (aur_createdAt r)); ("updatedAt", JDate (aur_updatedAt r))].

Definition toOrganizerResponse (r : AdminOrganizerRecord) : json :=
  JObj [("id", JStr (aor_id r)); ("ownerUserId", JStr (aor_ownerUserId r));
        ("displayName", JStr (aor_displayName r)); ("slug", JStr (aor_slug r));
        ("status", JStr (organizer_status_text (aor_status r)));
        ("contactEmail", jstr_or_null (aor_contactEmail r));
        ("contactPhone", jstr_or_null (aor_contactPhone r));
        ("createdAt", JDate (aor_createdAt r)); ("updatedAt", JDate (aor_updatedAt r))].

Definition toEventResponse (r : AdminEventRecord) : json :=
  JObj [("id", JStr (aer_id r)); ("organizerId", JStr (aer_organizerId r));
        ("title", JStr (aer_title r)); ("slug", JStr (aer_slug r));
        ("status", JStr (event_status_text (aer_status r)));
        ("visibility", JStr (visibility_text (aer_visibility r)));
        ("category", JStr (category_text (aer_category r))); ("startsAt", JDate (aer_startsAt r));
        ("endsAt", JDate (aer_endsAt r)); ("venueName", jstr_or_null (aer_venueName r));
        ("city", jstr_or_null (aer_city r)); ("country", JStr (aer_country r));
        ("paymentEnabled", JBool (aer_paymentEnabled r));
        ("priceMinor", jnum_or_null (aer_priceMinor r));
        ("priceCurrency", JStr (aer_priceCurrency r));
        ("publishedAt", jdate_or_null (aer_publishedAt r));
        ("cancelledAt", jdate_or_null (aer_cancelledAt r)); ("createdAt", JDate (aer_createdAt r));
        ("updatedAt", JDate (aer_updatedAt r))].

Definition toPaymentResponse (r : AdminPaymentRecord) : json :=
  JObj [("id", JStr (apr_id r)); ("buyerUserId", JStr (apr_buyerUserId r));
        ("organizerId", JStr (apr_organizerId r)); ("eventId", JStr (apr_eventId r));
        ("provider", JStr (provider_name (apr_provider r)));
        ("status", JStr (intent_status_text (apr_status r)));
        ("amountMinor", JNum (apr_amountMinor r)); ("currency", JStr (apr_currency r));
        ("providerReference", JStr (apr_providerReference r));
        ("providerVerifiedStatus", jstr_or_null (apr_providerVerifiedStatus r));
        ("providerVerifiedAmount", jnum_or_null (apr_providerVerifiedAmount r));
        ("providerVerifiedCurrency", jstr_or_null (apr_providerVerifiedCurrency r));
        ("createdAt", JDate (apr_createdAt r)); ("updatedAt", JDate (apr_updatedAt r));
        ("verifiedAt", jdate_or_null (apr_verifiedAt r));
        ("failedAt", jdate_or_null (apr_failedAt r))].

Definition support_ticket_response (r : AdminTicketRecord) : json :=
  JObj [("id", JStr (atr_id r)); ("ticketNumber", jstr_or_null (atr_ticketNumber r));
        ("ownerUserId", JStr (atr_ownerUserId r)); ("eventId", JStr (atr_eventId r));
        ("organizerId", jstr_or_null (atr_organizerId r));
        ("paymentIntentId", jstr_or_null (atr_paymentIntentId r));
        ("status", JStr (ticket_status_text (atr_status r))); ("issuedAt", JDate (atr_issuedAt r));
        ("usedAt", jdate_or_null (atr_usedAt r)); ("voidedAt", jdate_or_null (atr_voidedAt r));
        ("expiresAt", jdate_or_null (atr_expiresAt r))].

Definition toAdmissionScanResponse (r : AdminAdmissionScanRecord) : json :=
  JObj [("id", JStr (asc_id r)); ("ticketId", jstr_or_null (asc_ticketId r));
        ("eventId", jstr_or_null (asc_eventId r));
        ("organizerId", jstr_or_null (asc_organizerId r));
        ("scannedByUserId", jstr_or_null (asc_scannedByUserId r));
        ("status", JStr (scan_status_text (asc_status r)));
        ("rejectionReason", jstr_or_null (rejection_text <$> (asc_rejectionReason r)));
        ("deviceId", jstr_or_null (asc_deviceId r)); ("gateLabel", jstr_or_null (asc_gateLabel r));
        ("scannedAt", JDate (asc_scannedAt r))].

Definition toAuditLogResponse (r : AdminSupportAuditLogRecord) : json :=
  JObj [("id", JStr (alr_id r)); ("actorUserId", JStr (alr_actorUserId r));
        ("action", JStr (alr_action r)); ("status", JStr (action_status_text (alr_status r)));
        ("targetType", jstr_or_null (alr_targetType r));
        ("targetId", jstr_or_null (alr_targetId r)); ("reasonCode", JStr (alr_reasonCode r));
        ("reasonNote", jstr_or_null (alr_reasonNote r));
        ("metadata", match alr_metadata r with
                     | JObj _ | JArr _ => redactResponse env (alr_metadata r)
                     | _ => JNull
                     end);
        ("createdAt", JDate (alr_createdAt r))].

(* ------------------------------------------------------------------ *)
(** ** AdminSupportService: the reads                                   *)

(** [SUPPORT_ACTIONS], [SUPPORT_TARGET_TYPES] and the routes of one kind of record. *)
Record SupportKind : Type := {
  sk_action : string;
  sk_targetType : string;
  sk_route : string;
  sk_detail : string;
  sk_missing : string
}.

Definition support_user : SupportKind :=
  {| sk_action := "admin_support_read_user"; sk_targetType := "user";
     sk_route := "GET /admin/support/users"; sk_detail := "/:userId"; sk_missing := "User not found." |}.
Definition support_organizer : SupportKind :=
  {| sk_action := "admin_support_read_organizer"; sk_targetType := "organizer";
     sk_route := "GET /admin/support/organizers"; sk_detail := "/:organizerId";
     sk_missing := "Organizer not found." |}.
Definition support_event : SupportKind :=
  {| sk_action := "admin_support_read_event"; sk_targetType := "event";
     sk_route := "GET /admin/support/events"; sk_detail := "/:eventId"; sk_missing := "Event not found." |}.
Definition support_payment : SupportKind :=
  {| sk_action := "admin_support_read_payment"; sk_targetType := "payment_intent";
     sk_route := "GET /admin/support/payments"; sk_detail := "/:paymentIntentId";
     sk_missing := "Payment intent not found." |}.
Definition support_ticket : SupportKind :=
  {| sk_action := "admin_support_read_ticket"; sk_targetType := "ticket";
     sk_route := "GET /admin/support/tickets"; sk_detail := "/:ticketId"; sk_missing := "Ticket not found." |}.
Definition support_scan : SupportKind :=
  {| sk_action := "admin_support_read_admission_scan"; sk_targetType := "admission_scan_audit";
     sk_route := "GET /admin/support/admission-scans"; sk_detail := "/:scanAuditId";
     sk_missing := "Admission scan audit not found." |}.
Definition support_log : SupportKind :=
  {| sk_action := "admin_support_read_audit_log"; sk_targetType := "admin_support_audit_log";
     sk_route := "GET /admin/support/audit-logs"; sk_detail := ""; sk_missing := "" |}.

(** [auditListAndReturn] *)
Definition auditListAndReturn {R} (id actorUserId : string) (kind : SupportKind)
    (query : AdminLookupQuery) (mapItem : R -> json) (result : AdminSupportListResult R) : op json :=
  let payload := JObj [("items", JArr ((fun r => redactResponse env (mapItem r)) <$> lr_items result));
                       ("limit", JNum (lr_limit result)); ("offset", JNum (lr_offset result));
                       ("resultCount", JNum (lr_resultCount result))] in
  do* recordRead id actorUserId (sk_action kind) (sk_targetType kind) None
        (JObj [("route", JStr (sk_route kind)); ("routeAction", JStr (sk_action kind));
               ("limit", JNum (lr_limit result)); ("offset", JNum (lr_offset result));
               ("resultCount", JNum (lr_resultCount result));
               ("safeFilterNames",
                  JArr (match truthy (alq_search query) with Some _ => [JStr "search"] | None => [] end));
               ("filters",
                  JObj (match truthy (alq_search query) with Some s => [("search", JStr s)] | None => [] end));
               ("targetType", JStr (sk_targetType kind))]) in
  ret payload.

(** [auditDetailAndReturn] *)
Definition auditDetailAndReturn (id actorUserId : string) (kind : SupportKind) (targetId : string)
    (payload : json) : op json :=
  let payload := redactResponse env payload in
  do* recordRead id actorUserId (sk_action kind) (sk_targetType kind) (Some targetId)
        (JObj [("route", JStr (sk_route kind +:+ sk_detail kind)); ("routeAction", JStr (sk_action kind));
               ("limit", JNum 1); ("offset", JNum 0); ("resultCount", JNum 1);
               ("targetType", JStr (sk_targetType kind)); ("targetId", JStr targetId)]) in
  ret payload.

(** The detail methods: the record, or 404. *)
Definition detail {R} (id actorUserId : string) (kind : SupportKind) (targetId : string)
    (find : op (option R)) (respond : R -> json) : op json :=
  let* found := find in
  let* r := or_throw found (NotFoundException (sk_missing kind)) in
  auditDetailAndReturn id actorUserId kind targetId (respond r).

Definition listUsers (id actorUserId : string) (query : AdminLookupQuery) : op json :=
  let* result := repo_listUsers query in
  auditListAndReturn id actorUserId support_user query toUserResponse result.
Definition listOrganizers (id actorUserId : string) (query : AdminLookupQuery) : op json :=
  let* result := repo_listOrganizers query in
  auditListAndReturn id actorUserId support_organizer query toOrganizerResponse result.
Definition listEvents (id actorUserId : string) (query : AdminLookupQuery) : op json :=
  let* result := repo_listEvents query in
  auditListAndReturn id actorUserId support_event query toEventResponse result.
Definition listPayments (id actorUserId : string) (query : AdminLookupQuery) : op json :=
  let* result := repo_listPayments query in
  auditListAndReturn id actorUserId support_payment query toPaymentResponse result.
Definition listTickets (id actorUserId : string) (query : AdminLookupQuery) : op json :=
  let* result := repo_listTickets query in
  auditListAndReturn id actorUserId support_ticket query support_ticket_response result.
Definition listAdmissionScans (id actorUserId : string) (query : AdminLookupQuery) : op json :=
  let* result := repo_listAdmissionScans query in
  auditListAndReturn id actorUserId support_scan query toAdmissionScanResponse result.
Definition listAuditLogs (id actorUserId : string) (query : AdminLookupQuery) : op json :=
  let* result := repo_listAuditLogs query in
  auditListAndReturn id actorUserId support_log query toAuditLogResponse result.

Definition getUser (id actorUserId userId : string) : op json :=
  detail id actorUserId support_user userId (getUserById userId) toUserResponse.
Definition getOrganizer (id actorUserId organizerId : string) : op json :=
  detail id actorUserId support_organizer organizerId (getOrganizerById organizerId)
    toOrganizerResponse.
Definition getEvent (id actorUserId eventId : string) : op json :=
  detail id actorUserId support_event eventId (getEventById eventId) toEventResponse.
Definition getPayment (id actorUserId paymentIntentId : string) : op json :=
  detail id actorUserId support_payment paymentIntentId (getPaymentById paymentIntentId)
    toPaymentResponse.
Definition getTicket (id actorUserId ticketId : string) : op json :=
  detail id actorUserId support_ticket ticketId (getTicketById ticketId) support_ticket_response.
Definition getAdmissionScan (id actorUserId scanAuditId : string) : op json :=
  detail id actorUserId support_scan scanAuditId (getAdmissionScanById scanAuditId)
    toAdmissionScanResponse.

(** The routes of the controller. *)
Inductive SupportRequest : Type :=
| ListUsers (query : AdminLookupQuery)
| GetUser (userId : string)
| ListOrganizers (query : AdminLookupQuery)
| GetOrganizer (organizerId : string)
| ListEvents (query : AdminLookupQuery)
| GetEvent (eventId : string)
| ListPayments (query : AdminLookupQuery)
| GetPayment (paymentIntentId : string)
| ListTickets (query : AdminLookupQuery)
| GetTicket (ticketId : string)
| ListAdmissionScans (query : AdminLookupQuery)
| GetAdmissionScan (scanAuditId : string)
| ListAuditLogs (query : AdminLookupQuery).

(** [@Permissions] of the routes. *)
Definition support_permission (rq : SupportRequest) : AppPermission :=
  match rq with
  | ListUsers _ | GetUser _ => ADMIN_SUPPORT_READ_USERS
  | ListOrganizers _ | GetOrganizer _ => ADMIN_SUPPORT_READ_ORGANIZERS
  | ListEvents _ | GetEvent _ => ADMIN_SUPPORT_READ_EVENTS
  | ListPayments _ | GetPayment _ => ADMIN_SUPPORT_READ_PAYMENTS
  | ListTickets _ | GetTicket _ => ADMIN_SUPPORT_READ_TICKETS
  | ListAdmissionScans _ | GetAdmissionScan _ => ADMIN_SUPPORT_READ_ADMISSIONS
  | ListAuditLogs _ => ADMIN_SUPPORT_READ_AUDIT_LOGS
  end.

(** The handler of a route. *)
Definition serve (id actorUserId : string) (rq : SupportRequest) : op json :=
  match rq with
  | ListUsers q => listUsers id actorUserId q
  | GetUser k => getUser id actorUserId k
  | ListOrganizers q => listOrganizers id actorUserId q
  | GetOrganizer k => getOrganizer id actorUserId k
  | ListEvents q => listEvents id actorUserId q
  | GetEvent k => getEvent id actorUserId k
  | ListPayments q => listPayments id actorUserId q
  | GetPayment k => getPayment id actorUserId k
  | ListTickets q => listTickets id actorUserId q
  | GetTicket k => getTicket id actorUserId k
  | ListAdmissionScans q => listAdmissionScans id actorUserId q
  | GetAdmissionScan k => getAdmissionScan id actorUserId k
  | ListAuditLogs q => listAuditLogs id actorUserId q
  end.

(** A request through the guards. *)
Definition support_route (id : string) (u : AuthUser) (rq : SupportRequest) : op json :=
  do* (match permissions_canActivate (Some [support_permission rq]) (Some (au_role u)) with
       | Ok _ => ret tt
       | Err e => throw e
       end) in
  serve id (au_id u) rq.

(* ------------------------------------------------------------------ *)
(** ** Every read leaves its trace                                      *)

(** The kind of record a request is about, and the record of a detail request. *)
Definition kind_of (rq : SupportRequest) : SupportKind :=
  match rq with
  | ListUsers _ | GetUser _ => support_user
  | ListOrganizers _ | GetOrganizer _ => support_organizer
  | ListEvents _ | GetEvent _ => support_event
  | ListPayments _ | GetPayment _ => support_payment
  | ListTickets _ | GetTicket _ => support_ticket
  | ListAdmissionScans _ | GetAdmissionScan _ => support_scan
  | ListAuditLogs _ => support_log
  end.

Definition target_of (rq : SupportRequest) : option string :=
  match rq with
  | GetUser k | GetOrganizer k | GetEvent k | GetPayment k | GetTicket k | GetAdmissionScan k => Some k
  | _ => None
  end.

(** The record a detail request names exists. *)
Definition target_exists (rq : SupportRequest) (w : world) : bool :=
  match rq with
  | GetUser k => bool_decide (is_Some (users (catalog w) !! k))
  | GetOrganizer k => bool_decide (is_Some (organizers (catalog w) !! k))
  | GetEvent k => bool_decide (is_Some (events (catalog w) !! k))
  | GetPayment k => bool_decide (is_Some (payment_intents (intents w) !! k))
  | GetTicket k => bool_decide (is_Some (tickets (ticketing w) !! k))
  | GetAdmissionScan k => bool_decide (k ∈ (scan_rows w).*1)
  | _ => true
  end.

(** The one row a read adds. *)
Record read_trace (id actorUserId : string) (rq : SupportRequest) (w w' : world) (a : support_audit)
  : Prop := {
  rt_fresh : support_audits (journal w) !! id = None;
  rt_world : w' = set_support_audits (<[id := a]> (support_audits (journal w))) w;
  rt_id : sup_id a = id;
  rt_actor : sup_actorUserId a = actorUserId;
  rt_action : sup_action a = sk_action (kind_of rq);
  rt_status : sup_status a = ADMIN_SUCCEEDED;
  rt_targetType : sup_targetType a = Some (sk_targetType (kind_of rq));
  rt_targetId : sup_targetId a = target_of rq;
  rt_metadata : redactResponse env (sup_metadata a) = sup_metadata a
}.

(** An answer that redaction would not touch. *)
Definition redacted (answer : json) : Prop := redactResponse env answer = answer.

Definition answered (id actorUserId : string) (rq : SupportRequest) (w : world) (answer : json)
    (w' : world) : Prop :=
  redacted answer /\ exists a, read_trace id actorUserId rq w w' a.

(** A read that fails for want of its audit row. *)
Definition unaudited (id : string) (w : world) (e : error) (w' : world) : Prop :=
  e = InternalServerErrorException "Internal server error" /\ w' = w /\
  support_audits (journal w) !! id <> None.

Lemma recordRead_wp id actorUserId rq metadata (w : world) :
  wp (recordRead id actorUserId (sk_action (kind_of rq)) (sk_targetType (kind_of rq)) (target_of rq) metadata)
    (fun _ w' => exists a, read_trace id actorUserId rq w w' a) (unaudited id w) w.
Proof.
  unfold recordRead, createAuditLog, create, wp, catch. cbn [tb_id tb_rows tb_clash tb_store support_audits_t sup_id].
  assert (Hclash : forall r, find_row (no_clash r) (support_audits (journal w)) = None)
    by (intros r; by apply find_row_None).
  rewrite Hclash. destruct (bool_decide_reflect (support_audits (journal w) !! id = None)) as [Hnew | Htaken];
    cbn; [| by unfold unaudited, throw].
  eexists. split; try done. cbn. apply redact_idempotent.
Qed.

Lemma redacted_list {R} (f : R -> json) (items : list R) limit offset count :
  redacted (JObj [("items", JArr ((fun r => redactResponse env (f r)) <$> items)); ("limit", JNum limit);
                  ("offset", JNum offset); ("resultCount", JNum count)]).
Proof.
  assert (Hitems : map (redactUnknown env) ((fun r => redactResponse env (f r)) <$> items) =
                   (fun r => redactResponse env (f r)) <$> items).
  { induction items as [| r items IH]; [done |]. cbn [fmap list_fmap map]. rewrite IH.
    unfold redactResponse. by rewrite redact_idempotent. }
  unfold redacted. rewrite <- Hitems at 2. reflexivity.
Qed.

(** A list request, whatever the query and the page. *)
Lemma list_wp {R} id actorUserId rq query (f : R -> json) result (w : world) :
  target_of rq = None ->
  wp (auditListAndReturn id actorUserId (kind_of rq) query f result)
    (answered id actorUserId rq w) (unaudited id w) w.
Proof.
  intros Ht. unfold auditListAndReturn. cbv zeta. rewrite <- Ht. apply wp_bind.
  eapply wp_mono; [apply recordRead_wp | cbn beta | done]. intros _ w' Ha.
  split; [apply redacted_list | exact Ha].
Qed.

(** A detail request: it answers when the record is there, and is 404 otherwise. *)
Lemma detail_wp {R S} id actorUserId rq targetId (find : world -> option R) (select : R -> S) (f : S -> json)
    (w : world) :
  target_of rq = Some targetId -> target_exists rq w = bool_decide (is_Some (find w)) ->
  wp (detail id actorUserId (kind_of rq) targetId (reads (fun w => select <$> find w)) f)
    (fun answer w' => target_exists rq w = true /\ answered id actorUserId rq w answer w')
    (fun e w' => if target_exists rq w then unaudited id w e w'
                 else e = NotFoundException (sk_missing (kind_of rq)) /\ w' = w) w.
Proof.
  intros Ht He. unfold detail. wp_step. wp_step. wp_step.
  wp_step.
  - apply fmap_None in H. by rewrite He, bool_decide_eq_false_2 by (by rewrite H; intros [? ?]).
  - apply fmap_Some in H as (r & Hr & _).
    assert (Hyes : target_exists rq w = true) by (rewrite He; apply bool_decide_eq_true_2; by eexists).
    rewrite Hyes. unfold auditDetailAndReturn. cbv zeta. rewrite <- Ht. apply wp_bind.
    eapply wp_mono; [apply recordRead_wp | cbn beta | done]. intros _ w' Ha.
    split; [done |]. split; [apply redact_idempotent | exact Ha].
Qed.

Lemma scan_found k (w : world) :
  bool_decide (k ∈ (scan_rows w).*1) =
    bool_decide (is_Some (head (filter (fun r => r.1 = k) (scan_rows w)))).
Proof.
  apply bool_decide_ext. split.
  - intros (r & -> & Hr)%list_elem_of_fmap.
    destruct (filter (fun r' => r'.1 = r.1) (scan_rows w)) as [| r' l] eqn:E; [| by eexists].
    exfalso. eapply not_elem_of_nil. rewrite <- E. by apply list_elem_of_filter.
  - intros [r Hr]. destruct (filter (fun r => r.1 = k) (scan_rows w)) as [| r' l] eqn:E; [done |].
    assert (Hin : r' ∈ filter (fun r => r.1 = k) (scan_rows w)) by (rewrite E; left).
    apply list_elem_of_filter in Hin as [<- Hin]. apply list_elem_of_fmap. by exists r'.
Qed.

Lemma serve_wp id actorUserId rq (w : world) :
  wp (serve id actorUserId rq)
    (fun answer w' => target_exists rq w = true /\ answered id actorUserId rq w answer w')
    (fun e w' => if target_exists rq w then unaudited id w e w'
                 else e = NotFoundException (sk_missing (kind_of rq)) /\ w' = w) w.
Proof.
  assert (Hlist : forall R query (f : R -> json) (read : world -> AdminSupportListResult R),
    target_of rq = None -> target_exists rq w = true ->
    wp (let* result := reads read in
        auditListAndReturn id actorUserId (kind_of rq) query f result)
      (fun answer w' => target_exists rq w = true /\ answered id actorUserId rq w answer w')
      (fun e w' => if target_exists rq w then unaudited id w e w'
                   else e = NotFoundException (sk_missing (kind_of rq)) /\ w' = w) w).
  { intros R query f read Ht He. rewrite He. do 2 wp_step.
    eapply wp_mono; [by apply list_wp | cbn beta | done]. done. }
  destruct rq as [q | k | q | k | q | k | q | k | q | k | q | k | q]; cbn [serve]; try (by apply Hlist).
  1-5: match goal with |- context [target_exists ?rq _] =>
         exact (detail_wp id actorUserId rq k _ _ _ w eq_refl eq_refl) end.
  exact (detail_wp id actorUserId (GetAdmissionScan k) k _ _ _ w eq_refl (scan_found k w)).
Qed.

Lemma support_permission_admin rq role :
  permissions_canActivate (Some [support_permission rq]) (Some role) =
    if bool_decide (role = ADMIN) then Ok true
    else Err (ForbiddenException "insufficient permissions").
Proof. by destruct rq, role. Qed.

(* ------------------------------------------------------------------ *)
(** ** What the answers cannot depend on                                *)

Definition public_user (u : user) : user :=
  {| user_id := user_id u; user_email := user_email u; user_passwordHash := "";
     user_role := user_role u; user_isActive := user_isActive u; user_emailVerifiedAt := None |}.

Definition public_intent (p : payment_intent) : payment_intent :=
  {| pi_id := pi_id p; pi_buyerUserId := pi_buyerUserId p; pi_organizerId := pi_organizerId p;
     pi_eventId := pi_eventId p; pi_provider := pi_provider p; pi_status := pi_status p;
     pi_amountMinor := pi_amountMinor p; pi_currency := pi_currency p; pi_idempotencyUseCase := "";
     pi_idempotencyKeyHash := ""; pi_requestFingerprintHash := "";
     pi_providerReference := pi_providerReference p; pi_providerCheckoutUrl := None;
     pi_providerAccessCode := None; pi_providerRawResponse := JNull; pi_failureCode := None;
     pi_failureMessage := None; pi_initiatedAt := None; pi_verifiedAt := pi_verifiedAt p;
     pi_failedAt := pi_failedAt p; pi_providerVerifiedStatus := pi_providerVerifiedStatus p;
     pi_providerVerifiedAmount := pi_providerVerifiedAmount p;
     pi_providerVerifiedCurrency := pi_providerVerifiedCurrency p; pi_providerVerificationRaw := JNull |}.

Definition public_ticket (t : ticket) : ticket :=
  {| tk_id := tk_id t; tk_ticketNumber := tk_ticketNumber t; tk_eventId := tk_eventId t;
     tk_organizerId := tk_organizerId t; tk_ticketTypeId := None; tk_ownerUserId := tk_ownerUserId t;
     tk_orderId := None; tk_paymentIntentId := tk_paymentIntentId t; tk_status := tk_status t;
     tk_admissionTokenHash := None; tk_admissionTokenVersion := 0; tk_ticketSerial := "";
     tk_publicReference := ""; tk_issuedAt := tk_issuedAt t; tk_usedAt := tk_usedAt t;
     tk_voidedAt := tk_voidedAt t; tk_expiresAt := tk_expiresAt t |}.

Definition public_scan (r : scan_audit) : scan_audit :=
  {| sa_ticketId := sa_ticketId r; sa_eventId := sa_eventId r; sa_organizerId := sa_organizerId r;
     sa_scannedByUserId := sa_scannedByUserId r; sa_status := sa_status r;
     sa_rejectionReason := sa_rejectionReason r; sa_tokenHash := None; sa_deviceId := sa_deviceId r;
     sa_gateLabel := sa_gateLabel r; sa_metadata := JNull; sa_scannedAt := sa_scannedAt r |}.

(** The database without its secrets: no password or token hashes, no checkout
    links, access codes or raw responses of providers, no sessions, webhooks or
    idempotency keys. *)
Definition public (w : world) : world :=
  {| catalog := {| users := public_user <$> users (catalog w); organizers := organizers (catalog w);
                   events := events (catalog w); gates := gates (catalog w); venues := venues (catalog w) |};
     stock := stock w;
     checkout := {| orders := ∅; payments := ∅; ledger := ∅; idempotency := ∅ |};
     journal := {| audit_logs := ∅; outbox := ∅; support_audits := support_audits (journal w) |};
     intents := {| payment_intents := public_intent <$> payment_intents (intents w); intent_audits := [];
                   webhook_events := ∅ |};
     ticketing := {| tickets := public_ticket <$> tickets (ticketing w); issuance_audits := [];
                     scan_audits := public_scan <$> scan_audits (ticketing w) |};
     seating := seating w;
     identity := {| sessions := ∅; auth_audits := [] |} |}.

(** A method that does the same on the public part, up to what [g] erases of its
    result. *)
Definition secure {A} (g : A -> A) (m : op A) : Prop :=
  forall w, m (public w) =
    (match (m w).1 with Ok a => Ok (g a) | Err e => Err e end, public (m w).2).

Lemma secure_bind {A B} (g : A -> A) (m : op A) (k : A -> op B) :
  secure g m -> (forall a, secure id (k a)) -> (forall a w, k (g a) w = k a w) -> secure id (bind m k).
Proof.
  intros Hm Hk Hg w. unfold bind. rewrite Hm. destruct (m w) as [[a | e] w']; cbn; [| done].
  rewrite Hg, Hk. done.
Qed.

Lemma secure_ret {A} (a : A) : secure id (ret a).
Proof. done. Qed.

Lemma secure_throw {A} (e : error) : secure (A := A) id (throw e).
Proof. done. Qed.

Lemma secure_recordRead rowId actorUserId action targetType targetId metadata :
  secure id (recordRead rowId actorUserId action targetType targetId metadata).
Proof.
  intros w. unfold recordRead, createAuditLog, catch, create, throw. wsimpl. destruct w as [[] ? [] [] [] [] ? []]. cbn.
  by destruct (_ && _).
Qed.

Lemma secure_detail {R} rowId actorUserId kind targetId (find : op (option R)) (f : R -> json) :
  secure id find -> secure id (detail rowId actorUserId kind targetId find f).
Proof.
  intros Hfind. unfold detail. apply (secure_bind id); [exact Hfind | | done].
  intros [r |]; [| apply secure_throw]. cbn [or_throw]. apply (secure_bind id); [done | | done].
  intros r'. apply (secure_bind id); [apply secure_recordRead | | done]. intros _. apply secure_ret.
Qed.

Lemma secure_list {R} rowId actorUserId kind query (find : op (AdminSupportListResult R)) (f : R -> json) :
  secure id find ->
  secure id (let* result := find in auditListAndReturn rowId actorUserId kind query f result).
Proof.
  intros Hfind. apply (secure_bind id); [exact Hfind | | done].
  intros result. apply (secure_bind id); [apply secure_recordRead | | done]. intros _. apply secure_ret.
Qed.

(** A selection that reads nothing of what [g] erases. *)
Lemma secure_find {R S} (T : table R) (select : R -> S) (g : R -> R) k :
  (forall w, tb_rows T (public w) = g <$> tb_rows T w) -> (forall r, select (g r) = select r) ->
  secure id (reads (fun w => select <$> tb_rows T w !! k)).
Proof.
  intros HT Hg w. unfold reads. rewrite HT, lookup_fmap. cbn [fst snd].
  destruct (tb_rows T w !! k) as [r |]; [| done]. cbn. by rewrite Hg.
Qed.

Lemma select_fmap {R S} (select : R -> S) (g : R -> R) (l : list R) :
  (forall r, select (g r) = select r) -> select <$> (g <$> l) = select <$> l.
Proof. intros Hg. rewrite <- list_fmap_compose. apply list_fmap_ext. intros i r _. apply Hg. Qed.

Lemma secure_page {R S} (t : R -> Z) (select : R -> S) (g : R -> R) query (P : R -> bool)
    (rows : world -> gmap string R) :
  (forall r, t (g r) = t r) -> (forall r, P (g r) = P r) -> (forall r, select (g r) = select r) ->
  (forall w, rows (public w) = g <$> rows w) ->
  secure id (reads (fun w => toListResult (select <$> page t query (find_rows P (rows w))) query)).
Proof.
  intros Ht HP Hg Hrows w. unfold reads. rewrite Hrows. cbn [fst snd].
  by rewrite find_rows_fmap, page_fmap, select_fmap.
Qed.

(** Scan audits keep their order, so each keeps the id of its row. *)
Definition public_scan_row (r : identified_scan) : identified_scan := (r.1, public_scan r.2).

Lemma scan_rows_public w : scan_rows (public w) = public_scan_row <$> scan_rows w.
Proof.
  unfold scan_rows. cbn. rewrite imap_fmap, fmap_imap. by apply imap_ext.
Qed.

Lemma serve_secure rowId actorUserId rq : secure id (serve rowId actorUserId rq).
Proof.
  assert (Hid : forall R (t : gmap string R), t = (fun x => x) <$> t) by (intros R t; by rewrite map_fmap_id).
  destruct rq as [q | k | q | k | q | k | q | k | q | k | q | k | q]; cbn [serve];
    first [apply secure_list | apply secure_detail].
  - by apply (secure_page _ _ public_user).
  - by apply (secure_find users_t _ public_user).
  - by apply (secure_page _ _ (fun x => x)).
  - by apply (secure_find organizers_t _ (fun x => x)).
  - by apply (secure_page _ _ (fun x => x)).
  - by apply (secure_find events_t _ (fun x => x)).
  - by apply (secure_page _ _ public_intent).
  - by apply (secure_find payment_intents_t _ public_intent).
  - by apply (secure_page _ _ public_ticket).
  - by apply (secure_find tickets_t _ public_ticket).
  - intros w. unfold repo_listAdmissionScans, reads. rewrite scan_rows_public. cbn [fst snd].
    by rewrite filter_fmap_same, page_fmap, select_fmap.
  - intros w. unfold getAdmissionScanById, reads. rewrite scan_rows_public. cbn [fst snd].
    rewrite filter_fmap_same by done. by destruct (filter _ _).
  - by apply (secure_page _ _ (fun x => x)).
Qed.

End AdminSupport.

(** Support staff looks up a customer whose password only a hash tells. *)
Module SupportExample.

Definition env (name : string) : option string :=
  if bool_decide (name = "JWT_SECRET") then Some "open-sesame" else None.
Definition contains (column search : string) : bool := includes (toLowerCase search) (toLowerCase column).
Definition staff (role : UserRole) : AuthUser :=
  {| au_id := "sam"; au_email := "sam@govibe.test"; au_role := role; au_sessionId := "s";
     au_permissions := ROLE_PERMISSIONS role; au_emailVerifiedAt := None; au_isActive := true |}.
Definition customer (hash : string) (id email : string) : user :=
  {| user_id := id; user_email := email; user_passwordHash := hash; user_role := CUSTOMER;
     user_isActive := true; user_emailVerifiedAt := None |}.

Definition w (hash : string) : world :=
  set_users {[ "u1" := customer hash "u1" "ama@example.com"; "u2" := customer hash "u2" "kofi@open-sesame.test";
               "u3" := customer hash "u3" "esi@example.com" ]} empty_world.

Definition created (id : string) : Z := if bool_decide (id = "u3") then 30 else 20.
Definition query (search : option string) : AdminLookupQuery :=
  {| alq_limit := 2; alq_offset := 0; alq_search := search |}.
Definition run (rq : SupportRequest) :=
  support_route env contains created created pretty "a1" (staff ADMIN) rq (w "hash").

Definition item (id email : string) : json :=
  JObj [("id", JStr id); ("email", JStr email); ("role", JStr "CUSTOMER"); ("isActive", JBool true);
        ("createdAt", JDate (created id)); ("updatedAt", JDate (created id))].

(** The newest first. *)
Example listed : (run (ListUsers (query (Some "EXAMPLE")))).1 =
  Ok (JObj [("items", JArr [item "u3" "esi@example.com"; item "u1" "ama@example.com"]); ("limit", JNum 2);
            ("offset", JNum 0); ("resultCount", JNum 2)]).
Proof. vm_run. Qed.

(** An address that contains a secret of the environment is masked. *)
Example masked_address : (run (GetUser "u2")).1 = Ok (item "u2" "[REDACTED]").
Proof. vm_run. Qed.

Example logged : (fun a => (sup_action a, sup_targetId a)) <$>
    support_audits (journal (run (GetUser "u2")).2) !! "a1" = Some ("admin_support_read_user", Some "u2").
Proof. vm_run. Qed.

Example unknown : (run (GetUser "u9")).1 = Err (NotFoundException "User not found.").
Proof. vm_run. Qed.

End SupportExample.

(* ------------------------------------------------------------------ *)
(** ** Properties                                                       *)

(** The exact outcome of every support request.  Only an administrator is
    served, everybody else gets a 403; a record that does not exist is a 404; and no
    read goes unrecorded: an answer comes with exactly one new audit row, for this
    actor, action, kind and record, and nothing else changed; if the row cannot be
    written the request fails with a 500, shows nothing and changes nothing.  Neither
    the answer nor the row's metadata holds anything redaction would remove. *)
Theorem support_reads_audited env icontains createdAt updatedAt scanId id u rq w :
  match support_route env icontains createdAt updatedAt scanId id u rq w with
  | (Ok answer, w') =>
      au_role u = ADMIN /\ target_exists scanId rq w = true /\ redacted env answer /\
      exists a, read_trace env id (au_id u) rq w w' a
  | (Err e, w') =>
      w' = w /\
      (e = ForbiddenException "insufficient permissions" /\ au_role u <> ADMIN \/
       e = NotFoundException (sk_missing (kind_of rq)) /\ au_role u = ADMIN /\
         target_exists scanId rq w = false \/
       e = InternalServerErrorException "Internal server error" /\ au_role u = ADMIN /\
         target_exists scanId rq w = true /\ support_audits (journal w) !! id <> None)
  end.
Proof.
  pose proof (serve_wp env icontains createdAt updatedAt scanId id (au_id u) rq w) as Hs.
  unfold support_route, bind. rewrite support_permission_admin. case_bool_decide as Hrole; cbn; [| by auto].
  unfold wp in Hs. destruct (serve _ _ _ _ _ _ _ _ _) as [[answer | e] w'].
  - destruct Hs as [He [Hr Ha]]. done.
  - destruct (target_exists scanId rq w) eqn:He; [destruct Hs as (-> & -> & Ht) | destruct Hs as [-> ->]];
      split; auto 10.
Qed.

(** C18: Support reads leak no secret.  What staff sees of a request, and what the
    request leaves behind, is a function of the public part of the database: two
    databases that differ only in password and token hashes, sessions, checkout links
    and access codes, the raw bodies of providers and webhooks, idempotency keys,
    outbox payloads or the other columns [public] erases give the same answer, the
    same error and the same audit row, whatever is searched for. *)
Theorem support_reads_leak_nothing env icontains createdAt updatedAt scanId id u rq w1 w2
    (Hpublic : public w1 = public w2) :
  let run := support_route env icontains createdAt updatedAt scanId id u rq in
  (run w1).1 = (run w2).1 /\ public (run w1).2 = public (run w2).2.
Proof.
  intros run.
  assert (Hrun : secure Datatypes.id run).
  { unfold run, support_route. apply (secure_bind Datatypes.id); [| intros _; apply serve_secure | done].
    destruct (permissions_canActivate _ _); [apply secure_ret | apply secure_throw]. }
  assert (Hof : forall w, run (public w) = ((run w).1, public (run w).2)).
  { intros w. rewrite Hrun. by destruct (run w) as [[a | e] w']. }
  pose proof (Hof w1) as H1. rewrite Hpublic, Hof in H1.
  split; [exact (f_equal fst (eq_sym H1)) | exact (f_equal snd (eq_sym H1))].
Qed.

Lemma support_reads_leak_nothing_witness :
  SupportExample.w "hash" <> SupportExample.w "other" /\
  (SupportExample.run (GetUser "u1")).1 =
    (support_route SupportExample.env SupportExample.contains SupportExample.created SupportExample.created
       pretty "a1" (SupportExample.staff ADMIN) (GetUser "u1") (SupportExample.w "other")).1.
Proof.
  split.
  - intros H. apply (f_equal (fun w => user_passwordHash <$> users (catalog w) !! "u1")) in H.
    vm_compute in H. discriminate.
  - refine (proj1 (support_reads_leak_nothing SupportExample.env SupportExample.contains
      SupportExample.created SupportExample.created pretty "a1" (SupportExample.staff ADMIN) (GetUser "u1")
      (SupportExample.w "hash") (SupportExample.w "other") _)).
    reflexivity.
Defined.
