(* ===== verification/Config.v ===== *)
(** Config.v: the validation of the environment at start-up
    (src/src/shared/config/validation.schema.ts) and what the services read of it
    (config.service.ts).  The validation is shown to follow the table
    [validationSchema] the code declares beside it, but for one variable.

    A program here runs over the environment; the URL parser of the platform is a
    parameter. *)

From S2P Require Import Prelude Errors Values LaunchControl.

Local Open Scope Z_scope.

(** [process.env] *)
Definition ProcessEnv : Type := string -> option string.
Definition env_op (A : Type) : Type := prog ProcessEnv error A.

Definition SUPPORTED_PAYMENT_PROVIDERS : list string := ["paystack"; "momo"].
Definition SUPPORTED_CURRENCIES : list string := ["GHS"; "NGN"].

(** [AppConfigValues]; the pilot's values are together. *)
Record AppConfigValues : Type := {
  APP_NAME : string;
  NODE_ENV : string;
  PORT : double;
  DATABASE_URL : string;
  REDIS_URL : string;
  JWT_ACCESS_SECRET : string;
  JWT_REFRESH_SECRET : string;
  JWT_ACCESS_TTL : double;
  JWT_REFRESH_TTL : double;
  PAYSTACK_SECRET_KEY : string;
  PAYSTACK_BASE_URL : option string;
  PAYMENT_PROVIDER_TIMEOUT_MS : option double;
  MTN_MOMO_API_KEY : string;
  MTN_MOMO_API_SECRET : string;
  MTN_MOMO_SUBSCRIPTION_KEY : string;
  MTN_MOMO_ENVIRONMENT : string;
  MTN_MOMO_BASE_URL : option string;
  MTN_MOMO_COLLECTION_SUBSCRIPTION_KEY : option string;
  MTN_MOMO_API_USER : option string;
  MTN_MOMO_TARGET_ENVIRONMENT : option string;
  MTN_MOMO_WEBHOOK_SECRET : option string;
  QR_HMAC_ACTIVE_KID : string;
  QR_HMAC_ACTIVE_SECRET : string;
  API_BASE_URL : string;
  SENTRY_DSN : option string;
  PILOT : PilotConfig
}.

(** The kinds of [validationSchema]. *)
Inductive kind : Type :=
| KString
| KOneOf (values : list string)
| KNumber
| KUrl
| KSecret
| KOptionalString
| KOptionalNumber
| KOptionalUrl
| KOptionalSecret
| KOptionalBoolean
| KOptionalProviderList
| KOptionalCurrencyList
| KOptionalUuidList.

#[export] Instance kind_eq_dec : EqDecision kind.
Proof. solve_decision. Defined.

Definition NODE_ENVIRONMENTS : list string := ["development"; "test"; "production"].
Definition MOMO_ENVIRONMENTS : list string := ["sandbox"; "production"].

Definition validationSchema : list (string * kind) :=
  [("APP_NAME", KString); ("NODE_ENV", KOneOf NODE_ENVIRONMENTS); ("PORT", KNumber);
   ("DATABASE_URL", KUrl); ("REDIS_URL", KUrl); ("JWT_ACCESS_SECRET", KSecret);
   ("JWT_REFRESH_SECRET", KSecret); ("JWT_ACCESS_TTL", KNumber); ("JWT_REFRESH_TTL", KNumber);
   ("PAYSTACK_SECRET_KEY", KSecret); ("PAYSTACK_BASE_URL", KOptionalUrl);
   ("PAYMENT_PROVIDER_TIMEOUT_MS", KOptionalNumber); ("MTN_MOMO_API_KEY", KSecret);
   ("MTN_MOMO_API_SECRET", KSecret); ("MTN_MOMO_SUBSCRIPTION_KEY", KSecret);
   ("MTN_MOMO_ENVIRONMENT", KOneOf MOMO_ENVIRONMENTS); ("MTN_MOMO_BASE_URL", KOptionalUrl);
   ("MTN_MOMO_COLLECTION_SUBSCRIPTION_KEY", KOptionalSecret); ("MTN_MOMO_API_USER", KOptionalString);
   ("MTN_MOMO_TARGET_ENVIRONMENT", KOneOf MOMO_ENVIRONMENTS);
   ("MTN_MOMO_WEBHOOK_SECRET", KOptionalSecret); ("QR_HMAC_ACTIVE_KID", KString);
   ("QR_HMAC_ACTIVE_SECRET", KSecret); ("API_BASE_URL", KUrl); ("SENTRY_DSN", KOptionalUrl);
   ("PILOT_CHECKOUT_ENABLED", KOptionalBoolean); ("PILOT_PAYMENTS_ENABLED", KOptionalBoolean);
   ("PILOT_ADMISSIONS_ENABLED", KOptionalBoolean);
   ("PILOT_ALLOWED_PAYMENT_PROVIDERS", KOptionalProviderList);
   ("PILOT_ALLOWED_CURRENCIES", KOptionalCurrencyList);
   ("PILOT_ALLOWED_ORGANIZER_IDS", KOptionalUuidList); ("PILOT_ALLOWED_EVENT_IDS", KOptionalUuidList);
   ("PILOT_ALLOWED_GATE_IDS", KOptionalUuidList)].

(** [new Error("Configuration value <key> <complaint>")] *)
Definition ConfigError {A} (key complaint : string) : env_op A :=
  throw (OtherError "Error" ("Configuration value " +:+ key +:+ " " +:+ complaint)).

(** [env[key]?.trim()], when it is not empty. *)
Definition setting (env : ProcessEnv) (key : string) : option string := truthy (trim <$> env key).

(** [s.split(',')] *)
Fixpoint split_commas (s : string) : list string :=
  match s with
  | EmptyString => [EmptyString]
  | String c s' =>
      if bool_decide (c = ","%char) then EmptyString :: split_commas s'
      else match split_commas s' with
           | [] => [String c EmptyString]
           | part :: parts => String c part :: parts
           end
  end.

(** The entries of a list: trimmed, without the empty ones. *)
Definition csv_entries (s : string) : list string :=
  filter (fun item => item <> "") (trim <$> split_commas s).

(** [l.join(', ')] *)
Definition join (l : list string) : string := String.concat ", " l.

Create HintDb getters.

Section Validation.
(** [new URL(value).toString()], when it does not throw. *)
Context (URL : string -> option string).

Definition getRequiredValue (key : string) : env_op string :=
  let* value := reads (fun env => setting env key) in
  or_throw value (OtherError "Error" ("Missing required configuration value: " +:+ key)).

Definition getNumber (key : string) : env_op double :=
  let* value := getRequiredValue key in
  match finite_double value with
  | Some x => ret x
  | None => ConfigError key "must be a number"
  end.

Definition getUrl (key : string) : env_op string :=
  let* value := getRequiredValue key in
  match URL value with
  | Some u => ret u
  | None => ConfigError key "must be a valid URL"
  end.

Definition getOptionalUrl (key : string) : env_op (option string) :=
  let* value := reads (fun env => setting env key) in
  match value with
  | None => ret None
  | Some value => match URL value with
                  | Some u => ret (Some u)
                  | None => ConfigError key "must be a valid URL"
                  end
  end.

Definition getOptionalNumber (key : string) : env_op (option double) :=
  let* value := reads (fun env => setting env key) in
  match value with
  | None => ret None
  | Some value => match finite_double value with
                  | Some x => ret (Some x)
                  | None => ConfigError key "must be a number"
                  end
  end.

Definition getSecret (key : string) : env_op string :=
  let* value := getRequiredValue key in
  if (String.length value <? 16)%nat then ConfigError key "must be at least 16 characters" else ret value.

Definition getOptionalBoolean (key : string) : env_op (option bool) :=
  let* value := reads (fun env => truthy ((fun v => toLowerCase (trim v)) <$> env key)) in
  match value with
  | None => ret None
  | Some value =>
      if negb (bool_decide (value = "true")) && negb (bool_decide (value = "false"))
      then ConfigError key "must be true or false"
      else ret (Some (bool_decide (value = "true")))
  end.

Definition getOptionalCsvList (key : string) : env_op (option (list string)) :=
  let* value := reads (fun env => setting env key) in
  match value with
  | None => ret None
  | Some value =>
      match csv_entries value with
      | [] => ConfigError key "must contain at least one entry"
      | items => ret (Some items)
      end
  end.

(** A list whose entries must pass [P]. *)
Definition checked_list (key complaint : string) (P : string -> bool) : env_op (option (list string)) :=
  let* items := getOptionalCsvList key in
  match items with
  | None => ret None
  | Some items => if existsb (fun item => negb (P item)) items then ConfigError key complaint
                  else ret (Some items)
  end.

Definition getOptionalEnumList (key : string) (values : list string) : env_op (option (list string)) :=
  checked_list key ("must contain only: " +:+ join values) (fun item => bool_decide (item ∈ values)).

Definition getOptionalUuidList (key : string) : env_op (option (list string)) :=
  checked_list key "must contain only UUID values" is_uuid.

Definition getOptionalSecret (key : string) : env_op (option string) :=
  let* value := reads (fun env => setting env key) in
  match value with
  | None => ret None
  | Some value => if (String.length value <? 16)%nat then ConfigError key "must be at least 16 characters"
                  else ret (Some value)
  end.

Definition getOptionalString (key : string) : env_op (option string) :=
  reads (fun env => setting env key).

Definition getString (key : string) : env_op string := getRequiredValue key.

Definition getEnumValue (key : string) (values : list string) : env_op string :=
  let* value := getRequiredValue key in
  if bool_decide (value ∈ values) then ret value
  else ConfigError key ("must be one of: " +:+ join values).

(** The checks of the numbers, after everything is read. *)
Definition check_ranges (config : AppConfigValues) : env_op unit :=
  do* throw_if (double_ltb (PORT config) 1 || double_gtb (PORT config) 65535)
        (OtherError "Error" "Configuration value PORT must be between 1 and 65535") in
  do* throw_if (negb (double_gtb (JWT_ACCESS_TTL config) 0) || negb (double_gtb (JWT_REFRESH_TTL config) 0))
        (OtherError "Error" "JWT TTL values must be positive numbers") in
  throw_if (match PAYMENT_PROVIDER_TIMEOUT_MS config with
            | Some ms => negb (double_gtb ms 0)
            | None => false
            end)
    (OtherError "Error" "PAYMENT_PROVIDER_TIMEOUT_MS must be a positive number").

Definition validateConfig : env_op AppConfigValues :=
  let* app_name := getString "APP_NAME" in
  let* node_env := getEnumValue "NODE_ENV" NODE_ENVIRONMENTS in
  let* port := getNumber "PORT" in
  let* database_url := getUrl "DATABASE_URL" in
  let* redis_url := getUrl "REDIS_URL" in
  let* jwt_access_secret := getSecret "JWT_ACCESS_SECRET" in
  let* jwt_refresh_secret := getSecret "JWT_REFRESH_SECRET" in
  let* jwt_access_ttl := getNumber "JWT_ACCESS_TTL" in
  let* jwt_refresh_ttl := getNumber "JWT_REFRESH_TTL" in
  let* paystack_secret_key := getSecret "PAYSTACK_SECRET_KEY" in
  let* paystack_base_url := getOptionalUrl "PAYSTACK_BASE_URL" in
  let* timeout_ms := getOptionalNumber "PAYMENT_PROVIDER_TIMEOUT_MS" in
  let* momo_api_key := getSecret "MTN_MOMO_API_KEY" in
  let* momo_api_secret := getSecret "MTN_MOMO_API_SECRET" in
  let* momo_subscription_key := getSecret "MTN_MOMO_SUBSCRIPTION_KEY" in
  let* momo_environment := getEnumValue "MTN_MOMO_ENVIRONMENT" MOMO_ENVIRONMENTS in
  let* momo_base_url := getOptionalUrl "MTN_MOMO_BASE_URL" in
  let* momo_collection_key := getOptionalSecret "MTN_MOMO_COLLECTION_SUBSCRIPTION_KEY" in
  let* momo_api_user := getOptionalString "MTN_MOMO_API_USER" in
  let* momo_target := getOptionalString "MTN_MOMO_TARGET_ENVIRONMENT" in
  let* momo_webhook_secret := getOptionalSecret "MTN_MOMO_WEBHOOK_SECRET" in
  let* qr_kid := getString "QR_HMAC_ACTIVE_KID" in
  let* qr_secret := getSecret "QR_HMAC_ACTIVE_SECRET" in
  let* api_base_url := getUrl "API_BASE_URL" in
  let* sentry_dsn := getOptionalUrl "SENTRY_DSN" in
  let* checkout := getOptionalBoolean "PILOT_CHECKOUT_ENABLED" in
  let* payments := getOptionalBoolean "PILOT_PAYMENTS_ENABLED" in
  let* admissions := getOptionalBoolean "PILOT_ADMISSIONS_ENABLED" in
  let* providers := getOptionalEnumList "PILOT_ALLOWED_PAYMENT_PROVIDERS" SUPPORTED_PAYMENT_PROVIDERS in
  let* currencies := getOptionalEnumList "PILOT_ALLOWED_CURRENCIES" SUPPORTED_CURRENCIES in
  let* organizer_ids := getOptionalUuidList "PILOT_ALLOWED_ORGANIZER_IDS" in
  let* event_ids := getOptionalUuidList "PILOT_ALLOWED_EVENT_IDS" in
  let* gate_ids := getOptionalUuidList "PILOT_ALLOWED_GATE_IDS" in
  let config :=
    {| APP_NAME := app_name; NODE_ENV := node_env; PORT := port; DATABASE_URL := database_url;
       REDIS_URL := redis_url; JWT_ACCESS_SECRET := jwt_access_secret;
       JWT_REFRESH_SECRET := jwt_refresh_secret; JWT_ACCESS_TTL := jwt_access_ttl;
       JWT_REFRESH_TTL := jwt_refresh_ttl; PAYSTACK_SECRET_KEY := paystack_secret_key;
       PAYSTACK_BASE_URL := paystack_base_url; PAYMENT_PROVIDER_TIMEOUT_MS := timeout_ms;
       MTN_MOMO_API_KEY := momo_api_key; MTN_MOMO_API_SECRET := momo_api_secret;
       MTN_MOMO_SUBSCRIPTION_KEY := momo_subscription_key; MTN_MOMO_ENVIRONMENT := momo_environment;
       MTN_MOMO_BASE_URL := momo_base_url; MTN_MOMO_COLLECTION_SUBSCRIPTION_KEY := momo_collection_key;
       MTN_MOMO_API_USER := momo_api_user; MTN_MOMO_TARGET_ENVIRONMENT := momo_target;
       MTN_MOMO_WEBHOOK_SECRET := momo_webhook_secret; QR_HMAC_ACTIVE_KID := qr_kid;
       QR_HMAC_ACTIVE_SECRET := qr_secret; API_BASE_URL := api_base_url; SENTRY_DSN := sentry_dsn;
       PILOT := {| PILOT_CHECKOUT_ENABLED := checkout; PILOT_PAYMENTS_ENABLED := payments;
                   PILOT_ADMISSIONS_ENABLED := admissions; PILOT_ALLOWED_PAYMENT_PROVIDERS := providers;
                   PILOT_ALLOWED_CURRENCIES := currencies; PILOT_ALLOWED_ORGANIZER_IDS := organizer_ids;
                   PILOT_ALLOWED_EVENT_IDS := event_ids; PILOT_ALLOWED_GATE_IDS := gate_ids |} |} in
  do* check_ranges config in
  ret config.

(* ------------------------------------------------------------------ *)
(** ** The table, read as a specification                               *)

(** A value [setting] gives, against a kind of the table. *)
Definition meets (kd : kind) (v : option string) : bool :=
  match kd, v with
  | (KString | KOneOf _ | KNumber | KUrl | KSecret), None => false
  | (KOptionalString | KOptionalNumber | KOptionalUrl | KOptionalSecret | KOptionalBoolean
    | KOptionalProviderList | KOptionalCurrencyList | KOptionalUuidList), None => true
  | (KString | KOptionalString), Some _ => true
  | KOneOf l, Some s => bool_decide (s ∈ l)
  | (KNumber | KOptionalNumber), Some s => bool_decide (is_Some (finite_double s))
  | (KUrl | KOptionalUrl), Some s => bool_decide (is_Some (URL s))
  | (KSecret | KOptionalSecret), Some s => (16 <=? String.length s)%nat
  | KOptionalBoolean, Some s => bool_decide (toLowerCase s ∈ ["true"; "false"])
  | KOptionalProviderList, Some s =>
      negb (bool_decide (csv_entries s = [])) &&
      forallb (fun item => bool_decide (item ∈ SUPPORTED_PAYMENT_PROVIDERS)) (csv_entries s)
  | KOptionalCurrencyList, Some s =>
      negb (bool_decide (csv_entries s = [])) &&
      forallb (fun item => bool_decide (item ∈ SUPPORTED_CURRENCIES)) (csv_entries s)
  | KOptionalUuidList, Some s =>
      negb (bool_decide (csv_entries s = [])) && forallb is_uuid (csv_entries s)
  end.

Definition satisfies (env : ProcessEnv) (kk : string * kind) : Prop :=
  meets kk.2 (setting env kk.1) = true.

(** The table as the code applies it: the target environment of MoMo may be any
    text, or missing. *)
Definition applied_schema : list (string * kind) :=
  (fun kk => if bool_decide (kk.1 = "MTN_MOMO_TARGET_ENVIRONMENT") then (kk.1, KOptionalString) else kk)
    <$> validationSchema.

(** A refusal names the variable. *)
Definition names_key (key : string) (e : error) : Prop :=
  e = OtherError "Error" ("Missing required configuration value: " +:+ key) \/
  exists complaint, e = OtherError "Error" ("Configuration value " +:+ key +:+ " " +:+ complaint).

(** A getter does what the table says of its key, and returns a value in [spec]. *)
Definition getter {A} (key : string) (kd : kind) (m : env_op A) (spec : option string -> A -> Prop) : Prop :=
  forall env, wp m
    (fun a env' => env' = env /\ meets kd (setting env key) = true /\ spec (setting env key) a)
    (fun e env' => env' = env /\ meets kd (setting env key) = false /\ names_key key e) env.

Lemma missing_names key : names_key key (OtherError "Error" ("Missing required configuration value: " +:+ key)).
Proof. by left. Qed.

Lemma refused_names key complaint :
  names_key key (OtherError "Error" ("Configuration value " +:+ key +:+ " " +:+ complaint)).
Proof. right. by exists complaint. Qed.

Lemma required_getter key : getter key KString (getRequiredValue key) (fun v s => v = Some s).
Proof.
  intros env. unfold getRequiredValue. wp_run; cbn [meets].
  - rewrite H. by eauto using missing_names.
  - by rewrite H.
Qed.

(** A getter that reads a required value first. *)
Lemma after_required {A} key kd (k : string -> env_op A) (spec : option string -> A -> Prop) :
  meets kd None = false ->
  (forall s env, setting env key = Some s ->
     wp (k s) (fun a env' => env' = env /\ meets kd (Some s) = true /\ spec (Some s) a)
       (fun e env' => env' = env /\ meets kd (Some s) = false /\ names_key key e) env) ->
  getter key kd (bind (getRequiredValue key) k) spec.
Proof.
  intros Hnone Hk env. apply wp_bind. eapply wp_mono; [apply required_getter | |]; cbn beta.
  - intros s env' (-> & _ & Hs). rewrite Hs. by apply Hk.
  - intros e env' (-> & Hm & He). destruct (setting env key); [done |]. auto.
Qed.

(** A getter that reads an optional value first. *)
Lemma after_optional {A} key kd (k : option string -> env_op A) (spec : option string -> A -> Prop) :
  (forall v env, setting env key = v ->
     wp (k v) (fun a env' => env' = env /\ meets kd v = true /\ spec v a)
       (fun e env' => env' = env /\ meets kd v = false /\ names_key key e) env) ->
  getter key kd (bind (reads (fun env => setting env key)) k) spec.
Proof. intros Hk env. apply wp_bind, wp_reads. by apply Hk. Qed.

Lemma string_getter key : getter key KString (getString key) (fun v s => v = Some s).
Proof. apply required_getter. Qed.

Lemma number_getter key : getter key KNumber (getNumber key) (fun v x => v ≫= finite_double = Some x).
Proof.
  apply after_required; [done |]. intros s env _. cbn [meets mbind option_bind].
  destruct (finite_double s) as [x |]; [done |]. split; [done |]. split; [done | apply refused_names].
Qed.

Lemma url_getter key : getter key KUrl (getUrl key) (fun v u => v ≫= URL = Some u).
Proof.
  apply after_required; [done |]. intros s env _. cbn [meets mbind option_bind].
  destruct (URL s) as [x |]; [done |]. split; [done |]. split; [done | apply refused_names].
Qed.

Lemma secret_getter key : getter key KSecret (getSecret key) (fun v s => v = Some s).
Proof.
  apply after_required; [done |]. intros s env _. cbn [meets].
  destruct (Nat.ltb_spec (String.length s) 16) as [Hl | Hl].
  - split; [done |]. split; [by apply Nat.leb_gt | apply refused_names].
  - split; [done |]. split; [by apply Nat.leb_le | done].
Qed.

Lemma enum_getter key l : getter key (KOneOf l) (getEnumValue key l) (fun v s => v = Some s).
Proof.
  apply after_required; [done |]. intros s env _. cbn [meets]. case_bool_decide; [done |].
  split; [done |]. split; [done | apply refused_names].
Qed.

Lemma optional_string_getter key : getter key KOptionalString (getOptionalString key) (fun v o => o = v).
Proof. intros env. split; [done |]. by destruct (setting env key). Qed.

Lemma optional_url_getter key : getter key KOptionalUrl (getOptionalUrl key) (fun v o => o = v ≫= URL).
Proof.
  apply after_optional. intros [s |] env _; cbn [meets mbind option_bind]; [| done].
  destruct (URL s) as [x |]; [done |]. split; [done |]. split; [done | apply refused_names].
Qed.

Lemma optional_number_getter key :
  getter key KOptionalNumber (getOptionalNumber key) (fun v o => o = v ≫= finite_double).
Proof.
  apply after_optional. intros [s |] env _; cbn [meets mbind option_bind]; [| done].
  destruct (finite_double s) as [x |]; [done |]. split; [done |]. split; [done | apply refused_names].
Qed.

Lemma optional_secret_getter key : getter key KOptionalSecret (getOptionalSecret key) (fun v o => o = v).
Proof.
  apply after_optional. intros [s |] env _; cbn [meets]; [| done].
  destruct (Nat.ltb_spec (String.length s) 16) as [Hl | Hl].
  - split; [done |]. split; [by apply Nat.leb_gt | apply refused_names].
  - split; [done |]. split; [by apply Nat.leb_le | done].
Qed.

(** What a switch and a list say. *)
Definition switch_of (v : option string) : option bool :=
  (fun s => bool_decide (toLowerCase s = "true")) <$> v.

Lemma setting_lower env key :
  truthy ((fun v => toLowerCase (trim v)) <$> env key) = toLowerCase <$> setting env key.
Proof. unfold setting. destruct (env key) as [v |]; [| done]. cbn. by destruct (trim v). Qed.

Lemma boolean_getter key :
  getter key KOptionalBoolean (getOptionalBoolean key) (fun v o => o = switch_of v).
Proof.
  intros env. unfold getOptionalBoolean. apply wp_bind, wp_reads. rewrite setting_lower.
  destruct (setting env key) as [s |]; cbn [fmap option_fmap option_map meets switch_of]; [| done].
  set (t := toLowerCase s). destruct (bool_decide_reflect (t = "true")) as [-> | Ht]; [done |].
  destruct (bool_decide_reflect (t = "false")) as [-> | Hf]; cbn [negb andb]; [done |].
  split; [done |]. split; [| apply refused_names]. apply bool_decide_eq_false_2.
  by intros [? | [? | []%elem_of_nil]%elem_of_cons]%elem_of_cons.
Qed.

Lemma checked_list_getter key kd complaint P :
  meets kd None = true ->
  (forall s, meets kd (Some s) = negb (bool_decide (csv_entries s = [])) && forallb P (csv_entries s)) ->
  getter key kd (checked_list key complaint P) (fun v o => o = csv_entries <$> v).
Proof.
  intros Hnone Hsome env. unfold checked_list, getOptionalCsvList. apply wp_bind, wp_bind, wp_reads.
  destruct (setting env key) as [s |]; cbn [fmap option_fmap option_map]; [| done].
  rewrite Hsome. destruct (csv_entries s) as [| item items] eqn:He.
  { split; [done |]. split; [done | apply refused_names]. }
  apply wp_ret. destruct (existsb (fun i => negb (P i)) (item :: items)) eqn:Hb.
  - split; [done |]. split; [| apply refused_names]. rewrite bool_decide_eq_false_2 by done.
    apply not_true_iff_false. cbn [negb andb]. intros Hall.
    apply existsb_exists in Hb as (i & Hi & Hn). rewrite forallb_forall in Hall. by rewrite Hall in Hn.
  - split; [done |]. split; [| done]. rewrite bool_decide_eq_false_2 by done.
    cbn [negb andb]. apply forallb_forall.
    intros i Hi. apply not_false_iff_true. intros Hp. apply not_true_iff_false in Hb. apply Hb.
    apply existsb_exists. exists i. by rewrite Hp.
Qed.

Lemma provider_list_getter key :
  getter key KOptionalProviderList (getOptionalEnumList key SUPPORTED_PAYMENT_PROVIDERS)
    (fun v o => o = csv_entries <$> v).
Proof. by apply checked_list_getter. Qed.

Lemma currency_list_getter key :
  getter key KOptionalCurrencyList (getOptionalEnumList key SUPPORTED_CURRENCIES)
    (fun v o => o = csv_entries <$> v).
Proof. by apply checked_list_getter. Qed.

Lemma uuid_list_getter key :
  getter key KOptionalUuidList (getOptionalUuidList key) (fun v o => o = csv_entries <$> v).
Proof. by apply checked_list_getter. Qed.

End Validation.

#[export] Hint Resolve string_getter number_getter url_getter secret_getter enum_getter
  optional_string_getter optional_url_getter optional_number_getter optional_secret_getter
  boolean_getter provider_list_getter currency_list_getter uuid_list_getter : getters.

(* ------------------------------------------------------------------ *)
(** ** What the validation reads                                        *)

Section Reads.
Context (URL : string -> option string) (env : ProcessEnv).

(** Every field is what its variable says. *)
Record configured (c : AppConfigValues) : Prop := {
  cfd_text : Forall (fun ks => setting env ks.1 = Some ks.2)
    [("APP_NAME", APP_NAME c); ("NODE_ENV", NODE_ENV c); ("JWT_ACCESS_SECRET", JWT_ACCESS_SECRET c);
     ("JWT_REFRESH_SECRET", JWT_REFRESH_SECRET c); ("PAYSTACK_SECRET_KEY", PAYSTACK_SECRET_KEY c);
     ("MTN_MOMO_API_KEY", MTN_MOMO_API_KEY c); ("MTN_MOMO_API_SECRET", MTN_MOMO_API_SECRET c);
     ("MTN_MOMO_SUBSCRIPTION_KEY", MTN_MOMO_SUBSCRIPTION_KEY c);
     ("MTN_MOMO_ENVIRONMENT", MTN_MOMO_ENVIRONMENT c); ("QR_HMAC_ACTIVE_KID", QR_HMAC_ACTIVE_KID c);
     ("QR_HMAC_ACTIVE_SECRET", QR_HMAC_ACTIVE_SECRET c)];
  cfd_urls : Forall (fun ku => setting env ku.1 ≫= URL = Some ku.2)
    [("DATABASE_URL", DATABASE_URL c); ("REDIS_URL", REDIS_URL c); ("API_BASE_URL", API_BASE_URL c)];
  cfd_numbers : Forall (fun kx => setting env kx.1 ≫= finite_double = Some kx.2)
    [("PORT", PORT c); ("JWT_ACCESS_TTL", JWT_ACCESS_TTL c); ("JWT_REFRESH_TTL", JWT_REFRESH_TTL c)];
  cfd_timeout : PAYMENT_PROVIDER_TIMEOUT_MS c = setting env "PAYMENT_PROVIDER_TIMEOUT_MS" ≫= finite_double;
  cfd_optional_urls : Forall (fun ku => ku.2 = setting env ku.1 ≫= URL)
    [("PAYSTACK_BASE_URL", PAYSTACK_BASE_URL c); ("MTN_MOMO_BASE_URL", MTN_MOMO_BASE_URL c);
     ("SENTRY_DSN", SENTRY_DSN c)];
  cfd_optional_text : Forall (fun ks => ks.2 = setting env ks.1)
    [("MTN_MOMO_COLLECTION_SUBSCRIPTION_KEY", MTN_MOMO_COLLECTION_SUBSCRIPTION_KEY c);
     ("MTN_MOMO_API_USER", MTN_MOMO_API_USER c);
     ("MTN_MOMO_TARGET_ENVIRONMENT", MTN_MOMO_TARGET_ENVIRONMENT c);
     ("MTN_MOMO_WEBHOOK_SECRET", MTN_MOMO_WEBHOOK_SECRET c)];
  cfd_switches : Forall (fun kb => kb.2 = switch_of (setting env kb.1))
    [("PILOT_CHECKOUT_ENABLED", PILOT_CHECKOUT_ENABLED (PILOT c));
     ("PILOT_PAYMENTS_ENABLED", PILOT_PAYMENTS_ENABLED (PILOT c));
     ("PILOT_ADMISSIONS_ENABLED", PILOT_ADMISSIONS_ENABLED (PILOT c))];
  cfd_lists : Forall (fun kl => kl.2 = csv_entries <$> setting env kl.1)
    [("PILOT_ALLOWED_PAYMENT_PROVIDERS", PILOT_ALLOWED_PAYMENT_PROVIDERS (PILOT c));
     ("PILOT_ALLOWED_CURRENCIES", PILOT_ALLOWED_CURRENCIES (PILOT c));
     ("PILOT_ALLOWED_ORGANIZER_IDS", PILOT_ALLOWED_ORGANIZER_IDS (PILOT c));
     ("PILOT_ALLOWED_EVENT_IDS", PILOT_ALLOWED_EVENT_IDS (PILOT c));
     ("PILOT_ALLOWED_GATE_IDS", PILOT_ALLOWED_GATE_IDS (PILOT c))]
}.

Definition in_range (c : AppConfigValues) : Prop :=
  double_ltb (PORT c) 1 = false /\ double_gtb (PORT c) 65535 = false /\
  double_gtb (JWT_ACCESS_TTL c) 0 = true /\ double_gtb (JWT_REFRESH_TTL c) 0 = true /\
  match PAYMENT_PROVIDER_TIMEOUT_MS c with Some ms => double_gtb ms 0 = true | None => True end.

(** The first variable of the table that is wrong, or the numbers. *)
Definition refused_by_table (e : error) : Prop :=
  exists before kk after, applied_schema = before ++ kk :: after /\
    Forall (satisfies URL env) before /\ ~ satisfies URL env kk /\ names_key kk.1 e.

Definition refused_by_range (e : error) : Prop :=
  Forall (satisfies URL env) applied_schema /\ (exists c, configured c /\ ~ in_range c) /\
  exists msg, e = OtherError "Error" msg.

Definition config_rejected (e : error) (env' : ProcessEnv) : Prop :=
  env' = env /\ (refused_by_table e \/ refused_by_range e).

(** Reading the [n]th variable of the table. *)
Lemma read_wp n {A B} key kd (m : env_op A) spec (k : A -> env_op B) Q :
  applied_schema !! n = Some (key, kd) -> Forall (satisfies URL env) (take n applied_schema) ->
  getter URL key kd m spec ->
  (forall a, Forall (satisfies URL env) (take (S n) applied_schema) -> spec (setting env key) a ->
     wp (k a) Q config_rejected env) ->
  wp (bind m k) Q config_rejected env.
Proof.
  intros Hn Hall Hm Hk. apply wp_bind. eapply wp_mono; [apply Hm | |]; cbn beta.
  - intros a env' (-> & Hmeets & Ha). apply Hk; [| done]. rewrite (take_S_r _ _ _ Hn).
    apply Forall_app. split; [done |]. by constructor.
  - intros e env' (-> & Hmeets & He). split; [done |]. left.
    exists (take n applied_schema), (key, kd), (drop (S n) applied_schema). split; [| split; [done |]].
    + by rewrite take_drop_middle.
    + split; [| done]. unfold satisfies. cbn. by rewrite Hmeets.
Qed.

Lemma check_ranges_wp c Q X :
  (in_range c -> Q tt env) ->
  (~ in_range c -> forall msg, X (OtherError "Error" msg) env) -> wp (check_ranges c) Q X env.
Proof.
  intros HQ HX. unfold check_ranges. wp_run.
  - apply HX. intros (H1 & H2 & _). by rewrite H1, H2 in H.
  - apply HX. intros (_ & _ & H1 & H2 & _). by rewrite H1, H2 in H0.
  - apply HX. intros (_ & _ & _ & _ & H2). destruct (PAYMENT_PROVIDER_TIMEOUT_MS c); [| done].
    by rewrite H2 in H1.
  - apply orb_false_iff in H as [? ?]. apply orb_false_iff in H0 as [?%negb_false_iff ?%negb_false_iff].
    apply HQ. repeat split; try done. destruct (PAYMENT_PROVIDER_TIMEOUT_MS c); [| done].
    by apply negb_false_iff.
Qed.

Ltac read_from n :=
  lazymatch goal with
  | |- wp (bind (check_ranges _) _) _ _ _ => idtac
  | |- wp (let _ := _ in _) _ _ _ => cbv zeta
  | |- _ => eapply (read_wp n); [reflexivity | assumption | solve [eauto with getters] |
              let x := fresh "x" in let Hall := fresh "Hall" in let Hx := fresh "Hx" in
              intros x Hall Hx; cbv beta; cbn beta in Hx; read_from (S n)]
  end.

Lemma validateConfig_wp :
  wp (validateConfig URL)
    (fun c env' => env' = env /\ Forall (satisfies URL env) applied_schema /\ configured c /\ in_range c)
    config_rejected env.
Proof.
  unfold validateConfig.
  assert (Hstart : Forall (satisfies URL env) (take 0 applied_schema)) by constructor.
  read_from 0%nat. apply wp_bind.
  match goal with |- wp (check_ranges ?c) _ _ _ => set (config := c) end.
  assert (Hall' : Forall (satisfies URL env) applied_schema) by (rewrite <- (firstn_all applied_schema); assumption).
  assert (Hc : configured config) by (split; repeat (apply Forall_nil_2 || apply Forall_cons_2); assumption).
  apply check_ranges_wp; intros Hr.
  - apply wp_ret. done.
  - intros msg. split; [done |]. right. split; [done |]. split; eauto.
Qed.

End Reads.

(* ------------------------------------------------------------------ *)
(** ** AppConfigService                                                 *)

(** A value [get] may return. *)
Inductive config_value : Type :=
| CText (s : string)
| CNumber (x : double)
| CSwitch (b : bool)
| CList (l : list string).

(** The fields of the configuration, by name; an absent one is undefined. *)
Definition config_fields (c : AppConfigValues) : list (string * option config_value) :=
  let text s := Some (CText s) in
  let number x := Some (CNumber x) in
  let p := PILOT c in
  [("APP_NAME", text (APP_NAME c)); ("NODE_ENV", text (NODE_ENV c)); ("PORT", number (PORT c));
   ("DATABASE_URL", text (DATABASE_URL c)); ("REDIS_URL", text (REDIS_URL c));
   ("JWT_ACCESS_SECRET", text (JWT_ACCESS_SECRET c)); ("JWT_REFRESH_SECRET", text (JWT_REFRESH_SECRET c));
   ("JWT_ACCESS_TTL", number (JWT_ACCESS_TTL c)); ("JWT_REFRESH_TTL", number (JWT_REFRESH_TTL c));
   ("PAYSTACK_SECRET_KEY", text (PAYSTACK_SECRET_KEY c)); ("PAYSTACK_BASE_URL", CText <$> PAYSTACK_BASE_URL c);
   ("PAYMENT_PROVIDER_TIMEOUT_MS", CNumber <$> PAYMENT_PROVIDER_TIMEOUT_MS c);
   ("MTN_MOMO_API_KEY", text (MTN_MOMO_API_KEY c)); ("MTN_MOMO_API_SECRET", text (MTN_MOMO_API_SECRET c));
   ("MTN_MOMO_SUBSCRIPTION_KEY", text (MTN_MOMO_SUBSCRIPTION_KEY c));
   ("MTN_MOMO_ENVIRONMENT", text (MTN_MOMO_ENVIRONMENT c));
   ("MTN_MOMO_BASE_URL", CText <$> MTN_MOMO_BASE_URL c);
   ("MTN_MOMO_COLLECTION_SUBSCRIPTION_KEY", CText <$> MTN_MOMO_COLLECTION_SUBSCRIPTION_KEY c);
   ("MTN_MOMO_API_USER", CText <$> MTN_MOMO_API_USER c);
   ("MTN_MOMO_TARGET_ENVIRONMENT", CText <$> MTN_MOMO_TARGET_ENVIRONMENT c);
   ("MTN_MOMO_WEBHOOK_SECRET", CText <$> MTN_MOMO_WEBHOOK_SECRET c);
   ("QR_HMAC_ACTIVE_KID", text (QR_HMAC_ACTIVE_KID c)); ("QR_HMAC_ACTIVE_SECRET", text (QR_HMAC_ACTIVE_SECRET c));
   ("API_BASE_URL", text (API_BASE_URL c)); ("SENTRY_DSN", CText <$> SENTRY_DSN c);
   ("PILOT_CHECKOUT_ENABLED", CSwitch <$> PILOT_CHECKOUT_ENABLED p);
   ("PILOT_PAYMENTS_ENABLED", CSwitch <$> PILOT_PAYMENTS_ENABLED p);
   ("PILOT_ADMISSIONS_ENABLED", CSwitch <$> PILOT_ADMISSIONS_ENABLED p);
   ("PILOT_ALLOWED_PAYMENT_PROVIDERS", CList <$> PILOT_ALLOWED_PAYMENT_PROVIDERS p);
   ("PILOT_ALLOWED_CURRENCIES", CList <$> PILOT_ALLOWED_CURRENCIES p);
   ("PILOT_ALLOWED_ORGANIZER_IDS", CList <$> PILOT_ALLOWED_ORGANIZER_IDS p);
   ("PILOT_ALLOWED_EVENT_IDS", CList <$> PILOT_ALLOWED_EVENT_IDS p);
   ("PILOT_ALLOWED_GATE_IDS", CList <$> PILOT_ALLOWED_GATE_IDS p)].

Fixpoint config_lookup (key : string) (l : list (string * option config_value))
  : option (option config_value) :=
  match l with
  | [] => None
  | (k, v) :: l' => if bool_decide (k = key) then Some v else config_lookup key l'
  end.

(** [get]: a key of the configuration, or any other variable of the environment. *)
Definition service_get (c : AppConfigValues) (env : ProcessEnv) (key : string) : option config_value :=
  match config_lookup key (config_fields c) with
  | Some v => v
  | None => CText <$> (trim <$> env key)
  end.

(** [getOrThrow] *)
Definition service_getOrThrow (c : AppConfigValues) (env : ProcessEnv) (key : string)
  : outcome error config_value :=
  match service_get c env key with
  | None | Some (CText "") => Err (OtherError "Error" ("Missing configuration value for " +:+ key))
  | Some v => Ok v
  end.

(** The text settings as the payment adapters read them (Providers.v). *)
Definition adapter_config (c : AppConfigValues) (env : ProcessEnv) (key : string) : option string :=
  match service_get c env key with Some (CText s) => Some s | _ => None end.

(** Every variable the source reads with [getOrThrow]. *)
Definition required_settings : list string :=
  ["APP_NAME"; "NODE_ENV"; "REDIS_URL"; "JWT_ACCESS_SECRET"; "PAYSTACK_SECRET_KEY"; "MTN_MOMO_API_KEY";
   "MTN_MOMO_API_SECRET"; "MTN_MOMO_SUBSCRIPTION_KEY"; "MTN_MOMO_ENVIRONMENT"; "QR_HMAC_ACTIVE_KID";
   "QR_HMAC_ACTIVE_SECRET"].

Lemma setting_nonempty env key s : setting env key = Some s -> s <> "".
Proof. unfold setting. intros H. by apply truthy_Some in H as [_ ?]. Qed.

Lemma service_text c env key s :
  service_get c env key = Some (CText s) -> s <> "" -> service_getOrThrow c env key = Ok (CText s).
Proof. intros H Hs. unfold service_getOrThrow. rewrite H. by destruct s. Qed.

(** A list a validated configuration holds is not empty, so that a pilot restriction
    is in force exactly when its variable is set. *)
Lemma entries_nonempty URL env key kd s :
  kd ∈ [KOptionalProviderList; KOptionalCurrencyList; KOptionalUuidList] ->
  satisfies URL env (key, kd) -> setting env key = Some s -> csv_entries s <> [].
Proof.
  unfold satisfies. cbn [fst snd]. intros Hkd Hm Hs. rewrite Hs in Hm. rewrite !elem_of_cons in Hkd.
  destruct Hkd as [-> | [-> | [-> | []%elem_of_nil]]]; cbn [meets] in Hm;
    apply andb_true_iff in Hm as [Hm _]; by apply negb_true_iff, bool_decide_eq_false in Hm.
Qed.

Lemma toReadonlySet_entries v :
  (forall s, v = Some s -> csv_entries s <> []) ->
  toReadonlySet (csv_entries <$> v) = (fun s => list_to_set (csv_entries s)) <$> v.
Proof. destruct v as [s |]; [| done]. intros H. cbn. specialize (H s eq_refl). by destruct (csv_entries s). Qed.

(** Membership in a list that is written out. *)
Ltac listed := eapply bool_decide_eq_true_1; reflexivity.

Section Present.
Context (URL : string -> option string) (env : ProcessEnv) (c : AppConfigValues).
Hypothesis (Hall : Forall (satisfies URL env) applied_schema) (Hc : configured URL env c).

Lemma text_present key s :
  service_get c env key = Some (CText s) -> s <> "" ->
  exists s, service_getOrThrow c env key = Ok (CText s) /\ adapter_config c env key = Some s /\ s <> "".
Proof. intros Hg Hs. exists s. unfold adapter_config. rewrite Hg. split; [by apply service_text | done]. Qed.

Lemma secret_long key s :
  (key, KSecret) ∈ applied_schema -> setting env key = Some s -> 16 <= Z.of_nat (String.length s).
Proof.
  intros Hin Hs. rewrite Forall_forall in Hall. specialize (Hall _ Hin). unfold satisfies in Hall.
  cbn [fst snd] in Hall. rewrite Hs in Hall. apply Nat.leb_le in Hall. lia.
Qed.

Lemma list_restricts key kd :
  (key, kd) ∈ applied_schema -> kd ∈ [KOptionalProviderList; KOptionalCurrencyList; KOptionalUuidList] ->
  toReadonlySet (csv_entries <$> setting env key) =
    (fun s => list_to_set (csv_entries s)) <$> setting env key.
Proof.
  intros Hin Hkd. apply toReadonlySet_entries. intros s Hs. rewrite Forall_forall in Hall.
  exact (entries_nonempty URL env key kd s Hkd (Hall _ Hin) Hs).
Qed.

End Present.

(** A sample environment. *)
Module ConfigExample.

Definition settings : list (string * string) :=
  [("APP_NAME", "govibe"); ("NODE_ENV", "production"); ("PORT", " 8080 "); ("DATABASE_URL", "postgres://db");
   ("REDIS_URL", "redis://cache"); ("JWT_ACCESS_SECRET", "access-secret-0001");
   ("JWT_REFRESH_SECRET", "refresh-secret-001"); ("JWT_ACCESS_TTL", "9e2"); ("JWT_REFRESH_TTL", "0x278d00");
   ("PAYSTACK_SECRET_KEY", "sk_live_0123456789"); ("MTN_MOMO_API_KEY", "momo-key-012345678");
   ("MTN_MOMO_API_SECRET", "momo-secret-012345"); ("MTN_MOMO_SUBSCRIPTION_KEY", "momo-subscription-1");
   ("MTN_MOMO_ENVIRONMENT", "sandbox"); ("QR_HMAC_ACTIVE_KID", "k1"); ("QR_HMAC_ACTIVE_SECRET", "qr-secret-01234567");
   ("API_BASE_URL", "https://api.govibe.test"); ("PILOT_PAYMENTS_ENABLED", " FALSE ");
   ("PILOT_ALLOWED_CURRENCIES", "GHS, NGN,");
   ("PILOT_ALLOWED_EVENT_IDS", "3F2504E0-4F89-41D3-9A0C-0305E82C3301")].

Definition env_of (l : list (string * string)) (key : string) : option string :=
  snd <$> head (filter (fun kv => kv.1 = key) l).
Definition env : ProcessEnv := env_of settings.
Definition URL (s : string) : option string := if bool_decide (s = "") then None else Some s.

Lemma URL_nonempty s u : URL s = Some u -> u <> "".
Proof. unfold URL. case_bool_decide; congruence. Qed.

(** The configuration it gives. *)
Definition config : AppConfigValues :=
  {| APP_NAME := "govibe"; NODE_ENV := "production";
     PORT := {| db_mantissa := Z.shiftl 8080 40; db_exponent := -40 |}; DATABASE_URL := "postgres://db";
     REDIS_URL := "redis://cache"; JWT_ACCESS_SECRET := "access-secret-0001";
     JWT_REFRESH_SECRET := "refresh-secret-001";
     JWT_ACCESS_TTL := {| db_mantissa := Z.shiftl 900 43; db_exponent := -43 |};
     JWT_REFRESH_TTL := {| db_mantissa := Z.shiftl 2592000 31; db_exponent := -31 |};
     PAYSTACK_SECRET_KEY := "sk_live_0123456789"; PAYSTACK_BASE_URL := None;
     PAYMENT_PROVIDER_TIMEOUT_MS := None; MTN_MOMO_API_KEY := "momo-key-012345678";
     MTN_MOMO_API_SECRET := "momo-secret-012345"; MTN_MOMO_SUBSCRIPTION_KEY := "momo-subscription-1";
     MTN_MOMO_ENVIRONMENT := "sandbox"; MTN_MOMO_BASE_URL := None;
     MTN_MOMO_COLLECTION_SUBSCRIPTION_KEY := None; MTN_MOMO_API_USER := None;
     MTN_MOMO_TARGET_ENVIRONMENT := None; MTN_MOMO_WEBHOOK_SECRET := None; QR_HMAC_ACTIVE_KID := "k1";
     QR_HMAC_ACTIVE_SECRET := "qr-secret-01234567"; API_BASE_URL := "https://api.govibe.test";
     SENTRY_DSN := None;
     PILOT := {| PILOT_CHECKOUT_ENABLED := None; PILOT_PAYMENTS_ENABLED := Some false;
                 PILOT_ADMISSIONS_ENABLED := None; PILOT_ALLOWED_PAYMENT_PROVIDERS := None;
                 PILOT_ALLOWED_CURRENCIES := Some ["GHS"; "NGN"]; PILOT_ALLOWED_ORGANIZER_IDS := None;
                 PILOT_ALLOWED_EVENT_IDS := Some ["3F2504E0-4F89-41D3-9A0C-0305E82C3301"];
                 PILOT_ALLOWED_GATE_IDS := None |} |}.

Example run : validateConfig URL env = (Ok config, (validateConfig URL env).2).
Proof. run_ends. Qed.

Definition refusal (changes : list (string * string)) : option error :=
  match validateConfig URL (env_of (changes ++ settings)) with
  | (Err e, _) => Some e
  | _ => None
  end.

Example short_secret : refusal [("JWT_ACCESS_SECRET", "short")] =
  Some (OtherError "Error" "Configuration value JWT_ACCESS_SECRET must be at least 16 characters").
Proof. vm_run. Qed.
Example empty_list : refusal [("PILOT_ALLOWED_CURRENCIES", " , ")] =
  Some (OtherError "Error" "Configuration value PILOT_ALLOWED_CURRENCIES must contain at least one entry").
Proof. vm_run. Qed.
Example wrong_currency : refusal [("PILOT_ALLOWED_CURRENCIES", "GHS,USD")] =
  Some (OtherError "Error" "Configuration value PILOT_ALLOWED_CURRENCIES must contain only: GHS, NGN").
Proof. vm_run. Qed.
Example port_too_large : refusal [("PORT", "65536")] =
  Some (OtherError "Error" "Configuration value PORT must be between 1 and 65535").
Proof. vm_run. Qed.
(** A port that is no integer, and a target environment nobody declared, pass. *)
Example fractional_port : refusal [("PORT", "8080.5")] = None.
Proof. vm_run. Qed.
Example any_target : refusal [("MTN_MOMO_TARGET_ENVIRONMENT", "staging")] = None.
Proof. vm_run. Qed.

End ConfigExample.

(** Uuids are accepted in either case and kept as they are written, while the ids of
    the database are in lower case: with this configuration the pilot refuses the very
    event it names. *)
Lemma uppercase_event_refused :
  match validateConfig ConfigExample.URL ConfigExample.env with
  | (Ok c, _) => refused (allowedEventIds (launch_control (PILOT c))) "3f2504e0-4f89-41d3-9a0c-0305e82c3301"
  | (Err _, _) => false
  end = true.
Proof. vm_run. Qed.

(* ------------------------------------------------------------------ *)
(** ** Properties                                                       *)

(** C40: Validating the environment is checking it against the table
    [validationSchema], the target environment of MoMo apart: a configuration is
    returned exactly when every variable is of its kind and the numbers are in range,
    and then each field is what its variable says.  Otherwise the error names the
    first variable of the table that is wrong, or comes from the range checks. *)
Theorem validateConfig_conforms URL env :
  match validateConfig URL env with
  | (Ok c, env') =>
      env' = env /\ Forall (satisfies URL env) applied_schema /\ configured URL env c /\ in_range c
  | (Err e, env') => env' = env /\ (refused_by_table URL env e \/ refused_by_range URL env e)
  end.
Proof.
  pose proof (validateConfig_wp URL env) as Hwp. unfold wp in Hwp.
  destruct (validateConfig URL env) as [[c | e] env']; exact Hwp.
Qed.

(** After start-up no setting is missing: every variable the services and the
    payment adapters insist on is there, with the text of the environment, trimmed and
    not empty; the keys are at least sixteen characters long; and a pilot list
    restricts what its variable lists exactly when the variable is set. *)
Theorem validated_settings_present URL env c env' (Hrun : validateConfig URL env = (Ok c, env'))
    (Hurl : forall s u, URL s = Some u -> u <> "") :
  (forall key, key ∈ required_settings -> exists s,
     service_getOrThrow c env key = Ok (CText s) /\ adapter_config c env key = Some s /\ s <> "") /\
  Forall (fun s => 16 <= Z.of_nat (String.length s))
    [JWT_ACCESS_SECRET c; JWT_REFRESH_SECRET c; PAYSTACK_SECRET_KEY c; MTN_MOMO_API_KEY c;
     MTN_MOMO_API_SECRET c; MTN_MOMO_SUBSCRIPTION_KEY c; QR_HMAC_ACTIVE_SECRET c] /\
  allowedEventIds (launch_control (PILOT c)) =
    (fun s => list_to_set (csv_entries s)) <$> setting env "PILOT_ALLOWED_EVENT_IDS" /\
  allowedOrganizerIds (launch_control (PILOT c)) =
    (fun s => list_to_set (csv_entries s)) <$> setting env "PILOT_ALLOWED_ORGANIZER_IDS" /\
  allowedGateIds (launch_control (PILOT c)) =
    (fun s => list_to_set (csv_entries s)) <$> setting env "PILOT_ALLOWED_GATE_IDS".
Proof.
  destruct (wp_ok _ _ _ _ _ _ (validateConfig_wp URL env) Hrun) as (_ & Hall & Hc & _).
  pose proof Hc as [Htext Hurls _ _ _ _ _ Hlists].
  apply Forall_cons in Hlists as [_ [_ [Horganizers [Hevents [Hgates _]%Forall_cons]%Forall_cons]%Forall_cons]%Forall_cons].
  repeat match goal with H : Forall _ (_ :: _) |- _ => apply Forall_cons_1 in H as [? H] end.
  cbn [fst snd] in *. split; [| split].
  - intros key Hkey.
    assert (Hredis : REDIS_URL c <> "") by (destruct (setting env "REDIS_URL"); [by eapply Hurl | done]).
    repeat (apply elem_of_cons in Hkey as [-> | Hkey];
      [eapply text_present; [reflexivity | by eauto using setting_nonempty] |]). by apply elem_of_nil in Hkey.
  - repeat (apply Forall_cons_2; [eapply secret_long; [exact Hall | | eassumption]; listed |]).
    constructor.
  - cbn [launch_control allowedEventIds allowedOrganizerIds allowedGateIds].
    rewrite Horganizers, Hevents, Hgates. split; [| split];
      (eapply (list_restricts _ _ Hall _ KOptionalUuidList); listed).
Qed.

Lemma validated_settings_present_witness :
  service_getOrThrow ConfigExample.config ConfigExample.env "QR_HMAC_ACTIVE_KID" = Ok (CText "k1") /\
  allowedEventIds (launch_control (PILOT ConfigExample.config)) =
    Some {[ "3F2504E0-4F89-41D3-9A0C-0305E82C3301" ]}.
Proof.
  destruct (validated_settings_present ConfigExample.URL ConfigExample.env ConfigExample.config _
    ConfigExample.run ConfigExample.URL_nonempty) as (Hp & _ & Hevents & _). split.
  - destruct (Hp "QR_HMAC_ACTIVE_KID" ltac:(listed)) as (s & Hs & _). rewrite Hs.
    vm_compute in Hs. congruence.
  - rewrite Hevents. reflexivity.
Defined.
