(* ===== verification/System.v ===== *)
(** System.v: the program whole.  Every request has a footprint, the parts of the
    database it may write; the machines of the other files (stock, gate, seating,
    sessions) leave room for steps outside their part, and here that room is filled
    with all the requests there are: their guarantees hold together, over any
    sequence of requests. *)

From S2P Require Import Prelude Errors Values Hashing Store Context LaunchControl Inventory Providers Orders Payments Base32 Tickets Capacity PaymentIntents Webhooks Issuance Admissions Outbox Sessions Auth Organizers Events TableHolds Tables Redaction AdminSupport.

Local Open Scope Z_scope.

(* ------------------------------------------------------------------ *)
(** ** Footprints                                                       *)

Inductive part : Type :=
| Catalog | Stock | Checkout | Journal | Intents | Ticketing | Seating | Identity.

#[export] Instance part_eq_dec : EqDecision part.
Proof. solve_decision. Defined.

Definition same_part (p : part) (w w' : world) : Prop :=
  match p with
  | Catalog => catalog w' = catalog w
  | Stock => stock w' = stock w
  | Checkout => checkout w' = checkout w
  | Journal => journal w' = journal w
  | Intents => intents w' = intents w
  | Ticketing => ticketing w' = ticketing w
  | Seating => seating w' = seating w
  | Identity => identity w' = identity w
  end.

Lemma same_part_refl p w : same_part p w w.
Proof. by destruct p. Qed.

Lemma same_part_trans p w1 w2 w3 : same_part p w1 w2 -> same_part p w2 w3 -> same_part p w1 w3.
Proof. destruct p; cbn; congruence. Qed.

(** However it ends, [m] only writes [ps]. *)
Definition touches (ps : list part) {A} (m : op A) : Prop :=
  forall w p, bool_decide (p ∈ ps) = false -> same_part p w (m w).2.

(** A store of a table is a write to its part. *)
Class InPart {R} (T : table R) (q : part) : Prop :=
  in_part : forall rows w p, p <> q -> same_part p w (tb_store T rows w).

Section Touches.
Context (ps : list part).

Lemma touches_ret {A} (a : A) : touches ps (ret a).
Proof. intros w p _. apply same_part_refl. Qed.

Lemma touches_throw {A} (e : error) : touches ps (throw (A := A) e).
Proof. intros w p _. apply same_part_refl. Qed.

Lemma touches_reads {A} (f : world -> A) : touches ps (reads f).
Proof. intros w p _. apply same_part_refl. Qed.

Lemma touches_bind {A B} (m : op A) (k : A -> op B) :
  touches ps m -> (forall a, touches ps (k a)) -> touches ps (bind m k).
Proof.
  intros Hm Hk w p Hp. unfold bind. specialize (Hm w p Hp). destruct (m w) as [[a | e] w']; [| done].
  eapply same_part_trans; [exact Hm |]. by apply Hk.
Qed.

Lemma touches_catch {A} (m : op A) (h : error -> op A) :
  touches ps m -> (forall e, touches ps (h e)) -> touches ps (catch m h).
Proof.
  intros Hm Hh w p Hp. unfold catch. specialize (Hm w p Hp). destruct (m w) as [[a | e] w']; [done |].
  eapply same_part_trans; [exact Hm |]. by apply Hh.
Qed.

Lemma touches_transaction {A} (m : op A) : touches ps m -> touches ps (transaction m).
Proof.
  intros Hm w p Hp. unfold transaction. specialize (Hm w p Hp). destruct (m w) as [[a | e] w']; [done |].
  apply same_part_refl.
Qed.

Lemma touches_modify (f : world -> world) :
  (forall w p, bool_decide (p ∈ ps) = false -> same_part p w (f w)) -> touches ps (modify f).
Proof. done. Qed.

Lemma touches_throw_if b e : touches ps (throw_if b e).
Proof. destruct b; [apply touches_throw | apply touches_ret]. Qed.

Lemma touches_or_throw {A} (o : option A) e : touches ps (or_throw o e).
Proof. destruct o; [apply touches_ret | apply touches_throw]. Qed.

Lemma touches_when b (m : op unit) : touches ps m -> touches ps (when b m).
Proof. destruct b; [done | intros _; apply touches_ret]. Qed.

Lemma touches_for_each {A} (l : list A) (f : A -> op unit) :
  (forall x, touches ps (f x)) -> touches ps (for_each l f).
Proof.
  intros Hf. induction l as [| x l IH]; [apply touches_ret |]. by apply touches_bind.
Qed.

Lemma in_footprint p q : bool_decide (p ∈ ps) = false -> q ∈ ps -> p <> q.
Proof. intros Hp Hq ->. by apply bool_decide_eq_false in Hp. Qed.

Context {R : Type} (T : table R) (q : part) (HT : InPart T q) (Hq : q ∈ ps).

Lemma touches_create r : touches ps (create T r).
Proof.
  intros w p Hp. unfold create. destruct (_ && _); [| apply same_part_refl].
  apply HT. by eapply in_footprint.
Qed.

Lemma touches_update id f : touches ps (update T id f).
Proof.
  intros w p Hp. unfold update. destruct (_ !! _); [| apply same_part_refl].
  apply HT. by eapply in_footprint.
Qed.

Lemma touches_update_unique id f : touches ps (update_unique T id f).
Proof.
  intros w p Hp. unfold update_unique. destruct (_ !! _); [| apply same_part_refl].
  destruct (bool_decide (_ = None)); [| apply same_part_refl]. apply HT. by eapply in_footprint.
Qed.

Lemma touches_updateMany id P f : touches ps (updateMany T id P f).
Proof.
  intros w p Hp. unfold updateMany. destruct (_ !! _); [| apply same_part_refl].
  destruct (P _); [| apply same_part_refl]. apply HT. by eapply in_footprint.
Qed.

End Touches.

Ltac in_part_tac := intros rows w [] Hp; (reflexivity || by destruct Hp).

#[export] Instance users_in : InPart users_t Catalog. Proof. in_part_tac. Qed.
#[export] Instance organizers_in : InPart organizers_t Catalog. Proof. in_part_tac. Qed.
#[export] Instance events_in : InPart events_t Catalog. Proof. in_part_tac. Qed.
#[export] Instance gates_in : InPart gates_t Catalog. Proof. in_part_tac. Qed.
#[export] Instance inventories_in : InPart inventories_t Stock. Proof. in_part_tac. Qed.
#[export] Instance reservations_in : InPart reservations_t Stock. Proof. in_part_tac. Qed.
#[export] Instance orders_in : InPart orders_t Checkout. Proof. in_part_tac. Qed.
#[export] Instance payments_in : InPart payments_t Checkout. Proof. in_part_tac. Qed.
#[export] Instance ledger_in : InPart ledger_t Checkout. Proof. in_part_tac. Qed.
#[export] Instance audit_logs_in : InPart audit_logs_t Journal. Proof. in_part_tac. Qed.
#[export] Instance outbox_in : InPart outbox_t Journal. Proof. in_part_tac. Qed.
#[export] Instance support_audits_in : InPart support_audits_t Journal. Proof. in_part_tac. Qed.
#[export] Instance payment_intents_in : InPart payment_intents_t Intents. Proof. in_part_tac. Qed.
#[export] Instance webhook_events_in : InPart webhook_events_t Intents. Proof. in_part_tac. Qed.
#[export] Instance tickets_in : InPart tickets_t Ticketing. Proof. in_part_tac. Qed.
#[export] Instance sessions_in : InPart sessions_t Identity. Proof. in_part_tac. Qed.
#[export] Instance venue_tables_in : InPart venue_tables_t Seating. Proof. in_part_tac. Qed.
#[export] Instance floor_sections_in : InPart floor_sections_t Seating. Proof. in_part_tac. Qed.
#[export] Instance event_tables_in : InPart event_tables_t Seating. Proof. in_part_tac. Qed.
#[export] Instance table_reservations_in : InPart table_reservations_t Seating. Proof. in_part_tac. Qed.

(** The bodies that are no composition of statements, and the loops. *)
Section MoreFootprints.
Context (ps : list part).

(** [try { a = await m } catch (e) { return h(e) } return k(a)] *)
Lemma touches_try {A B} (m : op A) (k : A -> op B) (h : error -> op B) :
  touches ps m -> (forall a, touches ps (k a)) -> (forall e, touches ps (h e)) ->
  touches ps (fun w => match m w with (Ok a, w') => k a w' | (Err e, w') => h e w' end).
Proof.
  intros Hm Hk Hh w p Hp. specialize (Hm w p Hp). destruct (m w) as [[a | e] w'];
    (eapply same_part_trans; [exact Hm |]); [by apply Hk | by apply Hh].
Qed.

Lemma touches_awaiting {A} (m : op A) : touches ps m -> touches ps (awaiting (fun w => w) m).
Proof. intros Hm w p Hp. specialize (Hm w p Hp). unfold awaiting. by destruct (m w). Qed.

Lemma touches_insert_idempotency pk row : Checkout ∈ ps -> touches ps (insert_idempotency pk row).
Proof.
  intros Hc w p Hp. unfold insert_idempotency. destruct (_ !! _); [apply same_part_refl |].
  pose proof (in_footprint ps p Checkout Hp Hc). by destruct p.
Qed.

Lemma touches_complete `{Crypto} actor useCase key code body :
  Checkout ∈ ps -> touches ps (complete actor useCase key code body).
Proof.
  intros Hc w p Hp. unfold complete. destruct (_ !! _); [| apply same_part_refl].
  pose proof (in_footprint ps p Checkout Hp Hc). by destruct p.
Qed.

Lemma touches_allocateBatch {T} rnd count (writer : nat -> list ticket_reference -> op T) :
  (forall a refs, touches ps (writer a refs)) -> touches ps (allocateBatch rnd count writer).
Proof.
  intros Hw. unfold allocateBatch. generalize 0%nat, (@None error). induction MAX_ATTEMPTS as [| n IH];
    intros attempt lastError; [apply touches_throw |]. apply touches_catch; [apply Hw |].
  intros e. destruct (isUniqueConstraintError e); [apply IH | apply touches_throw].
Qed.

End MoreFootprints.

Create HintDb footprints.
Create HintDb runs.

Ltac in_list := eapply bool_decide_eq_true_1; reflexivity.

(** The footprint of a method, read off its body. *)
Ltac foot_step :=
  lazymatch goal with
  | |- touches _ (bind _ _) => apply touches_bind; [| intros ?]
  | |- touches _ (ret _) => apply touches_ret
  | |- touches _ (throw _) => apply touches_throw
  | |- touches _ (reads _) => apply touches_reads
  | |- touches _ (catch _ _) => apply touches_catch; [| intros ?]
  | |- touches _ (transaction _) => apply touches_transaction
  | |- touches _ (throw_if _ _) => apply touches_throw_if
  | |- touches _ (or_throw _ _) => apply touches_or_throw
  | |- touches _ (when _ _) => apply touches_when
  | |- touches _ (for_each _ _) => apply touches_for_each; intros ?
  | |- touches _ (create _ _) => eapply touches_create; [typeclasses eauto | in_list]
  | |- touches _ (update _ _ _) => eapply touches_update; [typeclasses eauto | in_list]
  | |- touches _ (update_unique _ _ _) => eapply touches_update_unique; [typeclasses eauto | in_list]
  | |- touches _ (updateMany _ _ _ _) => eapply touches_updateMany; [typeclasses eauto | in_list]
  | |- touches _ (modify _) =>
      apply touches_modify; let p := fresh in intros ? p ?; by destruct p
  | |- touches _ (match ?x with _ => _ end) => destruct x
  | |- touches _ (let _ := _ in _) => cbv zeta
  | |- touches _ (fun w => match _ w with _ => _ end) => apply touches_try; [| intros ? | intros ?]
  | |- touches _ (awaiting _ _) => apply touches_awaiting
  | |- touches _ (allocateBatch _ _ _) => apply touches_allocateBatch; intros ? ?
  | |- touches _ ?m =>
      first [ solve [auto 2 with footprints nocore]
            | let h := prog_head m in unfold h ]
  end; cbv beta.

Ltac foot := intros; repeat foot_step.


Lemma foot_sweep_loop uuid ck rs i : touches [Stock; Journal] (sweep_loop uuid ck i rs).
Proof.
  revert i. induction rs as [| r rs IH]; intros i; cbn [sweep_loop]; [apply touches_ret |].
  apply touches_bind; [foot |]. intros _. apply touches_bind; [apply IH |]. intros ids. apply touches_ret.
Qed.

Lemma foot_process_loop dispatch clocks rows i : touches [Journal] (process_loop dispatch clocks i rows).
Proof.
  revert i. induction rows as [| r rows IH]; intros i; cbn [process_loop]; [apply touches_ret |].
  apply touches_bind; [foot |]. intros _. apply IH.
Qed.

#[export] Hint Resolve foot_sweep_loop foot_process_loop touches_awaiting : footprints.
#[export] Hint Extern 1 (touches _ (insert_idempotency _ _)) =>
  apply touches_insert_idempotency; in_list : footprints.
#[export] Hint Extern 1 (touches _ (complete _ _ _ _ _)) => apply touches_complete; in_list : footprints.

(* ------------------------------------------------------------------ *)
(** ** Requests                                                         *)

(** What a deployment fixes. *)
Record deployment : Type := {
  dp_config : string -> option string;
  dp_launch : LaunchControlService;
  dp_hold : jsval;
  dp_env : string -> option string;
  dp_contains : string -> string -> bool;
  dp_createdAt : string -> Z;
  dp_updatedAt : string -> Z;
  dp_scanId : nat -> string
}.

(** Every method the controllers, the schedulers and the webhooks reach, with the
    random draws and the network of the call.  The calls of the session store and the
    two halves of a scan are steps of their own, below. *)
Inductive request : Type :=
| RqReserve (uuid : nat -> string) (ctx : option RequestContextValue) (input : ReserveInventoryInput)
| RqRelease (id : string) (inputNow : option Z)
| RqReconcile (eventId ticketTypeId : string)
| RqSweep (uuid : nat -> string) (skipped : string -> bool) (limit : option nat)
| RqCheckout (uuid : nat -> string) (ctx : option RequestContextValue) (input : CreateOrderInput)
| RqVerifyPayment (fetch : http_request -> fetch_result) (uuid : nat -> string)
    (ctx : option RequestContextValue) (input : VerifyPaymentInput)
| RqIssueOrder (uuid : nat -> string) (rnd : nat -> list Z) (ctx : option RequestContextValue)
    (orderId : string)
| RqInitiate (fetch : http_request -> fetch_result) (newId : string) (fault : option error)
    (ctx : option RequestContextValue) (input : InitiatePaymentInput)
| RqGetIntent (paymentIntentId buyerUserId : string)
| RqWebhook (fetch : http_request -> fetch_result) (newId : string) (provider : SupportedPaymentProvider)
    (rawBody : option string) (parsedBody : jsval) (headers : list (string * header))
| RqIssueIntent (id : string) (numberBytes : list Z) (token paymentIntentId : string)
| RqMyTickets (ownerUserId : string)
| RqMyTicket (ticketId ownerUserId : string)
| RqProcessOutbox (dispatch : DispatchableOutboxEvent -> outcome error unit) (skipped : string -> bool)
    (clocks : nat -> Z)
| RqEnqueue (id eventType aggregateId : string) (payload : json) (aggregateType : string)
| RqCreateUser (id email passwordHash : string) (role : option UserRole)
| RqSetActive (userId : string) (isActive : bool)
| RqAuthLog (row : auth_audit)
| RqCreateOrganizer (id ownerUserId : string) (dto : CreateOrganizerRequest)
| RqMyOrganizers (ownerUserId : string)
| RqMyOrganizer (organizerId ownerUserId : string)
| RqUpdateOrganizer (organizerId ownerUserId : string) (dto : UpdateOrganizerRequest)
| RqSubmitOrganizer (organizerId ownerUserId : string)
| RqCreateEvent (id venueId organizerId ownerUserId : string) (dto : CreateEventRequest)
| RqListEvents (organizerId ownerUserId : string)
| RqGetEvent (eventId ownerUserId : string)
| RqUpdateEvent (eventId ownerUserId : string) (dto : UpdateEventRequest)
| RqPublishEvent (eventId ownerUserId : string)
| RqCancelEvent (eventId ownerUserId : string)
| RqHold (id : string) (input : CreateHoldInput)
| RqReservation (reservationId actorUserId : string)
| RqCreateSection (id actorUserId : string) (dto : CreateFloorSectionRequest)
| RqListSections (organizerId actorUserId : string)
| RqCreateVenueTable (id actorUserId : string) (dto : CreateVenueTableRequest)
| RqListVenueTables (organizerId actorUserId : string)
| RqGetVenueTable (venueTableId actorUserId : string)
| RqCreateEventTable (id actorUserId : string) (dto : CreateEventTableRequest)
| RqListEventTables (eventId actorUserId : string)
| RqTableStatus (eventTableId : string) (status : EventTableStatus) (actorUserId : string)
| RqAvailability (eventId : string)
| RqSupport (id actorUserId : string) (rq : SupportRequest).

(** The parts a request may write. *)
Definition footprint (rq : request) : list part :=
  match rq with
  | RqReserve _ _ _ | RqRelease _ _ | RqReconcile _ _ | RqSweep _ _ _ => [Stock; Journal]
  | RqCheckout _ _ _ => [Checkout; Journal]
  | RqVerifyPayment _ _ _ _ => [Checkout; Journal]
  | RqIssueOrder _ _ _ _ => [Stock; Checkout; Ticketing; Journal]
  | RqInitiate _ _ _ _ _ | RqWebhook _ _ _ _ _ _ => [Intents]
  | RqIssueIntent _ _ _ _ => [Ticketing]
  | RqProcessOutbox _ _ _ | RqEnqueue _ _ _ _ _ | RqSupport _ _ _ => [Journal]
  | RqCreateUser _ _ _ _ | RqSetActive _ _ => [Catalog]
  | RqAuthLog _ => [Identity]
  | RqCreateOrganizer _ _ _ | RqUpdateOrganizer _ _ _ | RqSubmitOrganizer _ _
  | RqCreateEvent _ _ _ _ _ | RqUpdateEvent _ _ _ | RqPublishEvent _ _ | RqCancelEvent _ _ => [Catalog]
  | RqHold _ _ | RqReservation _ _ | RqCreateSection _ _ _ | RqCreateVenueTable _ _ _
  | RqCreateEventTable _ _ _ | RqTableStatus _ _ _ | RqAvailability _ => [Seating]
  | RqGetIntent _ _ | RqMyTickets _ | RqMyTicket _ _ | RqMyOrganizers _ | RqMyOrganizer _ _
  | RqListEvents _ _ | RqGetEvent _ _ | RqListSections _ _ | RqListVenueTables _ _
  | RqGetVenueTable _ _ | RqListEventTables _ _ => []
  end.

(** The answer is not looked at. *)
Definition quietly {A} (m : op A) : op unit := do* m in ret tt.

Lemma quietly_world {A} (m : op A) w : (quietly m w).2 = (m w).2.
Proof. unfold quietly, bind, ret. by destruct (m w) as [[a | e] w']. Qed.

Section System.
Context `{Crypto} (dp : deployment).

(** A request at process time [app] and database time [now]. *)
Definition exec (app now : Z) (rq : request) : op unit :=
  let ck := {| app_now := app; db_now := now |} in
  let idle := fun w : world => w in
  match rq with
  | RqReserve uuid ctx input => quietly (reserveInventory uuid ck ctx input)
  | RqRelease id inputNow => quietly (releaseExpiredReservation ck id inputNow)
  | RqReconcile eventId ticketTypeId => quietly (reconcileInventoryDrift ck eventId ticketTypeId)
  | RqSweep uuid skipped limit => quietly (sweepExpiredReservations uuid ck skipped limit)
  | RqCheckout uuid ctx input => quietly (createOrder (dp_launch dp) uuid ck ctx input)
  | RqVerifyPayment fetch uuid ctx input => quietly (verifyPayment fetch (dp_config dp) uuid ck ctx input)
  | RqIssueOrder uuid rnd ctx orderId => quietly (issueTickets uuid rnd ck ctx orderId)
  | RqInitiate fetch newId fault ctx input =>
      quietly (initiatePayment fetch (dp_config dp) (dp_launch dp) newId idle fault ck ctx input)
  | RqGetIntent id buyer => quietly (getPaymentIntentForBuyer id buyer)
  | RqWebhook fetch newId provider rawBody parsedBody headers =>
      quietly (payment_webhook fetch (dp_config dp) newId idle ck provider rawBody parsedBody headers)
  | RqIssueIntent id bytes token intentId =>
      quietly (issueTicketFromVerifiedPayment id bytes token ck intentId)
  | RqMyTickets owner => quietly (listMine owner)
  | RqMyTicket id owner => quietly (getOwned id owner)
  | RqProcessOutbox dispatch skipped clocks => quietly (processBatch dispatch skipped ck clocks)
  | RqEnqueue id eventType aggregateId payload aggregateType =>
      quietly (enqueue id ck eventType aggregateId payload aggregateType)
  | RqCreateUser id email hash role => quietly (createUser id email hash role)
  | RqSetActive id isActive => quietly (setActive id isActive)
  | RqAuthLog row => quietly (auth_log row)
  | RqCreateOrganizer id owner dto => quietly (org_create id owner dto)
  | RqMyOrganizers owner => quietly (org_listMine owner)
  | RqMyOrganizer id owner => quietly (org_getOwned id owner)
  | RqUpdateOrganizer id owner dto => quietly (org_updateOwned id owner dto)
  | RqSubmitOrganizer id owner => quietly (submitForReview id owner)
  | RqCreateEvent id venueId organizerId owner dto =>
      quietly (createForOrganizer id venueId organizerId owner dto)
  | RqListEvents organizerId owner => quietly (listForOwnedOrganizer organizerId owner)
  | RqGetEvent id owner => quietly (event_getOwned id owner)
  | RqUpdateEvent id owner dto => quietly (event_updateOwned id owner dto)
  | RqPublishEvent id owner => quietly (publishOwned id owner app)
  | RqCancelEvent id owner => quietly (cancelOwned id owner app)
  | RqHold id input => quietly (createHold (dp_hold dp) id input now)
  | RqReservation id actor => quietly (getOwnedReservation id actor now)
  | RqCreateSection id actor dto => quietly (createFloorSection id actor dto)
  | RqListSections organizerId actor => quietly (listFloorSections organizerId actor)
  | RqCreateVenueTable id actor dto => quietly (createVenueTable id actor dto)
  | RqListVenueTables organizerId actor => quietly (listVenueTables organizerId actor)
  | RqGetVenueTable id actor => quietly (getVenueTable id actor)
  | RqCreateEventTable id actor dto => quietly (createEventTable id actor dto)
  | RqListEventTables eventId actor => quietly (listEventTablesForOwnedEvent eventId actor)
  | RqTableStatus id status actor => quietly (updateEventTableStatus id status actor now)
  | RqAvailability eventId => quietly (getAvailability eventId now)
  | RqSupport id actor rq =>
      quietly (serve (dp_env dp) (dp_contains dp) (dp_createdAt dp) (dp_updatedAt dp) (dp_scanId dp)
                 id actor rq)
  end.

Lemma exec_touches app now rq : touches (footprint rq) (exec app now rq).
Proof. destruct rq; cbn [exec footprint]; unfold quietly; foot. Qed.

Lemma exec_leaves app now rq w p :
  bool_decide (p ∈ footprint rq) = false -> same_part p w (exec app now rq w).2.
Proof. apply exec_touches. Qed.

(* ------------------------------------------------------------------ *)
(** ** The system                                                       *)

(** The clock, the database, the scans between their check and their transaction,
    the hashes of the refresh tokens drawn so far and of those redeemed. *)
Record system : Type := {
  sy_now : Z;
  sy_world : world;
  sy_scans : list pending_scan;
  sy_issued : gset string;
  sy_redeemed : list string
}.

Definition with_world (w : world) (s : system) : system :=
  {| sy_now := sy_now s; sy_world := w; sy_scans := sy_scans s; sy_issued := sy_issued s;
     sy_redeemed := sy_redeemed s |}.

Definition with_token (h : string) (w : world) (s : system) : system :=
  {| sy_now := sy_now s; sy_world := w; sy_scans := sy_scans s; sy_issued := {[h]} ∪ sy_issued s;
     sy_redeemed := sy_redeemed s |}.

(** What the code does not check, and the capacity needs. *)
Definition admissible_request (rq : request) (s : system) : Prop :=
  match rq with
  | RqIssueOrder _ _ _ orderId => unexpired_reservation orderId (sy_now s) (sy_world s)
  | _ => True
  end.

(** A request, half a scan, a call of the session store, or the passing of time. *)
Inductive system_step (s : system) : system -> Prop :=
| st_time now' :
    sy_now s <= now' ->
    system_step s {| sy_now := now'; sy_world := sy_world s; sy_scans := sy_scans s;
                     sy_issued := sy_issued s; sy_redeemed := sy_redeemed s |}
| st_request app rq :
    admissible_request rq s -> system_step s (with_world (exec app (sy_now s) rq (sy_world s)).2 s)
| st_scan_rejects at_ input r w' :
    scan_preflight at_ input (sy_world s) = (Ok (inl r), w') -> system_step s (with_world w' s)
| st_scan_passes at_ input rc w' :
    scan_preflight at_ input (sy_world s) = (Ok (inr rc), w') ->
    system_step s
      {| sy_now := sy_now s; sy_world := w';
         sy_scans := {| ps_scannedAt := at_; ps_input := input; ps_record := rc |} :: sy_scans s;
         sy_issued := sy_issued s; sy_redeemed := sy_redeemed s |}
| st_scan_commits p r w' :
    p ∈ sy_scans s -> scan_commit (ps_scannedAt p) (ps_input p) (ps_record p) (sy_world s) = (Ok r, w') ->
    system_step s (with_world w' s)
| st_session_created id userId deviceId token ua ip at_ w' :
    hashRefreshToken token ∉ sy_issued s ->
    createSession id userId deviceId token ua ip at_ (sy_world s) = (Ok tt, w') ->
    system_step s (with_token (hashRefreshToken token) w' s)
| st_rotated p found at_ v w' :
    hashRefreshToken (rp_nextRefreshToken p) ∉ sy_issued s ->
    rotate_continue p found at_ (sy_world s) = (Ok v, w') ->
    system_step s
      {| sy_now := sy_now s; sy_world := w'; sy_scans := sy_scans s;
         sy_issued := {[hashRefreshToken (rp_nextRefreshToken p)]} ∪ sy_issued s;
         sy_redeemed := hashRefreshToken (rp_refreshToken p) :: sy_redeemed s |}
| st_not_rotated p found at_ e w' :
    rotate_continue p found at_ (sy_world s) = (Err e, w') -> system_step s (with_world w' s)
| st_session_used id at_ :
    system_step s (with_world (assertSessionUsable id at_ (sy_world s)).2 s)
| st_session_revoked requester id reason allowAny at_ :
    system_step s (with_world (revokeSession requester id reason allowAny at_ (sy_world s)).2 s).

Lemma foot_session_calls :
  (forall id userId deviceId token ua ip at_,
     touches [Identity] (createSession id userId deviceId token ua ip at_)) /\
  (forall p found at_, touches [Identity] (rotate_continue p found at_)) /\
  (forall id at_, touches [Identity] (assertSessionUsable id at_)) /\
  (forall requester id reason allowAny at_,
     touches [Identity] (revokeSession requester id reason allowAny at_)).
Proof. split_and!; foot. Qed.

Lemma foot_scans :
  (forall at_ input, touches [Ticketing] (scan_preflight at_ input)) /\
  (forall at_ input rc, touches [Ticketing] (scan_commit at_ input rc)).
Proof. split; foot. Qed.

(** What a step that is no request leaves alone: all but the tickets, or all but the
    sessions. *)
Lemma step_leaves s s' p :
  system_step s s' ->
  (exists app rq, admissible_request rq s /\ s' = with_world (exec app (sy_now s) rq (sy_world s)).2 s) \/
  (p <> Ticketing -> p <> Identity -> same_part p (sy_world s) (sy_world s')).
Proof.
  destruct foot_session_calls as (Hcreate & Hrotate & Huse & Hrevoke), foot_scans as [Hpre Hcommit].
  assert (Hof : forall A (m : op A) (o : outcome error A) q w', touches [q] m -> m (sy_world s) = (o, w') ->
    p <> q -> same_part p (sy_world s) w').
  { intros A m o q w' Hm Hrun Hq. replace w' with (m (sy_world s)).2 by (by rewrite Hrun).
    apply Hm, bool_decide_eq_false. by intros Hin%list_elem_of_singleton. }
  intros [now' Hle | app rq Hadm | at_ input r w' Hrun | at_ input rc w' Hrun | ps r w' Hin Hrun
    | id userId deviceId token ua ip at_ w' Hnew Hrun | rp found at_ v w' Hnew Hrun | rp found at_ e w' Hrun
    | id at_ | requester id reason allowAny at_]; [right | left; by eauto | right ..];
    intros Ht Hi; cbn [sy_world with_world with_token].
  - apply same_part_refl.
  - exact (Hof _ _ _ _ _ (Hpre _ _) Hrun Ht).
  - exact (Hof _ _ _ _ _ (Hpre _ _) Hrun Ht).
  - exact (Hof _ _ _ _ _ (Hcommit _ _ _) Hrun Ht).
  - exact (Hof _ _ _ _ _ (Hcreate _ _ _ _ _ _ _) Hrun Hi).
  - exact (Hof _ _ _ _ _ (Hrotate _ _ _) Hrun Hi).
  - exact (Hof _ _ _ _ _ (Hrotate _ _ _) Hrun Hi).
  - exact (Hof _ _ _ _ _ (Huse _ _) (surjective_pairing _) Hi).
  - exact (Hof _ _ _ _ _ (Hrevoke _ _ _ _ _) (surjective_pairing _) Hi).
Qed.

(* ------------------------------------------------------------------ *)
(** ** The machines of the other files, run by the system               *)

Lemma capacity_frame t w w' :
  same_part Stock w w' -> same_part Checkout w w' -> within_capacity t w -> within_capacity t w'.
Proof.
  cbn. intros Hs Hc Hwc. apply (within_capacity_same t w); [done | done | |]; rewrite Hc; apply Hwc.
Qed.

Lemma capacity_issued uuid rnd ck ctx orderId w :
  unexpired_reservation orderId (db_now ck) w -> within_capacity (db_now ck) w ->
  within_capacity (db_now ck) (issueTickets uuid rnd ck ctx orderId w).2.
Proof.
  intros Hg Hwc. eapply step_keeps; [done | apply issueTickets_wp; apply Hwc |]. cbn beta.
  intros res w' (a & o & r & i & _ & Hc). eapply within_capacity_consumed; [exact Hwc | exact Hc |].
  apply (Hg o); [apply (cs_order _ _ _ _ _ _ _ _ _ _ Hc)
    | apply (cs_link _ _ _ _ _ _ _ _ _ _ Hc) | apply (cs_row _ _ _ _ _ _ _ _ _ _ Hc)].
Qed.

(** The stock stays within capacity. *)
Lemma system_capacity s s' :
  system_step s s' -> within_capacity (sy_now s) (sy_world s) -> within_capacity (sy_now s') (sy_world s').
Proof.
  intros Hstep Hwc. destruct (decide (sy_now s' = sy_now s)) as [Hnow |].
  2: { destruct Hstep; try done. cbn in *. by eapply within_capacity_later. }
  rewrite Hnow. pose proof (step_leaves s s' Stock Hstep) as Hs.
  pose proof (step_leaves s s' Checkout Hstep) as Hc.
  destruct Hs as [(app & rq & Hadm & ->) | Hs];
    [| destruct Hc as [(app & rq & Hadm & ->) | Hc]; [| by apply (capacity_frame _ (sy_world s)); auto]].
  all: clear Hnow Hstep; cbn [with_world sy_world];
    destruct (bool_decide (Stock ∈ footprint rq)) eqn:HS, (bool_decide (Checkout ∈ footprint rq)) eqn:HC;
    try (by apply (capacity_frame _ (sy_world s)); [apply exec_leaves.. | done]).
  all: destruct rq; try discriminate HS; try discriminate HC; cbn [exec]; rewrite quietly_world.
  all: pose (ck := {| app_now := app; db_now := sy_now s |}).
  all: match goal with |- within_capacity _ ?x => change (within_capacity (db_now ck) x) end.
  all: first [ by apply capacity_issued | by apply within_capacity_reserve | by apply within_capacity_release
             | by apply within_capacity_reconcile | by apply within_capacity_sweep
             | by apply within_capacity_order | by apply within_capacity_verify ].
Qed.

(** The gate. *)
Lemma system_gate s s' :
  system_step s s' -> gate_step (sy_world s, sy_scans s) (sy_world s', sy_scans s').
Proof.
  destruct foot_session_calls as (Hcreate & Hrotate & Huse & Hrevoke).
  assert (Hid : forall A (m : op A) o w', touches [Identity] m -> m (sy_world s) = (o, w') ->
    gate_step (sy_world s, sy_scans s) (w', sy_scans s)).
  { intros A m o w' Hm Hrun. apply gate_elsewhere. specialize (Hm (sy_world s) Ticketing eq_refl).
    by rewrite Hrun in Hm. }
  intros [now' Hle | app rq Hadm | at_ input r w' Hrun | at_ input rc w' Hrun | ps r w' Hin Hrun
    | id userId deviceId token ua ip at_ w' Hnew Hrun | rp found at_ v w' Hnew Hrun | rp found at_ e w' Hrun
    | id at_ | requester id reason allowAny at_]; cbn [sy_world sy_scans with_world with_token].
  - by apply gate_elsewhere.
  - destruct (bool_decide (Ticketing ∈ footprint rq)) eqn:HT;
      [| exact (gate_elsewhere _ _ _ (exec_leaves _ _ _ _ Ticketing HT))].
    destruct rq; try discriminate HT; cbn [exec]; rewrite quietly_world; [apply gate_fulfils | apply gate_issues].
  - by eapply gate_rejects.
  - by eapply gate_passes.
  - by eapply gate_commits.
  - exact (Hid _ _ _ _ (Hcreate _ _ _ _ _ _ _) Hrun).
  - exact (Hid _ _ _ _ (Hrotate _ _ _) Hrun).
  - exact (Hid _ _ _ _ (Hrotate _ _ _) Hrun).
  - exact (Hid _ _ _ _ (Huse _ _) (surjective_pairing _)).
  - exact (Hid _ _ _ _ (Hrevoke _ _ _ _ _) (surjective_pairing _)).
Qed.

(** The seating. *)
Lemma system_seating s s' :
  system_step s s' -> seat_step (dp_hold dp) (sy_now s, sy_world s) (sy_now s', sy_world s').
Proof.
  intros Hstep. destruct (decide (sy_now s' = sy_now s)) as [Hnow |].
  2: { destruct Hstep; try done. by apply ss_time. }
  rewrite Hnow. destruct (step_leaves s s' Seating Hstep) as [(app & rq & Hadm & ->) | Hs];
    [| by apply ss_other, (Hs ltac:(done) ltac:(done))].
  clear Hnow Hstep. cbn [with_world sy_world].
  destruct (bool_decide (Seating ∈ footprint rq)) eqn:HS;
    [| exact (ss_other _ _ _ _ (exec_leaves _ _ _ _ Seating HS))].
  destruct rq; try discriminate HS; cbn [exec]; rewrite quietly_world; apply ss_call; constructor.
Qed.

(** The session store. *)
Definition sessions_of (s : system) : history :=
  {| hs_world := sy_world s; hs_issued := sy_issued s; hs_redeemed := sy_redeemed s |}.

Lemma system_sessions s s' : system_step s s' -> session_call (sessions_of s) (sessions_of s').
Proof.
  destruct foot_scans as [Hpre Hcommit].
  assert (Hother : forall w', identity w' = identity (sy_world s) ->
    session_call (sessions_of s) (sessions_of (with_world w' s))).
  { intros w' Hw. apply call_other. unfold db_sessions. cbn. by rewrite Hw. }
  assert (Hscan : forall A (m : op A) o w', touches [Ticketing] m -> m (sy_world s) = (o, w') ->
    identity w' = identity (sy_world s)).
  { intros A m o w' Hm Hrun. specialize (Hm (sy_world s) Identity eq_refl). by rewrite Hrun in Hm. }
  intros [now' Hle | app rq Hadm | at_ input r w' Hrun | at_ input rc w' Hrun | ps r w' Hin Hrun
    | id userId deviceId token ua ip at_ w' Hnew Hrun | rp found at_ v w' Hnew Hrun | rp found at_ e w' Hrun
    | id at_ | requester id reason allowAny at_].
  - by apply call_other.
  - destruct (bool_decide (Identity ∈ footprint rq)) eqn:HI;
      [| exact (Hother _ (exec_leaves _ _ _ _ Identity HI))].
    destruct rq; try discriminate HI. by apply call_other.
  - exact (Hother _ (Hscan _ _ _ _ (Hpre _ _) Hrun)).
  - apply call_other. unfold db_sessions. cbn. by rewrite (Hscan _ _ _ _ (Hpre _ _) Hrun).
  - exact (Hother _ (Hscan _ _ _ _ (Hcommit _ _ _) Hrun)).
  - by eapply call_create.
  - by eapply call_rotate.
  - by eapply call_rotate_fails.
  - apply call_use.
  - apply call_revoke.
Qed.

(** A good state: each part as its machine needs it. *)
Record system_ok (s : system) : Prop := {
  so_capacity : within_capacity (sy_now s) (sy_world s);
  so_gate : gate_inv (sy_world s);
  so_seating : seating_ok (sy_now s) (sy_world s);
  so_sessions : history_ok (sessions_of s)
}.

Lemma system_ok_step s s' : system_step s s' -> system_ok s -> system_ok s'.
Proof.
  intros Hstep [Hc Hg Hs Ht]. split.
  - by eapply system_capacity.
  - exact (gate_inv_run _ _ (rtc_once _ _ (system_gate _ _ Hstep)) Hg).
  - exact (proj1 (seat_run_refines _ _ _ (rtc_once _ _ (system_seating _ _ Hstep)) Hs)).
  - eapply history_ok_call; [exact Ht | by apply system_sessions].
Qed.

Lemma system_ok_run s s' : rtc system_step s s' -> system_ok s -> system_ok s'.
Proof. induction 1; eauto using system_ok_step. Qed.

(* ------------------------------------------------------------------ *)
(** ** Whole requests                                                   *)

(** At [now], [m] is a sequence of steps that draws no token. *)
Definition quiet_run (now : Z) {A} (m : op A) : Prop :=
  forall s, sy_now s = now -> rtc system_step s (with_world (m (sy_world s)).2 s).

(** At [now], [m] is a sequence of steps that draws at most the token with the hash [h],
    provided it is new. *)
Definition drawing_run (now : Z) (h : string) {A} (m : op A) : Prop :=
  forall s, sy_now s = now -> h ∉ sy_issued s -> exists s',
    rtc system_step s s' /\ sy_now s' = now /\ sy_world s' = (m (sy_world s)).2 /\
    sy_issued s' ⊆ {[h]} ∪ sy_issued s.

Lemma with_world_same s : with_world (sy_world s) s = s.
Proof. by destruct s. Qed.

Lemma quiet_still now {A} (m : op A) : (forall w, (m w).2 = w) -> quiet_run now m.
Proof. intros Hm s _. by rewrite Hm, with_world_same. Qed.

Lemma quiet_bind now {A B} (m : op A) (k : A -> op B) :
  quiet_run now m -> (forall a, quiet_run now (k a)) -> quiet_run now (bind m k).
Proof.
  intros Hm Hk s Hs. specialize (Hm s Hs). unfold bind. destruct (m (sy_world s)) as [[a | e] w']; [| done].
  etransitivity; [exact Hm |]. exact (Hk a (with_world w' s) Hs).
Qed.

(** [try { a = await m } catch (e) { return h(e) } return k(a)] *)
Lemma quiet_try now {A B} (m : op A) (k : A -> op B) (f : error -> op B) :
  quiet_run now m -> (forall a, quiet_run now (k a)) -> (forall e, quiet_run now (f e)) ->
  quiet_run now (fun w => match m w with (Ok a, w') => k a w' | (Err e, w') => f e w' end).
Proof.
  intros Hm Hk Hf s Hs. specialize (Hm s Hs). destruct (m (sy_world s)) as [[a | e] w'];
    (etransitivity; [exact Hm |]); [exact (Hk a (with_world w' s) Hs) | exact (Hf e (with_world w' s) Hs)].
Qed.

(** A request of the list. *)
Lemma quiet_request now rq {A} (m : op A) :
  exec now now rq = quietly m -> (forall s, admissible_request rq s) -> quiet_run now m.
Proof.
  intros Heq Hadm s <-. apply rtc_once. rewrite <- (quietly_world m), <- Heq. by apply st_request.
Qed.

Lemma quiet_draws now h {A} (m : op A) : quiet_run now m -> drawing_run now h m.
Proof.
  intros Hm s Hs _. exists (with_world (m (sy_world s)).2 s).
  split_and!; [by apply Hm | done | done | apply union_subseteq_r].
Qed.

Lemma draws_after now h {A B} (m : op A) (k : A -> op B) :
  quiet_run now m -> (forall a, drawing_run now h (k a)) -> drawing_run now h (bind m k).
Proof.
  intros Hm Hk s Hs Hh. pose proof (Hm s Hs) as Hrun. unfold bind.
  destruct (m (sy_world s)) as [[a | e] w'].
  - destruct (Hk a (with_world w' s) Hs Hh) as (s' & Hrun' & Hs').
    exists s'. split; [by etransitivity | exact Hs'].
  - exists (with_world w' s). split_and!; [exact Hrun | done | done | apply union_subseteq_r].
Qed.

Lemma draws_before now h {A B} (m : op A) (k : A -> op B) :
  drawing_run now h m -> (forall a, quiet_run now (k a)) -> drawing_run now h (bind m k).
Proof.
  intros Hm Hk s Hs Hh. destruct (Hm s Hs Hh) as (s' & Hrun & Hs' & Hw & Hi). unfold bind.
  destruct (m (sy_world s)) as [[a | e] w'] eqn:E; [| by exists s']. cbn in Hw.
  exists (with_world (k a w').2 s'). split_and!; [| done | done | exact Hi].
  etransitivity; [exact Hrun |]. rewrite <- Hw. by apply Hk.
Qed.

Lemma draws_catch now h {A} (m : op A) (f : error -> op A) :
  drawing_run now h m -> (forall e, quiet_run now (f e)) -> drawing_run now h (catch m f).
Proof.
  intros Hm Hf s Hs Hh. destruct (Hm s Hs Hh) as (s' & Hrun & Hs' & Hw & Hi). unfold catch.
  destruct (m (sy_world s)) as [[a | e] w'] eqn:E; [by exists s' |]. cbn in Hw.
  exists (with_world (f e w').2 s'). split_and!; [| done | done | exact Hi].
  etransitivity; [exact Hrun |]. rewrite <- Hw. by apply Hf.
Qed.

Lemma quiet_log now row : quiet_run now (auth_log row).
Proof. by apply (quiet_request now (RqAuthLog row)). Qed.

Lemma quiet_create_user now id email hash role : quiet_run now (createUser id email hash role).
Proof. by apply (quiet_request now (RqCreateUser id email hash role)). Qed.

Lemma quiet_use now id at_ : quiet_run now (assertSessionUsable id at_).
Proof. intros s _. apply rtc_once, st_session_used. Qed.

Lemma quiet_revoke now requester id reason allowAny at_ :
  quiet_run now (revokeSession requester id reason allowAny at_).
Proof. intros s _. apply rtc_once, st_session_revoked. Qed.

Lemma draws_session now id userId deviceId token ua ip at_ :
  drawing_run now (hashRefreshToken token) (createSession id userId deviceId token ua ip at_).
Proof.
  intros s Hs Hnew. destruct (createSession id userId deviceId token ua ip at_ (sy_world s)) as [[[] | e] w'] eqn:E.
  - eexists. split; [apply rtc_once; by eapply st_session_created |]. done.
  - exists s. unfold createSession, create in E. destruct (_ && _); [done |]. injection E as _ <-.
    split_and!; [apply rtc_refl | done | done | apply union_subseteq_r].
Qed.

Lemma draws_rotation now p at_ :
  drawing_run now (hashRefreshToken (rp_nextRefreshToken p)) (rotateRefreshToken p at_).
Proof.
  apply draws_after; [by apply quiet_still |]. intros found s Hs Hnew.
  destruct (rotate_continue p found at_ (sy_world s)) as [[v | e] w'] eqn:E.
  - eexists. split; [apply rtc_once; by eapply st_rotated |]. done.
  - eexists. split; [apply rtc_once; by eapply st_not_rotated |].
    split_and!; [done | done | apply union_subseteq_r].
Qed.

(** A scan never throws; one that is not interrupted is its two halves. *)
Lemma draws_scan now h ck input : drawing_run now h (scanTicket ck input).
Proof.
  intros s Hs _. unfold scanTicket, bind.
  assert (Hpre : wp (scan_preflight (app_now ck) input) (fun _ _ => True) (fun _ _ => False) (sy_world s))
    by (unfold scan_preflight; wp_go).
  destruct (scan_preflight (app_now ck) input (sy_world s)) as [[[r0 | rc] | e] w1] eqn:E.
  - eexists. split; [apply rtc_once; by eapply st_scan_rejects |].
    split_and!; [done | done | apply union_subseteq_r].
  - assert (Hcommit : wp (scan_commit (app_now ck) input rc) (fun _ _ => True) (fun _ _ => False) w1)
      by (unfold scan_commit; wp_go).
    destruct (scan_commit (app_now ck) input rc w1) as [[r | e] w2] eqn:E2;
      [| unfold wp in Hcommit; by rewrite E2 in Hcommit].
    eexists. split; [eapply rtc_l; [by eapply st_scan_passes | apply rtc_once] |].
    + eapply (st_scan_commits {| sy_now := _ |} {| ps_scannedAt := app_now ck; ps_input := input;
        ps_record := rc |}); [left | exact E2].
    + split_and!; [done | done | apply union_subseteq_r].
  - unfold wp in Hpre. by rewrite E in Hpre.
Qed.

End System.

#[export] Hint Resolve quiet_log quiet_create_user quiet_use quiet_revoke draws_session draws_rotation
  draws_scan : runs.

(** The steps of a whole request, read off its body. *)
Ltac run_step :=
  lazymatch goal with
  | |- quiet_run _ _ (bind _ _) => apply quiet_bind; [| intros ?]
  | |- quiet_run _ _ (ret _) => by apply quiet_still
  | |- quiet_run _ _ (throw _) => by apply quiet_still
  | |- quiet_run _ _ (reads _) => by apply quiet_still
  | |- quiet_run _ _ (throw_if ?b _) => destruct b; by apply quiet_still
  | |- quiet_run _ _ (or_throw ?o _) => destruct o; by apply quiet_still
  | |- quiet_run _ _ (match ?x with _ => _ end) => destruct x
  | |- quiet_run _ _ (let _ := _ in _) => cbv zeta
  | |- quiet_run _ _ ?m => first [ solve [auto 2 with runs nocore] | let h := prog_head m in unfold h ]
  | |- drawing_run _ _ _ (match ?x with _ => _ end) => destruct x
  | |- drawing_run _ _ _ (let _ := _ in _) => cbv zeta
  end; cbv beta.

Ltac quiet := intros; repeat run_step.

Section AuthRequests.
Context `{Crypto} `{AuthLibraries} (dp : deployment) (now : Z) (secret : string).

Lemma issueSession_runs d at_ u deviceId req action :
  drawing_run dp now (hashRefreshToken (dr_refreshToken d)) (issueSession secret d at_ u deviceId req action).
Proof.
  unfold issueSession. cbv zeta. apply draws_before; [apply draws_session | quiet].
Qed.

(** Sign-up, login and refresh draw one token; the other requests draw none. *)
Lemma auth_requests_run :
  (forall d at_ email password deviceId req,
     drawing_run dp now (hashRefreshToken (dr_refreshToken d)) (signup secret d at_ email password deviceId req)) /\
  (forall d at_ email password deviceId req,
     drawing_run dp now (hashRefreshToken (dr_refreshToken d)) (login secret d at_ email password deviceId req)) /\
  (forall d at_ token deviceId req,
     drawing_run dp now (hashRefreshToken (dr_refreshToken d)) (refresh secret d at_ token deviceId req)) /\
  (forall at_ userId email sessionId reason req,
     quiet_run dp now (logout at_ userId email sessionId reason req)) /\
  (forall at_ userId email role sessionId reason req,
     quiet_run dp now (auth_revokeSession at_ userId email role sessionId reason req)) /\
  (forall at_ userId email sessionId, quiet_run dp now (me at_ userId email sessionId)) /\
  (forall at_ payload, quiet_run dp now (validate at_ payload)).
Proof.
  split_and!; intros.
  - unfold signup. do 3 (apply draws_after; [quiet | intros ?]). apply issueSession_runs.
  - unfold login. apply draws_after; [quiet | intros [u |]]; [| apply quiet_draws; quiet].
    destruct (negb _); [apply quiet_draws; quiet |]. destruct (negb _); [apply quiet_draws; quiet |].
    apply issueSession_runs.
  - unfold refresh. apply draws_before; [| quiet]. apply draws_catch; [| quiet].
    exact (draws_rotation dp now {| rp_refreshToken := token; rp_deviceId := deviceId;
      rp_nextRefreshToken := dr_refreshToken d; rp_ipAddress := request_ip req;
      rp_userAgent := request_agent req |} at_).
  - quiet.
  - quiet.
  - quiet.
  - quiet.
Qed.

End AuthRequests.

(** A table is held while a ticket is reserved, on the data of the other files. *)
Module SystemExample.

Definition deployed : deployment :=
  {| dp_config := fun _ => None; dp_launch := CheckoutExample.lc; dp_hold := None; dp_env := fun _ => None;
     dp_contains := SupportExample.contains; dp_createdAt := fun _ => 0; dp_updatedAt := fun _ => 0;
     dp_scanId := pretty |}.

#[local] Instance crypto : Crypto := plain_crypto.

Definition inv : inventory :=
  {| inv_id := "inv"; inv_eventId := "ev"; inv_ticketTypeId := "vip"; inv_capacityTotal := 1;
     inv_reservedCount := 0; inv_soldCount := 0 |}.
Definition w0 : world := set_inventories {["inv" := inv]} HoldExample.w0.
Definition start : system :=
  {| sy_now := 1000; sy_world := w0; sy_scans := []; sy_issued := ∅; sy_redeemed := [] |}.

Definition hold : request := RqHold "res" (HoldExample.request "ama" "k").
Definition reserve : request :=
  RqReserve (fun n => pretty n) (Some (context_for "ama" "corr-0001")) OversellExample.rin.

Definition after_hold : system := with_world (exec deployed 1000 1000 hold w0).2 start.
Definition finish : system :=
  with_world (exec deployed 1000 1000 reserve (sy_world after_hold)).2 after_hold.

Lemma two_requests : rtc (system_step deployed) start finish.
Proof.
  eapply rtc_l; [exact (st_request deployed start 1000 hold Logic.I) |].
  apply rtc_once. exact (st_request deployed after_hold 1000 reserve Logic.I).
Qed.

Example reserved_and_held :
  (inv_reservedCount <$> inventories (stock (sy_world finish)) !! "inv",
   et_status <$> event_tables (seating (sy_world finish)) !! "tab") = (Some 1, Some ET_HELD).
Proof. vm_run. Qed.

Lemma start_good : system_ok start.
Proof.
  assert (Hi : forall k i, inventories (stock w0) !! k = Some i -> k = "inv" /\ i = inv).
  { intros k i Hk. change (inventories (stock w0)) with ({["inv" := inv]} : gmap string inventory) in Hk.
    by apply lookup_singleton_Some in Hk as [<- <-]. }
  assert (Hempty : forall A k (x : A), (∅ : gmap string A) !! k = Some x -> False)
    by (intros A k x; by rewrite lookup_empty).
  split.
  - split; [split | | | |]; cbn [start sy_now sy_world].
    + by intros k i [-> ->]%Hi.
    + by intros k r Hr%Hempty.
    + intros k1 k2 i1 i2 [-> ->]%Hi [-> ->]%Hi. done.
    + by intros k r Hr%Hempty.
    + by intros k o Ho%Hempty.
    + by intros k q Hq%Hempty.
    + intros k i [-> ->]%Hi. change (map_sum (active_quantity "ev" "vip" 1000) ∅ <= 0). by rewrite map_sum_empty.
    + by intros k i [-> ->]%Hi.
  - split; cbn [start sy_world].
    + by intros k t Ht%Hempty.
    + by intros k t Ht%Hempty.
    + constructor.
    + by intros a Ha%elem_of_nil.
  - destruct (HoldExample.ok_w0 1000) as [H1 H2 H3 H4 H5]. by split.
  - split; [split | split]; cbn [start sessions_of hs_issued hs_world hs_redeemed sy_world sy_issued].
    + by intros k x Hx%Hempty.
    + by intros k x Hx%Hempty.
    + by intros k x h Hx%Hempty.
    + by intros k1 k2 x y h Hx%Hempty.
    + by intros k x h Hx%Hempty.
    + by intros k x Hx%Hempty.
    + constructor.
    + by intros h Hh%elem_of_nil.
Qed.

End SystemExample.

(* ------------------------------------------------------------------ *)
(** ** Properties                                                       *)

(** C1: The guarantees of all components hold together.  From a good state, over any
    sequence of requests of any kind, each run whole, of scans whose two halves are
    interrupted by other requests, of refreshes that go on from an old read, and of
    passing time: no bucket of tickets is ever sold and held beyond its capacity, no
    ticket is admitted twice and every admission is of a ticket issued for a payment
    intent, now used, by that ticket's token, who holds which table evolves only as the
    lease machine allows, no refresh token is redeemed twice, and the state stays good.
    There are two provisos: an order is not fulfilled after its reservation expired,
    which the code does not check, and every refresh token drawn has a hash not drawn
    before, which its 48 random bytes make overwhelmingly likely. *)
Theorem system_safe `{Crypto} dp s s'
    (Hok : system_ok s) (Hrun : rtc (system_step dp) s s') :
  (forall k i, inventories (stock (sy_world s')) !! k = Some i ->
     inv_soldCount i <= inv_capacityTotal i /\
     inv_reservedCount i + inv_soldCount i <= inv_capacityTotal i) /\
  NoDup (admitted_ids (scan_audits (ticketing (sy_world s')))) /\
  (forall a, a ∈ scan_audits (ticketing (sy_world s')) -> sa_status a = SCAN_ACCEPTED ->
     admits (db_tickets (sy_world s')) a) /\
  rtc lease_machine (sy_now s, lease_of (sy_now s) (sy_world s))
    (sy_now s', lease_of (sy_now s') (sy_world s')) /\
  NoDup (sy_redeemed s') /\
  system_ok s'.
Proof.
  pose proof (system_ok_run dp s s' Hrun Hok) as Hok'. pose proof Hok' as [Hc Hg _ Ht].
  split; [| split; [apply Hg | split; [apply Hg | split; [| split; [apply Ht | done]]]]].
  - intros k i Hi. pose proof (wc_capacity _ _ Hc k i Hi). pose proof (wc_reserved _ _ Hc k i Hi).
    pose proof (active_total_nonneg (inv_eventId i) (inv_ticketTypeId i) (sy_now s') (sy_world s')
      (wc_stock _ _ Hc)). lia.
  - apply (seat_run_refines (dp_hold dp) (sy_now s, sy_world s) (sy_now s', sy_world s'));
      [| apply Hok].
    apply (rtc_congruence (fun x => (sy_now x, sy_world x)) _ _ _ (system_seating dp) Hrun).
Qed.

Lemma system_safe_witness :
  rtc lease_machine (1000, lease_of 1000 SystemExample.w0)
    (1000, lease_of 1000 (sy_world SystemExample.finish)) /\
  system_ok SystemExample.finish.
Proof.
  destruct (system_safe (H := plain_crypto) SystemExample.deployed
    SystemExample.start SystemExample.finish SystemExample.start_good SystemExample.two_requests)
    as (_ & _ & _ & Hl & _ & Hok). split; [exact Hl | exact Hok].
Defined.

(** Every request only writes the part of the database that is its own: whatever
    its arguments, its random draws, the state and the answers of providers, and
    however it ends, the other parts are left exactly as they were.  Sign-ups and
    catalogue edits touch no money, payments by intent touch no ticket and no stock,
    table calls touch nothing but the seating, and support staff and the outbox write
    only the journal. *)
Theorem requests_confined `{Crypto} dp app now rq w p :
  p ∉ footprint rq -> same_part p w (exec dp app now rq w).2.
Proof. intros Hp. apply exec_touches. by apply bool_decide_eq_false. Qed.

Lemma requests_confined_witness :
  stock (exec (H := plain_crypto) SystemExample.deployed 1000 1000 SystemExample.hold SystemExample.w0).2
    = stock SystemExample.w0.
Proof.
  refine (requests_confined (H := plain_crypto) SystemExample.deployed 1000 1000 SystemExample.hold
    SystemExample.w0 Stock _).
  by apply (bool_decide_eq_false_1 (Stock ∈ [Seating])).
Defined.
