(* ===== verification/Provenance.v ===== *)
(** Provenance.v: what a ticket was paid with.  Across checkout, payments, webhooks, both
    kinds of issuance and the gate, every ticket in the database goes back to a charge a
    provider made, of the ticket's buyer and event and at the amount that was asked.

    The charges are a parameter; a request is honest when what its provider answers about a
    payment is true of them.  Rows keep who pays and what for ([grows]), so the evidence
    for a ticket outlives whatever happens to its payment later. *)

From S2P Require Import Prelude Errors Values Hashing Store Context LaunchControl Inventory Providers Orders Payments Base32 Tickets Capacity PaymentIntents Webhooks Issuance Admissions Sessions TableHolds Tables System.

Local Open Scope Z_scope.

(* ------------------------------------------------------------------ *)
(** ** Charges                                                          *)

(** A settled charge, as the provider has it. *)
Record charge : Type := {
  ch_provider : PaymentProvider;
  ch_reference : string;
  ch_amountMinor : Z;
  ch_currency : string
}.

(** The charge an intent asks for. *)
Definition intent_charge (p : payment_intent) : charge :=
  {| ch_provider := pi_provider p; ch_reference := pi_providerReference p;
     ch_amountMinor := pi_amountMinor p; ch_currency := pi_currency p |}.

(** The charge a payment of an order asks for. *)
Definition is_payment_charge (p : payment) (o : order) (c : charge) : Prop :=
  exists provider, pay_provider p = provider_text provider /\ ch_provider c = resolveProvider provider /\
    pay_providerRef p = Some (ch_reference c) /\ pay_amount p = ch_amountMinor c /\
    ord_currency o = ch_currency c.

(** The segment of a path that stands for a reference; one of the MoMo clients does not
    encode it. *)
Definition names (ref segment : string) : Prop := segment = encodeURIComponent ref \/ segment = ref.

(** The amount an answer gives, as a number or as a text that reads as one. *)
Definition reads_as (v : jsval) (z : Z) : Prop :=
  number_of v = Some (JInt z) \/ momo_amount v = Some (JInt z) \/ BigInt v = Ok z.

(** An answer about the reference [ref] that says the charge was made. *)
Record reports_charge (provider : PaymentProvider) (ref : string) (body : json) (c : charge) : Prop := {
  rc_provider : ch_provider c = provider;
  rc_settled : reported provider body "status" = Some (JStr (success_text provider));
  rc_amount : reads_as (reported provider body "amount") (ch_amountMinor c);
  rc_currency : reported provider body "currency" = Some (JStr (ch_currency c));
  rc_reference : ch_reference c = ref \/
    (provider = PAYSTACK /\ ch_reference c = js_String (coalesce (reported provider body "reference") (JStr ref)))
}.

(** Rows are kept, with who pays and what for; settled payments never change. *)
Record grows (w w' : world) : Prop := {
  gr_intents : forall k p, the_intents w !! k = Some p ->
    exists p', the_intents w' !! k = Some p' /\ same_terms p p';
  gr_orders : forall k o, orders (checkout w) !! k = Some o ->
    exists s, orders (checkout w') !! k = Some (with_ord_status s o);
  gr_payments : forall k p, payments (checkout w) !! k = Some p -> pay_status p = PAY_SUCCESS ->
    payments (checkout w') !! k = Some p
}.

Lemma with_same_ord_status o : with_ord_status (ord_status o) o = o.
Proof. by destruct o. Qed.

Lemma grows_same w w' : the_intents w' = the_intents w -> checkout w' = checkout w -> grows w w'.
Proof.
  intros Hi Hc. split; rewrite ?Hi, ?Hc.
  - intros k p Hp. exists p. split; [done | apply same_terms_refl].
  - intros k o Ho. exists (ord_status o). by rewrite with_same_ord_status.
  - done.
Qed.

#[export] Instance grows_refl : Reflexive grows.
Proof. intros w. by apply grows_same. Qed.

(** The order has a settled payment. *)
Definition settled_order (orderId : string) (w : world) : Prop :=
  exists pid p, payments (checkout w) !! pid = Some p /\ pay_orderId p = orderId /\
    pay_status p = PAY_SUCCESS.

Lemma settled_order_grows k w w' : grows w w' -> settled_order k w -> settled_order k w'.
Proof.
  intros Hg (pid & p & Hp & Ho & Hs). exists pid, p. split; [by apply (gr_payments _ _ Hg) | done].
Qed.

(** What a scan leaves of a ticket. *)
Definition same_ticket (t t' : ticket) : Prop :=
  tk_id t' = tk_id t /\ tk_ownerUserId t' = tk_ownerUserId t /\ tk_eventId t' = tk_eventId t /\
  tk_orderId t' = tk_orderId t /\ tk_paymentIntentId t' = tk_paymentIntentId t.

(** The two clients of each provider relay its answers. *)
Section Relayed.
Context `{Crypto} (fetch : http_request -> fetch_result) (cfg : string -> option string).

Lemma wp_fetchJson_answer client rq code (Q : json -> world -> Prop) w :
  client = paystack_fetchJson fetch \/ client = momo_fetchJson fetch ->
  (forall resp body, fetch rq = FetchResponse resp -> response_ok resp = true -> rs_json resp = Ok body -> Q body w) ->
  wp (client rq code) Q any w.
Proof.
  intros [-> | ->] HQ; unfold paystack_fetchJson, momo_fetchJson, momo_rethrow; repeat net_step;
    try exact Logic.I; (eapply HQ; [done | by apply negb_false_iff | done]).
Qed.

Lemma string_of_Some v s : string_of v = Some s -> v = Some (JStr s).
Proof. destruct v as [[] |]; cbn; congruence. Qed.

Lemma mapPaystackStatus_success v : mapPaystackStatus v = PP_SUCCESS -> v = Some (JStr "success").
Proof. destruct v as [[] |]; cbn; try done. repeat case_bool_decide; naive_solver. Qed.

Lemma mapMomoStatus_success v : mapMomoStatus v = PP_SUCCESS -> v = Some (JStr "SUCCESSFUL").
Proof. destruct v as [[] |]; cbn; try done. repeat case_bool_decide; naive_solver. Qed.

(** A payment the adapters report as settled is one the provider says was charged. *)
Lemma provider_verifyPayment_relays provider ref w :
  wp (provider_verifyPayment fetch cfg provider ref)
     (fun v _ => forall currency, vp_status v = PP_SUCCESS -> vp_currency v = Some currency ->
        exists segment body, provider_answers fetch cfg (resolveProvider provider) segment body /\
          names ref segment /\ reports_charge (resolveProvider provider) ref body
            {| ch_provider := resolveProvider provider; ch_reference := ref;
               ch_amountMinor := vp_amountMinor v; ch_currency := currency |}) any w.
Proof.
  destruct provider; unfold provider_verifyPayment, paystack_verifyPayment, momo_verifyPayment, paystack_getBaseUrl.
  - net_step. net_step; [| done]. net_step. apply wp_fetchJson_answer; [by left |]. intros resp body Hf Hok Hbody.
    unfold paystack_read. repeat net_step; try exact Logic.I. cbn [vp_status vp_currency vp_amountMinor].
    intros currency Hs%mapPaystackStatus_success Hc%string_of_Some.
    repeat match goal with Hd : prop _ _ = Ok _ |- _ => apply prop_Ok in Hd; subst end.
    exists (encodeURIComponent ref), body. split; [eexists _, resp; split_and!; [| | exact Hf | exact Hok | exact Hbody]; reflexivity | split; [by left |]].
    split; cbn; try done; [by right; right | by left].
  - net_step. net_step; [| done]. do 6 (net_step; try exact Logic.I). net_step.
    apply wp_fetchJson_answer; [by right |]. intros resp body Hf Hok Hbody.
    unfold momo_read. repeat net_step; try exact Logic.I. cbn [vp_status vp_currency vp_amountMinor].
    intros currency Hs%mapMomoStatus_success Hc%string_of_Some.
    repeat match goal with Hd : prop _ _ = Ok _ |- _ => apply prop_Ok in Hd; subst end.
    exists ref, body. split; [eexists _, resp; split_and!; [| | exact Hf | exact Hok | exact Hbody]; reflexivity | split; [by right |]].
    split; cbn; try done; [by right; right | by left].
Qed.

(** So is what a webhook's verification lets settle an intent. *)
Lemma verifyByReference_relays provider ref v p w w' :
  verifyByReference fetch cfg provider ref w = (Ok v, w') -> settles_as v p ToVerified ->
  exists body, provider_answers fetch cfg provider (encodeURIComponent ref) body /\
    reports_charge provider ref body (intent_charge p).
Proof.
  intros Hv (Hprov & Href & Hamt & Hcur & Hst).
  destruct (wp_ok _ _ _ _ _ _ (verifyByReference_wp fetch cfg provider ref w) Hv) as (_ & body & Hans & Hra).
  exists body. split; [exact Hans |]. destruct Hra as [Hp Hs Ha Hc Hr _]. split; cbn.
  - congruence.
  - by apply Hs.
  - unfold amount_matches in Hamt. rewrite Ha in Hamt. unfold reported_amount in Hamt.
    destruct provider; [left | right; left]; destruct (_ (reported _ _ _)) as [[z |] |]; try discriminate Hamt;
      apply Z.eqb_eq in Hamt; congruence.
  - apply string_of_Some. congruence.
  - rewrite <- Href, Hr. destruct provider; [right | left]; done.
Qed.

End Relayed.

Section Provenance.
Context `{Crypto} (dp : deployment) (charged : charge -> Prop).

(** The providers tell the truth: whatever they answer, with success, to a question about
    a payment and report as settled is a charge they made. *)
Definition truthful (fetch : http_request -> fetch_result) : Prop :=
  forall provider segment ref body c,
    provider_answers fetch (dp_config dp) provider segment body -> names ref segment ->
    reports_charge provider ref body c -> charged c.

(** In the calls the request makes. *)
Definition honest (rq : request) : Prop :=
  match rq with
  | RqWebhook fetch _ _ _ _ _ | RqVerifyPayment fetch _ _ _ => truthful fetch
  | _ => True
  end.

(** The ticket belongs to the buyer and event of an intent that was charged, or of an order
    with a settled payment. *)
Definition ticket_paid (w : world) (t : ticket) : Prop :=
  (exists i p, tk_paymentIntentId t = Some i /\ the_intents w !! i = Some p /\
     tk_ownerUserId t = pi_buyerUserId p /\ tk_eventId t = pi_eventId p /\ charged (intent_charge p)) \/
  (exists k o, tk_paymentIntentId t = None /\ tk_orderId t = Some k /\ orders (checkout w) !! k = Some o /\
     tk_ownerUserId t = ord_userId o /\ tk_eventId t = ord_eventId o /\ settled_order k w).

(** The books: what is recorded as paid was charged. *)
Record books (w : world) : Prop := {
  bk_ledger : ledger_ok w;
  bk_intents : keyed pi_id (the_intents w);
  bk_verified : forall k p, the_intents w !! k = Some p -> pi_status p = VERIFIED -> charged (intent_charge p);
  bk_payments : forall k p, payments (checkout w) !! k = Some p -> pay_status p = PAY_SUCCESS ->
    exists o c, orders (checkout w) !! pay_orderId p = Some o /\ is_payment_charge p o c /\ charged c;
  bk_orders : forall k o, orders (checkout w) !! k = Some o -> ord_status o = ORDER_PAID -> settled_order k w
}.

Record paid_up (w : world) : Prop := {
  pu_books : books w;
  pu_tickets : wf_tickets w;
  pu_paid : forall k t, db_tickets w !! k = Some t -> ticket_paid w t
}.

Lemma ticket_paid_grows w w' t t' :
  grows w w' -> same_ticket t t' -> ticket_paid w t -> ticket_paid w' t'.
Proof.
  intros Hg (_ & Ho & He & Hk & Hi) [(i & p & Ht & Hp & Hb & Hev & Hc) | (k & o & Hnone & Ht & Hr & Hb & Hev & Hs)].
  - left. destruct (gr_intents _ _ Hg i p Hp) as (p' & Hp' & [s ->]).
    exists i, (with_state s p). split_and!; try done; cbn; congruence.
  - right. destruct (gr_orders _ _ Hg k o Hr) as [s Hs'].
    exists k, (with_ord_status s o). split_and!; try done; cbn; try congruence.
    by eapply settled_order_grows.
Qed.

(** Growth with the books kept and no new ticket. *)
Lemma paid_up_grows w w' :
  grows w w' -> books w' -> db_tickets w' = db_tickets w -> paid_up w -> paid_up w'.
Proof.
  unfold db_tickets. intros Hg Hb Ht [_ [Hk Ho] Hp]. split; [done | by split; rewrite Ht |].
  unfold db_tickets. rewrite Ht. intros k t Hkt. eapply ticket_paid_grows; [done | | by eapply Hp]. done.
Qed.

Lemma ledger_ok_same w w' : checkout w' = checkout w -> ledger_ok w -> ledger_ok w'.
Proof. intros Hc []. split; by rewrite Hc. Qed.

Lemma books_same w w' :
  the_intents w' = the_intents w -> checkout w' = checkout w -> books w -> books w'.
Proof.
  intros Hi Hc [Hl Hk Hv Hp Ho]. split; unfold settled_order; rewrite ?Hi, ?Hc; try done.
  by apply (ledger_ok_same w).
Qed.

Lemma paid_up_same w w' :
  the_intents w' = the_intents w -> checkout w' = checkout w -> db_tickets w' = db_tickets w ->
  paid_up w -> paid_up w'.
Proof.
  intros Hi Hc Ht Hup. apply (paid_up_grows w); [by apply grows_same | | done | done].
  by apply (books_same w), Hup.
Qed.

(* ------------------------------------------------------------------ *)
(** ** Intents                                                          *)

(** One intent is new or takes another state; a verified one was charged. *)
Lemma paid_up_intent w w' p :
  the_intents w' = <[pi_id p := p]> (the_intents w) ->
  (forall old, the_intents w !! pi_id p = Some old -> same_terms old p) ->
  (pi_status p = VERIFIED -> charged (intent_charge p)) ->
  checkout w' = checkout w -> db_tickets w' = db_tickets w -> paid_up w -> paid_up w'.
Proof.
  intros Hi Hold Hv Hc Ht Hup. pose proof (pu_books _ Hup) as [Hl Hk Hver Hpay Hord].
  apply (paid_up_grows w); [| | done | done].
  - split; rewrite ?Hc; [| intros k o Ho; exists (ord_status o); by rewrite with_same_ord_status | done].
    intros k q Hq. rewrite Hi. destruct (decide (k = pi_id p)) as [-> | Hne].
    + exists p. rewrite lookup_insert_eq. auto.
    + exists q. rewrite lookup_insert_ne by done. split; [done | apply same_terms_refl].
  - split; unfold settled_order; rewrite ?Hc; [by apply (ledger_ok_same w) | | | done | done].
    + rewrite Hi. by apply keyed_insert.
    + intros k q. rewrite Hi. intros [[_ <-] | [_ Hq]]%lookup_insert_Some; [done | by eapply Hver].
Qed.

(** A webhook verifies only what was charged. *)
Lemma paid_up_webhook app now fetch newId provider rawBody parsedBody headers w :
  honest (RqWebhook fetch newId provider rawBody parsedBody headers) -> paid_up w ->
  paid_up (exec dp app now (RqWebhook fetch newId provider rawBody parsedBody headers) w).2.
Proof.
  set (rq := RqWebhook _ _ _ _ _ _). intros Hh Hup.
  pose proof (exec_leaves dp app now rq w Checkout eq_refl) as Hc.
  pose proof (exec_leaves dp app now rq w Ticketing eq_refl) as Ht. cbn [same_part] in Hc, Ht.
  apply (f_equal tickets) in Ht. revert Hc Ht. subst rq. cbn [exec]. rewrite quietly_world.
  destruct rawBody as [raw |]; [| intros _ _; exact Hup].
  set (input := {| pwi_provider := provider; pwi_rawBody := raw; pwi_parsedBody := parsedBody;
                   pwi_headers := headers |}).
  change (payment_webhook _ _ _ _ _ _ (Some raw) _ _ w) with
    (handleWebhook fetch (dp_config dp) newId (fun w => w) {| app_now := app; db_now := now |} input w).
  assert (Heff : webhook_effect fetch (dp_config dp) (fun w => w) input w
    (handleWebhook fetch (dp_config dp) newId (fun w => w) {| app_now := app; db_now := now |} input w).2).
  { assert (Hidle : keeps_terms (fun w => w))
      by (intros w1 k p Hp; exists p; split; [exact Hp | apply same_terms_refl]).
    pose proof (handleWebhook_wp fetch (dp_config dp) newId (fun w => w) {| app_now := app; db_now := now |}
      input w (bk_intents _ (pu_books _ Hup)) Hidle) as Hwp. unfold wp in Hwp.
    by destruct (handleWebhook _ _ _ _ _ _ _) as [[r | e] w']. }
  destruct (handleWebhook _ _ _ _ _ _ _) as [o w']. cbn [snd] in *. intros Hc Ht.
  destruct Heff as [Hi | (_ & w1 & Hw1 & [Hi | (ref & v & Hv & Hs)])];
    [by apply (paid_up_same w) | apply (paid_up_same w); [congruence | done..] |].
  rewrite Hw1 in Hs. destruct Hs as [Hi | (p & p' & t & Hp & _ & Hterms & Hst & Hsettles & Hi)];
    [by apply (paid_up_same w) |].
  pose proof (same_terms_id _ _ Hterms) as Hid. rewrite <- Hid in Hi, Hp.
  apply (paid_up_intent w w' p'); try done.
  - intros old Hold. by assert (old = p) as -> by congruence.
  - intros Hver. rewrite Hver in Hst. destruct t; [| done].
    destruct (verifyByReference_relays _ _ _ _ _ _ _ _ Hv (settles_as_terms _ _ _ _ Hterms Hsettles))
      as (body & Hans & Hrep). exact (Hh _ _ _ _ _ Hans (or_introl eq_refl) Hrep).
Qed.

Lemma paid_up_initiate app now fetch newId fault ctx input w :
  paid_up w -> paid_up (exec dp app now (RqInitiate fetch newId fault ctx input) w).2.
Proof.
  set (rq := RqInitiate _ _ _ _ _). intros Hup.
  pose proof (exec_leaves dp app now rq w Checkout eq_refl) as Hc.
  pose proof (exec_leaves dp app now rq w Ticketing eq_refl) as Ht. cbn [same_part] in Hc, Ht.
  apply (f_equal tickets) in Ht. revert Hc Ht. subst rq. cbn [exec]. rewrite quietly_world.
  pose proof (initiatePayment_wp fetch (dp_config dp) (dp_launch dp) newId fault
    {| app_now := app; db_now := now |} ctx input w (bk_intents _ (pu_books _ Hup))) as Hwp. unfold wp in Hwp.
  assert (Hone : forall w' buyer ev price p, touched input buyer p w w' -> priced ev price p w ->
    pi_status p <> VERIFIED -> checkout w' = checkout w -> db_tickets w' = db_tickets w -> paid_up w').
  { intros w' buyer ev price p (Hi & _) Hpr Hst Hc Ht. apply (paid_up_intent w w' p); try done.
    intros old Hold. destruct Hpr as [(Hnone & _) | (old' & Hold' & _ & Hterms)]; unfold the_intents in Hold;
      [congruence | by assert (old = old') as -> by congruence]. }
  destruct (initiatePayment _ _ _ _ _ _ _ _ _ _) as [[v | e] w']; cbn [snd]; intros Hc Ht;
    (destruct Hwp as [Hi | (buyer & ev & price & p & _ & Htouch & Hpr & Hst & _)];
      [by apply (paid_up_same w) | eapply Hone; try done; congruence]).
Qed.

(* ------------------------------------------------------------------ *)
(** ** Orders and their payments                                        *)

Lemma is_payment_charge_status p o c s : is_payment_charge p o c -> is_payment_charge p (with_ord_status s o) c.
Proof. done. Qed.

Lemma paid_up_checkout app now uuid ctx input w :
  paid_up w -> paid_up (exec dp app now (RqCheckout uuid ctx input) w).2.
Proof.
  set (rq := RqCheckout _ _ _). intros Hup.
  pose proof (exec_leaves dp app now rq w Intents eq_refl) as Hi.
  pose proof (exec_leaves dp app now rq w Ticketing eq_refl) as Ht. cbn [same_part] in Hi, Ht.
  apply (f_equal tickets) in Ht. apply (f_equal payment_intents) in Hi. revert Hi Ht. subst rq. cbn [exec].
  rewrite quietly_world.
  pose proof (createOrder_wp (dp_launch dp) uuid {| app_now := app; db_now := now |} ctx input w) as Hwp.
  unfold wp in Hwp. destruct (createOrder _ _ _ _ _ w) as [[res | e] w']; cbn [snd]; intros Hi Ht; [| by destruct Hwp as [-> _]].
  destruct Hwp as (actor & _ & Hc).
  destruct (oc_reservation _ _ _ _ _ _ _ _ Hc) as (r & _ & Ho), (oc_payments _ _ _ _ _ _ _ _ Hc) as [Hpay Hled].
  pose proof (oc_new_order _ _ _ _ _ _ _ _ Hc) as Hnew.
  pose proof (pu_books _ Hup) as [Hl Hk Hver Hpays Hord].
  assert (Hold : forall k o, orders (checkout w) !! k = Some o -> orders (checkout w') !! k = Some o).
  { intros k o Hko. rewrite Ho, lookup_insert_ne; [done | congruence]. }
  assert (Hg : grows w w').
  { split; unfold the_intents; rewrite ?Hi, ?Hpay; [| | done].
    - intros k p Hp. exists p. split; [done | apply same_terms_refl].
    - intros k o Hko. exists (ord_status o). rewrite with_same_ord_status. by apply Hold. }
  apply (paid_up_grows w); [done | | done | done]. split; unfold the_intents; rewrite ?Hi, ?Hpay; try done.
  - destruct Hl. split; by rewrite ?Hpay, ?Hled.
  - intros k p Hp Hs. destruct (Hpays k p Hp Hs) as (o & c & Hko & Hrest). exists o, c. split; [by apply Hold | done].
  - intros k o. rewrite Ho. intros [[_ <-] | [_ Hko]]%lookup_insert_Some Hs; [done |].
    by apply (settled_order_grows k w w' Hg), (Hord k o).
Qed.

Lemma grows_settled uuid input v p o ctx w w' :
  Payments.settled uuid input v p o ctx w w' -> intents w' = intents w -> grows w w'.
Proof.
  intros Hs Hi. split; unfold the_intents; rewrite ?Hi, ?(se_payments _ _ _ _ _ _ _ _ Hs), ?(se_orders _ _ _ _ _ _ _ _ Hs).
  - intros k q Hq. exists q. split; [done | apply same_terms_refl].
  - intros k q Hq. destruct (decide (k = pay_orderId p)) as [-> | Hne].
    + rewrite lookup_insert_eq. pose proof (se_order _ _ _ _ _ _ _ _ Hs). simplify_eq. by eexists.
    + rewrite lookup_insert_ne by done. exists (ord_status q). by rewrite with_same_ord_status.
  - intros k q Hq Hst. rewrite lookup_insert_ne; [done |]. intros <-.
    pose proof (se_payment _ _ _ _ _ _ _ _ Hs). pose proof (se_open _ _ _ _ _ _ _ _ Hs) as Hopen.
    simplify_eq. by rewrite Hst in Hopen.
Qed.

Lemma books_settled uuid input v p o ctx w w' :
  Payments.settled uuid input v p o ctx w w' -> intents w' = intents w ->
  (vp_status v = PP_SUCCESS -> exists c, is_payment_charge p o c /\ charged c) -> books w -> books w'.
Proof.
  intros Hs Hi Hch [Hl Hk Hver Hpays Hord]. pose proof (grows_settled _ _ _ _ _ _ _ _ Hs Hi) as Hg.
  assert (Hself : payments (checkout w') !! pay_id p = Some (with_pay_status (mapProviderStatus (vp_status v)) p))
    by by rewrite (se_payments _ _ _ _ _ _ _ _ Hs), lookup_insert_eq.
  split; unfold the_intents; rewrite ?Hi; [by eapply ledger_ok_settled | done | done | |].
  - intros k q Hq Hst. assert (Hold : exists o' c, orders (checkout w) !! pay_orderId q = Some o' /\
      is_payment_charge q o' c /\ charged c).
    { rewrite (se_payments _ _ _ _ _ _ _ _ Hs) in Hq. apply lookup_insert_Some in Hq as [[_ <-] | [_ Hq]];
        [| by eapply Hpays]. apply mapProviderStatus_success in Hst. destruct (Hch Hst) as (c & Hc).
      exists o, c. split; [exact (se_order _ _ _ _ _ _ _ _ Hs) | exact Hc]. }
    destruct Hold as (o' & c & Ho' & Hc). destruct (gr_orders _ _ Hg _ _ Ho') as [s Hs'].
    exists (with_ord_status s o'), c. split; [done | exact Hc].
  - intros k q. rewrite (se_orders _ _ _ _ _ _ _ _ Hs).
    intros [[<- <-] | [_ Hq]]%lookup_insert_Some Hst; [| by apply (settled_order_grows k w w' Hg), (Hord k q)].
    exists (pay_id p), (with_pay_status (mapProviderStatus (vp_status v)) p).
    split_and!; [done | done |]. apply mapProviderStatus_success. by destruct (vp_status v).
Qed.

(** A payment settles on the provider's word. *)
Lemma paid_up_verify app now fetch uuid ctx input w :
  honest (RqVerifyPayment fetch uuid ctx input) -> paid_up w ->
  paid_up (exec dp app now (RqVerifyPayment fetch uuid ctx input) w).2.
Proof.
  set (rq := RqVerifyPayment _ _ _ _). intros Hh Hup.
  pose proof (exec_leaves dp app now rq w Intents eq_refl) as Hi.
  pose proof (exec_leaves dp app now rq w Ticketing eq_refl) as Ht. cbn [same_part] in Hi, Ht.
  revert Hi Ht. subst rq. cbn [exec]. rewrite quietly_world.
  pose proof (verifyPayment_wp fetch (dp_config dp) uuid {| app_now := app; db_now := now |} ctx input w
    (lo_keyed _ (bk_ledger _ (pu_books _ Hup)))) as Hwp.
  unfold wp in Hwp. destruct (verifyPayment _ _ _ _ _ _ w) as [[out | e] w']; cbn [snd]; intros Hi Ht; [| by subst].
  destruct Hwp as (v & p & o & Hv & Hcur & _ & Hs & _).
  apply (paid_up_grows w); [by eapply grows_settled | | by unfold db_tickets; rewrite Ht | done].
  eapply books_settled; [done | done | | apply Hup]. intros Hst.
  pose proof (se_currency _ _ _ _ _ _ _ _ Hs) as Hcur'. destruct (se_ref _ _ _ _ _ _ _ _ Hs) as [Hprov Href].
  destruct (wp_ok _ _ _ _ _ _ (provider_verifyPayment_relays _ _ _ _ w) Hv _ Hst Hcur')
    as (segment & body & Hans & Hseg & Hrep).
  eexists. split; [| exact (Hh _ _ _ _ _ Hans Hseg Hrep)]. exists (vpi_provider input).
  split_and!; try done. symmetry. apply (se_amount _ _ _ _ _ _ _ _ Hs).
Qed.

(* ------------------------------------------------------------------ *)
(** ** Tickets                                                          *)

(** The tickets of a paid order. *)
Lemma paid_up_fulfilled uuid ck orderId refs o r i res w w' :
  consumed uuid ck orderId refs o r i res w w' -> intents w' = intents w ->
  keyed ord_id (orders (checkout w)) -> paid_up w -> paid_up w'.
Proof.
  intros Hc Hi Hkey Hup. pose proof (cs_orders _ _ _ _ _ _ _ _ _ _ Hc) as Ho.
  pose proof (cs_payments _ _ _ _ _ _ _ _ _ _ Hc) as Hpay. pose proof (cs_order _ _ _ _ _ _ _ _ _ _ Hc) as Hrow.
  pose proof (pu_books _ Hup) as [Hl Hk Hver Hpays Hord].
  assert (Hg : grows w w').
  { split; unfold the_intents; rewrite ?Hi, ?Hpay; [| | done].
    - intros k p Hp. exists p. split; [done | apply same_terms_refl].
    - intros k q Hq. rewrite Ho. destruct (decide (k = orderId)) as [-> | Hne].
      + rewrite lookup_insert_eq. simplify_eq. by eexists.
      + rewrite lookup_insert_ne by done. exists (ord_status q). by rewrite with_same_ord_status. }
  assert (Hpaid : settled_order orderId w) by (apply (Hord _ o Hrow), (cs_paid _ _ _ _ _ _ _ _ _ _ Hc)).
  split.
  - split; unfold the_intents; rewrite ?Hi, ?Hpay; try done.
    + destruct Hl. split; by rewrite ?Hpay, ?(cs_ledger _ _ _ _ _ _ _ _ _ _ Hc).
    + intros k p Hp Hs. destruct (Hpays k p Hp Hs) as (o' & c & Ho' & Hch).
      destruct (gr_orders _ _ Hg _ _ Ho') as [s Hs']. exists (with_ord_status s o'), c. split; [done | exact Hch].
    + intros k q. rewrite Ho. intros [[_ <-] | [_ Hq]]%lookup_insert_Some Hst; [done |].
      by apply (settled_order_grows k w w' Hg), (Hord k q).
  - destruct (pu_tickets _ Hup) as [Htk Honce]. pose proof (cs_tickets _ _ _ _ _ _ _ _ _ _ Hc) as Ht.
    assert (Hnew : forall k t, tickets (ticketing w') !! k = Some t ->
      tickets (ticketing w) !! k = Some t \/ tk_paymentIntentId t = None).
    { intros k t. rewrite Ht. intros [Hold | (n & ref & -> & _)%elem_of_lookup_imap]%insert_tickets_inv; auto. }
    split; [rewrite Ht; by apply insert_tickets_keyed |]. intros k1 k2 t1 t2 H1 H2 Hn He Hu Hev.
    destruct (Hnew _ _ H1) as [H1' |], (Hnew _ _ H2) as [H2' |]; try congruence. by eapply Honce.
  - intros k t. unfold db_tickets. rewrite (cs_tickets _ _ _ _ _ _ _ _ _ _ Hc).
    intros [Hold | (n & ref & -> & _)%elem_of_lookup_imap]%insert_tickets_inv.
    + eapply ticket_paid_grows; [done | | by eapply (pu_paid _ Hup)]. done.
    + right. exists orderId, (with_ord_status ORDER_FULFILLED o). cbn.
      rewrite (Hkey _ _ Hrow), Ho, lookup_insert_eq. split_and!; try done. by apply (settled_order_grows orderId w w').
Qed.

Lemma paid_up_fulfils uuid rnd ck ctx orderId w :
  intents (issueTickets uuid rnd ck ctx orderId w).2 = intents w ->
  keyed ord_id (orders (checkout w)) -> wf_stock w -> paid_up w ->
  paid_up (issueTickets uuid rnd ck ctx orderId w).2.
Proof.
  intros Hi Hkey Hwf Hup. pose proof (issueTickets_wp uuid rnd ck ctx orderId w Hkey Hwf) as Hwp. unfold wp in Hwp.
  destruct (issueTickets _ _ _ _ _ w) as [[res | e] w']; cbn [snd] in *; [| by subst].
  destruct Hwp as (a & o & r & i & _ & Hc). by eapply paid_up_fulfilled.
Qed.

(** The ticket of a verified intent. *)
Lemma paid_up_issues id bytes token ck paymentIntentId w :
  let w' := (issueTicketFromVerifiedPayment id bytes token ck paymentIntentId w).2 in
  intents w' = intents w -> checkout w' = checkout w -> paid_up w -> paid_up w'.
Proof.
  cbv zeta. pose proof (issueTicket_wp id bytes token ck paymentIntentId w) as Hwp. unfold wp in Hwp.
  destruct (issueTicketFromVerifiedPayment _ _ _ _ _ w) as [[r | e] w']; cbn [snd]; intros Hi Hc Hup;
    [| by apply (paid_up_same w); [unfold the_intents; rewrite Hi |..]].
  destruct Hwp as (_ & _ & t & _ & _ & Hq). destruct (itr_qrPayload r) as [qr |];
    [| by apply (paid_up_same w); [unfold the_intents; rewrite Hi |..]].
  destruct Hq as (_ & _ & Hfrom). pose proof (issued_from_wf _ _ _ _ _ _ _ Hfrom (pu_tickets _ Hup)) as Hwf.
  destruct Hfrom as (p & ev & Hp & Hv & _ & _ & _ & _ & Hid & Ht).
  assert (Hg : grows w w') by (apply grows_same; [unfold the_intents; by rewrite Hi | done]).
  split; [apply (books_same w); [unfold the_intents; by rewrite Hi | done | apply Hup] | done |].
  intros k t'. rewrite Ht. intros [[_ <-] | [_ Hk]]%lookup_insert_Some.
  - left. pose proof (bk_intents _ (pu_books _ Hup) _ _ Hp) as Hkey. exists paymentIntentId, p. cbn.
    unfold the_intents. rewrite Hi. split_and!; try done; [congruence |].
    by apply (bk_verified _ (pu_books _ Hup) paymentIntentId).
  - eapply ticket_paid_grows; [done | | by eapply (pu_paid _ Hup)]. done.
Qed.

(** The gate. *)
Lemma paid_up_accepted now input rc r w w' : scan_accepted now input rc r w w' -> paid_up w -> paid_up w'.
Proof.
  intros (t & Ht & _ & _ & _ & ->) Hup. unfold db_tickets in Ht.
  set (w' := audited _ _). assert (Hg : grows w w') by by apply grows_same.
  destruct (pu_tickets _ Hup) as [Hk Ho].
  assert (Hold : forall k t1, tickets (ticketing w') !! k = Some t1 ->
    exists t0, tickets (ticketing w) !! k = Some t0 /\ same_ticket t0 t1).
  { intros k t1. subst w'. unfold audited, db_tickets. wsimpl.
    intros [[<- <-] | [_ Hk1]]%lookup_insert_Some; by eexists. }
  split; [by apply (books_same w), Hup | split |].
  - intros k t1 (t0 & H0 & -> & _)%Hold. by apply Hk.
  - intros k1 k2 t1 t2 (u1 & H1 & _ & Hu1 & He1 & _ & Hi1)%Hold (u2 & H2 & _ & Hu2 & He2 & _ & Hi2)%Hold.
    rewrite Hu1, He1, Hi1, Hu2, He2, Hi2. by eapply Ho.
  - intros k t1 (t0 & H0 & Hs)%Hold. eapply ticket_paid_grows; [done | done | by eapply (pu_paid _ Hup)].
Qed.

Lemma paid_up_gate s s' :
  gate_step s s' -> intents s'.1 = intents s.1 -> checkout s'.1 = checkout s.1 ->
  keyed ord_id (orders (checkout s.1)) -> wf_stock s.1 -> paid_up s.1 -> paid_up s'.1.
Proof.
  assert (Hrej : forall now r w w', scan_rejected now r w w' -> paid_up w -> paid_up w')
    by (intros now r w w' (reason & row & _ & -> & _); by apply paid_up_same).
  intros Hstep. destruct Hstep; cbn [fst]; intros Hi Hc Hkey Hwf Hup.
  - destruct (wp_ok _ _ _ _ _ _ (scan_preflight_wp now input w) H0) as [Hr _]. by eapply Hrej.
  - by destruct (wp_ok _ _ _ _ _ _ (scan_preflight_wp now input w) H0) as [-> _].
  - destruct (wp_ok _ _ _ _ _ _ (scan_commit_wp _ _ _ w) H1) as [Hr | Hr];
      [by eapply paid_up_accepted | by eapply Hrej].
  - by apply paid_up_issues.
  - by apply paid_up_fulfils.
  - apply (paid_up_same w); [unfold the_intents; by rewrite Hi | done | unfold db_tickets; congruence | done].
Qed.

(* ------------------------------------------------------------------ *)
(** ** Runs                                                             *)

(** A step of the system in which the providers tell the truth; what is no request leaves
    the intents and the orders alone. *)
Inductive honest_step (s : system) : system -> Prop :=
| ho_request app rq :
    admissible_request rq s -> honest rq ->
    honest_step s (with_world (exec dp app (sy_now s) rq (sy_world s)).2 s)
| ho_other s' :
    system_step dp s s' -> same_part Intents (sy_world s) (sy_world s') ->
    same_part Checkout (sy_world s) (sy_world s') -> honest_step s s'.

Lemma honest_system s s' : honest_step s s' -> system_step dp s s'.
Proof. intros [app rq Hadm _ | s1 Hstep _ _]; [by apply st_request | done]. Qed.

Lemma exec_paid_up app now rq w :
  honest rq -> keyed ord_id (orders (checkout w)) -> wf_stock w -> paid_up w ->
  paid_up (exec dp app now rq w).2.
Proof.
  intros Hh Hkey Hwf Hup. pose proof (exec_leaves dp app now rq w) as Hframe.
  destruct rq; try (apply (paid_up_same w); [unfold the_intents; f_equal; exact (Hframe Intents eq_refl)
    | exact (Hframe Checkout eq_refl) | unfold db_tickets; f_equal; exact (Hframe Ticketing eq_refl) | done]).
  - by apply paid_up_checkout.
  - by apply paid_up_verify.
  - pose proof (Hframe Intents eq_refl) as Hi. cbn [exec same_part] in *. rewrite quietly_world in *.
    by apply paid_up_fulfils.
  - by apply paid_up_initiate.
  - by apply paid_up_webhook.
  - pose proof (Hframe Intents eq_refl) as Hi. pose proof (Hframe Checkout eq_refl) as Hc.
    cbn [exec same_part] in *. rewrite quietly_world in *. by apply paid_up_issues.
Qed.

Lemma honest_paid_up s s' :
  honest_step s s' -> system_ok s -> paid_up (sy_world s) -> paid_up (sy_world s').
Proof.
  intros Hstep Hok Hup. pose proof (so_capacity _ Hok) as [Hwf Hkey _ _ _].
  destruct Hstep as [app rq _ Hh | s' Hstep Hi Hc]; [by apply exec_paid_up |].
  by apply (paid_up_gate _ _ (system_gate dp s s' Hstep)).
Qed.

Lemma honest_run s s' :
  rtc honest_step s s' -> system_ok s -> paid_up (sy_world s) -> system_ok s' /\ paid_up (sy_world s').
Proof.
  induction 1 as [| s1 s2 s3 Hstep _ IH]; intros Hok Hup; [done |]. apply IH.
  - by eapply system_ok_step, Hok; apply honest_system.
  - by eapply honest_paid_up.
Qed.

(** The evidence for a ticket: the charge of its intent, or the charge and the one ledger
    entry of a payment of its order. *)
Inductive backed (w : world) (t : ticket) : Prop :=
| backed_by_intent i p :
    tk_paymentIntentId t = Some i -> the_intents w !! i = Some p ->
    tk_ownerUserId t = pi_buyerUserId p -> tk_eventId t = pi_eventId p ->
    charged (intent_charge p) -> backed w t
| backed_by_order k o p c lid e :
    tk_orderId t = Some k -> orders (checkout w) !! k = Some o ->
    tk_ownerUserId t = ord_userId o -> tk_eventId t = ord_eventId o ->
    payments (checkout w) !! pay_id p = Some p -> pay_orderId p = k -> pay_status p = PAY_SUCCESS ->
    is_payment_charge p o c -> charged c ->
    ledger (checkout w) !! lid = Some e -> led_paymentId e = Some (pay_id p) ->
    led_direction e = CREDIT -> led_amount e = ch_amountMinor c -> backed w t.

Lemma paid_backed w k t : paid_up w -> db_tickets w !! k = Some t -> backed w t.
Proof.
  intros Hup Ht. destruct (pu_paid _ Hup k t Ht) as [(i & p & H1 & H2 & H3 & H4 & H5)
    | (kk & o & _ & H1 & H2 & H3 & H4 & (pid & p & Hp & Hpo & Hst))]; [by eapply backed_by_intent |].
  pose proof (pu_books _ Hup) as [Hl _ _ Hpays _]. pose proof (lo_keyed _ Hl _ _ Hp) as <-.
  destruct (Hpays _ _ Hp Hst) as (o' & c & Ho' & Hc & Hch). assert (o' = o) as -> by congruence.
  destruct (lo_credited _ Hl _ _ Hp Hst) as (lid & e & He & Hpe).
  destruct (lo_credit _ Hl _ _ _ He Hpe) as (p' & Hp' & _ & Hdir & Hamt & _). assert (p' = p) as -> by congruence.
  destruct Hc as (prov & Hprov & Hchp & Href & Hpa & Hcur).
  eapply backed_by_order; try done; [by exists prov | congruence].
Qed.

(** An intent buys one ticket. *)
Lemma one_ticket_each w k1 k2 t1 t2 i :
  paid_up w -> db_tickets w !! k1 = Some t1 -> db_tickets w !! k2 = Some t2 ->
  tk_paymentIntentId t1 = Some i -> tk_paymentIntentId t2 = Some i -> k1 = k2.
Proof.
  intros Hup H1 H2 Hi1 Hi2.
  assert (Hof : forall k t, db_tickets w !! k = Some t -> tk_paymentIntentId t = Some i ->
    exists p, the_intents w !! i = Some p /\ tk_ownerUserId t = pi_buyerUserId p /\ tk_eventId t = pi_eventId p).
  { intros k t Ht Hi. destruct (pu_paid _ Hup k t Ht) as [(j & p & Hj & Hp & Ho & He & _) | (j & o & Hno & _)];
      [| congruence]. exists p. split; [congruence | done]. }
  destruct (Hof _ _ H1 Hi1) as (p1 & Hp1 & Ho1 & He1), (Hof _ _ H2 Hi2) as (p2 & Hp2 & Ho2 & He2).
  assert (p2 = p1) as -> by congruence.
  eapply (wt_once _ (pu_tickets _ Hup)); [exact H1 | exact H2 | by rewrite Hi1 | congruence..].
Qed.

End Provenance.

(** Nothing sold, nothing to show for. *)
Lemma paid_up_start charged w :
  the_intents w = ∅ -> checkout w = checkout empty_world -> db_tickets w = ∅ -> paid_up charged w.
Proof.
  intros Hi Hc Ht. assert (Hno : forall A k (x : A) (m : gmap string A), m = ∅ -> m !! k = Some x -> False)
    by (intros A k x m ->; by rewrite lookup_empty).
  assert (Hp : payments (checkout w) = ∅ /\ orders (checkout w) = ∅ /\ ledger (checkout w) = ∅) by by rewrite Hc.
  destruct Hp as (Hp & Ho & Hl).
  split; [split; [split | ..] | split |]; repeat intro; exfalso;
    match goal with Hk : _ !! _ = Some _ |- _ => by eapply Hno in Hk end.
Qed.

(** A segment with nothing encoded is the reference itself. *)
Fixpoint no_percent (s : string) : bool :=
  match s with
  | EmptyString => true
  | String c s' => negb (bool_decide (c = "%"%char)) && no_percent s'
  end.

Lemma encode_plain t : no_percent t = true -> forall s, t = encodeURIComponent s -> s = t.
Proof.
  induction t as [| c t IH]; intros Ht [| d s] He; cbn in *; try done; [by destruct (uri_unreserved d) |].
  apply andb_true_iff in Ht as [Hc%negb_true_iff%bool_decide_eq_false Ht].
  destruct (uri_unreserved d); [| congruence]. injection He as -> He. by rewrite (IH Ht s He).
Qed.

(** Alice starts a payment, Paystack's webhook settles it, and her ticket is issued. *)
Module PaidExample.
Import WebhookExample InitiationExample.

Definition deployed : deployment :=
  {| dp_config := cfg; dp_launch := lc; dp_hold := None; dp_env := fun _ => None;
     dp_contains := dp_contains SystemExample.deployed; dp_createdAt := fun _ => 0;
     dp_updatedAt := fun _ => 0; dp_scanId := dp_scanId SystemExample.deployed |}.

#[local] Instance crypto : Crypto := plain_crypto.

(** The one charge Paystack made. *)
Definition charged (c : charge) : Prop :=
  c = {| ch_provider := PAYSTACK; ch_reference := "pi_key-1"; ch_amountMinor := 5000; ch_currency := "GHS" |}.

Definition start : system :=
  {| sy_now := 1000; sy_world := w0; sy_scans := []; sy_issued := ∅; sy_redeemed := [] |}.

(** Paystack knows one payment. *)
Definition network (rq : http_request) : fetch_result :=
  if bool_decide (rq_method rq = "GET") then
    if bool_decide (rq_url rq = "https://api.paystack.co/transaction/verify/pi_key-1") then paid
    else FetchResponse {| rs_status := 200; rs_json := Ok JNull |}
  else InitiationExample.fetch rq.

Definition pay : request := RqInitiate network "int-1" None (who "alice") input.
Definition hook : request :=
  RqWebhook network "wh-1" paystack (Some "body") (pwi_parsedBody (delivery "body"))
    (pwi_headers (delivery "body")).
Definition issue : request := RqIssueIntent "tk-1" (replicate 10 7) "secret" "int-1".

Definition serve_at (rq : request) (s : system) : system :=
  with_world (exec deployed 1000 (sy_now s) rq (sy_world s)).2 s.
Definition finish : system := serve_at issue (serve_at hook (serve_at pay start)).

Example ticket_of_alice : tk_ownerUserId <$> db_tickets (sy_world finish) !! "tk-1" = Some "alice".
Proof. vm_run. Qed.

(** What Paystack answers is the charge. *)
Lemma network_truthful : truthful deployed charged network.
Proof.
  intros provider segment ref body c (rq & resp & Hget & Hurl & Hf & _ & Hbody) Hseg [Hp Hs Ha Hc Hr].
  unfold network in Hf. rewrite Hget in Hf. cbn [String.eqb] in Hf. rewrite bool_decide_true in Hf by done.
  case_bool_decide as Hu; [| injection Hf as <-; injection Hbody as <-; by destruct provider]. unfold paid in Hf. injection Hf as <-. injection Hbody as <-.
  destruct provider; [| discriminate Hs]. rewrite Hu in Hurl.
  assert (segment = "pi_key-1") as ->.
  { symmetry. apply (inj (String.append "https://api.paystack.co/transaction/verify/")). exact Hurl. }
  assert (ref = "pi_key-1") as ->.
  { destruct Hseg as [He | <-]; [| done]. by apply encode_plain. }
  destruct c as [cp cr ca cc]. cbn in *. subst cp. injection Hc as <-. unfold charged. f_equal.
  - by destruct Hr as [-> | [_ ->]].
  - by destruct Ha as [[= <-] | [[=] | [= <-]]].
Qed.

Lemma hook_honest : honest deployed charged hook.
Proof. exact network_truthful. Qed.

Lemma honest_finish : rtc (honest_step deployed charged) start finish.
Proof.
  eapply rtc_l; [exact (ho_request deployed charged start 1000 pay Logic.I Logic.I) |].
  eapply rtc_l; [exact (ho_request deployed charged (serve_at pay start) 1000 hook Logic.I hook_honest) |].
  apply rtc_once. exact (ho_request deployed charged (serve_at hook (serve_at pay start)) 1000 issue Logic.I Logic.I).
Qed.

End PaidExample.

(** A system that has only a catalogue. *)
Lemma catalogue_ok now w :
  stock w = stock empty_world -> checkout w = checkout empty_world -> ticketing w = ticketing empty_world ->
  seating w = seating empty_world -> identity w = identity empty_world ->
  system_ok {| sy_now := now; sy_world := w; sy_scans := []; sy_issued := ∅; sy_redeemed := [] |}.
Proof.
  intros Hs Hc Ht Hse Hid.
  split; [split; [split | ..] | split | split | split; split]; cbn;
    unfold db_tickets, db_sessions, db_event_tables, db_holds in *;
    rewrite ?Hs, ?Hc, ?Ht, ?Hse, ?Hid in *; repeat intro; try done; try constructor.
  all: exfalso; match goal with Hin : _ ∈ _ |- _ => by apply elem_of_nil in Hin end.
Qed.

(* ------------------------------------------------------------------ *)
(** ** Properties                                                       *)

(** C2: Every ticket is paid for.  Start in a good state whose books are in order, such as a
    catalogue with nothing sold, and let checkouts, payments, webhooks, both kinds of
    issuance and all other requests run in any order and fail anywhere, each whole
    before the next (a webhook and the start of a payment too, although they wait for a
    provider), scans interrupted between their halves, with the provisos of the system's
    steps: no order is fulfilled after its reservation expired, and refresh tokens are
    drawn new.  If every charge the providers' successful answers to these requests report
    as settled was made, then each ticket in the database is backed by such a charge,
    either of the intent it was issued from, in its provider, reference, amount and
    currency, or of a payment of its order, settled and credited in the ledger at that
    amount; the ticket belongs to the buyer and the event that were charged; and no intent
    has two tickets. *)
Theorem every_ticket_paid `{Crypto} dp charged s s'
    (Hok : system_ok s) (Hpaid : paid_up charged (sy_world s)) (Hrun : rtc (honest_step dp charged) s s') :
  (forall k t, db_tickets (sy_world s') !! k = Some t -> backed charged (sy_world s') t) /\
  (forall k1 k2 t1 t2 i, db_tickets (sy_world s') !! k1 = Some t1 -> db_tickets (sy_world s') !! k2 = Some t2 ->
     tk_paymentIntentId t1 = Some i -> tk_paymentIntentId t2 = Some i -> k1 = k2).
Proof.
  destruct (honest_run dp charged s s' Hrun Hok Hpaid) as [_ Hup]. split.
  - intros k t. by apply paid_backed.
  - intros k1 k2 t1 t2 i. by apply (one_ticket_each charged).
Qed.

Lemma every_ticket_paid_witness :
  exists t, db_tickets (sy_world PaidExample.finish) !! "tk-1" = Some t /\
    backed PaidExample.charged (sy_world PaidExample.finish) t.
Proof.
  destruct (db_tickets (sy_world PaidExample.finish) !! "tk-1") as [t |] eqn:E.
  - exists t. split; [done |].
    exact (proj1 (every_ticket_paid PaidExample.deployed PaidExample.charged PaidExample.start PaidExample.finish
      (catalogue_ok 1000 InitiationExample.w0 eq_refl eq_refl eq_refl eq_refl eq_refl)
      (paid_up_start PaidExample.charged InitiationExample.w0 eq_refl eq_refl eq_refl)
      PaidExample.honest_finish) "tk-1" t E).
  - exfalso. pose proof PaidExample.ticket_of_alice as Ht. by rewrite E in Ht.
Defined.
