(* ===== verification/Sweeping.v ===== *)
(** Sweeping.v: what the sweeper of expired reservations is for.  Along any execution of
    the system, however its requests are interleaved, a reservation that is overdue is
    expired as long as the sweeper keeps running and now and then finds it unlocked.

    The measure is the number of held reservations that were due no later: no request
    raises it, and every such sweep lowers it. *)

From S2P Require Import Prelude Errors Values Hashing Store Context LaunchControl Inventory Providers Orders Payments Base32 Tickets Capacity System.

Local Open Scope Z_scope.

Definition db_reservations (w : world) : gmap string reservation := reservations (stock w).

(** The bucket a reservation is counted in exists. *)
Definition has_bucket (r : reservation) (w : world) : Prop :=
  exists k i, inventories (stock w) !! k = Some i /\
    inv_eventId i = rsv_eventId r /\ inv_ticketTypeId i = rsv_ticketTypeId r.

(** Every reservation has its bucket.  The schema has no foreign key for it; the code makes
    a reservation only under the lock of its bucket, changes neither's event and type and
    deletes no bucket, so every step keeps it ([run_ok]). *)
Definition bucketed (w : world) : Prop := forall k r, db_reservations w !! k = Some r -> has_bucket r w.

(* ------------------------------------------------------------------ *)
(** ** How a request changes the reservations                           *)

(** Rows stay, and only ever leave HELD; a new row ends after [now] and has a bucket;
    buckets stay. *)
Record evolves (now : Z) (w w' : world) : Prop := {
  ev_kept : forall k r, db_reservations w !! k = Some r -> exists r', db_reservations w' !! k = Some r' /\
    (r' = r \/ exists s, s <> HELD /\ r' = with_rsv_status s r);
  ev_new : forall k r', db_reservations w' !! k = Some r' -> db_reservations w !! k = None ->
    now < rsv_expiresAt r' /\ has_bucket r' w';
  ev_buckets : forall k i, inventories (stock w) !! k = Some i -> exists i',
    inventories (stock w') !! k = Some i' /\ inv_eventId i' = inv_eventId i /\
    inv_ticketTypeId i' = inv_ticketTypeId i
}.

Lemma evolves_same now w w' : stock w' = stock w -> evolves now w w'.
Proof.
  intros Hs. split; unfold db_reservations; rewrite ?Hs; [by eauto | congruence | by eauto].
Qed.

Lemma has_bucket_kept r now w w' : evolves now w w' -> has_bucket r w -> has_bucket r w'.
Proof.
  intros Hev (k & i & Hi & He & Ht). destruct (ev_buckets _ _ _ Hev k i Hi) as (i' & Hi' & He' & Ht').
  exists k, i'. split_and!; [done | congruence | congruence].
Qed.

Lemma sweep_evolves_trans now w1 w2 w3 : evolves now w1 w2 -> evolves now w2 w3 -> evolves now w1 w3.
Proof.
  intros H12 H23. split.
  - intros k r Hr. destruct (ev_kept _ _ _ H12 k r Hr) as (r2 & Hr2 & Hs2).
    destruct (ev_kept _ _ _ H23 k r2 Hr2) as (r3 & Hr3 & Hs3). exists r3. split; [done |].
    destruct Hs2 as [-> | (s2 & Hn2 & ->)], Hs3 as [-> | (s3 & Hn3 & ->)]; eauto.
  - intros k r3 Hr3 Hr. destruct (db_reservations w2 !! k) as [r2 |] eqn:Hr2.
    + destruct (ev_new _ _ _ H12 k r2 Hr2 Hr) as [Hx Hb].
      destruct (ev_kept _ _ _ H23 k r2 Hr2) as (r3' & Hr3' & Hs). same_row Hr3'.
      apply (has_bucket_kept r2 now w2 w3 H23) in Hb. by destruct Hs as [-> | (s & _ & ->)].
    + exact (ev_new _ _ _ H23 k r3 Hr3 Hr2).
  - intros k i Hi. destruct (ev_buckets _ _ _ H12 k i Hi) as (i2 & Hi2 & He2 & Ht2).
    destruct (ev_buckets _ _ _ H23 k i2 Hi2) as (i3 & Hi3 & He3 & Ht3). exists i3. split_and!; congruence.
Qed.

Lemma bucketed_evolves now w w' : evolves now w w' -> bucketed w -> bucketed w'.
Proof.
  intros Hev Hb k r' Hr'. destruct (db_reservations w !! k) as [r |] eqn:Hr.
  - destruct (ev_kept _ _ _ Hev k r Hr) as (r2 & Hr2 & Hs). same_row Hr2.
    pose proof (has_bucket_kept r now w w' Hev (Hb k r Hr)) as Hb'. by destruct Hs as [-> | (s & _ & ->)].
  - by apply (ev_new _ _ _ Hev k r' Hr' Hr).
Qed.

(** The shapes of the writes: one bucket is rewritten, and one row leaves HELD or is
    added, or none is. *)
Lemma inventories_insert w w' i i' k j :
  inventories (stock w') = <[inv_id i := i']> (inventories (stock w)) ->
  inventories (stock w) !! inv_id i = Some i ->
  inv_eventId i' = inv_eventId i -> inv_ticketTypeId i' = inv_ticketTypeId i ->
  inventories (stock w) !! k = Some j -> exists j', inventories (stock w') !! k = Some j' /\
    inv_eventId j' = inv_eventId j /\ inv_ticketTypeId j' = inv_ticketTypeId j.
Proof.
  intros -> Hi He Ht Hj. destruct (decide (inv_id i = k)) as [<- | Hne].
  - rewrite lookup_insert_eq. exists i'. split_and!; congruence.
  - rewrite lookup_insert_ne by done. eauto.
Qed.

Lemma evolves_left now w w' r s i i' :
  db_reservations w !! rsv_id r = Some r -> s <> HELD ->
  db_reservations w' = <[rsv_id r := with_rsv_status s r]> (db_reservations w) ->
  inventories (stock w') = <[inv_id i := i']> (inventories (stock w)) ->
  inventories (stock w) !! inv_id i = Some i ->
  inv_eventId i' = inv_eventId i -> inv_ticketTypeId i' = inv_ticketTypeId i -> evolves now w w'.
Proof.
  intros Hr Hs Hres Hinv Hi He Ht. split.
  - intros k r0 Hr0. rewrite Hres. destruct (decide (rsv_id r = k)) as [<- | Hne].
    + rewrite lookup_insert_eq. same_row Hr. eexists. split; [done | right; eauto].
    + rewrite lookup_insert_ne by done. eauto.
  - intros k r' Hr' Hnew. rewrite Hres in Hr'. apply lookup_insert_Some in Hr' as [[<- _] | [_ Hr']]; congruence.
  - intros k j Hj. by eapply inventories_insert.
Qed.

Lemma evolves_expired now r i n w w' : wf_stock w -> expired_with r i n w w' -> evolves now w w'.
Proof.
  intros Hwf Hx. destruct (locked_row _ _ _ _ Hwf (xp_bucket _ _ _ _ _ Hx)) as (Hi & _).
  by eapply evolves_left; [apply Hx | | apply Hx | apply Hx | ..].
Qed.

Lemma evolves_consumed now uuid ck orderId refs o r i res w w' :
  wf_stock w -> consumed uuid ck orderId refs o r i res w w' -> evolves now w w'.
Proof.
  intros Hwf Hc. destruct (locked_row _ _ _ _ Hwf (cs_bucket _ _ _ _ _ _ _ _ _ _ Hc)) as (Hi & _).
  by eapply evolves_left; [apply Hc | | apply Hc | apply Hc | ..].
Qed.

Lemma evolves_reserved now actor e t q ttl uuid ck i res w w' :
  wf_stock w -> now < app_now ck + ttl * 1000 -> reserved actor e t q ttl uuid ck i res w w' -> evolves now w w'.
Proof.
  intros Hwf Hnow Hr. destruct (locked_row _ _ _ _ Hwf (rd_bucket _ _ _ _ _ _ _ _ _ _ _ Hr)) as (Hi & He & Ht).
  pose proof (rd_reservations _ _ _ _ _ _ _ _ _ _ _ Hr) as Hres.
  pose proof (rd_inventories _ _ _ _ _ _ _ _ _ _ _ Hr) as Hinv.
  pose proof (fun k j => inventories_insert w w' i _ k j Hinv Hi eq_refl eq_refl) as Hbuckets.
  split; unfold db_reservations.
  - intros k r0 Hr0. rewrite Hres. exists r0. split; [| by left]. rewrite lookup_insert_ne; [done |].
    intros <-. by rewrite (rd_fresh _ _ _ _ _ _ _ _ _ _ _ Hr) in Hr0.
  - intros k r' Hr' Hnew. rewrite Hres in Hr'.
    apply lookup_insert_Some in Hr' as [[_ <-] | [_ Hr']]; [| congruence]. split; [done |].
    destruct (Hbuckets (inv_id i) i Hi) as (j & Hj & Hje & Hjt). exists (inv_id i), j. cbn. split_and!; congruence.
  - intros k j. apply Hbuckets.
Qed.

Lemma evolves_sweep_loop now uuid ck rs : forall i w,
  wf_stock w -> NoDup (rsv_id <$> rs) -> Forall (fun r => db_reservations w !! rsv_id r = Some r) rs ->
  wp (sweep_loop uuid ck i rs) (fun _ w' => evolves now w w') any w.
Proof.
  induction rs as [| r rs IH]; intros i w Hwf Hnd Hrows; cbn [sweep_loop fmap list_fmap] in *.
  { apply wp_ret. by apply evolves_same. }
  apply NoDup_cons in Hnd as [Hni Hnd]. apply Forall_cons in Hrows as [Hr Hrows].
  apply wp_bind. eapply wp_mono; [by apply sweep_one_wp | | done]. intros [] w1 [inv Hx].
  apply wp_bind. eapply wp_mono; [apply (IH (S i) w1) | | done].
  - by eapply wf_stock_expired.
  - done.
  - rewrite Forall_forall in Hrows |- *. intros r' Hr'. unfold db_reservations.
    rewrite (xp_reservations _ _ _ _ _ Hx), lookup_insert_ne; [by apply Hrows |].
    intros Heq. apply Hni. rewrite Heq. by apply list_elem_of_fmap_2.
  - intros ids w2 H12. apply wp_ret. eapply sweep_evolves_trans; [by eapply evolves_expired | done].
Qed.

(* ------------------------------------------------------------------ *)
(** ** The sweep succeeds                                               *)

(** The ids drawn from the [i]-th on are new to the journal. *)
Definition fresh_from (uuid : nat -> string) (i : nat) (w : world) : Prop :=
  forall j, (i <= j)%nat -> audit_logs (journal w) !! uuid j = None /\ outbox (journal w) !! uuid j = None.

Lemma no_clash_none {R} (r : R) t : find_row (no_clash r) t = None.
Proof. by apply find_row_None. Qed.

(** A [create] under a new id, where no other index is unique. *)
Lemma wp_create_new {R} (T : table R) r (Q : unit -> world -> Prop) X w :
  tb_rows T w !! tb_id T r = None -> find_row (tb_clash T r) (tb_rows T w) = None ->
  Q tt (tb_store T (<[tb_id T r := r]> (tb_rows T w)) w) -> wp (create T r) Q X w.
Proof. intros Hr Hc HQ. unfold wp, create. by rewrite Hr, Hc, !bool_decide_eq_true_2. Qed.

Lemma sweep_one_succeeds uuid i ck r w :
  Inj (=) (=) uuid -> wf_stock w -> db_reservations w !! rsv_id r = Some r -> has_bucket r w ->
  fresh_from uuid (2 * i) w ->
  wp (sweep_one (uuid (2 * i)%nat) (uuid (2 * i + 1)%nat) ck r)
     (fun _ w' => fresh_from uuid (2 * S i) w' /\
        exists inv, expired_with r inv (active_total (rsv_eventId r) (rsv_ticketTypeId r) (db_now ck) w') w w')
     (fun _ _ => False) w.
Proof.
  intros Hinj Hwf Hr (k & inv & Hi & He & Ht) Hfresh.
  pose proof (lock_finds _ _ _ Hwf Hi) as Hlock. rewrite He, Ht in Hlock.
  pose proof (wf_inv_keyed _ Hwf _ _ Hi) as Hkey. subst k. unfold db_reservations in Hr.
  destruct (Hfresh (2 * i)%nat ltac:(lia)) as [Ha _], (Hfresh (2 * i + 1)%nat ltac:(lia)) as [_ Ho].
  repeat first [apply wp_create_new; [wsimpl; done | apply no_clash_none |] | wp_stmt]; wsimpl; try congruence.
  same_row Hr. assert (a = inv) as -> by congruence. same_row Hi. split.
  - intros j Hj. wsimpl. destruct (Hfresh j ltac:(lia)) as [Haj Hoj].
    rewrite !lookup_insert_ne; [done | |]; intros Heq%(inj uuid); lia.
  - exists inv. split; done.
Qed.

(** With fresh draws and every bucket in place, the loop runs to its end. *)
Lemma sweep_loop_succeeds uuid ck rs : Inj (=) (=) uuid -> forall i w,
  wf_stock w -> NoDup (rsv_id <$> rs) ->
  Forall (fun r => db_reservations w !! rsv_id r = Some r /\ has_bucket r w) rs ->
  fresh_from uuid (2 * i) w ->
  wp (sweep_loop uuid ck i rs) (fun _ _ => True) (fun _ _ => False) w.
Proof.
  intros Hinj. induction rs as [| r rs IH]; intros i w Hwf Hnd Hrows Hfresh; cbn [sweep_loop fmap list_fmap] in *.
  { by apply wp_ret. }
  apply NoDup_cons in Hnd as [Hni Hnd]. apply Forall_cons in Hrows as [[Hr Hb] Hrows].
  apply wp_bind. eapply wp_mono; [by apply sweep_one_succeeds | | done]. cbn beta. intros [] w1 [Hf1 [inv Hx]].
  apply wp_bind. eapply wp_mono; [apply (IH (S i) w1) | intros; by apply wp_ret | done].
  - by eapply wf_stock_expired.
  - done.
  - rewrite Forall_forall in Hrows |- *. intros r' Hr'. destruct (Hrows r' Hr') as [Hrow Hb']. split.
    + unfold db_reservations. rewrite (xp_reservations _ _ _ _ _ Hx), lookup_insert_ne; [done |].
      intros Heq. apply Hni. rewrite Heq. by apply list_elem_of_fmap_2.
    + eapply (has_bucket_kept r' 0); [by eapply evolves_expired | done].
  - done.
Qed.

(** One sweep: it resolves, and every row it claims is EXPIRED. *)
Lemma sweep_succeeds uuid ck skipped limit w :
  Inj (=) (=) uuid -> wf_stock w -> bucketed w -> fresh_from uuid 0 w ->
  wp (sweepExpiredReservations uuid ck skipped limit)
     (fun _ w' => all_expired (rsv_id <$> claimed (default DEFAULT_SWEEP_LIMIT limit) skipped (db_now ck) w) w w')
     (fun _ _ => False) w.
Proof.
  intros Hinj Hwf Hb Hfresh. pose proof (sweep_wp uuid ck skipped limit w Hwf) as Hspec.
  assert (Hruns : wp (sweepExpiredReservations uuid ck skipped limit) (fun _ _ => True) (fun _ _ => False) w).
  { unfold sweepExpiredReservations. wp_step. wp_step. apply wp_reads.
    apply sweep_loop_succeeds; [done | done | by apply claimed_NoDup | | done].
    apply Forall_forall. intros r (_ & _ & _ & k & Hk)%claimed_spec.
    rewrite (wf_rsv_keyed _ Hwf _ _ Hk). split; [done | by eapply Hb]. }
  unfold wp in *. destruct (sweepExpiredReservations uuid ck skipped limit w) as [[ids | e] w']; [| done].
  destruct Hspec as (-> & _ & Hall & _). exact Hall.
Qed.

(* ------------------------------------------------------------------ *)
(** ** What is overdue                                                  *)

(** The reservations still held that were due by [e]. *)
Definition overdue (e : Z) (w : world) : gmap string reservation :=
  filter (fun kr => is_expired_held e kr.2 = true) (db_reservations w).

Lemma overdue_spec e w k r :
  overdue e w !! k = Some r <-> db_reservations w !! k = Some r /\ rsv_status r = HELD /\ rsv_expiresAt r <= e.
Proof.
  unfold overdue, is_expired_held. rewrite map_lookup_filter_Some. cbn.
  by rewrite andb_true_iff, bool_decide_eq_true, Z.leb_le.
Qed.

(** A held row was held before, the same, or is new and not yet due. *)
Lemma held_before now w w' k r :
  evolves now w w' -> db_reservations w' !! k = Some r -> rsv_status r = HELD -> rsv_expiresAt r <= now ->
  db_reservations w !! k = Some r.
Proof.
  intros Hev Hr Hh Hx. destruct (db_reservations w !! k) as [r0 |] eqn:Hr0.
  - destruct (ev_kept _ _ _ Hev k r0 Hr0) as (r' & Hr' & Hs). same_row Hr'.
    destruct Hs as [-> | (s & Hs & ->)]; [done | by destruct Hs].
  - destruct (ev_new _ _ _ Hev k r Hr Hr0). lia.
Qed.

Lemma overdue_shrinks e now w w' : evolves now w w' -> e <= now -> overdue e w' ⊆ overdue e w.
Proof.
  intros Hev He. apply map_subseteq_spec. intros k r (Hr & Hh & Hx)%overdue_spec.
  apply overdue_spec. split; [| done]. eapply held_before; [done.. | lia].
Qed.

#[export] Instance expires_le_trans : Transitive expires_le.
Proof. intros a b c. unfold expires_le. lia. Qed.
#[export] Instance expires_le_total : Total expires_le.
Proof. intros a b. unfold expires_le. lia. Qed.

(** A sweep that finds an overdue row unlocked claims a row due no later. *)
Lemma sweep_claims limit skipped now w k r :
  limit <> 0%nat -> db_reservations w !! k = Some r -> skipped (rsv_id r) = false ->
  rsv_status r = HELD -> rsv_expiresAt r <= now ->
  exists x, x ∈ claimed limit skipped now w /\ rsv_expiresAt x <= rsv_expiresAt r.
Proof.
  intros Hl Hr Hskip Hh Hx. unfold claimed, lock_rows.
  set (due := find_rows (is_expired_held now) (reservations (stock w))).
  assert (Hmine : r ∈ filter (fun r => skipped (rsv_id r) = false) (merge_sort expires_le due)).
  { apply list_elem_of_filter. split; [done |]. rewrite merge_sort_Permutation. apply find_rows_spec.
    exists k. split; [done |]. unfold is_expired_held. by rewrite andb_true_iff, bool_decide_eq_true, Z.leb_le. }
  pose proof (StronglySorted_sub expires_le _ _ (sublist_filter (fun r => skipped (rsv_id r) = false) _)
    (StronglySorted_merge_sort expires_le due)) as Hsorted.
  destruct (filter _ _) as [| x l]; [by apply elem_of_nil in Hmine |].
  destruct limit as [| n]; [done |]. exists x. split; [by apply list_elem_of_here |].
  apply StronglySorted_inv in Hsorted as [_ Hfirst]. apply elem_of_cons in Hmine as [-> | Hin]; [lia |].
  rewrite Forall_forall in Hfirst. by apply (Hfirst r).
Qed.

(** And so fewer are overdue after it. *)
Lemma sweep_lowers uuid ck skipped limit w w' k r :
  Inj (=) (=) uuid -> wf_stock w -> bucketed w -> fresh_from uuid 0 w -> limit <> Some 0%nat ->
  db_reservations w !! k = Some r -> skipped k = false -> rsv_status r = HELD -> rsv_expiresAt r <= db_now ck ->
  (sweepExpiredReservations uuid ck skipped limit w).2 = w' -> evolves (db_now ck) w w' ->
  (size (overdue (rsv_expiresAt r) w') < size (overdue (rsv_expiresAt r) w))%nat.
Proof.
  intros Hinj Hwf Hb Hfresh Hl Hr Hskip Hh Hx Hw' Hev.
  pose proof (sweep_succeeds uuid ck skipped limit w Hinj Hwf Hb Hfresh) as Hsweep. unfold wp in Hsweep.
  destruct (sweepExpiredReservations uuid ck skipped limit w) as [[ids | e] w1]; [cbn in Hw'; subst w1 | done].
  rewrite <- (wf_rsv_keyed _ Hwf _ _ Hr) in Hskip.
  destruct (sweep_claims (default DEFAULT_SWEEP_LIMIT limit) skipped (db_now ck) w k r) as (x & Hx' & Hle); try done.
  { destruct limit as [[| n] |]; done. }
  destruct (claimed_spec _ _ _ _ _ Hx') as (_ & Hxh & _ & kx & Hkx).
  apply map_subset_size. split; [by eapply overdue_shrinks |]. intros Hsub.
  assert (Hin : overdue (rsv_expiresAt r) w !! kx = Some x) by (by apply overdue_spec).
  eapply map_subseteq_spec in Hin; [| exact Hsub]. apply overdue_spec in Hin as (Hin & _).
  unfold db_reservations in Hin. rewrite (Hsweep kx), decide_True, Hkx in Hin.
  - cbn in Hin. injection Hin as Hin. rewrite <- Hin in Hxh. done.
  - rewrite <- (wf_rsv_keyed _ Hwf _ _ Hkx). by apply list_elem_of_fmap_2.
Qed.

(* ------------------------------------------------------------------ *)
(** ** Executions                                                       *)

Section Executions.
Context `{Crypto} (dp : deployment).

(** A step of the system in which the process's clock is less than a second behind the
    database's; what is no request leaves the stock alone. *)
Inductive prompt_step (s : system) : system -> Prop :=
| pr_request app rq :
    admissible_request rq s -> sy_now s < app + 1000 ->
    prompt_step s (with_world (exec dp app (sy_now s) rq (sy_world s)).2 s)
| pr_other s' :
    system_step dp s s' -> same_part Stock (sy_world s) (sy_world s') -> prompt_step s s'.

(** The step is a run of the sweeper that can take the reservation [id]: its row is not
    locked elsewhere, the limit is not zero, and the draws are new. *)
Definition sweeps (id : string) (s s' : system) : Prop :=
  exists app uuid skipped limit,
    s' = with_world (exec dp app (sy_now s) (RqSweep uuid skipped limit) (sy_world s)).2 s /\
    Inj (=) (=) uuid /\ fresh_from uuid 0 (sy_world s) /\ skipped id = false /\ limit <> Some 0%nat.

Lemma prompt_system s s' : prompt_step s s' -> system_step dp s s'.
Proof. intros [app rq Hadm _ | s1 Hstep _]; [by apply st_request | done]. Qed.

(** What each request does to the reservations. *)
Lemma exec_evolves app now rq w :
  wf_stock w -> keyed ord_id (orders (checkout w)) -> now < app + 1000 ->
  evolves now w (exec dp app now rq w).2.
Proof.
  intros Hwf Hord Hnow. destruct (bool_decide (Stock ∈ footprint rq)) eqn:HS;
    [| exact (evolves_same now _ _ (exec_leaves dp app now rq w Stock HS))].
  destruct rq; try discriminate HS; cbn [exec]; rewrite quietly_world;
    (eapply (step_keeps _ (evolves now w)); [by apply evolves_same | |]).
  - by apply reserveInventory_wp.
  - cbn beta. intros res w' (actor & q & ttl & i & _ & _ & _ & _ & Httl & Hr).
    eapply evolves_reserved; [done | | exact Hr]. cbn. lia.
  - apply transaction_wp_err. by apply releaseExpired_wp.
  - cbn beta. intros res w' [(_ & -> & _) | (r & i & _ & _ & _ & _ & Hx)];
      [by apply evolves_same | by eapply evolves_expired].
  - apply transaction_wp_err. by apply reconcile_wp.
  - cbn beta. intros res w' (i & Hb & _ & Hres & Hinv & _).
    destruct (locked_row _ _ _ _ Hwf Hb) as (Hi & _). split; unfold db_reservations.
    + intros k r Hr. rewrite Hres. eauto.
    + intros k r Hr Hno. congruence.
    + intros k j. by apply (inventories_insert w w' i _ k j Hinv Hi).
  - apply transaction_wp_err, wp_transaction. wp_step. apply wp_reads.
    eapply wp_mono; [apply (evolves_sweep_loop now); [done | by apply claimed_NoDup |] | | done].
    + apply Forall_forall. intros r (_ & _ & _ & k & Hk)%claimed_spec. by rewrite (wf_rsv_keyed _ Hwf _ _ Hk).
    + by intros ids w' Hev.
  - done.
  - by apply issueTickets_wp.
  - cbn beta. intros res w' (a & o & r & i & _ & Hc). by eapply evolves_consumed.
Qed.

Lemma prompt_evolves s s' :
  within_capacity (sy_now s) (sy_world s) -> prompt_step s s' ->
  evolves (sy_now s) (sy_world s) (sy_world s').
Proof.
  intros Hwc [app rq _ Hnow | s1 _ Hsame]; [| by apply evolves_same].
  by apply exec_evolves; [apply Hwc | apply Hwc |].
Qed.

Lemma step_time s s' : system_step dp s s' -> sy_now s <= sy_now s'.
Proof. destruct 1; cbn; lia. Qed.

Lemma evolves_earlier now now' w w' : now <= now' -> evolves now' w w' -> evolves now w w'.
Proof.
  intros Hle [Hk Hn Hb]. split; [done | | done]. intros k r Hr Hr0. destruct (Hn k r Hr Hr0). split; [lia | done].
Qed.

Context (run : nat -> system) (Hstart : system_ok (run 0%nat)) (Hbuckets : bucketed (sy_world (run 0%nat)))
  (Hrun : forall n, prompt_step (run n) (run (S n))).

Lemma run_ok n : system_ok (run n) /\ bucketed (sy_world (run n)).
Proof.
  induction n as [| n [Hok Hb]]; [done |]. split.
  - eapply system_ok_step; [by apply prompt_system | done].
  - eapply bucketed_evolves; [| exact Hb]. apply prompt_evolves; [apply Hok | done].
Qed.

Lemma run_evolves n m : (n <= m)%nat ->
  evolves (sy_now (run n)) (sy_world (run n)) (sy_world (run m)) /\ sy_now (run n) <= sy_now (run m).
Proof.
  induction 1 as [| m Hle [Hev Ht]]; [split; [by apply evolves_same | lia] |].
  pose proof (step_time _ _ (prompt_system _ _ (Hrun m))) as Hm. split; [| lia].
  eapply sweep_evolves_trans; [exact Hev |]. apply (evolves_earlier _ (sy_now (run m))); [done |].
  apply prompt_evolves; [apply run_ok | done].
Qed.

(** Wherever the reservation is no longer held, it stays so. *)
Lemma ended_stays id n m r :
  (n <= m)%nat -> db_reservations (sy_world (run n)) !! id = Some r -> rsv_status r <> HELD ->
  exists r', db_reservations (sy_world (run m)) !! id = Some r' /\ rsv_status r' <> HELD.
Proof.
  intros Hle Hr Hs. destruct (ev_kept _ _ _ (proj1 (run_evolves n m Hle)) id r Hr) as (r' & Hr' & Hs').
  exists r'. split; [done |]. by destruct Hs' as [-> | (s & Hns & ->)].
Qed.

Context (id : string) (Hfair : forall n, exists m, (n <= m)%nat /\ sweeps id (run m) (run (S m))).

Lemma overdue_ends n r :
  db_reservations (sy_world (run n)) !! id = Some r -> rsv_status r = HELD -> rsv_expiresAt r <= sy_now (run n) ->
  exists m r', (n <= m)%nat /\ db_reservations (sy_world (run m)) !! id = Some r' /\ rsv_status r' <> HELD.
Proof.
  remember (size (overdue (rsv_expiresAt r) (sy_world (run n)))) as bound eqn:Hbound.
  revert n Hbound. induction bound as [bound IH] using lt_wf_ind. intros n -> Hr Hh Hx.
  destruct (Hfair n) as (m & Hnm & app & uuid & skipped & limit & Hs & Hinj & Hfresh & Hskip & Hlimit).
  destruct (run_evolves n m Hnm) as [Hev Ht].
  destruct (ev_kept _ _ _ Hev id r Hr) as (r1 & Hr1 & [-> | (s & Hns & ->)]); [| by exists m, (with_rsv_status s r)].
  destruct (run_ok m) as [Hok Hb]. pose proof (prompt_evolves _ _ (so_capacity _ Hok) (Hrun m)) as Hstep.
  destruct (ev_kept _ _ _ Hstep id r Hr1) as (r2 & Hr2 & [-> | (s & Hns & ->)]);
    [| exists (S m), (with_rsv_status s r); split; [lia | done]].
  destruct (IH (size (overdue (rsv_expiresAt r) (sy_world (run (S m)))))) with (n := S m) as (k & r' & Hk & Hend);
    [| done | done | done | | exists k, r'; split; [lia | done]].
  - apply Nat.lt_le_trans with (size (overdue (rsv_expiresAt r) (sy_world (run m)))).
    + eapply (sweep_lowers uuid {| app_now := app; db_now := sy_now (run m) |} skipped limit); try done; [apply Hok | cbn; lia |].
      rewrite Hs. cbn [with_world sy_world exec]. by rewrite quietly_world.
    + apply map_subseteq_size. by eapply overdue_shrinks.
  - pose proof (step_time _ _ (prompt_system _ _ (Hrun m))). lia.
Qed.

End Executions.

(* ------------------------------------------------------------------ *)
(** ** An execution                                                     *)

Module SweepExample.

#[local] Instance crypto : Crypto := plain_crypto.
Definition deployed : deployment := SystemExample.deployed.

(** The draws of one call: its letter and a number. *)
Definition draws (call : ascii) (n : nat) : string := String call (pretty n).

#[export] Instance draws_inj call : Inj (=) (=) (draws call).
Proof. intros n m [= Heq]. by apply (inj pretty). Qed.

Definition sweep (call : ascii) : request := RqSweep (draws call) (fun _ => false) None.
Definition serve_at (rq : request) (s : system) : system :=
  with_world (exec deployed (sy_now s) (sy_now s) rq (sy_world s)).2 s.
Definition wait_until (t : Z) (s : system) : system :=
  {| sy_now := t; sy_world := sy_world s; sy_scans := sy_scans s; sy_issued := sy_issued s;
     sy_redeemed := sy_redeemed s |}.

(** The only seat is reserved for ten minutes and never paid; the sweeper comes later,
    and again and again. *)
Definition reserved : system :=
  serve_at (RqReserve (draws "r") (Some (context_for "ama" "corr-0001")) OversellExample.rin) SystemExample.start.
Definition later : system := wait_until 700000 reserved.
Definition swept : system := serve_at (sweep "a") later.

Definition history (n : nat) : system :=
  match n with
  | 0%nat => SystemExample.start
  | 1%nat => reserved
  | 2%nat => later
  | _ => swept
  end.

Definition row : reservation :=
  {| rsv_id := "r0"; rsv_ownerUserId := "ama"; rsv_eventId := "ev"; rsv_ticketTypeId := "vip";
     rsv_quantity := 1; rsv_status := HELD; rsv_expiresAt := 601000 |}.

Example row_later : db_reservations (sy_world later) !! "r0" = Some row.
Proof. vm_run. Qed.

(** With nothing due a sweep changes nothing. *)
Lemma swept_again : swept = serve_at (sweep "b") swept.
Proof.
  assert (Hnone : claimed DEFAULT_SWEEP_LIMIT (fun _ => false) 700000 (sy_world swept) = []) by vm_run.
  assert (Hidle : (exec deployed 700000 700000 (sweep "b") (sy_world swept)).2 = sy_world swept).
  { cbn [exec sweep]. rewrite quietly_world. unfold sweepExpiredReservations, transaction, bind,
      claimExpiredHeldReservations, reads. unfold claimed in Hnone. cbn [default db_now]. by rewrite Hnone. }
  unfold serve_at. change (sy_now swept) with 700000. rewrite Hidle. symmetry. apply with_world_same.
Qed.

(** No id of the journal begins with a given letter. *)
Definition unused (c : ascii) (k : string) : bool :=
  match k with String x _ => negb (bool_decide (x = c)) | EmptyString => true end.

Lemma draws_fresh c (w : world) :
  keyed al_id (audit_logs (journal w)) -> keyed ob_id (outbox (journal w)) ->
  (forall k a, audit_logs (journal w) !! k = Some a -> unused c (al_id a) = true) ->
  (forall k o, outbox (journal w) !! k = Some o -> unused c (ob_id o) = true) ->
  fresh_from (draws c) 0 w.
Proof.
  intros Ha Ho Hau Hou j _. split.
  - destruct (audit_logs (journal w) !! draws c j) as [a |] eqn:E; [| done].
    specialize (Hau _ _ E). rewrite (Ha _ _ E) in Hau. cbn in Hau. by rewrite bool_decide_eq_true_2 in Hau.
  - destruct (outbox (journal w) !! draws c j) as [o |] eqn:E; [| done].
    specialize (Hou _ _ E). rewrite (Ho _ _ E) in Hou. cbn in Hou. by rewrite bool_decide_eq_true_2 in Hou.
Qed.

Lemma history_prompt n : prompt_step deployed (history n) (history (S n)).
Proof.
  destruct n as [| [| [| n]]]; cbn [history].
  - by apply (pr_request deployed SystemExample.start 1000).
  - apply pr_other; [by apply st_time | done].
  - by apply (pr_request deployed later 700000).
  - rewrite swept_again at 2. by apply (pr_request deployed swept 700000).
Qed.

Lemma history_swept n : exists m, (n <= m)%nat /\ sweeps deployed "r0" (history m) (history (S m)).
Proof.
  exists (3 + n)%nat. split; [lia |]. cbn [history Nat.add]. exists 700000, (draws "b"), (fun _ => false), None.
  split; [exact swept_again |]. split; [apply _ |]. split; [| done].
  apply draws_fresh; [by apply keyed_check; vm_run | by apply keyed_check; vm_run | |];
    apply table_check; vm_run.
Qed.

Lemma start_bucketed : bucketed (sy_world SystemExample.start).
Proof.
  intros k r Hr. change (db_reservations (sy_world SystemExample.start)) with (∅ : gmap string reservation) in Hr.
  by rewrite lookup_empty in Hr.
Qed.

End SweepExample.

(* ------------------------------------------------------------------ *)
(** ** Properties                                                       *)

(** C4: No reservation is held for ever.  Take an execution of the system that starts in a good
    state in which every reservation has its bucket, with requests in any order; no order
    is fulfilled after its reservation expired, refresh tokens are drawn new, and a
    request's process clock is less than a second behind the database's.  If the sweeper
    is run again and again, in runs that draw ids new to the journal, have a limit other
    than 0 and do not find the row locked by another transaction, then a reservation that
    is overdue stops being held, after finitely many steps and for good: those sweeps
    succeed, each takes it or one due no later, and no request puts one before it. *)
Theorem overdue_reservation_ends `{Crypto} dp (run : nat -> system) id n r
    (Hstart : system_ok (run 0%nat)) (Hbuckets : bucketed (sy_world (run 0%nat)))
    (Hrun : forall k, prompt_step dp (run k) (run (S k)))
    (Hfair : forall k, exists m, (k <= m)%nat /\ sweeps dp id (run m) (run (S m)))
    (Hr : db_reservations (sy_world (run n)) !! id = Some r) (Hheld : rsv_status r = HELD)
    (Hdue : rsv_expiresAt r <= sy_now (run n)) :
  exists m, (n <= m)%nat /\ forall k, (m <= k)%nat ->
    exists r', db_reservations (sy_world (run k)) !! id = Some r' /\ rsv_status r' <> HELD.
Proof.
  destruct (overdue_ends dp run Hstart Hbuckets Hrun id Hfair n r Hr Hheld Hdue) as (m & r' & Hm & Hr' & Hend).
  exists m. split; [done |]. intros k Hk.
  by apply (ended_stays dp run Hstart Hbuckets Hrun id m k r').
Qed.

Lemma overdue_reservation_ends_witness :
  exists m, (2 <= m)%nat /\ forall k, (m <= k)%nat ->
    exists r', db_reservations (sy_world (SweepExample.history k)) !! "r0" = Some r' /\ rsv_status r' <> HELD.
Proof.
  refine (overdue_reservation_ends (H := plain_crypto) SweepExample.deployed SweepExample.history "r0" 2
    SweepExample.row SystemExample.start_good SweepExample.start_bucketed SweepExample.history_prompt
    SweepExample.history_swept SweepExample.row_later _ _); [reflexivity | by apply Z.leb_le].
Defined.
