(* ===== verification/Controllers.v ===== *)
(** Controllers.v: the HTTP surface (the controllers, src/src/app.module.ts and the
    guards of src/src/auth/guards): the routes with their guards and permissions, the
    way a request goes through middleware, guards and pipes to its handler, and the
    methods the handlers call as the user they serve.

    passport-jwt is a parameter, and so are the verdicts of the pipes; the health and
    metrics routes, which have no state, are left out. *)

From S2P Require Import Prelude Errors Values Hashing Store Context LaunchControl Providers Orders Payments Tickets PaymentIntents Webhooks Issuance Admissions Sessions Auth Organizers Events TableHolds Tables AdminSupport System.

Local Open Scope Z_scope.

(* ------------------------------------------------------------------ *)
(** ** Routes                                                           *)

(** The routes of each controller, with the parameters and the body of the request
    as the pipes hand them on. *)

(** [AuthController] *)
Inductive AuthRoute : Type :=
| PostSignup (email password deviceId : string)
| PostLogin (email password deviceId : string)
| PostRefresh (refreshToken deviceId : string)
| PostLogout (reason : option string)
| PostRevokeSession (sessionId : string) (reason : option string)
| GetMe
| GetCustomerOnly | GetOrganizerOnly | GetGateOnly | GetAdminOnly.

(** [OrganizersController] *)
Inductive OrganizerRoute : Type :=
| PostOrganizer (dto : CreateOrganizerRequest)
| GetMyOrganizers
| GetMyOrganizer (organizerId : string)
| PatchOrganizer (organizerId : string) (dto : UpdateOrganizerRequest)
| PostOrganizerSubmit (organizerId : string).

(** [EventsController] *)
Inductive EventRoute : Type :=
| PostEvent (organizerId : string) (dto : CreateEventRequest)
| GetOrganizerEvents (organizerId : string)
| GetOwnedEvent (eventId : string)
| PatchEvent (eventId : string) (dto : UpdateEventRequest)
| PostEventPublish (eventId : string)
| PostEventCancel (eventId : string).

(** [TablesController] *)
Inductive TableRoute : Type :=
| PostFloorSection (dto : CreateFloorSectionRequest)
| GetFloorSections (organizerId : string)
| PostVenueTable (dto : CreateVenueTableRequest)
| GetVenueTables (organizerId : string)
| GetVenueTable (venueTableId : string)
| PostEventTable (dto : CreateEventTableRequest)
| GetEventTables (eventId : string)
| PatchEventTableStatus (eventTableId : string) (status : EventTableStatus)
| GetAvailability (eventId : string)
| PostHold (eventId eventTableId idempotencyKey : string)
| GetReservation (reservationId : string).

(** [PaymentsController]; the key is the header idempotency-key. *)
Inductive PaymentRoute : Type :=
| PostInitiate (provider : PaymentProvider) (eventId : string) (customerPhone : option string)
    (idempotencyKey : header)
| GetPaymentIntent (paymentIntentId : string).

(** [TicketsController] *)
Inductive TicketRoute : Type :=
| GetMyTickets
| GetMyTicket (ticketId : string).

(** The controllers of [AppModule] that reach the database. *)
Inductive Route : Type :=
| AuthController (r : AuthRoute)
| OrganizersController (r : OrganizerRoute)
| EventsController (r : EventRoute)
| TablesController (r : TableRoute)
| CheckoutController (reservationId totalAmountMinor currency : string) (idempotencyKey : header)
| PaymentsController (r : PaymentRoute)
| PaymentWebhooksController (provider : SupportedPaymentProvider) (rawBody : option string)
    (parsedBody : jsval) (headers : list (string * header))
| TicketsController (r : TicketRoute)
| AdmissionsController (ticketId token : string) (eventId deviceId gateLabel : option string)
| AdminSupportController (r : SupportRequest).

(* ------------------------------------------------------------------ *)
(** ** Decorators                                                       *)

(** [@Permissions] *)
Definition auth_permissions (r : AuthRoute) : option (list AppPermission) :=
  match r with
  | PostSignup _ _ _ | PostLogin _ _ _ | PostRefresh _ _ => None
  | PostLogout _ | PostRevokeSession _ _ => Some [SESSION_REVOKE_OWN]
  | GetMe => Some [AUTHENTICATED]
  | GetCustomerOnly => Some [CUSTOMER_ACCESS]
  | GetOrganizerOnly => Some [ORGANIZER_ACCESS]
  | GetGateOnly => Some [GATE_STAFF_ACCESS]
  | GetAdminOnly => Some [ADMIN_ACCESS]
  end.

Definition organizer_permissions (r : OrganizerRoute) : option (list AppPermission) :=
  match r with
  | PostOrganizer _ => Some [ORGANIZER_CREATE]
  | GetMyOrganizers | GetMyOrganizer _ => Some [ORGANIZER_READ_OWN]
  | PatchOrganizer _ _ => Some [ORGANIZER_UPDATE_OWN]
  | PostOrganizerSubmit _ => Some [ORGANIZER_SUBMIT_OWN]
  end.

Definition event_permissions (r : EventRoute) : option (list AppPermission) :=
  match r with
  | PostEvent _ _ => Some [EVENT_CREATE_OWN]
  | GetOrganizerEvents _ | GetOwnedEvent _ => Some [EVENT_READ_OWN]
  | PatchEvent _ _ => Some [EVENT_UPDATE_OWN]
  | PostEventPublish _ => Some [EVENT_PUBLISH_OWN]
  | PostEventCancel _ => Some [EVENT_CANCEL_OWN]
  end.

Definition table_permissions (r : TableRoute) : option (list AppPermission) :=
  match r with
  | PostFloorSection _ | PostVenueTable _ | PostEventTable _ | PatchEventTableStatus _ _ =>
      Some [TABLE_MANAGE_ORGANIZER]
  | GetFloorSections _ | GetVenueTables _ | GetVenueTable _ | GetEventTables _ =>
      Some [TABLE_READ_ORGANIZER]
  | GetAvailability _ => Some [TABLE_READ_PUBLIC]
  | PostHold _ _ _ => Some [TABLE_HOLD_OWN]
  | GetReservation _ => Some [TABLE_READ_OWN_RESERVATION]
  end.

Definition payment_permissions (r : PaymentRoute) : option (list AppPermission) :=
  match r with
  | PostInitiate _ _ _ _ => Some [PAYMENT_INITIATE_OWN]
  | GetPaymentIntent _ => Some [PAYMENT_READ_OWN]
  end.

Definition ticket_permissions (r : TicketRoute) : option (list AppPermission) :=
  match r with
  | GetMyTickets | GetMyTicket _ => Some [TICKET_READ_OWN]
  end.

Definition permissions_of (r : Route) : option (list AppPermission) :=
  match r with
  | AuthController r => auth_permissions r
  | OrganizersController r => organizer_permissions r
  | EventsController r => event_permissions r
  | TablesController r => table_permissions r
  | CheckoutController _ _ _ _ | PaymentWebhooksController _ _ _ _ => None
  | PaymentsController r => payment_permissions r
  | TicketsController r => ticket_permissions r
  | AdmissionsController _ _ _ _ _ => Some [ADMISSION_SCAN_EVENT]
  | AdminSupportController r => Some [support_permission r]
  end.

(** [@Roles] *)
Definition roles_of (r : Route) : option (list UserRole) :=
  match r with
  | AuthController GetCustomerOnly => Some [CUSTOMER]
  | AuthController GetOrganizerOnly => Some [ORGANIZER]
  | AuthController GetGateOnly => Some [GATE_STAFF]
  | AuthController GetAdminOnly => Some [ADMIN]
  | _ => None
  end.

(** [@Public] *)
Definition is_public (r : Route) : bool :=
  match r with
  | AuthController (PostSignup _ _ _ | PostLogin _ _ _ | PostRefresh _ _) => true
  | PaymentWebhooksController _ _ _ _ => true
  | _ => false
  end.

(** [@UseGuards] *)
Inductive Guard : Type := JwtAuthGuard | RolesGuard | PermissionsGuard.

Definition guards_of (r : Route) : list Guard :=
  match r with
  | AuthController _ => [JwtAuthGuard; RolesGuard; PermissionsGuard]
  | CheckoutController _ _ _ _ | PaymentWebhooksController _ _ _ _ => [JwtAuthGuard]
  | OrganizersController _ | EventsController _ | TablesController _ | PaymentsController _
  | TicketsController _ | AdmissionsController _ _ _ _ _ | AdminSupportController _ =>
      [JwtAuthGuard; PermissionsGuard]
  end.

(* ------------------------------------------------------------------ *)
(** ** Requests                                                         *)

(** What a request draws: the ids of the rows it creates, the random bytes, the
    network, and the fault of the database it may meet. *)
Record RequestDraws : Type := {
  rd_id : string;
  rd_venueId : string;
  rd_requestId : nat -> string;
  rd_uuid : nat -> string;
  rd_auth : AuthDraws;
  rd_fetch : http_request -> fetch_result;
  rd_fault : option error
}.

(** A request: its route, its headers, its bearer token, and what its pipes throw. *)
Record HttpRequest : Type := {
  hr_route : Route;
  hr_correlationId : header;
  hr_deviceId : header;
  hr_organizerId : header;
  hr_remoteAddress : option string;
  hr_auth : AuthRequest;
  hr_bearer : option string;
  hr_pipes : option error;
  hr_draws : RequestDraws
}.

(** What the middleware sees of it: nobody has put a user on it yet. *)
Definition request_like (rq : HttpRequest) : RequestLike :=
  {| h_correlationId := hr_correlationId rq; h_userAgent := ar_userAgent (hr_auth rq);
     h_deviceId := hr_deviceId rq; h_organizerId := hr_organizerId rq; rq_ip := ar_ip (hr_auth rq);
     rq_remoteAddress := hr_remoteAddress rq; rq_user_id := None; rq_user_userId := None;
     rq_user_deviceId := None; rq_user_organizerId := None |}.

(** The answers of the handlers. *)
Inductive Answer : Type :=
| AnAuth (a : AuthResponse)
| AnSuccess
| AnRevoked (sessionId : string)
| AnMe (u : AuthUser) (sessionId : string)
| AnArea (area : string)
| AnOrganizer (o : organizer)
| AnOrganizers (l : list organizer)
| AnEvent (e : event)
| AnEvents (l : list event)
| AnOwnedEvent (e : event * organizer)
| AnFloorSection (f : floor_section)
| AnFloorSections (l : list floor_section)
| AnVenueTable (t : TableResponse)
| AnVenueTables (l : list TableResponse)
| AnEventTable (t : EventTableResponse)
| AnEventTables (l : list EventTableResponse)
| AnAvailability (l : list TableAvailability)
| AnReservation (r : TableReservationResponse)
| AnJson (j : json)
| AnIntent (p : PaymentIntentView)
| AnWebhook (r : PaymentWebhookResult)
| AnTicket (t : TicketResponse)
| AnTickets (l : list TicketResponse)
| AnScan (r : AdmissionScanResponse).

(* ------------------------------------------------------------------ *)
(** ** Guards                                                           *)

(** passport-jwt: the payload of a bearer token whose signature and expiry are good
    under the secret at an instant. *)
Class JwtVerifier : Type := jwt_verify : string -> string -> Z -> option JwtPayload.

(** A token signed at [at_] for [ttl] seconds. *)
Definition token_fresh (ttl at_ now : Z) : bool := now / 1000 <? at_ / 1000 + ttl.

(** What the two libraries document: a token is read back under its secret, by the second,
    until it expires. *)
Class JwtLaws `{AuthLibraries} `{JwtVerifier} : Prop :=
  jwt_reads : forall p secret ttl at_ now, at_ <= now ->
    jwt_verify (jwt_sign p secret ttl at_) secret now = if token_fresh ttl at_ now then Some p else None.

(** What the guards leave on the request: the user, and the request context. *)
Definition guarded : Type := option AuthUser * option RequestContextValue.

(** A guard that returns or throws. *)
Definition let_in (verdict : outcome error bool) (st : guarded) : op guarded :=
  match verdict with Ok _ => ret st | Err e => throw e end.

(** [handleRequest], whose user goes on the request. *)
Definition let_user_in (err : option error) (u : option AuthUser) (st : guarded) : op guarded :=
  match handleRequest err u st.2 with
  | Ok (u, ctx) => ret (Some u, ctx)
  | Err e => throw e
  end.

Section Http.
Context `{Crypto} `{AuthLibraries} `{JwtVerifier} (dp : deployment) (JWT_ACCESS_SECRET : string).

Definition payload_of (rq : HttpRequest) (now : Z) : option JwtPayload :=
  hr_bearer rq ≫= fun token => jwt_verify token JWT_ACCESS_SECRET now.

(** [JwtAuthGuard.canActivate]: passport runs the strategy of access tokens, and
    hands its error or its user to [handleRequest]. *)
Definition jwt_canActivate (now : Z) (rq : HttpRequest) (st : guarded) : op guarded :=
  if is_public (hr_route rq) then ret st
  else
    match payload_of rq now with
    | None => let_user_in None None st
    | Some payload => fun w =>
        match validate now payload w with
        | (Ok u, w') => let_user_in None (Some u) st w'
        | (Err e, w') => let_user_in (Some e) None st w'
        end
    end.

Definition run_guard (now : Z) (rq : HttpRequest) (g : Guard) (st : guarded) : op guarded :=
  match g with
  | JwtAuthGuard => jwt_canActivate now rq st
  | RolesGuard => let_in (roles_canActivate (roles_of (hr_route rq)) (au_role <$> st.1)) st
  | PermissionsGuard =>
      let_in (permissions_canActivate (permissions_of (hr_route rq)) (au_role <$> st.1)) st
  end.

Fixpoint run_guards (now : Z) (rq : HttpRequest) (gs : list Guard) (st : guarded) : op guarded :=
  match gs with
  | [] => ret st
  | g :: gs' => let* st' := run_guard now rq g st in run_guards now rq gs' st'
  end.

(* ------------------------------------------------------------------ *)
(** ** Handlers                                                         *)

(** [@CurrentUser], where the handler reads a field of it. *)
Definition current_user (u : option AuthUser) : op AuthUser :=
  or_throw u (TypeError "Cannot read properties of undefined (reading 'id')").

Definition answer {A} (f : A -> Answer) (m : op A) : op Answer := let* a := m in ret (f a).

Definition auth_handle (now : Z) (d : AuthDraws) (req : AuthRequest) (u : option AuthUser) (r : AuthRoute)
  : op Answer :=
  match r with
  | PostSignup email password deviceId =>
      answer AnAuth (signup JWT_ACCESS_SECRET d now email password deviceId req)
  | PostLogin email password deviceId =>
      answer AnAuth (login JWT_ACCESS_SECRET d now email password deviceId req)
  | PostRefresh refreshToken deviceId =>
      answer AnAuth (refresh JWT_ACCESS_SECRET d now refreshToken deviceId req)
  | PostLogout reason =>
      let* u := current_user u in
      answer (fun _ => AnSuccess) (logout now (au_id u) (au_email u) (au_sessionId u) reason req)
  | PostRevokeSession sessionId reason =>
      let* u := current_user u in
      answer AnRevoked (auth_revokeSession now (au_id u) (au_email u) (au_role u) sessionId reason req)
  | GetMe =>
      let* u := current_user u in
      answer (AnMe u) (me now (au_id u) (au_email u) (au_sessionId u))
  | GetCustomerOnly => ret (AnArea "customer")
  | GetOrganizerOnly => ret (AnArea "organizer")
  | GetGateOnly => ret (AnArea "gate")
  | GetAdminOnly => ret (AnArea "admin")
  end.

Definition organizer_handle (d : RequestDraws) (u : option AuthUser) (r : OrganizerRoute) : op Answer :=
  let* u := current_user u in
  match r with
  | PostOrganizer dto => answer AnOrganizer (org_create (rd_id d) (au_id u) dto)
  | GetMyOrganizers => answer AnOrganizers (org_listMine (au_id u))
  | GetMyOrganizer organizerId => answer AnOrganizer (org_getOwned organizerId (au_id u))
  | PatchOrganizer organizerId dto => answer AnOrganizer (org_updateOwned organizerId (au_id u) dto)
  | PostOrganizerSubmit organizerId => answer AnOrganizer (submitForReview organizerId (au_id u))
  end.

Definition event_handle (now : Z) (d : RequestDraws) (u : option AuthUser) (r : EventRoute) : op Answer :=
  let* u := current_user u in
  match r with
  | PostEvent organizerId dto =>
      answer AnEvent (createForOrganizer (rd_id d) (rd_venueId d) organizerId (au_id u) dto)
  | GetOrganizerEvents organizerId => answer AnEvents (listForOwnedOrganizer organizerId (au_id u))
  | GetOwnedEvent eventId => answer AnOwnedEvent (event_getOwned eventId (au_id u))
  | PatchEvent eventId dto => answer AnEvent (event_updateOwned eventId (au_id u) dto)
  | PostEventPublish eventId => answer AnEvent (publishOwned eventId (au_id u) now)
  | PostEventCancel eventId => answer AnEvent (cancelOwned eventId (au_id u) now)
  end.

Definition table_handle (now : Z) (d : RequestDraws) (u : option AuthUser) (r : TableRoute) : op Answer :=
  match r with
  | GetAvailability eventId => answer AnAvailability (getAvailability eventId now)
  | _ =>
      let* u := current_user u in
      match r with
      | PostFloorSection dto => answer AnFloorSection (createFloorSection (rd_id d) (au_id u) dto)
      | GetFloorSections organizerId => answer AnFloorSections (listFloorSections organizerId (au_id u))
      | PostVenueTable dto => answer AnVenueTable (createVenueTable (rd_id d) (au_id u) dto)
      | GetVenueTables organizerId => answer AnVenueTables (listVenueTables organizerId (au_id u))
      | GetVenueTable venueTableId => answer AnVenueTable (getVenueTable venueTableId (au_id u))
      | PostEventTable dto => answer AnEventTable (createEventTable (rd_id d) (au_id u) dto)
      | GetEventTables eventId => answer AnEventTables (listEventTablesForOwnedEvent eventId (au_id u))
      | PatchEventTableStatus eventTableId status =>
          answer AnEventTable (updateEventTableStatus eventTableId status (au_id u) now)
      | GetAvailability eventId => answer AnAvailability (getAvailability eventId now)
      | PostHold eventId eventTableId idempotencyKey =>
          answer AnReservation (createHold (dp_hold dp) (rd_id d)
            {| chi_actorUserId := au_id u; chi_eventId := eventId; chi_eventTableId := eventTableId;
               chi_idempotencyKey := idempotencyKey |} now)
      | GetReservation reservationId =>
          answer AnReservation (getOwnedReservation reservationId (au_id u) now)
      end
  end.

Definition payment_handle (ck : clock) (d : RequestDraws) (ctx : option RequestContextValue)
    (u : option AuthUser) (r : PaymentRoute) : op Answer :=
  match r with
  | PostInitiate provider eventId customerPhone idempotencyKey =>
      let* key := requireIdempotencyKey idempotencyKey in
      answer AnIntent (initiatePayment (rd_fetch d) (dp_config dp) (dp_launch dp) (rd_id d) (fun w => w)
        (rd_fault d) ck ctx
        {| ipi_idempotencyKey := key; ipi_eventId := eventId; ipi_provider := provider;
           ipi_customerPhone := customerPhone |})
  | GetPaymentIntent paymentIntentId =>
      let* u := current_user u in answer AnIntent (getPaymentIntentForBuyer paymentIntentId (au_id u))
  end.

Definition ticket_handle (u : option AuthUser) (r : TicketRoute) : op Answer :=
  let* u := current_user u in
  match r with
  | GetMyTickets => answer AnTickets (listMine (au_id u))
  | GetMyTicket ticketId => answer AnTicket (getOwned ticketId (au_id u))
  end.

Definition admission_handle (ck : clock) (u : option AuthUser) (ticketId token : string)
    (eventId deviceId gateLabel : option string) : op Answer :=
  let* u := current_user u in
  answer AnScan (scanTicket ck
    {| sti_ticketId := ticketId; sti_token := token; sti_scannedByUserId := au_id u;
       sti_eventId := eventId; sti_deviceId := deviceId; sti_gateLabel := gateLabel |}).

Definition support_handle (d : RequestDraws) (u : option AuthUser) (r : SupportRequest) : op Answer :=
  let* u := current_user u in
  answer AnJson (serve (dp_env dp) (dp_contains dp) (dp_createdAt dp) (dp_updatedAt dp) (dp_scanId dp)
    (rd_id d) (au_id u) r).

(** The handler of a route. *)
Definition handle (now : Z) (rq : HttpRequest) (st : guarded) : op Answer :=
  let ck := {| app_now := now; db_now := now |} in
  let d := hr_draws rq in
  match hr_route rq with
  | AuthController r => auth_handle now (rd_auth d) (hr_auth rq) st.1 r
  | OrganizersController r => organizer_handle d st.1 r
  | EventsController r => event_handle now d st.1 r
  | TablesController r => table_handle now d st.1 r
  | CheckoutController reservationId totalAmountMinor currency idempotencyKey =>
      answer AnJson (checkout_createOrder (dp_launch dp) (rd_uuid d) ck st.2 reservationId
        totalAmountMinor currency idempotencyKey)
  | PaymentsController r => payment_handle ck d st.2 st.1 r
  | PaymentWebhooksController provider rawBody parsedBody headers =>
      answer AnWebhook (payment_webhook (rd_fetch d) (dp_config dp) (rd_id d) (fun w => w) ck provider
        rawBody parsedBody headers)
  | TicketsController r => ticket_handle st.1 r
  | AdmissionsController ticketId token eventId deviceId gateLabel =>
      admission_handle ck st.1 ticketId token eventId deviceId gateLabel
  | AdminSupportController r => support_handle d st.1 r
  end.

(** A request: the middleware, the guards, the pipes, the handler. *)
Definition http (now : Z) (rq : HttpRequest) : op Answer :=
  let ctx := middleware_use (rd_requestId (hr_draws rq)) (request_like rq) in
  let* st := run_guards now rq (guards_of (hr_route rq)) (None, Some ctx) in
  do* (match hr_pipes rq with Some e => throw e | None => ret tt end) in
  handle now rq st.

(** The status of the answer: 201 of a POST, but where [@HttpCode] says 200, and 200 of
    the others; the exception filter's when it throws. *)
Definition success_status (r : Route) : Z :=
  match r with
  | AuthController (PostSignup _ _ _ | PostLogin _ _ _ | PostRefresh _ _ | PostLogout _
                    | PostRevokeSession _ _) => 201
  | OrganizersController (PostOrganizer _ | PostOrganizerSubmit _) => 201
  | EventsController (PostEvent _ _ | PostEventPublish _ | PostEventCancel _) => 201
  | TablesController (PostFloorSection _ | PostVenueTable _ | PostEventTable _ | PostHold _ _ _) => 201
  | CheckoutController _ _ _ _ | PaymentsController (PostInitiate _ _ _ _) => 201
  | _ => 200
  end.

Definition http_status (rq : HttpRequest) (result : outcome error Answer) : Z :=
  match result with Ok _ => success_status (hr_route rq) | Err e => exception_status e end.

End Http.

(* ------------------------------------------------------------------ *)
(** ** What the guards let in                                           *)

(** The role has what the decorators of the route ask for. *)
Definition granted (r : Route) (role : UserRole) : bool :=
  match permissions_canActivate (permissions_of r) (Some role), roles_canActivate (roles_of r) (Some role) with
  | Ok _, Ok _ => true
  | _, _ => false
  end.

(** The context of a request once its user is known. *)
Definition context_of (u : AuthUser) (c : RequestContextValue) : RequestContextValue :=
  {| correlationId := correlationId c; requestId := requestId c; ctx_userId := Some (au_id u);
     ctx_deviceId := ctx_deviceId c;
     ctx_organizerId := if bool_decide (au_role u = ORGANIZER) then Some (au_id u) else None;
     ctx_ipAddress := ctx_ipAddress c; ctx_userAgent := ctx_userAgent c |}.

(** What a role may write: every role its session and its checkouts, no role the stock,
    only organizers the tickets they scan. *)
Definition role_parts (role : UserRole) : list part :=
  match role with
  | GATE_STAFF => [Identity; Checkout; Journal]
  | CUSTOMER | ADMIN => [Identity; Checkout; Journal; Catalog; Intents; Seating]
  | ORGANIZER => [Identity; Checkout; Journal; Catalog; Intents; Seating; Ticketing]
  end.

(** What the handler of a route may write. *)
Definition route_parts (r : Route) : list part :=
  match r with
  | AuthController (PostSignup _ _ _) => [Catalog; Identity]
  | AuthController _ => [Identity]
  | OrganizersController _ | EventsController _ => [Catalog]
  | TablesController _ => [Seating]
  | CheckoutController _ _ _ _ => [Checkout; Journal]
  | PaymentsController _ | PaymentWebhooksController _ _ _ _ => [Intents]
  | TicketsController _ => []
  | AdmissionsController _ _ _ _ _ => [Ticketing]
  | AdminSupportController _ => [Journal]
  end.

Lemma granted_parts r role : granted r role = true -> is_public r = false -> route_parts r ⊆ role_parts role.
Proof.
  intros Hg Hp. assert (Hb : forallb (fun p => bool_decide (p ∈ role_parts role)) (route_parts r) = true).
  { destruct r as [r | r | r | r | | r | | r | | r]; try destruct r; destruct role;
      vm_compute in Hg, Hp |- *; congruence. }
  intros p Hin. rewrite forallb_forall in Hb. apply (bool_decide_eq_true_1 _ (Hb p (proj1 (list_elem_of_In _ _) Hin))).
Qed.

Lemma touches_weaken ps ps' {A} (m : op A) : ps ⊆ ps' -> touches ps m -> touches ps' m.
Proof.
  intros Hsub Hm w p Hp. apply Hm, bool_decide_eq_false. apply bool_decide_eq_false in Hp. auto.
Qed.

Section Requests.
Context `{Crypto} `{AuthLibraries} `{JwtVerifier} (dp : deployment) (secret : string).

Lemma foot_validate now payload : touches [Identity] (validate now payload).
Proof. foot. Qed.

Lemma foot_handle now rq st : touches (route_parts (hr_route rq)) (handle dp secret now rq st).
Proof.
  unfold handle. cbv zeta. destruct (hr_route rq) as [r | r | r | r | | r | | r | | r]; try destruct r;
    cbn [route_parts]; foot.
Qed.

Lemma let_user_in_ok u st : let_user_in None (Some u) st = ret (Some u, context_of u <$> st.2).
Proof. reflexivity. Qed.

Lemma let_user_in_err e st : exists msg, let_user_in (Some e) None st = throw (UnauthorizedException msg).
Proof.
  unfold let_user_in. destruct e as [| | | | | | | | | | | | | | | | status msg | |]; cbn; eauto.
  destruct status as [| p |]; eauto. do 9 (destruct p as [p | p |]; eauto).
Qed.

(** Without a good token, or with one that [validate] refuses. *)
Definition rejected_token (now : Z) (rq : HttpRequest) (w w' : world) : Prop :=
  match payload_of secret rq now with
  | None => w' = w
  | Some payload => exists e, validate now payload w = (Err e, w')
  end.

(** The verdict on the token: nobody on a public route; elsewhere the user of a live
    session, or a 401 that at most marks the session expired. *)
Lemma jwt_canActivate_wp now rq ctx w :
  wp (jwt_canActivate secret now rq (None, Some ctx))
    (fun st w' => w' = w /\
       if is_public (hr_route rq) then st = (None, Some ctx)
       else exists payload u, payload_of secret rq now = Some payload /\
              validate now payload w = (Ok u, w) /\ au_role u = jwt_role payload /\
              st = (Some u, Some (context_of u ctx)))
    (fun e w' => exception_status e = 401 /\ is_public (hr_route rq) = false /\
       (forall p, p <> Identity -> same_part p w w') /\
       rejected_token now rq w w') w.
Proof.
  unfold jwt_canActivate, rejected_token. destruct (is_public (hr_route rq)) eqn:Hp; [done |].
  destruct (payload_of secret rq now) as [payload |] eqn:Hpay;
    [| unfold wp; cbn; split_and!; try done; intros p _; apply same_part_refl].
  assert (Hval : wp (validate now payload) (fun u w' => w' = w /\ au_role u = jwt_role payload) any w).
  { unfold validate. wp_until assertSessionUsable; try done.
    eapply wp_mono; [apply assertSessionUsable_wp | cbn beta | done]. intros v w' (-> & s & u & -> & _).
    by wp_go. }
  pose proof (foot_validate now payload w) as Hfoot. unfold wp in Hval |- *.
  destruct (validate now payload w) as [[u | e] w'] eqn:Hv.
  - destruct Hval as [-> Hrole]. rewrite let_user_in_ok. cbn. split; [done |]. by exists payload, u.
  - destruct (let_user_in_err e (None, Some ctx)) as [msg ->]. cbn. split_and!; [done | done | | by eexists].
    intros p Hpi. apply Hfoot, bool_decide_eq_false. by intros Hin%list_elem_of_singleton.
Qed.

(** A request the guards let in: the user they leave on it, and its context. *)
Definition admitted (now : Z) (rq : HttpRequest) (ctx : RequestContextValue) (w : world) (st : guarded)
  : Prop :=
  if is_public (hr_route rq) then st = (None, Some ctx)
  else exists payload u, payload_of secret rq now = Some payload /\ validate now payload w = (Ok u, w) /\
         au_role u = jwt_role payload /\ granted (hr_route rq) (jwt_role payload) = true /\
         st = (Some u, Some (context_of u ctx)).

(** A request they turn away: a 401, or a 403 for a user whose role lacks what the
    route asks for. *)
Definition turned_away (now : Z) (rq : HttpRequest) (w : world) (e : error) (w' : world) : Prop :=
  is_public (hr_route rq) = false /\
  ((exception_status e = 401 /\ (forall p, p <> Identity -> same_part p w w') /\
    rejected_token now rq w w') \/
   (exception_status e = 403 /\ w' = w /\
    exists payload u, payload_of secret rq now = Some payload /\ validate now payload w = (Ok u, w) /\
      granted (hr_route rq) (jwt_role payload) = false)).

Lemma let_in_cases (v : outcome error bool) (st : guarded) :
  let_in v st = match v with Ok _ => ret st | Err e => throw e end.
Proof. done. Qed.

Lemma roles_403 l r e : roles_canActivate l r = Err e -> exception_status e = 403.
Proof. unfold roles_canActivate. repeat case_match; intros Heq; by simplify_eq. Qed.

Lemma permissions_403 l r e : permissions_canActivate l r = Err e -> exception_status e = 403.
Proof. unfold permissions_canActivate. repeat case_match; intros Heq; by simplify_eq. Qed.

(** The guards that follow the first do what [granted] says. *)
Lemma later_guards_wp now rq gs ctx payload u w :
  guards_of (hr_route rq) = JwtAuthGuard :: gs ->
  payload_of secret rq now = Some payload -> validate now payload w = (Ok u, w) ->
  au_role u = jwt_role payload -> is_public (hr_route rq) = false ->
  let st := (Some u, Some (context_of u ctx)) in
  wp (run_guards secret now rq gs st) (fun st' w' => w' = w /\ st' = st /\
        granted (hr_route rq) (jwt_role payload) = true)
    (fun e w' => turned_away now rq w e w') w.
Proof.
  intros Hgs Hpay Hval Hrole Hpub st.
  assert (Haway : forall e, exception_status e = 403 -> granted (hr_route rq) (jwt_role payload) = false ->
    turned_away now rq w e w).
  { intros e He Hg. split; [done |]. right. split_and!; [done | done |]. by exists payload, u. }
  assert (Hshape : (gs = [] /\ permissions_of (hr_route rq) = None /\ roles_of (hr_route rq) = None) \/
                   (gs = [PermissionsGuard] /\ roles_of (hr_route rq) = None) \/
                   gs = [RolesGuard; PermissionsGuard]).
  { destruct (hr_route rq) as [r | r | r | r | | r | | r | | r]; injection Hgs as <-; auto. }
  subst st. clear Hgs. unfold granted in *.
  destruct (permissions_canActivate (permissions_of (hr_route rq)) (Some (jwt_role payload))) as [bp | ep] eqn:EP;
    destruct (roles_canActivate (roles_of (hr_route rq)) (Some (jwt_role payload))) as [br | er] eqn:ER;
    destruct Hshape as [(-> & E1 & E2) | [(-> & E2) | ->]]; try (rewrite E2 in ER; discriminate ER);
    try (rewrite E1 in EP; discriminate EP);
    unfold wp; cbn [run_guards run_guard]; unfold bind, let_in; cbn [fst fmap option_fmap option_map];
    rewrite ?Hrole, ?ER; cbn; rewrite ?Hrole, ?EP; cbn; try done;
    (apply Haway; [first [by apply (roles_403 _ _ _ ER) | by apply (permissions_403 _ _ _ EP)] | done]).
Qed.

Lemma public_guards now rq gs ctx w :
  guards_of (hr_route rq) = JwtAuthGuard :: gs -> is_public (hr_route rq) = true ->
  run_guards secret now rq gs (None, Some ctx) w = (Ok (None, Some ctx), w).
Proof.
  intros Hgs Hpub. destruct (hr_route rq) as [r | r | r | r | | r | | r | | r] eqn:Hr; try discriminate Hpub;
    [destruct r; try discriminate Hpub |]; injection Hgs as <-;
    cbn [run_guards run_guard fst]; unfold bind, let_in; rewrite ?Hr; reflexivity.
Qed.

(** The verdict of the guards. *)
Lemma run_guards_wp now rq ctx w :
  wp (run_guards secret now rq (guards_of (hr_route rq)) (None, Some ctx))
    (fun st w' => w' = w /\ admitted now rq ctx w st) (fun e w' => turned_away now rq w e w') w.
Proof.
  assert (Hgs : exists gs, guards_of (hr_route rq) = JwtAuthGuard :: gs) by (destruct (hr_route rq); by eexists).
  destruct Hgs as [gs Hgs]. rewrite Hgs. cbn [run_guards run_guard]. apply wp_bind.
  eapply wp_mono; [apply jwt_canActivate_wp | cbn beta | cbn beta].
  - intros st w' [-> Hst]. unfold admitted. destruct (is_public (hr_route rq)) eqn:Hpub.
    + subst st. unfold wp. rewrite (public_guards now rq gs ctx w Hgs Hpub). done.
    + destruct Hst as (payload & u & Hpay & Hval & Hrole & ->).
      eapply wp_mono; [by eapply later_guards_wp | cbn beta | done]. intros st w' (-> & -> & Hg).
      split; [done |]. by exists payload, u.
  - intros e w' (He & Hpub & Hsame & Hnone). split; [done |]. left. done.
Qed.

(** The outcome of a request: turned away, stopped by a pipe, or what its handler does
    for the user the guards found. *)
Definition context (rq : HttpRequest) : RequestContextValue :=
  middleware_use (rd_requestId (hr_draws rq)) (request_like rq).

Lemma http_cases now rq w :
  (exists e w', http dp secret now rq w = (Err e, w') /\ turned_away now rq w e w') \/
  (exists st, admitted now rq (context rq) w st /\
     http dp secret now rq w =
       match hr_pipes rq with Some e => (Err e, w) | None => handle dp secret now rq st w end).
Proof.
  pose proof (run_guards_wp now rq (context rq) w) as Hg. unfold wp in Hg. unfold http, bind.
  change (middleware_use _ _) with (context rq).
  destruct (run_guards _ _ _ _ _ w) as [[st | e] w']; [| left; by exists e, w'].
  destruct Hg as [-> Hadm]. right. exists st. split; [done |]. by destruct (hr_pipes rq).
Qed.

(** What a request may write. *)
Definition may_write (now : Z) (rq : HttpRequest) : list part :=
  if is_public (hr_route rq) then route_parts (hr_route rq)
  else match payload_of secret rq now with
       | None => []
       | Some payload => role_parts (jwt_role payload)
       end.

(** A request writes its route's part, and the session of its user. *)
Lemma http_route_parts now rq w p :
  p ∉ Identity :: route_parts (hr_route rq) -> same_part p w (http dp secret now rq w).2.
Proof.
  intros Hp. apply not_elem_of_cons in Hp as [Hid Hp].
  destruct (http_cases now rq w) as [(e & w' & -> & _ & Haway) | (st & _ & ->)]; cbn [snd].
  - destruct Haway as [(_ & Hsame & _) | (_ & -> & _)]; [by apply Hsame | apply same_part_refl].
  - destruct (hr_pipes rq); [apply same_part_refl |]. by apply foot_handle, bool_decide_eq_false.
Qed.

Lemma http_may_write now rq w p : p ∉ may_write now rq -> same_part p w (http dp secret now rq w).2.
Proof.
  unfold may_write. intros Hp.
  destruct (http_cases now rq w) as [(e & w' & -> & Hpub & Haway) | (st & Hadm & ->)]; cbn [snd].
  - rewrite Hpub in Hp. destruct (payload_of secret rq now) as [payload |] eqn:Hpay.
    + destruct Haway as [(_ & Hsame & _) | (_ & -> & _)]; [| apply same_part_refl].
      apply Hsame. intros ->. apply Hp. by destruct (jwt_role payload); left.
    + destruct Haway as [(_ & _ & Hnone) | (_ & -> & _)]; [| apply same_part_refl].
      unfold rejected_token in Hnone. rewrite Hpay in Hnone. rewrite Hnone. apply same_part_refl.
  - destruct (hr_pipes rq); [apply same_part_refl |]. apply foot_handle, bool_decide_eq_false.
    unfold admitted in Hadm. destruct (is_public (hr_route rq)) eqn:Hpub; [done |].
    destruct Hadm as (payload & u & Hpay & _ & _ & Hg & _). rewrite Hpay in Hp. intros Hin. apply Hp.
    by apply (granted_parts (hr_route rq)).
Qed.

Lemma scan_keeps_tickets ck input w :
  dom (db_tickets (scanTicket ck input w).2) = dom (db_tickets w).
Proof.
  assert (Hw : wp (scanTicket ck input) (fun _ w' => dom (db_tickets w') = dom (db_tickets w))
                 (fun _ w' => dom (db_tickets w') = dom (db_tickets w)) w).
  { unfold scanTicket, scan_preflight, scan_commit, markUsedIfIssuable, db_tickets.
    wp_go; try done; apply dom_insert_lookup_L; by eexists. }
  unfold wp in Hw. by destruct (scanTicket ck input w) as [[r | e] w'].
Qed.

End Requests.

(* ------------------------------------------------------------------ *)
(** ** Requests are steps of the system                                 *)

(** A method of the system's list. *)
Ltac listed rq := apply (quiet_request _ _ rq); [reflexivity | done].

#[export] Hint Extern 1 (quiet_run _ _ (org_create ?a ?b ?c)) => listed (RqCreateOrganizer a b c) : runs.
#[export] Hint Extern 1 (quiet_run _ _ (org_listMine ?a)) => listed (RqMyOrganizers a) : runs.
#[export] Hint Extern 1 (quiet_run _ _ (org_getOwned ?a ?b)) => listed (RqMyOrganizer a b) : runs.
#[export] Hint Extern 1 (quiet_run _ _ (org_updateOwned ?a ?b ?c)) => listed (RqUpdateOrganizer a b c) : runs.
#[export] Hint Extern 1 (quiet_run _ _ (submitForReview ?a ?b)) => listed (RqSubmitOrganizer a b) : runs.
#[export] Hint Extern 1 (quiet_run _ _ (createForOrganizer ?a ?b ?c ?d ?e)) =>
  listed (RqCreateEvent a b c d e) : runs.
#[export] Hint Extern 1 (quiet_run _ _ (listForOwnedOrganizer ?a ?b)) => listed (RqListEvents a b) : runs.
#[export] Hint Extern 1 (quiet_run _ _ (event_getOwned ?a ?b)) => listed (RqGetEvent a b) : runs.
#[export] Hint Extern 1 (quiet_run _ _ (event_updateOwned ?a ?b ?c)) => listed (RqUpdateEvent a b c) : runs.
#[export] Hint Extern 1 (quiet_run _ _ (publishOwned ?a ?b _)) => listed (RqPublishEvent a b) : runs.
#[export] Hint Extern 1 (quiet_run _ _ (cancelOwned ?a ?b _)) => listed (RqCancelEvent a b) : runs.
#[export] Hint Extern 1 (quiet_run _ _ (createFloorSection ?a ?b ?c)) => listed (RqCreateSection a b c) : runs.
#[export] Hint Extern 1 (quiet_run _ _ (listFloorSections ?a ?b)) => listed (RqListSections a b) : runs.
#[export] Hint Extern 1 (quiet_run _ _ (createVenueTable ?a ?b ?c)) => listed (RqCreateVenueTable a b c) : runs.
#[export] Hint Extern 1 (quiet_run _ _ (listVenueTables ?a ?b)) => listed (RqListVenueTables a b) : runs.
#[export] Hint Extern 1 (quiet_run _ _ (getVenueTable ?a ?b)) => listed (RqGetVenueTable a b) : runs.
#[export] Hint Extern 1 (quiet_run _ _ (createEventTable ?a ?b ?c)) => listed (RqCreateEventTable a b c) : runs.
#[export] Hint Extern 1 (quiet_run _ _ (listEventTablesForOwnedEvent ?a ?b)) => listed (RqListEventTables a b) : runs.
#[export] Hint Extern 1 (quiet_run _ _ (updateEventTableStatus ?a ?b ?c _)) => listed (RqTableStatus a b c) : runs.
#[export] Hint Extern 1 (quiet_run _ _ (getAvailability ?a _)) => listed (RqAvailability a) : runs.
#[export] Hint Extern 1 (quiet_run _ _ (createHold _ ?a ?b _)) => listed (RqHold a b) : runs.
#[export] Hint Extern 1 (quiet_run _ _ (getOwnedReservation ?a ?b _)) => listed (RqReservation a b) : runs.
#[export] Hint Extern 1 (quiet_run _ _ (getPaymentIntentForBuyer ?a ?b)) => listed (RqGetIntent a b) : runs.
#[export] Hint Extern 1 (quiet_run _ _ (initiatePayment ?a _ _ ?b _ ?c _ ?d ?e)) =>
  listed (RqInitiate a b c d e) : runs.
#[export] Hint Extern 1 (quiet_run _ _ (createOrder _ ?a _ ?b ?c)) => listed (RqCheckout a b c) : runs.
#[export] Hint Extern 1 (quiet_run _ _ (payment_webhook ?a _ ?b _ _ ?c ?d ?e ?f)) =>
  listed (RqWebhook a b c d e f) : runs.
#[export] Hint Extern 1 (quiet_run _ _ (listMine ?a)) => listed (RqMyTickets a) : runs.
#[export] Hint Extern 1 (quiet_run _ _ (getOwned ?a ?b)) => listed (RqMyTicket a b) : runs.
#[export] Hint Extern 1 (quiet_run _ _ (serve _ _ _ _ _ ?a ?b ?c)) => listed (RqSupport a b c) : runs.

Section Steps.
Context `{Crypto} `{AuthLibraries} `{JwtVerifier} (dp : deployment) (secret : string).

(** The hash of the token a request may draw. *)
Definition token_of (rq : HttpRequest) : string := hashRefreshToken (dr_refreshToken (rd_auth (hr_draws rq))).

Lemma quiet_guards now rq gs st : quiet_run dp now (run_guards secret now rq gs st).
Proof.
  revert st. induction gs as [| g gs IH]; intros st; cbn [run_guards]; [by apply quiet_still |].
  apply quiet_bind; [| done].
  assert (Huser : forall e u, quiet_run dp now (let_user_in e u st)) by (unfold let_user_in; quiet).
  destruct g; cbn [run_guard]; unfold let_in; [unfold jwt_canActivate | quiet | quiet].
  destruct (is_public (hr_route rq)); [quiet |]. destruct (payload_of secret rq now); [| done].
  apply quiet_try; [unfold validate; quiet | intros u; apply Huser | intros e; apply Huser].
Qed.

Lemma draws_handle now rq st : drawing_run dp now (token_of rq) (handle dp secret now rq st).
Proof.
  destruct (auth_requests_run dp now secret) as (Hsignup & Hlogin & Hrefresh & _).
  unfold handle. cbv zeta. destruct (hr_route rq) as [r | r | r | r | | r | | r | | r].
  - destruct r; unfold auth_handle, answer; try (apply quiet_draws; solve [quiet]);
      (apply draws_before; [first [apply Hsignup | apply Hlogin | apply Hrefresh] | quiet]).
  - apply quiet_draws. destruct r; quiet.
  - apply quiet_draws. destruct r; quiet.
  - apply quiet_draws. destruct r; quiet.
  - apply quiet_draws. quiet.
  - apply quiet_draws. destruct r; quiet.
  - apply quiet_draws. quiet.
  - apply quiet_draws. destruct r; quiet.
  - unfold admission_handle. apply draws_after; [quiet | intros u].
    apply draws_before; [apply draws_scan | quiet].
  - apply quiet_draws. quiet.
Qed.

Lemma draws_http now rq : drawing_run dp now (token_of rq) (http dp secret now rq).
Proof.
  unfold http. cbv zeta. apply draws_after; [apply quiet_guards | intros st].
  apply draws_after; [destruct (hr_pipes rq); quiet | intros _]. apply draws_handle.
Qed.

End Steps.

(* ------------------------------------------------------------------ *)
(** ** The public routes                                                *)

(** Of the catalogue, at most one new customer. *)
Record adds_customer (w w' : world) : Prop := {
  ac_users : users (catalog w') = users (catalog w) \/
    exists u, user_role u = CUSTOMER /\ users (catalog w) !! user_id u = None /\
      users (catalog w') = <[user_id u := u]> (users (catalog w));
  ac_rest : organizers (catalog w') = organizers (catalog w) /\ events (catalog w') = events (catalog w) /\
    gates (catalog w') = gates (catalog w) /\ venues (catalog w') = venues (catalog w)
}.

Lemma adds_nobody w w' : catalog w' = catalog w -> adds_customer w w'.
Proof. intros Hc. split; rewrite Hc; auto. Qed.

Section Public.
Context `{Crypto} `{AuthLibraries} `{JwtVerifier} (dp : deployment) (secret : string).

Lemma signup_adds_customer d now email password deviceId req w :
  wp (signup secret d now email password deviceId req)
     (fun _ w' => adds_customer w w') (fun _ w' => adds_customer w w') w.
Proof.
  unfold signup, findByEmail. wp_stmt. wp_stmt. wp_stmt. wp_stmt; [by apply adds_nobody |]. wp_stmt.
  eapply wp_mono; [apply createUser_wp | cbn beta | cbn beta; intros e w' [-> _]; by apply adds_nobody].
  intros u w1 (-> & Hid & _ & ->).
  assert (Hnew : forall w2, catalog w2 = catalog (set_users (<[dr_userId d :=
      new_user (dr_userId d) email (password_hash password) (Some CUSTOMER)]> (users (catalog w))) w) ->
    adds_customer w w2).
  { intros w2 Hc. split; rewrite Hc; [right | done]. by exists (new_user (dr_userId d) email (password_hash password) (Some CUSTOMER)). }
  eapply wp_mono; [apply issueSession_wp | cbn beta | cbn beta].
  - intros res w2 (_ & _ & ->). by apply Hnew.
  - intros e w2 [-> _]. by apply Hnew.
Qed.

Lemma http_adds_customer now rq w :
  is_public (hr_route rq) = true -> adds_customer w (http dp secret now rq w).2.
Proof.
  intros Hpub. destruct (decide (Catalog ∈ route_parts (hr_route rq))) as [Hin | Hout].
  - destruct (http_cases dp secret now rq w) as [(e & w' & -> & Hno & _) | (st & _ & ->)]; [congruence |].
    destruct (hr_pipes rq); [by apply adds_nobody |].
    unfold handle. destruct (hr_route rq) as [r | r | r | r | | r | | r | | r]; try discriminate Hpub;
      [| apply (bool_decide_eq_true_2 _) in Hin; discriminate Hin].
    destruct r; try discriminate Hpub; try (apply (bool_decide_eq_true_2 _) in Hin; discriminate Hin).
    unfold auth_handle, answer, bind.
    match goal with |- context [signup secret ?d ?n ?e ?p ?dev ?r w] =>
      pose proof (signup_adds_customer d n e p dev r w) as Hs; unfold wp in Hs;
      destruct (signup secret d n e p dev r w) as [[res | err] w'] end; exact Hs.
  - apply adds_nobody. apply (http_route_parts dp secret now rq w Catalog).
    intros [Heq | Hin]%elem_of_cons; [discriminate Heq | by apply Hout].
Qed.

End Public.

(* ------------------------------------------------------------------ *)
(** ** The access token of a login                                      *)

Section Tokens.
Context `{Crypto} `{AuthLibraries} `{JwtVerifier} (dp : deployment) (secret : string).

(** The payload of the access token issued with a session. *)
Definition access_payload (u : user) (d : AuthDraws) : JwtPayload :=
  {| jwt_sub := user_id u; jwt_email := user_email u; jwt_role := user_role u;
     jwt_sessionId := dr_sessionId d; jwt_jti := dr_jti d; jwt_type := "access" |}.

Lemma login_wp d now email password deviceId req w :
  keyed user_id (users (catalog w)) ->
  wp (login secret d now email password deviceId req)
    (fun res w' => exists u, users (catalog w) !! user_id u = Some u /\ user_isActive u = true /\
       issued secret d now u deviceId req LOGIN res w w') any w.
Proof.
  intros Hk. unfold login, findByEmail. wp_stmt. wp_stmt. cbv beta.
  destruct (find_row _ _) as [u |] eqn:Hf; [| wp_go; done].
  apply find_row_Some in Hf as (k & Hu & _). pose proof (Hk _ _ Hu) as <-.
  destruct (negb (password_compare _ _)); [wp_go; done |].
  destruct (user_isActive u) eqn:Ha; cbn [negb]; [| wp_go; done].
  eapply wp_mono; [apply issueSession_wp | cbn beta | done]. intros res w' Hi. by exists u.
Qed.

(** The session is there, ACTIVE, of this user, not yet expired, and the user active. *)
Definition session_lives (now : Z) (w : world) (sessionId userId : string) : bool :=
  match db_sessions w !! sessionId with
  | Some s =>
      bool_decide (ses_id s = sessionId) && bool_decide (ses_userId s = userId) &&
      has_status SESSION_ACTIVE s && (now <=? ses_expiresAt s) &&
      match users (catalog w) !! userId with
      | Some u => bool_decide (user_id u = userId) && user_isActive u
      | None => false
      end
  | None => false
  end.

Lemma validate_live now payload userId w :
  jwt_type payload = "access" -> session_lives now w (jwt_sessionId payload) userId = true ->
  exists u, validate now payload w = (Ok u, w) /\ au_id u = userId /\ au_role u = jwt_role payload /\
    au_sessionId u = jwt_sessionId payload.
Proof.
  unfold session_lives. intros Ht Hl. destruct (db_sessions w !! jwt_sessionId payload) as [s |] eqn:Hs; [| done].
  destruct (users (catalog w) !! userId) as [u |] eqn:Hu; [| by rewrite andb_false_r in Hl].
  rewrite !andb_true_iff, !bool_decide_eq_true, Z.leb_le, has_status_true in Hl.
  destruct Hl as ((((Hid & Huid) & Hst) & Hx) & (Hk & Ha)).
  exists {| au_id := user_id u; au_email := user_email u; au_role := jwt_role payload; au_sessionId := ses_id s;
            au_permissions := ROLE_PERMISSIONS (jwt_role payload);
            au_emailVerifiedAt := user_emailVerifiedAt u; au_isActive := user_isActive u |}.
  split; [| split; [exact Hk | split; [reflexivity | exact Hid]]].
  assert (Hget : getSessionById (jwt_sessionId payload) w = (Ok (Some (s, Some u)), w)).
  { unfold getSessionById, reads. rewrite Hs. unfold view_of. cbn. by rewrite Huid, Hu. }
  assert (Hlt : (ses_expiresAt s <? now) = false) by lia.
  unfold validate, assertSessionUsable, bind. rewrite bool_decide_true by exact Ht. cbn [negb throw_if].
  unfold ret at 1. rewrite Hget. cbn -[Z.ltb]. unfold has_status. rewrite Hst, Hlt.
  rewrite (bool_decide_false (SESSION_ACTIVE = SESSION_REVOKED)), (bool_decide_true (SESSION_ACTIVE = SESSION_ACTIVE)) by done.
  cbn. rewrite Ha. cbn. by rewrite Ha.
Qed.

End Tokens.

(* ------------------------------------------------------------------ *)
(** ** A run of requests                                                *)

Section Runs.
Context `{Crypto} `{AuthLibraries} `{JwtVerifier} (dp : deployment) (secret : string).

(** The requests, one after the other, each at its instant. *)
Fixpoint serve_all (l : list (Z * HttpRequest)) (w : world) : world :=
  match l with
  | [] => w
  | (now, rq) :: l' => serve_all l' (http dp secret now rq w).2
  end.

(** Time does not go back, and no token is drawn twice. *)
Fixpoint well_drawn (now : Z) (drawn : gset string) (l : list (Z * HttpRequest)) : Prop :=
  match l with
  | [] => True
  | (now', rq) :: l' => now <= now' /\ (token_of rq ∉ drawn) /\ well_drawn now' ({[token_of rq]} ∪ drawn) l'
  end.

Lemma serve_all_run l : forall now drawn s,
  well_drawn now drawn l -> sy_now s <= now -> sy_issued s ⊆ drawn ->
  exists s', rtc (system_step dp) s s' /\ sy_world s' = serve_all l (sy_world s).
Proof.
  induction l as [| [t rq] l IH]; intros now drawn s Hl Hnow Hsub; [by exists s |].
  destruct Hl as (Ht & Hnew & Hl). cbn [serve_all].
  set (s1 := {| sy_now := t; sy_world := sy_world s; sy_scans := sy_scans s; sy_issued := sy_issued s;
                sy_redeemed := sy_redeemed s |}).
  destruct (draws_http dp secret t rq s1 eq_refl) as (s2 & Hrun & Hs2 & Hw & Hi); [set_solver |].
  destruct (IH t ({[token_of rq]} ∪ drawn) s2) as (s3 & Hrun' & Hw'); [exact Hl | lia | set_solver |].
  exists s3. rewrite Hw', Hw. split; [| done].
  eapply rtc_l; [apply (st_time dp s t); lia |]. by etransitivity.
Qed.

End Runs.

(* ------------------------------------------------------------------ *)
(** ** An account at the door                                           *)

(** Tokens that can be read back: the payload, in bits. *)
Fixpoint bits (p : positive) : string :=
  match p with
  | xH => ""
  | xO p => String "0" (bits p)
  | xI p => String "1" (bits p)
  end.

Fixpoint unbits (s : string) : positive :=
  match s with
  | EmptyString => 1
  | String c s => if bool_decide (c = "1"%char) then xI (unbits s) else xO (unbits s)
  end.

Lemma unbits_bits p : unbits (bits p) = p.
Proof. induction p as [p IH | p IH |]; cbn; by rewrite ?IH. Qed.

Definition role_code (r : UserRole) : nat :=
  match r with CUSTOMER => 0 | ORGANIZER => 1 | GATE_STAFF => 2 | ADMIN => 3 end.
Definition coded_role (n : nat) : UserRole :=
  match n with 0 => CUSTOMER | 1 => ORGANIZER | 2 => GATE_STAFF | _ => ADMIN end%nat.

#[export] Instance payload_eq_dec : EqDecision JwtPayload.
Proof. solve_decision. Defined.

#[export] Instance payload_countable : Countable JwtPayload.
Proof.
  refine (inj_countable'
    (fun p => (jwt_sub p, jwt_email p, role_code (jwt_role p), jwt_sessionId p, jwt_jti p, jwt_type p))
    (fun x => let '(a, b, c, d, e, f) := x in
       {| jwt_sub := a; jwt_email := b; jwt_role := coded_role c; jwt_sessionId := d; jwt_jti := e;
          jwt_type := f |}) _).
  by intros [a b [] d e f].
Defined.

Definition coded_auth : AuthLibraries :=
  {| bcrypt_hash := fun _ p => "bcrypt:" +:+ p;
     bcrypt_compare := fun p h => bool_decide (h = "bcrypt:" +:+ p);
     jwt_sign := fun p secret ttl at_ => bits (encode (p, (secret, at_ / 1000 + ttl))) |}.
Definition coded_jwt : JwtVerifier := fun token secret now =>
  match decode (unbits token) : option (JwtPayload * (string * Z)) with
  | Some (p, (signed, expiry)) => if bool_decide (signed = secret) && (now / 1000 <? expiry) then Some p else None
  | None => None
  end.

#[export] Instance coded_laws : JwtLaws (H := coded_auth) (H0 := coded_jwt).
Proof.
  intros p secret ttl at_ now _. unfold jwt_verify, coded_jwt. cbn [jwt_sign coded_auth].
  rewrite unbits_bits, decode_encode. by rewrite bool_decide_true.
Qed.

Module DoorExample.

#[local] Instance crypto : Crypto := plain_crypto.
#[local] Instance libraries : AuthLibraries := coded_auth.
#[local] Instance verifier : JwtVerifier := coded_jwt.

Definition draws (n : string) : RequestDraws :=
  {| rd_id := "row" +:+ n; rd_venueId := "venue" +:+ n; rd_requestId := fun k => "req" +:+ n +:+ pretty k;
     rd_uuid := fun k => "uuid" +:+ n +:+ pretty k; rd_auth := AuthExample.draws n;
     rd_fetch := fun _ => FetchThrew "TypeError" "fetch failed"; rd_fault := None |}.

Definition to (n : string) (bearer : option string) (r : Route) : HttpRequest :=
  {| hr_route := r; hr_correlationId := HAbsent; hr_deviceId := HAbsent; hr_organizerId := HAbsent;
     hr_remoteAddress := None; hr_auth := AuthExample.req; hr_bearer := bearer; hr_pipes := None;
     hr_draws := draws n |}.

Definition send (now : Z) (rq : HttpRequest) : op Answer := http SystemExample.deployed "secret" now rq.

(** A customer who signed up logs in, looks at the account, and tries the gate. *)
Definition w1 : world := AuthExample.w1.
Definition logged_in : outcome error AuthResponse * world :=
  login "secret" (AuthExample.draws "2") 2000 "ama@example.com" "Passw0rd" "phone" AuthExample.req w1.
Definition w2 : world := logged_in.2.
Definition token : string := match logged_in.1 with Ok res => res_accessToken res | Err _ => "" end.

Example logs_in : (match logged_in.1 with Ok res => Some (res_userId res, res_sessionId res) | Err _ => None end) =
  Some ("user1", "ses2").
Proof. vm_run. Qed.

Definition me_request : HttpRequest := to "3" (Some token) (AuthController GetMe).
Definition gate_request : HttpRequest := to "4" (Some token) (AuthController GetGateOnly).

Example at_the_door :
  (http_status me_request (send 3000 me_request w2).1, http_status gate_request (send 3000 gate_request w2).1,
   http_status me_request (send 3000 (to "3" None (AuthController GetMe)) w2).1,
   http_status me_request (send (2000 + 2592000001) me_request w2).1) = (200, 403, 401, 401).
Proof. vm_run. Qed.

(** A public route needs no token; signing up twice is a conflict. *)
Definition signup_request : HttpRequest :=
  to "5" None (AuthController (PostSignup "kofi@example.com" "Passw0rd" "phone")).

Example signs_up :
  (http_status signup_request (send 3000 signup_request w2).1,
   http_status signup_request (send 3001 signup_request (send 3000 signup_request w2).2).1) = (201, 409).
Proof. vm_run. Qed.

Definition w3 : world := (send 3000 signup_request w2).2.

End DoorExample.

(* ------------------------------------------------------------------ *)
(** ** Properties                                                       *)

(** C19: The HTTP surface refines the system.  From a good state, any run of requests to
    any routes, in the order of their instants and with no refresh token drawn twice,
    is a run of the system: so it stays within capacity, admits no ticket twice, keeps
    the tables exclusive and the refresh tokens single use, whoever sends what. *)
Theorem api_refines_system `{Crypto} `{AuthLibraries} `{JwtVerifier} dp secret s l
    (Hok : system_ok s) (Hl : well_drawn (sy_now s) (sy_issued s) l) :
  exists s', rtc (system_step dp) s s' /\ sy_world s' = serve_all dp secret l (sy_world s) /\ system_ok s'.
Proof.
  destruct (serve_all_run dp secret l (sy_now s) (sy_issued s) s Hl ltac:(lia) ltac:(done)) as (s' & Hrun & Hw).
  exists s'. split_and!; [done | done | by eapply system_ok_run].
Qed.

Lemma api_refines_system_witness :
  exists s', system_ok s' /\
    sy_world s' = serve_all (H := plain_crypto) (H0 := coded_auth) (H1 := coded_jwt) SystemExample.deployed
      "secret" [(2000, DoorExample.signup_request)] SystemExample.w0.
Proof.
  destruct (api_refines_system (H := plain_crypto) (H0 := coded_auth) (H1 := coded_jwt)
    SystemExample.deployed "secret" SystemExample.start [(2000, DoorExample.signup_request)]
    SystemExample.start_good) as (s' & _ & Hw & Hok).
  - split; [by vm_compute | split; [| done]]. cbn [sy_issued SystemExample.start]. apply not_elem_of_empty.
  - by exists s'.
Defined.

(** The outcome of every request.  It is turned away with a 401 for want of a token
    of a live session, or with a 403 when the role of its user lacks what the route asks
    for, and then nothing but that session may have changed; or it is stopped by a pipe
    with nothing changed; or its handler runs, once, for the very user of the token,
    whose id is the one the request context carries. *)
Theorem api_outcome `{Crypto} `{AuthLibraries} `{JwtVerifier} dp secret now rq w :
  let r := http dp secret now rq w in
  (exists e w', r = (Err e, w') /\ turned_away secret now rq w e w') \/
  (exists st, admitted secret now rq (context rq) w st /\
     r = match hr_pipes rq with Some e => (Err e, w) | None => handle dp secret now rq st w end /\
     (is_public (hr_route rq) = false -> exists u, st.1 = Some u /\ st.2 ≫= ctx_userId = Some (au_id u))).
Proof.
  cbv zeta. destruct (http_cases dp secret now rq w) as [Hd | (st & Hadm & Hr)]; [by left |].
  right. exists st. split_and!; [done | done |]. unfold admitted in Hadm. intros Hpub. rewrite Hpub in Hadm.
  destruct Hadm as (payload & u & _ & _ & _ & _ & ->). by exists u.
Qed.

(** C20: Least privilege.  A request writes only the parts of the database its token's role
    may write: no part at all without a good token.  On the public routes, which take
    none, a sign-up adds at most one user, a CUSTOMER, and no public request changes a
    user that is there, an organizer, an event, a venue or a gate; beyond that a sign-up,
    a login and a refresh write only sessions and their audit, and a payment webhook only
    the payment intents with their audit and the webhook events.  The tickets are written
    only for an organizer, who scans them; no request writes the stock, and none creates
    or deletes a ticket. *)
Theorem api_least_privilege `{Crypto} `{AuthLibraries} `{JwtVerifier} dp secret now rq w :
  let w' := (http dp secret now rq w).2 in
  (forall p, p ∉ may_write secret now rq -> same_part p w w') /\
  (is_public (hr_route rq) = true -> adds_customer w w') /\
  stock w' = stock w /\ dom (db_tickets w') = dom (db_tickets w).
Proof.
  cbv zeta. split; [intros p; apply http_may_write |]. split; [apply http_adds_customer |]. split.
  - apply (http_route_parts dp secret now rq w Stock).
    apply (bool_decide_eq_false_1 (Stock ∈ Identity :: route_parts (hr_route rq))).
    destruct (hr_route rq) as [r | r | r | r | | r | | r | | r]; try destruct r; reflexivity.
  - destruct (decide (Ticketing ∈ route_parts (hr_route rq))) as [Ht | Ht].
    + destruct (hr_route rq) as [r | r | r | r | | r | | r | | r] eqn:Hr; try destruct r;
        cbn [route_parts] in Ht; try (apply (bool_decide_eq_true_2 _) in Ht; discriminate Ht).
      destruct (http_cases dp secret now rq w) as [(e & w' & -> & _ & Haway) | (st & _ & ->)]; cbn [snd].
      * destruct Haway as [(_ & Hsame & _) | (_ & -> & _)]; [| done].
        unfold db_tickets. by rewrite (Hsame Ticketing ltac:(done)).
      * destruct (hr_pipes rq); [done |]. unfold handle. rewrite Hr. unfold admission_handle, answer, bind.
        destruct st.1 as [u |]; [| done]. cbn [current_user or_throw ret].
        match goal with |- context [scanTicket ?ck ?i w] => pose proof (scan_keeps_tickets ck i w) as Hk;
          destruct (scanTicket ck i w) as [[r | e] w'] end; exact Hk.
    + assert (Hs : same_part Ticketing w (http dp secret now rq w).2).
      { apply http_route_parts. by apply not_elem_of_cons. }
      cbn in Hs. unfold db_tickets. by rewrite Hs.
Qed.

(** C21: An access token opens what its user may open and nothing else.  After a login,
    in any later database and at any later instant in which the token, which lives
    fifteen minutes from the login, has not expired and its session still lives, every
    request to a protected route that bears it is served as the user who logged in,
    under the role the user had then, when that role has what the route asks for, and is
    a 403 with nothing written when it has not.  Once the token has expired, every such
    request is a 401 and writes nothing. *)
Theorem access_token_round_trip `{JwtLaws} `{Crypto} dp secret
    d now email password deviceId req w res w' now2 w2
    (Hk : keyed user_id (users (catalog w)))
    (Hrun : login secret d now email password deviceId req w = (Ok res, w')) (Hlater : now <= now2) :
  (token_fresh ACCESS_TOKEN_TTL_SECONDS now now2 = true ->
   session_lives now2 w2 (res_sessionId res) (res_userId res) = true ->
   exists u, au_id u = res_userId res /\ au_role u = res_role res /\ au_sessionId u = res_sessionId res /\
    forall rq, hr_bearer rq = Some (res_accessToken res) -> is_public (hr_route rq) = false ->
      if granted (hr_route rq) (res_role res)
      then http dp secret now2 rq w2 =
             match hr_pipes rq with
             | Some e => (Err e, w2)
             | None => handle dp secret now2 rq (Some u, Some (context_of u (context rq))) w2
             end
      else exists e, http dp secret now2 rq w2 = (Err e, w2) /\ exception_status e = 403) /\
  (token_fresh ACCESS_TOKEN_TTL_SECONDS now now2 = false ->
   forall rq, hr_bearer rq = Some (res_accessToken res) -> is_public (hr_route rq) = false ->
     exists e, http dp secret now2 rq w2 = (Err e, w2) /\ exception_status e = 401).
Proof.
  destruct (wp_ok _ _ _ _ _ _ (login_wp secret d now email password deviceId req w Hk) Hrun)
    as (u & _ & _ & _ & -> & _).
  assert (Hpay : forall rq, hr_bearer rq = Some (issueAccessToken secret (user_id u) (user_email u) (user_role u)
      (dr_sessionId d) (dr_jti d) now) ->
    payload_of secret rq now2 =
      if token_fresh ACCESS_TOKEN_TTL_SECONDS now now2 then Some (access_payload u d) else None).
  { intros rq Hb. unfold payload_of. rewrite Hb. exact (jwt_reads (access_payload u d) secret _ now now2 Hlater). }
  cbn [res_accessToken res_role res_userId res_sessionId authResponse]. split.
  - intros Hfresh Hlive. rewrite Hfresh in Hpay.
    destruct (validate_live now2 (access_payload u d) (user_id u) w2 eq_refl Hlive) as (v & Hval & Hid & Hrole & Hses).
    exists v. split_and!; [done.. |]. intros rq Hb Hpub. specialize (Hpay rq Hb).
    destruct (http_cases dp secret now2 rq w2) as [(e & w1 & -> & _ & Haway) | (st & Hadm & ->)].
    + unfold rejected_token in Haway. rewrite Hpay in Haway.
      destruct Haway as [(_ & _ & e' & He) | (He & -> & p & u' & Hp & _ & Hg)]; [rewrite Hval in He; discriminate He |].
      injection Hp as <-. cbn [jwt_role access_payload] in Hg. rewrite Hg. by exists e.
    + unfold admitted in Hadm. rewrite Hpub, Hpay in Hadm. destruct Hadm as (p & u' & Hp & Hv & _ & Hg & ->).
      injection Hp as <-. rewrite Hval in Hv. injection Hv as <-. cbn [jwt_role access_payload] in Hg. by rewrite Hg.
  - intros Hstale rq Hb Hpub. specialize (Hpay rq Hb). rewrite Hstale in Hpay.
    destruct (http_cases dp secret now2 rq w2) as [(e & w1 & -> & _ & Haway) | (st & Hadm & _)].
    + unfold rejected_token in Haway. rewrite Hpay in Haway.
      destruct Haway as [(He & _ & ->) | (_ & _ & p & u' & Hp & _)]; [by exists e | discriminate Hp].
    + unfold admitted in Hadm. rewrite Hpub, Hpay in Hadm. by destruct Hadm as (p & u' & Hp & _).
Qed.

Lemma access_token_round_trip_witness :
  exists e, http (H := plain_crypto) (H0 := coded_auth) (H1 := coded_jwt) SystemExample.deployed "secret" 4000
      DoorExample.gate_request DoorExample.w3 = (Err e, DoorExample.w3) /\
    exception_status e = 403.
Proof.
  assert (E : exists res, DoorExample.logged_in = (Ok res, DoorExample.w2) /\
    DoorExample.token = res_accessToken res /\ res_role res = CUSTOMER /\ res_userId res = "user1" /\
    res_sessionId res = "ses2").
  { unfold DoorExample.token, DoorExample.w2.
    assert (Hok : match DoorExample.logged_in.1 with
                  | Ok res => bool_decide (res_role res = CUSTOMER /\ res_userId res = "user1" /\ res_sessionId res = "ses2")
                  | Err _ => false end = true) by vm_run.
    destruct DoorExample.logged_in as [[res |] w']; [| discriminate Hok].
    exists res. apply bool_decide_eq_true in Hok. done. }
  destruct E as (res & Hrun & Htok & Hrole & Huser & Hses).
  destruct (proj1 (access_token_round_trip (H := coded_auth) (H0 := coded_jwt) (H2 := plain_crypto)
    SystemExample.deployed "secret" (AuthExample.draws "2") 2000 "ama@example.com" "Passw0rd" "phone"
    AuthExample.req DoorExample.w1 res DoorExample.w2 4000 DoorExample.w3 ltac:(apply keyed_check; vm_run) Hrun
    ltac:(by vm_compute)) ltac:(vm_run) ltac:(rewrite Huser, Hses; vm_run)) as (u & _ & _ & _ & Hserve).
  rewrite Hrole in Hserve. exact (Hserve DoorExample.gate_request (f_equal Some Htok) eq_refl).
Defined.
