(* ===== verification/Scripts.v ===== *)
(** Scripts.v: what the operators' scripts (src/scripts) share: the local environment
    files, the variables they read, and the text of the JavaScript library they use
    (URI components, templates). *)

From S2P Require Import Prelude Errors Values Hashing Context Redaction Config.

Local Open Scope Z_scope.

(** A function that throws, and has no other effect. *)
Definition pure (A : Type) : Type := prog unit error A.

(** It in a program over some state. *)
Definition lift {S A} (m : pure A) : prog S error A := fun s => ((m tt).1, s).

Lemma wp_lifted {S A} (m : pure A) (Q : A -> S -> Prop) X s :
  wp m (fun a _ => Q a s) (fun e _ => X e s) tt -> wp (lift m) Q X s.
Proof. unfold wp, lift. by destruct (m tt) as [[a | e] []]. Qed.

Lemma bind_lift {S A B} (m : pure A) (k : A -> prog S error B) s :
  bind (lift m) k s = match (m tt).1 with Ok a => k a s | Err e => (Err e, s) end.
Proof. unfold bind, lift. by destruct (m tt).1. Qed.

Lemma wp_lift_eq {S A} (m : pure A) (Q : A -> S -> Prop) X s :
  (forall a, m tt = (Ok a, tt) -> Q a s) -> (forall e, m tt = (Err e, tt) -> X e s) -> wp (lift m) Q X s.
Proof. intros HQ HX. unfold wp, lift. destruct (m tt) as [[a | e] []]; cbn; auto. Qed.

Lemma wp_eq {S E A} (m m' : prog S E A) (Q : A -> S -> Prop) X s :
  m s = m' s -> wp m' Q X s -> wp m Q X s.
Proof. unfold wp. by intros ->. Qed.

(** [new Error(msg)] *)
Definition JsError (msg : string) : error := OtherError "Error" msg.

(* ------------------------------------------------------------------ *)
(** ** Text                                                             *)

(** The text before the first [c] and after it. *)
Fixpoint cut (c : ascii) (s : string) : option (string * string) :=
  match s with
  | EmptyString => None
  | String x s' =>
      if bool_decide (x = c) then Some ("", s')
      else match cut c s' with Some (a, b) => Some (String x a, b) | None => None end
  end.

Definition free_of (c : ascii) (s : string) : bool := string_forall (fun x => negb (bool_decide (x = c))) s.

Lemma cut_app c a b : free_of c a = true -> cut c (a +:+ String c b) = Some (a, b).
Proof.
  induction a as [| x a IH]; intros Ha; cbn [cut] in *; rewrite ?string_app_nil, ?string_app_cons; cbn [cut].
  - by rewrite bool_decide_true.
  - cbn in Ha. apply andb_true_iff in Ha as [Hx Ha]. apply negb_true_iff in Hx. by rewrite Hx, (IH Ha).
Qed.

Lemma cut_Some c s a b : cut c s = Some (a, b) -> s = a +:+ String c b /\ free_of c a = true.
Proof.
  revert a. induction s as [| x s IH]; intros a; [done |]. cbn [cut]. case_bool_decide as Hx.
  - intros [= <- <-]. by rewrite Hx.
  - destruct (cut c s) as [[a' b'] |]; [| done]. intros [= <- <-]. destruct (IH a' eq_refl) as [-> Ha].
    split; [done |]. cbn. by rewrite bool_decide_false.
Qed.

(** [s.split(/\r?\n/)] *)
Definition LF : ascii := "010".
Definition CR : ascii := "013".

Fixpoint split_lines (s : string) : list string :=
  match s with
  | EmptyString => [""]
  | String c s' =>
      let rest := split_lines s' in
      if bool_decide (c = LF) then "" :: rest
      else
        match rest with
        | [] => [String c ""]
        | line :: lines =>
            match s' with
            | String d _ => if bool_decide (c = CR) && bool_decide (d = LF) then rest
                            else String c line :: lines
            | EmptyString => String c line :: lines
            end
        end
  end.

Example split_crlf : split_lines (String "a" (String CR (String LF (String "b" (String LF (String CR "")))))) =
  ["a"; "b"; String CR ""].
Proof. reflexivity. Qed.

(** [s.slice(1, -1)] *)
Definition slice_inner (s : string) : string := substring 1 (String.length s - 2) s.

Fixpoint endsWith (c : ascii) (s : string) : bool :=
  match s with
  | EmptyString => false
  | String x EmptyString => bool_decide (x = c)
  | String _ s' => endsWith c s'
  end.

Definition startsWith (c : ascii) (s : string) : bool :=
  match s with String x _ => bool_decide (x = c) | EmptyString => false end.

Definition squote : ascii := "'".

Definition stripWrappingQuotes (value : string) : string :=
  if (startsWith dquote value && endsWith dquote value) || (startsWith squote value && endsWith squote value)
  then slice_inner value else value.

(* ------------------------------------------------------------------ *)
(** ** The environment                                                  *)

Definition set_env (key value : string) (env : ProcessEnv) : ProcessEnv :=
  fun k => if bool_decide (k = key) then Some value else env k.

(** One line of a file: [key=value] of a variable that is not set yet. *)
Definition load_line (env : ProcessEnv) (rawLine : string) : ProcessEnv :=
  let line := trim rawLine in
  if bool_decide (line = "") || startsWith "#" line then env
  else
    match cut "=" line with
    | None | Some (EmptyString, _) => env
    | Some (before, after) =>
        let key := trim before in
        match env key with
        | Some _ => env
        | None => set_env key (stripWrappingQuotes (trim after)) env
        end
    end.

Definition load_file (files : string -> option string) (env : ProcessEnv) (fileName : string) : ProcessEnv :=
  match files fileName with
  | Some contents => foldl load_line env (split_lines contents)
  | None => env
  end.

(** [loadLocalEnvFiles]: [process.env] after it. *)
Definition loadLocalEnvFiles (files : string -> option string) (env : ProcessEnv) : ProcessEnv :=
  foldl (load_file files) env [".env.local"; ".env"].

Definition getRequiredEnv (key : string) (env : ProcessEnv) : pure string :=
  or_throw (setting env key) (JsError ("Missing required environment variable: " +:+ key)).

Definition getOptionalEnv (key : string) (env : ProcessEnv) : option string := setting env key.

(** The files never change a variable that is set. *)
Lemma load_line_keeps env l k v : env k = Some v -> load_line env l k = Some v.
Proof.
  intros Hk. unfold load_line. destruct (_ || _); [done |]. destruct (cut _ _) as [[[| c b] a] |]; try done.
  destruct (env (trim (String c b))) eqn:Hb; [done |]. unfold set_env. case_bool_decide; [congruence | done].
Qed.

Lemma loadLocalEnvFiles_keeps files env k v : env k = Some v -> loadLocalEnvFiles files env k = Some v.
Proof.
  assert (Hf : forall f env, env k = Some v -> load_file files env f k = Some v).
  { intros f env0 Hk. unfold load_file. destruct (files f) as [contents |]; [| done].
    revert env0 Hk. induction (split_lines contents) as [| l ls IH]; intros env0 Hk; [done |].
    cbn. by apply IH, load_line_keeps. }
  intros Hk. unfold loadLocalEnvFiles. cbn [foldl]. by apply Hf, Hf.
Qed.

(* ------------------------------------------------------------------ *)
(** ** URI components                                                   *)

Definition upper_hex (n : nat) : ascii := ascii_of_nat (if (n <? 10)%nat then n + 48 else n + 55).

Definition percent (n : nat) : string :=
  String "%" (String (upper_hex (n / 16)) (String (upper_hex (n mod 16)) "")).

(** The characters [encodeURIComponent] leaves alone. *)
Definition uri_unreserved (c : ascii) : bool :=
  is_alnum c || existsb (fun x => bool_decide (c = x)) ["-"; "_"; "."; "!"; "~"; "*"; "'"; "("; ")"]%char.

(** One character: itself, or the percent form of each byte of its UTF-8. *)
Definition encode_char (c : ascii) : string :=
  let n := nat_of_ascii c in
  if uri_unreserved c then String c ""
  else if (n <? 128)%nat then percent n
  else percent (192 + n / 64) +:+ percent (128 + n mod 64).

Fixpoint encodeURIComponent (s : string) : string :=
  match s with
  | EmptyString => ""
  | String c s' => encode_char c +:+ encodeURIComponent s'
  end.

Definition hex_byte (h l : ascii) : option nat :=
  match digit_value 16 h, digit_value 16 l with
  | Some a, Some b => Some (Z.to_nat (16 * a + b))
  | _, _ => None
  end.

(** Reading the percent forms back; malformed ones throw, and so do the characters
    beyond Latin-1, which the text of this library does not have. *)
Fixpoint decodeURIComponent (s : string) : option string :=
  match s with
  | EmptyString => Some ""
  | String c s1 =>
      if negb (bool_decide (c = "%"%char)) then String c <$> decodeURIComponent s1
      else
        match s1 with
        | String h (String l s2) =>
            match hex_byte h l with
            | None => None
            | Some n =>
                if (n <? 128)%nat then String (ascii_of_nat n) <$> decodeURIComponent s2
                else
                  match s2 with
                  | String p (String h' (String l' s3)) =>
                      match hex_byte h' l' with
                      | Some m =>
                          if bool_decide (p = "%"%char) && ((194 <=? n) && (n <=? 195) && (128 <=? m) && (m <=? 191))%nat
                          then String (ascii_of_nat ((n - 192) * 64 + (m - 128))) <$> decodeURIComponent s3
                          else None
                      | None => None
                      end
                  | _ => None
                  end
            end
        | _ => None
        end
  end.

Lemma decode_encode_char c s :
  decodeURIComponent (encode_char c +:+ s) = String c <$> decodeURIComponent s.
Proof. destruct c as [[] [] [] [] [] [] [] []]; reflexivity. Qed.

(** Decoding undoes encoding. *)
Lemma decode_encode s : decodeURIComponent (encodeURIComponent s) = Some s.
Proof.
  induction s as [| c s IH]; [done |]. cbn [encodeURIComponent]. by rewrite decode_encode_char, IH.
Qed.

Lemma encode_no_slash s : free_of "/" (encodeURIComponent s) = true.
Proof.
  assert (Happ : forall a b, free_of "/" (a +:+ b) = free_of "/" a && free_of "/" b).
  { intros a b. induction a as [| x a IH]; [done |]. rewrite string_app_cons. cbn. rewrite <- andb_assoc.
    unfold free_of in IH. by rewrite IH. }
  induction s as [| c s IH]; [done |]. cbn [encodeURIComponent]. rewrite Happ, IH, andb_true_r.
  by destruct c as [[] [] [] [] [] [] [] []].
Qed.
