(* ===== verification/Rehearsal.v ===== *)
(** Rehearsal.v: the rehearsal of a schema deployment
    (src/scripts/schema-rehearsal.ts): it snapshots the database, migrates it, restores
    the snapshot into a second database it first drops, and keeps a manifest.

    A program here runs over the record of what it did; the exit codes and answers of
    the outside, the URL and path libraries and the files are parameters. *)

From S2P Require Import Prelude Errors Values Hashing Context Redaction Config Scripts.

Local Open Scope Z_scope.

(* ------------------------------------------------------------------ *)
(** ** The platform                                                     *)

(** [URL] objects, as far as the script reads them. *)
Record Url : Type := {
  u_href : string;
  u_username : string;
  u_password : string;
  u_hostname : string;
  u_port : string;
  u_pathname : string
}.

(** [new URL(s)], [new URL(path, base)], the setters, [path.join], [path.resolve],
    [toISOString], and where node and its modules are. *)
Class Platform : Type := {
  url_parse : string -> option Url;
  url_resolve : string -> string -> option Url;
  set_pathname : Url -> string -> Url;
  set_password : Url -> string -> Url;
  path_join : string -> string -> string;
  path_resolve : string -> string -> string;
  toISOString : Z -> string;
  execPath : string;
  prismaCli : string;
  win32 : bool
}.

(* ------------------------------------------------------------------ *)
(** ** Configuration                                                    *)

Inductive SchemaRehearsalMode : Type := plan | rehearse.

Record SchemaRehearsalConfig : Type := {
  src_cwd : string;
  src_databaseUrl : string;
  src_restoreDatabaseUrl : option string;
  src_restoreAdminDatabaseUrl : option string;
  src_artifactRootDir : string;
  src_runPaymentSmoke : bool;
  src_skipHttpChecks : bool;
  src_liveUrl : option string;
  src_readyUrl : option string;
  src_metricsUrl : option string;
  src_snapshotCommandTemplate : option string;
  src_restoreCommandTemplate : option string
}.

Record SchemaRehearsalContext : Type := {
  sc_rehearsalId : string;
  sc_artifactDir : string;
  sc_backupPath : string;
  sc_manifestPath : string;
  sc_logsDir : string
}.

(** A command; [cs_env] is the DATABASE_URL it gets instead of the script's own. *)
Inductive CommandSpec : Type :=
| ExecCommand (command : string) (args : list string) (display : string) (env : option string)
| ShellCommand (commandLine display : string).

Definition cs_display (c : CommandSpec) : string :=
  match c with ExecCommand _ _ d _ | ShellCommand _ d => d end.

Inductive StepStatus : Type := passed | failed | skipped.

Record StepResult : Type := {
  sr_name : string;
  sr_status : StepStatus;
  sr_logFile : string
}.

Record Manifest : Type := {
  mf_rehearsalId : string;
  mf_startedAt : Z;
  mf_completedAt : option Z;
  mf_artifactDir : string;
  mf_backupPath : string;
  mf_databaseUrl : string;
  mf_restoreDatabaseUrl : string;
  mf_restoreAdminDatabaseUrl : string;
  mf_runPaymentSmoke : bool;
  mf_skipHttpChecks : bool;
  mf_liveUrl : option string;
  mf_readyUrl : option string;
  mf_metricsUrl : option string;
  mf_steps : list StepResult;
  mf_manualFollowUps : list string
}.

Definition DEFAULT_ARTIFACT_ROOT : string := "artifacts/schema-rehearsal".
Definition DEFAULT_SNAPSHOT_FILE : string := "pre-deploy.dump".
Definition DEFAULT_RESTORE_DATABASE_SUFFIX : string := "_restore".
Definition DEFAULT_ADMIN_DATABASE : string := "postgres".

Definition parseMode (argv : list string) : pure SchemaRehearsalMode :=
  match truthy ((fun a => toLowerCase (trim a)) <$> head argv) with
  | None => ret plan
  | Some requested =>
      if bool_decide (requested = "plan") then ret plan
      else if bool_decide (requested = "rehearse") then ret rehearse
      else throw (JsError ("Unsupported schema rehearsal mode: " +:+ requested))
  end.

(** [s.replace(/^\/+/, '')] *)
Fixpoint strip_slashes (s : string) : string :=
  match s with
  | String c s' => if bool_decide (c = "/"%char) then strip_slashes s' else s
  | EmptyString => ""
  end.

(** [s.replace(/c/g, by)] for one character. *)
Fixpoint replace_char (c : ascii) (by_ : string) (s : string) : string :=
  match s with
  | EmptyString => ""
  | String x s' => (if bool_decide (x = c) then by_ else String x "") +:+ replace_char c by_ s'
  end.

Definition quotePostgresIdentifier (value : string) : string :=
  String dquote (replace_char dquote (String dquote (String dquote "")) value +:+ String dquote "").

Definition quotePostgresStringLiteral (value : string) : string :=
  String squote (replace_char squote (String squote (String squote "")) value +:+ String squote "").

(** [\w] *)
Definition is_word (c : ascii) : bool := Context.is_alnum c || bool_decide (c = "_"%char).

(** The longest run of word characters, and what follows it. *)
Fixpoint word_run (s : string) : string * string :=
  match s with
  | String c s' => if is_word c then let (w, r) := word_run s' in (String c w, r) else ("", s)
  | EmptyString => ("", "")
  end.

(** A placeholder at the front of the text: its key and what follows it. *)
Definition placeholder (s : string) : option (string * string) :=
  match s with
  | String c1 (String c2 s') =>
      if bool_decide (c1 = "$"%char) && bool_decide (c2 = "{"%char) then
        match word_run s' with
        | (String a w, String c3 rest) => if bool_decide (c3 = "}"%char) then Some (String a w, rest) else None
        | _ => None
        end
      else None
  | _ => None
  end.

(** [template.replace(/\$\{(\w+)\}/g, (_, key) => values[key] ?? '')]; the fuel is the
    length of the template, as each step reads at least one character. *)
Fixpoint apply_template (fuel : nat) (values : string -> option string) (s : string) : string :=
  match fuel with
  | O => ""
  | S fuel =>
      match placeholder s with
      | Some (key, rest) => default "" (values key) +:+ apply_template fuel values rest
      | None =>
          match s with
          | EmptyString => ""
          | String c s' => String c (apply_template fuel values s')
          end
      end
  end.

Definition applyTemplate (template : string) (values : list (string * string)) : string :=
  apply_template (S (String.length template)) (fun k => snd <$> find (fun kv => bool_decide (fst kv = k)) values)
    template.

Example template_filled :
  applyTemplate "restore --to ${url} ${nothing}${ x} $${id}" [("url", "db"); ("id", "7")] =
  "restore --to db ${ x} $7".
Proof. reflexivity. Qed.

Section Script.
Context `{Platform}.

(* ------------------------------------------------------------------ *)
(** ** Database URLs                                                    *)

Definition parseDatabaseUrl (value label : string) : pure Url :=
  or_throw (url_parse value) (JsError ("Invalid " +:+ label +:+ ": " +:+ value)).

(** [getDatabaseName] of a parsed URL. *)
Definition getDatabaseName (url : Url) (label : string) : pure string :=
  let pathname := strip_slashes (u_pathname url) in
  do* throw_if (bool_decide (pathname = "")) (JsError (label +:+ " must include a database name.")) in
  let* databaseName := or_throw (decodeURIComponent pathname) (OtherError "URIError" "URI malformed") in
  do* throw_if (includes "/" databaseName) (JsError (label +:+ " must include a single database name.")) in
  ret databaseName.

(** [getDatabaseName] of a string. *)
Definition getDatabaseName_of (value label : string) : pure string :=
  let* url := parseDatabaseUrl value label in getDatabaseName url label.

Definition normalizePostgresPort (url : Url) : string := default "5432" (truthy (Some (u_port url))).

Definition targetsSameDatabase (left right : string) : pure bool :=
  let* leftUrl := parseDatabaseUrl left "database URL" in
  let* rightUrl := parseDatabaseUrl right "database URL" in
  if bool_decide (u_hostname leftUrl = u_hostname rightUrl) &&
     bool_decide (normalizePostgresPort leftUrl = normalizePostgresPort rightUrl)
  then
    let* leftName := getDatabaseName leftUrl "database URL" in
    let* rightName := getDatabaseName rightUrl "database URL" in
    ret (bool_decide (leftName = rightName))
  else ret false.

Definition redactDatabaseUrl (value : option string) : string :=
  match truthy value with
  | None => ""
  | Some value =>
      match url_parse value with
      | Some url => u_href (if bool_decide (u_password url = "") then url else set_password url "***")
      | None => value
      end
  end.

Definition deriveUrl (baseUrl : option string) (path : string) : pure (option string) :=
  match truthy baseUrl with
  | None => ret None
  | Some baseUrl =>
      let* url := or_throw (url_resolve path baseUrl) (TypeError "Invalid URL") in ret (Some (u_href url))
  end.

(** [new URL(url.toString())] *)
Definition reparse (url : Url) : pure Url := or_throw (url_parse (u_href url)) (TypeError "Invalid URL").

Definition deriveRestoreDatabaseUrl (databaseUrl suffix : string) : pure string :=
  let* url := parseDatabaseUrl databaseUrl "DATABASE_URL" in
  let* databaseName := getDatabaseName url "DATABASE_URL" in
  let* restoreUrl := reparse url in
  ret (u_href (set_pathname restoreUrl ("/" +:+ encodeURIComponent (databaseName +:+ suffix)))).

Definition deriveAdminDatabaseUrl (databaseUrl : string) : pure string :=
  let* url := parseDatabaseUrl databaseUrl "restore database URL" in
  let* adminUrl := reparse url in
  ret (u_href (set_pathname adminUrl ("/" +:+ DEFAULT_ADMIN_DATABASE))).

Definition buildSchemaRehearsalConfig (env : ProcessEnv) (cwd : string) : pure SchemaRehearsalConfig :=
  let* databaseUrl := getRequiredEnv "DATABASE_URL" env in
  let restoreCommandTemplate := getOptionalEnv "SCHEMA_REHEARSAL_RESTORE_COMMAND" env in
  let* restoreDatabaseUrl :=
    match getOptionalEnv "SCHEMA_REHEARSAL_RESTORE_DATABASE_URL" env with
    | Some u => ret (Some u)
    | None =>
        match restoreCommandTemplate with
        | None =>
            let* u := deriveRestoreDatabaseUrl databaseUrl
              (default DEFAULT_RESTORE_DATABASE_SUFFIX
                 (getOptionalEnv "SCHEMA_REHEARSAL_RESTORE_DATABASE_SUFFIX" env)) in
            ret (Some u)
        | Some _ => ret None
        end
    end in
  let skipHttpChecks := bool_decide (getOptionalEnv "SCHEMA_REHEARSAL_SKIP_HTTP_CHECKS" env = Some "true") in
  let artifactRootDir :=
    path_resolve cwd (default DEFAULT_ARTIFACT_ROOT (getOptionalEnv "SCHEMA_REHEARSAL_ARTIFACT_DIR" env)) in
  let apiBaseUrl := getOptionalEnv "API_BASE_URL" env in
  let check_url key path :=
    if skipHttpChecks then ret None
    else match getOptionalEnv key env with
         | Some u => ret (Some u)
         | None => deriveUrl apiBaseUrl path
         end in
  let* restoreAdminDatabaseUrl :=
    match restoreCommandTemplate, restoreDatabaseUrl with
    | None, Some restoreUrl =>
        match getOptionalEnv "SCHEMA_REHEARSAL_ADMIN_DATABASE_URL" env with
        | Some u => ret (Some u)
        | None => let* u := deriveAdminDatabaseUrl restoreUrl in ret (Some u)
        end
    | _, _ => ret None
    end in
  let* liveUrl := check_url "SCHEMA_REHEARSAL_LIVE_URL" "/api/health/live" in
  let* readyUrl := check_url "SCHEMA_REHEARSAL_READY_URL" "/api/health/ready" in
  let* metricsUrl := check_url "SCHEMA_REHEARSAL_METRICS_URL" "/api/metrics" in
  ret {| src_cwd := cwd; src_databaseUrl := databaseUrl; src_restoreDatabaseUrl := restoreDatabaseUrl;
         src_restoreAdminDatabaseUrl := restoreAdminDatabaseUrl; src_artifactRootDir := artifactRootDir;
         src_runPaymentSmoke :=
           bool_decide (getOptionalEnv "SCHEMA_REHEARSAL_RUN_PAYMENT_SMOKE" env = Some "true");
         src_skipHttpChecks := skipHttpChecks; src_liveUrl := liveUrl; src_readyUrl := readyUrl;
         src_metricsUrl := metricsUrl;
         src_snapshotCommandTemplate := getOptionalEnv "SCHEMA_REHEARSAL_SNAPSHOT_COMMAND" env;
         src_restoreCommandTemplate := restoreCommandTemplate |}.

(** [s.replace(/[:.]/g, '-')] *)
Definition dashes (s : string) : string := replace_char "." "-" (replace_char ":" "-" s).

Definition createSchemaRehearsalContext (config : SchemaRehearsalConfig) (now : Z) : SchemaRehearsalContext :=
  let rehearsalId := dashes (toISOString now) in
  let artifactDir := path_join (src_artifactRootDir config) rehearsalId in
  {| sc_rehearsalId := rehearsalId; sc_artifactDir := artifactDir;
     sc_backupPath := path_join artifactDir DEFAULT_SNAPSHOT_FILE;
     sc_manifestPath := path_join artifactDir "manifest.json"; sc_logsDir := path_join artifactDir "logs" |}.

(* ------------------------------------------------------------------ *)
(** ** Commands                                                         *)

(** A custom command, with the values of its placeholders and the redacted ones. *)
Definition custom_command (template : string) (config : SchemaRehearsalConfig)
    (context : SchemaRehearsalContext) : CommandSpec :=
  let values databaseUrl restoreDatabaseUrl :=
    [("rehearsalId", sc_rehearsalId context); ("artifactDir", sc_artifactDir context);
     ("backupPath", sc_backupPath context); ("databaseUrl", databaseUrl);
     ("restoreDatabaseUrl", restoreDatabaseUrl)] in
  ShellCommand
    (applyTemplate template (values (src_databaseUrl config) (default "" (src_restoreDatabaseUrl config))))
    (applyTemplate template (values (redactDatabaseUrl (Some (src_databaseUrl config)))
                               (redactDatabaseUrl (src_restoreDatabaseUrl config)))).

Definition resolveSnapshotCommand (config : SchemaRehearsalConfig) (context : SchemaRehearsalContext)
  : CommandSpec :=
  match truthy (src_snapshotCommandTemplate config) with
  | Some template => custom_command template config context
  | None =>
      ExecCommand "pg_dump" ["--format=custom"; "--file"; sc_backupPath context; src_databaseUrl config]
        ("pg_dump --format=custom --file " +:+ sc_backupPath context +:+ " " +:+
           redactDatabaseUrl (Some (src_databaseUrl config))) None
  end.

Definition resolveRestoreCommand (config : SchemaRehearsalConfig) (context : SchemaRehearsalContext)
  : pure CommandSpec :=
  match truthy (src_restoreCommandTemplate config) with
  | Some template => ret (custom_command template config context)
  | None =>
      let* restoreUrl := or_throw (truthy (src_restoreDatabaseUrl config))
        (JsError "SCHEMA_REHEARSAL_RESTORE_DATABASE_URL is required unless SCHEMA_REHEARSAL_RESTORE_COMMAND is set.") in
      ret (ExecCommand "pg_restore"
        ["--clean"; "--if-exists"; "--no-owner"; "--no-privileges"; "--dbname=" +:+ restoreUrl;
         sc_backupPath context]
        ("pg_restore --clean --if-exists --no-owner --no-privileges --dbname=" +:+
           redactDatabaseUrl (Some restoreUrl) +:+ " " +:+ sc_backupPath context) None)
  end.

Definition terminateConnectionsSql (name : string) : string :=
  "SELECT pg_terminate_backend(pid) FROM pg_stat_activity WHERE datname = " +:+
  quotePostgresStringLiteral name +:+ " AND pid <> pg_backend_pid();".
Definition dropDatabaseSql (name : string) : string :=
  "DROP DATABASE IF EXISTS " +:+ quotePostgresIdentifier name +:+ ";".
Definition createDatabaseSql (name : string) : string :=
  "CREATE DATABASE " +:+ quotePostgresIdentifier name +:+ ";".

Definition resolvePrepareRestoreCommand (config : SchemaRehearsalConfig) : pure CommandSpec :=
  let* restoreUrl :=
    match truthy (src_restoreCommandTemplate config), truthy (src_restoreDatabaseUrl config) with
    | None, Some restoreUrl => ret restoreUrl
    | _, _ => throw (JsError "Built-in restore database preparation requires SCHEMA_REHEARSAL_RESTORE_DATABASE_URL and no custom restore command.")
    end in
  let* adminUrl :=
    match src_restoreAdminDatabaseUrl config with
    | Some u => ret u
    | None => deriveAdminDatabaseUrl restoreUrl
    end in
  let* same := targetsSameDatabase adminUrl restoreUrl in
  do* throw_if same (JsError "SCHEMA_REHEARSAL_ADMIN_DATABASE_URL must point to a maintenance database, not the restore target.") in
  let* name := getDatabaseName_of restoreUrl "SCHEMA_REHEARSAL_RESTORE_DATABASE_URL" in
  ret (ExecCommand "psql"
    ["--dbname"; adminUrl; "-v"; "ON_ERROR_STOP=1"; "-c"; terminateConnectionsSql name; "-c";
     dropDatabaseSql name; "-c"; createDatabaseSql name]
    ("psql --dbname " +:+ redactDatabaseUrl (Some adminUrl) +:+ " -v ON_ERROR_STOP=1 -c " +:+
     terminateConnectionsSql name +:+ " -c " +:+ dropDatabaseSql name +:+ " -c " +:+ createDatabaseSql name)
    None).

Definition resolvePrismaCommand (args : list string) (databaseUrl : option string) : CommandSpec :=
  ExecCommand execPath (prismaCli :: args)
    ("node " +:+ prismaCli +:+ " " +:+ String.concat " " args) (truthy databaseUrl).

Definition resolvePaymentSmokeCommand : CommandSpec :=
  ExecCommand (if win32 then "npm.cmd" else "npm") ["run"; "payments:smoke"] "npm run payments:smoke" None.

Definition usesBuiltInRestore (config : SchemaRehearsalConfig) : bool :=
  bool_decide (truthy (src_restoreCommandTemplate config) = None).

End Script.

(* ------------------------------------------------------------------ *)
(** ** The run                                                          *)

(** What the script does to the outside; [Failed a]: the call for [a] threw. *)
Inductive action : Type :=
| LookedFor (command : string)
| MadeDirectory (dir : string)
| Ran (spec : CommandSpec)
| Requested (url : string)
| WroteLog (file content : string)
| WroteManifest (file : string) (m : Manifest)
| Printed (text : string)
| Failed (a : action).

(** What the outside answers, given what was done so far: whether a command is there,
    the exit code and the output of a command, the status and the body of a URL, the
    time, and what [mkdirSync] or [writeFileSync] throws, if it does. *)
Record outside : Type := {
  out_has : string -> bool;
  out_run : list action -> CommandSpec -> option Z * string * string;
  out_get : list action -> string -> option (Z * string);
  out_now : list action -> Z;
  out_disk : list action -> action -> option error
}.

(** The actions so far, and the steps of the manifest. *)
Record progress : Type := {
  pg_done : list action;
  pg_steps : list StepResult
}.

Definition script (A : Type) : Type := prog progress error A.

Definition act (a : action) : script unit :=
  modify (fun s => {| pg_done := pg_done s ++ [a]; pg_steps := pg_steps s |}).

Definition push_step (r : StepResult) : script unit :=
  modify (fun s => {| pg_done := pg_done s; pg_steps := pg_steps s ++ [r] |}).

(** [l.filter(Boolean).join('\n')] *)
Definition lines_of (l : list string) : string :=
  String.concat (String LF "") (filter (fun s => s <> "") l).

Section Run.
Context `{Platform} (out : outside).

Definition now : script Z := reads (fun s => out_now out (pg_done s)).

(** [mkdirSync] and [writeFileSync] *)
Definition on_disk (a : action) : script unit :=
  let* failure := reads (fun s => out_disk out (pg_done s) a) in
  match failure with
  | None => act a
  | Some e => do* act (Failed a) in throw e
  end.

Definition ensureCommandAvailable (command : string) : script unit :=
  do* act (LookedFor command) in
  throw_if (negb (out_has out command))
    (JsError ("Required command not found on PATH: " +:+ command +:+ ". Configure a custom schema rehearsal command if your environment uses platform-specific backup tooling.")).

(** [new URL(url)] of a check that is configured. *)
Definition assert_url (url : option string) : script unit :=
  match truthy url with
  | Some url => throw_if (bool_decide (url_parse url = None)) (TypeError "Invalid URL")
  | None => ret tt
  end.

Definition assertRehearsalPreconditions (config : SchemaRehearsalConfig) : script unit :=
  do* when (bool_decide (truthy (src_snapshotCommandTemplate config) = None))
        (ensureCommandAvailable "pg_dump") in
  do* (match truthy (src_restoreDatabaseUrl config) with
       | Some restoreUrl =>
           let* same := lift (targetsSameDatabase (src_databaseUrl config) restoreUrl) in
           throw_if same (JsError "SCHEMA_REHEARSAL_RESTORE_DATABASE_URL must point to a different database than DATABASE_URL.")
       | None => ret tt
       end) in
  do* when (usesBuiltInRestore config)
        (do* ensureCommandAvailable "pg_restore" in
         do* ensureCommandAvailable "psql" in
         do* lift (resolvePrepareRestoreCommand config) in ret tt) in
  when (negb (src_skipHttpChecks config))
    (do* assert_url (src_liveUrl config) in
     do* assert_url (src_readyUrl config) in
     assert_url (src_metricsUrl config)).

Definition executeCommand (spec : CommandSpec) (logFile : string) : script unit :=
  let* result := reads (fun s => out_run out (pg_done s) spec) in
  let '(status, stdout, stderr) := result in
  do* act (Ran spec) in
  do* on_disk (WroteLog logFile (lines_of ["$ " +:+ cs_display spec; stdout; stderr])) in
  throw_if (negb (bool_decide (status = Some 0)))
    (JsError ("Command failed: " +:+ cs_display spec +:+ ". See " +:+ logFile +:+ ".")).

Definition executeHttpCheck (name url logFile : string) : script unit :=
  let* answer := reads (fun s => out_get out (pg_done s) url) in
  do* act (Requested url) in
  let* response := or_throw answer (TypeError "fetch failed") in
  let (status, body) := response in
  do* on_disk (WroteLog logFile (String.concat (String LF "") ["GET " +:+ url; "status=" +:+ pretty status; body])) in
  throw_if (negb ((200 <=? status) && (status <=? 299)))
    (JsError ("Health check failed for " +:+ name +:+ ": " +:+ pretty status +:+ ". See " +:+ logFile +:+ ".")).

Definition log_of (name logsDir : string) : string := path_join logsDir (name +:+ ".log").

Definition runStep (name : string) (action : string -> script unit) (logsDir : string) : script unit :=
  let logFile := log_of name logsDir in
  catch
    (do* action logFile in push_step {| sr_name := name; sr_status := passed; sr_logFile := logFile |})
    (fun error =>
       do* push_step {| sr_name := name; sr_status := failed; sr_logFile := logFile |} in throw error).

(** The manifest at the start, and with the steps and the end of the run. *)
Definition new_manifest (config : SchemaRehearsalConfig) (context : SchemaRehearsalContext) (startedAt : Z)
  : Manifest :=
  {| mf_rehearsalId := sc_rehearsalId context; mf_startedAt := startedAt; mf_completedAt := None;
     mf_artifactDir := sc_artifactDir context; mf_backupPath := sc_backupPath context;
     mf_databaseUrl := redactDatabaseUrl (Some (src_databaseUrl config));
     mf_restoreDatabaseUrl := redactDatabaseUrl (src_restoreDatabaseUrl config);
     mf_restoreAdminDatabaseUrl := redactDatabaseUrl (src_restoreAdminDatabaseUrl config);
     mf_runPaymentSmoke := src_runPaymentSmoke config; mf_skipHttpChecks := src_skipHttpChecks config;
     mf_liveUrl := src_liveUrl config; mf_readyUrl := src_readyUrl config;
     mf_metricsUrl := src_metricsUrl config; mf_steps := [];
     mf_manualFollowUps :=
       ["Redeploy the previous application artifact using the environment deployment tooling after validating the restore target.";
        "Re-run application health checks and pilot smoke checks against the previous artifact deployment before clearing the rehearsal."] |}.

Definition closed_manifest (m : Manifest) (steps : list StepResult) (completedAt : Z) : Manifest :=
  {| mf_rehearsalId := mf_rehearsalId m; mf_startedAt := mf_startedAt m; mf_completedAt := Some completedAt;
     mf_artifactDir := mf_artifactDir m; mf_backupPath := mf_backupPath m;
     mf_databaseUrl := mf_databaseUrl m; mf_restoreDatabaseUrl := mf_restoreDatabaseUrl m;
     mf_restoreAdminDatabaseUrl := mf_restoreAdminDatabaseUrl m;
     mf_runPaymentSmoke := mf_runPaymentSmoke m; mf_skipHttpChecks := mf_skipHttpChecks m;
     mf_liveUrl := mf_liveUrl m; mf_readyUrl := mf_readyUrl m; mf_metricsUrl := mf_metricsUrl m;
     mf_steps := steps; mf_manualFollowUps := mf_manualFollowUps m |}.

Definition close_manifest (file : string) (m : Manifest) : script unit :=
  let* completedAt := now in
  let* steps := reads pg_steps in
  on_disk (WroteManifest file (closed_manifest m steps completedAt)).

(** A step that runs a command, built when its turn comes. *)
Definition command_step (name : string) (spec : pure CommandSpec) (logsDir : string) : script unit :=
  runStep name (fun logFile => let* c := lift spec in executeCommand c logFile) logsDir.

Definition http_step (name label : string) (url : option string) (logsDir : string) : script unit :=
  match truthy url with
  | Some url => runStep name (fun logFile => executeHttpCheck label url logFile) logsDir
  | None => ret tt
  end.

(** The [try] of [runRehearsal]. *)
Definition rehearsal_steps (config : SchemaRehearsalConfig) (context : SchemaRehearsalContext) : script unit :=
  let logsDir := sc_logsDir context in
  do* command_step "snapshot" (ret (resolveSnapshotCommand config context)) logsDir in
  do* command_step "prisma-migrate-status" (ret (resolvePrismaCommand ["migrate"; "status"] None)) logsDir in
  do* command_step "prisma-migrate-deploy" (ret (resolvePrismaCommand ["migrate"; "deploy"] None)) logsDir in
  do* when (usesBuiltInRestore config)
        (command_step "prepare-restore-database" (resolvePrepareRestoreCommand config) logsDir) in
  do* http_step "health-live" "live" (src_liveUrl config) logsDir in
  do* http_step "health-ready" "ready" (src_readyUrl config) logsDir in
  do* http_step "metrics" "metrics" (src_metricsUrl config) logsDir in
  do* when (src_runPaymentSmoke config)
        (command_step "payment-smoke" (ret resolvePaymentSmokeCommand) logsDir) in
  do* command_step "restore" (resolveRestoreCommand config context) logsDir in
  match truthy (src_restoreDatabaseUrl config) with
  | Some restoreUrl =>
      command_step "restore-prisma-status"
        (ret (resolvePrismaCommand ["migrate"; "status"] (Some restoreUrl))) logsDir
  | None =>
      let logFile := path_join logsDir "restore-prisma-status.log" in
      do* push_step {| sr_name := "restore-prisma-status"; sr_status := skipped; sr_logFile := logFile |} in
      on_disk (WroteLog logFile "Skipped built-in restore verification because no restore database URL was configured.")
  end.

Definition runRehearsal (config : SchemaRehearsalConfig) : script unit :=
  do* assertRehearsalPreconditions config in
  let* at_ := now in
  let context := createSchemaRehearsalContext config at_ in
  do* on_disk (MadeDirectory (sc_logsDir context)) in
  let* startedAt := now in
  let manifest := new_manifest config context startedAt in
  do* on_disk (WroteManifest (sc_manifestPath context) manifest) in
  catch
    (do* rehearsal_steps config context in
     do* close_manifest (sc_manifestPath context) manifest in
     act (Printed ("Schema rehearsal completed. Artifacts: " +:+ sc_artifactDir context)))
    (fun error => do* close_manifest (sc_manifestPath context) manifest in throw error).

(* ------------------------------------------------------------------ *)
(** ** The plan                                                         *)

(** What a resolution would show: its display or its error. *)
Definition described (spec : pure CommandSpec) : string :=
  match (spec tt).1 with Ok c => cs_display c | Err e => message e end.

Definition describePrepareRestoreStep (config : SchemaRehearsalConfig) : string :=
  if usesBuiltInRestore config then described (resolvePrepareRestoreCommand config)
  else "skipped because a custom restore command is configured".

Definition or_not_configured (s : string) : string := if bool_decide (s = "") then "not configured" else s.

Definition bool_text (b : bool) : string := if b then "true" else "false".

Definition plan_lines (config : SchemaRehearsalConfig) (context : SchemaRehearsalContext) : list string :=
  ["Schema rehearsal plan";
   "rehearsal_id: " +:+ sc_rehearsalId context;
   "artifact_dir: " +:+ sc_artifactDir context;
   "backup_path: " +:+ sc_backupPath context;
   "database_url: " +:+ redactDatabaseUrl (Some (src_databaseUrl config));
   "restore_database_url: " +:+ or_not_configured (redactDatabaseUrl (src_restoreDatabaseUrl config));
   "restore_admin_database_url: " +:+ or_not_configured (redactDatabaseUrl (src_restoreAdminDatabaseUrl config));
   "run_payment_smoke: " +:+ bool_text (src_runPaymentSmoke config);
   "skip_http_checks: " +:+ bool_text (src_skipHttpChecks config);
   "live_url: " +:+ default "not configured" (src_liveUrl config);
   "ready_url: " +:+ default "not configured" (src_readyUrl config);
   "metrics_url: " +:+ default "not configured" (src_metricsUrl config);
   "snapshot_step: " +:+ cs_display (resolveSnapshotCommand config context);
   "prepare_restore_step: " +:+ describePrepareRestoreStep config;
   "restore_step: " +:+ described (resolveRestoreCommand config context);
   "manual_follow_up: redeploy the previous application artifact with platform tooling after restore verification"].

Definition printPlan (config : SchemaRehearsalConfig) : script unit :=
  let* at_ := now in
  act (Printed (String.concat (String LF "") (plan_lines config (createSchemaRehearsalContext config at_)))).

(** [main], with the files of the directory, the environment and the arguments. *)
Definition main (files : string -> option string) (env : ProcessEnv) (argv : list string) (cwd : string)
  : script unit :=
  let env := loadLocalEnvFiles files env in
  let* mode := lift (parseMode argv) in
  let* config := lift (buildSchemaRehearsalConfig env cwd) in
  match mode with
  | plan => printPlan config
  | rehearse => runRehearsal config
  end.

End Run.

(* ------------------------------------------------------------------ *)
(** ** Steps in order                                                   *)

(** The steps the script plans. *)
Inductive planned : Type :=
| PCommand (name : string) (spec : pure CommandSpec)
| PHttp (name label url : string)
| PSkip (name : string).

Definition planned_name (p : planned) : string :=
  match p with PCommand name _ | PHttp name _ _ | PSkip name => name end.

(** The commands and requests of a step. *)
Definition touched (p : planned) : list (CommandSpec + string) :=
  match p with
  | PCommand _ spec => match (spec tt).1 with Ok c => [inl c] | Err _ => [] end
  | PHttp _ _ url => [inr url]
  | PSkip _ => []
  end.

Definition touches_of (l : list action) : list (CommandSpec + string) :=
  omap (fun a => match a with Ran c => Some (inl c) | Requested u => Some (inr u) | _ => None end) l.

Arguments touches_of !l /.

Lemma touches_of_app l1 l2 : touches_of (l1 ++ l2) = touches_of l1 ++ touches_of l2.
Proof. apply omap_app. Qed.

(** The outside answered an action well: the exit code is 0, the status is a 2xx, and
    nothing threw. *)
Definition answered_well (out : outside) (h : list action) (a : action) : bool :=
  match a with
  | Ran c => bool_decide ((out_run out h c).1.1 = Some 0)
  | Requested u => match out_get out h u with Some (status, _) => (200 <=? status) && (status <=? 299) | None => false end
  | Failed _ => false
  | _ => true
  end.

(** All actions of [l], after those of [h]. *)
Fixpoint all_well (out : outside) (h l : list action) : bool :=
  match l with
  | [] => true
  | a :: l => answered_well out h a && all_well out (h ++ [a]) l
  end.

Lemma all_well_app out h l1 l2 : all_well out h (l1 ++ l2) = all_well out h l1 && all_well out (h ++ l1) l2.
Proof.
  revert h. induction l1 as [| a l1 IH]; intros h; cbn; [by rewrite app_nil_r |].
  by rewrite IH, <- andb_assoc, <- app_assoc.
Qed.

Lemma for_each_app {S E A} (l1 l2 : list A) (f : A -> prog S E unit) s :
  for_each (l1 ++ l2) f s = bind (for_each l1 f) (fun _ => for_each l2 f) s.
Proof.
  revert s. induction l1 as [| x l1 IH]; intros s; [done |]. cbn. unfold bind in *.
  destruct (f x s) as [[[] | e] s']; [apply IH | done].
Qed.

Section Order.
Context `{Platform} (out : outside).

Definition planned_http (name label : string) (url : option string) : list planned :=
  match truthy url with Some url => [PHttp name label url] | None => [] end.

Definition planned_steps (config : SchemaRehearsalConfig) (context : SchemaRehearsalContext) : list planned :=
  [PCommand "snapshot" (ret (resolveSnapshotCommand config context));
   PCommand "prisma-migrate-status" (ret (resolvePrismaCommand ["migrate"; "status"] None));
   PCommand "prisma-migrate-deploy" (ret (resolvePrismaCommand ["migrate"; "deploy"] None))] ++
  (if usesBuiltInRestore config
   then [PCommand "prepare-restore-database" (resolvePrepareRestoreCommand config)] else []) ++
  planned_http "health-live" "live" (src_liveUrl config) ++
  planned_http "health-ready" "ready" (src_readyUrl config) ++
  planned_http "metrics" "metrics" (src_metricsUrl config) ++
  (if src_runPaymentSmoke config then [PCommand "payment-smoke" (ret resolvePaymentSmokeCommand)] else []) ++
  [PCommand "restore" (resolveRestoreCommand config context)] ++
  [match truthy (src_restoreDatabaseUrl config) with
   | Some restoreUrl =>
       PCommand "restore-prisma-status" (ret (resolvePrismaCommand ["migrate"; "status"] (Some restoreUrl)))
   | None => PSkip "restore-prisma-status"
   end].

Definition run_planned (logsDir : string) (p : planned) : script unit :=
  match p with
  | PCommand name spec => command_step out name spec logsDir
  | PHttp name label url => runStep name (fun logFile => executeHttpCheck out label url logFile) logsDir
  | PSkip name =>
      do* push_step {| sr_name := name; sr_status := skipped; sr_logFile := path_join logsDir (name +:+ ".log") |} in
      on_disk out (WroteLog (path_join logsDir (name +:+ ".log")) "Skipped built-in restore verification because no restore database URL was configured.")
  end.

Lemma bind_congr {S E A B} (m m' : prog S E A) (k k' : A -> prog S E B) s :
  (forall s, m s = m' s) -> (forall a s, k a s = k' a s) -> bind m k s = bind m' k' s.
Proof. intros Hm Hk. unfold bind. rewrite Hm. destruct (m' s) as [[a | e] s']; [apply Hk | done]. Qed.

Lemma for_each_one {S E A} (x : A) (f : A -> prog S E unit) s : for_each [x] f s = f x s.
Proof. cbn. unfold bind. by destruct (f x s) as [[[] | e] s']. Qed.

(** The code runs the steps of the plan, one after the other. *)
Lemma rehearsal_steps_planned config context s :
  rehearsal_steps out config context s =
  for_each (planned_steps config context) (run_planned (sc_logsDir context)) s.
Proof.
  assert (Hh : forall name label url s, http_step out name label url (sc_logsDir context) s =
    for_each (planned_http name label url) (run_planned (sc_logsDir context)) s).
  { intros name label url s0. unfold http_step, planned_http. destruct (truthy url); [| done].
    by rewrite for_each_one. }
  assert (Hw : forall (b : bool) name spec s,
    when b (command_step out name spec (sc_logsDir context)) s =
    for_each (if b then [PCommand name spec] else []) (run_planned (sc_logsDir context)) s).
  { intros [] name spec s0; [by rewrite for_each_one | done]. }
  unfold rehearsal_steps, planned_steps. cbv zeta. cbn [app for_each].
  do 3 (apply bind_congr; [done | intros _ ?]).
  repeat (rewrite for_each_app; apply bind_congr; [intros ?; first [apply Hh | apply Hw] | intros _ ?]).
  cbn [app]. cbn [for_each]. apply bind_congr; [done | intros _ t].
  destruct (truthy (src_restoreDatabaseUrl config)) as [u |].
  - symmetry. exact (for_each_one (PCommand _ _) (run_planned (sc_logsDir context)) t).
  - symmetry. exact (for_each_one (PSkip "restore-prisma-status") (run_planned (sc_logsDir context)) t).
Qed.

(** What a step leaves in the manifest when it does not fail. *)
Definition done_result (logsDir : string) (p : planned) : StepResult :=
  {| sr_name := planned_name p; sr_status := match p with PSkip _ => skipped | _ => passed end;
     sr_logFile := log_of (planned_name p) logsDir |}.

(** And when it does: a skipped step can only fail to write its log. *)
Definition failed_result (logsDir : string) (p : planned) : StepResult :=
  {| sr_name := planned_name p; sr_status := match p with PSkip _ => skipped | _ => failed end;
     sr_logFile := log_of (planned_name p) logsDir |}.

(** From [s] to [s'] the script did [ts] to the outside. *)
Definition did (s s' : progress) (ts : list (CommandSpec + string)) : Prop :=
  exists h, pg_done s' = pg_done s ++ h /\ touches_of h = ts.

(** And all of it was answered well, when the earlier was. *)
Definition stays_well (s s' : progress) : Prop :=
  all_well out [] (pg_done s) = true -> all_well out [] (pg_done s') = true.

(** The command of a step could not be built. *)
Definition unbuilt (p : planned) : Prop :=
  exists name spec e, p = PCommand name spec /\ (spec tt).1 = Err e.

Definition is_well (s : progress) : Prop := all_well out [] (pg_done s) = true.

Lemma did_refl s : did s s [].
Proof. exists []. by rewrite app_nil_r. Qed.

Lemma did_trans s1 s2 s3 ts ts' : did s1 s2 ts -> did s2 s3 ts' -> did s1 s3 (ts ++ ts').
Proof.
  intros (h & H1 & <-) (h' & H2 & <-). exists (h ++ h'). by rewrite H2, H1, app_assoc, touches_of_app.
Qed.

Lemma did_act s s' ts a l :
  did s s' ts -> did s {| pg_done := pg_done s' ++ [a]; pg_steps := l |} (ts ++ touches_of [a]).
Proof. intros Hd. eapply did_trans; [exact Hd |]. by exists [a]. Qed.

Lemma on_disk_wp a s (Q : unit -> progress -> Prop) X :
  Q tt {| pg_done := pg_done s ++ [a]; pg_steps := pg_steps s |} ->
  (forall e, X e {| pg_done := pg_done s ++ [Failed a]; pg_steps := pg_steps s |}) ->
  wp (on_disk out a) Q X s.
Proof.
  intros HQ HX. unfold on_disk, act. wp_step. wp_step. destruct (out_disk _ _ _); wp_run; [apply HX | exact HQ].
Qed.

Lemma all_well_snoc h a : all_well out [] (h ++ [a]) = all_well out [] h && answered_well out h a.
Proof. rewrite all_well_app. cbn. by rewrite andb_true_r. Qed.

Lemma executeCommand_wp c logFile s :
  wp (executeCommand out c logFile)
    (fun _ s' => pg_steps s' = pg_steps s /\ did s s' [inl c] /\ stays_well s s')
    (fun _ s' => pg_steps s' = pg_steps s /\ did s s' [inl c] /\ ~ is_well s') s.
Proof.
  unfold executeCommand, act, stays_well, is_well. wp_step. wp_step.
  destruct (out_run _ _ _) as [[status stdout] stderr] eqn:Hrun. do 2 wp_step. wp_step.
  assert (Hd : forall a l, touches_of [a] = [] ->
    did s {| pg_done := (pg_done s ++ [Ran c]) ++ [a]; pg_steps := l |} [inl c]).
  { intros a l Ha. exists ([Ran c] ++ [a]). by rewrite touches_of_app, Ha, app_assoc. }
  apply on_disk_wp; [| intros e]; cbn [pg_steps pg_done].
  - wp_step; (split; [done |]; split; [by apply Hd |]); cbn; rewrite !all_well_snoc; cbn; rewrite Hrun; cbn.
    + apply negb_true_iff in H0 as ->. by rewrite andb_false_r.
    + apply negb_false_iff in H0 as ->. by intros ->.
  - split; [done |]. split; [by apply Hd |]. cbn. by rewrite all_well_snoc, andb_false_r.
Qed.

Lemma executeHttpCheck_wp name url logFile s :
  wp (executeHttpCheck out name url logFile)
    (fun _ s' => pg_steps s' = pg_steps s /\ did s s' [inr url] /\ stays_well s s')
    (fun _ s' => pg_steps s' = pg_steps s /\ did s s' [inr url] /\ ~ is_well s') s.
Proof.
  unfold executeHttpCheck, act, stays_well, is_well. do 5 wp_step. wp_step.
  { split; [done |]. split; [by exists [Requested url] |]. cbn. rewrite all_well_snoc. cbn.
    by rewrite H0, andb_false_r. }
  assert (Hd : forall b l, touches_of [b] = [] ->
    did s {| pg_done := (pg_done s ++ [Requested url]) ++ [b]; pg_steps := l |} [inr url]).
  { intros b l Hb. exists ([Requested url] ++ [b]).
    by rewrite touches_of_app, Hb, app_assoc. }
  destruct a as [status body]. wp_step. apply on_disk_wp; [| intros e]; cbn [pg_steps pg_done].
  - wp_step; (split; [done |]; split; [by apply Hd |]); cbn; rewrite !all_well_snoc; cbn; rewrite H0.
    + apply negb_true_iff in H1 as ->. by rewrite andb_false_r.
    + apply negb_false_iff in H1 as ->. by intros ->.
  - split; [done |]. split; [by apply Hd |]. cbn. by rewrite all_well_snoc, andb_false_r.
Qed.

Lemma run_planned_wp logsDir p s :
  wp (run_planned logsDir p)
    (fun _ s' => pg_steps s' = pg_steps s ++ [done_result logsDir p] /\ did s s' (touched p) /\ stays_well s s')
    (fun _ s' => pg_steps s' = pg_steps s ++ [failed_result logsDir p] /\ did s s' (touched p) /\
       (is_well s' -> unbuilt p)) s.
Proof.
  assert (Hrun : forall name action ts s, planned_name p = name ->
    wp (action (log_of name logsDir))
      (fun _ s' => pg_steps s' = pg_steps s /\ did s s' ts /\ stays_well s s')
      (fun _ s' => pg_steps s' = pg_steps s /\ did s s' ts /\ (is_well s' -> unbuilt p)) s ->
    (match p with PSkip _ => False | _ => True end) ->
    wp (runStep name action logsDir)
      (fun _ s' => pg_steps s' = pg_steps s ++ [done_result logsDir p] /\ did s s' ts /\ stays_well s s')
      (fun _ s' => pg_steps s' = pg_steps s ++ [failed_result logsDir p] /\ did s s' ts /\
         (is_well s' -> unbuilt p)) s).
  { intros name action ts s0 <- Ha Hp. unfold runStep, push_step. do 2 wp_step.
    eapply wp_mono; [apply Ha | cbn beta | cbn beta].
    - intros _ s' (Hs & Hd & Hw). wp_run. unfold done_result. cbn. rewrite Hs. by destruct p.
    - intros e s' (Hs & Hd & Hw). wp_run. unfold failed_result. cbn. rewrite Hs. by destruct p. }
  destruct p as [name spec | name label url | name]; cbn [run_planned touched].
  - apply Hrun; [done | | done]. wp_step. apply wp_lifted. unfold wp at 1.
    destruct (spec tt) as [[c | e] []] eqn:Hspec; cbn [fst].
    + eapply wp_mono; [apply executeCommand_wp | done | naive_solver].
    + split; [done |]. split; [apply did_refl |]. intros _. exists name, spec, e. by rewrite Hspec.
  - apply Hrun; [done | | done]. eapply wp_mono; [apply executeHttpCheck_wp | done | naive_solver].
  - unfold push_step, stays_well, is_well. do 2 wp_step. apply on_disk_wp; [| intros e]; cbn;
      (split; [done |]; split; [eapply (did_act s s []), did_refl |]); rewrite all_well_snoc; cbn.
    + by rewrite andb_true_r.
    + by rewrite andb_false_r.
Qed.

(** The first steps of a plan went well. *)
Definition first_went_well (l : list planned) (s : progress) : Prop :=
  exists h rest, pg_done s = h ++ rest /\ touches_of h = l ≫= touched /\ all_well out [] h = true.

(** All steps pass, or the first that fails is the last. *)
Lemma run_all_wp logsDir l s :
  wp (for_each l (run_planned logsDir))
    (fun _ s' => pg_steps s' = pg_steps s ++ (done_result logsDir <$> l) /\ did s s' (l ≫= touched) /\
       stays_well s s')
    (fun _ s' => exists before p after s1, l = before ++ p :: after /\
       pg_steps s' = pg_steps s ++ (done_result logsDir <$> before) ++ [failed_result logsDir p] /\
       did s s1 (before ≫= touched) /\ stays_well s s1 /\ did s1 s' (touched p) /\
       (is_well s' -> unbuilt p)) s.
Proof.
  revert s. induction l as [| p l IH]; intros s; cbn [for_each].
  - unfold stays_well. wp_step. cbn. rewrite app_nil_r. auto using did_refl.
  - wp_step. eapply wp_mono; [apply run_planned_wp | cbn beta | cbn beta].
    + intros _ s1 (Hs & Hd & Hw). eapply wp_mono; [apply IH | cbn beta | cbn beta].
      * intros _ s2 (Hs2 & Hd2 & Hw2). unfold stays_well in *. rewrite Hs2, Hs. cbn.
        rewrite <- !app_assoc. split_and!; [done | by eapply did_trans | auto].
      * intros _ s2 (before & q & after & s3 & -> & Hs2 & Hd3 & Hw3 & Hd2 & Hu).
        exists (p :: before), q, after, s3. unfold stays_well in *. rewrite Hs2, Hs. cbn.
        rewrite <- !app_assoc. split_and!; [done | done | by eapply did_trans | auto | done | done].
    + intros _ s1 (Hs & Hd & Hu). exists [], p, l, s. rewrite Hs. cbn. split_and!; auto using did_refl.
      by unfold stays_well.
Qed.

(* ------------------------------------------------------------------ *)
(** ** The checks                                                       *)

(** What the checks before a run ask for. *)
Record checks_passed (config : SchemaRehearsalConfig) : Prop := {
  cp_snapshot : truthy (src_snapshotCommandTemplate config) = None -> out_has out "pg_dump" = true;
  cp_target : forall u, truthy (src_restoreDatabaseUrl config) = Some u ->
    targetsSameDatabase (src_databaseUrl config) u tt = (Ok false, tt);
  cp_restore : usesBuiltInRestore config = true ->
    out_has out "pg_restore" = true /\ out_has out "psql" = true /\
    exists c, resolvePrepareRestoreCommand config tt = (Ok c, tt);
  cp_urls : src_skipHttpChecks config = false ->
    forall u, truthy (src_liveUrl config) = Some u \/ truthy (src_readyUrl config) = Some u \/
      truthy (src_metricsUrl config) = Some u -> url_parse u <> None
}.

(** The checks only look for commands. *)
Definition only_looked (s s' : progress) : Prop :=
  pg_steps s' = pg_steps s /\ exists commands, pg_done s' = pg_done s ++ (LookedFor <$> commands).

Lemma only_looked_refl s : only_looked s s.
Proof. split; [done | exists []; by rewrite app_nil_r]. Qed.

Lemma only_looked_more s s' command :
  only_looked s s' -> only_looked s {| pg_done := pg_done s' ++ [LookedFor command]; pg_steps := pg_steps s' |}.
Proof.
  intros [Hs [cs Hc]]. split; [done |]. exists (cs ++ [command]). cbn. by rewrite Hc, fmap_app, <- app_assoc.
Qed.

Lemma only_looked_quiet commands :
  touches_of (LookedFor <$> commands) = [] /\ forall h, all_well out h (LookedFor <$> commands) = true.
Proof.
  induction commands as [| c cs [IH1 IH2]]; [done |]. split; [exact IH1 | intros h; apply IH2].
Qed.

(** A check that asks for [P]: it passes exactly when [P] holds. *)
Definition asks (s0 : progress) (P : Prop) (m : script unit) : Prop :=
  forall s, only_looked s0 s ->
    wp m (fun _ s' => only_looked s0 s' /\ P) (fun _ s' => only_looked s0 s' /\ ~ P) s.

Lemma asks_seq s0 (P P' : Prop) m m' : asks s0 P m -> asks s0 P' m' -> asks s0 (P /\ P') (do* m in m').
Proof.
  intros Hm Hm' s Hs. wp_step. eapply wp_mono; [by apply Hm | cbn beta | cbn beta; naive_solver].
  intros _ s1 [H1 HP]. eapply wp_mono; [by apply Hm' | |]; cbn beta; naive_solver.
Qed.

Lemma asks_when s0 (b : bool) (P : Prop) m : asks s0 P m -> asks s0 (b = true -> P) (when b m).
Proof.
  intros Hm s Hs. destruct b; cbn [when].
  - eapply wp_mono; [by apply Hm | |]; cbn beta; naive_solver.
  - by wp_step.
Qed.

Lemma asks_command s0 command : asks s0 (out_has out command = true) (ensureCommandAvailable out command).
Proof.
  intros s Hs. unfold ensureCommandAvailable, act. do 2 wp_step. wp_step.
  - apply negb_true_iff in H0. rewrite H0. split; [by apply only_looked_more | done].
  - apply negb_false_iff in H0. split; [by apply only_looked_more | done].
Qed.

Lemma asks_url s0 url : asks s0 (forall u, truthy url = Some u -> url_parse u <> None) (assert_url url).
Proof.
  intros s Hs. unfold assert_url. destruct (truthy url) as [u |]; wp_step; (split; [done |]); [| | done].
  - apply bool_decide_eq_true in H0. intros HP. by apply (HP u).
  - apply bool_decide_eq_false in H0. by intros u' [= <-].
Qed.

Lemma asks_iff s0 (P P' : Prop) m : (P <-> P') -> asks s0 P m -> asks s0 P' m.
Proof. intros HP Hm s Hs. eapply wp_mono; [by apply Hm | |]; cbn beta; naive_solver. Qed.

Lemma asks_other_target s0 config :
  asks s0 (forall u, truthy (src_restoreDatabaseUrl config) = Some u ->
             targetsSameDatabase (src_databaseUrl config) u tt = (Ok false, tt))
    (match truthy (src_restoreDatabaseUrl config) with
     | Some restoreUrl =>
         let* same := lift (targetsSameDatabase (src_databaseUrl config) restoreUrl) in
         throw_if same (JsError "SCHEMA_REHEARSAL_RESTORE_DATABASE_URL must point to a different database than DATABASE_URL.")
     | None => ret tt
     end).
Proof.
  intros s Hs. destruct (truthy (src_restoreDatabaseUrl config)) as [u |]; wp_step; [| done].
  apply wp_lift_eq; [intros same Hsame; wp_step | intros e He]; (split; [done |]).
  - intros HP. specialize (HP u eq_refl). congruence.
  - intros u' [= <-]. congruence.
  - intros HP. specialize (HP u eq_refl). congruence.
Qed.

Lemma asks_prepare s0 config :
  asks s0 (exists c, resolvePrepareRestoreCommand config tt = (Ok c, tt))
    (do* lift (resolvePrepareRestoreCommand config) in ret tt).
Proof.
  intros s Hs. wp_step. apply wp_lift_eq; [intros c Hc; wp_step | intros e He]; (split; [done |]); [by eexists |].
  intros [c Hc]. congruence.
Qed.

Lemma assertRehearsalPreconditions_asks config s0 :
  asks s0 (checks_passed config) (assertRehearsalPreconditions out config).
Proof.
  eapply asks_iff; cycle 1.
  { unfold assertRehearsalPreconditions. apply asks_seq; [apply asks_when, asks_command |].
    apply asks_seq; [apply asks_other_target |]. apply asks_seq; [apply asks_when |apply asks_when].
    - apply asks_seq; [apply asks_command |]. apply asks_seq; [apply asks_command | apply asks_prepare].
    - apply asks_seq; [apply asks_url |]. apply asks_seq; apply asks_url. }
  rewrite bool_decide_eq_true, negb_true_iff. split.
  - intros (H1 & H2 & H3 & H4). split; [done..|]. intros Hskip. specialize (H4 Hskip). naive_solver.
  - intros [H1 H2 H3 H4]. split_and!; try done. intros Hskip. specialize (H4 Hskip). naive_solver.
Qed.

(* ------------------------------------------------------------------ *)
(** ** The run in order                                                 *)

(** The last thing done is to write, or to fail to write, the closed manifest with these
    steps; [after] is what the success prints. *)
Definition recorded (config : SchemaRehearsalConfig) (context : SchemaRehearsalContext)
    (steps : list StepResult) (after : list action) (s : progress) : Prop :=
  exists h startedAt completedAt,
    let write := WroteManifest (sc_manifestPath context)
      (closed_manifest (new_manifest config context startedAt) steps completedAt) in
    pg_done s = h ++ write :: after \/ pg_done s = h ++ Failed write :: after.

(** What a run comes to. *)
Inductive rehearsed (config : SchemaRehearsalConfig) (s : progress) : outcome error unit -> Prop :=
| Refused e commands :
    ~ checks_passed config -> pg_done s = LookedFor <$> commands -> rehearsed config s (Err e)
| Unstarted e commands t startedAt :
    let context := createSchemaRehearsalContext config t in
    let mkdir := MadeDirectory (sc_logsDir context) in
    checks_passed config ->
    pg_done s = (LookedFor <$> commands) ++ [Failed mkdir] \/
    pg_done s = (LookedFor <$> commands) ++
      [mkdir; Failed (WroteManifest (sc_manifestPath context) (new_manifest config context startedAt))] ->
    rehearsed config s (Err e)
| Stopped e t before p after :
    let context := createSchemaRehearsalContext config t in
    checks_passed config ->
    planned_steps config context = before ++ p :: after ->
    touches_of (pg_done s) = (before ++ [p]) ≫= touched ->
    first_went_well before s -> (is_well s -> unbuilt p) ->
    recorded config context
      ((done_result (sc_logsDir context) <$> before) ++ [failed_result (sc_logsDir context) p]) [] s ->
    rehearsed config s (Err e)
| Unclosed e t :
    let context := createSchemaRehearsalContext config t in
    checks_passed config ->
    touches_of (pg_done s) = planned_steps config context ≫= touched ->
    first_went_well (planned_steps config context) s -> ~ is_well s ->
    recorded config context (done_result (sc_logsDir context) <$> planned_steps config context) [] s ->
    rehearsed config s (Err e)
| Completed t :
    let context := createSchemaRehearsalContext config t in
    checks_passed config ->
    touches_of (pg_done s) = planned_steps config context ≫= touched ->
    is_well s ->
    recorded config context (done_result (sc_logsDir context) <$> planned_steps config context)
      [Printed ("Schema rehearsal completed. Artifacts: " +:+ sc_artifactDir context)] s ->
    rehearsed config s (Ok tt).

Definition nothing_done : progress := {| pg_done := []; pg_steps := [] |}.

Lemma close_manifest_wp file m s (Q : unit -> progress -> Prop) X :
  (forall t, Q tt {| pg_done := pg_done s ++ [WroteManifest file (closed_manifest m (pg_steps s) t)];
                     pg_steps := pg_steps s |}) ->
  (forall e t, X e {| pg_done := pg_done s ++ [Failed (WroteManifest file (closed_manifest m (pg_steps s) t))];
                      pg_steps := pg_steps s |}) ->
  wp (close_manifest out file m) Q X s.
Proof. intros HQ HX. unfold close_manifest, now. do 4 wp_step. apply on_disk_wp; auto. Qed.

(** Closing the manifest after an error: whether the write goes through or not, the run
    ends in an error with the write as its last action. *)
Lemma close_after_error_wp file m e (Q : unit -> progress -> Prop) (X : error -> progress -> Prop) s :
  (forall e t, let w := WroteManifest file (closed_manifest m (pg_steps s) t) in
     X e {| pg_done := pg_done s ++ [w]; pg_steps := pg_steps s |} /\
     X e {| pg_done := pg_done s ++ [Failed w]; pg_steps := pg_steps s |}) ->
  wp (do* close_manifest out file m in throw e) Q X s.
Proof.
  intros HX. wp_step. apply close_manifest_wp; [intros t; wp_step | intros e' t]; eapply HX.
Qed.

(** A run that has touched nothing yet. *)
Definition fresh (s : progress) : Prop := touches_of (pg_done s) = [] /\ is_well s /\ pg_steps s = [].

Lemma did_touches s s' ts : touches_of (pg_done s) = [] -> did s s' ts -> touches_of (pg_done s') = ts.
Proof. intros Hs (h & -> & <-). by rewrite touches_of_app, Hs. Qed.

Lemma touches_quiet h a : touches_of [a] = [] -> touches_of (h ++ [a]) = touches_of h.
Proof. intros Ha. by rewrite touches_of_app, Ha, app_nil_r. Qed.

(** The [try] and its [catch]. *)
Lemma rehearsal_body_wp config t startedAt s :
  let context := createSchemaRehearsalContext config t in
  let manifest := new_manifest config context startedAt in
  checks_passed config -> fresh s ->
  wp (catch
        (do* rehearsal_steps out config context in
         do* close_manifest out (sc_manifestPath context) manifest in
         act (Printed ("Schema rehearsal completed. Artifacts: " +:+ sc_artifactDir context)))
        (fun error => do* close_manifest out (sc_manifestPath context) manifest in throw error))
    (fun _ s' => rehearsed config s' (Ok tt)) (fun e s' => rehearsed config s' (Err e)) s.
Proof.
  intros context manifest Hchecks (Ht & Hw & Hs). do 2 wp_step. apply (wp_eq _ _ _ _ _ (rehearsal_steps_planned _ _ _)).
  eapply wp_mono; [apply run_all_wp | cbn beta | cbn beta].
  - intros _ s2 (Hs2 & Hd & Hok). specialize (Hok Hw). rewrite Hs in Hs2. cbn [app] in Hs2.
    apply (did_touches _ _ _ Ht) in Hd. wp_step.
    assert (Hall : forall rest, first_went_well (planned_steps config context)
      {| pg_done := pg_done s2 ++ rest; pg_steps := pg_steps s2 |}) by (intros rest; by exists (pg_done s2), rest).
    apply close_manifest_wp; [intros t' | intros e' t'].
    + unfold act. wp_step. cbn [pg_done pg_steps]. rewrite Hs2. apply (Completed _ _ t).
      * done.
      * cbn [pg_done]. by rewrite !touches_quiet.
      * unfold is_well. cbn [pg_done]. by rewrite !all_well_snoc, Hok.
      * exists (pg_done s2), startedAt, t'. left. cbn [pg_done]. by rewrite <- app_assoc.
    + apply close_after_error_wp. intros e t''. cbn [pg_done pg_steps]. rewrite Hs2.
      split; (apply (Unclosed _ _ e t); [done | cbn [pg_done]; by rewrite !touches_quiet | | |]);
        try (rewrite <- Hs2, <- app_assoc; by apply Hall);
        try (unfold is_well; cbn [pg_done]; by rewrite !all_well_snoc, andb_false_r).
      * do 3 eexists. left. reflexivity.
      * do 3 eexists. right. reflexivity.
  - intros e s2 (before & p & after & s1 & Hl & Hs2 & Hd1 & Hw1 & Hd2 & Hu). specialize (Hw1 Hw).
    rewrite Hs in Hs2. cbn [app] in Hs2. pose proof (did_touches _ _ _ Ht (did_trans _ _ _ _ _ Hd1 Hd2)) as Hd.
    apply (did_touches _ _ _ Ht) in Hd1. destruct Hd2 as (h & Hh & _).
    apply close_after_error_wp. intros e' t'. cbn [pg_done pg_steps]. rewrite Hs2.
    split; (apply (Stopped _ _ e' t before p after); [done | done | cbn [pg_done]; rewrite touches_quiet by done;
      rewrite Hd, bind_app; cbn; by rewrite app_nil_r | | |]).
    all: try (exists (pg_done s1); eexists; split; [cbn [pg_done]; rewrite Hh, <- app_assoc; reflexivity | done]).
    all: try (unfold is_well; cbn [pg_done]; rewrite all_well_snoc; intros [??]%andb_true_iff; by apply Hu).
    + do 3 eexists. left. reflexivity.
    + do 3 eexists. right. reflexivity.
Qed.

(** The run, as [rehearsed] says. *)
Lemma runRehearsal_wp config :
  wp (runRehearsal out config) (fun _ s => rehearsed config s (Ok tt)) (fun e s => rehearsed config s (Err e))
    nothing_done.
Proof.
  unfold runRehearsal. wp_step.
  eapply wp_mono; [apply (assertRehearsalPreconditions_asks config nothing_done), only_looked_refl | |]; cbn beta;
    cycle 1.
  { intros e s [[_ [cs Hcs]] Hno]. by apply (Refused _ _ e cs). }
  intros _ s1 [[Hs1 [cs Hcs]] Hchecks]. cbn in Hs1, Hcs. unfold now. do 3 wp_step.
  destruct (only_looked_quiet cs) as (Hq & Hw).
  apply on_disk_wp; [| intros e]; cbn [pg_done pg_steps]; cycle 1.
  { apply (Unstarted _ _ e cs (out_now out (pg_done s1)) 0); [done |]. left. by rewrite Hcs. }
  do 3 wp_step. apply on_disk_wp; [| intros e]; cbn [pg_done pg_steps]; cycle 1.
  { eapply (Unstarted _ _ e cs (out_now out (pg_done s1))); [done |]. right. by rewrite Hcs, <- app_assoc. }
  apply rehearsal_body_wp; [done |]. unfold fresh, is_well. cbn [pg_done pg_steps].
  by rewrite Hcs, !touches_quiet, !all_well_snoc, Hw.
Qed.

(** C32: a rehearsal runs its planned steps in order and stops at the first that fails.
    It is refused exactly when one of the checks before it fails (a tool is missing, the
    restore database is the one of DATABASE_URL or cannot be prepared, a URL is not one),
    and then it has looked for tools and done nothing else. Past the checks, if its
    directory or its first manifest cannot be written it has run nothing. Otherwise its
    commands and requests are those of a prefix of the plan, all steps before the last
    answered well, and the last thing it does is to write the closed manifest (or fail
    to), with that prefix in it and the step that failed at the end. It ends well only
    when every step ran, every command exited with 0, every request got a 2xx and every
    write went through. *)
Theorem rehearsal_in_order config :
  let (r, s) := runRehearsal out config nothing_done in rehearsed config s r.
Proof.
  pose proof (runRehearsal_wp config) as Hwp. unfold wp in Hwp.
  by destruct (runRehearsal out config nothing_done) as [[[] | e] s].
Qed.

End Order.
