(* ===== verification/Smoke.v ===== *)
(** Smoke.v: the smoke test of the payment providers (src/scripts/payments-smoke.ts):
    which providers it tries, the checks before the first call, and the run.

    The script has its own copy of the functions that read the local environment files
    and the variables, line for line those of the rehearsal (Scripts.v). *)

From S2P Require Import Prelude Errors Values Hashing Context Redaction Config Scripts.

Local Open Scope Z_scope.

Definition loadLocalEnvFiles (files : string -> option string) (env : ProcessEnv) : ProcessEnv :=
  Scripts.loadLocalEnvFiles files env.
Definition getRequiredEnv (key : string) (env : ProcessEnv) : pure string := Scripts.getRequiredEnv key env.
Definition getOptionalEnv (key : string) (env : ProcessEnv) : option string := Scripts.getOptionalEnv key env.

Inductive SupportedPaymentProvider : Type := paystack | momo.

#[export] Instance SupportedPaymentProvider_eq_dec : EqDecision SupportedPaymentProvider.
Proof. solve_decision. Defined.

Definition provider_text (p : SupportedPaymentProvider) : string :=
  match p with paystack => "paystack" | momo => "momo" end.

Definition provider_of (s : string) : option SupportedPaymentProvider :=
  if bool_decide (s = "paystack") then Some paystack
  else if bool_decide (s = "momo") then Some momo
  else None.

Definition requiredEnvKeys (p : SupportedPaymentProvider) : list string :=
  match p with
  | paystack => ["PAYSTACK_SECRET_KEY"; "PAYMENT_SMOKE_PAYSTACK_EMAIL"]
  | momo => ["MTN_MOMO_API_KEY"; "MTN_MOMO_API_SECRET"; "MTN_MOMO_SUBSCRIPTION_KEY"; "MTN_MOMO_ENVIRONMENT";
             "PAYMENT_SMOKE_MOMO_PHONE"; "PAYMENT_SMOKE_MOMO_CURRENCY"]
  end.

Definition requiredCredentialKeys (p : SupportedPaymentProvider) : list string :=
  match p with
  | paystack => ["PAYSTACK_SECRET_KEY"]
  | momo => ["MTN_MOMO_API_KEY"; "MTN_MOMO_API_SECRET"; "MTN_MOMO_SUBSCRIPTION_KEY"]
  end.

(** [[...new Set(l)]] *)
Fixpoint distinct {A} `{EqDecision A} (l : list A) : list A :=
  match l with
  | [] => []
  | x :: l => x :: filter (fun y => y <> x) (distinct l)
  end.

Definition resolveSmokeProviders (env : ProcessEnv) : pure (list SupportedPaymentProvider) :=
  let explicitProviders := getOptionalEnv "PAYMENT_SMOKE_PROVIDERS" env in
  let pilotProviders := getOptionalEnv "PILOT_ALLOWED_PAYMENT_PROVIDERS" env in
  match (match explicitProviders with Some s => Some s | None => pilotProviders end) with
  | None => ret [paystack; momo]
  | Some raw =>
      let providers := filter (fun entry => entry <> "") ((fun entry => toLowerCase (trim entry)) <$> split_commas raw) in
      do* throw_if (bool_decide (providers = []))
            (JsError "PAYMENT_SMOKE_PROVIDERS must contain at least one provider when set.") in
      let invalid := filter (fun provider => provider_of provider = None) providers in
      do* throw_if (bool_decide (invalid <> []))
            (JsError ("Unsupported payment smoke provider(s): " +:+ join invalid +:+
                      ". Supported values: " +:+ join SUPPORTED_PAYMENT_PROVIDERS +:+ ".")) in
      ret (distinct (omap provider_of providers))
  end.

(** Which of the two environment files are there. *)
Definition envFilesPresent (files : string -> option string) : list string :=
  filter (fun fileName => files fileName <> None) [".env.local"; ".env"].

Definition assertRequiredEnvSet (files : string -> option string) (providers : list SupportedPaymentProvider)
    (env : ProcessEnv) : pure unit :=
  let missing := providers ≫= fun p => filter (fun key => getOptionalEnv key env = None) (requiredEnvKeys p) in
  throw_if (bool_decide (missing <> []))
    (JsError ("Missing required environment variables: " +:+ join missing +:+
              (if bool_decide (envFilesPresent files = [])
               then ". No .env or .env.local file was found in the workspace root." else ""))).

Definition placeholder_value (value : option string) : bool :=
  match value with
  | None => true
  | Some value => includes "replace-with-" value || bool_decide (value = "sk_test_replace_with_real_key")
  end.

Definition assertNonPlaceholderCredentials (providers : list SupportedPaymentProvider) (env : ProcessEnv)
  : pure unit :=
  let placeholderKeys :=
    providers ≫= fun p =>
      filter (fun key => placeholder_value (getOptionalEnv key env) = true) (requiredCredentialKeys p) in
  throw_if (bool_decide (placeholderKeys <> []))
    (JsError ("Replace placeholder provider credentials before running smoke validation: " +:+
              join (distinct placeholderKeys))).

Definition allowLive (env : ProcessEnv) : bool :=
  bool_decide (getOptionalEnv "PAYMENT_SMOKE_ALLOW_LIVE" env = Some "true").

(** [paystackKey?.startsWith('sk_live_')] *)
Definition live_paystack_key (env : ProcessEnv) : bool :=
  match getOptionalEnv "PAYSTACK_SECRET_KEY" env with
  | Some key => String.prefix "sk_live_" key
  | None => false
  end.

Definition assertSafeLiveUsage (providers : list SupportedPaymentProvider) (env : ProcessEnv) : pure unit :=
  do* throw_if (bool_decide (paystack ∈ providers) && live_paystack_key env && negb (allowLive env))
        (JsError "Refusing to run Paystack smoke against a live secret key without PAYMENT_SMOKE_ALLOW_LIVE=true.") in
  throw_if (bool_decide (momo ∈ providers) &&
            bool_decide (getOptionalEnv "MTN_MOMO_ENVIRONMENT" env = Some "production") && negb (allowLive env))
    (JsError "Refusing to run MoMo smoke against production without PAYMENT_SMOKE_ALLOW_LIVE=true.").

(* ------------------------------------------------------------------ *)
(** ** The run                                                          *)

(** The configuration object the adapters are given: its methods, those it has. *)
Record config_object : Type := {
  co_getOrThrow : string -> pure string;
  co_getOptional : option (string -> option string)
}.

(** The object has [getOrThrow] and nothing else. *)
Definition createConfigShim (env : ProcessEnv) : config_object :=
  {| co_getOrThrow key := getRequiredEnv key env; co_getOptional := None |}.

(** [this.configService.getOptional(key)] *)
Definition call_getOptional (config : config_object) (key : string) : pure (option string) :=
  match co_getOptional config with
  | Some getOptional => ret (getOptional key)
  | None => throw (TypeError "this.configService.getOptional is not a function")
  end.

(** [getBaseUrl] of the adapters, over such an object: the first thing both
    [initiatePayment] read of it. *)
Definition paystack_getBaseUrl (config : config_object) : pure string :=
  let* url := call_getOptional config "PAYSTACK_BASE_URL" in ret (default "https://api.paystack.co" url).

Definition momo_getTargetEnvironment (config : config_object) : pure string :=
  let* env := call_getOptional config "MTN_MOMO_TARGET_ENVIRONMENT" in
  match env with Some v => ret v | None => co_getOrThrow config "MTN_MOMO_ENVIRONMENT" end.

Definition momo_getBaseUrl (config : config_object) : pure string :=
  let* url := call_getOptional config "MTN_MOMO_BASE_URL" in
  match truthy url with
  | Some url => ret url
  | None =>
      let* env := momo_getTargetEnvironment config in
      ret (if bool_decide (env = "sandbox") then "https://sandbox.momodeveloper.mtn.com"
           else "https://momodeveloper.mtn.com")
  end.

(** What the script gives an adapter. *)
Record SmokeInput : Type := {
  si_amountMinor : Z;
  si_currency : string;
  si_customerEmail : option string;
  si_customerPhone : option string;
  si_callbackUrl : option string
}.

(** [initiated] and [verified], as they are printed. *)
Record SmokeResult : Type := {
  sm_provider : SupportedPaymentProvider;
  sm_initiated : string;
  sm_verified : string
}.

(** The run prints lines. *)
Definition smoke (A : Type) : Type := prog (list string) error A.

Definition print (line : string) : smoke unit := modify (fun s => s ++ [line]).

Section Run.
(** The calls of an adapter once it knows its base URL: the initiation and the
    verification, over the network. *)
Context (calls : SupportedPaymentProvider -> string -> config_object -> SmokeInput -> pure (string * string)).

Definition big_int (s : string) : pure Z :=
  match BigInt (Some (JStr s)) with Ok z => ret z | Err e => throw e end.

Definition runPaystack (config : config_object) (env : ProcessEnv) : pure SmokeResult :=
  let* email := getRequiredEnv "PAYMENT_SMOKE_PAYSTACK_EMAIL" env in
  let callbackUrl := getOptionalEnv "PAYMENT_SMOKE_PAYSTACK_CALLBACK_URL" env in
  let* amountMinor := big_int (default "5000" (getOptionalEnv "PAYMENT_SMOKE_PAYSTACK_AMOUNT_MINOR" env)) in
  let currency := default "NGN" (getOptionalEnv "PAYMENT_SMOKE_PAYSTACK_CURRENCY" env) in
  let* baseUrl := paystack_getBaseUrl config in
  let* results := calls paystack baseUrl config
    {| si_amountMinor := amountMinor; si_currency := currency; si_customerEmail := Some email;
       si_customerPhone := None; si_callbackUrl := callbackUrl |} in
  ret {| sm_provider := paystack; sm_initiated := results.1; sm_verified := results.2 |}.

Definition runMomo (config : config_object) (env : ProcessEnv) : pure SmokeResult :=
  let* phone := getRequiredEnv "PAYMENT_SMOKE_MOMO_PHONE" env in
  let* amountMinor := big_int (default "500" (getOptionalEnv "PAYMENT_SMOKE_MOMO_AMOUNT_MINOR" env)) in
  let* currency := getRequiredEnv "PAYMENT_SMOKE_MOMO_CURRENCY" env in
  let* baseUrl := momo_getBaseUrl config in
  let* results := calls momo baseUrl config
    {| si_amountMinor := amountMinor; si_currency := currency; si_customerEmail := None;
       si_customerPhone := Some phone; si_callbackUrl := None |} in
  ret {| sm_provider := momo; sm_initiated := results.1; sm_verified := results.2 |}.

Definition run_provider (config : config_object) (env : ProcessEnv) (p : SupportedPaymentProvider)
  : pure SmokeResult :=
  match p with paystack => runPaystack config env | momo => runMomo config env end.

Fixpoint run_providers (config : config_object) (env : ProcessEnv) (l : list SupportedPaymentProvider)
  : pure (list SmokeResult) :=
  match l with
  | [] => ret []
  | p :: l =>
      let* result := run_provider config env p in
      let* results := run_providers config env l in
      ret (result :: results)
  end.

Definition provider_title (p : SupportedPaymentProvider) : string :=
  match p with paystack => "[PAYSTACK]" | momo => "[MOMO]" end.

Definition print_result (result : SmokeResult) : smoke unit :=
  do* print (String LF (provider_title (sm_provider result) +:+ " initiated")) in
  do* print (sm_initiated result) in
  do* print (provider_title (sm_provider result) +:+ " verified") in
  print (sm_verified result).

(** [main], over the configuration object it makes. *)
Definition main_with (makeConfig : ProcessEnv -> config_object) (files : string -> option string)
    (env : ProcessEnv) : smoke unit :=
  let env := loadLocalEnvFiles files env in
  let* providers := lift (resolveSmokeProviders env) in
  do* lift (assertRequiredEnvSet files providers env) in
  do* lift (assertNonPlaceholderCredentials providers env) in
  do* lift (assertSafeLiveUsage providers env) in
  let config := makeConfig env in
  do* print ("Starting payment provider smoke validation for: " +:+ join (provider_text <$> providers)) in
  let* results := lift (run_providers config env providers) in
  for_each results print_result.

Definition main (files : string -> option string) (env : ProcessEnv) : smoke unit :=
  main_with createConfigShim files env.

End Run.

(* ------------------------------------------------------------------ *)
(** ** Properties                                                       *)












(* ------------------------------------------------------------------ *)
(** ** Runs                                                             *)

Definition env_of (l : list (string * string)) : ProcessEnv :=
  fun k => snd <$> find (fun kv => bool_decide (fst kv = k)) l.

Definition test_env : list (string * string) :=
  [("PAYMENT_SMOKE_PROVIDERS", " Paystack, paystack,"); ("PAYSTACK_SECRET_KEY", "sk_test_1234567890");
   ("PAYMENT_SMOKE_PAYSTACK_EMAIL", "ops@example.com")].

Definition live_env : list (string * string) := ("PAYSTACK_SECRET_KEY", "sk_live_1234567890") :: test_env.

Definition no_file (f : string) : option string := None.

(** An object with both methods, over the environment. *)
Definition full_config (env : ProcessEnv) : config_object :=
  {| co_getOrThrow key := getRequiredEnv key env; co_getOptional := Some (fun key => getOptionalEnv key env) |}.

(** A provider that answers, and one that cannot be reached. *)
Definition answering (p : SupportedPaymentProvider) (url : string) (c : config_object) (i : SmokeInput)
  : pure (string * string) := ret (url +:+ " " +:+ pretty (si_amountMinor i), "SUCCESS").
Definition unreachable (p : SupportedPaymentProvider) (url : string) (c : config_object) (i : SmokeInput)
  : pure (string * string) := throw (TypeError "fetch failed").

Example smoke_run : main_with answering full_config no_file (env_of test_env) [] =
  (Ok tt, ["Starting payment provider smoke validation for: paystack";
           String LF "[PAYSTACK] initiated"; "https://api.paystack.co 5000"; "[PAYSTACK] verified"; "SUCCESS"]).
Proof. reflexivity. Qed.

Example smoke_live_refused : (main_with answering full_config no_file (env_of live_env) []).1 =
  Err (JsError "Refusing to run Paystack smoke against a live secret key without PAYMENT_SMOKE_ALLOW_LIVE=true.").
Proof. reflexivity. Qed.

Example smoke_as_shipped : main answering no_file (env_of test_env) [] =
  (Err (TypeError "this.configService.getOptional is not a function"),
   ["Starting payment provider smoke validation for: paystack"]).
Proof. reflexivity. Qed.

(** The live check looks at one variable and the adapter at another first: given an object
    with both methods, an environment that passes every check goes to MoMo's production. *)
Definition momo_env : list (string * string) :=
  [("PAYMENT_SMOKE_PROVIDERS", "momo"); ("MTN_MOMO_API_KEY", "key"); ("MTN_MOMO_API_SECRET", "secret");
   ("MTN_MOMO_SUBSCRIPTION_KEY", "subscription"); ("MTN_MOMO_ENVIRONMENT", "sandbox");
   ("MTN_MOMO_TARGET_ENVIRONMENT", "production"); ("PAYMENT_SMOKE_MOMO_PHONE", "237600000000");
   ("PAYMENT_SMOKE_MOMO_CURRENCY", "XAF")].

Example production_target_unchecked : main_with answering full_config no_file (env_of momo_env) [] =
  (Ok tt, ["Starting payment provider smoke validation for: momo";
           String LF "[MOMO] initiated"; "https://momodeveloper.mtn.com 500"; "[MOMO] verified"; "SUCCESS"]).
Proof. reflexivity. Qed.
