(* ===== verification/Qr.v ===== *)
(** Qr.v: the admission QR tokens: the verifier of the signed tokens, its key store and
    the schema of its payload (src/src/shared/security), and the verifier of the
    unsigned ones (src/src/modules/admissions/infrastructure/services).

    A binary buffer is its bytes and a text its UTF-8 bytes, so the length of a text is
    that of the code when it is ASCII.  Node's cryptography, zod's
    formats, JSON.parse and the Date constructor are parameters. *)

From Stdlib Require Import Zify ZifyNat.
From S2P Require Import Prelude Errors Values Hashing Context Config Scripts.

Local Open Scope Z_scope.

(* ------------------------------------------------------------------ *)
(** ** base64url                                                        *)

Definition in_range (lo hi n : nat) : bool := ((lo <=? n) && (n <=? hi))%nat.

(** The six bits of a character; both alphabets are read. *)
Definition sextet (c : ascii) : option nat :=
  let n := nat_of_ascii c in
  if in_range 65 90 n then Some (n - 65)%nat
  else if in_range 97 122 n then Some (n - 71)%nat
  else if in_range 48 57 n then Some (n + 4)%nat
  else if bool_decide (c = "-"%char) || bool_decide (c = "+"%char) then Some 62%nat
  else if bool_decide (c = "_"%char) || bool_decide (c = "/"%char) then Some 63%nat
  else None.

(** The sextets of a text: up to the padding, whatever is no digit skipped. *)
Fixpoint sextets (s : string) : list nat :=
  match s with
  | EmptyString => []
  | String c s =>
      if bool_decide (c = "="%char) then []
      else match sextet c with Some d => d :: sextets s | None => sextets s end
  end.

Fixpoint bytes_of_sextets (l : list nat) : string :=
  match l with
  | a :: b :: c :: d :: l =>
      String (ascii_of_nat (a * 4 + b / 16)) (String (ascii_of_nat (b mod 16 * 16 + c / 4))
        (String (ascii_of_nat (c mod 4 * 64 + d)) (bytes_of_sextets l)))
  | [a; b; c] =>
      String (ascii_of_nat (a * 4 + b / 16)) (String (ascii_of_nat (b mod 16 * 16 + c / 4)) "")
  | [a; b] => String (ascii_of_nat (a * 4 + b / 16)) ""
  | _ => ""
  end.

(** [Buffer.from(s, 'base64url')] *)
Definition base64url_decode (s : string) : string := bytes_of_sextets (sextets s).

Definition digit_of_sextet (d : nat) : ascii :=
  if (d <? 26)%nat then ascii_of_nat (d + 65)
  else if (d <? 52)%nat then ascii_of_nat (d + 71)
  else if (d <? 62)%nat then ascii_of_nat (d - 4)
  else if (d =? 62)%nat then "-"%char else "_"%char.

Fixpoint sextets_of_bytes (s : string) : list nat :=
  match s with
  | EmptyString => []
  | String x EmptyString => let a := nat_of_ascii x in [a / 4; a mod 4 * 16]%nat
  | String x (String y EmptyString) =>
      let a := nat_of_ascii x in let b := nat_of_ascii y in
      [a / 4; a mod 4 * 16 + b / 16; b mod 16 * 4]%nat
  | String x (String y (String z s)) =>
      let a := nat_of_ascii x in let b := nat_of_ascii y in let c := nat_of_ascii z in
      ([a / 4; a mod 4 * 16 + b / 16; b mod 16 * 4 + c / 64; c mod 64] ++ sextets_of_bytes s)%nat
  end.

(** [buffer.toString('base64url')] *)
Definition base64url_encode (s : string) : string := string_of_list_ascii (digit_of_sextet <$> sextets_of_bytes s).

Example base64url_example : base64url_encode "Ma?>" = "TWE_Pg" /\ base64url_decode "TWE/ Pg==x" = "Ma?>".
Proof. split; reflexivity. Qed.

Lemma sextet_digit d : (d < 64)%nat -> sextet (digit_of_sextet d) = Some d /\ digit_of_sextet d <> "="%char.
Proof. intros Hd. do 64 (destruct d as [| d]; [split; [reflexivity | discriminate] |]). lia. Qed.

Lemma sextets_digits l : Forall (fun d => (d < 64)%nat) l -> sextets (string_of_list_ascii (digit_of_sextet <$> l)) = l.
Proof.
  induction 1 as [| d l Hd Hl IH]; [done |]. destruct (sextet_digit d Hd) as [Hs Hne]. cbn.
  rewrite bool_decide_false by done. by rewrite Hs, IH.
Qed.

Lemma byte_bound (c : ascii) : (nat_of_ascii c < 256)%nat.
Proof. apply nat_ascii_bounded. Qed.

Section Groups.
Local Open Scope nat_scope.
#[local] Ltac Zify.zify_post_hook ::= Z.to_euclidean_division_equations.

Lemma sextets_of_bytes_small s : Forall (fun d => d < 64) (sextets_of_bytes s).
Proof.
  enough (Hall : forall n s, String.length s <= n -> Forall (fun d => d < 64) (sextets_of_bytes s)) by eauto.
  intros n. induction n as [| n IH]; intros [| x [| y [| z t]]] Hn; try (cbn in Hn; lia);
    cbn [sextets_of_bytes app]; [constructor | constructor | | |];
    pose proof (byte_bound x); try pose proof (byte_bound y); try pose proof (byte_bound z);
    repeat (apply Forall_cons_2; [cbv beta; lia |]); [constructor | constructor |].
  apply IH. cbn in Hn. lia.
Qed.

Lemma first_byte a r : a < 256 -> r < 16 -> a / 4 * 4 + (a mod 4 * 16 + r) / 16 = a.
Proof. lia. Qed.
Lemma second_byte a b r : b < 256 -> r < 4 -> (a mod 4 * 16 + b / 16) mod 16 * 16 + (b mod 16 * 4 + r) / 4 = b.
Proof. lia. Qed.
Lemma third_byte b c : c < 256 -> (b mod 16 * 4 + c / 64) mod 4 * 64 + c mod 64 = c.
Proof. lia. Qed.

Lemma bytes_round_trip s : bytes_of_sextets (sextets_of_bytes s) = s.
Proof.
  enough (Hall : forall n s, String.length s <= n -> bytes_of_sextets (sextets_of_bytes s) = s) by eauto.
  intros n. induction n as [| n IH]; intros [| x [| y [| z t]]] Hn; try done; try (cbn in Hn; lia).
  - cbn [sextets_of_bytes bytes_of_sextets].
    rewrite <- (Nat.add_0_r (nat_of_ascii x mod 4 * 16)), first_byte by (apply byte_bound || lia).
    by rewrite ascii_nat_embedding.
  - cbn [sextets_of_bytes bytes_of_sextets]. rewrite first_byte by (pose proof (byte_bound y); lia || apply byte_bound).
    rewrite <- (Nat.add_0_r (nat_of_ascii y mod 16 * 4)), second_byte by (apply byte_bound || lia).
    by rewrite !ascii_nat_embedding.
  - cbn [sextets_of_bytes bytes_of_sextets app].
    pose proof (byte_bound x). pose proof (byte_bound y). pose proof (byte_bound z).
    rewrite first_byte, second_byte, third_byte by lia. rewrite !ascii_nat_embedding, IH; [done |]. cbn in Hn. lia.
Qed.

End Groups.

(** Decoding undoes encoding. *)
Lemma base64url_round_trip s : base64url_decode (base64url_encode s) = s.
Proof.
  unfold base64url_decode, base64url_encode. rewrite sextets_digits by apply sextets_of_bytes_small.
  apply bytes_round_trip.
Qed.

(* ------------------------------------------------------------------ *)
(** ** The platform                                                     *)

(** [JSON.parse], [new Date(s).getTime()] (none is NaN), the digest of an HMAC, the
    verification of an Ed25519 signature, zod's uuid and datetime and the message of
    its issue for a field, and [Buffer.from] of a value that is not a string. *)
Class QrPlatform : Type := {
  JSON_parse : string -> option json;
  date_ms : string -> option Z;
  hmac_digest : string -> string -> string;
  ed25519_verify : string -> string -> string -> outcome error bool;
  z_uuid : string -> bool;
  z_datetime : string -> bool;
  z_issue : string -> jsval -> string;
  Buffer_from_other : json -> outcome error string
}.

(** [QrTokenEnvelope], as parsed: the fields are what the token says. *)
Record QrTokenEnvelope : Type := {
  qe_alg : json;
  qe_kid : json;
  qe_payload : json;
  qe_signature : json
}.

Inductive QrDirection : Type := ENTRY | EXIT.

#[export] Instance QrDirection_eq_dec : EqDecision QrDirection.
Proof. solve_decision. Defined.

(** [QrPayload] *)
Record QrPayload : Type := {
  qp_ticketId : string;
  qp_eventId : string;
  qp_nonce : string;
  qp_direction : QrDirection;
  qp_sessionId : string;
  qp_deviceBindingId : option string;
  qp_issuedAt : string;
  qp_expiresAt : string;
  qp_signatureVersion : string
}.

(** [VerifiedQrPayload] *)
Record VerifiedQrPayload : Type := {
  vq_ticketId : string;
  vq_eventId : string;
  vq_nonce : string;
  vq_direction : QrDirection;
  vq_sessionId : string;
  vq_deviceBindingId : option string;
  vq_issuedAt : Z;
  vq_expiresAt : Z;
  vq_signatureVersion : string
}.

Definition direction_of (s : string) : option QrDirection :=
  if bool_decide (s = "ENTRY") then Some ENTRY else if bool_decide (s = "EXIT") then Some EXIT else None.

Section Verifier.
Context `{QrPlatform}.

(* ------------------------------------------------------------------ *)
(** ** The schema of the payload                                        *)

(** A field of the schema: a string that passes [P], or the issue of zod. *)
Definition z_string (P : string -> bool) (key : string) (v : jsval) : outcome string string :=
  match v with
  | Some (JStr s) => if P s then Ok s else Err (z_issue key v)
  | _ => Err (z_issue key v)
  end.

Definition z_length (min max : nat) (s : string) : bool := (min <=? String.length s)%nat && (String.length s <=? max)%nat.

Definition z_enum_direction (v : jsval) : outcome string QrDirection :=
  match v with
  | Some (JStr s) => match direction_of s with Some d => Ok d | None => Err (z_issue "direction" v) end
  | _ => Err (z_issue "direction" v)
  end.

Definition z_device (v : jsval) : outcome string (option string) :=
  match v with
  | None | Some JNull => Ok None
  | Some (JStr s) => if z_length 1 256 s then Ok (Some s) else Err (z_issue "deviceBindingId" v)
  | _ => Err (z_issue "deviceBindingId" v)
  end.

(** A validation: a value, or the message of the first issue. *)
Definition validation (A : Type) : Type := prog unit string A.

Definition checked {A} (o : outcome string A) : validation A := fun s => (o, s).

(** The [superRefine] of the schema; a date that is not one compares false. *)
Definition refine_window (issuedAt expiresAt : option Z) : validation unit :=
  match issuedAt, expiresAt with
  | Some i, Some e =>
      do* throw_if (e <? i) "issuedAt must be <= expiresAt" in
      throw_if (60000 <? e - i) "QR token lifetime exceeds maximum allowed window"
  | _, _ => ret tt
  end.

(** [qrPayloadSchema.safeParse] *)
Definition qrPayloadSchema (v : json) : validation QrPayload :=
  match v with
  | JObj _ =>
      let get key := prop_opt (Some v) key in
      let* ticketId := checked (z_string z_uuid "ticketId" (get "ticketId")) in
      let* eventId := checked (z_string z_uuid "eventId" (get "eventId")) in
      let* nonce := checked (z_string (z_length 8 256) "nonce" (get "nonce")) in
      let* direction := checked (z_enum_direction (get "direction")) in
      let* sessionId := checked (z_string (z_length 8 256) "sessionId" (get "sessionId")) in
      let* deviceBindingId := checked (z_device (get "deviceBindingId")) in
      let* issuedAt := checked (z_string z_datetime "issuedAt" (get "issuedAt")) in
      let* expiresAt := checked (z_string z_datetime "expiresAt" (get "expiresAt")) in
      let* signatureVersion := checked (z_string (z_length 1 64) "signatureVersion" (get "signatureVersion")) in
      do* refine_window (date_ms issuedAt) (date_ms expiresAt) in
      ret {| qp_ticketId := ticketId; qp_eventId := eventId; qp_nonce := nonce; qp_direction := direction;
             qp_sessionId := sessionId; qp_deviceBindingId := deviceBindingId; qp_issuedAt := issuedAt;
             qp_expiresAt := expiresAt; qp_signatureVersion := signatureVersion |}
  | _ => throw (z_issue "" (Some v))
  end.

(* ------------------------------------------------------------------ *)
(** ** SignatureKeyStoreService                                         *)

Context (c : AppConfigValues) (env : ProcessEnv).

Definition raised {A} (o : outcome error A) : pure A := fun s => (o, s).

(** [key] of the configuration, when it is a text that is not empty. *)
Definition text_setting (key : string) : option string :=
  match service_get c env key with Some (CText s) => truthy (Some s) | _ => None end.

Definition same_text (v : json) (t : config_value) : bool :=
  match v, t with JStr s, CText u => bool_decide (s = u) | _, _ => false end.

Definition config_text (v : config_value) : string := match v with CText s => s | _ => "" end.

Definition getHmacSecret (keyId : json) : pure string :=
  let* currentKeyId := raised (service_getOrThrow c env "QR_HMAC_ACTIVE_KID") in
  if negb (same_text keyId currentKeyId) then
    or_throw (text_setting ("QR_HMAC_SECRET_" +:+ js_String keyId))
      (JsError ("Unknown HMAC key id: " +:+ js_String keyId))
  else
    let* secret := raised (service_getOrThrow c env "QR_HMAC_ACTIVE_SECRET") in
    ret (config_text secret).

Definition getEd25519PublicKey (keyId : json) : pure string :=
  or_throw (text_setting ("QR_ED25519_PUBLIC_KEY_" +:+ js_String keyId))
    (JsError ("Unknown Ed25519 public key id: " +:+ js_String keyId)).

(* ------------------------------------------------------------------ *)
(** ** QrTokenVerifierService                                           *)

Definition rejected {A} (msg : string) : pure A := throw (InvalidStateTransitionError msg).

Definition decodeEnvelope (rawToken : string) : pure QrTokenEnvelope :=
  let malformed := InvalidStateTransitionError "Malformed QR token envelope." in
  let* parsed := or_throw (JSON_parse (base64url_decode rawToken)) malformed in
  let* alg := raised (prop (Some parsed) "alg") in
  let* kid := raised (prop (Some parsed) "kid") in
  let* payload := raised (prop (Some parsed) "payload") in
  let* signature := raised (prop (Some parsed) "signature") in
  match alg, kid, payload, signature with
  | Some alg, Some kid, Some payload, Some signature =>
      do* throw_if (negb (js_truthy (Some alg) && js_truthy (Some kid) && js_truthy (Some payload) &&
                          js_truthy (Some signature))) malformed in
      ret {| qe_alg := alg; qe_kid := kid; qe_payload := payload; qe_signature := signature |}
  | _, _, _, _ => throw malformed
  end.

(** [Buffer.from(v, 'base64url')] *)
Definition Buffer_from (v : json) : pure string :=
  match v with
  | JStr s => ret (base64url_decode s)
  | v => raised (Buffer_from_other v)
  end.

(** [v === s] *)
Definition is_text (v : json) (s : string) : bool := bool_decide (string_of (Some v) = Some s).

Definition check_signature (envelope : QrTokenEnvelope) (payload signature : string) : pure unit :=
  if is_text (qe_alg envelope) "HMAC_SHA256" then
    let* secret := getHmacSecret (qe_kid envelope) in
    throw_if (negb (bool_decide (hmac_digest secret payload = signature)))
      (InvalidStateTransitionError "Invalid HMAC QR signature.")
  else if is_text (qe_alg envelope) "ED25519" then
    let* publicKeyPem := getEd25519PublicKey (qe_kid envelope) in
    let* ok := raised (ed25519_verify payload publicKeyPem signature) in
    throw_if (negb ok) (InvalidStateTransitionError "Invalid Ed25519 QR signature.")
  else rejected "Unsupported QR algorithm.".

Definition qr_verify (rawToken : string) : pure VerifiedQrPayload :=
  let* envelope := decodeEnvelope rawToken in
  let* payloadBuffer := Buffer_from (qe_payload envelope) in
  let* signatureBuffer := Buffer_from (qe_signature envelope) in
  do* check_signature envelope payloadBuffer signatureBuffer in
  let* parsedJson := or_throw (JSON_parse payloadBuffer) (InvalidStateTransitionError "Malformed QR payload JSON.") in
  match (qrPayloadSchema parsedJson tt).1 with
  | Err issue => rejected issue
  | Ok payload =>
      let* issuedAt := or_throw (date_ms (qp_issuedAt payload)) (InvalidStateTransitionError "Invalid QR issued timestamp.") in
      let* expiresAt := or_throw (date_ms (qp_expiresAt payload)) (InvalidStateTransitionError "Invalid QR expiry timestamp.") in
      ret {| vq_ticketId := qp_ticketId payload; vq_eventId := qp_eventId payload; vq_nonce := qp_nonce payload;
             vq_direction := qp_direction payload; vq_sessionId := qp_sessionId payload;
             vq_deviceBindingId := qp_deviceBindingId payload; vq_issuedAt := issuedAt; vq_expiresAt := expiresAt;
             vq_signatureVersion := qp_signatureVersion payload |}
  end.

(* ------------------------------------------------------------------ *)
(** ** JsonQrTokenVerifierService                                       *)

(** The result of the unsigned verifier: the interface has no more fields. *)
Record JsonQrPayload : Type := {
  jq_ticketId : string;
  jq_eventId : string;
  jq_nonce : string;
  jq_direction : QrDirection;
  jq_sessionId : string;
  jq_deviceBindingId : option string;
  jq_expiresAt : Z
}.

Definition getString (value : jsval) (field : string) : pure string :=
  or_throw (truthy (string_of value)) (InvalidStateTransitionError ("Invalid QR " +:+ field +:+ ".")).

Definition getOptionalQrString (value : jsval) (field : string) : pure (option string) :=
  match value with
  | None | Some JNull => ret None
  | v => let* s := getString v field in ret (Some s)
  end.

Definition getDirection (value : jsval) : pure QrDirection :=
  match value with
  | Some (JStr s) => or_throw (direction_of s) (InvalidStateTransitionError "Invalid QR direction.")
  | _ => rejected "Invalid QR direction."
  end.

Definition getDate (value : jsval) (field : string) : pure Z :=
  let* s := getString value field in
  or_throw (date_ms s) (InvalidStateTransitionError ("Invalid QR " +:+ field +:+ ".")).

(** The token, or what it decodes to, as JSON; empty text is skipped. *)
Definition parsePayload (rawToken : string) : pure json :=
  let parse candidate := match truthy (Some candidate) with Some t => JSON_parse t | None => None end in
  or_throw (match parse rawToken with Some v => Some v | None => parse (base64url_decode rawToken) end)
    (InvalidStateTransitionError "Invalid QR token payload.").

Definition json_qr_verify (rawToken : string) : pure JsonQrPayload :=
  let* payload := parsePayload rawToken in
  let get key := raised (prop (Some payload) key) in
  let* direction_value := get "direction" in
  let* direction := getDirection direction_value in
  let* expiry := get "expiresAt" in
  let* expiresAt := getDate expiry "expiresAt" in
  let* ticket := get "ticketId" in
  let* ticketId := getString ticket "ticketId" in
  let* event := get "eventId" in
  let* eventId := getString event "eventId" in
  let* nonce_value := get "nonce" in
  let* nonce := getString nonce_value "nonce" in
  let* session := get "sessionId" in
  let* sessionId := getString session "sessionId" in
  let* device := get "deviceBindingId" in
  let* deviceBindingId := getOptionalQrString device "deviceBindingId" in
  ret {| jq_ticketId := ticketId; jq_eventId := eventId; jq_nonce := nonce; jq_direction := direction;
         jq_sessionId := sessionId; jq_deviceBindingId := deviceBindingId; jq_expiresAt := expiresAt |}.

(* ------------------------------------------------------------------ *)
(** ** Specification                                                    *)

(** The keys a token may be signed with: the active one, or one set apart by its id. *)
Inductive signed_by : json -> json -> string -> string -> Prop :=
| SignedActive payload :
    QR_HMAC_ACTIVE_KID c <> "" -> QR_HMAC_ACTIVE_SECRET c <> "" ->
    signed_by (JStr "HMAC_SHA256") (JStr (QR_HMAC_ACTIVE_KID c)) payload
      (hmac_digest (QR_HMAC_ACTIVE_SECRET c) payload)
| SignedRotated kid secret payload :
    QR_HMAC_ACTIVE_KID c <> "" -> kid <> JStr (QR_HMAC_ACTIVE_KID c) ->
    text_setting ("QR_HMAC_SECRET_" +:+ js_String kid) = Some secret ->
    signed_by (JStr "HMAC_SHA256") kid payload (hmac_digest secret payload)
| SignedEd25519 kid key payload signature :
    text_setting ("QR_ED25519_PUBLIC_KEY_" +:+ js_String kid) = Some key ->
    ed25519_verify payload key signature = Ok true -> signed_by (JStr "ED25519") kid payload signature.

(** What the schema says of a payload. *)
Definition conforms (p : VerifiedQrPayload) : Prop :=
  z_uuid (vq_ticketId p) = true /\ z_uuid (vq_eventId p) = true /\
  (8 <= String.length (vq_nonce p) <= 256)%nat /\ (8 <= String.length (vq_sessionId p) <= 256)%nat /\
  (forall d, vq_deviceBindingId p = Some d -> 1 <= String.length d <= 256)%nat /\
  (1 <= String.length (vq_signatureVersion p) <= 64)%nat /\
  vq_issuedAt p <= vq_expiresAt p <= vq_issuedAt p + 60000.

(** An optional field: absent, null or a text. *)
Definition device_spelt (v : jsval) (d : option string) : Prop :=
  match d with Some t => v = Some (JStr t) | None => v = None \/ v = Some JNull end.

(** The payload a parsed value spells. *)
Definition spells (v : json) (p : VerifiedQrPayload) : Prop :=
  exists direction issuedAt expiresAt,
    prop_opt (Some v) "ticketId" = Some (JStr (vq_ticketId p)) /\
    prop_opt (Some v) "eventId" = Some (JStr (vq_eventId p)) /\
    prop_opt (Some v) "nonce" = Some (JStr (vq_nonce p)) /\
    prop_opt (Some v) "direction" = Some (JStr direction) /\ direction_of direction = Some (vq_direction p) /\
    prop_opt (Some v) "sessionId" = Some (JStr (vq_sessionId p)) /\
    device_spelt (prop_opt (Some v) "deviceBindingId") (vq_deviceBindingId p) /\
    prop_opt (Some v) "issuedAt" = Some (JStr issuedAt) /\ z_datetime issuedAt = true /\
    date_ms issuedAt = Some (vq_issuedAt p) /\
    prop_opt (Some v) "expiresAt" = Some (JStr expiresAt) /\ z_datetime expiresAt = true /\
    date_ms expiresAt = Some (vq_expiresAt p) /\
    prop_opt (Some v) "signatureVersion" = Some (JStr (vq_signatureVersion p)).

(** A genuine token: an envelope whose signature is of its payload, which spells a
    conforming payload. *)
Definition genuine (rawToken : string) (p : VerifiedQrPayload) : Prop :=
  exists envelope alg kid payload signature body,
    JSON_parse (base64url_decode rawToken) = Some envelope /\
    prop_opt (Some envelope) "alg" = Some alg /\ prop_opt (Some envelope) "kid" = Some kid /\
    prop_opt (Some envelope) "payload" = Some payload /\ prop_opt (Some envelope) "signature" = Some signature /\
    js_truthy (Some kid) = true /\ js_truthy (Some payload) = true /\ js_truthy (Some signature) = true /\
    exists bytes sig, (Buffer_from payload tt).1 = Ok bytes /\ (Buffer_from signature tt).1 = Ok sig /\
      signed_by alg kid bytes sig /\ JSON_parse bytes = Some body /\ spells body p /\ conforms p.

(* ------------------------------------------------------------------ *)
(** ** Properties                                                       *)

Lemma wp_raised {A} (o : outcome error A) (Q : A -> unit -> Prop) X :
  (forall a, o = Ok a -> Q a tt) -> (forall e, X e tt) -> wp (raised o) Q X tt.
Proof. intros HQ HX. destruct o; [by apply HQ | apply HX]. Qed.

Lemma wp_checked {A} (o : outcome string A) (Q : A -> unit -> Prop) X :
  (forall a, o = Ok a -> Q a tt) -> (forall e, X e tt) -> wp (checked o) Q X tt.
Proof. intros HQ HX. destruct o; [by apply HQ | apply HX]. Qed.

(** A read property of an object is what the optional read gives. *)
Lemma prop_read v k u : prop v k = Ok u -> prop_opt v k = u.
Proof. destruct v as [[] |]; cbn; congruence. Qed.

Lemma z_string_ok P key v s : z_string P key v = Ok s -> v = Some (JStr s) /\ P s = true.
Proof. unfold z_string. destruct v as [[] |]; try done. destruct (P _) eqn:HP; naive_solver. Qed.

Lemma z_length_ok min max s : z_length min max s = true -> (min <= String.length s <= max)%nat.
Proof. unfold z_length. rewrite andb_true_iff, !Nat.leb_le. done. Qed.

Lemma z_enum_ok v d : z_enum_direction v = Ok d -> exists s, v = Some (JStr s) /\ direction_of s = Some d.
Proof. unfold z_enum_direction. destruct v as [[] |]; try done. destruct (direction_of _) eqn:Hd; naive_solver. Qed.

Lemma z_device_ok v d : z_device v = Ok d ->
  device_spelt v d /\ (forall t, d = Some t -> 1 <= String.length t <= 256)%nat.
Proof.
  unfold z_device. destruct v as [[] |]; cbn; try (intros [= <-]; cbn; naive_solver); try done. destruct (z_length _ _ _) eqn:Hl; [| done].
  intros [= <-]. split; [done |]. intros t [= <-]. by apply z_length_ok.
Qed.

(** The result of the verifier for a payload and its dates. *)
Definition verified_of (p : QrPayload) (issuedAt expiresAt : Z) : VerifiedQrPayload :=
  {| vq_ticketId := qp_ticketId p; vq_eventId := qp_eventId p; vq_nonce := qp_nonce p;
     vq_direction := qp_direction p; vq_sessionId := qp_sessionId p; vq_deviceBindingId := qp_deviceBindingId p;
     vq_issuedAt := issuedAt; vq_expiresAt := expiresAt; vq_signatureVersion := qp_signatureVersion p |}.

Lemma qrPayloadSchema_wp v :
  wp (qrPayloadSchema v) (fun p _ => forall i e, date_ms (qp_issuedAt p) = Some i -> date_ms (qp_expiresAt p) = Some e ->
        spells v (verified_of p i e) /\ conforms (verified_of p i e)) any tt.
Proof.
  unfold qrPayloadSchema. destruct v as [| | | | | | | fields]; try exact Logic.I. cbv zeta.
  set (get := prop_opt (Some (JObj fields))).
  do 9 (wp_step; apply wp_checked; [intros ? ? | done]).
  repeat match goal with
  | Hz : z_string _ _ _ = Ok _ |- _ => apply z_string_ok in Hz as [? ?]
  | Hz : z_enum_direction _ = Ok _ |- _ => apply z_enum_ok in Hz as (? & ? & ?)
  | Hz : z_device _ = Ok _ |- _ => apply z_device_ok in Hz as [? ?]
  | Hz : z_length _ _ _ = true |- _ => apply z_length_ok in Hz
  end.
  wp_step. eapply wp_mono with (Q := fun _ _ => forall i e, date_ms a5 = Some i -> date_ms a6 = Some e -> i <= e <= i + 60000)
    (X := any); [| | done].
  - unfold refine_window. destruct (date_ms a5) as [i |], (date_ms a6) as [e |]; wp_run; try done.
    intros i' e' [= <-] [= <-]. lia.
  - intros _ [] Hwindow. wp_step. intros i e Hi He. cbn in Hi, He. specialize (Hwindow i e Hi He).
    split; [| unfold conforms; cbn; tauto].
    match goal with Hd : direction_of ?s = Some _ |- _ => exists s, a5, a6 end. unfold spells. cbn. tauto.
Qed.

(** The active key, as [getOrThrow] gives it. *)
Lemma active_kid : service_getOrThrow c env "QR_HMAC_ACTIVE_KID" =
  match QR_HMAC_ACTIVE_KID c with
  | "" => Err (OtherError "Error" "Missing configuration value for QR_HMAC_ACTIVE_KID")
  | kid => Ok (CText kid)
  end.
Proof. unfold service_getOrThrow. change (service_get c env _) with (Some (CText (QR_HMAC_ACTIVE_KID c))). by destruct (QR_HMAC_ACTIVE_KID c). Qed.

Lemma active_secret : service_getOrThrow c env "QR_HMAC_ACTIVE_SECRET" =
  match QR_HMAC_ACTIVE_SECRET c with
  | "" => Err (OtherError "Error" "Missing configuration value for QR_HMAC_ACTIVE_SECRET")
  | secret => Ok (CText secret)
  end.
Proof. unfold service_getOrThrow. change (service_get c env _) with (Some (CText (QR_HMAC_ACTIVE_SECRET c))). by destruct (QR_HMAC_ACTIVE_SECRET c). Qed.

Lemma getHmacSecret_wp kid :
  wp (getHmacSecret kid) (fun secret _ =>
      QR_HMAC_ACTIVE_KID c <> "" /\
      (kid = JStr (QR_HMAC_ACTIVE_KID c) /\ secret = QR_HMAC_ACTIVE_SECRET c /\ secret <> "" \/
       kid <> JStr (QR_HMAC_ACTIVE_KID c) /\
       text_setting ("QR_HMAC_SECRET_" +:+ js_String kid) = Some secret)) any tt.
Proof.
  unfold getHmacSecret. rewrite active_kid, active_secret. wp_step. apply wp_raised; [| done]. intros current Hcur.
  assert (Hkid : QR_HMAC_ACTIVE_KID c <> "" /\ current = CText (QR_HMAC_ACTIVE_KID c)).
  { destruct (QR_HMAC_ACTIVE_KID c); [done |]. by injection Hcur as <-. }
  destruct Hkid as [Hne ->]. destruct (negb (same_text kid _)) eqn:Hsame.
  - apply wp_or_throw; [done |]. intros secret Hs. split; [done |]. right. split; [| done]. intros ->.
    cbn in Hsame. by rewrite bool_decide_true in Hsame.
  - wp_step. apply wp_raised; [| done]. intros secret Hsec. wp_step. split; [done |]. left.
    apply negb_false_iff in Hsame. destruct kid; try done. cbn in Hsame. apply bool_decide_eq_true in Hsame as ->.
    destruct (QR_HMAC_ACTIVE_SECRET c); [done |]. by injection Hsec as <-.
Qed.

Lemma is_text_eq v s : is_text v s = true -> v = JStr s.
Proof. unfold is_text. intros Hv%bool_decide_eq_true. destruct v; cbn in Hv; congruence. Qed.

Lemma check_signature_wp envelope payload signature :
  wp (check_signature envelope payload signature)
    (fun _ _ => signed_by (qe_alg envelope) (qe_kid envelope) payload signature) any tt.
Proof.
  unfold check_signature. destruct (is_text (qe_alg envelope) "HMAC_SHA256") eqn:Hh.
  - apply is_text_eq in Hh. rewrite Hh. wp_step. eapply wp_mono; [apply getHmacSecret_wp | | done]. cbn beta.
    intros secret [] Hsecret. apply wp_throw_if; [done |]. intros Hsig%negb_false_iff%bool_decide_eq_true.
    subst signature. destruct Hsecret as (Hne & [(-> & -> & Hs) | [Hother Hrot]]); by constructor.
  - destruct (is_text (qe_alg envelope) "ED25519") eqn:He; [| done]. apply is_text_eq in He. rewrite He.
    unfold getEd25519PublicKey. wp_step. apply wp_or_throw; [done |]. intros key Hkey. wp_step.
    apply wp_raised; [| done]. intros ok Hok. apply wp_throw_if; [done |]. intros Htrue%negb_false_iff. subst ok.
    by econstructor.
Qed.

Lemma decodeEnvelope_wp rawToken :
  wp (decodeEnvelope rawToken) (fun e _ => exists envelope,
      JSON_parse (base64url_decode rawToken) = Some envelope /\
      prop_opt (Some envelope) "alg" = Some (qe_alg e) /\ prop_opt (Some envelope) "kid" = Some (qe_kid e) /\
      prop_opt (Some envelope) "payload" = Some (qe_payload e) /\
      prop_opt (Some envelope) "signature" = Some (qe_signature e) /\
      js_truthy (Some (qe_kid e)) = true /\ js_truthy (Some (qe_payload e)) = true /\
      js_truthy (Some (qe_signature e)) = true) any tt.
Proof.
  unfold decodeEnvelope. cbv zeta. wp_step. apply wp_or_throw; [done |]. intros envelope Hparse.
  do 4 (wp_step; apply wp_raised; [intros ? ?%prop_read | done]).
  do 4 (wp_step; [| done]). wp_step. apply wp_throw_if; [done |]. intros Htruthy%negb_false_iff. wp_step.
  rewrite !andb_true_iff in Htruthy. exists envelope. cbn. tauto.
Qed.

Lemma Buffer_from_wp v : wp (Buffer_from v) (fun bytes _ => (Buffer_from v tt).1 = Ok bytes) any tt.
Proof. unfold wp. by destruct (Buffer_from v tt) as [[b | e] []]. Qed.

(** What the verifier accepts is genuine. *)
Lemma qr_verify_wp rawToken : wp (qr_verify rawToken) (fun p _ => genuine rawToken p) any tt.
Proof.
  unfold qr_verify. wp_step. eapply wp_mono; [apply decodeEnvelope_wp | cbn beta | done].
  intros e [] (envelope & Hparse & Halg & Hkid & Hpayload & Hsignature & Htruthy).
  wp_step. eapply wp_mono; [apply Buffer_from_wp | cbn beta | done]. intros bytes [] Hbytes.
  wp_step. eapply wp_mono; [apply Buffer_from_wp | cbn beta | done]. intros sig [] Hsig.
  wp_step. eapply wp_mono; [apply check_signature_wp | cbn beta | done]. intros _ [] Hsigned.
  wp_step. apply wp_or_throw; [done |]. intros body Hbody.
  pose proof (qrPayloadSchema_wp body) as Hschema. unfold wp in Hschema.
  destruct (qrPayloadSchema body tt) as [[p | issue] []]; [| done]. cbn [fst].
  wp_step. apply wp_or_throw; [done |]. intros i Hi. wp_step. apply wp_or_throw; [done |]. intros x Hx. wp_step.
  destruct (Hschema i x Hi Hx) as [Hspells Hconforms].
  exists envelope, (qe_alg e), (qe_kid e), (qe_payload e), (qe_signature e), body. split_and!; try tauto.
  exists bytes, sig. auto 10.
Qed.

(** The schema accepts what spells a conforming payload. *)
Lemma qrPayloadSchema_accepts v p : spells v p -> conforms p ->
  exists q i e, qrPayloadSchema v tt = (Ok q, tt) /\ date_ms (qp_issuedAt q) = Some i /\
    date_ms (qp_expiresAt q) = Some e /\ verified_of q i e = p.
Proof.
  intros (dir & i & e & Ht & He & Hn & Hd & Hdir & Hs & Hdev & Hi & Hzi & Hmi & Hx & Hzx & Hmx & Hv)
    (Hzt & Hze & Hnl & Hsl & Hdl & Hvl & Hwin).
  assert (Hlen : forall a b t, (a <= String.length t <= b)%nat -> z_length a b t = true).
  { intros a b t Hab. unfold z_length. by rewrite andb_true_iff, !Nat.leb_le. }
  assert (Hdevice : z_device (prop_opt (Some v) "deviceBindingId") = Ok (vq_deviceBindingId p)).
  { unfold device_spelt in Hdev. destruct (vq_deviceBindingId p) as [d |]; [| by destruct Hdev as [-> | ->]].
    rewrite Hdev. cbn. by rewrite Hlen by auto. }
  destruct v as [| | | | | | | fields]; try (by cbn in Ht).
  unfold qrPayloadSchema. cbv zeta. unfold bind at 1, checked at 1.
  rewrite Ht. unfold z_string at 1. rewrite Hzt. unfold bind at 1, checked at 1.
  rewrite He. unfold z_string at 1. rewrite Hze. unfold bind at 1, checked at 1.
  rewrite Hn. unfold z_string at 1. rewrite Hlen by done. unfold bind at 1, checked at 1.
  rewrite Hd. unfold z_enum_direction at 1. rewrite Hdir. unfold bind at 1, checked at 1.
  rewrite Hs. unfold z_string at 1. rewrite Hlen by done. unfold bind at 1, checked at 1.
  rewrite Hdevice. unfold bind at 1, checked at 1.
  rewrite Hi. unfold z_string at 1. rewrite Hzi. unfold bind at 1, checked at 1.
  rewrite Hx. unfold z_string at 1. rewrite Hzx. unfold bind at 1, checked at 1.
  rewrite Hv. unfold z_string at 1. rewrite Hlen by done. unfold bind, refine_window. rewrite Hmi, Hmx.
  unfold bind, throw_if, when. rewrite (proj2 (Z.ltb_ge _ _)), (proj2 (Z.ltb_ge _ _)) by lia.
  eexists _, (vq_issuedAt p), (vq_expiresAt p). split; [reflexivity |]. cbn. split_and!; try done. by destruct p.
Qed.

Lemma bind_ok {E A B} (m : prog unit E A) (k : A -> prog unit E B) a :
  (m tt).1 = Ok a -> bind m k tt = k a tt.
Proof. unfold bind. destruct (m tt) as [o []]. cbn. by intros ->. Qed.

Lemma prop_of_opt v k u : prop_opt v k = Some u -> prop v k = Ok (Some u).
Proof. destruct v as [[] |]; cbn; try done. by intros ->. Qed.

Lemma decodeEnvelope_accepts rawToken envelope alg kid payload signature :
  JSON_parse (base64url_decode rawToken) = Some envelope ->
  prop_opt (Some envelope) "alg" = Some alg -> prop_opt (Some envelope) "kid" = Some kid ->
  prop_opt (Some envelope) "payload" = Some payload -> prop_opt (Some envelope) "signature" = Some signature ->
  js_truthy (Some alg) && js_truthy (Some kid) && js_truthy (Some payload) && js_truthy (Some signature) = true ->
  (decodeEnvelope rawToken tt).1 =
    Ok {| qe_alg := alg; qe_kid := kid; qe_payload := payload; qe_signature := signature |}.
Proof.
  intros Hparse Ha Hk Hp Hs Ht. unfold decodeEnvelope. cbv zeta.
  rewrite (bind_ok _ _ envelope) by (by rewrite Hparse).
  rewrite (bind_ok _ _ (Some alg)) by (by rewrite (prop_of_opt _ _ _ Ha)).
  rewrite (bind_ok _ _ (Some kid)) by (by rewrite (prop_of_opt _ _ _ Hk)).
  rewrite (bind_ok _ _ (Some payload)) by (by rewrite (prop_of_opt _ _ _ Hp)).
  rewrite (bind_ok _ _ (Some signature)) by (by rewrite (prop_of_opt _ _ _ Hs)).
  by rewrite Ht.
Qed.

Lemma getHmacSecret_active : QR_HMAC_ACTIVE_KID c <> "" -> QR_HMAC_ACTIVE_SECRET c <> "" ->
  (getHmacSecret (JStr (QR_HMAC_ACTIVE_KID c)) tt).1 = Ok (QR_HMAC_ACTIVE_SECRET c).
Proof.
  intros Hk Hs. unfold getHmacSecret. rewrite active_kid, active_secret.
  rewrite (bind_ok _ _ (CText (QR_HMAC_ACTIVE_KID c))) by (by destruct (QR_HMAC_ACTIVE_KID c)).
  cbn [same_text]. rewrite bool_decide_true by done. cbn [negb].
  by rewrite (bind_ok _ _ (CText (QR_HMAC_ACTIVE_SECRET c))) by (by destruct (QR_HMAC_ACTIVE_SECRET c)).
Qed.

Lemma getHmacSecret_rotated kid secret : QR_HMAC_ACTIVE_KID c <> "" -> kid <> JStr (QR_HMAC_ACTIVE_KID c) ->
  text_setting ("QR_HMAC_SECRET_" +:+ js_String kid) = Some secret -> (getHmacSecret kid tt).1 = Ok secret.
Proof.
  intros Hk Hne Hs. unfold getHmacSecret. rewrite active_kid.
  rewrite (bind_ok _ _ (CText (QR_HMAC_ACTIVE_KID c))) by (by destruct (QR_HMAC_ACTIVE_KID c)).
  assert (Hsame : same_text kid (CText (QR_HMAC_ACTIVE_KID c)) = false).
  { destruct kid; try done. cbn. apply bool_decide_eq_false. congruence. }
  rewrite Hsame. cbn [negb]. by rewrite Hs.
Qed.

Lemma check_signature_accepts envelope payload signature :
  signed_by (qe_alg envelope) (qe_kid envelope) payload signature ->
  (check_signature envelope payload signature tt).1 = Ok tt.
Proof.
  unfold check_signature. destruct envelope as [alg kid v1 v2]. cbn [qe_alg qe_kid].
  intros [bytes Hk Hs | kid' secret bytes Hk Hne Hs | kid' key bytes sig Hkey Hver].
  - change (is_text (JStr "HMAC_SHA256") "HMAC_SHA256") with true. cbv iota.
    rewrite (bind_ok _ _ _ (getHmacSecret_active Hk Hs)). by rewrite bool_decide_true.
  - change (is_text (JStr "HMAC_SHA256") "HMAC_SHA256") with true. cbv iota.
    rewrite (bind_ok _ _ _ (getHmacSecret_rotated _ _ Hk Hne Hs)). by rewrite bool_decide_true.
  - change (is_text (JStr "ED25519") "HMAC_SHA256") with false.
    change (is_text (JStr "ED25519") "ED25519") with true. cbv iota. unfold getEd25519PublicKey.
    rewrite (bind_ok _ _ key) by (by rewrite Hkey). by rewrite (bind_ok _ _ true) by (by rewrite Hver).
Qed.

Lemma genuine_accepted rawToken p : genuine rawToken p -> (qr_verify rawToken tt).1 = Ok p.
Proof.
  intros (envelope & alg & kid & payload & signature & body & Hparse & Ha & Hk & Hp & Hs & Htk & Htp & Hts &
    bytes & sig & Hbytes & Hsig & Hsigned & Hbody & Hspells & Hconforms).
  assert (Hta : js_truthy (Some alg) = true) by (by destruct Hsigned).
  unfold qr_verify. rewrite (bind_ok _ _ {| qe_alg := alg; qe_kid := kid; qe_payload := payload; qe_signature := signature |})
    by (eapply decodeEnvelope_accepts; try eassumption; by rewrite Hta, Htk, Htp, Hts).
  rewrite (bind_ok _ _ bytes) by done. rewrite (bind_ok _ _ sig) by done.
  rewrite (bind_ok _ _ tt) by (by apply check_signature_accepts).
  rewrite (bind_ok _ _ body) by (by rewrite Hbody).
  destruct (qrPayloadSchema_accepts _ _ Hspells Hconforms) as (q & i & e & Hq & Hi & He & Hv).
  rewrite Hq. cbn [fst]. rewrite (bind_ok _ _ i) by (by rewrite Hi). rewrite (bind_ok _ _ e) by (by rewrite He).
  by rewrite <- Hv.
Qed.

End Verifier.

Lemma js_truthy_text s : s <> "" -> js_truthy (Some (JStr s)) = true.
Proof. by destruct s. Qed.

Lemma encode_nonempty s : s <> "" -> base64url_encode s <> "".
Proof. intros Hs He. apply Hs. by rewrite <- (base64url_round_trip s), He. Qed.

(** C24: the verifier of the signed QR tokens accepts exactly the genuine ones. It answers
    a payload when, and only when, the token is an envelope whose signature is that of
    its payload bytes under the active HMAC key, an HMAC key set apart under the id the
    token names, or an Ed25519 key of that id, and the payload spells a ticket, an
    event, a nonce, a direction and a session within the bounds of the schema, issued no
    later than it expires and for at most a minute; the answer is that payload. *)
Theorem qr_verify_genuine `{QrPlatform} c env rawToken p :
  (qr_verify c env rawToken tt).1 = Ok p <-> genuine c env rawToken p.
Proof.
  split; [| apply genuine_accepted]. intros Hok. pose proof (qr_verify_wp c env rawToken) as Hwp. unfold wp in Hwp.
  destruct (qr_verify c env rawToken tt) as [o []]. cbn in Hok. by subst o.
Qed.

(** Signing round trips. A token put together from an envelope that carries the
    base64url text of a payload and of its HMAC under the active key is verified to that
    very payload, whatever bytes the payload and the digest have. *)
Theorem qr_issue_verify `{QrPlatform} c env payload_text envelope_text body p :
  QR_HMAC_ACTIVE_KID c <> "" -> QR_HMAC_ACTIVE_SECRET c <> "" ->
  JSON_parse envelope_text = Some (JObj
    [("alg", JStr "HMAC_SHA256"); ("kid", JStr (QR_HMAC_ACTIVE_KID c));
     ("payload", JStr (base64url_encode payload_text));
     ("signature", JStr (base64url_encode (hmac_digest (QR_HMAC_ACTIVE_SECRET c) payload_text)))]) ->
  hmac_digest (QR_HMAC_ACTIVE_SECRET c) payload_text <> "" -> payload_text <> "" ->
  JSON_parse payload_text = Some body -> spells body p -> conforms p ->
  (qr_verify c env (base64url_encode envelope_text) tt).1 = Ok p.
Proof.
  intros Hk Hs Henv Hdigest Htext Hbody Hspells Hconforms. apply genuine_accepted.
  eexists _, (JStr "HMAC_SHA256"), (JStr (QR_HMAC_ACTIVE_KID c)), (JStr (base64url_encode payload_text)),
    (JStr (base64url_encode (hmac_digest (QR_HMAC_ACTIVE_SECRET c) payload_text))), body.
  rewrite base64url_round_trip. split; [exact Henv |]. do 4 (split; [reflexivity |]).
  split_and!; [by rewrite js_truthy_text | by rewrite js_truthy_text by (by apply encode_nonempty)
              | by rewrite js_truthy_text by (by apply encode_nonempty) |].
  exists payload_text, (hmac_digest (QR_HMAC_ACTIVE_SECRET c) payload_text). cbn [Buffer_from ret fst].
  rewrite !base64url_round_trip. split_and!; try done. by constructor.
Qed.

(* ------------------------------------------------------------------ *)
(** ** A platform                                                       *)

Module QrExample.

Definition ticket_id : string := "3f2504e0-4f89-41d3-9a0c-0305e82c3301".
Definition event_id : string := "9b2c7a4e-1d3f-4c5a-8b6d-7e8f90a1b2c3".

Definition payload_of (issuedAt expiresAt : string) : json :=
  JObj [("ticketId", JStr ticket_id); ("eventId", JStr event_id); ("nonce", JStr "nonce-0001");
        ("direction", JStr "ENTRY"); ("sessionId", JStr "session-01"); ("issuedAt", JStr issuedAt);
        ("expiresAt", JStr expiresAt); ("signatureVersion", JStr "v1")].

(** The texts of two payloads and of their envelopes; a keyed prefix for the digest. *)
Definition digest (key s : string) : string := key +:+ ":" +:+ s.

Definition envelope_of (text : string) : json :=
  JObj [("alg", JStr "HMAC_SHA256"); ("kid", JStr "k1"); ("payload", JStr (base64url_encode text));
        ("signature", JStr (base64url_encode (digest "qr-secret-01234567" text)))].

Definition parse (s : string) : option json :=
  if bool_decide (s = "P") then Some (payload_of "2026-08-01T20:00:00Z" "2026-08-01T20:00:30Z")
  else if bool_decide (s = "Q") then Some (payload_of "2026-08-01T20:00:00Z" "2026-08-01T20:01:01Z")
  else if bool_decide (s = "EP") then Some (envelope_of "P")
  else if bool_decide (s = "EQ") then Some (envelope_of "Q")
  else if bool_decide (s = "null") then Some JNull
  else None.

Definition dates (s : string) : option Z :=
  if bool_decide (s = "2026-08-01T20:00:00Z") then Some 1785614400000
  else if bool_decide (s = "2026-08-01T20:00:30Z") then Some 1785614430000
  else if bool_decide (s = "2026-08-01T20:01:01Z") then Some 1785614461000
  else None.

#[export] Instance platform : QrPlatform := {
  JSON_parse := parse;
  date_ms := dates;
  hmac_digest := digest;
  ed25519_verify _ _ _ := Ok false;
  z_uuid := is_uuid;
  z_datetime s := bool_decide (dates s <> None);
  z_issue key _ := "Invalid " +:+ key;
  Buffer_from_other _ := Err (TypeError "The first argument must be of type string")
}.

Definition verified : VerifiedQrPayload :=
  {| vq_ticketId := ticket_id; vq_eventId := event_id; vq_nonce := "nonce-0001"; vq_direction := ENTRY;
     vq_sessionId := "session-01"; vq_deviceBindingId := None; vq_issuedAt := 1785614400000;
     vq_expiresAt := 1785614430000; vq_signatureVersion := "v1" |}.

Definition verify (raw : string) : outcome error VerifiedQrPayload :=
  (qr_verify ConfigExample.config ConfigExample.env raw tt).1.

(** The token of "P" passes, for ever: the verifier has no clock. *)
Example qr_accepted : verify (base64url_encode "EP") = Ok verified.
Proof. vm_run. Qed.
Example qr_too_long : verify (base64url_encode "EQ") =
  Err (InvalidStateTransitionError "QR token lifetime exceeds maximum allowed window").
Proof. vm_run. Qed.
Example qr_malformed : verify "EP" = Err (InvalidStateTransitionError "Malformed QR token envelope.").
Proof. vm_run. Qed.

(** An envelope that is the JSON null is no malformed envelope but a TypeError. *)
Example qr_null : verify (base64url_encode "null") =
  Err (TypeError "Cannot read properties (reading 'alg')").
Proof. vm_run. Qed.

(** The other verifier takes the bare payload, with no signature at all. *)
Example qr_unsigned : (json_qr_verify (base64url_encode "P") tt).1 =
  Ok {| jq_ticketId := ticket_id; jq_eventId := event_id; jq_nonce := "nonce-0001"; jq_direction := ENTRY;
        jq_sessionId := "session-01"; jq_deviceBindingId := None; jq_expiresAt := 1785614430000 |}.
Proof. vm_run. Qed.

End QrExample.

#[local] Existing Instance QrExample.platform.

Lemma qr_issue_verify_witness :
  (qr_verify ConfigExample.config ConfigExample.env (base64url_encode "EP") tt).1 = Ok QrExample.verified.
Proof.
  apply (qr_issue_verify ConfigExample.config ConfigExample.env "P" "EP"
    (QrExample.payload_of "2026-08-01T20:00:00Z" "2026-08-01T20:00:30Z")); try done.
  - exists "ENTRY", "2026-08-01T20:00:00Z", "2026-08-01T20:00:30Z".
    split_and!; try reflexivity. by left.
  - unfold conforms. cbn. split_and!; try reflexivity; try lia; done.
Defined.
