(* ===== verification/Redis.v ===== *)
(** Redis.v: the cache of the program (src/src/shared/redis): the client's commands as an
    interface with the laws Redis documents, the services over it, and what becomes of a
    nonce however their calls interleave.

    A command may be lost: the client throws, and the server may have run it or not. *)

From S2P Require Import Prelude Errors Values Hashing Context Redaction Config Scripts.

Local Open Scope Z_scope.

(* ------------------------------------------------------------------ *)
(** ** The client                                                       *)

(** The options of [SET]: [EX seconds] and [NX]. *)
Record set_options : Type := {
  so_ex : option Z;
  so_nx : bool
}.

(** The commands, at a time in milliseconds: [set] tells whether it answered OK, [incr]
    gives the new number; a command may answer an error. *)
Class Redis (store : Type) : Type := {
  rd_get : Z -> string -> store -> option string;
  rd_set : Z -> string -> string -> set_options -> store -> outcome error (bool * store);
  rd_del : Z -> string -> store -> store;
  rd_incr : Z -> string -> store -> outcome error (Z * store)
}.

(** [EXISTS key] *)
Definition rd_exists `{Redis store} (t : Z) (key : string) (s : store) : Z :=
  match rd_get t key s with Some _ => 1 | None => 0 end.

(** When a key that is set now expires. *)
Definition lives (t : Z) (ex : option Z) (t' : Z) : Prop :=
  match ex with Some seconds => t' < t + 1000 * seconds | None => True end.

(** What Redis documents: a key that is set has its value until it expires, [NX] sets
    only a key that is not there, an expiry must be positive, and a command on one key
    leaves the others alone; time only makes keys disappear. (Nothing is evicted.) *)
Class RedisLaws (store : Type) `{Redis store} : Prop := {
  set_expiry t k v o s :
    (exists e, rd_set t k v o s = Err e) <-> (exists seconds, so_ex o = Some seconds /\ seconds <= 0);
  set_answer t k v o s ok s' : rd_set t k v o s = Ok (ok, s') ->
    ok = negb (so_nx o) || bool_decide (rd_get t k s = None);
  set_refused t k v o s s' : rd_set t k v o s = Ok (false, s') -> s' = s;
  set_get t t' k v o s s' : rd_set t k v o s = Ok (true, s') -> t <= t' ->
    (rd_get t' k s' = Some v <-> lives t (so_ex o) t') /\ (rd_get t' k s' = None <-> ~ lives t (so_ex o) t');
  set_other t t' k k' v o s ok s' : rd_set t k v o s = Ok (ok, s') -> k' <> k -> rd_get t' k' s' = rd_get t' k' s;
  del_get t t' k s : rd_get t' k (rd_del t k s) = None;
  del_other t t' k k' s : k' <> k -> rd_get t' k' (rd_del t k s) = rd_get t' k' s;
  incr_other t t' k k' n s s' : rd_incr t k s = Ok (n, s') -> k' <> k -> rd_get t' k' s' = rd_get t' k' s;
  get_later t t' k v s : rd_get t' k s = Some v -> t <= t' -> rd_get t k s = Some v
}.

(** What happens to a command: it is answered, or the client throws, before or after the
    server ran it. *)
Inductive delivery : Type := Answered | LostBefore (e : error) | LostAfter (e : error).

Module redisKeys.

Definition qrNonce (eventId ticketId nonce : string) : string :=
  "qr_nonce:" +:+ eventId +:+ ":" +:+ ticketId +:+ ":" +:+ nonce.
Definition admissionState (ticketId : string) : string := "admission_state:" +:+ ticketId.
Definition revokedTicket (ticketId : string) : string := "revoked_ticket:" +:+ ticketId.
Definition paymentWebhookLock (provider providerRef : string) : string :=
  "payment_lock:" +:+ provider +:+ ":" +:+ providerRef.

End redisKeys.

(** The prefix the client puts before every key. *)
Definition keyPrefix (appName env : string) : string := appName +:+ ":" +:+ env +:+ ":".

(** A call of a service: it may throw. *)
Definition call (store A : Type) : Type := prog store error A.

Section Services.
Context {store : Type} `{Redis store}.

(** One command: [f] runs it on the server. *)
Definition command {A} (d : delivery) (f : store -> outcome error (A * store)) : call store A := fun s =>
  match d with
  | LostBefore e => (Err e, s)
  | LostAfter e => (Err e, match f s with Ok (_, s') => s' | Err _ => s end)
  | Answered => match f s with Ok (a, s') => (Ok a, s') | Err e => (Err e, s) end
  end.

Definition client_get (d : delivery) (t : Z) (key : string) : call store (option string) :=
  command d (fun s => Ok (rd_get t key s, s)).
Definition client_exists (d : delivery) (t : Z) (key : string) : call store Z :=
  command d (fun s => Ok (rd_exists t key s, s)).
Definition client_set (d : delivery) (t : Z) (key value : string) (o : set_options) : call store bool :=
  command d (rd_set t key value o).
Definition client_del (d : delivery) (t : Z) (key : string) : call store unit :=
  command d (fun s => Ok (tt, rd_del t key s)).
Definition client_incr (d : delivery) (t : Z) (key : string) : call store Z := command d (rd_incr t key).

(* ------------------------------------------------------------------ *)
(** ** NonceCacheService                                                *)

Definition isNonceUsed (d : delivery) (t : Z) (eventId ticketId nonce : string) : call store bool :=
  let* exists_ := client_exists d t (redisKeys.qrNonce eventId ticketId nonce) in
  ret (exists_ =? 1).

Definition markNonceUsed (d : delivery) (t : Z) (eventId ticketId nonce : string) (ttlSeconds : Z) : call store unit :=
  let* _ := client_set d t (redisKeys.qrNonce eventId ticketId nonce) "1"
    {| so_ex := Some ttlSeconds; so_nx := false |} in
  ret tt.

Definition consumeNonceAtomically (d : delivery) (t : Z) (eventId ticketId nonce : string) (ttlSeconds : Z)
  : call store bool :=
  catch
    (client_set d t (redisKeys.qrNonce eventId ticketId nonce) "1" {| so_ex := Some ttlSeconds; so_nx := true |})
    (fun error => throw (JsError ("Nonce replay protection unavailable: " +:+ message error))).

(* ------------------------------------------------------------------ *)
(** ** AdmissionCacheService                                            *)

Definition DEFAULT_TTL_SECONDS : Z := 300.

(** [catch { return a; }] *)
Definition or_else {A} (m : call store A) (a : A) : call store A := catch m (fun _ => ret a).

Definition getTicketState (d : delivery) (t : Z) (ticketId : string) : call store (option string) :=
  or_else (client_get d t (redisKeys.admissionState ticketId)) None.

Definition setTicketState (d : delivery) (t : Z) (ticketId state : string) (ttlSeconds : option Z) : call store unit :=
  or_else
    (let* _ := client_set d t (redisKeys.admissionState ticketId) state
       {| so_ex := Some (default DEFAULT_TTL_SECONDS ttlSeconds); so_nx := false |} in
     ret tt) tt.

Definition isTicketRevoked (d : delivery) (t : Z) (ticketId : string) : call store bool :=
  or_else (let* exists_ := client_exists d t (redisKeys.revokedTicket ticketId) in ret (exists_ =? 1)) false.

Definition markTicketRevoked (d : delivery) (t : Z) (ticketId : string) (ttlSeconds : option Z) : call store unit :=
  or_else
    (let* _ := client_set d t (redisKeys.revokedTicket ticketId) "1"
       {| so_ex := Some (default DEFAULT_TTL_SECONDS ttlSeconds); so_nx := false |} in
     ret tt) tt.

Definition primeAdmissionState (d : delivery) (t : Z) (ticketId state : string) : call store unit :=
  setTicketState d t ticketId state None.

Definition clearTicketState (d : delivery) (t : Z) (ticketId : string) : call store unit :=
  or_else (client_del d t (redisKeys.admissionState ticketId)) tt.

(* ------------------------------------------------------------------ *)
(** ** RedisService                                                     *)

(** [if (ttlSeconds)]: zero is no expiry. *)
Definition expiry (ttlSeconds : option Z) : option Z :=
  match ttlSeconds with Some 0 | None => None | Some n => Some n end.

Definition redis_get (d : delivery) (t : Z) (key : string) : call store (option string) := client_get d t key.

Definition redis_set (d : delivery) (t : Z) (key value : string) (ttlSeconds : option Z) : call store unit :=
  let* _ := client_set d t key value {| so_ex := expiry ttlSeconds; so_nx := false |} in ret tt.

Definition setIfNotExists (d : delivery) (t : Z) (key value : string) (ttlSeconds : option Z) : call store bool :=
  client_set d t key value {| so_ex := expiry ttlSeconds; so_nx := true |}.

Definition redis_delete (d : delivery) (t : Z) (key : string) : call store unit := client_del d t key.

Definition increment (d : delivery) (t : Z) (key : string) : call store Z := client_incr d t key.

End Services.

(** The connection: [client.status] as far as the service reads it, and the answer of
    the server to PING. *)
Inductive client_status : Type := status_wait | status_ready | status_end | status_other.

Definition connection (A : Type) : Type := prog client_status error A.

(** [connect] and [quit] of the client throw or move it. *)
Definition connect (answer : outcome error client_status) : connection unit :=
  let* status := reads (fun s => s) in
  match status with
  | status_wait => match answer with Ok s => modify (fun _ => s) | Err e => throw e end
  | _ => ret tt
  end.

Definition disconnect (answer : outcome error client_status) : connection unit :=
  let* status := reads (fun s => s) in
  match status with
  | status_end => ret tt
  | _ => match answer with Ok s => modify (fun _ => s) | Err e => throw e end
  end.

Definition pure_of {A} (o : outcome error A) : pure A := fun s => (o, s).

Definition ping (answer : outcome error string) : pure string :=
  let* response := pure_of answer in
  do* throw_if (negb (bool_decide (response = "PONG"))) (JsError "Unexpected Redis ping response") in
  ret "PONG".

Definition checkHealth (answer : outcome error string) : pure string :=
  let* response := pure_of answer in
  do* throw_if (negb (bool_decide (response = "PONG"))) (JsError "Redis health check failed") in
  ret "UP".

(** [Math.min(times * 200, 5000)] *)
Definition retryStrategy (times : Z) : Z := Z.min (times * 200) 5000.

(* ------------------------------------------------------------------ *)
(** ** Histories                                                        *)

(** The calls of the two cache services. *)
Inductive cache_call : Type :=
| CIsNonceUsed (eventId ticketId nonce : string)
| CMarkNonceUsed (eventId ticketId nonce : string) (ttlSeconds : Z)
| CConsumeNonce (eventId ticketId nonce : string) (ttlSeconds : Z)
| CGetTicketState (ticketId : string)
| CSetTicketState (ticketId state : string) (ttlSeconds : option Z)
| CPrimeAdmissionState (ticketId state : string)
| CIsTicketRevoked (ticketId : string)
| CMarkTicketRevoked (ticketId : string) (ttlSeconds : option Z)
| CClearTicketState (ticketId : string).

Inductive cache_answer : Type :=
| ADone
| ABool (b : bool)
| AState (state : option string).

Record cache_event : Type := {
  ce_time : Z;
  ce_delivery : delivery;
  ce_call : cache_call
}.

Section Histories.
Context {store : Type} `{Redis store}.

Definition answer_bool (m : call store bool) : call store cache_answer := let* b := m in ret (ABool b).
Definition answer_done (m : call store unit) : call store cache_answer := do* m in ret ADone.

Definition run_call (ev : cache_event) : call store cache_answer :=
  let d := ce_delivery ev in
  let t := ce_time ev in
  match ce_call ev with
  | CIsNonceUsed e k n => answer_bool (isNonceUsed d t e k n)
  | CMarkNonceUsed e k n ttl => answer_done (markNonceUsed d t e k n ttl)
  | CConsumeNonce e k n ttl => answer_bool (consumeNonceAtomically d t e k n ttl)
  | CGetTicketState k => let* v := getTicketState d t k in ret (AState v)
  | CSetTicketState k v ttl => answer_done (setTicketState d t k v ttl)
  | CPrimeAdmissionState k v => answer_done (primeAdmissionState d t k v)
  | CIsTicketRevoked k => answer_bool (isTicketRevoked d t k)
  | CMarkTicketRevoked k ttl => answer_done (markTicketRevoked d t k ttl)
  | CClearTicketState k => answer_done (clearTicketState d t k)
  end.

(** The answers of a history of calls, one after the other on the server. *)
Fixpoint run_history (l : list cache_event) (s : store) : list (outcome error cache_answer) :=
  match l with
  | [] => []
  | ev :: l => let (o, s') := run_call ev s in o :: run_history l s'
  end.

(** The clock does not go back. *)
Definition in_order : list cache_event -> Prop := StronglySorted (fun a b => ce_time a <= ce_time b).

(** [markNonceUsed] is not called for the key. *)
Definition unmarked (key : string) (ev : cache_event) : Prop :=
  match ce_call ev with CMarkNonceUsed e k n _ => redisKeys.qrNonce e k n <> key | _ => True end.

Context {laws : RedisLaws store}.

(** The key is taken until [T]. *)
Definition taken (key : string) (T : Z) (s : store) : Prop := forall t, t < T -> rd_get t key s <> None.

(** A command that leaves the key, at a time before [T]. *)
Definition leaves {A} (key : string) (T : Z) (f : store -> outcome error (A * store)) : Prop :=
  forall s a s', f s = Ok (a, s') -> taken key T s -> taken key T s'.

Lemma command_leaves {A} key T d (f : store -> outcome error (A * store)) s :
  leaves key T f -> taken key T s -> taken key T (command d f s).2.
Proof.
  intros Hf Hs. unfold command. destruct d as [| e | e]; [| done |]; destruct (f s) as [[a s'] | e'] eqn:Hfs; cbn;
    [by eapply Hf | done | by eapply Hf | done].
Qed.

Lemma set_leaves key T t k v o :
  k <> key \/ so_nx o = true /\ t < T -> leaves key T (rd_set t k v o).
Proof.
  intros Hk s ok s' Hset Htaken t' Ht'. destruct (decide (k = key)) as [-> | Hne].
  - destruct Hk as [| [Hnx Ht]]; [done |]. pose proof (set_answer _ _ _ _ _ _ _ Hset) as Hok.
    rewrite Hnx, bool_decide_false in Hok by (by apply Htaken). cbn in Hok. subst ok.
    rewrite (set_refused _ _ _ _ _ _ Hset). by apply Htaken.
  - rewrite (set_other _ t' _ key _ _ _ _ _ Hset) by done. by apply Htaken.
Qed.

Lemma read_leaves {A} key T (g : store -> A) : leaves key T (fun s => Ok (g s, s)).
Proof. intros s a s' [= _ <-]. done. Qed.

Lemma del_leaves key T t k : k <> key -> leaves key T (fun s => Ok (tt, rd_del t k s)).
Proof. intros Hne s a s' [= _ <-] Htaken t' Ht'. rewrite del_other by done. by apply Htaken. Qed.

Lemma keys_differ e k n x :
  redisKeys.admissionState x <> redisKeys.qrNonce e k n /\ redisKeys.revokedTicket x <> redisKeys.qrNonce e k n.
Proof. split; discriminate. Qed.

Lemma bind_state {A B} key T (m : call store A) (f : A -> B) s :
  taken key T (m s).2 -> taken key T ((let* a := m in ret (f a)) s).2.
Proof. unfold bind. by destruct (m s) as [[a | e] s']. Qed.

Lemma catch_state {A} key T (m : call store A) (h : error -> call store A) s :
  taken key T (m s).2 -> (forall e s', (h e s').2 = s') -> taken key T (catch m h s).2.
Proof. intros Hm Hh. unfold catch. destruct (m s) as [[a | e] s']; [done | cbn; by rewrite Hh]. Qed.

(** A call before [T] leaves a taken nonce taken. *)
Lemma run_call_leaves e k n T ev s :
  ce_time ev < T -> unmarked (redisKeys.qrNonce e k n) ev -> taken (redisKeys.qrNonce e k n) T s ->
  taken (redisKeys.qrNonce e k n) T (run_call ev s).2.
Proof.
  intros Ht Hmark Htaken. destruct ev as [t d c]. cbn in Ht. unfold unmarked in Hmark. cbn in Hmark.
  pose proof (keys_differ e k n) as Hkeys.
  destruct c; unfold run_call; cbn [ce_time ce_delivery ce_call]; unfold answer_bool, answer_done;
    try apply bind_state; unfold isNonceUsed, markNonceUsed, getTicketState, primeAdmissionState, setTicketState,
      isTicketRevoked, markTicketRevoked, clearTicketState, consumeNonceAtomically, or_else;
    try (apply catch_state; [| done]); try apply bind_state;
    apply command_leaves; try done; try apply read_leaves;
    try (apply set_leaves; cbn; first [left; first [done | apply Hkeys] | right; done]).
  apply del_leaves, Hkeys.
Qed.

(** A consumption that says yes takes the nonce for its time to live. *)
Lemma consume_yes d t e k n ttl s :
  (consumeNonceAtomically d t e k n ttl s).1 = Ok true ->
  rd_get t (redisKeys.qrNonce e k n) s = None /\
  taken (redisKeys.qrNonce e k n) (t + 1000 * ttl) (consumeNonceAtomically d t e k n ttl s).2.
Proof.
  unfold consumeNonceAtomically, catch, client_set, command. destruct d as [| e' | e']; [| done | done].
  destruct (rd_set _ _ _ _ s) as [[ok s'] | e'] eqn:Hset; [| done]. cbn. intros [= ->].
  pose proof (set_answer _ _ _ _ _ _ _ Hset) as Hok. cbn in Hok. split.
  { symmetry in Hok. by apply bool_decide_eq_true in Hok. }
  assert (Hpos : 0 < ttl).
  { destruct (Z.le_gt_cases ttl 0) as [Hle |]; [exfalso | lia].
    destruct (proj2 (set_expiry t (redisKeys.qrNonce e k n) "1" {| so_ex := Some ttl; so_nx := true |} s)) as [e' He'];
      [by exists ttl | congruence]. }
  intros t' Ht'. destruct (Z.le_gt_cases t t') as [Hle | Hgt].
  - intros Hnone. apply (set_get _ _ _ _ _ _ _ Hset Hle) in Hnone. cbn in Hnone. lia.
  - assert (Htt : rd_get t (redisKeys.qrNonce e k n) s' = Some "1").
    { apply (set_get _ t _ _ _ _ _ Hset); cbn; lia. }
    intros Hnone. rewrite (get_later t' t _ _ _ Htt) in Hnone by lia. done.
Qed.

Lemma history_waits e k n T l : forall s,
  in_order l -> Forall (unmarked (redisKeys.qrNonce e k n)) l -> taken (redisKeys.qrNonce e k n) T s ->
  forall j t d ttl, l !! j = Some {| ce_time := t; ce_delivery := d; ce_call := CConsumeNonce e k n ttl |} ->
    run_history l s !! j = Some (Ok (ABool true)) -> T <= t.
Proof.
  induction l as [| ev l IH]; intros s Hord Hmark Htaken j t d ttl Hj Hans; [done |].
  inversion Hord as [| ? ? Hord' Hfirst]; subst. inversion Hmark as [| ? ? Hev Hmark']; subst.
  cbn [run_history] in Hans. destruct (run_call ev s) as [o s'] eqn:Hrun. destruct j as [| j]; cbn in Hj, Hans.
  - injection Hj as ->. injection Hans as ->. unfold run_call in Hrun. cbn in Hrun. unfold answer_bool, bind in Hrun.
    destruct (consumeNonceAtomically d t e k n ttl s) as [[b | e'] s''] eqn:Hc; [| done]. injection Hrun as -> ->.
    destruct (consume_yes d t e k n ttl s) as [Hnone _]; [by rewrite Hc |].
    destruct (Z.le_gt_cases T t) as [| Ht]; [done |]. exfalso. apply (Htaken t); [lia | done].
  - destruct (Z.le_gt_cases T (ce_time ev)) as [HT | HT].
    + rewrite Forall_forall in Hfirst. specialize (Hfirst _ (list_elem_of_lookup_2 _ _ _ Hj)). cbn in Hfirst. lia.
    + eapply (IH s'); try done. replace s' with (run_call ev s).2 by (by rewrite Hrun). by apply run_call_leaves.
Qed.

(** C25: a nonce is consumed once. Take any history of calls of the two cache services, in
    the order of their times, their commands answered or lost before or after the server
    ran them: when two consumptions of the same nonce both say yes, the second comes
    after the time to live of the first. (No [markNonceUsed], which sets an expiry of
    its own, is called for that key.) *)
Theorem nonce_consumed_once l s i j e k n t1 t2 d1 d2 ttl1 ttl2 :
  in_order l -> Forall (unmarked (redisKeys.qrNonce e k n)) l -> (i < j)%nat ->
  l !! i = Some {| ce_time := t1; ce_delivery := d1; ce_call := CConsumeNonce e k n ttl1 |} ->
  l !! j = Some {| ce_time := t2; ce_delivery := d2; ce_call := CConsumeNonce e k n ttl2 |} ->
  run_history l s !! i = Some (Ok (ABool true)) -> run_history l s !! j = Some (Ok (ABool true)) ->
  t1 + 1000 * ttl1 <= t2.
Proof.
  revert s i j. induction l as [| ev l IH]; intros s i j Hord Hmark Hij Hi Hj Hai Haj; [done |].
  inversion Hord as [| ? ? Hord' Hfirst]; subst. inversion Hmark as [| ? ? Hev Hmark']; subst.
  destruct j as [| j]; [lia |]. cbn [run_history] in Hai, Haj. destruct (run_call ev s) as [o s'] eqn:Hrun.
  destruct i as [| i]; cbn in Hi, Hj, Hai, Haj; [| by eapply (IH s' i j); try lia].
  injection Hi as ->. injection Hai as ->. unfold run_call in Hrun. cbn in Hrun. unfold answer_bool, bind in Hrun.
  destruct (consumeNonceAtomically d1 t1 e k n ttl1 s) as [[b | e'] s''] eqn:Hc; [| done]. injection Hrun as -> ->.
  destruct (consume_yes d1 t1 e k n ttl1 s) as [_ Htaken]; [by rewrite Hc |]. rewrite Hc in Htaken.
  exact (history_waits e k n _ l s' Hord' Hmark' Htaken j t2 d2 ttl2 Hj Haj).
Qed.

End Histories.

(** The nonce keys of different tickets differ, the ids being free of colons. *)
Lemma qrNonce_inj e k n e' k' n' :
  free_of ":" e = true -> free_of ":" k = true -> free_of ":" e' = true -> free_of ":" k' = true ->
  redisKeys.qrNonce e k n = redisKeys.qrNonce e' k' n' -> e = e' /\ k = k' /\ n = n'.
Proof.
  intros He Hk He' Hk' Heq. unfold redisKeys.qrNonce in Heq. apply string_app_cancel in Heq.
  change (":" +:+ ?x) with (String ":" x) in Heq.
  pose proof (cut_app ":" e (k +:+ String ":" n) He) as H1. pose proof (cut_app ":" e' (k' +:+ String ":" n') He') as H2.
  change (e +:+ String ":" (k +:+ String ":" n) = e' +:+ String ":" (k' +:+ String ":" n')) in Heq.
  rewrite Heq, H2 in H1. injection H1 as <- Hrest.
  pose proof (cut_app ":" k n Hk) as H3. pose proof (cut_app ":" k' n' Hk') as H4. rewrite <- Hrest, H4 in H3.
  by injection H3 as <- <-.
Qed.

(* ------------------------------------------------------------------ *)
(** ** A store                                                          *)

(** Every key with its value and the time it expires. *)
Module RedisExample.

Definition live (t : Z) (entry : string * option Z) : bool :=
  match entry.2 with Some expires => t <? expires | None => true end.

Definition get (t : Z) (k : string) (s : gmap string (string * option Z)) : option string :=
  match s !! k with Some entry => if live t entry then Some entry.1 else None | None => None end.

Definition set_key (t : Z) (k v : string) (o : set_options) (s : gmap string (string * option Z)) : outcome error (bool * gmap string (string * option Z)) :=
  if match so_ex o with Some seconds => seconds <=? 0 | None => false end
  then Err (OtherError "ReplyError" "ERR invalid expire time in 'set' command")
  else if so_nx o && negb (bool_decide (get t k s = None)) then Ok (false, s)
  else Ok (true, <[k := (v, (fun seconds => t + 1000 * seconds) <$> so_ex o)]> s).

Definition incr (t : Z) (k : string) (s : gmap string (string * option Z)) : outcome error (Z * gmap string (string * option Z)) :=
  match get t k s with
  | None => Ok (1, <[k := ("1", None)]> s)
  | Some v =>
      match BigInt (Some (JStr v)) with
      | Ok z => Ok (z + 1, <[k := (pretty (z + 1), match s !! k with Some entry => entry.2 | None => None end)]> s)
      | Err _ => Err (OtherError "ReplyError" "ERR value is not an integer or out of range")
      end
  end.

#[export] Instance redis : Redis (gmap string (string * option Z)) := {
  rd_get := get; rd_set := set_key; rd_del t k s := delete k s; rd_incr := incr
}.

#[export] Instance laws : RedisLaws (gmap string (string * option Z)).
Proof.
  split; cbn [rd_get rd_set rd_del rd_incr redis].
  - intros t k v o s. unfold set_key. destruct (so_ex o) as [seconds |].
    + destruct (Z.leb_spec seconds 0); split; intros Hx; [by exists seconds | by eexists | |].
      * destruct Hx as [e He]. destruct (so_nx o && _); done.
      * destruct Hx as (? & [= <-] & ?). lia.
    + split; [intros [e He]; destruct (so_nx o && _); done | intros (? & ? & _); done].
  - intros t k v o s ok s'. unfold set_key. destruct (match so_ex o with Some _ => _ | None => _ end); [done |].
    destruct (so_nx o); cbn; [| by intros [= <- _]]. case_bool_decide; cbn; by intros [= <- _].
  - intros t k v o s s'. unfold set_key. destruct (match so_ex o with Some _ => _ | None => _ end); [done |].
    destruct (so_nx o && _); [by intros [= <-] | done].
  - intros t t' k v o s s'. unfold set_key. destruct (match so_ex o with Some _ => _ | None => _ end); [done |].
    destruct (so_nx o && _); [done |]. intros [= <-] Ht. unfold get. rewrite lookup_insert_eq. unfold live, lives. cbn.
    destruct (so_ex o) as [seconds |]; cbn; [destruct (Z.ltb_spec t' (t + 1000 * seconds)) |]; split; split; try done; lia.
  - intros t t' k k' v o s ok s'. unfold set_key. destruct (match so_ex o with Some _ => _ | None => _ end); [done |].
    destruct (so_nx o && _); intros [= _ <-] Hne; [done |]. unfold get. by rewrite lookup_insert_ne by congruence.
  - intros t t' k s. unfold get. by rewrite lookup_delete_eq.
  - intros t t' k k' s Hne. unfold get. by rewrite lookup_delete_ne by congruence.
  - intros t t' k k' n s s'. unfold incr. destruct (get t k s) as [v |].
    + destruct (BigInt _); [| done]. intros [= _ <-] Hne. unfold get. by rewrite lookup_insert_ne by congruence.
    + intros [= _ <-] Hne. unfold get. by rewrite lookup_insert_ne by congruence.
  - intros t t' k v s. unfold get. destruct (s !! k) as [[w [expires |]] |]; cbn; try done. unfold live. cbn.
    destruct (Z.ltb_spec t' expires), (Z.ltb_spec t expires); try done; lia.
Qed.

Definition consume (t : Z) (d : delivery) : cache_event :=
  {| ce_time := t; ce_delivery := d; ce_call := CConsumeNonce "ev" "tk" "nonce-0001" 60 |}.

Definition lost : error := OtherError "Error" "Connection is closed.".

(** Two scans of one code, a lost one, another after the minute. *)
Definition history : list cache_event :=
  [consume 1000 Answered; consume 1500 Answered; consume 2000 (LostAfter lost); consume 61000 Answered].

Example history_answers : run_history history ∅ =
  [Ok (ABool true); Ok (ABool false);
   Err (JsError "Nonce replay protection unavailable: Connection is closed."); Ok (ABool true)].
Proof. vm_run. Qed.

(** A revocation is forgotten after five minutes, and not seen while the cache is down. *)
Definition revocation : list cache_event :=
  [{| ce_time := 0; ce_delivery := Answered; ce_call := CMarkTicketRevoked "tk" None |};
   {| ce_time := 1000; ce_delivery := Answered; ce_call := CIsTicketRevoked "tk" |};
   {| ce_time := 2000; ce_delivery := LostBefore lost; ce_call := CIsTicketRevoked "tk" |};
   {| ce_time := 300000; ce_delivery := Answered; ce_call := CIsTicketRevoked "tk" |}].

Example revocation_forgotten : run_history revocation ∅ =
  [Ok ADone; Ok (ABool true); Ok (ABool false); Ok (ABool false)].
Proof. vm_run. Qed.

End RedisExample.

#[local] Existing Instance RedisExample.redis.
#[local] Existing Instance RedisExample.laws.

Lemma nonce_consumed_once_witness : 1000 + 1000 * 60 <= 61000.
Proof.
  apply (nonce_consumed_once RedisExample.history ∅ 0 3 "ev" "tk" "nonce-0001" 1000 61000 Answered Answered 60 60);
    try reflexivity; [| | lia].
  - repeat constructor; cbn; lia.
  - repeat constructor.
Defined.
