(* ===== verification/Observability.v ===== *)
(** Observability.v: what a request leaves behind: the log lines, the response headers
    and the metrics (src/src/shared/logging, src/src/shared/interceptors,
    src/src/shared/telemetry), the answer to a failed request (src/src/shared/errors), and
    the health report (src/src/modules/health).

    The metrics library and the logger of the framework are the list of what they were
    given. *)

From S2P Require Import Prelude Errors Values Hashing Context Redaction Config Scripts Redis.

Local Open Scope Z_scope.

(* ------------------------------------------------------------------ *)
(** ** Labels                                                           *)

Definition DEFAULT_LABEL_VALUE : string := "n/a".

(** [toLabelValue] *)
Definition toLabelValue (value : jsval) : string :=
  match value with
  | None | Some JNull | Some (JStr "") => DEFAULT_LABEL_VALUE
  | Some (JBool b) => if b then "true" else "false"
  | Some v =>
      let rendered := trim (js_String v) in
      if bool_decide (rendered = "") then DEFAULT_LABEL_VALUE else substring 0 120 rendered
  end.

(** [s.split(c)] for one character. *)
Fixpoint split_on (c : ascii) (s : string) : list string :=
  match s with
  | EmptyString => [""]
  | String x s =>
      if bool_decide (x = c) then "" :: split_on c s
      else match split_on c s with part :: parts => String x part :: parts | [] => [String x ""] end
  end.

(** [parts.join(c)] *)
Fixpoint join_on (c : ascii) (parts : list string) : string :=
  match parts with
  | [] => ""
  | [part] => part
  | part :: parts => part +:+ String c (join_on c parts)
  end.

(** [raw.split('?')[0]] *)
Definition before_query (s : string) : string := default s (head (split_on "?" s)).

Definition with_leading_slash (s : string) : string := if startsWith "/" s then s else String "/" s.

(** [s.replace(/\/X(?=\/|$)/g, '/:id')], where [X] has no slash: the segments after a slash
    that [X] matches whole. *)
Definition replace_segments (X : string -> bool) (s : string) : string :=
  match split_on "/" s with
  | [] => ""
  | first :: segments => join_on "/" (first :: ((fun seg => if X seg then ":id" else seg) <$> segments))
  end.

(** [/\d+/] of a whole segment. *)
Definition is_number (s : string) : bool := negb (bool_decide (s = "")) && string_forall (char_range 48 57) s.

(** [s.replace(/\/+/g, '/')] *)
Fixpoint collapse_slashes (s : string) : string :=
  match s with
  | String x s' =>
      if bool_decide (x = "/"%char) && startsWith "/" s' then collapse_slashes s' else String x (collapse_slashes s')
  | EmptyString => ""
  end.

(** [normalizeRoute] of the telemetry service. *)
Definition normalizeRoute (value : jsval) : string :=
  let rendered := toLabelValue value in
  if bool_decide (rendered = DEFAULT_LABEL_VALUE) then rendered
  else collapse_slashes (replace_segments is_number (replace_segments is_uuid (with_leading_slash (before_query rendered)))).

(** [normalizeRoute] of the timing interceptor. *)
Definition normalize_route (raw : string) : string :=
  replace_segments is_number (replace_segments is_uuid (collapse_slashes (with_leading_slash (before_query raw)))).

Example routes_normalized :
  normalizeRoute (Some (JStr "api/events/3F2504e0-4f89-41d3-9a0c-0305e82c3301//tables/42/7?x=1")) =
    "/api/events/:id/tables/:id/:id" /\
  normalize_route "//orders//12/" = "/orders/:id/".
Proof. split; reflexivity. Qed.

(** The attributes a metric may carry; all others are dropped. *)
Definition label_fields : list (string * string) :=
  [("method", "method"); ("route", "route"); ("status_code", "statusCode"); ("provider", "provider");
   ("event_type", "eventType"); ("error_code", "errorCode"); ("retryable", "retryable");
   ("dead_letter", "deadLetter"); ("result", "result"); ("currency", "currency"); ("dependency", "dependency")].

Definition attributes : Type := list (string * json).

(** [buildCommonLabels] *)
Definition buildCommonLabels (attrs : attributes) : list (string * string) :=
  (fun lf => (lf.1, if bool_decide (lf.1 = "route") then normalizeRoute (field lf.2 attrs)
                    else toLabelValue (field lf.2 attrs))) <$> label_fields.

Definition COMMON_LABEL_NAMES : list string :=
  ["method"; "route"; "status_code"; "provider"; "event_type"; "error_code"; "retryable"; "dead_letter"; "result";
   "currency"; "dependency"].

(** A metric as the constructor of the service registers it. *)
Record metric_decl : Type := {
  mt_name : string;
  mt_labelNames : list string;
  mt_buckets : list Z
}.

Definition DURATION_BUCKETS_MS : list Z := [25; 50; 100; 250; 500; 750; 1000; 2500; 5000; 10000].

Definition registered : list metric_decl :=
  [{| mt_name := "govibe_application_events_total"; mt_labelNames := "event_name" :: COMMON_LABEL_NAMES; mt_buckets := [] |};
   {| mt_name := "govibe_application_counters_total"; mt_labelNames := "metric_name" :: COMMON_LABEL_NAMES; mt_buckets := [] |};
   {| mt_name := "govibe_application_gauges"; mt_labelNames := "metric_name" :: COMMON_LABEL_NAMES; mt_buckets := [] |};
   {| mt_name := "govibe_application_duration_milliseconds"; mt_labelNames := "metric_name" :: COMMON_LABEL_NAMES;
      mt_buckets := DURATION_BUCKETS_MS |}].

(** The labels every metric of the process has. *)
Definition default_labels (c : AppConfigValues) : list (string * string) :=
  [("app_name", APP_NAME c); ("environment", NODE_ENV c)].

(** The labels of a call are those its metric was registered with, whatever the
    attributes: the library, which refuses any other, refuses none. *)
Lemma labels_registered attrs : (buildCommonLabels attrs).*1 = COMMON_LABEL_NAMES.
Proof. reflexivity. Qed.

(* ------------------------------------------------------------------ *)
(** ** TelemetryService                                                 *)

(** What is seen from outside: a metric, a log line, a header of the response. *)
Inductive observed : Type :=
| Counted (metric : string) (labels : list (string * string)) (value : json)
| Gauged (metric : string) (labels : list (string * string)) (value : json)
| Timed (metric : string) (labels : list (string * string)) (value : json)
| Recorded (event : string) (labels : list (string * string))
| Logged (line : string)
| Header (name value : string).

Definition watched (A : Type) : Type := prog (list observed) error A.

Definition observe (o : observed) : watched unit := modify (fun s => s ++ [o]).

(** [Number.isFinite(value) ? value : 0] *)
Definition finite_value (value : json) : json :=
  match value with
  | JNum z => JNum z
  | JFloat r => if bool_decide (r ∈ ["NaN"; "Infinity"; "-Infinity"]) then JNum 0 else JFloat r
  | _ => JNum 0
  end.

Definition is_finite_number (value : json) : bool :=
  match value with
  | JNum _ => true
  | JFloat r => negb (bool_decide (r ∈ ["NaN"; "Infinity"; "-Infinity"]))
  | _ => false
  end.

Section Telemetry.
(** Whether the library's counter takes an increment; it throws on a negative one. *)
Context (decreases : json -> bool).

Definition counter_inc (o : observed) (value : json) : watched unit :=
  do* throw_if (decreases value) (OtherError "Error" "It is not possible to decrease a counter") in observe o.

Definition incrementCounter (metricName : string) (value : json) (attrs : attributes) : watched unit :=
  counter_inc (Counted metricName (buildCommonLabels attrs) (finite_value value)) (finite_value value).

Definition setGauge (metricName : string) (value : json) (attrs : attributes) : watched unit :=
  observe (Gauged metricName (buildCommonLabels attrs) (finite_value value)).

Definition recordTiming (metricName : string) (durationMs : json) (attrs : attributes) : watched unit :=
  observe (Timed metricName (buildCommonLabels attrs) (finite_value durationMs)).

Definition record (eventName : string) (payload : attributes) : watched unit :=
  do* observe (Recorded eventName (buildCommonLabels payload)) in
  for_each payload (fun kv =>
    when (is_finite_number kv.2) (incrementCounter ("event." +:+ eventName +:+ "." +:+ kv.1) kv.2 payload)).

(** [getMetricsSnapshot] and [resetForTests]: the metrics, which the library renders. *)
Definition is_metric (o : observed) : bool :=
  match o with Counted _ _ _ | Gauged _ _ _ | Timed _ _ _ | Recorded _ _ => true | Logged _ | Header _ _ => false end.

Definition getMetricsSnapshot : watched (list observed) := reads (fun s => filter (fun o => is_metric o) s).

Definition resetForTests : watched unit := modify (fun s => filter (fun o => negb (is_metric o)) s).

(** The function [startSpan] returns, given the nanoseconds of the span. *)
Definition end_span (spanName : string) (durationMs : json) (attrs : attributes) : watched unit :=
  recordTiming (spanName +:+ ".duration") durationMs attrs.

(* ------------------------------------------------------------------ *)
(** ** The logger and the interceptors                                  *)

(** [format] and [log] of AppLoggerService. *)
Definition log (ctx : option RequestContextValue) (message : string) : watched unit :=
  observe (Logged
    match truthy (correlation_of ctx) with
    | Some c => "[corr:" +:+ c +:+ "] " +:+ message
    | None => message
    end).

Record HttpRequestLike : Type := {
  hq_method : option string;
  hq_url : option string;
  hq_originalUrl : option string;
  hq_baseUrl : option string;
  hq_routePath : option string
}.

(** How the handler ends: what it gives or throws, the status of the response then, and
    the milliseconds the two interceptors measured. *)
Record handled (A : Type) : Type := {
  hd_outcome : outcome error A;
  hd_statusCode : option Z;
  hd_loggedMs : Z;
  hd_timedMs : Z
}.
Arguments hd_outcome {A}. Arguments hd_statusCode {A}. Arguments hd_loggedMs {A}. Arguments hd_timedMs {A}.

(** [next.handle().pipe(finalize(f))]: [f] runs however the handler ends. *)
Definition finalize {A} (m : watched A) (f : watched unit) : watched A := fun s =>
  let (o, s') := m s in
  match f s' with
  | (Ok _, s'') => (o, s'')
  | (Err e, s'') => (Err e, s'')
  end.

Definition or_text (d : string) (o : option string) : string := default d o.

(** [LoggingInterceptor.intercept] of an HTTP request, around [next]. *)
Definition logging_intercept {A} (ctx : option RequestContextValue) (request : HttpRequestLike)
    (statusCode : option Z) (durationMs : Z) (next : watched A) : watched A :=
  let correlation := or_text "n/a" (correlation_of ctx) in
  let request_id := or_text "n/a" (requestId <$> ctx) in
  let method := or_text "UNKNOWN" (hq_method request) in
  let route := or_text "/" (nullish (hq_routePath request) (hq_url request)) in
  let user := or_text "anonymous" (ctx ≫= ctx_userId) in
  let device := or_text "n/a" (ctx ≫= ctx_deviceId) in
  do* log ctx ("request_start method=" +:+ method +:+ " route=" +:+ route +:+ " request_id=" +:+ request_id +:+
               " user_id=" +:+ user +:+ " device_id=" +:+ device) in
  finalize next
    (log ctx ("request_end method=" +:+ method +:+ " route=" +:+ route +:+ " status=" +:+
              pretty (default 0 statusCode) +:+ " latency_ms=" +:+ pretty durationMs +:+
              " request_id=" +:+ request_id +:+ " correlation_id=" +:+ correlation +:+
              " user_id=" +:+ user +:+ " device_id=" +:+ device)).

(** [CorrelationInterceptor.intercept] of an HTTP request. *)
Definition correlation_intercept {A} (ctx : option RequestContextValue) (next : watched A) : watched A :=
  match truthy (correlation_of ctx), truthy (requestId <$> ctx) with
  | Some correlation, Some request_id =>
      do* observe (Header "x-correlation-id" correlation) in
      do* observe (Header "x-request-id" request_id) in next
  | _, _ => next
  end.

Definition SLOW_PATH_THRESHOLD_MS : Z := 750.

Definition resolveRouteLabel (request : HttpRequestLike) : string :=
  match truthy (hq_routePath request) with
  | Some routePath => normalize_route (or_text "" (hq_baseUrl request) +:+ String "/" routePath)
  | None => normalize_route (or_text "/" (nullish (hq_originalUrl request) (hq_url request)))
  end.

(** A field that may be undefined. *)
Definition text_field (key : string) (o : option string) : attributes :=
  match o with Some s => [(key, JStr s)] | None => [] end.
Definition number_field (key : string) (o : option Z) : attributes :=
  match o with Some z => [(key, JNum z)] | None => [] end.

(** [TimingInterceptor.intercept] of an HTTP request. *)
Definition timing_intercept {A} (ctx : option RequestContextValue) (request : HttpRequestLike)
    (statusCode : option Z) (durationMs : Z) (next : watched A) : watched A :=
  let method := or_text "UNKNOWN" (hq_method request) in
  let route := resolveRouteLabel request in
  let ids := text_field "correlationId" (correlation_of ctx) ++ text_field "requestId" (requestId <$> ctx) in
  finalize next
    (do* recordTiming "http.request.duration" (JNum durationMs)
           (ids ++ text_field "userId" (ctx ≫= ctx_userId) ++ text_field "deviceId" (ctx ≫= ctx_deviceId) ++
            [("method", JStr method); ("route", JStr route)] ++ number_field "statusCode" statusCode) in
     when (SLOW_PATH_THRESHOLD_MS <=? durationMs)
       (incrementCounter "http.request.slow" (JNum 1)
          (ids ++ [("method", JStr method); ("route", JStr route); ("durationMs", JNum durationMs)] ++
           number_field "statusCode" statusCode))).

(** The interceptors main.ts installs, outermost first, around a handler. *)
Definition intercepted {A} (ctx : option RequestContextValue) (request : HttpRequestLike) (h : handled A)
  : watched A :=
  let status := hd_statusCode h in
  logging_intercept ctx request status (hd_loggedMs h)
    (correlation_intercept ctx
       (timing_intercept ctx request status (hd_timedMs h) (fun s => (hd_outcome h, s)))).

End Telemetry.

Arguments hd_outcome {A}. Arguments hd_statusCode {A}. Arguments hd_loggedMs {A}. Arguments hd_timedMs {A}.

(* ------------------------------------------------------------------ *)
(** ** Segments                                                         *)

Lemma split_on_some c s : exists part parts, split_on c s = part :: parts.
Proof.
  induction s as [| x s (part & parts & IH)]; [by eexists _, _ |]. cbn. case_bool_decide; [by eexists _, _ |].
  rewrite IH. by eexists _, _.
Qed.

Lemma free_of_cons c x s : free_of c (String x s) = negb (bool_decide (x = c)) && free_of c s.
Proof. done. Qed.

Lemma split_on_free c s : Forall (fun part => free_of c part = true) (split_on c s).
Proof.
  induction s as [| x s IH]; [by constructor |]. cbn. case_bool_decide as Hx; [by constructor |].
  destruct (split_on_some c s) as (part & parts & Hs). rewrite Hs in IH |- *.
  inversion IH; subst. constructor; [| done]. rewrite free_of_cons, bool_decide_false by done. done.
Qed.

Lemma split_on_free_text c s : free_of c s = true -> split_on c s = [s].
Proof.
  induction s as [| x s IH]; [done |]. rewrite free_of_cons. intros [Hx Hs]%andb_true_iff.
  apply negb_true_iff in Hx. cbn. by rewrite Hx, IH.
Qed.

Lemma split_on_app c part s : free_of c part = true -> split_on c (part +:+ String c s) = part :: split_on c s.
Proof.
  induction part as [| x part IH]; intros Hfree.
  - rewrite string_app_nil. cbn. by rewrite bool_decide_true.
  - rewrite free_of_cons in Hfree. apply andb_true_iff in Hfree as [Hx Hpart]. apply negb_true_iff in Hx.
    rewrite string_app_cons. cbn. by rewrite Hx, IH.
Qed.

(** Joined parts split again. *)
Lemma split_join c parts :
  Forall (fun part => free_of c part = true) parts -> parts <> [] -> split_on c (join_on c parts) = parts.
Proof.
  induction 1 as [| part parts Hpart Hparts IH]; intros Hne; [done |]. destruct parts as [| p parts].
  - by apply split_on_free_text.
  - change (join_on c (part :: p :: parts)) with (part +:+ String c (join_on c (p :: parts))).
    by rewrite split_on_app, IH.
Qed.

Lemma replace_segments_split X s first segments :
  split_on "/" s = first :: segments ->
  split_on "/" (replace_segments X s) = first :: ((fun seg => if X seg then ":id" else seg) <$> segments).
Proof.
  intros Hs. unfold replace_segments. rewrite Hs. pose proof (split_on_free "/" s) as Hfree. rewrite Hs in Hfree.
  inversion Hfree as [| ? ? Hfirst Hrest]; subst. apply split_join; [| done]. constructor; [done |].
  apply Forall_fmap. eapply Forall_impl; [exact Hrest |]. intros seg Hseg. cbn. by destruct (X seg).
Qed.

(** Collapsing keeps the first segment and adds none. *)
Lemma collapse_split s : forall first segments, split_on "/" s = first :: segments ->
  exists segments', split_on "/" (collapse_slashes s) = first :: segments' /\ incl segments' segments.
Proof.
  induction s as [| x s IH]; intros first segments Hs; cbn [collapse_slashes split_on] in *.
  { injection Hs as <- <-. exists []. split; [done | intros y []]. }
  destruct (split_on_some "/" s) as (part & parts & Hsplit).
  destruct (IH _ _ Hsplit) as (parts' & Hcollapse & Hincl). case_bool_decide as Hx; cbn [andb].
  - injection Hs as <- <-. destruct (startsWith "/" s) eqn:Hstart.
    + exists parts'. split; [| rewrite Hsplit; intros y Hy; right; by apply Hincl].
      destruct s as [| y s]; [done |]. cbn in Hstart. rewrite Hcollapse. cbn in Hsplit. rewrite Hstart in Hsplit.
      by injection Hsplit as <- _.
    + exists (part :: parts'). cbn [split_on]. rewrite bool_decide_true by done. rewrite Hcollapse, Hsplit.
      split; [done |]. intros y [-> | Hy]; [by left | right; by apply Hincl].
  - rewrite Hsplit in Hs. injection Hs as <- <-. exists parts'. cbn [split_on].
    rewrite bool_decide_false by done. by rewrite Hcollapse.
Qed.

(** A segment that is no id: neither a uuid nor a number. *)
Definition no_id (seg : string) : Prop := is_uuid seg = false /\ is_number seg = false.

Lemma replaced_no_id segments :
  Forall no_id ((fun seg => if is_number seg then ":id" else seg) <$>
    ((fun seg => if is_uuid seg then ":id" else seg) <$> segments)).
Proof.
  rewrite Forall_fmap, Forall_fmap. apply Forall_forall. intros seg _. unfold compose. cbv beta.
  destruct (is_uuid seg) eqn:Hu; [by split |]. destruct (is_number seg) eqn:Hn; by split.
Qed.

Lemma leading_slash_split s : exists segments, split_on "/" (with_leading_slash s) = "" :: segments.
Proof.
  unfold with_leading_slash. destruct s as [| x s]; [by eexists |]. cbn. case_bool_decide as Hx; cbn.
  - rewrite bool_decide_true by done. by eexists.
  - by eexists.
Qed.

Lemma no_id_incl segments segments' : incl segments' segments -> Forall no_id segments -> Forall no_id segments'.
Proof. intros Hincl Hall. apply List.Forall_forall. intros x Hx. rewrite List.Forall_forall in Hall. by apply Hall, Hincl. Qed.

Lemma no_id_empty : no_id "".
Proof. by split. Qed.

(** No id is left in a route, in either order of the replacements. *)
Lemma normalizeRoute_no_id value :
  normalizeRoute value = DEFAULT_LABEL_VALUE \/ Forall no_id (split_on "/" (normalizeRoute value)).
Proof.
  unfold normalizeRoute. cbv zeta. case_bool_decide; [by left | right].
  destruct (leading_slash_split (before_query (toLabelValue value))) as [segments Hs].
  pose proof (replace_segments_split is_number _ _ _ (replace_segments_split is_uuid _ _ _ Hs)) as Hr.
  destruct (collapse_split _ _ _ Hr) as (segments' & -> & Hincl).
  constructor; [apply no_id_empty |]. eapply no_id_incl; [exact Hincl | apply replaced_no_id].
Qed.

Lemma normalize_route_no_id raw : Forall no_id (split_on "/" (normalize_route raw)).
Proof.
  unfold normalize_route. destruct (leading_slash_split (before_query raw)) as [segments Hs].
  destruct (collapse_split _ _ _ Hs) as (segments' & Hc & _).
  rewrite (replace_segments_split is_number _ _ _ (replace_segments_split is_uuid _ _ _ Hc)).
  constructor; [apply no_id_empty | apply replaced_no_id].
Qed.

(* ------------------------------------------------------------------ *)
(** ** What a request leaves                                            *)

(** The labels of a request's metrics: they know its method, its route and its status. *)
Definition request_labels (request : HttpRequestLike) (statusCode : option Z) : list (string * string) :=
  buildCommonLabels ([("method", JStr (or_text "UNKNOWN" (hq_method request)));
                      ("route", JStr (resolveRouteLabel request))] ++ number_field "statusCode" statusCode).

Definition request_metrics {A} (request : HttpRequestLike) (h : handled A) : list observed :=
  let labels := request_labels request (hd_statusCode h) in
  Timed "http.request.duration" labels (JNum (hd_timedMs h)) ::
  (if SLOW_PATH_THRESHOLD_MS <=? hd_timedMs h then [Counted "http.request.slow" labels (JNum 1)] else []).

Definition correlation_headers (ctx : option RequestContextValue) : list observed :=
  match truthy (correlation_of ctx), truthy (requestId <$> ctx) with
  | Some correlation, Some request_id =>
      [Header "x-correlation-id" correlation; Header "x-request-id" request_id]
  | _, _ => []
  end.

(** Whose request it was is no label. *)
Lemma duration_labels (ctx : option RequestContextValue) method route status :
  buildCommonLabels
    ((text_field "correlationId" (correlation_of ctx) ++ text_field "requestId" (requestId <$> ctx)) ++
     text_field "userId" (ctx ≫= ctx_userId) ++ text_field "deviceId" (ctx ≫= ctx_deviceId) ++
     [("method", JStr method); ("route", JStr route)] ++ number_field "statusCode" status) =
  buildCommonLabels ([("method", JStr method); ("route", JStr route)] ++ number_field "statusCode" status).
Proof.
  destruct ctx as [[corr req [user |] [device |] org ip agent] |], status; reflexivity.
Qed.

Lemma slow_labels (ctx : option RequestContextValue) method route ms status :
  buildCommonLabels
    ((text_field "correlationId" (correlation_of ctx) ++ text_field "requestId" (requestId <$> ctx)) ++
     [("method", JStr method); ("route", JStr route); ("durationMs", JNum ms)] ++ number_field "statusCode" status) =
  buildCommonLabels ([("method", JStr method); ("route", JStr route)] ++ number_field "statusCode" status).
Proof. destruct ctx, status; reflexivity. Qed.

(** What the handler left is kept; the interceptors add around it. *)
Lemma timing_intercept_run {A} decreases ctx request (h : handled A) s :
  decreases (JNum 1) = false ->
  timing_intercept decreases ctx request (hd_statusCode h) (hd_timedMs h) (fun s => (hd_outcome h, s)) s =
  (hd_outcome h, s ++ request_metrics request h).
Proof.
  intros Hdec. unfold timing_intercept, finalize, recordTiming, observe, modify, bind. cbn [finite_value].
  rewrite duration_labels. unfold request_metrics, request_labels, when.
  destruct (_ <=? _); [| done]. unfold incrementCounter, counter_inc, bind, observe, modify, throw_if. cbn [finite_value].
  rewrite Hdec, slow_labels. cbn [ret]. by rewrite <- app_assoc.
Qed.

(** The route label of a request carries no id. *)
Lemma request_route_no_id request status route :
  ("route", route) ∈ request_labels request status -> route = DEFAULT_LABEL_VALUE \/ Forall no_id (split_on "/" route).
Proof.
  intros Hin. unfold request_labels, buildCommonLabels in Hin. apply list_elem_of_fmap in Hin as ([l f] & Heq & _).
  cbn in Heq. injection Heq as <- ->. rewrite bool_decide_true by done. apply normalizeRoute_no_id.
Qed.

(** C33: what a request leaves behind. However its handler ends, its outcome passes the
    three interceptors unchanged, and what is seen of it is one line at the start, the
    correlation headers, one duration, one slow request when it took 750 ms, and one
    line at the end. The metrics are a function of the method, the route and the status
    alone: no user, device, request or correlation id is in their labels, and no segment
    of the route label is a uuid or a number. *)
Theorem request_observed {A} decreases ctx request (h : handled A) s :
  decreases (JNum 1) = false ->
  (exists start finish, intercepted decreases ctx request h s =
    (hd_outcome h, s ++ [Logged start] ++ correlation_headers ctx ++ request_metrics request h ++ [Logged finish])) /\
  forall route, ("route", route) ∈ request_labels request (hd_statusCode h) ->
    route = DEFAULT_LABEL_VALUE \/ Forall no_id (split_on "/" route).
Proof.
  intros Hdec. split; [| intros route; apply request_route_no_id].
  unfold intercepted, logging_intercept, log, observe, modify, finalize at 1, bind. cbv zeta.
  unfold correlation_intercept, correlation_headers.
  destruct (truthy (correlation_of ctx)); [destruct (truthy (requestId <$> ctx)) |]; do 2 eexists;
    unfold observe, modify, bind; rewrite timing_intercept_run by done; rewrite <- ?app_assoc; reflexivity.
Qed.

Lemma request_observed_witness :
  let request := {| hq_method := Some "GET"; hq_url := None; hq_originalUrl := Some "/api/events/42?token=x";
                    hq_baseUrl := None; hq_routePath := None |} in
  let h := {| hd_outcome := Ok tt; hd_statusCode := Some 200; hd_loggedMs := 801; hd_timedMs := 800 |} in
  exists start finish, intercepted (fun _ => false) (Some (context_for "alice" "corr-1234")) request h [] =
    (Ok tt, [] ++ [Logged start] ++ correlation_headers (Some (context_for "alice" "corr-1234")) ++
            request_metrics request h ++ [Logged finish]).
Proof. cbv zeta. apply request_observed. reflexivity. Defined.

(** A negative number in the payload of an event makes [record] throw. *)
Example negative_payload : (record (fun v => match v with JNum z => z <? 0 | _ => false end) "stock.adjusted"
    [("delta", JNum (-2))] []).1 = Err (OtherError "Error" "It is not possible to decrease a counter").
Proof. reflexivity. Qed.

(** A route is cut at 120 characters before its ids are replaced: one that straddles the
    cut stays, in part. *)
Example cut_id_kept :
  let long := String.concat "" (repeat "/segment9" 12) in
  normalizeRoute (Some (JStr (long +:+ "/3f2504e0-4f89-41d3-9a0c-0305e82c3301"))) = long +:+ "/3f2504e0-4f".
Proof. cbv zeta. vm_run. Qed.

(* ------------------------------------------------------------------ *)
(** ** The answer to a failed request                                   *)

(** The body [GlobalExceptionFilter] answers with; [getResponse] is the payload the
    framework gives an exception of a status and a message. *)
Record FailureResponse : Type := {
  fr_status : Z;
  fr_path : string;
  fr_method : string;
  fr_requestId : option string;
  fr_correlationId : option string;
  fr_error : json
}.

Definition filter_catch (getResponse : Z -> string -> json) (ctx : option RequestContextValue)
    (url method : string) (exception : error) : FailureResponse :=
  let status := exception_status exception in
  {| fr_status := status; fr_path := url; fr_method := method; fr_requestId := requestId <$> ctx;
     fr_correlationId := correlationId <$> ctx; fr_error := getResponse status (message exception) |}.

(* ------------------------------------------------------------------ *)
(** ** Health                                                           *)

Inductive health_status : Type := health_ok | health_fail.

#[export] Instance health_status_eq_dec : EqDecision health_status.
Proof. solve_decision. Defined.

(** The result of a check that ran, with its latency. *)
Record DependencyResult : Type := {
  dr_status : health_status;
  dr_required : bool;
  dr_latencyMs : Z
}.

Inductive ReadinessStatus : Type := ready | degraded | not_ready.

#[export] Instance ReadinessStatus_eq_dec : EqDecision ReadinessStatus.
Proof. solve_decision. Defined.

Record HealthBuildMetadata : Type := {
  bm_version : string;
  bm_commit : string;
  bm_environment : string
}.

Record ReadinessHealthResponse : Type := {
  rh_status : ReadinessStatus;
  rh_service : string;
  rh_timestamp : Z;
  rh_database : DependencyResult;
  rh_redis : option DependencyResult;
  rh_rollback : health_status;
  rh_build : HealthBuildMetadata
}.

(** The liveness and the summary report. *)
Record AliveResponse : Type := {
  ah_status : health_status;
  ah_service : string;
  ah_timestamp : Z;
  ah_uptimeSeconds : Z;
  ah_build : option HealthBuildMetadata
}.

Definition HEALTH_SERVICE_NAME : string := "govibe-api".

(** [safeValue] *)
Definition safeValue (value : option string) (maxLength : nat) : string :=
  match truthy (trim <$> value) with
  | None => "unknown"
  | Some trimmed => substring 0 maxLength trimmed
  end.

Definition getBuildMetadata (env : ProcessEnv) : HealthBuildMetadata :=
  {| bm_version := safeValue (env "APP_VERSION") 80; bm_commit := safeValue (env "APP_COMMIT") 80;
     bm_environment := safeValue (env "NODE_ENV") 40 |}.

(** [DatabaseHealthCheck.check], given how [SELECT 1] went and the milliseconds it took. *)
Definition database_check (answer : outcome error unit) (ms : Z) : DependencyResult :=
  {| dr_status := match answer with Ok _ => health_ok | Err _ => health_fail end;
     dr_required := true; dr_latencyMs := ms |}.

(** [RedisHealthCheck.checkIfAvailable]; none is skipped. *)
Definition redis_checkIfAvailable (service : option (outcome error string)) (ms : Z) : option DependencyResult :=
  match service with
  | None => None
  | Some answer =>
      Some {| dr_status := match (ping answer tt).1 with Ok _ => health_ok | Err _ => health_fail end;
              dr_required := false; dr_latencyMs := ms |}
  end.

Definition rollback_check : health_status := health_ok.

Definition getReadiness (database : DependencyResult) (redis : option DependencyResult) (now : Z) (env : ProcessEnv)
  : ReadinessHealthResponse :=
  {| rh_status :=
       if bool_decide (dr_status database = health_fail) then not_ready
       else match redis with
            | Some r => if bool_decide (dr_status r = health_fail) then degraded else ready
            | None => ready
            end;
     rh_service := HEALTH_SERVICE_NAME; rh_timestamp := now; rh_database := database; rh_redis := redis;
     rh_rollback := rollback_check; rh_build := getBuildMetadata env |}.

Definition getLiveness (now uptimeSeconds : Z) : AliveResponse :=
  {| ah_status := health_ok; ah_service := HEALTH_SERVICE_NAME; ah_timestamp := now;
     ah_uptimeSeconds := uptimeSeconds; ah_build := None |}.

Definition getSummary (now uptimeSeconds : Z) (env : ProcessEnv) : AliveResponse :=
  {| ah_status := health_ok; ah_service := HEALTH_SERVICE_NAME; ah_timestamp := now;
     ah_uptimeSeconds := uptimeSeconds; ah_build := Some (getBuildMetadata env) |}.

(** The readiness route: its HTTP status and its body. *)
Definition readiness_route (select_1 : outcome error unit) (redis : option (outcome error string))
    (db_ms redis_ms now : Z) (env : ProcessEnv) : Z * ReadinessHealthResponse :=
  let result := getReadiness (database_check select_1 db_ms) (redis_checkIfAvailable redis redis_ms) now env in
  (if bool_decide (rh_status result = not_ready) then 503 else 200, result).

(** The route answers 200 exactly when the database answers; a cache that does not say
    PONG only degrades. *)
Lemma readiness_reports select_1 redis db_ms redis_ms now env :
  let (status, body) := readiness_route select_1 redis db_ms redis_ms now env in
  (status = 200 <-> select_1 = Ok tt) /\
  (rh_status body = ready <-> select_1 = Ok tt /\ (redis = None \/ redis = Some (Ok "PONG"))) /\
  (rh_status body = not_ready <-> status = 503).
Proof.
  unfold readiness_route, getReadiness, database_check, redis_checkIfAvailable, ping, bind, pure_of. cbn.
  destruct select_1 as [[] | e]; cbn; [| split_and!; split; intros Hx; try done; by destruct Hx].
  destruct redis as [[answer | e] |]; cbn; [| split_and!; split; intros Hx; try done; by destruct Hx as [_ [|]]
    | split_and!; split; intros Hx; try done; by auto].
  destruct (decide (answer = "PONG")) as [-> | Hne]; cbn; [split_and!; split; intros Hx; try done; by auto |].
  rewrite (bool_decide_eq_false_2 _ Hne). cbn. split_and!; split; intros Hx; try done. destruct Hx as [_ [|]]; congruence.
Qed.
