(* ===== verification/RequestContext.v ===== *)
(** RequestContext.v: the storage behind the request context
    (src/src/shared/context/request-context.service.ts), its two writers (the
    middleware and the guard of src/src/auth), and the logger that reads it
    (src/src/shared/logging/logger.service.ts).

    The other files hand the context of a request to its operations as a value.
    Here it is what it is in the process: an object shared by whatever runs for
    the request, found through AsyncLocalStorage and changed in place while other
    requests run.  The theorem is that the two agree. *)

From S2P Require Import Prelude Errors Values Hashing Store Context Sessions Auth Redaction Config Scripts Redis Observability.

(* ------------------------------------------------------------------ *)
(** ** AsyncLocalStorage and the service                                *)

(** The context objects of the process, by reference. *)
Notation objects := (list RequestContextValue).

(** Code inside an asynchronous context: the reference AsyncLocalStorage has for
    it, if any, then a program over the objects.  Everything the code awaits
    runs under the same reference. *)
Definition within (A : Type) : Type := option nat -> prog objects error A.

(** The object a reference stands for at this moment. *)
Definition deref (h : objects) (store : option nat) : option RequestContextValue := store ≫= fun l => h !! l.

(** A [Partial<RequestContextValue>]: a property that is not there is [None]; an
    optional one may be there and be undefined. *)
Record ContextPatch : Type := {
  pt_correlationId : option string;
  pt_requestId : option string;
  pt_userId : option (option string);
  pt_deviceId : option (option string);
  pt_organizerId : option (option string);
  pt_ipAddress : option (option string);
  pt_userAgent : option (option string)
}.

Definition no_patch : ContextPatch :=
  {| pt_correlationId := None; pt_requestId := None; pt_userId := None; pt_deviceId := None;
     pt_organizerId := None; pt_ipAddress := None; pt_userAgent := None |}.

(** [Object.assign(store, patch)]: the properties that are there replace the old
    ones, with undefined too. *)
Definition assigned (p : ContextPatch) (c : RequestContextValue) : RequestContextValue :=
  {| correlationId := default (correlationId c) (pt_correlationId p);
     requestId := default (requestId c) (pt_requestId p);
     ctx_userId := default (ctx_userId c) (pt_userId p);
     ctx_deviceId := default (ctx_deviceId c) (pt_deviceId p);
     ctx_organizerId := default (ctx_organizerId c) (pt_organizerId p);
     ctx_ipAddress := default (ctx_ipAddress c) (pt_ipAddress p);
     ctx_userAgent := default (ctx_userAgent c) (pt_userAgent p) |}.

(** [run] *)
Definition run {A} (context : nat) (callback : within A) : within A := fun _ => callback (Some context).

(** [get]: the object itself, not a copy of it. *)
Definition get : within (option nat) := fun store => ret store.

(** [set]: outside a request it does nothing. *)
Definition set (context : ContextPatch) : within unit := fun cur =>
  let* store := get cur in
  match store with
  | None => ret tt
  | Some l => modify (alter (assigned context) l)
  end.

(** [this.get()?.f] *)
Definition get_field {A} (f : RequestContextValue -> A) : within (option A) := fun cur =>
  let* store := get cur in
  reads (fun h => f <$> deref h store).

Definition getRequestId : within (option string) := get_field requestId.
Definition getCorrelationId : within (option string) := get_field correlationId.
Definition getUserId : within (option string) := fun cur =>
  let* userId := get_field ctx_userId cur in ret (mjoin userId).
Definition getDeviceId : within (option string) := fun cur =>
  let* deviceId := get_field ctx_deviceId cur in ret (mjoin deviceId).

(** [RequestContextMiddleware.use]: a new object, the two headers of the
    response, and the rest of the request under the object. *)
Definition response_headers (c : RequestContextValue) : list (string * string) :=
  [("x-correlation-id", correlationId c); ("x-request-id", requestId c)].

Definition use {A} (uuid : nat -> string) (request : RequestLike) (next : within A)
  : within (list (string * string) * A) := fun cur h =>
  let context := middleware_use uuid request in
  (let* a := run (length h) next cur in ret (response_headers context, a)) (h ++ [context]).

(** [JwtAuthGuard.handleRequest] on the object. *)
Definition guard_patch (u : AuthUser) : ContextPatch :=
  {| pt_correlationId := None; pt_requestId := None; pt_userId := Some (Some (au_id u)); pt_deviceId := None;
     pt_organizerId := Some (if bool_decide (au_role u = ORGANIZER) then Some (au_id u) else None);
     pt_ipAddress := None; pt_userAgent := None |}.

Definition guard_handleRequest (err : option error) (u : option AuthUser) : within AuthUser := fun cur =>
  match err, u with
  | Some (HttpException 401 msg), _ => throw (UnauthorizedException msg)
  | Some _, _ | None, None => throw (UnauthorizedException "Unauthorized")
  | None, Some u => do* set (guard_patch u) cur in ret u
  end.

(** The middleware runs the request under an object of its own, whatever was there. *)
Lemma use_own_object {A} uuid request (next : within A) store h :
  match next (Some (length h)) (h ++ [middleware_use uuid request]) with
  | (Ok a, h') => use uuid request next store h = (Ok (response_headers (middleware_use uuid request), a), h')
  | (Err e, h') => use uuid request next store h = (Err e, h')
  end.
Proof. unfold use, run, bind. by destruct (next _ _) as [[a | e] h']. Qed.

Lemma set_run p store h :
  set p store h = (Ok tt, match store with Some l => alter (assigned p) l h | None => h end).
Proof. by destruct store. Qed.

Lemma deref_alter h l p : deref (alter (assigned p) l h) (Some l) = assigned p <$> deref h (Some l).
Proof. cbn. apply list_lookup_alter_eq. Qed.

(** On the object as on the value: the guard decides alike, and leaves the
    object as [Auth.handleRequest] says. *)
Lemma guard_on_value err u store h :
  match handleRequest err u (deref h store) with
  | Ok (u', ctx) => exists h', guard_handleRequest err u store h = (Ok u', h') /\ deref h' store = ctx
  | Err e => guard_handleRequest err u store h = (Err e, h)
  end.
Proof.
  unfold handleRequest, guard_handleRequest. destruct err as [e |].
  - destruct e; try reflexivity. destruct status as [| p | p]; try reflexivity.
    do 9 (destruct p as [p | p |]; try reflexivity).
  - destruct u as [u |]; [| reflexivity].
    unfold bind at 1. rewrite set_run. eexists. split; [reflexivity |].
    destruct store as [l |]; [rewrite deref_alter |]; reflexivity.
Qed.

(** Whatever the caller's headers say of an organizer, after the guard the
    context has the token's user, and as organizer nobody else. *)
Lemma guard_trusts_no_header u l h c h' :
  h !! l = Some c -> guard_handleRequest None (Some u) (Some l) h = (Ok u, h') ->
  exists c', h' !! l = Some c' /\ ctx_userId c' = Some (au_id u) /\
    (forall o, ctx_organizerId c' = Some o -> o = au_id u) /\ ctx_deviceId c' = ctx_deviceId c.
Proof.
  intros Hc. unfold guard_handleRequest, bind. rewrite set_run. intros [= <-].
  exists (assigned (guard_patch u) c). pose proof (deref_alter h l (guard_patch u)) as Hd.
  unfold deref in Hd; cbn [mbind option_bind] in Hd. rewrite Hc in Hd. split_and!; [exact Hd | done | | done].
  cbn. case_bool_decide; naive_solver.
Qed.

(* ------------------------------------------------------------------ *)
(** ** AppLoggerService                                                 *)

Inductive log_level : Type := level_log | level_warn | level_error | level_debug | level_verbose | level_fatal.

(** A call of the framework's logger. *)
Record log_line : Type := {
  ll_level : log_level;
  ll_message : string;
  ll_trace : option string;
  ll_context : option string
}.

(** [format] *)
Definition format (message : string) : within string := fun cur =>
  let* corr := getCorrelationId cur in
  ret (match truthy corr with Some c => "[corr:" +:+ c +:+ "] " +:+ message | None => message end).

(** [log], [warn], [debug] and [verbose]; [error] and [fatal] take a trace. *)
Definition plain_line (level : log_level) (message : string) (context : option string) : within log_line := fun cur =>
  let* text := format message cur in
  ret {| ll_level := level; ll_message := text; ll_trace := None; ll_context := context |}.

Definition traced_line (level : log_level) (message : string) (trace context : option string) : within log_line := fun cur =>
  let* text := format message cur in
  ret {| ll_level := level; ll_message := text; ll_trace := trace; ll_context := context |}.

Definition logger_log := plain_line level_log.
Definition logger_warn := plain_line level_warn.
Definition logger_error := traced_line level_error.
Definition logger_debug := plain_line level_debug.
Definition logger_verbose := plain_line level_verbose.
Definition logger_fatal := traced_line level_fatal.

(** A line is the one [Observability.log] gives for the value of the context. *)
Lemma logger_log_line message context store h s :
  exists line, logger_log message context store h = (Ok line, h) /\
    Observability.log (deref h store) message s = (Ok tt, s ++ [Logged (ll_message line)]).
Proof. by eexists. Qed.

(* ------------------------------------------------------------------ *)
(** ** Requests that run together                                       *)

Section Interleaving.
Context {A : Type}.

(** What a request does with its context.  [const ctx = requestContext.get()] gives
    the object, so that a later [ctx.f] reads it as it is then: [Read].  Between two
    actions, and where it awaits, other requests may run. *)
Inductive code : Type :=
| Done (a : A)
| Read (k : option RequestContextValue -> code)
| Assign (p : ContextPatch) (k : code)
| Await (k : code).

Record task : Type := { tk_store : option nat; tk_code : code }.

Record process : Type := { pr_objects : objects; pr_tasks : list task }.

Definition start : process := {| pr_objects := []; pr_tasks := [] |}.

(** One action of a task. *)
Definition act (t : task) (h : objects) : task * objects :=
  let continue k := {| tk_store := tk_store t; tk_code := k |} in
  match tk_code t with
  | Done a => (t, h)
  | Read k => (continue (k (deref h (tk_store t))), h)
  | Assign p k => (continue k, (set p (tk_store t) h).2)
  | Await k => (continue k, h)
  end.

(** A request comes through the middleware, a scheduled job starts, or a task that
    has begun takes its next action. *)
Inductive occurrence : Type :=
| Arrives (uuid : nat -> string) (request : RequestLike) (k : code)
| Starts (k : code)
| Turn (i : nat).

Definition happen (o : occurrence) (p : process) : process :=
  match o with
  | Arrives uuid request k =>
      {| pr_objects := pr_objects p ++ [middleware_use uuid request];
         pr_tasks := pr_tasks p ++ [{| tk_store := Some (length (pr_objects p)); tk_code := k |}] |}
  | Starts k => {| pr_objects := pr_objects p; pr_tasks := pr_tasks p ++ [{| tk_store := None; tk_code := k |}] |}
  | Turn i =>
      match pr_tasks p !! i with
      | Some t => let (t', h) := act t (pr_objects p) in {| pr_objects := h; pr_tasks := <[i := t']> (pr_tasks p) |}
      | None => p
      end
  end.

Definition happens (l : list occurrence) (p : process) : process := foldl (fun p o => happen o p) p l.

(** A request with the context as a value of its own: how the other files run it. *)
Fixpoint alone (k : code) (ctx : option RequestContextValue) : A * option RequestContextValue :=
  match k with
  | Done a => (a, ctx)
  | Read k => alone (k ctx) ctx
  | Assign p k => alone k (assigned p <$> ctx)
  | Await k => alone k ctx
  end.

(** The actions it still takes. *)
Fixpoint actions (k : code) (ctx : option RequestContextValue) : nat :=
  match k with
  | Done a => 0
  | Read k => S (actions (k ctx) ctx)
  | Assign p k => S (actions k (assigned p <$> ctx))
  | Await k => S (actions k ctx)
  end.

(** Each task as it began: the context the middleware made for it, and its code. *)
Definition origin (o : occurrence) : list (option RequestContextValue * code) :=
  match o with
  | Arrives uuid request k => [(Some (middleware_use uuid request), k)]
  | Starts k => [(None, k)]
  | Turn _ => []
  end.

Definition origins (l : list occurrence) : list (option RequestContextValue * code) := l ≫= origin.

(** What is left of a task is what is left of it alone. *)
Definition on_course (h : objects) (t : task) (born : option RequestContextValue * code) : Prop :=
  alone (tk_code t) (deref h (tk_store t)) = alone born.2 born.1.

(** No two tasks have the same object, and every object a task has is there. *)
Record separate (p : process) : Prop := {
  sep_alive : forall i t l, pr_tasks p !! i = Some t -> tk_store t = Some l -> (l < length (pr_objects p))%nat;
  sep_own : forall i j t u l, pr_tasks p !! i = Some t -> pr_tasks p !! j = Some u ->
    tk_store t = Some l -> tk_store u = Some l -> i = j
}.

Lemma act_store t h : tk_store (act t h).1 = tk_store t.
Proof. by destruct t as [store []]. Qed.

Lemma act_length t h : length (act t h).2 = length h.
Proof. destruct t as [[l |] []]; cbn; rewrite ?length_alter; reflexivity. Qed.

(** An action of a task does not change the object of another. *)
Lemma act_deref t h store :
  (forall l, tk_store t = Some l -> store <> Some l) -> deref (act t h).2 store = deref h store.
Proof.
  intros Hne. destruct t as [[l |] []]; try reflexivity. destruct store as [l' |]; [| reflexivity]. cbn.
  apply list_lookup_alter_ne. intros ->. by eapply Hne.
Qed.

(** An action brings its own task forward. *)
Lemma act_alone t h :
  alone (tk_code (act t h).1) (deref (act t h).2 (tk_store t)) = alone (tk_code t) (deref h (tk_store t)).
Proof.
  destruct t as [store []]; try reflexivity. cbn [act fst snd tk_code tk_store alone].
  rewrite set_run. destruct store as [l |]; [cbn [snd]; by rewrite deref_alter | reflexivity].
Qed.

Lemma act_actions t h :
  actions (tk_code (act t h).1) (deref (act t h).2 (tk_store t)) = pred (actions (tk_code t) (deref h (tk_store t))).
Proof.
  destruct t as [store []]; try reflexivity. cbn [act fst snd tk_code tk_store actions].
  rewrite set_run. destruct store as [l |]; [cbn [snd]; by rewrite deref_alter | reflexivity].
Qed.

Lemma deref_old h c store :
  (forall l, store = Some l -> (l < length h)%nat) -> deref (h ++ [c]) store = deref h store.
Proof. intros Hl. destruct store as [l |]; [| done]. cbn. apply lookup_app_l. by apply Hl. Qed.

Lemma happen_turn i t p :
  pr_tasks p !! i = Some t ->
  happen (Turn i) p = {| pr_objects := (act t (pr_objects p)).2; pr_tasks := <[i := (act t (pr_objects p)).1]> (pr_tasks p) |}.
Proof. intros Ht. cbn. rewrite Ht. by destruct (act t (pr_objects p)). Qed.

(** A task after something happened: the same one, or one that took its action, or new. *)
Lemma happen_store o p i t :
  pr_tasks (happen o p) !! i = Some t ->
  (exists t0, pr_tasks p !! i = Some t0 /\ tk_store t = tk_store t0) \/
  (i = length (pr_tasks p) /\ forall l, tk_store t = Some l -> l = length (pr_objects p) /\
     length (pr_objects (happen o p)) = S (length (pr_objects p))).
Proof.
  destruct o as [uuid request k | k | j]; cbn.
  1,2: intros [Hi | [Hlen Ht]]%lookup_app_Some; [by left; eexists |];
    apply list_lookup_singleton_Some in Ht as [Hi <-]; right; split; [lia |]; cbn; intros l [= <-];
    rewrite length_app; cbn; lia.
  destruct (pr_tasks p !! j) as [u |] eqn:Hj; [| by left; eexists].
  destruct (act u (pr_objects p)) as [u' h] eqn:Hact. cbn.
  intros [(-> & <- & _) | [Hne Hi]]%list_lookup_insert_Some; left; [| by eexists].
  exists u. split; [done |]. rewrite <- (act_store u (pr_objects p)). by rewrite Hact.
Qed.

Lemma happen_objects o p : (length (pr_objects p) <= length (pr_objects (happen o p)))%nat.
Proof.
  destruct o as [uuid request k | k | i]; cbn; [rewrite length_app; lia | lia |].
  destruct (pr_tasks p !! i) as [t |]; [| lia].
  rewrite <- (act_length t (pr_objects p)). by destruct (act t (pr_objects p)).
Qed.

Lemma happen_separate o p : separate p -> separate (happen o p).
Proof.
  intros Hsep. constructor.
  - intros i t l Ht Hl. pose proof (happen_objects o p).
    destruct (happen_store o p i t Ht) as [(t0 & Ht0 & Heq) | [_ Hnew]].
    + rewrite Heq in Hl. pose proof (sep_alive p Hsep i t0 l Ht0 Hl). lia.
    + destruct (Hnew l Hl) as [-> ->]. lia.
  - intros i j t u l Ht Hu Hl Hl'.
    destruct (happen_store o p i t Ht) as [(t0 & Ht0 & Heq) | [-> Hi]];
      destruct (happen_store o p j u Hu) as [(u0 & Hu0 & Heq') | [-> Hj]].
    + eapply (sep_own p Hsep i j t0 u0 l); congruence.
    + destruct (Hj l Hl') as [-> _]. rewrite Heq in Hl. pose proof (sep_alive p Hsep i t0 _ Ht0 Hl). lia.
    + destruct (Hi l Hl) as [-> _]. rewrite Heq' in Hl'. pose proof (sep_alive p Hsep j u0 _ Hu0 Hl'). lia.
    + reflexivity.
Qed.

(** A task that begins leaves the others on their course. *)
Lemma begin_on_course p os c :
  separate p -> Forall2 (on_course (pr_objects p)) (pr_tasks p) os ->
  Forall2 (on_course (pr_objects p ++ [c])) (pr_tasks p) os.
Proof.
  intros Hsep Hall. apply Forall2_same_length_lookup_2; [by eapply Forall2_length |].
  intros i t born Ht Hb. pose proof (Forall2_lookup_lr _ _ _ _ _ _ Hall Ht Hb) as Hc.
  unfold on_course in *. rewrite deref_old; [done |]. intros l. by apply (sep_alive p Hsep i t).
Qed.

Lemma happen_on_course o p os :
  separate p -> Forall2 (on_course (pr_objects p)) (pr_tasks p) os ->
  Forall2 (on_course (pr_objects (happen o p))) (pr_tasks (happen o p)) (os ++ origin o).
Proof.
  intros Hsep Hall. destruct o as [uuid request k | k | i].
  - cbn. apply Forall2_app; [by apply begin_on_course |]. constructor; [| constructor].
    unfold on_course; cbn. by rewrite list_lookup_middle.
  - cbn. apply Forall2_app; [done |]. by repeat constructor.
  - rewrite app_nil_r. destruct (pr_tasks p !! i) as [t |] eqn:Ht; [| cbn; by rewrite Ht].
    rewrite (happen_turn i t) by done. cbn [pr_objects pr_tasks].
    apply Forall2_same_length_lookup_2; [rewrite length_insert; by eapply Forall2_length |].
    intros j u born Hu Hb. unfold on_course. apply list_lookup_insert_Some in Hu as [(-> & <- & _) | [Hne Hu]].
    + rewrite act_store, act_alone. exact (Forall2_lookup_lr _ _ _ _ _ _ Hall Ht Hb).
    + rewrite act_deref; [exact (Forall2_lookup_lr _ _ _ _ _ _ Hall Hu Hb) |].
      intros l Hl Hl'. apply Hne. by eapply (sep_own p Hsep).
Qed.

Lemma happens_on_course l p os :
  separate p -> Forall2 (on_course (pr_objects p)) (pr_tasks p) os ->
  separate (happens l p) /\
  Forall2 (on_course (pr_objects (happens l p))) (pr_tasks (happens l p)) (os ++ origins l).
Proof.
  revert p os. induction l as [| o l IH]; intros p os Hsep Hall; [by rewrite app_nil_r |].
  cbn. rewrite app_assoc. apply IH; [by apply happen_separate | by apply happen_on_course].
Qed.

Lemma start_separate : separate start.
Proof. split; cbn; intros i *; discriminate. Qed.

Lemma happens_app l l' p : happens (l ++ l') p = happens l' (happens l p).
Proof. apply foldl_app. Qed.

(** A task that is given its turns ends. *)
Lemma turns_finish n p i t :
  pr_tasks p !! i = Some t -> actions (tk_code t) (deref (pr_objects p) (tk_store t)) = n ->
  exists a, pr_tasks (happens (repeat (Turn i) n) p) !! i = Some {| tk_store := tk_store t; tk_code := Done a |}.
Proof.
  revert p t. induction n as [| n IH]; intros p t Ht Hn.
  - cbn. destruct t as [store k]. destruct k; try discriminate. by eexists.
  - cbn [repeat happens foldl]. change (foldl _ _ (repeat (Turn i) n)) with (happens (repeat (Turn i) n) (happen (Turn i) p)).
    rewrite <- (act_store t (pr_objects p)). apply IH.
    + rewrite (happen_turn i t) by done. cbn. apply list_lookup_insert_eq. by eapply lookup_lt_Some.
    + rewrite (happen_turn i t) by done. cbn [pr_objects]. rewrite act_store, act_actions, Hn. reflexivity.
Qed.

Lemma origins_turns i n : origins (repeat (Turn i) n) = [].
Proof. induction n; [reflexivity |]. exact IHn. Qed.
End Interleaving.
Arguments code : clear implicits. Arguments task : clear implicits.
Arguments process : clear implicits. Arguments occurrence : clear implicits.

(** Two requests that interleave: each reads the user its own guard has set. *)
Module IsolationExample.
Definition anonymous : RequestLike :=
  {| h_correlationId := HAbsent; h_userAgent := HAbsent; h_deviceId := HAbsent; h_organizerId := HOne "org-9";
     rq_ip := None; rq_remoteAddress := None; rq_user_id := None; rq_user_userId := None;
     rq_user_deviceId := None; rq_user_organizerId := None |}.

Definition organizer_user (id : string) : AuthUser :=
  {| au_id := id; au_email := id; au_role := CUSTOMER; au_sessionId := id; au_permissions := [];
     au_emailVerifiedAt := None; au_isActive := true |}.

(** The guard, an await, and a handler that reads its context. *)
Definition request (id : string) : code (option (option string * option string)) :=
  Assign (guard_patch (organizer_user id))
    (Await (Read (fun ctx => Done ((fun c => (ctx_userId c, ctx_organizerId c)) <$> ctx)))).

Definition uuids (n : nat) : string := "uuid".

Definition history : list (occurrence (option (option string * option string))) :=
  [Arrives uuids anonymous (request "ama"); Turn 0; Arrives uuids anonymous (request "kofi"); Turn 1; Turn 0; Turn 1;
   Turn 0; Turn 1].

Example interleaved :
  tk_code <$> pr_tasks (happens history start) = [Done (Some (Some "ama", None)); Done (Some (Some "kofi", None))].
Proof. reflexivity. Qed.
End IsolationExample.

(** C22: the contexts of requests are their own. Let requests arrive and scheduled jobs
    start, and their actions come in any order, one or many of any of them between two
    of another. At every moment each of them stands where it would stand alone, with
    what is left of it and its context as if the context were a value nobody else could
    reach; and given its turns it ends, with the result and the context it has alone. *)
Theorem request_contexts_isolated {A} (l : list (occurrence A)) :
  let p := happens l start in
  Forall2 (on_course (pr_objects p)) (pr_tasks p) (origins l) /\
  forall i born, origins l !! i = Some born -> exists n t,
    let p' := happens (l ++ repeat (Turn i) n) start in
    pr_tasks p' !! i = Some t /\ tk_code t = Done (alone born.2 born.1).1 /\
    deref (pr_objects p') (tk_store t) = (alone born.2 born.1).2.
Proof.
  cbv zeta. destruct (happens_on_course l start [] start_separate) as [Hsep Hall]; [constructor |].
  split; [exact Hall |]. intros i born Hborn. destruct (Forall2_lookup_r _ _ _ _ _ Hall Hborn) as (t & Ht & _).
  destruct (turns_finish _ _ _ _ Ht eq_refl) as [a Ha]. eexists _, _. rewrite happens_app. split; [exact Ha |].
  edestruct (happens_on_course (repeat (Turn i) (actions (tk_code t) (deref (pr_objects (happens l start)) (tk_store t))))
    (happens l start) _ Hsep Hall) as [_ Hall']. rewrite origins_turns, app_nil_r in Hall'.
  pose proof (Forall2_lookup_lr _ _ _ _ _ _ Hall' Ha Hborn) as Hcourse.
  unfold on_course in Hcourse. cbn in Hcourse. rewrite <- Hcourse. done.
Qed.

Lemma request_contexts_isolated_witness :
  exists n t,
    let p' := happens (IsolationExample.history ++ repeat (Turn 1) n) start in
    pr_tasks p' !! 1 = Some t /\ tk_code t = Done (Some (Some "kofi", None)) /\
    (ctx_userId <$> deref (pr_objects p') (tk_store t)) = Some (Some "kofi").
Proof.
  destruct (request_contexts_isolated IsolationExample.history) as [_ Hends].
  destruct (Hends 1 _ eq_refl) as (n & t & Ht & Hcode & Hctx). exists n, t. cbv zeta.
  split; [exact Ht |]. split; [exact Hcode |]. rewrite Hctx. reflexivity.
Defined.
