(* ===== verification/SharedAuth.v ===== *)
(** SharedAuth.v: the guards of src/src/shared/auth.  SharedAuthModule is loaded and its
    strategy registered, but every route of the application is behind the guards of
    src/src/auth (Auth.v, Controllers.v); only the unmounted controller of
    modules/identity uses these.  They trust what the token says of its permissions, where
    the others ask the session and the role: what is shown is that the tokens this program
    signs claim nothing of the sort, so that these guards would refuse them everything. *)

From S2P Require Import Prelude Errors Values Hashing Store Context Sessions Auth Redaction Config Scripts Redis Observability RequestContext.

Record AuthenticatedRequestUser : Type := {
  aru_userId : string;
  aru_email : string;
  aru_roles : list string;
  aru_permissions : list string;
  aru_organizerId : option string;
  aru_deviceId : option string
}.

(** [Array.isArray(v) ? v.filter((x) => typeof x === 'string') : []] *)
Definition strings_of (v : jsval) : list string :=
  match v with
  | Some (JArr l) => omap (fun x => string_of (Some x)) l
  | _ => []
  end.

(** [JwtStrategy.validate] on the claims of a verified token. *)
Definition shared_validate (payload : list (string * json)) : outcome error AuthenticatedRequestUser :=
  let claim key := field key payload in
  let userId := nullish (string_of (claim "userId")) (string_of (claim "sub")) in
  let email := string_of (claim "email") in
  match truthy userId, truthy email with
  | Some userId, Some email =>
      Ok {| aru_userId := userId; aru_email := email; aru_roles := strings_of (claim "roles");
            aru_permissions := strings_of (claim "permissions");
            aru_organizerId := string_of (claim "organizerId"); aru_deviceId := string_of (claim "deviceId") |}
  | _, _ => Err (UnauthorizedException "Invalid JWT payload.")
  end.

(** [JwtAuthGuard.handleRequest]: [info] is the message of the error passport gives as
    information, if it is one.  The user it returns is also [request.user]. *)
Definition shared_patch (u : AuthenticatedRequestUser) : ContextPatch :=
  {| pt_correlationId := None; pt_requestId := None; pt_userId := Some (Some (aru_userId u));
     pt_deviceId := Some (aru_deviceId u); pt_organizerId := Some (aru_organizerId u);
     pt_ipAddress := None; pt_userAgent := None |}.

Definition shared_handleRequest (err : option error) (u : option AuthenticatedRequestUser) (info : option string)
  : within AuthenticatedRequestUser := fun cur =>
  match err, u with
  | None, Some u => do* set (shared_patch u) cur in ret u
  | _, _ => throw (default (UnauthorizedException (default "Authenticated user required." info)) err)
  end.

(** [PermissionsGuard.canActivate] *)
Definition shared_permissions_canActivate (required : option (list string)) (u : option AuthenticatedRequestUser)
  : outcome error bool :=
  match default [] required with
  | [] => Ok true
  | requiredPermissions =>
      match u with
      | None => Err (ForbiddenException "Authenticated user required.")
      | Some u =>
          if forallb (fun permission => bool_decide (permission ∈ aru_permissions u)) requiredPermissions then Ok true
          else Err (ForbiddenException "Missing required permissions.")
      end
  end.

(** [AuthGuard], [AuthenticatedGuard] and [RolesGuard] of this directory let everyone in;
    nothing uses them. *)
Definition shared_AuthGuard_canActivate {A} (context : A) : bool := true.
Definition shared_AuthenticatedGuard_canActivate {A} (context : A) : bool := true.
Definition shared_RolesGuard_canActivate {A} (context : A) : bool := true.

(** The claims of an access token of this program (Auth.v), with the two dates the
    library adds. *)
Definition role_claim (r : UserRole) : string :=
  match r with CUSTOMER => "CUSTOMER" | ORGANIZER => "ORGANIZER" | GATE_STAFF => "GATE_STAFF" | ADMIN => "ADMIN" end.

Definition claims (p : JwtPayload) (iat exp : Z) : list (string * json) :=
  [("sub", JStr (jwt_sub p)); ("email", JStr (jwt_email p)); ("role", JStr (role_claim (jwt_role p)));
   ("sessionId", JStr (jwt_sessionId p)); ("jti", JStr (jwt_jti p)); ("type", JStr (jwt_type p));
   ("iat", JNum iat); ("exp", JNum exp)].

(** A token of the program, through the guards of this directory: its user is the user it
    was signed for, known by that name in the request context, with no device or
    organizer left of what the caller's headers said; and whatever its role is, it has
    no permission here. *)
Lemma program_token_powerless p iat exp c h l :
  h !! l = Some c -> jwt_sub p <> "" -> jwt_email p <> "" ->
  exists u h', shared_validate (claims p iat exp) = Ok u /\
    shared_handleRequest None (Some u) None (Some l) h = (Ok u, h') /\
    aru_userId u = jwt_sub p /\
    (exists c', h' !! l = Some c' /\ ctx_userId c' = Some (jwt_sub p) /\ ctx_deviceId c' = None /\ ctx_organizerId c' = None) /\
    forall permission required,
      shared_permissions_canActivate (Some (permission :: required)) (Some u) =
        Err (ForbiddenException "Missing required permissions.").
Proof.
  intros Hc Hsub Hemail.
  set (u := {| aru_userId := jwt_sub p; aru_email := jwt_email p; aru_roles := []; aru_permissions := [];
               aru_organizerId := None; aru_deviceId := None |}).
  assert (Hu : shared_validate (claims p iat exp) = Ok u).
  { unfold shared_validate. cbv zeta. cbn [claims].
    replace (truthy (nullish _ _)) with (Some (jwt_sub p)) by (symmetry; by apply truthy_Some).
    replace (truthy _) with (Some (jwt_email p)) by (symmetry; by apply truthy_Some). done. }
  pose proof (deref_alter h l (shared_patch u)) as Hd. unfold deref in Hd. cbn [mbind option_bind] in Hd. rewrite Hc in Hd.
  eexists u, _. split; [exact Hu |]. split; [unfold shared_handleRequest, bind; by rewrite set_run |]. split; [done |].
  split; [by exists (assigned (shared_patch u) c) | done].
Qed.

(** The strategy asks no session: the claims of a revoked one pass like any other, where
    the guards of src/src/auth refuse them. *)
Example claims_alone :
  shared_validate [("sub", JStr "ama"); ("email", JStr "a@x"); ("permissions", JArr [JStr "admin:access"; JNum 1])] =
  Ok {| aru_userId := "ama"; aru_email := "a@x"; aru_roles := []; aru_permissions := ["admin:access"];
        aru_organizerId := None; aru_deviceId := None |}.
Proof. reflexivity. Qed.

(** An empty [userId] is refused, though there is a [sub]. *)
Example empty_user_id :
  shared_validate [("userId", JStr ""); ("sub", JStr "ama"); ("email", JStr "a@x")] =
  Err (UnauthorizedException "Invalid JWT payload.").
Proof. reflexivity. Qed.
