(* ===== verification/Startup.v ===== *)
(** Startup.v: how the process starts and stops: [bootstrap] of src/src/main.ts, the
    providers whose construction can fail (src/src/shared/redis/redis.module.ts, the two
    strategies of access tokens, src/src/auth/auth.module.ts), and the database connection
    (src/src/shared/prisma/prisma.service.ts).  That the framework can put the providers
    together is Wiring.v.

    The state is what the process holds (connected or not, the status of the Redis client)
    and the list of what it asked of the outside. *)

From S2P Require Import Prelude Errors Values Hashing Context Redaction Config Scripts Redis Observability.

Local Open Scope Z_scope.

Inductive outside_call : Type :=
| DbConnect | DbDisconnect | RedisConnect | RedisPing | RedisQuit | Listen (port : double).

Record running : Type := {
  rn_connected : bool;
  rn_redis : client_status;
  rn_calls : list outside_call;
  rn_seen : list observed
}.

Definition boot (A : Type) : Type := prog running error A.

Definition cold (status : client_status) : running :=
  {| rn_connected := false; rn_redis := status; rn_calls := []; rn_seen := [] |}.

Definition ask {A} (call : outside_call) (answer : outcome error A) : boot A := fun s =>
  (answer, {| rn_connected := rn_connected s; rn_redis := rn_redis s; rn_calls := rn_calls s ++ [call]; rn_seen := rn_seen s |}).

Definition set_connected (b : bool) : boot unit :=
  modify (fun s => {| rn_connected := b; rn_redis := rn_redis s; rn_calls := rn_calls s; rn_seen := rn_seen s |}).

(** A method of the telemetry service or of the logger. *)
Definition see {A} (m : watched A) : boot A := fun s =>
  let (o, seen) := m (rn_seen s) in
  (o, {| rn_connected := rn_connected s; rn_redis := rn_redis s; rn_calls := rn_calls s; rn_seen := seen |}).

Definition settle {A} (o : outcome error A) : boot A := fun s => (o, s).

(* ------------------------------------------------------------------ *)
(** ** PrismaService and the Redis client                               *)

(** [connect] and [disconnect]: [answer] is how [$connect] or [$disconnect] ends. *)
Definition prisma_connect (answer : outcome error unit) : boot unit :=
  let* connected := reads rn_connected in
  if connected then ret tt
  else do* ask DbConnect answer in set_connected true.

Definition prisma_disconnect (answer : outcome error unit) : boot unit :=
  let* connected := reads rn_connected in
  if negb connected then ret tt
  else do* ask DbDisconnect answer in set_connected false.

(** [RedisService.connect] and [disconnect] (Redis.v) on the client of the process;
    the client is asked only when its status is the one they look for. *)
Definition on_client (call : outside_call) (asked : client_status -> bool) (m : connection unit) : boot unit := fun s =>
  let (o, status) := m (rn_redis s) in
  (o, {| rn_connected := rn_connected s; rn_redis := status;
         rn_calls := rn_calls s ++ (if asked (rn_redis s) then [call] else []); rn_seen := rn_seen s |}).

Definition waits (status : client_status) : bool := match status with status_wait => true | _ => false end.
Definition client_ended (status : client_status) : bool := match status with status_end => true | _ => false end.

Definition redis_connect (answer : outcome error client_status) : boot unit :=
  on_client RedisConnect waits (Redis.connect answer).

Definition redis_disconnect (answer : outcome error client_status) : boot unit :=
  on_client RedisQuit (fun status => negb (client_ended status)) (Redis.disconnect answer).

Definition redis_checkHealth (answer : outcome error string) : boot string :=
  let* response := ask RedisPing answer in settle (checkHealth (Ok response) tt).1.

(* ------------------------------------------------------------------ *)
(** ** Building the providers                                           *)

(** [requireEnv] *)
Definition requireEnv (env : ProcessEnv) (name : string) : outcome error string :=
  match env name with
  | None => Err (OtherError "Error" ("Missing required environment variable: " +:+ name))
  | Some value =>
      if bool_decide (value = "") || bool_decide (trim value = "")
      then Err (OtherError "Error" ("Missing required environment variable: " +:+ name))
      else Ok value
  end.

(** [AuthModule.onModuleInit] *)
Definition auth_onModuleInit (env : ProcessEnv) : boot unit :=
  do* settle (requireEnv env "JWT_ACCESS_SECRET") in
  do* settle (requireEnv env "JWT_REFRESH_SECRET") in ret tt.

Section Process.
Context (URL : string -> option string) (decreases : json -> bool) (number_text : double -> string).
Context (env : ProcessEnv).

(** What the constructors that can fail leave: the configuration, and where the client
    of Redis is told to go. *)
Record built : Type := {
  bt_config : AppConfigValues;
  bt_redis_url : config_value;
  bt_keyPrefix : config_value * config_value;
  bt_strategy_secrets : config_value * config_value;
  bt_jwt_secret : string
}.

(** [NestFactory.create]: AppConfigService first, for all the others ask it; then the
    client of Redis, the strategies of access tokens, and the options of JwtModule. *)
Definition create_app : boot built :=
  let* config := settle (validateConfig URL env).1 in
  let getOrThrow key := settle (service_getOrThrow config env key) in
  let* node_env := getOrThrow "NODE_ENV" in
  let* appName := getOrThrow "APP_NAME" in
  let* redis_url := getOrThrow "REDIS_URL" in
  let* shared_secret := getOrThrow "JWT_ACCESS_SECRET" in
  let* access_secret := getOrThrow "JWT_ACCESS_SECRET" in
  let* jwt_secret := settle (requireEnv env "JWT_ACCESS_SECRET") in
  ret {| bt_config := config; bt_redis_url := redis_url; bt_keyPrefix := (appName, node_env);
         bt_strategy_secrets := (shared_secret, access_secret); bt_jwt_secret := jwt_secret |}.

(** How the outside answers. *)
Record answers : Type := {
  aw_db : outcome error unit;
  aw_redis : outcome error client_status;
  aw_ping : outcome error string;
  aw_redis_again : outcome error client_status;
  aw_listen : outcome error unit
}.

(** The hooks of [app.init()], in the order the framework takes the modules. *)
Inductive hook : Type := hook_prisma | hook_redis | hook_auth.

Definition onModuleInit (a : answers) (h : hook) : boot unit :=
  match h with
  | hook_prisma => prisma_connect (aw_db a)
  | hook_redis => redis_connect (aw_redis_again a)
  | hook_auth => auth_onModuleInit env
  end.

(** [app.listen(port)]: the hooks, then the port. *)
Definition app_listen (order : list hook) (a : answers) (port : double) : boot unit :=
  do* for_each order (onModuleInit a) in ask (Listen port) (aw_listen a).

(** [bootstrap] *)
Definition bootstrap (order : list hook) (a : answers) : boot unit :=
  let* app := create_app in
  let config := bt_config app in
  do* see (record decreases "app.bootstrap.initialized" [("environment", JStr (NODE_ENV config))]) in
  do* prisma_connect (aw_db a) in
  do* redis_connect (aw_redis a) in
  do* redis_checkHealth (aw_ping a) in
  do* app_listen order a (PORT config) in
  see (log None ("HTTP server listening on port " +:+ number_text (PORT config))).

(** [onModuleDestroy] of both services, on a signal; a failure of one does not stop the
    other. *)
Definition shutdown (db : outcome error unit) (redis : outcome error client_status) : boot unit :=
  do* catch (prisma_disconnect db) (fun _ => ret tt) in
  catch (redis_disconnect redis) (fun _ => ret tt).

(* ------------------------------------------------------------------ *)
(** ** What is called, and when                                         *)

Context (URL_nonempty : forall s u, URL s = Some u -> u <> "").

Lemma requireEnv_setting key s : setting env key = Some s -> exists v, requireEnv env key = Ok v /\ trim v = s.
Proof.
  unfold setting, requireEnv. intros [Hv Hs]%truthy_Some. destruct (env key) as [v |]; [| done]. injection Hv as <-. exists v. split; [| done]. rewrite (bool_decide_eq_false_2 (trim v = "")) by done.
  rewrite bool_decide_eq_false_2; [done |]. intros ->. by apply Hs.
Qed.

(** A validated environment builds the application; the secret that JwtModule takes
    from the environment is the strategies', but for the white space around it. *)
Lemma create_app_ok c s :
  (validateConfig URL env).1 = Ok c ->
  exists app, create_app s = (Ok app, s) /\ bt_config app = c /\
    trim (bt_jwt_secret app) = JWT_ACCESS_SECRET c /\
    bt_strategy_secrets app = (CText (JWT_ACCESS_SECRET c), CText (JWT_ACCESS_SECRET c)) /\
    exists v, requireEnv env "JWT_REFRESH_SECRET" = Ok v.
Proof.
  intros Hc. pose proof (validateConfig_wp URL env) as Hwp. unfold wp in Hwp.
  unfold create_app, settle, bind, ret. rewrite Hc. destruct (validateConfig URL env) as [o env'].
  cbn in Hc. subst o. destruct Hwp as (_ & _ & [Htext Hurls _ _ _ _ _ _] & _).
  repeat match goal with H : Forall _ (_ :: _) |- _ => apply Forall_cons_1 in H as [? H] end. cbn [fst snd] in *.
  assert (Hredis : REDIS_URL c <> "") by (destruct (setting env "REDIS_URL"); [by eapply URL_nonempty | done]).
  repeat (erewrite service_text; [| reflexivity | first [exact Hredis | by eapply setting_nonempty]]).
  destruct (requireEnv_setting "JWT_ACCESS_SECRET" (JWT_ACCESS_SECRET c)) as (v & -> & Hv); [done |].
  destruct (requireEnv_setting "JWT_REFRESH_SECRET" (JWT_REFRESH_SECRET c)) as (r & -> & _); [done |]. by eauto 8.
Qed.

Lemma create_app_refused e s : (validateConfig URL env).1 = Err e -> create_app s = (Err e, s).
Proof. intros He. unfold create_app, settle, bind. by rewrite He. Qed.

(** After [bootstrap] connected both, the hooks ask nothing more. *)
Lemma hooks_quiet order a s :
  rn_connected s = true -> waits (rn_redis s) = false ->
  (exists v, requireEnv env "JWT_ACCESS_SECRET" = Ok v) -> (exists v, requireEnv env "JWT_REFRESH_SECRET" = Ok v) ->
  for_each order (onModuleInit a) s = (Ok tt, s).
Proof.
  intros Hdb Hredis [access Ha] [refresh Hr]. induction order as [| h order IH]; [done |].
  assert (Hh : onModuleInit a h s = (Ok tt, s)).
  { destruct h; cbn [onModuleInit].
    - unfold prisma_connect, bind, reads. by rewrite Hdb.
    - destruct s as [db status calls seen]. cbn in Hdb, Hredis. unfold redis_connect, on_client. cbn.
      destruct status; try done; cbn; by rewrite app_nil_r.
    - unfold auth_onModuleInit, bind, settle. by rewrite Ha, Hr. }
  cbn. unfold bind. by rewrite Hh.
Qed.

(** The Redis client is ready to be asked: it is connected already or connects. *)
Definition redis_answers (status : client_status) (a : answers) : Prop :=
  waits status = false \/ exists st, aw_redis a = Ok st.

(** All that a start asks, in its order. *)
Definition plan (status : client_status) (port : double) : list outside_call :=
  [DbConnect] ++ (if waits status then [RedisConnect] else []) ++ [RedisPing; Listen port].

Lemma record_text name key text seen :
  record decreases name [(key, JStr text)] seen = (Ok tt, seen ++ [Recorded name (buildCommonLabels [(key, JStr text)])]).
Proof. reflexivity. Qed.

(** A start that ends before it asks for the port. *)
Ltac stops_short :=
  split; [repeat (apply prefix_cons || apply prefix_nil) |];
  split; [split; [rewrite !elem_of_cons, elem_of_nil; intuition discriminate |
                  intros (? & [? | [? ?]] & ?); congruence] |];
  split; [split; [discriminate | rewrite !elem_of_cons, elem_of_nil; intuition discriminate] | reflexivity].

(** The rest of a start whose database and Redis client are connected. *)
Lemma ping_and_listen app order a s :
  rn_connected s = true -> waits (rn_redis s) = false ->
  (exists v, requireEnv env "JWT_ACCESS_SECRET" = Ok v) -> (exists v, requireEnv env "JWT_REFRESH_SECRET" = Ok v) ->
  let port := PORT (bt_config app) in
  let (o, s') := (do* redis_checkHealth (aw_ping a) in
                  do* app_listen order a port in
                  see (log None ("HTTP server listening on port " +:+ number_text port))) s in
  rn_connected s' = true /\
  (aw_ping a = Ok "PONG" /\ rn_calls s' = rn_calls s ++ [RedisPing; Listen port] /\ (o = Ok tt <-> aw_listen a = Ok tt) \/
   aw_ping a <> Ok "PONG" /\ rn_calls s' = rn_calls s ++ [RedisPing] /\ o <> Ok tt).
Proof.
  intros Hdb Hredis Ha Hr port.
  unfold redis_checkHealth, ask, settle, bind, checkHealth, pure_of, throw_if. cbn.
  destruct (aw_ping a) as [response | e]; cbn; [| by auto].
  unfold bind, throw. case_bool_decide as Hp; cbn; [subst response | split; [done |]; right; naive_solver].
  unfold app_listen, bind. rewrite hooks_quiet by done. unfold ask, see, log. cbn.
  destruct (aw_listen a) as [[] | e]; cbn; rewrite <- app_assoc; (split; [done |]); left; by repeat split.
Qed.

Ltac asks app order a Hw Ha Hr :=
  match goal with
  | |- context [(do* redis_checkHealth _ in _) ?st] =>
      pose proof (ping_and_listen app order a st eq_refl Hw Ha Hr) as Hrest; cbv zeta in Hrest; clear Ha Hr;
      destruct ((do* redis_checkHealth (aw_ping a) in _) st) as [o s'];
      destruct Hrest as [? [(Hp & -> & Ho) | (Hp & -> & Ho)]]; cbn;
      (split; [repeat (apply prefix_cons || apply prefix_nil || reflexivity) |]);
      (split; [| split; [| done]]); rewrite !elem_of_cons, elem_of_nil
  end;
  [naive_solver | naive_solver | split; [intuition discriminate | naive_solver] | split; [naive_solver | intuition discriminate]].

Lemma booted app order status a :
  create_app (cold status) = (Ok app, cold status) ->
  (forall st, aw_redis a = Ok st -> waits st = false) ->
  (exists v, requireEnv env "JWT_ACCESS_SECRET" = Ok v) -> (exists v, requireEnv env "JWT_REFRESH_SECRET" = Ok v) ->
  let port := PORT (bt_config app) in
  let (o, s) := bootstrap order a (cold status) in
  rn_calls s `prefix_of` plan status port /\
  (Listen port ∈ rn_calls s <-> aw_db a = Ok tt /\ redis_answers status a /\ aw_ping a = Ok "PONG") /\
  (o = Ok tt <-> Listen port ∈ rn_calls s /\ aw_listen a = Ok tt) /\
  rn_connected s = match aw_db a with Ok _ => true | Err _ => false end.
Proof.
  intros Happ Hconn Ha Hr port. unfold bootstrap. unfold bind at 1. rewrite Happ. cbv zeta.
  unfold bind at 1, see at 1. rewrite record_text. unfold plan, redis_answers.
  unfold bind at 1, prisma_connect at 1, ask at 1, bind at 1 2, reads, set_connected, modify. cbn [cold rn_connected].
  destruct (waits status) eqn:Hw; (destruct (aw_db a) as [[] | e] eqn:Hdb; cbn; [| by stops_short]).
  - destruct status; try done. unfold bind at 1, redis_connect, on_client, Redis.connect. cbn.
    destruct (aw_redis a) as [st | e] eqn:Hr1; cbn; [| by stops_short]. asks app order a (Hconn st eq_refl) Ha Hr.
  - unfold bind at 1, redis_connect, on_client.
    replace (Redis.connect (aw_redis a) _) with (@Ok error unit tt, status) by (by destruct status). cbn. rewrite Hw.
    asks app order a Hw Ha Hr.
Qed.

Lemma create_app_secrets app s :
  create_app s = (Ok app, s) ->
  (exists v, requireEnv env "JWT_ACCESS_SECRET" = Ok v) /\ (exists v, requireEnv env "JWT_REFRESH_SECRET" = Ok v) /\
  (validateConfig URL env).1 = Ok (bt_config app).
Proof.
  intros Happ. destruct (validateConfig URL env).1 as [c | e] eqn:Hc.
  - destruct (create_app_ok c s Hc) as (app' & Happ' & <- & _ & _ & Hr). rewrite Happ in Happ'. injection Happ' as <-.
    split; [| by split]. revert Happ. unfold create_app, settle, bind, ret.
    destruct (requireEnv env "JWT_ACCESS_SECRET") as [v | e]; [by eauto |]. by repeat case_match.
  - by rewrite (create_app_refused e s Hc) in Happ.
Qed.

(** The process stops as cleanly as it started: what was connected is disconnected,
    once, and a second signal asks the database nothing. *)
Lemma shutdown_disconnects s redis :
  let (o, s') := shutdown (Ok tt) redis s in
  o = Ok tt /\ rn_connected s' = false /\
  rn_calls s' = rn_calls s ++ (if rn_connected s then [DbDisconnect] else []) ++
                (if client_ended (rn_redis s) then [] else [RedisQuit]).
Proof.
  destruct s as [connected status calls seen].
  unfold shutdown, prisma_disconnect, redis_disconnect, on_client, ask, bind, catch, reads, set_connected, modify.
  destruct connected, status, redis; cbn; by rewrite <- ?app_assoc, ?app_nil_r.
Qed.

(** The server takes requests only when all is in place. Whatever the environment
    and the answers, and in whatever order the framework runs the hooks: if the
    environment is refused, nothing is asked of the outside at all; otherwise what is asked is a part of the plan,
    from its start and in its order (the database once, Redis when it waits, a ping, the
    port last), the port is asked for exactly when the database is connected and Redis
    is there and says PONG, and [bootstrap] succeeds exactly when the port is free too. *)
Theorem server_listens_last order a status
    (Hconn : forall st, aw_redis a = Ok st -> waits st = false) :
  let (o, s) := bootstrap order a (cold status) in
  match (validateConfig URL env).1 with
  | Err e => o = Err e /\ s = cold status
  | Ok c =>
      rn_calls s `prefix_of` plan status (PORT c) /\
      (Listen (PORT c) ∈ rn_calls s <-> aw_db a = Ok tt /\ redis_answers status a /\ aw_ping a = Ok "PONG") /\
      (o = Ok tt <-> Listen (PORT c) ∈ rn_calls s /\ aw_listen a = Ok tt) /\
      rn_connected s = match aw_db a with Ok _ => true | Err _ => false end
  end.
Proof.
  destruct (validateConfig URL env).1 as [c | e] eqn:Hc.
  - destruct (create_app_ok c (cold status) Hc) as (app & Happ & <- & _).
    destruct (create_app_secrets app _ Happ) as (Ha & Hr & _). exact (booted app order status a Happ Hconn Ha Hr).
  - unfold bootstrap, bind. by rewrite (create_app_refused e _ Hc).
Qed.
End Process.

(** A start with a client that connects by itself, as the factory makes it. *)
Module StartExample.
Definition all_well : answers :=
  {| aw_db := Ok tt; aw_redis := Ok status_ready; aw_ping := Ok "PONG"; aw_redis_again := Ok status_ready; aw_listen := Ok tt |}.
Definition deaf_redis : answers :=
  {| aw_db := Ok tt; aw_redis := Ok status_ready; aw_ping := Ok "LOADING"; aw_redis_again := Ok status_ready; aw_listen := Ok tt |}.
Definition hooks_order : list hook := [hook_prisma; hook_redis; hook_auth].
Definition start (a : answers) (status : client_status) : outcome error unit * running :=
  bootstrap ConfigExample.URL (fun _ => false) (fun _ => "8080") ConfigExample.env hooks_order a (cold status).

Example connects_and_listens :
  (start all_well status_wait).1 = Ok tt /\
  rn_calls (start all_well status_wait).2 = [DbConnect; RedisConnect; RedisPing; Listen (PORT ConfigExample.config)].
Proof. split; vm_compute; reflexivity. Qed.

Example deaf_redis_stops_it :
  (start deaf_redis status_other).1 = Err (JsError "Redis health check failed") /\
  rn_calls (start deaf_redis status_other).2 = [DbConnect; RedisPing].
Proof. split; vm_compute; reflexivity. Qed.
End StartExample.

Lemma server_listens_last_witness :
  Listen (PORT ConfigExample.config) ∈ rn_calls (StartExample.start StartExample.all_well status_other).2.
Proof.
  pose proof (server_listens_last ConfigExample.URL (fun _ => false) (fun _ => "8080") ConfigExample.env
    ConfigExample.URL_nonempty StartExample.hooks_order StartExample.all_well status_other) as Hstart.
  unfold StartExample.start. destruct (bootstrap _ _ _ _ _ _ _) as [o s].
  rewrite ConfigExample.run in Hstart. cbn [fst] in Hstart.
  destruct Hstart as (_ & Hlisten & _); [by intros st [= <-] |].
  apply Hlisten. split; [reflexivity | split; [by left | reflexivity]].
Defined.
