(* ===== verification/Dto.v ===== *)
(** Dto.v: the request bodies (the dto and contracts/requests folders of src/src): the
    declared properties with their decorators, and the types and bounds of what the
    validation pipe lets through.

    class-validator and the pipe of the framework (whitelist, forbidNonWhitelisted) are
    an interface with the laws they document. *)

From S2P Require Import Prelude Errors Values Hashing Store Context Sessions Auth Redaction Config Tables Scripts Observability.

Local Open Scope Z_scope.

(* ------------------------------------------------------------------ *)
(** ** Decorators                                                       *)

(** The regular expressions of [@Matches]. *)
Inductive pattern : Type := SlugPattern | CurrencyPattern | DigitsPattern | PasswordPattern.

(** [IsEnum] is also [@IsIn]: one of some texts. *)
Inductive decorator : Type :=
| IsString
| IsNotEmpty
| MinLength (n : nat)
| MaxLength (n : nat)
| Matches (p : pattern)
| IsUUID
| IsEmail
| IsPhoneNumber
| IsDateString
| IsInt
| Min (z : Z)
| Max (z : Z)
| IsLatitude
| IsLongitude
| IsEnum (values : list string)
| Allow.

(** A property: its name, [@IsOptional] or not, and its other decorators. *)
Record property : Type := {
  pr_name : string;
  pr_optional : bool;
  pr_decorators : list decorator
}.

Definition required (name : string) (l : list decorator) : property :=
  {| pr_name := name; pr_optional := false; pr_decorators := l |}.
Definition optional (name : string) (l : list decorator) : property :=
  {| pr_name := name; pr_optional := true; pr_decorators := l |}.

Definition lower_alnum (c : ascii) : bool := char_range 97 122 c || char_range 48 57 c.

Definition some_char (P : ascii -> bool) (s : string) : bool := negb (string_forall (fun c => negb (P c)) s).

(** [/^[a-z0-9]+(?:-[a-z0-9]+)*$/], [/^[A-Z]{3}$/], [/^\d+$/] and
    [/^(?=.*[A-Z])(?=.*[a-z])(?=.*\d).+$/] *)
Definition pattern_test (p : pattern) (s : string) : bool :=
  match p with
  | SlugPattern =>
      forallb (fun part => negb (bool_decide (part = "")) && string_forall lower_alnum part) (split_on "-" s)
  | CurrencyPattern => is_currency_code s
  | DigitsPattern => negb (bool_decide (s = "")) && string_forall (char_range 48 57) s
  | PasswordPattern =>
      string_forall (fun c => negb (bool_decide (c = LF) || bool_decide (c = CR))) s &&
      some_char (char_range 65 90) s && some_char (char_range 97 122) s && some_char (char_range 48 57) s
  end.

Definition VenueTableStatus_values : list string := ["ACTIVE"; "INACTIVE"; "MAINTENANCE"].
Definition EventTableStatus_values : list string := ["AVAILABLE"; "HELD"; "UNAVAILABLE"].
Definition EventVisibility_values : list string := ["PRIVATE"; "UNLISTED"; "PUBLIC"].
Definition EventCategory_values : list string :=
  ["NIGHTLIFE"; "CONCERT"; "FESTIVAL"; "CAMPUS"; "CORPORATE"; "COMMUNITY"; "SPORTS"; "ARTS"; "OTHER"].
Definition PaymentProvider_values : list string := ["PAYSTACK"; "MTN_MOMO"].

(* ------------------------------------------------------------------ *)
(** ** The bodies                                                       *)

Definition HoldTableDto : list property :=
  [required "eventTableId" [IsUUID];
   required "idempotencyKey" [IsString; MinLength 1; MaxLength 128];
   optional "holdDurationSeconds" [IsInt; Min 1; Max 86400]].

Definition CreateFloorSectionDto : list property :=
  [required "organizerId" [IsUUID];
   required "name" [IsString; MinLength 1; MaxLength 120];
   optional "description" [IsString; MaxLength 500]].

Definition CreateVenueTableDto : list property :=
  [required "organizerId" [IsUUID];
   optional "floorSectionId" [IsUUID];
   required "label" [IsString; MinLength 1; MaxLength 80];
   required "seatCount" [IsInt; Min 1; Max 100];
   optional "status" [IsEnum VenueTableStatus_values]].

Definition CreateEventTableDto : list property :=
  [required "organizerId" [IsUUID];
   required "eventId" [IsUUID];
   required "venueTableId" [IsUUID];
   required "priceMinor" [IsInt; Min 0; Max 1000000000];
   required "currency" [IsString; Matches CurrencyPattern];
   optional "status" [IsEnum EventTableStatus_values]].

Definition CreateOrderRequestDto : list property :=
  [required "reservationId" [IsUUID];
   required "totalAmountMinor" [IsString; Matches DigitsPattern];
   required "currency" [IsEnum SUPPORTED_CURRENCIES]].

(** The descriptive properties both event bodies end with. *)
Definition event_details : list property :=
  [optional "timezone" [IsString; MaxLength 80];
   optional "venueName" [IsString; MaxLength 160];
   optional "addressLine1" [IsString; MaxLength 255];
   optional "addressLine2" [IsString; MaxLength 255];
   optional "city" [IsString; MaxLength 120];
   optional "region" [IsString; MaxLength 120];
   optional "country" [IsString; MaxLength 120];
   optional "latitude" [IsLatitude];
   optional "longitude" [IsLongitude];
   optional "capacityTotal" [IsInt; Min 1; Max 1000000]].

Definition CreateEventRequestDto : list property :=
  [required "title" [IsString; MinLength 2; MaxLength 160];
   required "slug" [IsString; MinLength 3; MaxLength 100; Matches SlugPattern];
   optional "description" [IsString; MaxLength 5000];
   optional "visibility" [IsEnum EventVisibility_values];
   optional "category" [IsEnum EventCategory_values];
   required "startsAt" [IsDateString];
   required "endsAt" [IsDateString]] ++ event_details.

Definition UpdateEventRequestDto : list property :=
  [optional "title" [IsString; MinLength 2; MaxLength 160];
   optional "slug" [IsString; MinLength 3; MaxLength 100; Matches SlugPattern];
   optional "description" [IsString; MaxLength 5000];
   optional "visibility" [IsEnum EventVisibility_values];
   optional "category" [IsEnum EventCategory_values];
   optional "startsAt" [IsDateString];
   optional "endsAt" [IsDateString]] ++ event_details.

Definition PublishEventRequestDto : list property := [optional "note" [IsString; MaxLength 1000]].
Definition CancelEventRequestDto : list property := [optional "reason" [IsString; MaxLength 1000]].

Definition CreateOrganizerRequestDto : list property :=
  [required "displayName" [IsString; MinLength 2; MaxLength 120];
   required "slug" [IsString; MinLength 3; MaxLength 80; Matches SlugPattern];
   optional "description" [IsString; MaxLength 2000];
   optional "contactEmail" [IsEmail; MaxLength 255];
   optional "contactPhone" [IsPhoneNumber; MaxLength 32]].

Definition UpdateOrganizerRequestDto : list property :=
  [optional "displayName" [IsString; MinLength 2; MaxLength 120];
   optional "slug" [IsString; MinLength 3; MaxLength 80; Matches SlugPattern];
   optional "description" [IsString; MaxLength 2000];
   optional "contactEmail" [IsEmail; MaxLength 255];
   optional "contactPhone" [IsPhoneNumber; MaxLength 32]].

Definition SubmitOrganizerRequestDto : list property := [optional "note" [IsString; MaxLength 1000]].

Definition InitiatePaymentRequestDto : list property :=
  [required "provider" [IsEnum PaymentProvider_values];
   required "eventId" [IsUUID];
   optional "customerPhone" [IsString]].

Definition ScanTicketDto : list property :=
  [required "ticketId" [IsUUID];
   required "token" [IsString; MinLength 32; MaxLength 512];
   optional "eventId" [IsUUID];
   optional "deviceId" [IsString; MaxLength 120];
   optional "gateLabel" [IsString; MaxLength 120]].

Definition SignupDto : list property :=
  [required "email" [IsEmail];
   required "password" [IsString; MinLength 8; Matches PasswordPattern];
   required "deviceId" [IsString; IsNotEmpty; MaxLength 255];
   optional "role" [Allow]].

Definition LoginDto : list property :=
  [required "email" [IsEmail];
   required "password" [IsString; MaxLength 256];
   required "deviceId" [IsString; IsNotEmpty; MaxLength 255]].

Definition RefreshTokenDto : list property :=
  [required "refreshToken" [IsString; IsNotEmpty]; required "deviceId" [IsString; MaxLength 255]].

Definition RevokeSessionDto : list property :=
  [required "sessionId" [IsUUID]; optional "reason" [IsString; MaxLength 255]].

Definition LogoutDto : list property := [optional "reason" [IsString; MaxLength 255]].

(* ------------------------------------------------------------------ *)
(** ** The validator                                                    *)

(** Whether a value satisfies a decorator, and whether the pipe lets a body through. *)
Class Validator : Type := {
  v_holds : decorator -> json -> bool;
  pipe_accepts : list property -> json -> bool
}.

(** What a property's value is let through as: an optional one may be absent or null, any
    other satisfies every decorator. *)
Definition property_holds `{Validator} (fields : list (string * json)) (p : property) : Prop :=
  (pr_optional p = true /\ (field (pr_name p) fields = None \/ field (pr_name p) fields = Some JNull)) \/
  (exists v, field (pr_name p) fields = Some v /\ forall d, d ∈ pr_decorators p -> v_holds d v = true).

(** The documented meaning of the decorators and of the pipe on a body that is an object:
    unknown properties are refused. *)
Class ValidatorLaws `{Validator} : Prop := {
  law_text d v : v_holds d v = true ->
    d ∈ [IsString; IsUUID; IsEmail; IsPhoneNumber; IsDateString] -> exists s, v = JStr s;
  law_not_empty v : v_holds IsNotEmpty v = true -> v <> JStr "" /\ v <> JNull;
  law_min_length n v : v_holds (MinLength n) v = true -> exists s, v = JStr s /\ (n <= String.length s)%nat;
  law_max_length n v : v_holds (MaxLength n) v = true <-> exists s, v = JStr s /\ (String.length s <= n)%nat;
  law_matches p v : v_holds (Matches p) v = true -> exists s, v = JStr s /\ pattern_test p s = true;
  law_int v : v_holds IsInt v = true -> exists z, v = JNum z;
  law_min m z : v_holds (Min m) (JNum z) = true -> m <= z;
  law_max m z : v_holds (Max m) (JNum z) = true -> z <= m;
  law_coordinate d v : v_holds d v = true -> d = IsLatitude \/ d = IsLongitude ->
    (exists z, v = JNum z) \/ (exists r, v = JFloat r) \/ (exists s, v = JStr s);
  law_enum l v : v_holds (IsEnum l) v = true -> exists s, v = JStr s /\ s ∈ l;
  law_pipe l fields : pipe_accepts l (JObj fields) = true <->
    (forall kv, kv ∈ fields -> kv.1 ∈ pr_name <$> l) /\ Forall (property_holds fields) l
}.

(* ------------------------------------------------------------------ *)
(** ** Types                                                            *)

(** The declared types, with the bounds the handlers rely on. *)
Inductive ts_type : Type :=
| TText (min : nat) (max : option nat)
| TInteger (min max : Z)
| TOneOf (values : list string)
| TNumber
| TUnknown.

Definition has_type (t : ts_type) (v : json) : Prop :=
  match t with
  | TText min max =>
      exists s, v = JStr s /\ (min <= String.length s)%nat /\ (forall n, max = Some n -> (String.length s <= n)%nat)
  | TInteger min max => exists z, v = JNum z /\ min <= z <= max
  | TOneOf values => exists s, v = JStr s /\ s ∈ values
  | TNumber => (exists z, v = JNum z) \/ (exists r, v = JFloat r)
  | TUnknown => True
  end.

(** What the pipe makes sure of: the declared type, but for the coordinates, which are
    declared as numbers and let through as texts too. *)
Definition let_through (t : ts_type) (v : json) : Prop :=
  has_type t v \/ (t = TNumber /\ exists s, v = JStr s).

(** A declared property: its name, whether it has a question mark, its type. *)
Definition declaration : Type := string * (bool * ts_type).

(** The bodies, by name. *)
Inductive dto : Type :=
| DHoldTable | DCreateFloorSection | DCreateVenueTable | DCreateEventTable | DCreateOrder
| DCreateEvent | DUpdateEvent | DPublishEvent | DCancelEvent
| DCreateOrganizer | DUpdateOrganizer | DSubmitOrganizer
| DInitiatePayment | DScanTicket | DSignup | DLogin | DRefreshToken | DRevokeSession | DLogout.

Definition dto_properties (d : dto) : list property :=
  match d with
  | DHoldTable => HoldTableDto | DCreateFloorSection => CreateFloorSectionDto
  | DCreateVenueTable => CreateVenueTableDto | DCreateEventTable => CreateEventTableDto
  | DCreateOrder => CreateOrderRequestDto | DCreateEvent => CreateEventRequestDto
  | DUpdateEvent => UpdateEventRequestDto | DPublishEvent => PublishEventRequestDto
  | DCancelEvent => CancelEventRequestDto | DCreateOrganizer => CreateOrganizerRequestDto
  | DUpdateOrganizer => UpdateOrganizerRequestDto | DSubmitOrganizer => SubmitOrganizerRequestDto
  | DInitiatePayment => InitiatePaymentRequestDto | DScanTicket => ScanTicketDto | DSignup => SignupDto
  | DLogin => LoginDto | DRefreshToken => RefreshTokenDto | DRevokeSession => RevokeSessionDto
  | DLogout => LogoutDto
  end.

Definition text : ts_type := TText 0 None.
Definition text_to (n : nat) : ts_type := TText 0 (Some n).
Definition text_from_to (m n : nat) : ts_type := TText m (Some n).

Definition event_detail_types : list declaration :=
  [("timezone", (true, text_to 80)); ("venueName", (true, text_to 160)); ("addressLine1", (true, text_to 255));
   ("addressLine2", (true, text_to 255)); ("city", (true, text_to 120)); ("region", (true, text_to 120));
   ("country", (true, text_to 120)); ("latitude", (true, TNumber)); ("longitude", (true, TNumber));
   ("capacityTotal", (true, TInteger 1 1000000))].

Definition event_types (partial : bool) : list declaration :=
  [("title", (partial, text_from_to 2 160)); ("slug", (partial, text_from_to 3 100));
   ("description", (true, text_to 5000)); ("visibility", (true, TOneOf EventVisibility_values));
   ("category", (true, TOneOf EventCategory_values)); ("startsAt", (partial, text)); ("endsAt", (partial, text))]
  ++ event_detail_types.

Definition organizer_types (partial : bool) : list declaration :=
  [("displayName", (partial, text_from_to 2 120)); ("slug", (partial, text_from_to 3 80));
   ("description", (true, text_to 2000)); ("contactEmail", (true, text_to 255)); ("contactPhone", (true, text_to 32))].

Definition dto_type (d : dto) : list declaration :=
  match d with
  | DHoldTable =>
      [("eventTableId", (false, text)); ("idempotencyKey", (false, text_from_to 1 128));
       ("holdDurationSeconds", (true, TInteger 1 86400))]
  | DCreateFloorSection =>
      [("organizerId", (false, text)); ("name", (false, text_from_to 1 120)); ("description", (true, text_to 500))]
  | DCreateVenueTable =>
      [("organizerId", (false, text)); ("floorSectionId", (true, text)); ("label", (false, text_from_to 1 80));
       ("seatCount", (false, TInteger 1 100)); ("status", (true, TOneOf VenueTableStatus_values))]
  | DCreateEventTable =>
      [("organizerId", (false, text)); ("eventId", (false, text)); ("venueTableId", (false, text));
       ("priceMinor", (false, TInteger 0 1000000000)); ("currency", (false, text));
       ("status", (true, TOneOf EventTableStatus_values))]
  | DCreateOrder =>
      [("reservationId", (false, text)); ("totalAmountMinor", (false, text));
       ("currency", (false, TOneOf SUPPORTED_CURRENCIES))]
  | DCreateEvent => event_types false
  | DUpdateEvent => event_types true
  | DPublishEvent | DSubmitOrganizer => [("note", (true, text_to 1000))]
  | DCancelEvent => [("reason", (true, text_to 1000))]
  | DCreateOrganizer => organizer_types false
  | DUpdateOrganizer => organizer_types true
  | DInitiatePayment =>
      [("provider", (false, TOneOf PaymentProvider_values)); ("eventId", (false, text)); ("customerPhone", (true, text))]
  | DScanTicket =>
      [("ticketId", (false, text)); ("token", (false, text_from_to 32 512)); ("eventId", (true, text));
       ("deviceId", (true, text_to 120)); ("gateLabel", (true, text_to 120))]
  | DSignup =>
      [("email", (false, text)); ("password", (false, TText 8 None)); ("deviceId", (false, text_to 255));
       ("role", (true, TUnknown))]
  | DLogin => [("email", (false, text)); ("password", (false, text_to 256)); ("deviceId", (false, text_to 255))]
  | DRefreshToken => [("refreshToken", (false, text)); ("deviceId", (false, text_to 255))]
  | DRevokeSession => [("sessionId", (false, text)); ("reason", (true, text_to 255))]
  | DLogout => [("reason", (true, text_to 255))]
  end.

(** A body of a type: its fields are declared, and each is of its type; one with a
    question mark may be absent.  Two things the types do not say: it may then be null too,
    and a coordinate may be a text. *)
Definition well_typed (types : list declaration) (fields : list (string * json)) : Prop :=
  (forall kv, kv ∈ fields -> kv.1 ∈ types.*1) /\
  Forall (fun d : declaration =>
      match field d.1 fields with
      | None | Some JNull => d.2.1 = true
      | Some v => let_through d.2.2 v
      end) types.

(* ------------------------------------------------------------------ *)
(** ** Checking the decorators against the types                        *)

Definition is_text_decorator (d : decorator) : bool :=
  match d with
  | IsString | IsUUID | IsEmail | IsPhoneNumber | IsDateString | MinLength _ | MaxLength _ | Matches _ => true
  | _ => false
  end.

(** The decorators force the type. *)
Definition forces (l : list decorator) (t : ts_type) : bool :=
  match t with
  | TText min max =>
      existsb is_text_decorator l &&
      ((min =? 0)%nat || existsb (fun d => match d with MinLength n => (min <=? n)%nat | _ => false end) l) &&
      match max with
      | None => true
      | Some m => existsb (fun d => match d with MaxLength n => (n <=? m)%nat | _ => false end) l
      end
  | TInteger min max =>
      existsb (fun d => match d with IsInt => true | _ => false end) l &&
      existsb (fun d => match d with Min n => min <=? n | _ => false end) l &&
      existsb (fun d => match d with Max n => n <=? max | _ => false end) l
  | TOneOf values =>
      existsb (fun d => match d with IsEnum l => forallb (fun s => bool_decide (s ∈ values)) l | _ => false end) l
  | TNumber => existsb (fun d => match d with IsLatitude | IsLongitude => true | _ => false end) l
  | TUnknown => true
  end.

(** The declarations and the properties agree, one by one. *)
Fixpoint agree (types : list declaration) (props : list property) : bool :=
  match types, props with
  | [], [] => true
  | (name, (opt, t)) :: types, p :: props =>
      bool_decide (name = pr_name p) && Bool.eqb opt (pr_optional p) && forces (pr_decorators p) t &&
      (opt || match t with TUnknown => false | _ => true end) && agree types props
  | _, _ => false
  end.

(** The decorators of every body agree with its declared type. *)
Lemma dtos_agree d : agree (dto_type d) (dto_properties d) = true.
Proof. destruct d; vm_run. Qed.

Section Sound.
Context `{ValidatorLaws}.

Lemma text_decorator d v : is_text_decorator d = true -> v_holds d v = true -> exists s, v = JStr s.
Proof.
  intros Hd Hv. destruct d; try done;
    first [apply (law_text _ _ Hv), list_elem_of_In; cbn; tauto
          | apply law_min_length in Hv as (s & -> & _) | apply law_max_length in Hv as (s & -> & _)
          | apply law_matches in Hv as (s & -> & _)]; eauto.
Qed.

Lemma forces_sound l t v :
  forces l t = true -> (forall d, d ∈ l -> v_holds d v = true) -> let_through t v.
Proof.
  intros Hf Hall. destruct t as [min max | min max | values | |]; cbn in Hf; [left; cbn | left; cbn | left; cbn | | by left].
  - apply andb_true_iff in Hf as [[Htext Hmin]%andb_true_iff Hmax].
    apply existsb_exists in Htext as (d & Hd & Htext). rewrite <- list_elem_of_In in Hd.
    destruct (text_decorator d v Htext (Hall d Hd)) as [s ->]. exists s. split; [done |]. split.
    + apply orb_true_iff in Hmin as [Hmin%Nat.eqb_eq | Hmin]; [lia |].
      apply existsb_exists in Hmin as (e & He & Hle). rewrite <- list_elem_of_In in He. destruct e; try done.
      apply Nat.leb_le in Hle. destruct (law_min_length _ _ (Hall _ He)) as (s' & [= <-] & Hs). lia.
    + intros n ->. apply existsb_exists in Hmax as (e & He & Hle). rewrite <- list_elem_of_In in He. destruct e; try done.
      apply Nat.leb_le in Hle. destruct (proj1 (law_max_length _ _) (Hall _ He)) as (s' & [= <-] & Hs). lia.
  - apply andb_true_iff in Hf as [[Hint Hmin]%andb_true_iff Hmax].
    apply existsb_exists in Hint as (d & Hd & Hint). rewrite <- list_elem_of_In in Hd. destruct d; try done.
    destruct (law_int _ (Hall _ Hd)) as [z ->]. exists z. split; [done |].
    apply existsb_exists in Hmin as (e & He & Hle). rewrite <- list_elem_of_In in He. destruct e; try done.
    apply existsb_exists in Hmax as (f & Hfi & Hge). rewrite <- list_elem_of_In in Hfi. destruct f; try done.
    apply Z.leb_le in Hle, Hge. pose proof (law_min _ _ (Hall _ He)). pose proof (law_max _ _ (Hall _ Hfi)). lia.
  - apply existsb_exists in Hf as (d & Hd & Hsub). rewrite <- list_elem_of_In in Hd. destruct d; try done.
    destruct (law_enum _ _ (Hall _ Hd)) as (s & -> & Hs). exists s. split; [done |].
    rewrite forallb_forall in Hsub. specialize (Hsub s). rewrite <- list_elem_of_In in Hsub. specialize (Hsub Hs).
    by apply bool_decide_eq_true in Hsub.
  - apply existsb_exists in Hf as (d & Hd & Hc). rewrite <- list_elem_of_In in Hd.
    destruct (law_coordinate d v (Hall _ Hd)) as [Hz | [Hr | Hs]]; [by destruct d; auto | left; by left | left; by right | by right].
Qed.

Lemma agree_names types props : agree types props = true -> types.*1 = pr_name <$> props.
Proof.
  revert props. induction types as [| [name [opt t]] types IH]; intros [| p props]; cbn; try done.
  rewrite !andb_true_iff. intros ((((Hn & _) & _) & _) & Hrest). apply bool_decide_eq_true in Hn as ->.
  by rewrite (IH props).
Qed.

Lemma agree_sound types props fields :
  agree types props = true -> Forall (property_holds fields) props ->
  Forall (fun d : declaration =>
      match field d.1 fields with
      | None | Some JNull => d.2.1 = true
      | Some v => let_through d.2.2 v
      end) types.
Proof.
  revert props. induction types as [| [name [opt t]] types IH]; intros [| p props] Hagree Hprops; cbn in Hagree; try done.
  rewrite !andb_true_iff in Hagree. destruct Hagree as ((((Hn & Hopt) & Hforces) & Hknown) & Hrest).
  apply bool_decide_eq_true in Hn as ->. apply Bool.eqb_prop in Hopt as ->.
  inversion Hprops as [| ? ? Hp Hprops']; subst. constructor; [| by eapply IH]. cbn.
  destruct Hp as [[Ho [-> | ->]] | (v & -> & Hall)]; [done | done |].
  pose proof (forces_sound _ _ _ Hforces Hall) as Htyped.
  destruct v; try done. destruct (pr_optional p); [done |]. destruct Htyped as [Htyped | [-> [s Hs]]]; [| done].
  destruct t; cbn in Htyped, Hknown;
    [by destruct Htyped as (? & ? & _) | by destruct Htyped as (? & ? & _) | by destruct Htyped as (? & ? & _)
    | by destruct Htyped as [[? ?] | [? ?]] | done].
Qed.

End Sound.

(** C26: The validation pipe makes the declared types true, but for two leaks.  An object it
    lets through for one of the nineteen request types has declared fields only, every
    field has its declared type (a text within its length, an integer within its range,
    one of the values of its enumeration), and only the fields with a question mark are
    missing.  The leaks: a field with a question mark may also be null, and the latitude
    and longitude of an event, declared as numbers, may be texts.  The decorators are
    checked against the types, field by field. *)
Theorem accepted_body_typed `{ValidatorLaws} d fields :
  pipe_accepts (dto_properties d) (JObj fields) = true -> well_typed (dto_type d) fields.
Proof.
  intros [Hknown Hprops]%law_pipe. pose proof (dtos_agree d) as Hagree. split; [| by eapply agree_sound].
  intros kv Hkv. rewrite (agree_names _ _ Hagree). by apply Hknown.
Qed.

(** The table service asserts again what the pipe has made true. *)
Lemma accepted_table_passes `{ValidatorLaws} fields w :
  (pipe_accepts CreateVenueTableDto (JObj fields) = true ->
     exists n, field "seatCount" fields = Some (JNum n) /\ assertSeatCount (JInt n) w = (Ok n, w)) /\
  (pipe_accepts CreateEventTableDto (JObj fields) = true ->
     exists n, field "priceMinor" fields = Some (JNum n) /\ assertPriceMinor (JInt n) w = (Ok n, w)).
Proof.
  assert (Hint : forall d name lo hi, (name, (false, TInteger lo hi)) ∈ dto_type d ->
    pipe_accepts (dto_properties d) (JObj fields) = true ->
    exists n, field name fields = Some (JNum n) /\ lo <= n <= hi).
  { intros d name lo hi Hin [_ Hprops]%law_pipe.
    pose proof (agree_sound _ _ _ (dtos_agree d) Hprops) as Hall. rewrite Forall_forall in Hall.
    specialize (Hall _ Hin). cbn in Hall.
    destruct (field name fields) as [v |]; [| done].
    destruct v; try done; destruct Hall as [(n & Hn & Hrange) | [? _]]; try done; injection Hn as ->; eauto. }
  split; intros Haccept.
  - destruct (Hint DCreateVenueTable "seatCount" 1 100) as (n & Hf & Hn); [rewrite list_elem_of_In; cbn; tauto | done |].
    exists n. split; [done |]. unfold assertSeatCount. by rewrite (proj2 (Z.ltb_lt 0 n)) by lia.
  - destruct (Hint DCreateEventTable "priceMinor" 0 1000000000) as (n & Hf & Hn); [rewrite list_elem_of_In; cbn; tauto | done |].
    exists n. split; [done |]. unfold assertPriceMinor. by rewrite (proj2 (Z.leb_le 0 n)) by lia.
Qed.

(* ------------------------------------------------------------------ *)
(** ** Sign-up and login                                                *)

Definition login_body (email password deviceId : string) : list (string * json) :=
  [("email", JStr email); ("password", JStr password); ("deviceId", JStr deviceId)].

Section Login.
Context `{ValidatorLaws}.

Lemma required_holds fields name l v :
  property_holds fields (required name l) -> field name fields = Some v -> forall d, d ∈ l -> v_holds d v = true.
Proof. intros [[Ho _] | (v' & Hv' & Hall)] Hv; [done |]. cbn in *. by simplify_eq. Qed.

(** The body a new customer logs in with is let through exactly when the password is not
    longer than the login body allows. *)
Lemma login_body_accepted fields email password deviceId :
  pipe_accepts SignupDto (JObj fields) = true -> field "email" fields = Some (JStr email) ->
  field "password" fields = Some (JStr password) -> field "deviceId" fields = Some (JStr deviceId) ->
  pipe_accepts LoginDto (JObj (login_body email password deviceId)) = true <-> (String.length password <= 256)%nat.
Proof.
  intros [_ Hs]%law_pipe He Hp Hd. rewrite law_pipe.
  apply Forall_cons in Hs as [Hse Hs]. apply Forall_cons in Hs as [Hsp Hs]. apply Forall_cons in Hs as [Hsd _].
  pose proof (required_holds _ _ _ _ Hse He) as Hve. pose proof (required_holds _ _ _ _ Hsp Hp) as Hvp.
  pose proof (required_holds _ _ _ _ Hsd Hd) as Hvd. split.
  - intros [_ Hl]. apply Forall_cons in Hl as [_ Hl]. apply Forall_cons in Hl as [Hlp _].
    assert (Hm : v_holds (MaxLength 256) (JStr password) = true)
      by (apply (required_holds _ _ _ _ Hlp eq_refl); set_solver).
    apply law_max_length in Hm as (s & [= <-] & Hs'). exact Hs'.
  - intros Hlen. split; [intros kv Hkv; rewrite list_elem_of_In in Hkv; cbn in Hkv;
      destruct Hkv as [<- | [<- | [<- | []]]]; cbn; set_solver |].
    apply Forall_cons; split; [| apply Forall_cons; split; [| apply Forall_cons; split; [| by apply Forall_nil]]];
      (right; eexists; split; [reflexivity |]); cbn [pr_decorators required]; intros d Hdec.
    + by apply Hve.
    + apply elem_of_cons in Hdec as [-> | Hdec]; [apply Hvp; set_solver |].
      apply list_elem_of_singleton in Hdec as ->. apply law_max_length. eauto.
    + by apply Hvd.
Qed.

End Login.

(** C16: Sign-up and login round-trip, for passwords the login body admits.  When the pipe let
    a sign-up body through and the sign-up succeeded, a login with that password, any
    spelling of the email that normalises to the same address, any device and a new
    session id succeeds at once in the service: it names the same user, a CUSTOMER with
    the normalised email, and opens an active session bound to the device.  The login
    request with the same email, password and device passes the pipe exactly when the
    password has at most 256 characters; the sign-up body has no such bound, so a longer
    password makes an account that cannot log in. *)
Theorem signed_up_logs_in `{ValidatorLaws} `{Crypto} `{L : AuthLibraries} (Hb : BcryptSound L) secret
    fields d now email password deviceId req w res w'
    (Hbody : pipe_accepts SignupDto (JObj fields) = true)
    (He : field "email" fields = Some (JStr email)) (Hp : field "password" fields = Some (JStr password))
    (Hd : field "deviceId" fields = Some (JStr deviceId))
    (Hrun : signup secret d now email password deviceId req w = (Ok res, w')) :
  (pipe_accepts LoginDto (JObj (login_body email password deviceId)) = true <->
     (String.length password <= 256)%nat) /\
  forall d' now' email' deviceId' req',
    normalizeEmail email' = normalizeEmail email -> db_sessions w' !! dr_sessionId d' = None ->
    exists res' w'', login secret d' now' email' password deviceId' req' w' = (Ok res', w'') /\
      res_userId res' = res_userId res /\ res_role res' = CUSTOMER /\
      res_email res' = normalizeEmail email /\
      exists s, db_sessions w'' !! res_sessionId res' = Some s /\ ses_status s = SESSION_ACTIVE /\
        ses_deviceId s = deviceId' /\ ses_userId s = res_userId res /\
        ses_refreshTokenHash s = Some (hashRefreshToken (res_refreshToken res')).
Proof.
  split; [by apply (login_body_accepted fields) |]. intros d' now' email' deviceId' req' Hem Hs.
  by apply (signup_then_login Hb secret d now email password deviceId req w res w' Hrun).
Qed.

(* ------------------------------------------------------------------ *)
(** ** A validator                                                      *)

Module DtoExample.

Definition text_and (P : string -> bool) (v : json) : bool := match v with JStr s => P s | _ => false end.

Definition holds (d : decorator) (v : json) : bool :=
  match d with
  | IsString => text_and (fun _ => true) v
  | IsNotEmpty => match v with JStr "" | JNull => false | _ => true end
  | MinLength n => text_and (fun s => (n <=? String.length s)%nat) v
  | MaxLength n => text_and (fun s => (String.length s <=? n)%nat) v
  | Matches p => text_and (pattern_test p) v
  | IsUUID => text_and is_uuid v
  | IsEmail => text_and (fun s => match cut "@" s with Some (_, s) => includes "." s | None => false end) v
  | IsPhoneNumber => text_and (fun s => startsWith "+" s) v
  | IsDateString => text_and (fun s => negb (bool_decide (s = ""))) v
  | IsInt => match v with JNum _ => true | _ => false end
  | Min m => match v with JNum z => m <=? z | _ => false end
  | Max m => match v with JNum z => z <=? m | _ => false end
  | IsLatitude | IsLongitude => match v with JNum _ | JFloat _ => true | v => text_and (fun s => negb (bool_decide (s = ""))) v end
  | IsEnum l => text_and (fun s => bool_decide (s ∈ l)) v
  | Allow => true
  end.

Definition property_ok (fields : list (string * json)) (p : property) : bool :=
  match field (pr_name p) fields with
  | None => pr_optional p
  | Some v => (pr_optional p && match v with JNull => true | _ => false end) ||
              forallb (fun d => holds d v) (pr_decorators p)
  end.

Definition accepts (l : list property) (v : json) : bool :=
  match v with
  | JObj fields => forallb (fun kv => bool_decide (kv.1 ∈ pr_name <$> l)) fields && forallb (property_ok fields) l
  | _ => false
  end.

#[export] Instance validator : Validator := { v_holds := holds; pipe_accepts := accepts }.

Lemma text_and_true P v : text_and P v = true -> exists s, v = JStr s /\ P s = true.
Proof. destruct v; try done. eauto. Qed.

Lemma property_ok_iff fields p : property_ok fields p = true <-> property_holds fields p.
Proof.
  unfold property_ok, property_holds. cbn [v_holds validator].
  assert (Hall : forall v, forallb (fun d => holds d v) (pr_decorators p) = true <->
    forall d, d ∈ pr_decorators p -> holds d v = true).
  { intros v. rewrite forallb_forall. by setoid_rewrite list_elem_of_In. }
  destruct (field (pr_name p) fields) as [v |].
  - rewrite orb_true_iff, andb_true_iff, Hall. split.
    + intros [[Ho Hv] | Hd]; [left; split; [done | right; by destruct v] | right; eauto].
    + intros [[Ho [| Hv]] | (v' & [= <-] & Hd)]; [done | left; by injection Hv as -> | by right].
  - split; [intros Ho; left; auto | intros [[Ho _] | (v & ? & _)]; done].
Qed.

#[export] Instance laws : ValidatorLaws.
Proof.
  split; cbn [v_holds pipe_accepts validator holds].
  - intros d v Hv Hd. rewrite list_elem_of_In in Hd. cbn in Hd.
    destruct Hd as [<- | [<- | [<- | [<- | [<- | []]]]]]; apply text_and_true in Hv as (s & -> & _); eauto.
  - intros v Hv. by destruct v as [| | | | [] | | |].
  - intros n v (s & -> & Hs%Nat.leb_le)%text_and_true. eauto.
  - intros n v. split; [intros (s & -> & Hs%Nat.leb_le)%text_and_true; eauto |].
    intros (s & -> & Hs). by apply Nat.leb_le.
  - intros p v (s & -> & Hs)%text_and_true. eauto.
  - intros v Hv. destruct v; try done. eauto.
  - intros m z. apply Z.leb_le.
  - intros m z. apply Z.leb_le.
  - intros d v Hv [-> | ->]; cbn in Hv; destruct v; try done; eauto.
  - intros l v (s & -> & Hs)%text_and_true. apply bool_decide_eq_true in Hs. eauto.
  - intros l fields. unfold accepts. rewrite andb_true_iff, !forallb_forall. split; intros [Hk Hp]; split.
    + intros kv Hkv. rewrite list_elem_of_In in Hkv. specialize (Hk kv Hkv). by apply bool_decide_eq_true in Hk.
    + apply List.Forall_forall. intros p Hin. by apply property_ok_iff, Hp.
    + intros kv Hkv. apply bool_decide_eq_true, Hk. by rewrite list_elem_of_In.
    + intros p Hin. apply property_ok_iff. by apply (proj1 (List.Forall_forall _ _) Hp).
Qed.

Definition table_body : list (string * json) :=
  [("organizerId", JStr "3f2504e0-4f89-41d3-9a0c-0305e82c3301"); ("label", JStr "T1");
        ("seatCount", JNum 4); ("status", JNull)].

(** An explicit null passes for an optional field, and a coordinate may be text. *)
Example null_accepted : pipe_accepts UpdateEventRequestDto (JObj [("visibility", JNull); ("latitude", JStr "5.6")]) = true.
Proof. vm_run. Qed.
Example unknown_refused : pipe_accepts LogoutDto (JObj [("sessionId", JStr "s1")]) = false.
Proof. vm_run. Qed.
Example weak_password_refused : pipe_accepts SignupDto
  (JObj [("email", JStr "a@b.test"); ("password", JStr "password1"); ("deviceId", JStr "d")]) = false.
Proof. vm_run. Qed.

End DtoExample.

#[local] Existing Instance DtoExample.validator.
#[local] Existing Instance DtoExample.laws.

Lemma accepted_body_typed_witness : well_typed (dto_type DCreateVenueTable) DtoExample.table_body.
Proof. apply (accepted_body_typed DCreateVenueTable). vm_run. Defined.

Lemma signed_up_logs_in_witness :
  pipe_accepts LoginDto (JObj (login_body "Ama@Example.com" "Passw0rd" "phone")) = true /\
  exists res' w'', login (H := plain_crypto) (H0 := plain_auth) "secret" (AuthExample.draws "2") 2000
    " AMA@example.com " "Passw0rd" "tablet" AuthExample.req AuthExample.w1 = (Ok res', w'') /\
    res_userId res' = "user1".
Proof.
  destruct (signed_up_logs_in (H := DtoExample.validator) (H1 := plain_crypto) plain_auth_sound "secret"
    (login_body "Ama@Example.com" "Passw0rd" "phone") (AuthExample.draws "1") 1000
    "Ama@Example.com" "Passw0rd" "phone" AuthExample.req empty_world AuthExample.signed_up AuthExample.w1
    ltac:(vm_run) eq_refl eq_refl eq_refl AuthExample.signup_run) as [Hpipe Hlogin]. split.
  - apply Hpipe. apply Nat.leb_le. reflexivity.
  - destruct (Hlogin (AuthExample.draws "2") 2000 " AMA@example.com " "tablet" AuthExample.req
      ltac:(reflexivity) ltac:(vm_run)) as (res' & w'' & E & Hu & _).
    exists res', w''. split; [exact E | exact Hu].
Defined.
