(* ===== verification/Wiring.v ===== *)
(** Wiring.v: the modules of the application (the *.module.ts files of src/src): what each
    imports, provides and exports, with the parameters of the constructors, and that the
    framework can build it all.

    [ConfigService] is another name of AppConfigService; SharedAuthModule also exports the
    framework's PassportModule, which provides nothing.  IdentityModule is imported by
    none.  The rules are those the framework documents: a dependency is found among the
    providers of the module, the exports of a module it imports, or the exports of a
    global module, and everything is built after what it needs. *)

From S2P Require Import Prelude.

Local Open Scope nat_scope.

(* ------------------------------------------------------------------ *)
(** ** Modules as data                                                  *)

(** What a dependency is asked for by: a class, a symbol of the source, or a string.
    The classes of shared/auth that bear the name of one of src/auth are prefixed. *)
Inductive token : Type := Cls (name : string) | Sym (name : string) | Str (name : string).

#[export] Instance token_eq_dec : EqDecision token.
Proof. solve_decision. Defined.

Inductive recipe : Type := UseClass (name : string) | UseExisting | UseValue | UseFactory.

(** A provider, a controller, or a guard or middleware one brings: its recipe and the
    parameters of its constructor or factory; optional ones may be missing. *)
Record provider : Type := {
  pv_token : token;
  pv_recipe : recipe;
  pv_needs : list token;
  pv_optional : list token
}.

Definition class (name : string) (constructor : list token) : provider :=
  {| pv_token := Cls name; pv_recipe := UseClass name; pv_needs := constructor; pv_optional := [] |}.
Definition class_optional (name : string) (constructor : list token) : provider :=
  {| pv_token := Cls name; pv_recipe := UseClass name; pv_needs := []; pv_optional := constructor |}.
Definition use_class (t : token) (name : string) (constructor : list token) : provider :=
  {| pv_token := t; pv_recipe := UseClass name; pv_needs := constructor; pv_optional := [] |}.
Definition use_existing (t existing : token) : provider :=
  {| pv_token := t; pv_recipe := UseExisting; pv_needs := [existing]; pv_optional := [] |}.
Definition use_value (t : token) : provider :=
  {| pv_token := t; pv_recipe := UseValue; pv_needs := []; pv_optional := [] |}.
Definition use_factory (t : token) (inject : list token) : provider :=
  {| pv_token := t; pv_recipe := UseFactory; pv_needs := inject; pv_optional := [] |}.

Record module_decl : Type := {
  md_name : string;
  md_global : bool;
  md_imports : list string;
  md_providers : list provider;
  md_controllers : list provider;
  md_injectables : list provider;
  md_exports : list token
}.

(* ------------------------------------------------------------------ *)
(** ** The modules                                                      *)

Definition ContextModule : module_decl :=
  {| md_name := "ContextModule";
     md_global := true;
     md_imports := [];
     md_providers :=
       [class "RequestContextService" [];
        class "RequestContextMiddleware" [Cls "RequestContextService"]];
     md_controllers := [];
     md_injectables := [];
     md_exports := [Cls "RequestContextService"; Cls "RequestContextMiddleware"] |}.

Definition ConfigModule : module_decl :=
  {| md_name := "ConfigModule";
     md_global := true;
     md_imports := [];
     md_providers :=
       [class "AppConfigService" []];
     md_controllers := [];
     md_injectables := [];
     md_exports := [Cls "AppConfigService"] |}.

Definition LoggingModule : module_decl :=
  {| md_name := "LoggingModule";
     md_global := true;
     md_imports := ["ContextModule"];
     md_providers :=
       [class "AppLoggerService" [Cls "RequestContextService"];
        class "LoggingInterceptor" [Cls "AppLoggerService"; Cls "RequestContextService"]];
     md_controllers := [];
     md_injectables := [];
     md_exports := [Cls "AppLoggerService"; Cls "LoggingInterceptor"] |}.

Definition TelemetryModule : module_decl :=
  {| md_name := "TelemetryModule";
     md_global := true;
     md_imports := ["ConfigModule"; "ContextModule"];
     md_providers :=
       [class "TelemetryService" [Cls "AppConfigService"];
        class "TimingInterceptor" [Cls "TelemetryService"; Cls "RequestContextService"]];
     md_controllers :=
       [class "MetricsController" [Cls "TelemetryService"]];
     md_injectables := [];
     md_exports := [Cls "TelemetryService"; Cls "TimingInterceptor"] |}.

Definition PrismaModule : module_decl :=
  {| md_name := "PrismaModule";
     md_global := true;
     md_imports := [];
     md_providers :=
       [class "PrismaService" [];
        class "TransactionRunnerService" [Cls "PrismaService"]];
     md_controllers := [];
     md_injectables := [];
     md_exports := [Cls "PrismaService"; Cls "TransactionRunnerService"] |}.

Definition UsersModule : module_decl :=
  {| md_name := "UsersModule";
     md_global := false;
     md_imports := ["PrismaModule"];
     md_providers :=
       [class "UsersService" [Cls "PrismaService"]];
     md_controllers := [];
     md_injectables := [];
     md_exports := [Cls "UsersService"] |}.

Definition RedisModule : module_decl :=
  {| md_name := "RedisModule";
     md_global := true;
     md_imports := [];
     md_providers :=
       [use_factory (Str "REDIS_CLIENT") [Cls "AppConfigService"];
        class "RedisService" [Str "REDIS_CLIENT"];
        class "NonceCacheService" [Str "REDIS_CLIENT"];
        class "AdmissionCacheService" [Str "REDIS_CLIENT"];
        use_existing (Str "NONCE_CACHE_SERVICE") (Cls "NonceCacheService");
        use_existing (Str "ADMISSION_CACHE_SERVICE") (Cls "AdmissionCacheService")];
     md_controllers := [];
     md_injectables := [];
     md_exports := [Str "REDIS_CLIENT"; Cls "RedisService"; Cls "NonceCacheService";
        Cls "AdmissionCacheService"; Str "NONCE_CACHE_SERVICE"; Str "ADMISSION_CACHE_SERVICE"] |}.

Definition SharedAuthModule : module_decl :=
  {| md_name := "SharedAuthModule";
     md_global := true;
     md_imports := ["ConfigModule"; "PassportModule"];
     md_providers :=
       [class "SharedJwtStrategy" [Cls "AppConfigService"];
        class "SharedJwtAuthGuard" [Cls "RequestContextService"];
        class "SharedPermissionsGuard" [Cls "Reflector"]];
     md_controllers := [];
     md_injectables := [];
     md_exports := [Cls "SharedJwtStrategy"; Cls "SharedJwtAuthGuard"; Cls "SharedPermissionsGuard"] |}.

Definition IdentityAuthModule : module_decl :=
  {| md_name := "IdentityAuthModule";
     md_global := false;
     md_imports := ["PrismaModule"; "UsersModule"; "PassportModule"; "JwtModule"];
     md_providers :=
       [class "AuthService" [Cls "UsersService"; Cls "PasswordService"; Cls "TokenService";
           Cls "SessionService"; Cls "AuthAuditService"];
        class "PasswordService" [];
        class "TokenService" [Cls "JwtService"; Cls "AppConfigService"];
        class "SessionService" [Cls "PrismaService"; Cls "AuthAuditService"];
        class "AuthAuditService" [Cls "PrismaService"];
        class "AccessTokenStrategy" [Cls "SessionService"; Cls "AppConfigService"];
        class "JwtAuthGuard" [Cls "Reflector"; Cls "RequestContextService"];
        class "RolesGuard" [Cls "Reflector"];
        class "PermissionsGuard" [Cls "Reflector"]];
     md_controllers :=
       [class "AuthController" [Cls "AuthService"]];
     md_injectables :=
       [class "JwtAuthGuard" [Cls "Reflector"; Cls "RequestContextService"];
        class "RolesGuard" [Cls "Reflector"];
        class "PermissionsGuard" [Cls "Reflector"]];
     md_exports := [Cls "AuthService"; Cls "JwtAuthGuard"; Cls "RolesGuard"; Cls "PermissionsGuard"] |}.

Definition IdempotencyModule : module_decl :=
  {| md_name := "IdempotencyModule";
     md_global := true;
     md_imports := ["PrismaModule"];
     md_providers :=
       [class "IdempotencyService" [];
        use_class (Sym "IDEMPOTENCY_REPOSITORY") "PrismaIdempotencyRepository" []];
     md_controllers := [];
     md_injectables := [];
     md_exports := [Cls "IdempotencyService"; Sym "IDEMPOTENCY_REPOSITORY"] |}.

Definition OutboxModule : module_decl :=
  {| md_name := "OutboxModule";
     md_global := true;
     md_imports := ["PrismaModule"];
     md_providers :=
       [class "OutboxService" [Cls "TransactionRunnerService"; Cls "TelemetryService"; Cls "OutboxProcessor";
           Sym "OUTBOX_REPOSITORY"];
        class "OutboxProcessor" [Cls "OutboxClaimRepository"; Cls "AppLoggerService"; Cls "TelemetryService";
           Sym "OUTBOX_DISPATCHER"];
        class "OutboxClaimRepository" [Cls "PrismaService"];
        use_value (Sym "OUTBOX_DISPATCHER");
        use_class (Sym "OUTBOX_REPOSITORY") "PrismaOutboxRepository" []];
     md_controllers := [];
     md_injectables := [];
     md_exports := [Cls "OutboxService"; Cls "OutboxProcessor"; Sym "OUTBOX_REPOSITORY";
        Sym "OUTBOX_DISPATCHER"] |}.

Definition ErrorsModule : module_decl :=
  {| md_name := "ErrorsModule";
     md_global := true;
     md_imports := [];
     md_providers :=
       [class "GlobalExceptionFilter" [Cls "RequestContextService"]];
     md_controllers := [];
     md_injectables := [];
     md_exports := [Cls "GlobalExceptionFilter"] |}.

Definition HealthModule : module_decl :=
  {| md_name := "HealthModule";
     md_global := false;
     md_imports := [];
     md_providers :=
       [class "HealthService" [Cls "DatabaseHealthCheck"; Cls "RedisHealthCheck"; Cls "RollbackHealthCheck";
           Cls "BuildMetadataService"];
        class "DatabaseHealthCheck" [Cls "PrismaService"];
        class_optional "RedisHealthCheck" [Cls "RedisService"];
        class "RollbackHealthCheck" [];
        class "BuildMetadataService" []];
     md_controllers :=
       [class "HealthController" [Cls "HealthService"]];
     md_injectables := [];
     md_exports := [] |}.

Definition AdminSupportModule : module_decl :=
  {| md_name := "AdminSupportModule";
     md_global := false;
     md_imports := ["IdentityAuthModule"; "PrismaModule"];
     md_providers :=
       [class "AdminSupportService" [Cls "AdminSupportRepository"; Cls "AdminSupportAuditService";
           Cls "AdminSupportRedactionService"];
        class "AdminSupportRepository" [Cls "PrismaService"];
        class "AdminSupportAuditService" [Cls "AdminSupportRepository"; Cls "AdminSupportRedactionService"];
        class "AdminSupportRedactionService" []];
     md_controllers :=
       [class "AdminSupportController" [Cls "AdminSupportService"]];
     md_injectables :=
       [class "JwtAuthGuard" [Cls "Reflector"; Cls "RequestContextService"];
        class "PermissionsGuard" [Cls "Reflector"]];
     md_exports := [] |}.

Definition OrganizersModule : module_decl :=
  {| md_name := "OrganizersModule";
     md_global := false;
     md_imports := ["IdentityAuthModule"; "PrismaModule"; "LoggingModule"; "TelemetryModule"];
     md_providers :=
       [class "OrganizersService" [Sym "ORGANIZER_REPOSITORY"];
        use_class (Sym "ORGANIZER_REPOSITORY") "PrismaOrganizerRepository" [Cls "PrismaService"]];
     md_controllers :=
       [class "OrganizersController" [Cls "OrganizersService"]];
     md_injectables :=
       [class "JwtAuthGuard" [Cls "Reflector"; Cls "RequestContextService"];
        class "PermissionsGuard" [Cls "Reflector"]];
     md_exports := [Cls "OrganizersService"; Sym "ORGANIZER_REPOSITORY"] |}.

Definition EventsModule : module_decl :=
  {| md_name := "EventsModule";
     md_global := false;
     md_imports := ["IdentityAuthModule"; "OrganizersModule"; "PrismaModule"; "LoggingModule";
        "TelemetryModule"];
     md_providers :=
       [class "EventsService" [Sym "EVENT_REPOSITORY"; Cls "OrganizersService"];
        use_class (Sym "EVENT_REPOSITORY") "PrismaEventRepository" [Cls "PrismaService"]];
     md_controllers :=
       [class "EventsController" [Cls "EventsService"]];
     md_injectables :=
       [class "JwtAuthGuard" [Cls "Reflector"; Cls "RequestContextService"];
        class "PermissionsGuard" [Cls "Reflector"]];
     md_exports := [Cls "EventsService"; Sym "EVENT_REPOSITORY"] |}.

Definition TablesModule : module_decl :=
  {| md_name := "TablesModule";
     md_global := false;
     md_imports := ["IdentityAuthModule"; "OrganizersModule"; "EventsModule"; "PrismaModule"; "LoggingModule";
        "TelemetryModule"];
     md_providers :=
       [class "TablesRepository" [Cls "PrismaService"];
        class "TableReservationsRepository" [Cls "PrismaService"];
        class "TableAuditService" [Cls "PrismaService"];
        class "TableIdempotencyService" [];
        class "TableReservationsService" [Cls "TransactionRunnerService"; Cls "AppConfigService";
           Cls "TablesRepository"; Cls "TableReservationsRepository"; Cls "TableAuditService";
           Cls "TableIdempotencyService"];
        class "TablesService" [Cls "TransactionRunnerService"; Cls "TablesRepository"; Cls "OrganizersService";
           Cls "EventsService"; Cls "TableAuditService"; Cls "TableReservationsService"]];
     md_controllers :=
       [class "TablesController" [Cls "TablesService"; Cls "TableReservationsService"]];
     md_injectables :=
       [class "JwtAuthGuard" [Cls "Reflector"; Cls "RequestContextService"];
        class "PermissionsGuard" [Cls "Reflector"]];
     md_exports := [Cls "TablesRepository"; Cls "TableReservationsRepository"; Cls "TableAuditService";
        Cls "TableIdempotencyService"; Cls "TableReservationsService"; Cls "TablesService"] |}.

Definition AuditModule : module_decl :=
  {| md_name := "AuditModule";
     md_global := false;
     md_imports := ["PrismaModule"; "LoggingModule"; "TelemetryModule"];
     md_providers :=
       [class "AppendAuditLogUseCase" [];
        use_class (Sym "AUDIT_LOG_REPOSITORY") "PrismaAuditLogRepository" []];
     md_controllers := [];
     md_injectables := [];
     md_exports := [Cls "AppendAuditLogUseCase"; Sym "AUDIT_LOG_REPOSITORY"] |}.

Definition InventoryModule : module_decl :=
  {| md_name := "InventoryModule";
     md_global := false;
     md_imports := ["PrismaModule"; "RedisModule"; "LoggingModule"; "TelemetryModule"; "OutboxModule";
        "AuditModule"];
     md_providers :=
       [class "ReserveInventoryUseCase" [Cls "TransactionRunnerService"; Cls "RequestContextService";
           Sym "INVENTORY_REPOSITORY"; Sym "RESERVATION_REPOSITORY"; Sym "AUDIT_LOG_REPOSITORY";
           Sym "OUTBOX_REPOSITORY"];
        class "ReleaseExpiredReservationUseCase" [Cls "TransactionRunnerService"; Sym "INVENTORY_REPOSITORY";
           Sym "RESERVATION_REPOSITORY"];
        class "ReconcileInventoryDriftUseCase" [Cls "TransactionRunnerService"; Sym "INVENTORY_REPOSITORY";
           Sym "RESERVATION_REPOSITORY"];
        class "SweepExpiredReservationsUseCase" [Cls "TransactionRunnerService"; Cls "AppLoggerService";
           Cls "TelemetryService"; Sym "INVENTORY_REPOSITORY"; Sym "RESERVATION_REPOSITORY";
           Sym "AUDIT_LOG_REPOSITORY"; Sym "OUTBOX_REPOSITORY"];
        use_class (Sym "INVENTORY_REPOSITORY") "PrismaInventoryRepository" [];
        use_class (Sym "RESERVATION_REPOSITORY") "PrismaReservationRepository" []];
     md_controllers := [];
     md_injectables := [];
     md_exports := [Cls "ReserveInventoryUseCase"; Cls "ReleaseExpiredReservationUseCase";
        Cls "ReconcileInventoryDriftUseCase"; Cls "SweepExpiredReservationsUseCase"; Sym "INVENTORY_REPOSITORY";
        Sym "RESERVATION_REPOSITORY"] |}.

Definition LaunchControlModule : module_decl :=
  {| md_name := "LaunchControlModule";
     md_global := false;
     md_imports := ["ConfigModule"; "PrismaModule"];
     md_providers :=
       [class "LaunchControlService" [Cls "AppConfigService"; Cls "PrismaService"]];
     md_controllers := [];
     md_injectables := [];
     md_exports := [Cls "LaunchControlService"] |}.

Definition OrdersModule : module_decl :=
  {| md_name := "OrdersModule";
     md_global := false;
     md_imports := ["IdentityAuthModule"; "PrismaModule"; "RedisModule"; "LoggingModule"; "TelemetryModule";
        "LaunchControlModule"; "IdempotencyModule"; "OutboxModule"; "InventoryModule"; "AuditModule"];
     md_providers :=
       [class "CreateOrderUseCase" [Cls "TransactionRunnerService"; Cls "RequestContextService";
           Cls "LaunchControlService"; Sym "ORDER_REPOSITORY"; Sym "RESERVATION_REPOSITORY";
           Sym "IDEMPOTENCY_REPOSITORY"; Sym "AUDIT_LOG_REPOSITORY"; Sym "OUTBOX_REPOSITORY"];
        class "ExpireOrderUseCase" [];
        class "CompleteOrderUseCase" [];
        use_class (Sym "ORDER_REPOSITORY") "PrismaOrderRepository" []];
     md_controllers :=
       [class "CheckoutController" [Cls "CreateOrderUseCase"]];
     md_injectables :=
       [class "JwtAuthGuard" [Cls "Reflector"; Cls "RequestContextService"]];
     md_exports := [Cls "CreateOrderUseCase"; Cls "ExpireOrderUseCase"; Cls "CompleteOrderUseCase";
        Sym "ORDER_REPOSITORY"] |}.

Definition PaymentsModule : module_decl :=
  {| md_name := "PaymentsModule";
     md_global := false;
     md_imports := ["IdentityAuthModule"; "ConfigModule"; "PrismaModule"; "RedisModule"; "LoggingModule";
        "TelemetryModule"; "LaunchControlModule"; "IdempotencyModule"; "OutboxModule"; "OrdersModule";
        "EventsModule"; "AuditModule"; "UsersModule"];
     md_providers :=
       [class "PaymentsService" [Cls "TransactionRunnerService"; Cls "RequestContextService";
           Cls "LaunchControlService"; Cls "UsersService"; Sym "EVENT_REPOSITORY";
           Sym "PAYMENT_INTENT_REPOSITORY"; Sym "PAYMENT_INTENT_AUDIT_LOG_REPOSITORY"; Sym "PAYSTACK_PROVIDER";
           Sym "MOMO_PROVIDER"];
        class "PaymentVerificationService" [Cls "AppConfigService"; Cls "TransactionRunnerService";
           Cls "ProviderVerificationRegistry"; Cls "WebhookSignatureService"; Sym "PAYMENT_INTENT_REPOSITORY";
           Sym "PAYMENT_INTENT_AUDIT_LOG_REPOSITORY"; Sym "PROVIDER_WEBHOOK_EVENT_REPOSITORY"];
        class "InitiatePaymentUseCase" [Cls "PaymentsService"];
        class "GetPaymentIntentUseCase" [Cls "PaymentsService"];
        class "VerifyPaymentUseCase" [Cls "TransactionRunnerService"; Cls "RequestContextService";
           Sym "PAYMENT_REPOSITORY"; Sym "LEDGER_REPOSITORY"; Sym "PAYSTACK_PROVIDER"; Sym "MOMO_PROVIDER";
           Sym "ORDER_REPOSITORY"; Sym "AUDIT_LOG_REPOSITORY"; Sym "OUTBOX_REPOSITORY"];
        class "HandlePaymentWebhookUseCase" [Cls "PaymentVerificationService"];
        class "RefundPaymentUseCase" [Sym "PAYSTACK_PROVIDER"; Sym "MOMO_PROVIDER"];
        class "PaystackAdapter" [Cls "AppConfigService"];
        class "MomoAdapter" [Cls "AppConfigService"];
        use_existing (Sym "PAYSTACK_PROVIDER") (Cls "PaystackAdapter");
        use_existing (Sym "MOMO_PROVIDER") (Cls "MomoAdapter");
        class "PaystackVerificationAdapter" [Cls "AppConfigService"];
        class "MtnMomoVerificationAdapter" [Cls "AppConfigService"];
        class "ProviderVerificationRegistry" [Cls "PaystackVerificationAdapter";
           Cls "MtnMomoVerificationAdapter"];
        class "WebhookSignatureService" [];
        use_class (Sym "PAYMENT_REPOSITORY") "PrismaPaymentRepository" [];
        use_class (Sym "LEDGER_REPOSITORY") "PrismaLedgerRepository" [];
        use_class (Sym "PAYMENT_INTENT_REPOSITORY") "PrismaPaymentIntentRepository" [Cls "PrismaService"];
        use_class (Sym "PAYMENT_INTENT_AUDIT_LOG_REPOSITORY") "PrismaPaymentIntentAuditLogRepository" [Cls "PrismaService"];
        use_class (Sym "PROVIDER_WEBHOOK_EVENT_REPOSITORY") "PrismaProviderWebhookEventRepository" [Cls "PrismaService"]];
     md_controllers :=
       [class "PaymentsController" [Cls "InitiatePaymentUseCase"; Cls "GetPaymentIntentUseCase"];
        class "PaymentWebhooksController" [Cls "HandlePaymentWebhookUseCase"]];
     md_injectables :=
       [class "JwtAuthGuard" [Cls "Reflector"; Cls "RequestContextService"];
        class "PermissionsGuard" [Cls "Reflector"]];
     md_exports := [Cls "PaymentsService"; Cls "PaymentVerificationService"; Cls "InitiatePaymentUseCase";
        Cls "GetPaymentIntentUseCase"; Cls "VerifyPaymentUseCase"; Cls "HandlePaymentWebhookUseCase";
        Cls "RefundPaymentUseCase"; Cls "PaystackVerificationAdapter"; Cls "MtnMomoVerificationAdapter";
        Cls "ProviderVerificationRegistry"; Cls "WebhookSignatureService"; Sym "PAYSTACK_PROVIDER";
        Sym "MOMO_PROVIDER"; Sym "PAYMENT_REPOSITORY"; Sym "LEDGER_REPOSITORY"; Sym "PAYMENT_INTENT_REPOSITORY";
        Sym "PAYMENT_INTENT_AUDIT_LOG_REPOSITORY"; Sym "PROVIDER_WEBHOOK_EVENT_REPOSITORY"] |}.

Definition TicketsSharedModule : module_decl :=
  {| md_name := "TicketsSharedModule";
     md_global := true;
     md_imports := [];
     md_providers :=
       [class "TicketReferenceGeneratorService" [];
        class "DefaultTicketReferenceAllocatorService" [Cls "TicketReferenceGeneratorService"];
        use_existing (Str "TICKET_REFERENCE_GENERATOR") (Cls "TicketReferenceGeneratorService")];
     md_controllers := [];
     md_injectables := [];
     md_exports := [Str "TICKET_REFERENCE_GENERATOR"; Cls "TicketReferenceGeneratorService";
        Cls "DefaultTicketReferenceAllocatorService"] |}.

Definition TicketsModule : module_decl :=
  {| md_name := "TicketsModule";
     md_global := false;
     md_imports := ["IdentityAuthModule"; "PrismaModule"; "LoggingModule"; "TelemetryModule"; "OutboxModule";
        "AuditModule"; "OrdersModule"; "InventoryModule"; "TicketsSharedModule"; "PaymentsModule";
        "EventsModule"];
     md_providers :=
       [class "IssueTicketsUseCase" [Cls "TransactionRunnerService"; Cls "RequestContextService";
           Sym "ORDER_REPOSITORY"; Sym "INVENTORY_REPOSITORY"; Sym "RESERVATION_REPOSITORY";
           Sym "TICKET_REPOSITORY"; Cls "DefaultTicketReferenceAllocatorService"; Sym "AUDIT_LOG_REPOSITORY";
           Sym "OUTBOX_REPOSITORY"];
        class "InvalidateTicketUseCase" [];
        class "TicketsService" [Sym "TICKET_REPOSITORY"];
        class "TicketIssuanceService" [Cls "TransactionRunnerService"; Cls "TicketTokenService";
           Sym "TICKET_REPOSITORY"; Sym "PAYMENT_INTENT_REPOSITORY"; Sym "EVENT_REPOSITORY"];
        class "TicketTokenService" [];
        use_class (Sym "TICKET_REPOSITORY") "PrismaTicketRepository" [Cls "PrismaService"];
        use_existing (Sym "TICKET_REFERENCE_GENERATOR") (Cls "TicketReferenceGeneratorService")];
     md_controllers :=
       [class "TicketsController" [Cls "TicketsService"]];
     md_injectables :=
       [class "JwtAuthGuard" [Cls "Reflector"; Cls "RequestContextService"];
        class "PermissionsGuard" [Cls "Reflector"]];
     md_exports := [Cls "IssueTicketsUseCase"; Cls "InvalidateTicketUseCase"; Cls "TicketsService";
        Cls "TicketIssuanceService"; Cls "TicketTokenService"; Sym "TICKET_REPOSITORY";
        Sym "TICKET_REFERENCE_GENERATOR"; Cls "TicketsService"; Cls "TicketIssuanceService";
        Cls "TicketTokenService"] |}.

Definition SecurityModule : module_decl :=
  {| md_name := "SecurityModule";
     md_global := true;
     md_imports := ["ConfigModule"];
     md_providers :=
       [class "SignatureKeyStoreService" [Cls "AppConfigService"];
        class "QrTokenVerifierService" [Cls "SignatureKeyStoreService"];
        use_existing (Str "QR_TOKEN_VERIFIER") (Cls "QrTokenVerifierService")];
     md_controllers := [];
     md_injectables := [];
     md_exports := [Str "QR_TOKEN_VERIFIER"; Cls "QrTokenVerifierService"; Cls "SignatureKeyStoreService"] |}.

Definition AdmissionsModule : module_decl :=
  {| md_name := "AdmissionsModule";
     md_global := false;
     md_imports := ["IdentityAuthModule"; "PrismaModule"; "RedisModule"; "LoggingModule"; "TelemetryModule";
        "LaunchControlModule"; "TicketsModule"; "AuditModule"; "SecurityModule"];
     md_providers :=
       [class "AdmissionsService" [Cls "TransactionRunnerService"; Cls "AdmissionAuditService";
           Cls "TicketTokenService"; Sym "TICKET_REPOSITORY"];
        class "AdmissionAuditService" [Sym "ADMISSION_REPOSITORY"];
        class "ValidateAdmissionScanUseCase" [Cls "AdmissionsService"];
        use_class (Sym "ADMISSION_REPOSITORY") "PrismaAdmissionRepository" [Cls "PrismaService"];
        use_class (Sym "ADMISSION_EVENT_REPOSITORY") "PrismaAdmissionEventRepository" [];
        use_existing (Sym "QR_TOKEN_VERIFIER") (Cls "QrTokenVerifierService")];
     md_controllers :=
       [class "AdmissionsController" [Cls "AdmissionsService"]];
     md_injectables :=
       [class "JwtAuthGuard" [Cls "Reflector"; Cls "RequestContextService"];
        class "PermissionsGuard" [Cls "Reflector"]];
     md_exports := [Cls "AdmissionsService"; Cls "AdmissionAuditService"; Cls "ValidateAdmissionScanUseCase";
        Sym "ADMISSION_REPOSITORY"; Sym "ADMISSION_EVENT_REPOSITORY"; Sym "QR_TOKEN_VERIFIER"] |}.

Definition OfflineSyncModule : module_decl :=
  {| md_name := "OfflineSyncModule";
     md_global := false;
     md_imports := ["SharedAuthModule"; "PrismaModule"; "LoggingModule"; "TelemetryModule"];
     md_providers :=
       [class "IngestOfflineScanBatchUseCase" [];
        class "ReconcileOfflineScansUseCase" []];
     md_controllers := [];
     md_injectables := [];
     md_exports := [Cls "IngestOfflineScanBatchUseCase"; Cls "ReconcileOfflineScansUseCase"] |}.

Definition FraudModule : module_decl :=
  {| md_name := "FraudModule";
     md_global := false;
     md_imports := ["PrismaModule"; "RedisModule"; "LoggingModule"; "TelemetryModule"];
     md_providers :=
       [class "FlagSuspiciousEventUseCase" [];
        class "ScoreDeviceRiskUseCase" [];
        class "ScoreTicketRiskUseCase" []];
     md_controllers := [];
     md_injectables := [];
     md_exports := [Cls "FlagSuspiciousEventUseCase"; Cls "ScoreDeviceRiskUseCase";
        Cls "ScoreTicketRiskUseCase"] |}.

Definition NotificationsModule : module_decl :=
  {| md_name := "NotificationsModule";
     md_global := false;
     md_imports := ["ConfigModule"; "LoggingModule"; "TelemetryModule"; "OutboxModule"];
     md_providers :=
       [class "SendEmailNotificationUseCase" [];
        class "SendSmsNotificationUseCase" [];
        class "SendPushNotificationUseCase" []];
     md_controllers := [];
     md_injectables := [];
     md_exports := [Cls "SendEmailNotificationUseCase"; Cls "SendSmsNotificationUseCase";
        Cls "SendPushNotificationUseCase"] |}.

Definition RealtimeModule : module_decl :=
  {| md_name := "RealtimeModule";
     md_global := false;
     md_imports := ["SharedAuthModule"; "RedisModule"; "LoggingModule"; "TelemetryModule"];
     md_providers :=
       [class "PublishAdmissionUpdateUseCase" [];
        class "PublishEventMetricsUseCase" [];
        class "PublishFraudAlertUseCase" [];
        class "AdmissionsGateway" [];
        class "EventsGateway" [];
        class "OrganizerDashboardGateway" [];
        class "FraudAlertsGateway" []];
     md_controllers := [];
     md_injectables := [];
     md_exports := [Cls "PublishAdmissionUpdateUseCase"; Cls "PublishEventMetricsUseCase";
        Cls "PublishFraudAlertUseCase"; Cls "AdmissionsGateway"; Cls "EventsGateway";
        Cls "OrganizerDashboardGateway"; Cls "FraudAlertsGateway"] |}.

Definition AppModule : module_decl :=
  {| md_name := "AppModule";
     md_global := false;
     md_imports := ["ContextModule"; "ConfigModule"; "LoggingModule"; "TelemetryModule"; "PrismaModule";
        "UsersModule"; "RedisModule"; "SharedAuthModule"; "IdentityAuthModule"; "IdempotencyModule";
        "OutboxModule"; "ErrorsModule"; "HealthModule"; "AdminSupportModule"; "OrganizersModule";
        "EventsModule"; "TablesModule"; "InventoryModule"; "OrdersModule"; "PaymentsModule"; "TicketsModule";
        "AdmissionsModule"; "OfflineSyncModule"; "FraudModule"; "AuditModule"; "NotificationsModule";
        "RealtimeModule"];
     md_providers :=
       [class "CorrelationInterceptor" [Cls "RequestContextService"];
        use_existing (Sym "APP_FILTER") (Cls "GlobalExceptionFilter")];
     md_controllers := [];
     md_injectables :=
       [class "RequestContextMiddleware" [Cls "RequestContextService"]; class "RawBodyMiddleware" []];
     md_exports := [] |}.

Definition application : list module_decl :=
  [ContextModule; ConfigModule; LoggingModule; TelemetryModule;
   PrismaModule; UsersModule; RedisModule; SharedAuthModule; IdentityAuthModule; IdempotencyModule;
   OutboxModule; ErrorsModule; HealthModule; AdminSupportModule; OrganizersModule; EventsModule; TablesModule;
   AuditModule; InventoryModule; LaunchControlModule; OrdersModule; PaymentsModule; TicketsSharedModule;
   TicketsModule; SecurityModule; AdmissionsModule; OfflineSyncModule; FraudModule; NotificationsModule;
   RealtimeModule; AppModule].

(* ------------------------------------------------------------------ *)
(** ** The rules of the framework                                       *)

(** A provider of the application, by its module and token. *)
Definition node : Type := string * token.

Section Rules.
Context (ms : list module_decl).

Definition owns (m : module_decl) (t : token) : bool := existsb (fun p => bool_decide (pv_token p = t)) (md_providers m).

Definition offers (m : module_decl) (t : token) : bool := bool_decide (t ∈ md_exports m) && owns m t.

(** What a need of module [m] is met by. *)
Inductive resolves (m : module_decl) (t : token) : node -> Prop :=
| resolves_own : owns m t = true -> resolves m t (md_name m, t)
| resolves_import m' :
    m' ∈ ms -> md_name m' ∈ md_imports m -> offers m' t = true -> resolves m t (md_name m', t)
| resolves_global m' : m' ∈ ms -> md_global m' = true -> offers m' t = true -> resolves m t (md_name m', t).

Definition home (m : module_decl) (t : token) : option node :=
  if owns m t then Some (md_name m, t)
  else match List.find (fun m' => bool_decide (md_name m' ∈ md_imports m) && offers m' t) ms with
       | Some m' => Some (md_name m', t)
       | None =>
           match List.find (fun m' => md_global m' && offers m' t) ms with
           | Some m' => Some (md_name m', t)
           | None => None
           end
       end.

Lemma home_resolves m t n : home m t = Some n -> resolves m t n.
Proof.
  unfold home. destruct (owns m t) eqn:Ho; [intros [= <-]; by constructor |].
  destruct (List.find _ ms) as [m' |] eqn:Hf.
  - intros [= <-]. apply find_some in Hf as [Hin [Hn Hoff]%andb_true_iff].
    apply bool_decide_eq_true in Hn. apply resolves_import; [by apply list_elem_of_In | done | done].
  - destruct (List.find (fun m' => md_global m' && _) ms) as [m' |] eqn:Hg; [| done]. intros [= <-].
    apply find_some in Hg as [Hin [Hn Hoff]%andb_true_iff].
    apply resolves_global; [by apply list_elem_of_In | done | done].
Qed.

(** A provider comes after what it needs, but for what the framework gives. *)
Definition met_before (given : module_decl -> token -> Prop) (order : list node) (mp : module_decl * provider) : Prop :=
  exists before after, order = before ++ (md_name mp.1, pv_token mp.2) :: after /\
    forall t, t ∈ pv_needs mp.2 -> given mp.1 t \/ exists d, resolves mp.1 t d /\ d ∈ before.

(** The needs the framework itself meets. *)
Context (framework : module_decl -> token -> bool).

Definition met (m : module_decl) (built : list node) (p : provider) : bool :=
  forallb (fun t => framework m t ||
    match home m t with Some d => bool_decide (d ∈ built) | None => false end) (pv_needs p).

Definition node_of (mp : module_decl * provider) : node := (md_name mp.1, pv_token mp.2).

(** Build in rounds whatever has its needs built; [None] when a round builds nothing. *)
Fixpoint boot (fuel : nat) (built : list node) (pending : list (module_decl * provider)) : option (list node) :=
  match pending, fuel with
  | [], _ => Some built
  | _, O => None
  | _, S fuel =>
      let '(ready, rest) := List.partition (fun mp => met mp.1 built mp.2) pending in
      match ready with
      | [] => None
      | _ => boot fuel (built ++ (node_of <$> ready)) rest
      end
  end.

Lemma met_spec m built p t : met m built p = true -> t ∈ pv_needs p ->
  framework m t = true \/ exists d, resolves m t d /\ d ∈ built.
Proof.
  unfold met. rewrite forallb_forall. intros Hall Ht. specialize (Hall t (proj1 (list_elem_of_In _ _) Ht)).
  apply orb_true_iff in Hall as [Hf | Hh]; [by left | right].
  destruct (home m t) as [d |] eqn:Hd; [| done]. exists d. split; [by apply home_resolves |].
  by apply bool_decide_eq_true in Hh.
Qed.

Lemma partition_elem {A} (f : A -> bool) l x : forall l1 l2, List.partition f l = (l1, l2) -> x ∈ l ->
  (x ∈ l1 /\ f x = true) \/ x ∈ l2.
Proof.
  induction l as [| y l IH]; cbn; intros l1 l2; [intros _ Hx; by apply elem_of_nil in Hx |].
  destruct (List.partition f l) as [g h]. destruct (f y) eqn:Hy; intros [= <- <-] [-> | Hx]%elem_of_cons.
  - left. split; [by apply list_elem_of_here | done].
  - destruct (IH g h eq_refl Hx) as [[Hg Hf] | Hh]; [left; split; [by apply list_elem_of_further | done] | by right].
  - right. by apply list_elem_of_here.
  - destruct (IH g h eq_refl Hx) as [Hg | Hh]; [by left | right; by apply list_elem_of_further].
Qed.

(** What it returns extends what was built, every pending provider placed after its
    needs. *)
Lemma boot_sound fuel : forall built pending order, boot fuel built pending = Some order ->
  (exists more, order = built ++ more) /\ forall mp, mp ∈ pending -> met_before (fun m t => framework m t = true) order mp.
Proof.
  induction fuel as [| fuel IH]; intros built [| mp0 pending] order; cbn [boot]; try done;
    try (intros [= <-]; split; [exists []; by rewrite app_nil_r | intros mp Hmp; by apply elem_of_nil in Hmp]).
  destruct (List.partition _ (mp0 :: pending)) as [ready rest] eqn:Hpart.
  destruct ready as [| r0 ready]; [done |]. intros Hboot.
  destruct (IH _ _ _ Hboot) as [[more ->] Hrest]. split; [exists ((node_of <$> r0 :: ready) ++ more); by rewrite app_assoc |].
  intros mp Hmp. destruct (partition_elem _ _ mp _ _ Hpart Hmp) as [[Hready Hmet] | Hin]; [| by apply Hrest].
  apply list_elem_of_split in Hready as (l1 & l2 & Hl). exists (built ++ (node_of <$> l1)), ((node_of <$> l2) ++ more).
  split; [by rewrite Hl, fmap_app, fmap_cons, <- !app_assoc |].
  intros t Ht. destruct (met_spec _ _ _ t Hmet Ht) as [Hf | (d & Hd & Hin)]; [by left | right].
  exists d. split; [done |]. apply elem_of_app. by left.
Qed.

End Rules.

(* ------------------------------------------------------------------ *)
(** ** The application                                                  *)

(** The providers of all modules, with the controllers and what they bring. *)
Definition providers_of (ms : list module_decl) : list (module_decl * provider) :=
  ms ≫= fun m => pair m <$> md_providers m.

Definition hosted (m : module_decl) : list provider := md_controllers m ++ md_injectables m.

(** What the framework provides: [Reflector] everywhere, [JwtService] where its module is
    imported. *)
Definition framework (m : module_decl) (t : token) : bool :=
  bool_decide (t = Cls "Reflector") || (bool_decide (t = Cls "JwtService") && bool_decide ("JwtModule" ∈ md_imports m)).

(** The imports the framework's own modules are not. *)
Definition framework_modules : list string := ["PassportModule"; "JwtModule"].

Definition well_wired (ms : list module_decl) : bool :=
  forallb (fun m => forallb (fun i => bool_decide (i ∈ framework_modules ++ (md_name <$> ms))) (md_imports m) &&
    forallb (owns m) (md_exports m) &&
    forallb (fun p => forallb (fun t => framework m t || bool_decide (is_Some (home ms m t))) (pv_needs p)) (hosted m)) ms &&
  bool_decide (NoDup (md_name <$> ms)) && bool_decide (NoDup (node_of <$> providers_of ms)) &&
  match boot ms framework (List.length (providers_of ms)) [] (providers_of ms) with
  | Some order => bool_decide (NoDup order)
  | None => false
  end.

Lemma application_well_wired : well_wired application = true.
Proof. vm_run. Qed.

Lemma providers_of_spec ms m p : (m, p) ∈ providers_of ms <-> m ∈ ms /\ p ∈ md_providers m.
Proof.
  unfold providers_of. rewrite list_elem_of_bind. split.
  - intros (m' & (p' & [= -> ->] & Hp)%list_elem_of_fmap & Hm). done.
  - intros [Hm Hp]. exists m. split; [by apply list_elem_of_fmap_2 | done].
Qed.

(** What meets a need is a provider of the application. *)
Lemma resolves_provider ms m t d : m ∈ ms -> resolves ms m t d ->
  exists m' p, m' ∈ ms /\ p ∈ md_providers m' /\ d = (md_name m', pv_token p).
Proof.
  assert (Howns : forall m' : module_decl, owns m' t = true -> exists p, p ∈ md_providers m' /\ pv_token p = t).
  { intros m' (p & Hp & Ht)%existsb_exists. exists p. split; [by apply list_elem_of_In | by apply bool_decide_eq_true in Ht]. }
  intros Hm [Ho | m' Hm' _ [_ Ho]%andb_true_iff | m' Hm' _ [_ Ho]%andb_true_iff];
    destruct (Howns _ Ho) as (p & Hp & <-); eauto.
Qed.

(** The check is sound. *)
Lemma well_wired_builds ms (given : module_decl -> token -> Prop) :
  well_wired ms = true -> (forall m t, framework m t = true -> given m t) ->
  exists order, NoDup order /\
    (forall m p, m ∈ ms -> p ∈ md_providers m -> met_before ms given order (m, p)) /\
    (forall m p t, m ∈ ms -> p ∈ hosted m -> t ∈ pv_needs p ->
       given m t \/ exists d, resolves ms m t d /\ d ∈ order).
Proof.
  unfold well_wired. intros Hwired Hgiven.
  rewrite !andb_true_iff in Hwired. destruct Hwired as [[[Hhosted _] _] Hboot].
  destruct (boot _ _ _ _ _) as [order |] eqn:Horder; [| done]. apply bool_decide_eq_true in Hboot.
  destruct (boot_sound _ _ _ _ _ _ Horder) as [_ Hsound].
  assert (Hplaced : forall m p, m ∈ ms -> p ∈ md_providers m -> met_before ms given order (m, p)).
  { intros m p Hm Hp. destruct (Hsound (m, p)) as (before & after & Hord & Hneeds); [by apply providers_of_spec |].
    exists before, after. split; [done |]. intros t Ht. destruct (Hneeds t Ht); auto. }
  exists order. split; [done |]. split; [done |]. intros m p t Hm Hp Ht.
  rewrite forallb_forall in Hhosted. specialize (Hhosted m (proj1 (list_elem_of_In _ _) Hm)).
  rewrite !andb_true_iff, !forallb_forall in Hhosted. destruct Hhosted as [_ Hhost].
  specialize (Hhost p (proj1 (list_elem_of_In _ _) Hp)). rewrite forallb_forall in Hhost.
  specialize (Hhost t (proj1 (list_elem_of_In _ _) Ht)).
  apply orb_true_iff in Hhost as [Hf | Hh]; [left; by apply Hgiven | right].
  apply bool_decide_eq_true in Hh as [d Hd]. apply home_resolves in Hd. exists d. split; [done |].
  destruct (resolves_provider _ _ _ _ Hm Hd) as (m' & p' & Hm' & Hp' & ->).
  destruct (Hplaced m' p' Hm' Hp') as (before & after & -> & _). apply elem_of_app. right. by apply list_elem_of_here.
Qed.

(* ------------------------------------------------------------------ *)
(** ** Properties                                                       *)

(** The framework can build the application, given only the two services it brings
    itself. There is an order in which every provider of every module is built once, each
    after all that its constructor asks for, found in its module, the exports of an
    imported module or of a global one (so nothing is missing and nothing is circular);
    and all that a controller, a guard or a middleware asks for is among them. *)
Theorem application_builds (given : module_decl -> token -> Prop)
    (Hreflector : forall m, given m (Cls "Reflector"))
    (Hjwt : forall m, "JwtModule" ∈ md_imports m -> given m (Cls "JwtService")) :
  exists order, NoDup order /\
    (forall m p, m ∈ application -> p ∈ md_providers m -> met_before application given order (m, p)) /\
    (forall m p t, m ∈ application -> p ∈ hosted m -> t ∈ pv_needs p ->
       given m t \/ exists d, resolves application m t d /\ d ∈ order).
Proof.
  apply well_wired_builds; [exact application_well_wired |].
  intros m t [->%bool_decide_eq_true | [->%bool_decide_eq_true Hi%bool_decide_eq_true]%andb_true_iff]%orb_true_iff; auto.
Qed.

Lemma application_builds_witness : exists order : list node, NoDup order /\
  met_before application (fun m t => framework m t = true) order (OutboxModule, use_value (Sym "OUTBOX_DISPATCHER")).
Proof.
  destruct (application_builds (fun m t => framework m t = true)) as (order & Hnd & Hplaced & _).
  - reflexivity.
  - intros m Hm. unfold framework. by rewrite (bool_decide_eq_true_2 ("JwtModule" ∈ md_imports m)), orb_true_iff; [right | ].
  - exists order. split; [exact Hnd |]. apply Hplaced.
    + do 10 apply list_elem_of_further. apply list_elem_of_here.
    + do 3 apply list_elem_of_further. apply list_elem_of_here.
Defined.
